(* ===== verification/_CoqProject ===== *)
-Q . S2P
Prelude.v
PyStr.v
PyVal.v
Utils.v
HostGlob.v
Cache.v
Dependency.v
Location.v
Resource.v
IpAddr.v
ServiceName.v
PyText.v
Resolver.v
BaseMapping.v
Sha1.v
HTTPMapping.v
HealthChecks.v
Cluster.v
TCPMapping.v
Group.v
Config.v
Fetch.v
FetchService.v
FetchIngress.v
Fetcher.v
FetchOnce.v
FetchLoad.v
FetchPorts.v
FetchRoutes.v
IR.v
Listener.v
LogService.v
Filters.v
AmbassadorModule.v
Secret.v
TLSContext.v
Host.v
V3Route.v
V3TLS.v
V3HTTPConfig.v
V3Cluster.v
V3Filters.v
V3Listener.v
V3VirtualHost.v
ReconfigStats.v
