(* ===== verification/Prelude.v ===== *)
(** * Emissary-ingress: a verification development

    Emissary turns Kubernetes resources (Mappings, Hosts, resolvers, ...) into
    an Envoy configuration.  The Python program under
    [src/python/ambassador/src/ambassador] does so in stages: [fetch] reads
    resources, [config] groups them, [ir] builds an intermediate representation
    (the IR) of Mappings, groups and clusters, and [envoy] writes it out.  A
    cache carries IR objects from one configuration to the next, so that a
    change of a few Mappings is applied incrementally.  This development
    models the IR's path from a configured Mapping to its group and cluster,
    with the cache and the utilities on the way, and the Listeners, Hosts, TLS
    contexts and secrets that decide where a group is served, and the Envoy
    listeners with the virtual hosts, routes and TLS settings that are written
    for them.

    ** Conventions

    A Python [str] is a [string] of code points below 256.  A dictionary is an
    insertion-ordered association list ([dict]); a value of unknown type is a
    [pyval].  A resource is the dictionary of its attributes, as in
    [resource.py].  Code that can raise returns [res], with the exceptions the
    code raises; errors that are posted, not raised, are a list in the result,
    as texts or as values of an error type that carries what the text prints.
    Where the program shares mutable objects ([Group.v], [IR.v]) they live in a
    store and are referred to by location.  Log messages are not modelled.

    The parts of Python's library that the code uses are modelled: strings and
    stable sorting ([PyStr.v], [Prelude.v]), dictionaries, truth values and
    equality ([PyVal.v]), the text of a value ([PyText.v]), [ipaddress]
    ([IpAddr.v]), [urllib.parse] ([ServiceName.v]), base64 and UTF-8
    ([Secret.v]) and SHA-1 ([Sha1.v], with its test vectors).

    ** Files

    - [Utils.v]: [strtobool] and [parse_bool] of [utils.py].
    - [HostGlob.v]: [ir/irutils.py].  Glob matching is proved against the set of
      host names a glob denotes, label selection against inclusion.
    - [Cache.v]: [cache.py].  [invalidate] ends and deletes exactly what is
      linked; the invariant of all reachable caches; the interface [CacheOps]
      with its laws [CacheLaws], satisfied by [Cache] and [NullCache], against
      which [IR.v] is proved.
    - [Dependency.v]: [fetch/dependency.py].  The traversal is a topological
      order, for every iteration order of Python's sets.
    - [Location.v]: [fetch/location.py].  Blocks are balanced unless they raise.
    - [Resource.v]: [resource.py] and [ir/irresource.py]; the order in which
      defaults are looked up.
    - [IpAddr.v]: [envoy/v3/v3cidrrange.py] and [ir/iripallowdeny.py].
    - [ServiceName.v]: [normalize_service_name] of [ir/irbasemapping.py] and
      [ParsedService] of [utils.py], on services as they are usually written.
    - [Resolver.v]: [ir/irserviceresolver.py]; the default resolvers are usable
      whatever is configured.
    - [BaseMapping.v]: [ir/irbasemapping.py], and the weights of
      [ir/irbasemappinggroup.py].
    - [HTTPMapping.v]: [ir/irhttpmapping.py], with [ir/ircors.py] and
      [ir/irretrypolicy.py].  [TCPMapping.v]: [ir/irtcpmapping.py].
    - [HealthChecks.v]: [ir/irhealthchecks.py].
    - [Cluster.v]: [ir/ircluster.py] and the IR's operations on clusters.  The
      shape of every constructed cluster, construction for ordinary services,
      and merging.
    - [Group.v]: [ir/irhttpmappinggroup.py] and [ir/irtcpmappinggroup.py] over
      the store, and [IR.add_mapping].  Groups stay well-formed.
    - [IR.v]: [check_deltas], [ordered_groups] and the cluster naming of
      [ir/ir.py], and [ir/irmappingfactory.py].  Incremental changes leave no
      changed Mapping in the cache, groups are ordered by weight, and Envoy
      names are short and distinct.
    - [Listener.v]: [ir/irlistener.py] and the IR's Listeners.  Active Listeners
      are well-formed, every TCP group has a Listener, and HTTP/3 companions
      are marked.
    - [Secret.v]: the secrets of [utils.py] and of the IR, over a file system
      that maps paths to contents.  Decoding inverts base64, files hold what
      they should, and lookups answer the secret that is meant.
    - [TLSContext.v]: [ir/irtlscontext.py], the contexts made in [ir/irtls.py]
      and their resolution in [ir/irambassador.py].  Resolved contexts are
      usable.
    - [Host.v]: [ir/irhost.py].  Which groups a Host takes, against the globs
      and labels they denote, and that there is always a Host.
    - [V3Route.v]: [envoy/v3/v3route.py] and [envoy/v3/v3ratelimitaction.py].
      Read by Envoy's rules for matching a request, the routes of a group split
      its traffic by the weights and send exactly the requests they should; the
      cache changes no route, and a variant serves only its protocol.
    - [LogService.v]: [ir/irlogservice.py].
    - [V3TLS.v]: [envoy/v3/v3tls.py].  What is written for every setting of a
      TLS context.
    - [V3HTTPConfig.v]: the access logs and the base HTTP configuration of
      [envoy/v3/v3listener.py].
    - [V3Listener.v]: the rest of [envoy/v3/v3listener.py], from the Hosts and
      groups of a Listener to its filter chains.  The chains are well-formed:
      a chain is owned by one TCP group or by Hosts of one TLS context.
    - [V3VirtualHost.v]: what the listeners that are written serve.  The virtual
      hosts hold the routes of a reference definition; by Envoy's rules a
      Host that rejects or redirects cleartext never routes it, secure
      requests are routed, and every Host a Listener accepts is served.
    - [ReconfigStats.v]: [reconfig_stats.py].  The counters refine the history
      of reconfigurations, which alone decides when a check is due.

    Some theorems record behaviour that is not intended; they say so.

    ** Bounds

    Loops that are not structural carry fuel that is shown to suffice: the
    worklist of [invalidate] (one more than the number of links), the queue of
    [traverse] (the number of vertices) and [unique_mapping_name] (one more
    than the names taken).  [round_div] is Python's [round] of a quotient of
    integers below 2^40, and [ms_text] the decimal text of milliseconds in
    seconds below 2^52.  Envoy's matching of a request against a route is a
    specification, with its regular expressions a parameter.  Percent-escapes
    in a service that decode to bytes outside ASCII have no result in
    [normalize_service_name].  The idle timeout of a Listener is an integer.

    ** Not modelled

    The Ambassador module (other than its default labels and the resolution of
    TLS contexts), authentication, rate limiting and tracing services, the
    Envoy writers except listeners, routes, TLS contexts and CIDR ranges, and
    the fetchers except their ordering and locations.  The HTTP filters as
    they are written for Envoy are an argument of the listeners.  The checking
    that a file exists, the loading of a secret that is not configured, and the
    iteration order of a set are parameters.  The Go programs, the web server,
    generated API types, charts and tests are outside the development. *)

From stdpp Require Export base tactics option list gmap strings sorting pretty relations.
From Stdlib Require Export ZArith Lia.

(** ** Python exceptions and fallible results

    Code that can raise returns [res A]; the exception carries the Python
    class and, where the code builds one, the message. *)

Inductive exn : Type :=
  | KeyError (key : string)
  | AttributeError (attr : string)
  | IndexError
  | TypeError
  | ValueError (msg : string)
  | AssertionError (msg : string)
  | RuntimeError (msg : string)
  | PyException (msg : string).

#[export] Instance exn_eq_dec : EqDecision exn.
Proof. solve_decision. Defined.

Inductive res (A : Type) : Type :=
  | Ok (a : A)
  | Raise (e : exn).
Arguments Ok {A} a.
Arguments Raise {A} e.

#[export] Instance res_eq_dec {A} `{EqDecision A} : EqDecision (res A).
Proof. solve_decision. Defined.

#[export] Instance res_ret : MRet res := λ A a, Ok a.
#[export] Instance res_bind : MBind res := λ A B f m,
  match m with Ok a => f a | Raise e => Raise e end.
#[export] Instance res_fmap : FMap res := λ A B f m,
  match m with Ok a => Ok (f a) | Raise e => Raise e end.

Definition res_of_option {A} (e : exn) (o : option A) : res A :=
  match o with Some a => Ok a | None => Raise e end.

Definition is_Ok {A} (r : res A) : bool :=
  match r with Ok _ => true | Raise _ => false end.

Lemma res_bind_Ok {A B} (f : A → res B) m b :
  (m ≫= f) = Ok b ↔ ∃ a, m = Ok a ∧ f a = Ok b.
Proof. destruct m; naive_solver. Qed.

Lemma res_of_option_Ok {A} e (o : option A) a :
  res_of_option e o = Ok a ↔ o = Some a.
Proof. destruct o; naive_solver. Qed.

(** ** Tactics

    [res_inv] opens successful runs in hypotheses; [case_bool] turns the
    decided conditions of the code into propositions. *)

Ltac res_inv :=
  repeat match goal with
  | H : (_ ≫= _) = Ok _ |- _ =>
      apply res_bind_Ok in H; destruct H as (? & ? & H)
  | H : res_of_option _ _ = Ok _ |- _ => apply res_of_option_Ok in H
  | H : Ok _ = Ok _ |- _ => injection H as H
  | H : Raise _ = Ok _ |- _ => discriminate H
  | H : Ok _ = Raise _ |- _ => discriminate H
  | H : mret _ = _ |- _ => unfold mret, res_ret in H
  end; try subst.

(** [bind_step H as x Hx] opens one bind of a successful run [H]. *)
Tactic Notation "bind_step" hyp(H) "as" simple_intropattern(x) ident(Hx) :=
  apply res_bind_Ok in H; destruct H as (x & Hx & H).

Tactic Notation "case_bool" "as" ident(H) :=
  match goal with
  | |- context [bool_decide ?P] => destruct (bool_decide_reflect P) as [H|H]
  | _ : context [bool_decide ?P] |- _ => destruct (bool_decide_reflect P) as [H|H]
  end.
Tactic Notation "case_bool" := let H := fresh "Hb" in case_bool as H.

Ltac split_and_all := repeat match goal with |- _ ∧ _ => split end.

(** ** Stable sorting by a key, as Python's [sorted(l, key=...)] *)

Section stable_sort.
Context {A K : Type} (leK : K → K → bool) (key : A → K).

Fixpoint sort_insert (x : A) (l : list A) : list A :=
  match l with
  | [] => [x]
  | y :: l' => if leK (key x) (key y) then x :: l else y :: sort_insert x l'
  end.

Definition py_sorted (l : list A) : list A := foldr sort_insert [] l.

Lemma sort_insert_perm x l : sort_insert x l ≡ₚ x :: l.
Proof.
  induction l as [|y l IH]; simpl; [done|].
  destruct (leK _ _); [done|]. rewrite IH. apply Permutation_swap.
Qed.

Lemma py_sorted_perm l : py_sorted l ≡ₚ l.
Proof. induction l as [|x l IH]; simpl; [done|]. by rewrite sort_insert_perm, IH. Qed.

Lemma elem_of_py_sorted x l : x ∈ py_sorted l ↔ x ∈ l.
Proof. by rewrite py_sorted_perm. Qed.

Lemma length_py_sorted l : length (py_sorted l) = length l.
Proof. apply Permutation_length, py_sorted_perm. Qed.

Definition key_le (x y : A) : Prop := leK (key x) (key y) = true.

Lemma sort_insert_sorted x l :
  (∀ a b, leK a b = true ∨ leK b a = true) →
  Sorted key_le l → Sorted key_le (sort_insert x l).
Proof.
  intros Htot. induction l as [|y l IH]; simpl; intros Hs; [by repeat constructor|].
  destruct (leK (key x) (key y)) eqn:E; [constructor; [done|by constructor]|].
  assert (Hyx : key_le y x) by (unfold key_le; destruct (Htot (key x) (key y)); congruence).
  apply Sorted_inv in Hs as [Hs Hhd]. constructor; [by apply IH|].
  destruct l as [|z l]; simpl; [by constructor|].
  destruct (leK (key x) (key z)); [by constructor|]. constructor. by inversion Hhd.
Qed.

Lemma py_sorted_sorted l :
  (∀ a b, leK a b = true ∨ leK b a = true) → Sorted key_le (py_sorted l).
Proof. intros Htot. induction l; simpl; [by constructor|by apply sort_insert_sorted]. Qed.
End stable_sort.

(** ** Lists *)

Lemma fold_left_preserves {A B} (P : A → Prop) (f : A → B → A) l a :
  P a → (∀ a b, b ∈ l → P a → P (f a b)) → P (fold_left f l a).
Proof.
  revert a. induction l as [|b l IH]; intros a Ha Hf; simpl; [done|].
  apply IH; [apply Hf; [left|done]|]. intros a' b' Hb'. apply Hf. by right.
Qed.

Lemma existsb_elem_of {A} (f : A → bool) l : existsb f l = true ↔ ∃ x, x ∈ l ∧ f x = true.
Proof.
  rewrite existsb_exists. split; intros (x & Hx & ?); exists x;
    (split; [|done]); by apply list_elem_of_In.
Qed.

Lemma forallb_elem_of {A} (f : A → bool) l : forallb f l = true ↔ ∀ x, x ∈ l → f x = true.
Proof. rewrite forallb_forall. setoid_rewrite list_elem_of_In. done. Qed.

Lemma StronglySorted_lookup_lt {A} (R : relation A) l i j x y :
  StronglySorted R l → l !! i = Some x → l !! j = Some y → i < j → R x y.
Proof.
  intros Hs. revert i j. induction Hs as [|a l _ IH Ha]; intros i j; [done|].
  destruct i as [|i], j as [|j]; cbn; try lia.
  - intros [= ->] Hy _. rewrite Forall_forall in Ha. by eapply Ha, list_elem_of_lookup_2.
  - intros Hx Hy Hij. eapply IH; eauto. lia.
Qed.

(** Two duplicate-free lists with the same selected members select as many,
    and one more when there is one more. *)
Section filter_count.
Context {A : Type} (P Q : A → Prop) `{!∀ x, Decision (P x)} `{!∀ x, Decision (Q x)}.

Lemma filter_length_ext l1 l2 :
  NoDup l1 → NoDup l2 → (∀ x, x ∈ l1 ∧ P x ↔ x ∈ l2 ∧ Q x) →
  length (filter P l1) = length (filter Q l2).
Proof.
  intros H1 H2 Hx. apply Permutation_length, NoDup_Permutation; [by apply NoDup_filter..|].
  intros x. rewrite !list_elem_of_filter. specialize (Hx x). tauto.
Qed.

Lemma filter_ext_in (l : list A) : (∀ x, x ∈ l → P x ↔ Q x) → filter P l = filter Q l.
Proof.
  induction l as [|x l IH]; intros Hx; [done|]. rewrite !filter_cons.
  rewrite IH by (intros y Hy; apply Hx; by right).
  destruct (decide (P x)) as [HP|HP], (decide (Q x)) as [HQ|HQ]; try done;
    exfalso; specialize (Hx x (list_elem_of_here _ _)); tauto.
Qed.

Lemma filter_length_S a l1 l2 :
  NoDup l1 → NoDup l2 → ¬ (a ∈ l1 ∧ P a) →
  (∀ x, x ∈ l2 ∧ Q x ↔ x = a ∨ (x ∈ l1 ∧ P x)) →
  length (filter Q l2) = S (length (filter P l1)).
Proof.
  intros H1 H2 Ha Hx. change (S (length (filter P l1))) with (length (a :: filter P l1)).
  apply Permutation_length, NoDup_Permutation; [by apply NoDup_filter|..].
  - apply NoDup_cons. rewrite list_elem_of_filter. split; [tauto|by apply NoDup_filter].
  - intros x. rewrite elem_of_cons, !list_elem_of_filter. specialize (Hx x). tauto.
Qed.
End filter_count.

(** A finite nonempty set in which every element has a predecessor in the set
    contains a cycle. *)
Section cycle.
Context {A : Type} `{!EqDecision A} (E : relation A).

Fixpoint path (l : list A) : Prop :=
  match l with
  | a :: (b :: _) as l' => E a b ∧ path l'
  | _ => True
  end.

Lemma path_app_r l1 l2 : path (l1 ++ l2) → path l2.
Proof.
  induction l1 as [|a l1 IH]; [done|]. simpl. destruct (l1 ++ l2) eqn:He; [|by intros [_ ?%IH]].
  destruct l1, l2; done.
Qed.

Lemma path_tc l x y : path (x :: l) → y ∈ l → tc E x y.
Proof.
  revert x. induction l as [|b l IH]; intros x; [set_solver|].
  intros [Hxb Hp] [->|Hy]%elem_of_cons; [by apply tc_once|].
  eapply tc_l; [done|]. by apply IH.
Qed.

Lemma path_dup_cycle l : path l → ¬ NoDup l → ∃ x, tc E x x.
Proof.
  induction l as [|a l IH]; intros Hp Hn; [destruct Hn; constructor|].
  destruct (decide (a ∈ l)) as [Ha|Ha]; [exists a; by eapply path_tc|].
  apply IH; [by apply (path_app_r [a])|]. contradict Hn. by constructor.
Qed.

Lemma finite_cycle (S : list A) x0 :
  x0 ∈ S → (∀ v, v ∈ S → ∃ a, a ∈ S ∧ E a v) → ∃ v, tc E v v.
Proof.
  intros Hx0 Hpred.
  assert (Hlong : ∀ n, ∃ a l, length l = n ∧ path (a :: l) ∧ ∀ z, z ∈ a :: l → z ∈ S).
  { induction n as [|n (a & l & Hl & Hp & Hin)]; [exists x0, []; set_solver|].
    destruct (Hpred a (Hin a (list_elem_of_here _ _))) as (b & Hb & Hba).
    exists b, (a :: l). split; [simpl; by rewrite Hl|]. split; [done|].
    intros z [->|Hz]%elem_of_cons; auto. }
  destruct (Hlong (length S)) as (a & l & Hl & Hp & Hin).
  apply (path_dup_cycle (a :: l)); [done|]. intros Hnd.
  pose proof (submseteq_length _ _ (NoDup_submseteq _ S Hnd Hin)) as Hlen. simpl in Hlen. lia.
Qed.
End cycle.

Lemma rtc_closed {A} (Q : relation A) (P : A → Prop) x y :
  (∀ a b, P a → Q a b → P b) → rtc Q x y → P x → P y.
Proof. intros Hc Hr. induction Hr; eauto. Qed.

Create HintDb emissary.
#[export] Hint Rewrite @res_bind_Ok @res_of_option_Ok : emissary.
#[export] Hint Resolve elem_of_py_sorted : emissary.
