(* ===== verification/PyStr.v ===== *)
(** * Python strings

    The part of Python's [str] the configuration compiler uses.  A [str] is
    a [string]: a sequence of code points below 256.  Every function below is
    the Python method of the same name; a function that can raise returns
    [res]. *)

From S2P Require Import Prelude.
From Stdlib Require Export Ascii.
Open Scope stdpp_scope.

Definition code (c : ascii) : Z := Z.of_N (N_of_ascii c).

(** The character with a given code point, for those that have no literal. *)
Definition chr (n : Z) : ascii := ascii_of_N (Z.to_N n).

Definition str1 (c : ascii) : string := String c EmptyString.

(** The double quote, which a literal cannot hold. *)
Definition dquote : string := str1 (chr 34).

(** ** Prefixes, suffixes, substrings *)

Fixpoint startswith (s p : string) {struct p} : bool :=
  match p, s with
  | EmptyString, _ => true
  | String a p', String b s' => bool_decide (a = b) && startswith s' p'
  | String _ _, EmptyString => false
  end.

Fixpoint endswith (s p : string) : bool :=
  bool_decide (s = p) ||
  match s with String _ s' => endswith s' p | EmptyString => false end.

(** [sub in s] *)
Fixpoint contains (s sub : string) : bool :=
  startswith s sub ||
  match s with String _ s' => contains s' sub | EmptyString => false end.

Fixpoint mem_char (c : ascii) (s : string) : bool :=
  match s with
  | EmptyString => false
  | String a s' => bool_decide (a = c) || mem_char c s'
  end.

(** [s.find(sub)]: the index of the first occurrence, or -1. *)
Fixpoint find_from (i : Z) (s sub : string) : Z :=
  if startswith s sub then i else
  match s with String _ s' => find_from (i + 1) s' sub | EmptyString => -1 end.
Definition find (s sub : string) : Z := find_from 0 s sub.

(** ** Slices *)

(** [s[n:]], [s[:n]] and [s[:-1]] *)
Fixpoint drop_str (n : nat) (s : string) : string :=
  match n, s with
  | O, _ => s
  | S n', String _ s' => drop_str n' s'
  | S _, EmptyString => EmptyString
  end.
Fixpoint take_str (n : nat) (s : string) : string :=
  match n, s with
  | S n', String a s' => String a (take_str n' s')
  | _, _ => EmptyString
  end.
Fixpoint init_str (s : string) : string :=
  match s with
  | EmptyString => EmptyString
  | String _ EmptyString => EmptyString
  | String a s' => String a (init_str s')
  end.
Definition slen (s : string) : nat := String.length s.

(** [s[0]] and [s[-1]], which raise on the empty string *)
Definition head_str (s : string) : res ascii :=
  match s with EmptyString => Raise IndexError | String a _ => Ok a end.
Fixpoint last_str (s : string) : res ascii :=
  match s with
  | EmptyString => Raise IndexError
  | String a EmptyString => Ok a
  | String _ s' => last_str s'
  end.

(** ** Case *)

Definition lower_char (c : ascii) : ascii :=
  let n := code c in
  if bool_decide (65 ≤ n ≤ 90)%Z then chr (n + 32)
  else if bool_decide (192 ≤ n ≤ 222 ∧ n ≠ 215)%Z then chr (n + 32)
  else c.
Fixpoint lower (s : string) : string :=
  match s with EmptyString => EmptyString | String a s' => String (lower_char a) (lower s') end.

Definition upper_char (c : ascii) : ascii :=
  let n := code c in
  if bool_decide (97 ≤ n ≤ 122)%Z then chr (n - 32) else c.
(** [s.upper()] on the ASCII letters. *)
Fixpoint upper (s : string) : string :=
  match s with EmptyString => EmptyString | String a s' => String (upper_char a) (upper s') end.

(** ** Splitting and joining *)

(** [s.split(c)] *)
Fixpoint split_go (c : ascii) (cur : string) (s : string) : list string :=
  match s with
  | EmptyString => [cur]
  | String a s' =>
      if bool_decide (a = c) then cur :: split_go c EmptyString s'
      else split_go c (cur +:+ str1 a) s'
  end.
Definition split (c : ascii) (s : string) : list string := split_go c EmptyString s.

(** [s.split(c, 1)] when [c in s]: the part before the first [c] and the rest. *)
Fixpoint split1 (c : ascii) (s : string) : option (string * string) :=
  match s with
  | EmptyString => None
  | String a s' =>
      if bool_decide (a = c) then Some (EmptyString, s')
      else '(l, r) ← split1 c s'; Some (String a l, r)
  end.

(** [s.rsplit(c, 1)] when [c in s]: the part before the last [c] and the rest. *)
Fixpoint rsplit1 (c : ascii) (s : string) : option (string * string) :=
  match s with
  | EmptyString => None
  | String a s' =>
      match rsplit1 c s' with
      | Some (l, r) => Some (String a l, r)
      | None => if bool_decide (a = c) then Some (EmptyString, s') else None
      end
  end.

(** [sep.join(l)] *)
Fixpoint join (sep : string) (l : list string) : string :=
  match l with
  | [] => EmptyString
  | [x] => x
  | x :: l' => x +:+ sep +:+ join sep l'
  end.

Fixpoint map_str (f : ascii → ascii) (s : string) : string :=
  match s with EmptyString => EmptyString | String a s' => String (f a) (map_str f s') end.

(** [s.lstrip(chars)] *)
Fixpoint lstrip (chars : string) (s : string) : string :=
  match s with
  | EmptyString => EmptyString
  | String a s' => if mem_char a chars then lstrip chars s' else s
  end.

Fixpoint all_chars (f : ascii → bool) (s : string) : bool :=
  match s with EmptyString => true | String a s' => f a && all_chars f s' end.

(** ** Truth and integers *)

Definition str_bool (s : string) : bool :=
  match s with EmptyString => false | String _ _ => true end.

Definition is_digit (c : ascii) : bool := bool_decide (48 ≤ code c ≤ 57)%Z.

Definition is_space (c : ascii) : bool :=
  let n := code c in
  bool_decide (9 ≤ n ≤ 13 ∨ 28 ≤ n ≤ 32 ∨ n = 133 ∨ n = 160)%Z.

Fixpoint lstrip_space (s : string) : string :=
  match s with
  | EmptyString => EmptyString
  | String a s' => if is_space a then lstrip_space s' else s
  end.
Fixpoint rstrip_space (s : string) : string :=
  match s with
  | EmptyString => EmptyString
  | String a s' =>
      match rstrip_space s' with
      | EmptyString => if is_space a then EmptyString else str1 a
      | t => String a t
      end
  end.
Definition strip (s : string) : string := rstrip_space (lstrip_space s).

(** The digits of an [int] literal: single underscores may separate digits.
    [prev] says that the previous character was a digit. *)
Fixpoint digits_val (prev : bool) (acc : Z) (s : string) : option Z :=
  match s with
  | EmptyString => if prev then Some acc else None
  | String a s' =>
      if is_digit a then digits_val true (acc * 10 + (code a - 48)) s'
      else if bool_decide (code a = 95%Z) && prev then
        match s' with
        | String b _ => if is_digit b then digits_val false acc s' else None
        | EmptyString => None
        end
      else None
  end.

(** [int(s)]; [None] is the [ValueError]. *)
Definition py_int (s : string) : option Z :=
  match strip s with
  | String a s' =>
      if bool_decide (code a = 45%Z) then Z.opp <$> digits_val false 0 s'
      else if bool_decide (code a = 43%Z) then digits_val false 0 s'
      else digits_val false 0 (String a s')
  | EmptyString => None
  end.

(** [str(n)] *)
Definition str_of_int (n : Z) : string := pretty n.

(** [str <= str], Python's comparison by code points *)
Definition str_le (a b : string) : bool := String.leb a b.
Definition str_lt (a b : string) : bool := String.ltb a b.

(** ** Lemmas *)

Lemma app_empty_l s : EmptyString +:+ s = s.
Proof. done. Qed.

Lemma app_cons a s t : String a s +:+ t = String a (s +:+ t).
Proof. done. Qed.

Lemma app_empty_r s : s +:+ EmptyString = s.
Proof. induction s as [|a s IH]; [done|]. by rewrite app_cons, IH. Qed.

Lemma app_assoc_str s t u : s +:+ (t +:+ u) = (s +:+ t) +:+ u.
Proof. induction s as [|a s IH]; [done|]. by rewrite !app_cons, IH. Qed.

Lemma slen_app s t : slen (s +:+ t) = slen s + slen t.
Proof. induction s as [|a s IH]; [done|]. rewrite app_cons. unfold slen in *. simpl. lia. Qed.

Lemma slen_cons a s : slen (String a s) = S (slen s).
Proof. done. Qed.

Lemma slen_0 s : slen s = 0 ↔ s = EmptyString.
Proof. destruct s; done. Qed.

Lemma startswith_spec s p : startswith s p = true ↔ ∃ t, s = p +:+ t.
Proof.
  revert s. induction p as [|a p IH]; intros [|b s]; simpl.
  - naive_solver.
  - split; [eauto|done].
  - split; [done|]. intros (t & Ht). by rewrite app_cons in Ht.
  - rewrite andb_true_iff, bool_decide_eq_true, IH. split.
    + intros [-> (t & ->)]. exists t. by rewrite app_cons.
    + intros (t & Ht). rewrite app_cons in Ht. naive_solver.
Qed.

Lemma endswith_spec s p : endswith s p = true ↔ ∃ t, s = t +:+ p.
Proof.
  induction s as [|b s IH]; simpl.
  - rewrite orb_true_iff, bool_decide_eq_true. split.
    + intros [<-|?]; [by exists EmptyString|done].
    + intros (t & Ht). left. by destruct t.
  - rewrite orb_true_iff, bool_decide_eq_true, IH. split.
    + intros [<-|(t & ->)]; [by exists EmptyString|]. by exists (String b t).
    + intros ([|c t] & Ht); [by left|]. rewrite app_cons in Ht.
      right. exists t. naive_solver.
Qed.

Lemma app_inj_l s t t' : s +:+ t = s +:+ t' → t = t'.
Proof. induction s; [done|]. rewrite !app_cons. naive_solver. Qed.

Lemma app_eq_len s s' t t' : slen s = slen s' → s +:+ t = s' +:+ t' → s = s' ∧ t = t'.
Proof.
  revert s'. induction s as [|a s IH]; intros [|b s'] Hl Heq; try done.
  rewrite !app_cons in Heq. rewrite !slen_cons in Hl. injection Heq as -> Heq.
  destruct (IH s') as [-> ->]; [lia|done|done].
Qed.

Lemma app_inj_r s s' t : s +:+ t = s' +:+ t → s = s'.
Proof.
  intros H. assert (slen s = slen s').
  { apply (f_equal slen) in H. rewrite !slen_app in H. lia. }
  by destruct (app_eq_len s s' t t).
Qed.

Lemma init_str_app s a : init_str (s +:+ str1 a) = s.
Proof.
  induction s as [|b s IH]; [done|]. rewrite app_cons. simpl.
  destruct (s +:+ str1 a) eqn:E; [by destruct s|]. by rewrite IH.
Qed.

Lemma last_str_app s a : last_str (s +:+ str1 a) = Ok a.
Proof.
  induction s as [|b s IH]; [done|]. rewrite app_cons. simpl.
  destruct (s +:+ str1 a) eqn:E; [by destruct s|]. done.
Qed.

Lemma last_str_Ok s a : last_str s = Ok a ↔ s = init_str s +:+ str1 a.
Proof.
  split; [|intros ->; apply last_str_app].
  induction s as [|b s IH]; simpl; [done|].
  destruct s as [|c s]; [naive_solver|]. intros H. rewrite app_cons. f_equal. by apply IH.
Qed.

Lemma contains_spec s sub : contains s sub = true ↔ ∃ t u, s = t +:+ sub +:+ u.
Proof.
  induction s as [|a s IH]; cbn [contains]; rewrite orb_true_iff, startswith_spec.
  - split.
    + intros [(t & ?)|?]; [|done]. by exists EmptyString, t.
    + intros ([|] & u & H); [|done]. left. by exists u.
  - rewrite IH. split.
    + intros [(t & ->)|(t & u & ->)]; [by exists EmptyString, t|by exists (String a t), u].
    + intros ([|b t] & u & H); [left; by exists u|].
      right. rewrite app_cons in H. exists t, u. naive_solver.
Qed.

Lemma mem_char_spec c s : mem_char c s = true ↔ ∃ t u, s = t +:+ String c u.
Proof.
  induction s as [|a s IH]; simpl.
  - split; [done|]. by intros ([|] & u & ?).
  - rewrite orb_true_iff, bool_decide_eq_true, IH. split.
    + intros [->|(t & u & ->)]; [by exists EmptyString, s|by exists (String a t), u].
    + intros ([|b t] & u & H); [left; by injection H|].
      right. rewrite app_cons in H. exists t, u. naive_solver.
Qed.

Lemma split1_Some c s l r :
  split1 c s = Some (l, r) ↔ s = l +:+ String c r ∧ mem_char c l = false.
Proof.
  revert l. induction s as [|a s IH]; intros l; simpl.
  - split; [done|]. intros [H _]. by destruct l.
  - case_bool as Hac; [subst|].
    + split; [by intros [= <- <-]|]. intros [H Hl].
      destruct l as [|b l]; [rewrite app_empty_l in H; by injection H as ->|].
      rewrite app_cons in H. injection H as <- ->. simpl in Hl. by rewrite bool_decide_true in Hl.
    + split.
      * intros H. apply bind_Some in H as ([l' r'] & Hs & [= <- <-]).
        apply IH in Hs as [-> Hl]. split; [done|]. simpl. by rewrite bool_decide_false.
      * intros [H Hl]. destruct l as [|b l]; [rewrite app_empty_l in H; congruence|].
        rewrite app_cons in H.
        injection H as <- H. simpl in Hl. rewrite bool_decide_false in Hl by done.
        by rewrite (proj2 (IH l) (conj H Hl)).
Qed.

Lemma split1_None c s : split1 c s = None ↔ mem_char c s = false.
Proof.
  induction s as [|a s IH]; simpl; [done|]. case_bool as Hac; simpl; [naive_solver|].
  rewrite <- IH. destruct (split1 c s) as [[]|]; naive_solver.
Qed.

Lemma str_of_int_inj n m : str_of_int n = str_of_int m → n = m.
Proof. apply pretty_Z_inj. Qed.

Lemma split_go_app c cur s t :
  mem_char c s = false → split_go c cur (s +:+ t) = split_go c (cur +:+ s) t.
Proof.
  revert cur. induction s as [|a s IH]; intros cur; cbn [mem_char].
  - intros _. by rewrite app_empty_l, app_empty_r.
  - intros [Ha Hs]%orb_false_iff. rewrite app_cons. cbn [split_go]. rewrite Ha, IH by done.
    by rewrite <- app_assoc_str.
Qed.

Lemma split_join c l :
  l ≠ [] → (∀ x, x ∈ l → mem_char c x = false) → split c (join (str1 c) l) = l.
Proof.
  intros Hne Hl. unfold split. induction l as [|x l IH]; [done|].
  assert (Hx : mem_char c x = false) by (apply Hl; left).
  destruct l as [|y l].
  - cbn [join]. rewrite <- (app_empty_r x) at 1. by rewrite split_go_app by done.
  - cbn [join]. rewrite split_go_app by done. rewrite app_empty_l. unfold str1 at 1.
    rewrite app_cons, app_empty_l. cbn [split_go]. rewrite bool_decide_true by done.
    f_equal. apply IH; [done|]. intros z Hz. apply Hl. by right.
Qed.

(** ** Decimal round trip *)

Lemma pretty_N_char_digit d :
  (d < 10)%N → is_digit (pretty_N_char d) = true ∧ (code (pretty_N_char d) - 48)%Z = Z.of_N d.
Proof.
  intros Hd. assert (d = 0 ∨ d = 1 ∨ d = 2 ∨ d = 3 ∨ d = 4 ∨ d = 5 ∨ d = 6 ∨ d = 7 ∨ d = 8 ∨ d = 9)%N
    as Hc by lia.
  destruct_or?; subst; done.
Qed.

Lemma pretty_N_go_digits x : ∀ s,
  (0 < x)%N →
  (∀ prev, digits_val prev 0 (pretty_N_go x s) = digits_val true (Z.of_N x) s)
  ∧ all_chars is_digit (pretty_N_go x s) = all_chars is_digit s
  ∧ str_bool (pretty_N_go x s) = true.
Proof.
  induction x as [x IH] using (well_founded_ind N.lt_wf_0). intros s Hx. rewrite pretty_N_go_step by done.
  destruct (pretty_N_char_digit (x mod 10)%N) as [Hd Hv]; [by apply N.mod_lt|].
  assert (Hdm : Z.of_N x = (10 * Z.of_N (x / 10) + Z.of_N (x mod 10))%Z).
  { pose proof (N.div_mod x 10). lia. }
  destruct (decide (x / 10 = 0)%N) as [H0|H0].
  - rewrite H0, pretty_N_go_0. cbn [all_chars str_bool digits_val]. rewrite Hd.
    split; [|by rewrite andb_true_l]. intros prev. f_equal. lia.
  - destruct (IH (x / 10)%N (N.div_lt x 10 Hx ltac:(lia)) (String (pretty_N_char (x mod 10)) s)
      (proj1 (N.neq_0_lt_0 _) H0)) as (H1 & H2 & H3).
    rewrite H2, H3. cbn [all_chars]. rewrite Hd. split; [|done].
    intros prev. rewrite H1. cbn [digits_val]. rewrite Hd. f_equal. lia.
Qed.

(** Decimal text of a natural number: digits only, not empty, read back. *)
Lemma digits_of_int n :
  (0 ≤ n)%Z →
  digits_val false 0 (str_of_int n) = Some n ∧ all_chars is_digit (str_of_int n) = true
  ∧ str_bool (str_of_int n) = true.
Proof.
  intros Hn. destruct n as [|p|p]; [done| |lia].
  change (str_of_int (Z.pos p)) with (pretty_N_go (N.pos p) EmptyString).
  destruct (pretty_N_go_digits (N.pos p) EmptyString) as (H1 & -> & ->); [done|].
  by rewrite H1.
Qed.

(** [s.partition(c)]: the part before the first [c], whether it occurs, and
    the part after it; [rpartition] for the last. *)
Definition partition (c : ascii) (s : string) : string * bool * string :=
  match split1 c s with Some (l, r) => (l, true, r) | None => (s, false, EmptyString) end.
Definition rpartition (c : ascii) (s : string) : string * bool * string :=
  match rsplit1 c s with Some (l, r) => (l, true, r) | None => (EmptyString, false, s) end.

(** [s.replace(c, t)] for one character *)
Fixpoint replace_char (c : ascii) (t : string) (s : string) : string :=
  match s with
  | EmptyString => EmptyString
  | String a s' => (if bool_decide (a = c) then t else str1 a) +:+ replace_char c t s'
  end.

(** ** Hexadecimal *)

Definition hex_val (c : ascii) : option Z :=
  let n := code c in
  if bool_decide (48 ≤ n ≤ 57)%Z then Some (n - 48)%Z
  else if bool_decide (97 ≤ n ≤ 102)%Z then Some (n - 87)%Z
  else if bool_decide (65 ≤ n ≤ 70)%Z then Some (n - 55)%Z
  else None.
Definition is_hex (c : ascii) : bool := match hex_val c with Some _ => true | None => false end.
Fixpoint hex_acc (acc : Z) (s : string) : option Z :=
  match s with
  | EmptyString => Some acc
  | String a s' => d ← hex_val a; hex_acc (acc * 16 + d) s'
  end.

Definition hex_digit (lc : bool) (d : Z) : ascii :=
  if bool_decide (d < 10)%Z then chr (48 + d) else chr ((if lc then 87 else 55) + d).

(** [n] as exactly [k] hexadecimal digits; ['%x'] drops the leading zeros. *)
Fixpoint hex_fixed (lc : bool) (k : nat) (n : Z) : string :=
  match k with
  | O => EmptyString
  | S k' => hex_fixed lc k' (n / 16) +:+ str1 (hex_digit lc (n mod 16))
  end.
Definition hex_16 (n : Z) : string :=
  match lstrip "0" (hex_fixed true 4 n) with EmptyString => "0" | s => s end.
