(* ===== verification/PyVal.v ===== *)
(** * Python values and dictionaries

    The resources of the compiler are Python dictionaries whose values are
    JSON-like.  [dict V] keeps the insertion order of a Python [dict];
    [pyval] is the universe of values; [py_bool] is Python's truth test and
    [py_eqb] Python's [==]. *)

From S2P Require Import Prelude PyStr.

Notation dict V := (list (string * V)).

(** ** Dictionaries *)

Section dict.
Context {K : Type} `{!EqDecision K} {V : Type}.
Implicit Types (k : K) (d : list (K * V)).

Fixpoint dget (k : K) (d : list (K * V)) : option V :=
  match d with
  | [] => None
  | (k', v) :: d' => if bool_decide (k = k') then Some v else dget k d'
  end.

(** [d[k] = v]: in place when [k] is present, at the end otherwise. *)
Fixpoint dset (k : K) (v : V) (d : list (K * V)) : list (K * V) :=
  match d with
  | [] => [(k, v)]
  | (k', v') :: d' =>
      if bool_decide (k = k') then (k', v) :: d' else (k', v') :: dset k v d'
  end.

Fixpoint ddel (k : K) (d : list (K * V)) : list (K * V) :=
  match d with
  | [] => []
  | (k', v') :: d' => if bool_decide (k = k') then d' else (k', v') :: ddel k d'
  end.

Definition dmem (k : K) (d : list (K * V)) : bool :=
  match dget k d with Some _ => true | None => false end.

(** [d.get(k, v)] *)
Definition dget_default (k : K) (v : V) (d : list (K * V)) : V := default v (dget k d).

Definition dkeys (d : list (K * V)) : list K := d.*1.
Definition dvalues (d : list (K * V)) : list V := d.*2.

(** [d.update(d2)] *)
Definition dupdate (d d2 : list (K * V)) : list (K * V) := foldl (λ d p, dset p.1 p.2 d) d d2.

(** A dictionary has each key once. *)
Definition dict_ok (d : list (K * V)) : Prop := NoDup (dkeys d).

Lemma dget_dset_eq k v d : dget k (dset k v d) = Some v.
Proof.
  induction d as [|[k' v'] d IH]; simpl; [by rewrite bool_decide_true|].
  case_bool as H; simpl; [by rewrite bool_decide_true|by rewrite bool_decide_false].
Qed.

Lemma dget_dset_ne k k' v d : k ≠ k' → dget k (dset k' v d) = dget k d.
Proof.
  intros Hne. induction d as [|[k2 v2] d IH]; simpl; [by rewrite bool_decide_false|].
  destruct (bool_decide_reflect (k' = k2)) as [->|H]; simpl; [|by rewrite IH].
  by rewrite !bool_decide_false.
Qed.

Lemma dget_dset k k' v d :
  dget k (dset k' v d) = if bool_decide (k = k') then Some v else dget k d.
Proof. case_bool as H; [subst; apply dget_dset_eq|by apply dget_dset_ne]. Qed.

Lemma dget_ddel_ne k k' d : k ≠ k' → dget k (ddel k' d) = dget k d.
Proof.
  intros Hne. induction d as [|[k2 v2] d IH]; simpl; [done|].
  destruct (bool_decide_reflect (k' = k2)) as [->|H]; simpl; [by rewrite bool_decide_false|].
  by rewrite IH.
Qed.

Lemma dget_None k d : dget k d = None ↔ k ∉ dkeys d.
Proof.
  induction d as [|[k2 v2] d IH]; simpl; [set_solver|].
  case_bool as H; [subst; set_solver|]. rewrite IH. set_solver.
Qed.

Lemma dget_is_Some k d : is_Some (dget k d) ↔ k ∈ dkeys d.
Proof.
  rewrite <- not_eq_None_Some, dget_None. split; [|tauto].
  intros H. destruct (decide (k ∈ dkeys d)); [done|by destruct H].
Qed.

Lemma dmem_true k d : dmem k d = true ↔ k ∈ dkeys d.
Proof. rewrite <- dget_is_Some. unfold dmem, is_Some. destruct (dget k d); naive_solver. Qed.

Lemma dmem_false k d : dmem k d = false ↔ dget k d = None.
Proof. unfold dmem. destruct (dget k d); naive_solver. Qed.

Lemma dget_elem_of k v d : dget k d = Some v → (k, v) ∈ d.
Proof.
  induction d as [|[k2 v2] d IH]; simpl; [done|].
  case_bool as H; [subst; intros [= ->]; left|]. intros Hg. right. auto.
Qed.

Lemma elem_of_dget k v d : dict_ok d → (k, v) ∈ d → dget k d = Some v.
Proof.
  unfold dict_ok, dkeys. induction d as [|[k2 v2] d IH]; simpl; [set_solver|].
  intros [Hn Hd]%NoDup_cons [[= -> ->]|Hin]%elem_of_cons; [by rewrite bool_decide_true|].
  rewrite bool_decide_false; [auto|]. intros ->. apply Hn.
  apply list_elem_of_fmap. by exists (k2, v).
Qed.

Lemma ddel_elem_of k p d : p ∈ ddel k d → p ∈ d.
Proof.
  induction d as [|[k2 v2] d IH]; simpl; [done|].
  case_bool as H; [by right|]. rewrite !elem_of_cons. tauto.
Qed.

Lemma dkeys_dset_mem k v d : dmem k d = true → dkeys (dset k v d) = dkeys d.
Proof.
  unfold dmem, dkeys. induction d as [|[k2 v2] d IH]; simpl; [done|].
  destruct (bool_decide_reflect (k = k2)); simpl; [done|]. intros. f_equal. auto.
Qed.

Lemma dset_fresh k v d : dmem k d = false → dset k v d = d ++ [(k, v)].
Proof.
  unfold dmem. induction d as [|[k2 v2] d IH]; simpl; [done|].
  destruct (bool_decide_reflect (k = k2)); [done|]. intros. f_equal. auto.
Qed.

Lemma elem_of_dkeys_dset k k' v d : k ∈ dkeys (dset k' v d) ↔ k = k' ∨ k ∈ dkeys d.
Proof.
  rewrite <- !dget_is_Some, dget_dset. case_bool as H; [naive_solver|]. naive_solver.
Qed.

Lemma elem_of_dset k v p d : p ∈ dset k v d → p = (k, v) ∨ p ∈ d.
Proof.
  induction d as [|[k2 v2] d IH]; simpl; [set_solver|]. case_bool as H; [subst; set_solver|]. set_solver.
Qed.

Lemma dmem_dset k k' v d : dmem k (dset k' v d) = bool_decide (k = k') || dmem k d.
Proof. unfold dmem. rewrite dget_dset. by case_bool. Qed.

Lemma dict_ok_nil : dict_ok [].
Proof. constructor. Qed.

Lemma dict_ok_dset k v d : dict_ok d → dict_ok (dset k v d).
Proof.
  intros Hd. destruct (dmem k d) eqn:E.
  - unfold dict_ok. by rewrite dkeys_dset_mem.
  - rewrite dset_fresh by done. unfold dict_ok, dkeys. rewrite fmap_app.
    apply dmem_false, dget_None in E. apply NoDup_app. simpl. unfold dkeys in *.
    split_and_all; [done| |by apply NoDup_singleton]. set_solver.
Qed.

Lemma dict_ok_ddel k d : dict_ok d → dict_ok (ddel k d).
Proof.
  unfold dict_ok, dkeys. induction d as [|[k2 v2] d IH]; simpl; [done|].
  intros [Hn Hd]%NoDup_cons. case_bool as H; [done|]. simpl. apply NoDup_cons.
  split; [|auto]. intros ((k3 & v3) & -> & Hin)%list_elem_of_fmap. apply Hn.
  apply list_elem_of_fmap. exists (k3, v3). split; [done|]. by eapply ddel_elem_of.
Qed.

Lemma dget_ddel_eq k d : dict_ok d → dget k (ddel k d) = None.
Proof.
  unfold dict_ok, dkeys. induction d as [|[k2 v2] d IH]; simpl; [done|].
  intros [Hn Hd]%NoDup_cons. destruct (bool_decide_reflect (k = k2)) as [->|H]; simpl.
  - by apply dget_None.
  - rewrite bool_decide_false by done. auto.
Qed.

Lemma dict_ok_dupdate d d2 : dict_ok d → dict_ok (dupdate d d2).
Proof.
  unfold dupdate. revert d. induction d2 as [|[k v] d2 IH]; intros d Hd; simpl; [done|].
  apply IH. by apply dict_ok_dset.
Qed.

Lemma dget_dupdate k d d2 :
  dict_ok d2 →
  dget k (dupdate d d2) = match dget k d2 with Some v => Some v | None => dget k d end.
Proof.
  unfold dupdate, dict_ok, dkeys. revert d. induction d2 as [|[k2 v2] d2 IH]; intros d; [done|].
  simpl. intros [Hn Hd]%NoDup_cons. rewrite IH by done. simpl.
  destruct (bool_decide_reflect (k = k2)) as [->|H].
  - apply dget_None in Hn. unfold dkeys in Hn. rewrite Hn. apply dget_dset_eq.
  - by rewrite dget_dset_ne.
Qed.

Lemma dget_app k d d' : dget k (d ++ d') = match dget k d with Some v => Some v | None => dget k d' end.
Proof. induction d as [|[k' v] d IH]; [done|]. simpl. by destruct (bool_decide (k = k')). Qed.

Lemma dget_app_l k d d' : k ∈ dkeys d → dget k (d ++ d') = dget k d.
Proof. intros Hk. rewrite dget_app. destruct (dget k d) eqn:E; [done|]. by apply dget_None in E. Qed.

Lemma dget_app_r k d d' : k ∉ dkeys d → dget k (d ++ d') = dget k d'.
Proof. intros Hk%dget_None. by rewrite dget_app, Hk. Qed.

Lemma dict_ok_app d d' : dict_ok d → dict_ok d' → (∀ k, k ∈ dkeys d → dget k d' = None) → dict_ok (d ++ d').
Proof.
  intros H1 H2 H3. unfold dict_ok, dkeys. rewrite fmap_app. apply NoDup_app. split; [done|]. split; [|done].
  intros k Hk. by apply dget_None, H3.
Qed.
End dict.

Lemma dget_fmap {K} `{!EqDecision K} {V W} (f : V → W) (k : K) (d : list (K * V)) :
  dget k ((λ p, (p.1, f p.2)) <$> d) = f <$> dget k d.
Proof. induction d as [|[k' v] d IH]; [done|]. csimpl. rewrite IH. by case_bool. Qed.

Lemma dkeys_fmap {K V W} (f : V → W) (d : list (K * V)) :
  dkeys ((λ p, (p.1, f p.2)) <$> d) = dkeys d.
Proof. unfold dkeys. rewrite <- list_fmap_compose. done. Qed.

(** [d[k]] *)
Definition dget_exn {V} (k : string) (d : dict V) : res V := res_of_option (KeyError k) (dget k d).

#[export] Hint Resolve dict_ok_nil dict_ok_dset dict_ok_ddel dict_ok_dupdate : emissary.
#[export] Hint Rewrite @dget_dset_eq : emissary.

(** ** Values *)

Inductive pyval : Type :=
  | PNone
  | PBool (b : bool)
  | PInt (z : Z)
  | PStr (s : string)
  | PList (l : list pyval)
  | PDict (d : dict pyval).

(** [bool(v)] *)
Definition py_bool (v : pyval) : bool :=
  match v with
  | PNone => false
  | PBool b => b
  | PInt z => bool_decide (z ≠ 0%Z)
  | PStr s => str_bool s
  | PList l => match l with [] => false | _ => true end
  | PDict d => match d with [] => false | _ => true end
  end.

(** [v == w]: booleans compare as integers, dictionaries ignore order. *)
Fixpoint py_eqb (v w : pyval) {struct v} : bool :=
  match v, w with
  | PNone, PNone => true
  | PBool a, PBool b => bool_decide (a = b)
  | PBool a, PInt b => bool_decide (Z.b2z a = b)
  | PInt a, PBool b => bool_decide (a = Z.b2z b)
  | PInt a, PInt b => bool_decide (a = b)
  | PStr a, PStr b => bool_decide (a = b)
  | PList l, PList m =>
      (fix go l m := match l, m with
        | [], [] => true
        | x :: l', y :: m' => py_eqb x y && go l' m'
        | _, _ => false
        end) l m
  | PDict d, PDict e =>
      bool_decide (length d = length e) &&
      (fix go d := match d with
        | [] => true
        | (k, x) :: d' => match dget k e with Some y => py_eqb x y | None => false end && go d'
        end) d
  | _, _ => false
  end.

(** [d.get(k)] on a dictionary of values: [PNone] when absent. *)
Definition pget (k : string) (d : dict pyval) : pyval := dget_default k PNone d.

(** [v.get(k, dflt)] on a value that must be a dictionary. *)
Definition vget (k : string) (dflt : pyval) (v : pyval) : res pyval :=
  match v with PDict d => Ok (dget_default k dflt d) | _ => Raise (AttributeError "get") end.

(** [k in v] on a value that must be a container of strings. *)
Definition vmem (k : string) (v : pyval) : res bool :=
  match v with
  | PDict d => Ok (dmem k d)
  | PList l => Ok (existsb (py_eqb (PStr k)) l)
  | PStr s => Ok (contains s k)
  | _ => Raise TypeError
  end.

(** Values used where the code needs a string, an integer, a list or a
    dictionary; anything else raises as the Python operation does. *)
Definition as_str (v : pyval) : res string :=
  match v with PStr s => Ok s | _ => Raise TypeError end.
Definition as_int (v : pyval) : res Z :=
  match v with PInt z => Ok z | PBool b => Ok (Z.b2z b) | _ => Raise TypeError end.
Definition as_list (v : pyval) : res (list pyval) :=
  match v with PList l => Ok l | _ => Raise TypeError end.
Definition as_dict (v : pyval) : res (dict pyval) :=
  match v with PDict d => Ok d | _ => Raise TypeError end.

(** [v in (s1, s2, ...)] for a tuple of strings *)
Definition in_strs (v : pyval) (l : list string) : bool :=
  match v with PStr s => bool_decide (s ∈ l) | _ => false end.

(** [a or b] *)
Definition py_or (a b : pyval) : pyval := if py_bool a then a else b.

Section pyval_ind.
Context (P : pyval → Prop).
Context (HNone : P PNone) (HBool : ∀ b, P (PBool b)) (HInt : ∀ z, P (PInt z))
  (HStr : ∀ s, P (PStr s)) (HList : ∀ l, Forall P l → P (PList l))
  (HDict : ∀ d : dict pyval, Forall (λ p, P p.2) d → P (PDict d)).

Fixpoint pyval_rect_nested (v : pyval) : P v :=
  match v with
  | PNone => HNone
  | PBool b => HBool b
  | PInt z => HInt z
  | PStr s => HStr s
  | PList l => HList l
      ((fix go l : Forall P l := match l with
        | [] => Forall_nil_2 _
        | x :: l' => Forall_cons_2 _ _ _ (pyval_rect_nested x) (go l')
        end) l)
  | PDict d => HDict d
      ((fix go d : Forall (λ p : string * pyval, P p.2) d := match d with
        | [] => Forall_nil_2 _
        | p :: d' => Forall_cons_2 _ _ _ (pyval_rect_nested p.2) (go d')
        end) d)
  end.
End pyval_ind.

(** Every dictionary inside the value has each key once, as in Python. *)
Inductive pyval_ok : pyval → Prop :=
  | ok_none : pyval_ok PNone
  | ok_bool b : pyval_ok (PBool b)
  | ok_int z : pyval_ok (PInt z)
  | ok_str s : pyval_ok (PStr s)
  | ok_list l : Forall pyval_ok l → pyval_ok (PList l)
  | ok_dict d : dict_ok d → Forall (λ p, pyval_ok p.2) d → pyval_ok (PDict d).

Lemma py_eqb_refl v : pyval_ok v → py_eqb v v = true.
Proof.
  induction v as [|b|z|s|l IH|d IH] using pyval_rect_nested; simpl; intros Hok;
    [done|by apply bool_decide_eq_true..| |].
  - inversion Hok as [| | | |? Hl|]; subst. clear Hok.
    induction l as [|x l IHl]; [done|]. apply Forall_cons in IH as [? ?], Hl as [? ?].
    apply andb_true_iff. auto.
  - inversion Hok as [| | | | |? Hd Hl]; subst. clear Hok.
    rewrite bool_decide_true by done. simpl.
    assert (Hsub : ∀ p, p ∈ d → dget p.1 d = Some p.2).
    { intros [k v] Hp. by apply elem_of_dget. }
    clear Hd. revert Hsub. generalize d at 2 3. intros e Hsub.
    induction d as [|[k x] d IHd]; [done|]. apply Forall_cons in IH as [? ?], Hl as [? ?].
    apply andb_true_iff. split.
    + pose proof (Hsub (k, x) ltac:(left)) as Hk. simpl in Hk. rewrite Hk. auto.
    + apply IHd; [done..|]. intros p Hp. apply Hsub. by right.
Qed.

#[export] Instance pyval_eq_dec : EqDecision pyval.
Proof.
  refine (fix go (v w : pyval) {struct v} : Decision (v = w) :=
    match v, w with
    | PNone, PNone => left eq_refl
    | PBool a, PBool b => cast_if (decide (a = b))
    | PInt a, PInt b => cast_if (decide (a = b))
    | PStr a, PStr b => cast_if (decide (a = b))
    | PList l, PList m =>
        cast_if (_ : Decision (l = m))
    | PDict d, PDict e =>
        cast_if (_ : Decision (d = e))
    | _, _ => right _
    end); try abstract congruence.
  - revert m. induction l as [|x l IH]; intros [|y m];
      [by left|by right|by right|].
    destruct (go x y) as [->|]; [|right; congruence].
    destruct (IH m) as [->|]; [by left|right; congruence].
  - revert e. induction d as [|[k x] d IH]; intros [|[k' y] e];
      [by left|by right|by right|].
    destruct (decide (k = k')) as [->|]; [|right; congruence].
    destruct (go x y) as [->|]; [|right; congruence].
    destruct (IH e) as [->|]; [by left|right; congruence].
Defined.
