(* ===== verification/Utils.v ===== *)
(** * Utilities of [ambassador/utils.py]: boolean parsing *)

From S2P Require Import Prelude PyStr PyVal.

(** [strtobool] *)
Definition strtobool (value : string) : bool :=
  bool_decide (lower value ∈ ["y"; "yes"; "on"; "1"; "true"; "t"]).

(** [parse_bool]: booleans pass through, anything falsy is [False], strings
    go through [strtobool]; other values have no [lower] method. *)
Definition parse_bool (s : pyval) : res bool :=
  match s with
  | PBool b => Ok b
  | _ =>
      if negb (py_bool s) then Ok false
      else match s with
           | PStr t => Ok (strtobool t)
           | _ => Raise (AttributeError "lower")
           end
  end.
