(* ===== verification/HostGlob.v ===== *)
(** * Host globs and label selectors ([ir/irutils.py])

    [hostglob_matches] decides whether two DNS globs can match a common
    hostname; [selector_matches] matches Kubernetes label selectors. *)

From S2P Require Import Prelude PyStr PyVal Utils.

(** ** Host globs *)

(** [g1] starts with a star, [g2] does not end with one. *)
Definition hostglob_matches_start (g1 g2 : string) (g2start : bool) : bool :=
  let g1match := drop_str 1 g1 in
  let g2match := if g2start then drop_str 1 g2 else g2 in
  if bool_decide (slen g2match < slen g1) then
    if negb g2start then false
    else endswith (drop_str 1 g1) (drop_str 1 g2)
  else endswith g2match g1match.

(** [g1] ends with a star, [g2] does not start with one. *)
Definition hostglob_matches_end (g1 g2 : string) (g2end : bool) : bool :=
  let g1match := init_str g1 in
  let g2match := if g2end then init_str g2 else g2 in
  if bool_decide (slen g2match < slen g1) then
    if negb g2end then false
    else startswith (init_str g1) (init_str g2)
  else startswith g2match g1match.

Definition star : ascii := "*".
Definition dot : ascii := ".".

Definition hostglob_matches (g1 g2 : string) : res bool :=
  if bool_decide (g1 = g2) then Ok true
  else if bool_decide (g1 = "*") || bool_decide (g2 = "*") then Ok true
  else
    h1 ← head_str g1;
    if bool_decide (h1 = dot) then Ok false else
    h2 ← head_str g2;
    if bool_decide (h2 = dot) then Ok false else
    l1 ← last_str g1;
    l2 ← last_str g2;
    let g1start := bool_decide (h1 = star) in
    let g1end := bool_decide (l1 = star) in
    let g2start := bool_decide (h2 = star) in
    let g2end := bool_decide (l2 = star) in
    if (g1start && g1end) || (g2start && g2end) then Ok (bool_decide (g1 = g2))
    else if negb (g1start || g1end || g2start || g2end) then Ok false
    else if (g1start && g2end) || (g2start && g1end) then Ok true
    else if g1start then Ok (hostglob_matches_start g1 g2 g2start)
    else if g2start then Ok (hostglob_matches_start g2 g1 g1start)
    else if g1end then Ok (hostglob_matches_end g1 g2 g2end)
    else if g2end then Ok (hostglob_matches_end g2 g1 g1end)
    else Ok false.

(** ** What a glob means

    A glob is [*], [*suffix], [prefix*] or an exact name; the star stands for
    at least one character. *)

Inductive glob : Type :=
  | GAny
  | GSuffix (s : string)
  | GPrefix (p : string)
  | GExact (e : string).

#[export] Instance glob_eq_dec : EqDecision glob.
Proof. solve_decision. Defined.

Definition glob_str (g : glob) : string :=
  match g with
  | GAny => "*"
  | GSuffix s => String star s
  | GPrefix p => p +:+ "*"
  | GExact e => e
  end.

(** Globs that are valid in the DNS sense: not empty, no leading bare dot, a
    star at one end only. *)
Definition glob_wf (g : glob) : Prop :=
  match g with
  | GAny => True
  | GSuffix s => s ≠ EmptyString ∧ last_str s ≠ Ok star
  | GPrefix p => p ≠ EmptyString ∧ head_str p ≠ Ok star ∧ head_str p ≠ Ok dot
  | GExact e => e ≠ EmptyString ∧ head_str e ≠ Ok star ∧ head_str e ≠ Ok dot
                ∧ last_str e ≠ Ok star
  end.

Definition glob_match (g : glob) (h : string) : Prop :=
  match g with
  | GAny => h ≠ EmptyString
  | GSuffix s => ∃ x, x ≠ EmptyString ∧ h = x +:+ s
  | GPrefix p => ∃ x, x ≠ EmptyString ∧ h = p +:+ x
  | GExact e => h = e
  end.

Definition globs_overlap (g1 g2 : glob) : Prop := ∃ h, glob_match g1 h ∧ glob_match g2 h.

(** ** Label selectors *)

(** [disable_strict_selectors]; [env] is the process environment. *)
Definition disable_strict_selectors (env : dict string) : res bool :=
  parse_bool (PStr (dget_default "DISABLE_STRICT_LABEL_SELECTORS" "false" env)).

Definition label_hit (labels : dict pyval) (kv : string * pyval) : bool :=
  py_eqb (pget kv.1 labels) kv.2.

(** The loop of the deprecated mode: one matching label is enough. *)
Fixpoint selector_loop_any (labels : dict pyval) (match_ : dict pyval) : bool :=
  match match_ with
  | [] => false
  | kv :: rest => if label_hit labels kv then true else selector_loop_any labels rest
  end.

(** The loop of the strict mode: every label must match. *)
Fixpoint selector_loop_all (labels : dict pyval) (match_ : dict pyval) : bool :=
  match match_ with
  | [] => true
  | kv :: rest => if label_hit labels kv then selector_loop_all labels rest else false
  end.

Definition selector_matches (env : dict string) (selector labels : pyval) : res bool :=
  m ← vget "matchLabels" PNone selector;
  let match_ := py_or m (PDict []) in
  if negb (py_bool match_) then Ok true
  else if negb (py_bool labels) then Ok false
  else
    md ← match match_ with PDict d => Ok d | _ => Raise (AttributeError "items") end;
    ld ← match labels with PDict d => Ok d | _ => Raise (AttributeError "get") end;
    loose ← disable_strict_selectors env;
    if (loose : bool) then Ok (selector_loop_any ld md) else Ok (selector_loop_all ld md).

(** ** Lemmas on globs *)

(** The overlap of two valid globs, computed on their structure. *)
Definition glob_overlapb (g1 g2 : glob) : bool :=
  match g1, g2 with
  | GAny, _ | _, GAny => true
  | GSuffix s1, GSuffix s2 => endswith s1 s2 || endswith s2 s1
  | GPrefix p1, GPrefix p2 => startswith p1 p2 || startswith p2 p1
  | GSuffix _, GPrefix _ | GPrefix _, GSuffix _ => true
  | GSuffix s, GExact e | GExact e, GSuffix s => bool_decide (slen s < slen e) && endswith e s
  | GPrefix p, GExact e | GExact e, GPrefix p => bool_decide (slen p < slen e) && startswith e p
  | GExact e1, GExact e2 => bool_decide (e1 = e2)
  end.

Lemma endswith_len s p : endswith s p = true → slen p ≤ slen s.
Proof. intros (t & ->)%endswith_spec. rewrite slen_app. lia. Qed.
Lemma startswith_len s p : startswith s p = true → slen p ≤ slen s.
Proof. intros (t & ->)%startswith_spec. rewrite slen_app. lia. Qed.

Lemma endswith_eq_len s p : slen s ≤ slen p → endswith s p = bool_decide (s = p).
Proof.
  intros Hl. apply Bool.eq_iff_eq_true. rewrite endswith_spec, bool_decide_eq_true. split.
  - intros (t & ->). rewrite slen_app in Hl. destruct t; [done|]. rewrite slen_cons in Hl. lia.
  - intros ->. by exists EmptyString.
Qed.
Lemma startswith_eq_len s p : slen s ≤ slen p → startswith s p = bool_decide (s = p).
Proof.
  intros Hl. apply Bool.eq_iff_eq_true. rewrite startswith_spec, bool_decide_eq_true. split.
  - intros (t & ->). rewrite slen_app in Hl. destruct t; [apply app_empty_r|].
    rewrite slen_cons in Hl. lia.
  - intros ->. exists EmptyString. by rewrite app_empty_r.
Qed.

Lemma app_suffix_cases x1 s1 x2 s2 :
  x1 +:+ s1 = x2 +:+ s2 → (∃ t, s1 = t +:+ s2) ∨ (∃ t, s2 = t +:+ s1).
Proof.
  revert x2. induction x1 as [|a x1 IH]; intros [|b x2].
  - rewrite !app_empty_l. intros ->. left. by exists EmptyString.
  - rewrite app_empty_l. intros ->. left. by exists (String b x2).
  - rewrite app_empty_l. intros <-. right. by exists (String a x1).
  - rewrite !app_cons. intros [= _ H]. eauto.
Qed.

Lemma app_prefix_cases p1 x1 p2 x2 :
  p1 +:+ x1 = p2 +:+ x2 → (∃ t, p1 = p2 +:+ t) ∨ (∃ t, p2 = p1 +:+ t).
Proof.
  revert p2. induction p1 as [|a p1 IH]; intros [|b p2].
  - left. by exists EmptyString.
  - intros _. right. by exists (String b p2).
  - intros _. left. by exists (String a p1).
  - rewrite !app_cons. intros [= -> H]. destruct (IH _ H) as [(t & ->)|(t & ->)]; [left|right];
      exists t; by rewrite app_cons.
Qed.

Lemma suffix_overlap s1 s2 :
  globs_overlap (GSuffix s1) (GSuffix s2) ↔ endswith s1 s2 || endswith s2 s1 = true.
Proof.
  rewrite orb_true_iff, !endswith_spec. split.
  - intros (h & (x1 & _ & ->) & (x2 & _ & H)). by apply app_suffix_cases in H.
  - intros [(t & ->)|(t & ->)].
    + exists ("x" +:+ t +:+ s2). split; [by exists "x"|].
      exists ("x" +:+ t). split; [done|by rewrite app_assoc_str].
    + exists ("x" +:+ t +:+ s1). split; [|by exists "x"].
      exists ("x" +:+ t). split; [done|by rewrite app_assoc_str].
Qed.

Lemma prefix_overlap p1 p2 :
  globs_overlap (GPrefix p1) (GPrefix p2) ↔ startswith p1 p2 || startswith p2 p1 = true.
Proof.
  rewrite orb_true_iff, !startswith_spec. split.
  - intros (h & (x1 & _ & ->) & (x2 & _ & H)). by apply app_prefix_cases in H.
  - assert (Hne : ∀ t, t +:+ "x" ≠ EmptyString) by (by intros []).
    intros [(t & ->)|(t & ->)].
    + exists ((p2 +:+ t) +:+ "x"). split; [by exists "x"|].
      exists (t +:+ "x"). by rewrite app_assoc_str.
    + exists ((p1 +:+ t) +:+ "x"). split; [|by exists "x"].
      exists (t +:+ "x"). by rewrite app_assoc_str.
Qed.

Lemma suffix_exact s e :
  globs_overlap (GSuffix s) (GExact e) ↔ bool_decide (slen s < slen e) && endswith e s = true.
Proof.
  rewrite andb_true_iff, bool_decide_eq_true, endswith_spec. split.
  - intros (h & (x & Hx & ->) & <-). split; [|by eexists].
    rewrite slen_app. destruct x; [done|]. rewrite slen_cons. lia.
  - intros [Hl (t & ->)]. eexists. split; [|done]. exists t. split; [|done].
    intros ->. rewrite app_empty_l in Hl. lia.
Qed.

Lemma prefix_exact p e :
  globs_overlap (GPrefix p) (GExact e) ↔ bool_decide (slen p < slen e) && startswith e p = true.
Proof.
  rewrite andb_true_iff, bool_decide_eq_true, startswith_spec. split.
  - intros (h & (x & Hx & ->) & <-). split; [|by eexists].
    rewrite slen_app. destruct x; [done|]. rewrite slen_cons. lia.
  - intros [Hl (t & ->)]. eexists. split; [|done]. exists t. split; [|done].
    intros ->. rewrite app_empty_r in Hl. lia.
Qed.

Lemma globs_overlap_comm g1 g2 : globs_overlap g1 g2 ↔ globs_overlap g2 g1.
Proof. unfold globs_overlap. split; intros (h & ? & ?); by exists h. Qed.

Lemma glob_inhabited g : glob_wf g → ∃ h, glob_match g h ∧ h ≠ EmptyString.
Proof.
  destruct g as [|s|p|e]; simpl; intros Hwf.
  - by exists "x".
  - exists ("x" +:+ s). split; [by exists "x"|done].
  - exists (p +:+ "x"). split; [by exists "x"|by destruct p].
  - exists e. naive_solver.
Qed.

Lemma any_overlap g : glob_wf g → globs_overlap GAny g.
Proof. intros (h & ? & ?)%glob_inhabited. by exists h. Qed.

Lemma suffix_prefix_overlap s p :
  s ≠ EmptyString → p ≠ EmptyString → globs_overlap (GSuffix s) (GPrefix p).
Proof. intros Hs Hp. exists (p +:+ s). split; [by exists p|by exists s]. Qed.

Lemma glob_overlapb_spec g1 g2 :
  glob_wf g1 → glob_wf g2 → glob_overlapb g1 g2 = true ↔ globs_overlap g1 g2.
Proof.
  intros H1 H2. destruct g1 as [|s1|p1|e1], g2 as [|s2|p2|e2]; simpl in *.
  all: try (split; [intros _|done]; first [by apply any_overlap
                       |apply globs_overlap_comm; by apply any_overlap
                       |apply suffix_prefix_overlap; tauto
                       |apply globs_overlap_comm; apply suffix_prefix_overlap; tauto]).
  - by rewrite suffix_overlap.
  - by rewrite suffix_exact.
  - by rewrite prefix_overlap.
  - by rewrite prefix_exact.
  - by rewrite globs_overlap_comm, suffix_exact.
  - by rewrite globs_overlap_comm, prefix_exact.
  - rewrite bool_decide_eq_true. unfold globs_overlap; simpl. naive_solver.
Qed.

Definition starts_star (g : glob) : bool :=
  match g with GAny | GSuffix _ => true | _ => false end.
Definition ends_star (g : glob) : bool :=
  match g with GAny | GPrefix _ => true | _ => false end.

Lemma head_str_app s t : s ≠ EmptyString → head_str (s +:+ t) = head_str s.
Proof. by destruct s. Qed.
Lemma last_str_cons a s : s ≠ EmptyString → last_str (String a s) = last_str s.
Proof. by destruct s. Qed.
Lemma head_str_total s : s ≠ EmptyString → ∃ c, head_str s = Ok c.
Proof. destruct s; [done|]. by eexists. Qed.
Lemma last_str_total s : s ≠ EmptyString → ∃ c, last_str s = Ok c.
Proof.
  induction s as [|a s IH]; [done|]. intros _. destruct s as [|b s]; [by eexists|].
  rewrite last_str_cons by done. by apply IH.
Qed.

Lemma glob_head g : glob_wf g →
  ∃ c, head_str (glob_str g) = Ok c ∧ c ≠ dot ∧ bool_decide (c = star) = starts_star g.
Proof.
  destruct g as [|s|p|e]; simpl; intros Hwf; [by eexists..| |].
  - destruct Hwf as (Hp & Hs & Hd). rewrite head_str_app by done.
    destruct (head_str_total p Hp) as (c & Hc). exists c. rewrite Hc in *.
    split_and_all; [done|congruence|]. rewrite bool_decide_eq_false. congruence.
  - destruct Hwf as (Hp & Hs & Hd & _).
    destruct (head_str_total e Hp) as (c & Hc). exists c. rewrite Hc in *.
    split_and_all; [done|congruence|]. rewrite bool_decide_eq_false. congruence.
Qed.

Lemma glob_last g : glob_wf g →
  ∃ c, last_str (glob_str g) = Ok c ∧ bool_decide (c = star) = ends_star g.
Proof.
  destruct g as [|s|p|e]; cbn [glob_wf glob_str ends_star]; intros Hwf; [by eexists| | |].
  - destruct Hwf as [Hs Hl]. rewrite last_str_cons by done.
    destruct (last_str_total s Hs) as (c & Hc). exists c. rewrite Hc in *.
    split; [done|]. rewrite bool_decide_eq_false. congruence.
  - exists star. split; [apply last_str_app|done].
  - destruct Hwf as (Hp & _ & _ & Hl).
    destruct (last_str_total e Hp) as (c & Hc). exists c. rewrite Hc in *.
    split; [done|]. rewrite bool_decide_eq_false. congruence.
Qed.

Lemma glob_str_inj g1 g2 : glob_wf g1 → glob_wf g2 → glob_str g1 = glob_str g2 → g1 = g2.
Proof.
  intros H1 H2 Heq.
  destruct (glob_head g1 H1) as (c1 & Hc1 & _ & Hs1), (glob_head g2 H2) as (c2 & Hc2 & _ & Hs2).
  destruct (glob_last g1 H1) as (d1 & Hd1 & He1), (glob_last g2 H2) as (d2 & Hd2 & He2).
  rewrite Heq in Hc1, Hd1. assert (c1 = c2) as -> by congruence.
  assert (d1 = d2) as -> by congruence. rewrite Hs1 in Hs2. rewrite He1 in He2.
  destruct g1, g2; simpl in *; try done; try congruence.
  f_equal. by apply app_inj_r in Heq.
Qed.

Lemma glob_overlapb_refl g : glob_wf g → glob_overlapb g g = true.
Proof.
  intros H. apply glob_overlapb_spec; [done..|].
  destruct (glob_inhabited g H) as (h & ? & _). by exists h.
Qed.

Lemma matches_start_suffix s1 s2 :
  s1 ≠ s2 →
  hostglob_matches_start (String star s1) (String star s2) true = endswith s1 s2 || endswith s2 s1.
Proof.
  intros Hne. unfold hostglob_matches_start. rewrite slen_cons. simpl.
  case_bool as Hl.
  - rewrite (endswith_eq_len s2 s1), bool_decide_false by (done || lia).
    by rewrite orb_false_r.
  - rewrite (endswith_eq_len s1 s2), bool_decide_false by (done || lia). done.
Qed.

Lemma matches_start_exact s e :
  hostglob_matches_start (String star s) e false = bool_decide (slen s < slen e) && endswith e s.
Proof.
  unfold hostglob_matches_start. rewrite slen_cons. simpl.
  case_bool as Hl; [rewrite bool_decide_false by lia|rewrite bool_decide_true by lia]; done.
Qed.

Lemma init_star p : init_str (p +:+ "*") = p.
Proof. apply (init_str_app p star). Qed.
Lemma slen_star p : slen (p +:+ "*") = S (slen p).
Proof. rewrite slen_app. simpl. lia. Qed.

Lemma matches_end_prefix p1 p2 :
  p1 ≠ p2 →
  hostglob_matches_end (p1 +:+ "*") (p2 +:+ "*") true = startswith p1 p2 || startswith p2 p1.
Proof.
  intros Hne. unfold hostglob_matches_end. rewrite !init_star, slen_star. simpl.
  case_bool as Hl.
  - rewrite (startswith_eq_len p2 p1), bool_decide_false by (done || lia).
    by rewrite orb_false_r.
  - rewrite (startswith_eq_len p1 p2), bool_decide_false by (done || lia). done.
Qed.

Lemma matches_end_exact p e :
  hostglob_matches_end (p +:+ "*") e false = bool_decide (slen p < slen e) && startswith e p.
Proof.
  unfold hostglob_matches_end. rewrite init_star, slen_star.
  case_bool as Hl; [rewrite bool_decide_false by lia|rewrite bool_decide_true by lia]; done.
Qed.

Lemma hostglob_eval g1 g2 :
  glob_wf g1 → glob_wf g2 →
  hostglob_matches (glob_str g1) (glob_str g2) = Ok (glob_overlapb g1 g2).
Proof.
  intros H1 H2. unfold hostglob_matches.
  case_bool as Heq; [apply glob_str_inj in Heq; [|done..]; subst; by rewrite glob_overlapb_refl|].
  assert (Hne : g1 ≠ g2) by congruence.
  destruct (decide (g1 = GAny)) as [->|Ha1]; [done|].
  destruct (decide (g2 = GAny)) as [->|Ha2].
  { rewrite (bool_decide_true (glob_str GAny = "*")) by done. rewrite orb_true_r. by destruct g1. }
  rewrite !(bool_decide_false (glob_str _ = "*")).
  2,3: intros ?%(glob_str_inj _ GAny); done.
  destruct (glob_head g1 H1) as (c1 & Hc1 & Hnd1 & Hs1), (glob_head g2 H2) as (c2 & Hc2 & Hnd2 & Hs2).
  destruct (glob_last g1 H1) as (d1 & Hd1 & He1), (glob_last g2 H2) as (d2 & Hd2 & He2).
  rewrite Hc1, Hc2, Hd1, Hd2. simpl. rewrite (bool_decide_false (c1 = dot)) by done.
  rewrite (bool_decide_false (c2 = dot)) by done. rewrite Hs1, Hs2, He1, He2.
  destruct g1 as [|s1|p1|e1], g2 as [|s2|p2|e2]; try done; cbn [starts_star ends_star glob_str
    orb andb negb glob_overlapb].
  - rewrite matches_start_suffix by congruence. done.
  - by rewrite matches_start_exact.
  - rewrite matches_end_prefix by congruence. done.
  - by rewrite matches_end_exact.
  - by rewrite matches_start_exact.
  - by rewrite matches_end_exact.
  - rewrite bool_decide_false; [done|]. congruence.
Qed.

(** C1. For valid globs, [hostglob_matches] answers, without raising, exactly
    whether some hostname matches both globs: the star stands for one or more
    characters, so [*example.com] does not match [example.com]. *)
Theorem hostglob_matches_correct g1 g2 :
  glob_wf g1 → glob_wf g2 →
  ∃ b, hostglob_matches (glob_str g1) (glob_str g2) = Ok b ∧ (b = true ↔ globs_overlap g1 g2).
Proof.
  intros H1 H2. eexists. split; [by apply hostglob_eval|]. by apply glob_overlapb_spec.
Qed.

Lemma hostglob_matches_correct_witness :
  ∃ b, hostglob_matches "*.example.com" "foo.example.*" = Ok b
       ∧ (b = true ↔ globs_overlap (GSuffix ".example.com") (GPrefix "foo.example.")).
Proof.
  apply (hostglob_matches_correct (GSuffix ".example.com") (GPrefix "foo.example."));
    simpl; split_and_all; done.
Defined.

(** Two stars at the same end: the comparison does not depend on which glob
    comes first. *)
Lemma matches_start_comm t1 t2 : t1 ≠ t2 →
  hostglob_matches_start (String star t1) (String star t2) true
  = hostglob_matches_start (String star t2) (String star t1) true.
Proof. intros. rewrite !matches_start_suffix by done. apply orb_comm. Qed.
Lemma matches_end_comm t1 t2 : t1 ≠ t2 →
  hostglob_matches_end (t1 +:+ "*") (t2 +:+ "*") true
  = hostglob_matches_end (t2 +:+ "*") (t1 +:+ "*") true.
Proof. intros. rewrite !matches_end_prefix by done. apply orb_comm. Qed.

(** [hostglob_matches] is symmetric on every pair of nonempty strings,
    valid globs or not. *)
Theorem hostglob_matches_sym g1 g2 :
  g1 ≠ EmptyString → g2 ≠ EmptyString → hostglob_matches g1 g2 = hostglob_matches g2 g1.
Proof.
  intros Hn1 Hn2. unfold hostglob_matches.
  rewrite (bool_decide_ext (g2 = g1) (g1 = g2)) by naive_solver.
  case_bool as Hne; [done|]. rewrite (orb_comm (bool_decide (g2 = _))).
  destruct (_ || _); [done|].
  destruct g1 as [|h1 t1]; [done|]. destruct g2 as [|h2 t2]; [done|]. cbn [head_str mbind res_bind].
  destruct (last_str_total (String h1 t1) Hn1) as (l1 & Hl1), (last_str_total (String h2 t2) Hn2) as (l2 & Hl2).
  rewrite Hl1, Hl2. cbn [mbind res_bind].
  destruct (bool_decide (h1 = dot)), (bool_decide (h2 = dot)); try done.
  destruct (bool_decide_reflect (h1 = star)) as [->|]; destruct (bool_decide_reflect (h2 = star)) as [->|];
    destruct (bool_decide_reflect (l1 = star)) as [->|]; destruct (bool_decide_reflect (l2 = star)) as [->|];
    cbn [orb andb negb]; try done.
  - rewrite matches_start_comm; [done|congruence].
  - apply last_str_Ok in Hl1. apply last_str_Ok in Hl2. rewrite Hl1, Hl2.
    rewrite (matches_end_comm (init_str _)); [done|]. intros E. apply Hne. by rewrite Hl1, Hl2, E.
Qed.

Lemma hostglob_matches_sym_witness :
  hostglob_matches "*.a.b" "x.a.*" = hostglob_matches "x.a.*" "*.a.b".
Proof. by apply hostglob_matches_sym. Defined.

(** ** Label selectors *)

Definition str_dict (d : dict string) : dict pyval := (λ kv, (kv.1, PStr kv.2)) <$> d.

Lemma dget_str_dict k d : dget k (str_dict d) = PStr <$> dget k d.
Proof.
  induction d as [|[k' v] d IH]; [done|].
  change (str_dict ((k', v) :: d)) with ((k', PStr v) :: str_dict d). simpl. by case_bool.
Qed.

Lemma label_hit_str ld k v : label_hit (str_dict ld) (k, PStr v) = true ↔ dget k ld = Some v.
Proof.
  unfold label_hit, pget, dget_default; simpl. rewrite dget_str_dict.
  destruct (dget k ld) as [w|]; simpl; [|naive_solver].
  rewrite bool_decide_eq_true. naive_solver.
Qed.

Lemma selector_loop_any_spec ld md :
  selector_loop_any (str_dict ld) (str_dict md) = true ↔ ∃ k v, (k, v) ∈ md ∧ dget k ld = Some v.
Proof.
  induction md as [|[k v] md IH]; [set_solver|].
  change (str_dict ((k, v) :: md)) with ((k, PStr v) :: str_dict md). cbn [selector_loop_any].
  destruct (label_hit _ _) eqn:E.
  - apply label_hit_str in E. split; [|done]. intros _. exists k, v. split; [left|done].
  - rewrite IH. setoid_rewrite elem_of_cons.
    assert (dget k ld ≠ Some v) by (rewrite <- label_hit_str; by rewrite E). naive_solver.
Qed.

Lemma selector_loop_all_spec ld md :
  selector_loop_all (str_dict ld) (str_dict md) = true ↔ ∀ k v, (k, v) ∈ md → dget k ld = Some v.
Proof.
  induction md as [|[k v] md IH]; [set_solver|].
  change (str_dict ((k, v) :: md)) with ((k, PStr v) :: str_dict md). cbn [selector_loop_all].
  setoid_rewrite elem_of_cons. destruct (label_hit _ _) eqn:E.
  - apply label_hit_str in E. rewrite IH. naive_solver.
  - assert (dget k ld ≠ Some v) by (rewrite <- label_hit_str; by rewrite E). naive_solver.
Qed.

Lemma selector_matches_spec env sel md ld loose :
  dget "matchLabels" sel = Some (PDict (str_dict md)) →
  disable_strict_selectors env = Ok loose →
  ∃ b, selector_matches env (PDict sel) (PDict (str_dict ld)) = Ok b ∧
    (b = true ↔ if (loose : bool) then md = [] ∨ ∃ k v, (k, v) ∈ md ∧ dget k ld = Some v
                else ∀ k v, (k, v) ∈ md → dget k ld = Some v).
Proof.
  intros Hm He. unfold selector_matches, vget, dget_default. rewrite Hm, He. cbn [mbind res_bind default].
  destruct md as [|[k0 v0] md]; [exists true; destruct loose; set_solver|].
  unfold py_or. cbn. destruct ld as [|p ld].
  - exists false. split; [done|]. destruct loose; [naive_solver|].
    split; [done|]. intros H. by specialize (H k0 v0 (list_elem_of_here _ _)).
  - destruct loose; (eexists; split; [reflexivity|]).
    + change (selector_loop_any (str_dict (p :: ld)) (str_dict ((k0, v0) :: md)) = true ↔
        (k0, v0) :: md = [] ∨ ∃ k v, (k, v) ∈ (k0, v0) :: md ∧ dget k (p :: ld) = Some v).
      rewrite selector_loop_any_spec. naive_solver.
    + apply (selector_loop_all_spec (p :: ld) ((k0, v0) :: md)).
Qed.

(** On string labels [selector_matches] never raises.  In strict mode it
    holds exactly when every label of the selector is on the resource with the
    same value; in the deprecated mode exactly when the selector is empty or
    one label agrees. *)
Theorem selector_matches_correct env sel md ld loose :
  dget "matchLabels" sel = Some (PDict (str_dict md)) →
  disable_strict_selectors env = Ok loose →
  ∃ b, selector_matches env (PDict sel) (PDict (str_dict ld)) = Ok b ∧
    (b = true ↔ if (loose : bool) then md = [] ∨ ∃ k v, (k, v) ∈ md ∧ dget k ld = Some v
                else ∀ k v, (k, v) ∈ md → dget k ld = Some v).
Proof. apply selector_matches_spec. Qed.

Lemma selector_matches_correct_witness :
  ∃ b, selector_matches [] (PDict [("matchLabels", PDict [("app", PStr "x"); ("tier", PStr "web")])])
         (PDict [("tier", PStr "web"); ("app", PStr "x")]) = Ok b ∧
    (b = true ↔ ∀ k v, (k, v) ∈ [("app", "x"); ("tier", "web")] →
                       dget k [("tier", "web"); ("app", "x")] = Some v).
Proof.
  apply (selector_matches_correct [] [("matchLabels", PDict (str_dict [("app", "x"); ("tier", "web")]))]
    [("app", "x"); ("tier", "web")] [("tier", "web"); ("app", "x")] false); vm_compute; reflexivity.
Defined.
