(* ===== verification/Cache.v ===== *)
(** * The resource cache ([cache.py])

    [Cache] keeps resources by cache key, with directed ownership links;
    [invalidate] deletes a key and everything it transitively owns.
    [NullCache] is the no-op implementation.  What clients rely on is the
    class [CacheLaws], which both implementations satisfy. *)

From S2P Require Import Prelude PyStr PyVal.

(** ** Cacheable resources *)

(** What the cache needs of a resource: its [cache_key] property. *)
Class Cacheable (R : Type) := cache_key : R → res string.

(** The property of class [Cacheable]: an unset or empty key raises. *)
Definition Cacheable_cache_key (_cache_key : option string) : res string :=
  match _cache_key with
  | Some k => if str_bool k then Ok k else Raise (RuntimeError "cache key is not set")
  | None => Raise (RuntimeError "cache key is not set")
  end.

(** The property as [IRResource] overrides it: only an unset key raises. *)
Definition IRResource_cache_key (_cache_key : option string) : res string :=
  match _cache_key with
  | Some k => Ok k
  | None => Raise (AssertionError EmptyString)
  end.

Section cache.
Context {R H : Type} `{!Cacheable R}.

(** An entry is the resource and its optional deletion handler; [calls] logs
    the handler calls in the order they are made. *)
#[local] Notation CacheEntry := (R * option H)%type.

Record Cache : Type := mkCache {
  cache : gmap string CacheEntry;
  links : gmap string (gset string);
  hits : Z;
  misses : Z;
  invalidate_calls : Z;
  invalidated_objects : Z;
  calls : list (H * R)
}.

(** [__init__] *)
Definition Cache_init : Cache := mkCache ∅ ∅ 0 0 0 0 [].

Definition reset_stats (c : Cache) : Cache :=
  mkCache (cache c) (links c) 0 0 0 0 (calls c).

Definition add (c : Cache) (rsrc : R) (on_delete : option H) : res Cache :=
  key ← cache_key rsrc;
  if negb (str_bool key) then Ok c
  else match cache c !! key with
       | Some _ => Ok c
       | None => Ok (mkCache (<[key := (rsrc, on_delete)]> (cache c)) (links c) (hits c) (misses c)
                       (invalidate_calls c) (invalidated_objects c) (calls c))
       end.

Definition link (c : Cache) (owner owned : R) : res Cache :=
  owner_key ← cache_key owner;
  owned_key ← cache_key owned;
  if negb (str_bool owner_key) then Ok c
  else if negb (str_bool owned_key) then Ok c
  else match cache c !! owner_key with
       | None => Ok c
       | Some _ =>
           match cache c !! owned_key with
           | None => Ok c
           | Some _ =>
               Ok (mkCache (cache c)
                     (<[owner_key := default ∅ (links c !! owner_key) ∪ {[ owned_key ]}]> (links c))
                     (hits c) (misses c) (invalidate_calls c) (invalidated_objects c) (calls c))
           end
       end.

(** [sorted(self.links[key])] when [key] has links. *)
Definition sorted_links (c : Cache) (key : string) : list string :=
  match links c !! key with
  | Some s => py_sorted str_le id (elements s)
  | None => []
  end.

(** The [while worklist] loop of [invalidate]: it fills [to_delete]. *)
Fixpoint collect (fuel : nat) (c : Cache) (worklist : list string) (to_delete : dict CacheEntry)
    : option (dict CacheEntry) :=
  match worklist with
  | [] => Some to_delete
  | key :: worklist =>
      match fuel with
      | 0 => None
      | S fuel =>
          match cache c !! key with
          | None => collect fuel c worklist to_delete
          | Some rsrc_handler =>
              if dmem key to_delete then collect fuel c worklist to_delete
              else collect fuel c (worklist ++ sorted_links c key)
                     (dset key rsrc_handler to_delete)
          end
      end
  end.

(** One turn of the deletion loop of [invalidate]. *)
Definition smite (c : Cache) (kd : string * CacheEntry) : Cache :=
  mkCache (delete kd.1 (cache c)) (delete kd.1 (links c)) (hits c) (misses c)
    (invalidate_calls c) (invalidated_objects c + 1)
    (match kd.2.2 with Some on_delete => calls c ++ [(on_delete, kd.2.1)] | None => calls c end).

(** An upper bound on the turns of the worklist loop: the starting key and
    every link once. *)
Definition invalidate_fuel (c : Cache) : nat :=
  S (sum_list_with (λ p : string * gset string, size p.2) (map_to_list (links c))).

Definition bump_invalidate (c : Cache) : Cache :=
  mkCache (cache c) (links c) (hits c) (misses c) (invalidate_calls c + 1)
    (invalidated_objects c) (calls c).

(** [invalidate]; [None] would be a worklist loop cut short. *)
Definition invalidate (c : Cache) (key : string) : option Cache :=
  let c := bump_invalidate c in
  to_delete ← collect (invalidate_fuel c) c [key] [];
  Some (foldl smite c to_delete).

(** [__getitem__] *)
Definition getitem (c : Cache) (key : string) : option R * Cache :=
  match cache c !! key with
  | Some item =>
      (Some item.1, mkCache (cache c) (links c) (hits c + 1) (misses c) (invalidate_calls c)
                      (invalidated_objects c) (calls c))
  | None =>
      (None, mkCache (cache c) (links c) (hits c) (misses c + 1) (invalidate_calls c)
               (invalidated_objects c) (calls c))
  end.

(** ** The worklist loop terminates within the fuel *)

(** Links whose owner is not yet in [to_delete]. *)
Definition pending (c : Cache) (to_delete : dict CacheEntry) : nat :=
  sum_list_with (λ p : string * gset string, if dmem p.1 to_delete then 0 else size p.2)
    (map_to_list (links c)).

Lemma length_sorted_links c key :
  length (sorted_links c key) = match links c !! key with Some s => size s | None => 0 end.
Proof. unfold sorted_links. destruct (links c !! key); [|done]. by rewrite length_py_sorted. Qed.

Lemma elem_of_sorted_links c key b :
  b ∈ sorted_links c key ↔ ∃ s, links c !! key = Some s ∧ b ∈ s.
Proof.
  unfold sorted_links. destruct (links c !! key) as [s|]; [|set_solver].
  rewrite elem_of_py_sorted, elem_of_elements. naive_solver.
Qed.

Lemma pending_dset c key e td :
  dmem key td = false →
  pending c (dset key e td) + length (sorted_links c key) ≤ pending c td.
Proof.
  intros Hk. rewrite length_sorted_links. unfold pending.
  assert (Hmono : ∀ l : list (string * gset string),
    sum_list_with (λ p, if dmem p.1 (dset key e td) then 0 else size p.2) l
    ≤ sum_list_with (λ p, if dmem p.1 td then 0 else size p.2) l).
  { induction l as [|p l IH]; simpl; [done|]. rewrite dmem_dset.
    case_bool; simpl; destruct (dmem p.1 td); lia. }
  destruct (links c !! key) as [s|] eqn:Hs; [|specialize (Hmono (map_to_list (links c))); lia].
  apply elem_of_map_to_list, list_elem_of_split in Hs as (l1 & l2 & ->).
  rewrite !sum_list_with_app. simpl. rewrite dmem_dset, Hk, bool_decide_true by done. simpl.
  pose proof (Hmono l1). pose proof (Hmono l2). lia.
Qed.

Lemma collect_total c fuel wl td :
  length wl + pending c td ≤ fuel → is_Some (collect fuel c wl td).
Proof.
  revert wl td. induction fuel as [|fuel IH]; intros [|key wl] td Hf; simpl in *;
    [by eexists|lia|by eexists|].
  destruct (cache c !! key) as [e|]; [|apply IH; lia].
  destruct (dmem key td) eqn:Hk; [apply IH; lia|].
  apply IH. rewrite length_app. pose proof (pending_dset c key e td Hk). lia.
Qed.

Lemma collect_fuel_enough c key : is_Some (collect (invalidate_fuel c) c [key] []).
Proof. by apply collect_total. Qed.

(** ** What the worklist loop collects *)

(** [a] owns [b], both cached. *)
Definition owns (c : Cache) (a b : string) : Prop :=
  is_Some (cache c !! a) ∧ is_Some (cache c !! b) ∧ ∃ s, links c !! a = Some s ∧ b ∈ s.

(** The cached keys that [key] transitively owns, itself included. *)
Definition doomed (c : Cache) (key k : string) : Prop :=
  is_Some (cache c !! key) ∧ rtc (owns c) key k.

Lemma doomed_cached c key k : doomed c key k → is_Some (cache c !! k).
Proof. intros [? Hr]. induction Hr as [|x y z (_ & ? & _)]; auto. Qed.

Record collecting (c : Cache) (key : string) (wl : list string) (td : dict CacheEntry) : Prop := {
  col_entries : ∀ k e, dget k td = Some e → cache c !! k = Some e;
  col_ok : dict_ok td;
  col_doomed : ∀ k, k ∈ dkeys td → doomed c key k;
  col_todo : ∀ k, k ∈ wl → is_Some (cache c !! k) → doomed c key k;
  col_start : is_Some (cache c !! key) → key ∈ dkeys td ∨ key ∈ wl;
  col_closed : ∀ a b, a ∈ dkeys td → owns c a b → b ∈ dkeys td ∨ b ∈ wl
}.

Lemma collecting_skip c key k wl td :
  collecting c key (k :: wl) td → cache c !! k = None ∨ k ∈ dkeys td → collecting c key wl td.
Proof.
  intros [He Ho Hd Ht Hs Hc] Hk. split; [done..| | |].
  - intros k' Hk'. apply Ht. by right.
  - intros Hkey. destruct (Hs Hkey) as [?|[->|?]%elem_of_cons]; [by left| |by right].
    destruct Hk as [Hk|?]; [|by left]. rewrite Hk in Hkey. by destruct Hkey.
  - intros a b Ha Hab. destruct (Hc a b Ha Hab) as [?|[->|?]%elem_of_cons]; [by left| |by right].
    destruct Hk as [Hk|?]; [|by left]. destruct Hab as (_ & Hb & _). rewrite Hk in Hb. by destruct Hb.
Qed.

Lemma collecting_take c key k e wl td :
  collecting c key (k :: wl) td → cache c !! k = Some e → k ∉ dkeys td →
  collecting c key (wl ++ sorted_links c k) (dset k e td).
Proof.
  intros [He Ho Hd Ht Hs Hc] Hk Hnew.
  assert (Hdk : doomed c key k) by (apply Ht; [left|by eexists]).
  split.
  - intros k' e'. rewrite dget_dset. case_bool; [naive_solver|auto].
  - by apply dict_ok_dset.
  - intros k' [->|?]%elem_of_dkeys_dset; auto.
  - intros k' [?|(s & Hl & Hin)%elem_of_sorted_links]%elem_of_app Hc'; [apply Ht; [by right|done]|].
    destruct Hdk as [Hkey Hr]. split; [done|]. eapply rtc_r; [done|].
    split; [by eexists|]. split; [done|]. by exists s.
  - intros Hkey. rewrite elem_of_dkeys_dset, elem_of_app.
    destruct (Hs Hkey) as [?|[->|?]%elem_of_cons]; auto.
  - intros a b Ha Hab. rewrite elem_of_dkeys_dset, elem_of_app.
    apply elem_of_dkeys_dset in Ha as [->|Ha].
    + right. right. apply elem_of_sorted_links. by destruct Hab as (_ & _ & ?).
    + destruct (Hc a b Ha Hab) as [?|[->|?]%elem_of_cons]; auto.
Qed.

Lemma collect_collecting c key fuel wl td out :
  collecting c key wl td → collect fuel c wl td = Some out → collecting c key [] out.
Proof.
  revert wl td. induction fuel as [|fuel IH]; intros [|k wl] td Hcol Hrun; simpl in Hrun;
    [naive_solver|done|naive_solver|].
  destruct (cache c !! k) as [e|] eqn:Hk.
  - destruct (dmem k td) eqn:Hm.
    + eapply IH, Hrun. eapply collecting_skip; [done|]. right. by apply dmem_true.
    + eapply IH, Hrun. eapply collecting_take; [done..|].
      rewrite <- dmem_true. by rewrite Hm.
  - eapply IH, Hrun. eapply collecting_skip; [done|by left].
Qed.

Lemma collecting_init c key : collecting c key [key] [].
Proof.
  split; [done|apply dict_ok_nil|set_solver| |set_solver|set_solver].
  intros k ->%list_elem_of_singleton Hk. by split.
Qed.

Lemma collect_keys c key fuel out :
  collect fuel c [key] [] = Some out → ∀ k, k ∈ dkeys out ↔ doomed c key k.
Proof.
  intros Hrun. pose proof (collect_collecting _ _ _ _ _ _ (collecting_init c key) Hrun) as [].
  intros k. split; [auto|]. intros [Hkey Hr].
  apply (rtc_closed (owns c) (λ x, x ∈ dkeys out) key k); [|done|].
  - intros a b Ha Hab. destruct (col_closed0 a b Ha Hab); set_solver.
  - destruct (col_start0 Hkey); set_solver.
Qed.

(** ** The deletion loop *)

Lemma smites_cache c td k :
  cache (foldl smite c td) !! k = (if dmem k td then None else cache c !! k)
  ∧ links (foldl smite c td) !! k = (if dmem k td then None else links c !! k).
Proof.
  revert c. induction td as [|[k' e] td IH]; intros c; cbn [foldl]; [done|].
  destruct (IH (smite c (k', e))) as [-> ->]. unfold dmem; simpl.
  case_bool as Hk; [subst; rewrite !lookup_delete_eq; by destruct (dget k' td)|].
  by rewrite !lookup_delete_ne.
Qed.

Definition handler_calls (td : dict CacheEntry) : list (H * R) :=
  omap (λ e : CacheEntry, h ← e.2; Some (h, e.1)) (dvalues td).

Lemma smites_log c td :
  invalidated_objects (foldl smite c td) = (invalidated_objects c + Z.of_nat (length td))%Z
  ∧ calls (foldl smite c td) = calls c ++ handler_calls td.
Proof.
  revert c. induction td as [|[k [r h]] td IH]; intros c; cbn [foldl].
  { split; [simpl; lia|]. cbn. by rewrite app_nil_r. }
    destruct (IH (smite c (k, (r, h)))) as [-> ->]. split; [simpl; lia|].
  unfold handler_calls; simpl. destruct h; simpl; [|done]. by rewrite <- app_assoc.
Qed.

Lemma smites_stats c td :
  hits (foldl smite c td) = hits c ∧ misses (foldl smite c td) = misses c
  ∧ invalidate_calls (foldl smite c td) = invalidate_calls c.
Proof. revert c. induction td as [|p td IH]; intros c; simpl; [done|]. apply (IH (smite c p)). Qed.

Lemma size_remove (m m' : gmap string CacheEntry) (l : list string) :
  NoDup l → (∀ k, k ∈ l → is_Some (m !! k)) →
  (∀ k, m' !! k = if bool_decide (k ∈ l) then None else m !! k) →
  size m = size m' + length l.
Proof.
  intros Hl Hin Hm'.
  assert (Hd : dom m = dom m' ∪ list_to_set l).
  { apply set_eq. intros k. rewrite elem_of_union, elem_of_list_to_set, !elem_of_dom, Hm'.
    case_bool; [naive_solver|]. naive_solver. }
  rewrite <- !size_dom, Hd, size_union; [by rewrite size_list_to_set|].
  intros k Hk1 Hk2. apply elem_of_list_to_set in Hk2. apply elem_of_dom in Hk1.
  rewrite Hm', bool_decide_true in Hk1 by done. by destruct Hk1.
Qed.

(** C2. [invalidate] always terminates, and deletes exactly the cached keys
    that the given key transitively owns through cached owners: every other
    entry and every other link set stays, the object counter grows by the
    number of entries deleted, and each deleted entry's handler is called with
    its resource exactly once. *)
Theorem invalidate_exact c key :
  ∃ c', invalidate c key = Some c' ∧
    (∀ k, doomed c key k → cache c' !! k = None ∧ links c' !! k = None) ∧
    (∀ k, ¬ doomed c key k → cache c' !! k = cache c !! k ∧ links c' !! k = links c !! k) ∧
    invalidated_objects c' = (invalidated_objects c + Z.of_nat (size (cache c) - size (cache c')))%Z ∧
    ∃ td, NoDup (dkeys td) ∧ (∀ k e, (k, e) ∈ td ↔ doomed c key k ∧ cache c !! k = Some e) ∧
          calls c' = calls c ++ handler_calls td.
Proof.
  destruct (collect_fuel_enough (bump_invalidate c) key) as [td Htd].
  exists (foldl smite (bump_invalidate c) td). unfold invalidate. rewrite Htd.
  assert (Hkeys : ∀ k, dmem k td = true ↔ doomed c key k)
    by (intros k; rewrite dmem_true; by apply (collect_keys _ _ _ _ Htd)).
  pose proof (collect_collecting _ _ _ _ _ _ (collecting_init _ key) Htd) as [He Hok _ _ _ _].
  destruct (smites_log (bump_invalidate c) td) as [Hn Hc].
  split; [done|]. split_and_all.
  - intros k Hk%Hkeys. destruct (smites_cache (bump_invalidate c) td k) as [-> ->]. by rewrite Hk.
  - intros k Hk. destruct (smites_cache (bump_invalidate c) td k) as [-> ->].
    destruct (dmem k td) eqn:E; [by apply Hkeys in E|done].
  - rewrite Hn. simpl. do 2 f_equal.
    rewrite (size_remove (cache c) (cache (foldl smite (bump_invalidate c) td)) (dkeys td)).
    + unfold dkeys. rewrite length_fmap. lia.
    + done.
    + intros k Hk. by apply (doomed_cached c key), Hkeys, dmem_true.
    + intros k. destruct (smites_cache (bump_invalidate c) td k) as [-> _]. simpl.
      rewrite <- (bool_decide_ext _ _ (dmem_true k td)). by destruct (dmem k td).
  - exists td. split_and_all; [done| |done]. intros k e. rewrite <- Hkeys, dmem_true. split.
    + intros Hin. split; [by apply list_elem_of_fmap; exists (k, e)|].
      by apply He, elem_of_dget.
    + intros [Hin Hce]. apply dget_is_Some in Hin as [e' Hg].
      pose proof (He _ _ Hg) as He'. simpl in He'. rewrite Hce in He'. simplify_eq.
      by apply dget_elem_of.
Qed.

(** ** The invariant of the cache *)

(** Every entry is stored under its own nonempty key, and only cached
    resources own links.  (The owned end of a link may dangle.) *)
Record cache_wf (c : Cache) : Prop := {
  wf_key : ∀ k e, cache c !! k = Some e → cache_key e.1 = Ok k ∧ k ≠ EmptyString;
  wf_links : ∀ k, is_Some (links c !! k) → is_Some (cache c !! k)
}.

(** One call of the public interface. *)
Inductive cache_step : Cache → Cache → Prop :=
  | step_add c r h c' : add c r h = Ok c' → cache_step c c'
  | step_link c r1 r2 c' : link c r1 r2 = Ok c' → cache_step c c'
  | step_invalidate c k c' : invalidate c k = Some c' → cache_step c c'
  | step_getitem c k : cache_step c (getitem c k).2
  | step_reset_stats c : cache_step c (reset_stats c).

Lemma add_Ok c r h c' :
  add c r h = Ok c' →
  ∃ key, cache_key r = Ok key ∧
    ((c' = c ∧ (key = EmptyString ∨ is_Some (cache c !! key))) ∨
     (key ≠ EmptyString ∧ cache c !! key = None ∧ cache c' = <[key := (r, h)]> (cache c)
      ∧ links c' = links c)).
Proof.
  unfold add. intros Hadd. res_inv. rename x into key. exists key. split; [done|].
  destruct key as [|a key]; cbn in Hadd; [res_inv; auto|].
  destruct (cache c !! String a key) eqn:E; res_inv; [left|by right].
  split; [done|]. right. by eexists.
Qed.

Lemma link_Ok c r1 r2 c' :
  link c r1 r2 = Ok c' →
  cache c' = cache c ∧
  (links c' = links c ∨ ∃ k s, is_Some (cache c !! k) ∧ links c' = <[k := s]> (links c)).
Proof.
  unfold link. intros Hlink. res_inv.
  repeat case_match; res_inv; simpl; split; auto. right.
  eexists _, _. split; [|done]. by eexists.
Qed.

Lemma invalidate_lookup c key c' k :
  invalidate c key = Some c' →
  (cache c' !! k = None ∧ links c' !! k = None) ∨
  (cache c' !! k = cache c !! k ∧ links c' !! k = links c !! k).
Proof.
  unfold invalidate. destruct (collect _ _ _ _) as [td|]; simpl; [|done]. intros [= <-].
  destruct (smites_cache (bump_invalidate c) td k) as [-> ->]. destruct (dmem k td); auto.
Qed.

Lemma cache_wf_init : cache_wf Cache_init.
Proof. split; simpl; [intros k e|intros k]; rewrite lookup_empty; [done|]. by intros []. Qed.

Lemma cache_step_wf c c' : cache_step c c' → cache_wf c → cache_wf c'.
Proof.
  intros Hstep [Hk Hl]. destruct Hstep as [c r h c' Hadd|c r1 r2 c' Hlink|c k c' Hinv|c k|c].
  - apply add_Ok in Hadd as (key & Hkey & [[-> _]|(Hne & Hnone & Hc & Hls)]); [by split|].
    split; rewrite Hc, ?Hls.
    + intros k e [[<- <-]|[_ ?]]%lookup_insert_Some; [done|auto].
    + intros k Hs. apply lookup_insert_is_Some'. auto.
  - apply link_Ok in Hlink as (Hc & Hls). split; rewrite Hc; [done|].
    destruct Hls as [->|(k & s & Hs & ->)]; [done|].
    intros k' [<-|?]%lookup_insert_is_Some'; auto.
  - split.
    + intros k' e. destruct (invalidate_lookup _ _ _ k' Hinv) as [[-> _]|[-> _]]; [done|auto].
    + intros k'. destruct (invalidate_lookup _ _ _ k' Hinv) as [[_ ->]|[-> ->]]; [by intros []|auto].
  - unfold getitem. by destruct (cache c !! k); split.
  - by split.
Qed.

(** C38. After any sequence of calls on a new cache, every entry is stored under
    its own nonempty cache key and no key that is not cached owns links. *)
Theorem cache_reachable_wf c : rtc cache_step Cache_init c → cache_wf c.
Proof.
  intros Hr. apply (rtc_closed cache_step cache_wf Cache_init c); [|done|apply cache_wf_init].
  intros a b ? ?. by eapply cache_step_wf.
Qed.

Lemma getitem_lookup c k : (getitem c k).1 = fst <$> cache c !! k.
Proof. unfold getitem. by destruct (cache c !! k). Qed.

Lemma getitem_cache c k : cache (getitem c k).2 = cache c ∧ links (getitem c k).2 = links c.
Proof. unfold getitem. by destruct (cache c !! k). Qed.

(** [add] is first-writer-wins: after adding a resource with key [key],
    fetching [key] gives the resource that was already there, if any, and the
    new one otherwise; every other key is unaffected. *)
Theorem add_getitem c r h key :
  cache_key r = Ok key → key ≠ EmptyString →
  ∃ c', add c r h = Ok c' ∧
    ∀ k, (getitem c' k).1 = if bool_decide (k = key) then Some (default r (getitem c key).1)
                            else (getitem c k).1.
Proof.
  intros Hkey Hne. unfold add. rewrite Hkey. cbn [mbind res_bind].
  destruct key as [|a key]; [done|]. cbn [str_bool negb]. destruct (cache c !! String a key) eqn:E.
  - exists c. split; [done|]. intros k. rewrite !getitem_lookup, E. simpl.
    case_bool as Hk; [|done]. subst. by rewrite E.
  - eexists. split; [done|]. intros k. rewrite !getitem_lookup, E. simpl.
    case_bool as Hk; [subst; by rewrite lookup_insert_eq|]. by rewrite lookup_insert_ne.
Qed.

Lemma invalidate_some c key : ∃ c', invalidate c key = Some c' ∧ cache c' !! key = None.
Proof.
  unfold invalidate. destruct (collect_fuel_enough (bump_invalidate c) key) as [td Htd].
  rewrite Htd. eexists. split; [done|].
  destruct (smites_cache (bump_invalidate c) td key) as [-> _]. destruct (dmem key td) eqn:E; [done|].
  destruct (cache (bump_invalidate c) !! key) eqn:Hc; [|done].
  apply not_true_iff_false in E. exfalso. apply E.
  apply dmem_true, (collect_keys _ _ _ _ Htd). split; [by eexists|done].
Qed.

End cache.

Arguments Cache : clear implicits.

(** ** [NullCache] *)

(** [NullCache.__init__] sets only the statistics. *)
Record NullCache : Type := mkNullCache {
  null_hits : Z;
  null_misses : Z;
  null_invalidate_calls : Z;
  null_invalidated_objects : Z
}.

Definition NullCache_init : NullCache := mkNullCache 0 0 0 0.
Definition null_add {R H} (c : NullCache) (rsrc : R) (on_delete : option H) : res NullCache := Ok c.
Definition null_link {R} (c : NullCache) (owner owned : R) : res NullCache := Ok c.
Definition null_invalidate (c : NullCache) (key : string) : option NullCache :=
  Some (mkNullCache (null_hits c) (null_misses c) (null_invalidate_calls c + 1)
          (null_invalidated_objects c)).
Definition null_getitem {R} (c : NullCache) (key : string) : option R * NullCache :=
  (None, mkNullCache (null_hits c) (null_misses c + 1) (null_invalidate_calls c)
           (null_invalidated_objects c)).

(** ** The interface clients program against

    No client passes a deletion handler. *)

Class CacheOps (C R : Type) := {
  c_add : C → R → res C;
  c_link : C → R → R → res C;
  c_invalidate : C → string → option C;
  c_getitem : C → string → option R * C
}.

Class CacheLaws (C R : Type) `{!Cacheable R} `{ops : !CacheOps C R} := {
  c_inv : C → Prop;
  c_inv_add (c : C) (r : R) c' : c_inv c → c_add c r = Ok c' → c_inv c';
  c_inv_link (c : C) (r1 r2 : R) c' : c_inv c → c_link c r1 r2 = Ok c' → c_inv c';
  c_inv_invalidate (c : C) k c' : c_inv c → c_invalidate (R := R) c k = Some c' → c_inv c';
  c_inv_getitem (c : C) k : c_inv c → c_inv (c_getitem (R := R) c k).2;
  c_getitem_key (c : C) k (r : R) : c_inv c → (c_getitem c k).1 = Some r → cache_key r = Ok k;
  c_getitem_pure (c : C) k k' (r : R) :
    (c_getitem (c_getitem (R := R) c k).2 k').1 = Some r ↔ (c_getitem c k').1 = Some r;
  c_invalidate_total (c : C) k :
    ∃ c', c_invalidate (R := R) c k = Some c' ∧ (c_getitem (R := R) c' k).1 = None;
  c_invalidate_shrinks (c : C) k c' k' (r : R) :
    c_invalidate (R := R) c k = Some c' → (c_getitem c' k').1 = Some r → (c_getitem c k').1 = Some r;
  c_add_fetch (c : C) (r : R) c' k r' :
    c_add c r = Ok c' → (c_getitem c' k).1 = Some r' → r' = r ∨ (c_getitem c k).1 = Some r';
  c_link_fetch (c : C) (r1 r2 : R) c' k (r : R) :
    c_link c r1 r2 = Ok c' → (c_getitem c' k).1 = Some r → (c_getitem c k).1 = Some r;
  c_add_total (c : C) (r : R) : is_Ok (cache_key r) → ∃ c', c_add c r = Ok c';
  c_link_total (c : C) (r1 r2 : R) : is_Ok (cache_key r1) → is_Ok (cache_key r2) → ∃ c', c_link c r1 r2 = Ok c'
}.

#[export] Instance Cache_ops {R H} `{!Cacheable R} : CacheOps (Cache R H) R := {|
  c_add := λ c r, add c r None; c_link := link; c_invalidate := invalidate;
  c_getitem := getitem |}.

#[export] Instance NullCache_ops {R} : CacheOps NullCache R := {|
  c_add := λ c r, null_add (H := unit) c r None; c_link := null_link;
  c_invalidate := null_invalidate; c_getitem := null_getitem |}.

#[export] Program Instance Cache_laws {R H} `{!Cacheable R} : CacheLaws (Cache R H) R := {|
  c_inv := cache_wf |}.
Next Obligation. intros R H ? c r c' Hwf Hc. exact (cache_step_wf _ _ (step_add _ _ _ _ Hc) Hwf). Qed.
Next Obligation. intros R H ? c r1 r2 c' Hwf Hc. exact (cache_step_wf _ _ (step_link _ _ _ _ Hc) Hwf). Qed.
Next Obligation. intros R H ? c k c' Hwf Hc. exact (cache_step_wf _ _ (step_invalidate _ _ _ Hc) Hwf). Qed.
Next Obligation. intros R H ? c k Hwf. exact (cache_step_wf _ _ (step_getitem c k) Hwf). Qed.
Next Obligation.
  intros R H ? c k r [Hk _]. cbn. rewrite getitem_lookup.
  intros (e & Hc & ->)%fmap_Some. by apply Hk in Hc as [? _].
Qed.
Next Obligation.
  intros R H ? c k k' r. cbn. rewrite !getitem_lookup. by destruct (getitem_cache c k) as [-> _].
Qed.
Next Obligation.
  intros R H ? c k. destruct (invalidate_some c k) as (c' & Hi & Hn). exists c'. split; [done|].
  cbn. by rewrite getitem_lookup, Hn.
Qed.
Next Obligation.
  intros R H ? c k c' k' r Hi. cbn. rewrite !getitem_lookup.
  destruct (invalidate_lookup _ _ _ k' Hi) as [[-> _]|[-> _]]; done.
Qed.
Next Obligation.
  intros R H ? c r c' k r' Ha. cbn. rewrite !getitem_lookup.
  apply add_Ok in Ha as (key & _ & [[-> _]|(_ & _ & -> & _)]); [by right|].
  destruct (decide (k = key)) as [->|]; [rewrite lookup_insert_eq; simpl; intros [= ->]; auto|].
  rewrite lookup_insert_ne by done. auto.
Qed.
Next Obligation.
  intros R H ? c r1 r2 c' k r Hl. cbn. rewrite !getitem_lookup. by destruct (link_Ok _ _ _ _ Hl) as [-> _].
Qed.
Next Obligation.
  intros R H ? c r Hk. cbn. unfold add. destruct (cache_key r); [|done]. cbn. repeat case_match; by eexists.
Qed.
Next Obligation.
  intros R H ? c r1 r2 H1 H2. cbn. unfold link. destruct (cache_key r1), (cache_key r2); [|done..].
  cbn. repeat case_match; by eexists.
Qed.

#[export] Program Instance NullCache_laws {R} `{!Cacheable R} : CacheLaws NullCache R := {|
  c_inv := λ _, True |}.
Solve Obligations with (unfold null_add, null_invalidate, null_getitem; naive_solver).

(** ** Concrete runs *)

(** Resources that are their own key. *)
#[local] Instance string_cacheable : Cacheable string := λ k, Cacheable_cache_key (Some k).

Definition demo_cache : Cache string unit :=
  mkCache {[ "m1" := ("m1", None); "m2" := ("m2", None); "g" := ("g", None) ]}
    {[ "m1" := {[ "g" ]}; "m2" := {[ "g" ]} ]} 0 0 0 0 [].

Lemma cache_reachable_wf_witness :
  ∃ c : Cache string unit, add Cache_init "m1" None = Ok c ∧ cache_wf c.
Proof.
  eexists. split; [vm_compute; reflexivity|]. apply cache_reachable_wf.
  apply rtc_once. apply (step_add Cache_init "m1" None). vm_compute. reflexivity.
Defined.

Lemma add_getitem_witness :
  ∃ c', add demo_cache "x" None = Ok c' ∧
    ∀ k, (getitem c' k).1 = if bool_decide (k = "x") then Some "x" else (getitem demo_cache k).1.
Proof. apply (add_getitem demo_cache "x" None "x"); done. Defined.
