(* ===== verification/Dependency.v ===== *)
(** * Processing order of the resource fetcher ([fetch/dependency.py])

    [DependencyGraph] is a graph with Kahn's algorithm over it;
    [DependencyManager.sorted_watt_keys] uses it to order the resource kinds
    so that whatever provides information runs before whatever wants it. *)

From S2P Require Import Prelude PyStr PyVal.

(** ** [DependencyGraph] *)

Section graph.
Context {V : Type} `{!EqDecision V}.

Record Vertex : Type := mkVertex { out : list V; in_count : Z }.

(** [vertices], a [defaultdict]: insertion-ordered, absent keys read as a
    fresh vertex. *)
Definition DependencyGraph : Type := list (V * Vertex).

Definition fresh_vertex : Vertex := mkVertex [] 0.
Definition vertex_at (a : V) (g : DependencyGraph) : Vertex := dget_default a fresh_vertex g.
Definition touch (a : V) (g : DependencyGraph) : DependencyGraph :=
  if dmem a g then g else dset a fresh_vertex g.

Definition connect (g : DependencyGraph) (a b : V) : DependencyGraph :=
  let g := touch a g in
  let va := vertex_at a g in
  if bool_decide (b ∈ out va) then g
  else
    let g := dset a (mkVertex (out va ++ [b]) (in_count va)) g in
    let g := touch b g in
    let vb := vertex_at b g in
    dset b (mkVertex (out vb) (in_count vb + 1)) g.

(** The body of the [for obj in self.vertices[cur].out] loop. *)
Definition relax (st : list (V * Z) * list V) (obj : V) : res (list (V * Z) * list V) :=
  n ← res_of_option (KeyError "in_counts") (dget obj st.1);
  let in_counts := dset obj (n - 1)%Z st.1 in
  Ok (in_counts, if bool_decide ((n - 1)%Z = 0%Z) then st.2 ++ [obj] else st.2).

Fixpoint relax_all (st : list (V * Z) * list V) (objs : list V) : res (list (V * Z) * list V) :=
  match objs with
  | [] => Ok st
  | obj :: objs => st ← relax st obj; relax_all st objs
  end.

(** The [while len(queue) > 0] loop; [None] is a loop cut short.  The order in
    which Python iterates over a set is unspecified: [iter] is some permutation
    of it. *)
Fixpoint kahn (iter : list V → list V) (fuel : nat) (g : DependencyGraph) (in_counts : list (V * Z)) (queue yielded : list V)
    : option (res (list (V * Z) * list V)) :=
  match queue with
  | [] => Some (Ok (in_counts, yielded))
  | cur :: queue =>
      match fuel with
      | 0 => None
      | S fuel =>
          match relax_all (in_counts, queue) (iter (out (vertex_at cur g))) with
          | Raise e => Some (Raise e)
          | Ok (in_counts, queue) => kahn iter fuel g in_counts queue (yielded ++ [cur])
          end
      end
  end.

Definition sum_counts (c : list (V * Z)) : Z := foldr (λ p n, (p.2 + n)%Z) 0%Z c.

(** [traverse], the generator run to its end; each vertex is popped at most
    once, so the number of vertices bounds the turns. *)
Definition traverse (iter : list V → list V) (g : DependencyGraph) : option (res (list V)) :=
  if bool_decide (length g = 0) then Some (Ok [])
  else
    let in_counts := (λ p, (p.1, in_count p.2)) <$> g in
    let queue := (filter (λ p : V * Z, p.2 = 0%Z) in_counts).*1 in
    if bool_decide (length queue = 0) then Some (Raise (ValueError "cyclic"))
    else
      match kahn iter (length g) g in_counts queue [] with
      | None => None
      | Some (Raise e) => Some (Raise e)
      | Some (Ok (in_counts, yielded)) =>
          if bool_decide (sum_counts in_counts = 0%Z) then Some (Ok yielded)
          else Some (Raise (AssertionError "Traversal did not reach every vertex exactly once"))
      end.

(** ** Graphs built with [connect] *)

Definition edge (g : DependencyGraph) (a b : V) : Prop := b ∈ out (vertex_at a g).
#[global] Instance edge_dec g a b : Decision (edge g a b).
Proof. unfold edge. apply _. Defined.

(** The predecessors of [b] that are not in [done_]. *)
Definition waiting (g : DependencyGraph) (done_ : list V) (b : V) : nat :=
  length (filter (λ a, edge g a b ∧ a ∉ done_) (dkeys g)).

Record graph_wf (g : DependencyGraph) : Prop := {
  gwf_keys : dict_ok g;
  gwf_out : ∀ a, NoDup (out (vertex_at a g));
  gwf_target : ∀ a b, edge g a b → b ∈ dkeys g;
  gwf_count : ∀ b, in_count (vertex_at b g) = Z.of_nat (waiting g [] b)
}.

Lemma vertex_at_dset x a v g :
  vertex_at x (dset a v g) = if bool_decide (x = a) then v else vertex_at x g.
Proof. unfold vertex_at, dget_default. rewrite dget_dset. by case_bool. Qed.

Lemma vertex_at_touch x a g : vertex_at x (touch a g) = vertex_at x g.
Proof.
  unfold touch. destruct (dmem a g) eqn:E; [done|]. rewrite vertex_at_dset.
  case_bool as H; [subst|done]. apply dmem_false in E. unfold vertex_at, dget_default. by rewrite E.
Qed.

Lemma dkeys_touch x a g : x ∈ dkeys (touch a g) ↔ x = a ∨ x ∈ dkeys g.
Proof.
  unfold touch. destruct (dmem a g) eqn:E; [|by rewrite elem_of_dkeys_dset].
  apply dmem_true in E. naive_solver.
Qed.

Lemma dict_ok_touch a g : dict_ok g → dict_ok (touch a g).
Proof. unfold touch. destruct (dmem a g); [done|]. apply dict_ok_dset. Qed.

Lemma edge_source g a b : edge g a b → a ∈ dkeys g.
Proof.
  unfold edge, vertex_at, dget_default. intros H. apply dget_is_Some.
  destruct (dget a g); [by eexists|simpl in H; set_solver].
Qed.

Lemma waiting_ext g g' D D' b b' :
  dict_ok g → dict_ok g' → (∀ x, edge g x b ∧ x ∉ D ↔ edge g' x b' ∧ x ∉ D') →
  waiting g D b = waiting g' D' b'.
Proof.
  intros Hg Hg' Hx. apply filter_length_ext; [done..|]. intros x. rewrite Hx.
  split; intros (_ & He & ?); (split; [|done]); [by eapply edge_source|].
  apply (edge_source g x b). by apply Hx.
Qed.

Lemma waiting_S g g' D D' b b' a :
  dict_ok g → dict_ok g' → ¬ (edge g a b ∧ a ∉ D) →
  (∀ x, edge g' x b' ∧ x ∉ D' ↔ x = a ∨ (edge g x b ∧ x ∉ D)) →
  waiting g' D' b' = S (waiting g D b).
Proof.
  intros Hg Hg' Ha Hx. apply filter_length_S with a; [done..|tauto|]. intros x. rewrite Hx. split.
  - intros [_ [?|[He ?]]]; [by left|]. right. split; [by eapply edge_source|done].
  - intros H. assert (H' : x = a ∨ (edge g x b ∧ x ∉ D)) by tauto. split; [|done].
    apply Hx in H' as [He _]. by eapply edge_source.
Qed.

Lemma waiting_0 g D b : waiting g D b = 0 ↔ ∀ x, edge g x b → x ∈ D.
Proof.
  unfold waiting. rewrite length_zero_iff_nil. split.
  - intros Hn x Hx. destruct (decide (x ∈ D)) as [|Hd]; [done|]. exfalso.
    assert (Hin : x ∈ filter (λ a, edge g a b ∧ a ∉ D) (dkeys g)).
    { apply list_elem_of_filter. split; [done|]. by eapply edge_source. }
    rewrite Hn in Hin. set_solver.
  - intros Hall. destruct (filter _ _) as [|x l] eqn:Hf; [done|]. exfalso.
    assert (Hin : x ∈ filter (λ a, edge g a b ∧ a ∉ D) (dkeys g)) by (rewrite Hf; left).
    apply list_elem_of_filter in Hin as [[? ?] _]. naive_solver.
Qed.

Lemma touch_id g a : a ∈ dkeys g → touch a g = g.
Proof. unfold touch. intros ->%dmem_true. done. Qed.

Lemma connect_old g a b : edge g a b → connect g a b = g.
Proof.
  intros He. unfold connect. rewrite (touch_id g a) by by eapply edge_source.
  by rewrite bool_decide_true.
Qed.

Lemma connect_new g a b :
  ¬ edge g a b →
  (∀ x, out (vertex_at x (connect g a b))
        = out (vertex_at x g) ++ (if bool_decide (x = a) then [b] else []))
  ∧ (∀ x, in_count (vertex_at x (connect g a b))
        = in_count (vertex_at x g) + (if bool_decide (x = b) then 1 else 0))%Z
  ∧ (∀ x, x ∈ dkeys (connect g a b) ↔ x = a ∨ x = b ∨ x ∈ dkeys g)
  ∧ (dict_ok g → dict_ok (connect g a b)).
Proof.
  intros Hne. unfold connect. rewrite !vertex_at_touch.
  rewrite (bool_decide_false (b ∈ _)) by done. split_and_all.
  - intros x. rewrite !vertex_at_dset, !vertex_at_touch, !vertex_at_dset, !vertex_at_touch.
    repeat case_bool; subst; simpl; by rewrite ?app_nil_r.
  - intros x. rewrite !vertex_at_dset, !vertex_at_touch, !vertex_at_dset, !vertex_at_touch.
    repeat case_bool; subst; simpl; lia.
  - intros x. rewrite elem_of_dkeys_dset, dkeys_touch, elem_of_dkeys_dset, dkeys_touch. tauto.
  - intros Hok. by apply dict_ok_dset, dict_ok_touch, dict_ok_dset, dict_ok_touch.
Qed.

Lemma connect_edge g a b x y : edge (connect g a b) x y ↔ edge g x y ∨ (x = a ∧ y = b).
Proof.
  destruct (decide (edge g a b)) as [He|He]; [rewrite connect_old by done; naive_solver|].
  destruct (connect_new g a b He) as (Ho & _). unfold edge. rewrite Ho.
  case_bool; set_solver.
Qed.

Lemma graph_wf_nil : graph_wf [].
Proof.
  split; [apply dict_ok_nil|intros a; constructor| |done]. intros a b. unfold edge; simpl. set_solver.
Qed.

Lemma graph_wf_connect g a b : graph_wf g → graph_wf (connect g a b).
Proof.
  intros [Hk Ho Ht Hc]. destruct (decide (edge g a b)) as [He|He]; [by rewrite connect_old|].
  destruct (connect_new g a b He) as (Hout & Hin & Hkeys & Hok). specialize (Hok Hk). split.
  - done.
  - intros x. rewrite Hout. apply NoDup_app. split; [done|].
    case_bool as Hx; [subst|by split; [set_solver|constructor]].
    split; [|apply NoDup_singleton]. unfold edge in He. set_solver.
  - intros x y [Hxy|[-> ->]]%connect_edge; apply Hkeys; [|auto]. right. right. by eapply Ht.
  - intros y. rewrite Hin, Hc. case_bool as Hy.
    + subst. rewrite (waiting_S g (connect g a b) [] [] b b a Hk Hok); [lia|tauto|].
      intros x. rewrite connect_edge. set_solver.
    + rewrite Z.add_0_r. f_equal. apply waiting_ext; [done..|].
      intros x. rewrite connect_edge. naive_solver.
Qed.

(** The graph of a list of [connect] calls. *)
Definition graph_of (es : list (V * V)) : DependencyGraph :=
  foldl (λ g ab, connect g ab.1 ab.2) [] es.

Lemma graph_of_spec es :
  graph_wf (graph_of es)
  ∧ (∀ a b, edge (graph_of es) a b ↔ (a, b) ∈ es)
  ∧ (∀ v, v ∈ dkeys (graph_of es) ↔ ∃ w, (v, w) ∈ es ∨ (w, v) ∈ es).
Proof.
  unfold graph_of. induction es as [|[a b] es (Hwf & He & Hk)] using rev_ind; simpl.
  { split; [apply graph_wf_nil|]. split; [|set_solver]. intros a b. unfold edge; simpl. set_solver. }
  rewrite foldl_snoc. simpl. set (g := foldl _ _ es) in *. split_and_all.
  - by apply graph_wf_connect.
  - intros x y. rewrite connect_edge, He. set_solver.
  - intros v. destruct (decide (edge g a b)) as [Hab|Hab].
    + rewrite connect_old by done. rewrite Hk. apply He in Hab. set_solver.
    + destruct (connect_new g a b Hab) as (_ & _ & -> & _). rewrite Hk. set_solver.
Qed.

(** ** Kahn's algorithm *)

Lemma relax_all_Ok objs c q :
  NoDup objs → (∀ o, o ∈ objs → o ∈ dkeys c) →
  ∃ c', relax_all (c, q) objs = Ok (c', q ++ filter (λ o, dget o c = Some 1%Z) objs)
    ∧ dkeys c' = dkeys c
    ∧ ∀ v, dget v c' = (λ n, if bool_decide (v ∈ objs) then n - 1 else n)%Z <$> dget v c.
Proof.
  revert c q. induction objs as [|o objs IH]; intros c q Hnd Hin.
  { exists c. rewrite app_nil_r. split_and_all; [done..|]. intros v. by destruct (dget v c). }
  apply NoDup_cons in Hnd as [Hno Hnd].
  assert (Ho : o ∈ dkeys c) by (apply Hin; left). pose proof Ho as [n Hn]%dget_is_Some.
  assert (Hkeys : dkeys (dset o (n - 1)%Z c) = dkeys c) by by apply dkeys_dset_mem, dmem_true.
  cbn [relax_all]. unfold relax. cbn [fst snd]. rewrite Hn. cbn [res_of_option mbind res_bind].
  destruct (IH (dset o (n - 1)%Z c)
    (if bool_decide ((n - 1)%Z = 0%Z) then q ++ [o] else q) Hnd) as (c' & Hrun & Hk & Hv).
  { intros o' Ho'. rewrite Hkeys. apply Hin. by right. }
  exists c'. rewrite Hrun. split_and_all.
  - f_equal. f_equal. rewrite filter_cons, Hn.
    assert (Hf : filter (λ o', dget o' (dset o (n - 1)%Z c) = Some 1%Z) objs
                 = filter (λ o', dget o' c = Some 1%Z) objs).
    { apply filter_ext_in. intros o' Ho'. rewrite dget_dset_ne; [done|]. by intros ->. }
    rewrite Hf. case_bool as H1; [rewrite decide_True by (f_equal; lia); by rewrite <- app_assoc|].
    rewrite decide_False; [done|]. intros [= ->]. lia.
  - by rewrite Hk.
  - intros v. rewrite Hv, dget_dset. destruct (decide (v = o)) as [->|Hvo].
    + rewrite (bool_decide_true (o = o)), Hn, bool_decide_false, bool_decide_true by set_solver. done.
    + rewrite (bool_decide_false (v = o)) by done.
      rewrite (bool_decide_ext (v ∈ o :: objs) (v ∈ objs)) by set_solver. done.
Qed.

(** Every vertex comes after all its predecessors. *)
Definition topological (g : DependencyGraph) (l : list V) : Prop :=
  ∀ l1 v l2, l = l1 ++ v :: l2 → ∀ a, edge g a v → a ∈ l1.

Record kahn_inv (g : DependencyGraph) (c : list (V * Z)) (queue yielded : list V) : Prop := {
  ki_nodup : NoDup (yielded ++ queue);
  ki_keys : dkeys c = dkeys g;
  ki_count : ∀ v, v ∈ dkeys g → dget v c = Some (Z.of_nat (waiting g yielded v));
  ki_zero : ∀ v, v ∈ yielded ++ queue ↔ v ∈ dkeys g ∧ waiting g yielded v = 0;
  ki_topo : topological g yielded
}.

Lemma kahn_inv_init g :
  graph_wf g →
  kahn_inv g ((λ p, (p.1, in_count p.2)) <$> g)
    (filter (λ p : V * Z, p.2 = 0%Z) ((λ p, (p.1, in_count p.2)) <$> g)).*1 [].
Proof.
  intros [Hk Ho Ht Hc]. set (c := (λ p, (p.1, in_count p.2)) <$> g).
  assert (Hcount : ∀ v, v ∈ dkeys g → dget v c = Some (Z.of_nat (waiting g [] v))).
  { intros v [x Hx]%dget_is_Some. unfold c. rewrite dget_fmap, Hx. simpl.
    rewrite <- Hc. unfold vertex_at, dget_default. by rewrite Hx. }
  assert (Hck : dkeys c = dkeys g) by apply dkeys_fmap.
  assert (Hcok : dict_ok c) by (unfold dict_ok; by rewrite Hck).
  split; [| |done| |].
  - simpl. eapply sublist_NoDup; [exact Hcok|]. apply fmap_sublist, sublist_filter.
  - done.
  - intros v. simpl. rewrite list_elem_of_fmap. split.
    + intros ([v' n] & -> & [Hn Hin]%list_elem_of_filter). simpl in *. subst n.
      apply elem_of_dget in Hin; [|done].
      assert (Hv : v' ∈ dkeys g) by (rewrite <- Hck; apply dget_is_Some; by eexists).
      rewrite Hcount in Hin by done. injection Hin as Hin. split; [done|lia].
    + intros [Hv Hw]. exists (v, 0%Z). split; [done|]. apply list_elem_of_filter. split; [done|].
      apply dget_elem_of. rewrite Hcount by done. by rewrite Hw.
  - intros l1 v l2 Heq. by destruct l1.
Qed.

Lemma waiting_snoc g D cur v :
  graph_wf g → cur ∉ D →
  waiting g D v = waiting g (D ++ [cur]) v + (if bool_decide (edge g cur v) then 1 else 0).
Proof.
  intros Hwf Hcur. destruct Hwf as [Hk _ _ _]. case_bool as He.
  - rewrite (waiting_S g g (D ++ [cur]) D v v cur); [lia|done..| |]; [set_solver|].
    intros x. rewrite elem_of_app, list_elem_of_singleton.
    destruct (decide (x = cur)); naive_solver.
  - rewrite Nat.add_0_r. apply waiting_ext; [done..|]. set_solver.
Qed.

Lemma topological_snoc g l v :
  topological g l → (∀ a, edge g a v → a ∈ l) → topological g (l ++ [v]).
Proof.
  intros Hl Hv l1 x l2 Heq a Ha. destruct l2 as [|z l2 _] using rev_ind.
  - apply app_inj_tail in Heq as [-> ->]. auto.
  - rewrite app_comm_cons, app_assoc in Heq. apply app_inj_tail in Heq as [-> _]. by eapply Hl.
Qed.

Section kahn.
Context (iter : list V → list V) (iter_perm : ∀ l, iter l ≡ₚ l).

Lemma kahn_step g c cur queue yielded :
  graph_wf g → kahn_inv g c (cur :: queue) yielded →
  ∃ c' queue', relax_all (c, queue) (iter (out (vertex_at cur g))) = Ok (c', queue')
    ∧ kahn_inv g c' queue' (yielded ++ [cur]).
Proof.
  intros Hwf [Hnd Hck Hcnt Hz Ht].
  assert (Hcur : cur ∉ yielded) by (apply NoDup_app in Hnd as (_ & Hx & _); set_solver).
  set (objs := iter (out (vertex_at cur g))).
  assert (Hobjs : ∀ o, o ∈ objs ↔ edge g cur o) by (intros o; unfold objs; by rewrite iter_perm).
  destruct (relax_all_Ok objs c queue) as (c' & Hrun & Hk & Hv).
  { unfold objs. rewrite iter_perm. apply (gwf_out g Hwf). }
  { intros o Ho%Hobjs. rewrite Hck. by eapply (gwf_target g Hwf). }
  eexists _, _. split; [done|].
  assert (Hw : ∀ v, waiting g yielded v
     = waiting g (yielded ++ [cur]) v + (if bool_decide (edge g cur v) then 1 else 0))
    by (intros v; by apply waiting_snoc).
  assert (Hnew : ∀ v, v ∈ filter (λ o, dget o c = Some 1%Z) objs ↔
    edge g cur v ∧ v ∈ dkeys g ∧ waiting g (yielded ++ [cur]) v = 0).
  { intros v. rewrite list_elem_of_filter, Hobjs. split.
    - intros [H1 He]. assert (Hg : v ∈ dkeys g) by by eapply (gwf_target g Hwf).
      rewrite Hcnt, Hw, bool_decide_true in H1 by done. split_and_all; [done..|].
      injection H1. lia.
    - intros (He & Hg & H0). split; [|done]. rewrite Hcnt, Hw, bool_decide_true by done.
      f_equal. lia. }
  split.
  - rewrite <- app_assoc. simpl. rewrite app_comm_cons, app_assoc. apply NoDup_app. split_and_all.
    + done.
    + intros v [_ H0]%Hz (He & _ & _)%Hnew. rewrite Hw, bool_decide_true in H0 by done. lia.
    + apply NoDup_filter. unfold objs. rewrite iter_perm. apply (gwf_out g Hwf).
  - by rewrite Hk.
  - intros v Hg. rewrite Hv, Hcnt, Hw by done. simpl. f_equal.
    rewrite (bool_decide_ext _ _ (Hobjs v)). case_bool; lia.
  - intros v. rewrite <- app_assoc. simpl. rewrite app_comm_cons, app_assoc, elem_of_app, Hz, Hnew, Hw.
    case_bool as He; [|rewrite Nat.add_0_r; tauto]. split; [intros [[_ ?]|?]; [lia|tauto]|tauto].
  - apply topological_snoc; [done|]. apply waiting_0. apply Hz. set_solver.
Qed.

Lemma kahn_total g fuel c queue yielded :
  graph_wf g → kahn_inv g c queue yielded → length g ≤ fuel + length yielded →
  ∃ c' out_, kahn iter fuel g c queue yielded = Some (Ok (c', out_)) ∧ kahn_inv g c' [] out_.
Proof.
  intros Hwf. revert c queue yielded.
  induction fuel as [|fuel IH]; intros c [|cur queue] yielded Hinv Hf; simpl; [by eauto| |by eauto|].
  - exfalso. destruct Hinv as [Hnd _ _ Hz _].
    assert (Hlen : length (yielded ++ cur :: queue) ≤ length (dkeys g)).
    { apply submseteq_length, NoDup_submseteq; [done|]. intros v Hv%Hz. tauto. }
    unfold dkeys in Hlen. rewrite length_fmap, length_app in Hlen. simpl in *. lia.
  - destruct (kahn_step _ _ _ _ _ Hwf Hinv) as (c' & queue' & -> & Hinv').
    apply IH; [done|]. rewrite length_app. simpl. lia.
Qed.

(** A vertex reached from [a] comes after [a]. *)
Lemma topological_tc g l1 v l2 a :
  topological g (l1 ++ v :: l2) → tc (edge g) a v → a ∈ l1.
Proof.
  intros Ht Htc. revert l1 l2 Ht. induction Htc as [a v He|a b v Hab Hbv IH]; intros l1 l2 Ht.
  - by eapply Ht.
  - destruct (list_elem_of_split _ _ (IH l1 l2 Ht)) as (l11 & l12 & ->).
    rewrite <- app_assoc in Ht. apply elem_of_app. left. by eapply (Ht l11 b).
Qed.

Lemma sum_counts_zero (c : list (V * Z)) :
  Forall (λ p, 0 ≤ p.2)%Z c →
  (0 ≤ sum_counts c)%Z ∧ (sum_counts c = 0%Z ↔ Forall (λ p, p.2 = 0%Z) c).
Proof.
  unfold sum_counts. induction 1 as [|p c Hp Hc [IH1 IH2]]; simpl; [done|].
  rewrite Forall_cons, <- IH2. lia.
Qed.

Lemma kahn_inv_done g c yielded :
  graph_wf g → kahn_inv g c [] yielded →
  (sum_counts c = 0%Z ↔ ∀ v, v ∈ dkeys g → v ∈ yielded).
Proof.
  intros Hwf [Hnd Hck Hcnt Hz Ht]. rewrite app_nil_r in *.
  assert (Hcok : dict_ok c) by (unfold dict_ok; rewrite Hck; apply (gwf_keys g Hwf)).
  assert (Hin : ∀ v n, (v, n) ∈ c → v ∈ dkeys g ∧ n = Z.of_nat (waiting g yielded v)).
  { intros v n Hvn. apply elem_of_dget in Hvn; [|done].
    assert (Hv : v ∈ dkeys g) by (rewrite <- Hck; apply dget_is_Some; by eexists).
    rewrite Hcnt in Hvn by done. naive_solver. }
  destruct (sum_counts_zero c) as [_ ->].
  { apply Forall_forall. intros [v n] [_ ->]%Hin. simpl. lia. }
  rewrite Forall_forall. split.
  - intros H0 v Hv. apply Hz. split; [done|]. specialize (Hcnt v Hv).
    apply dget_elem_of in Hcnt. specialize (H0 _ Hcnt). simpl in H0. lia.
  - intros Hall [v n] [Hv ->]%Hin. simpl. apply Hall, Hz in Hv as [_ ->]. done.
Qed.

Lemma kahn_inv_stuck g c yielded v :
  graph_wf g → kahn_inv g c [] yielded → v ∈ dkeys g → v ∉ yielded → ∃ x, tc (edge g) x x.
Proof.
  intros Hwf [_ _ _ Hz _] Hv Hny. rewrite app_nil_r in *.
  apply (finite_cycle (edge g) (filter (λ x, x ∉ yielded) (dkeys g)) v).
  { by apply list_elem_of_filter. }
  intros x [Hx Hk]%list_elem_of_filter.
  destruct (filter (λ a, edge g a x ∧ a ∉ yielded) (dkeys g)) as [|a l] eqn:Hf.
  - exfalso. apply Hx, Hz. split; [done|]. unfold waiting. by rewrite Hf.
  - assert (Ha : a ∈ filter (λ a, edge g a x ∧ a ∉ yielded) (dkeys g)) by (rewrite Hf; left).
    apply list_elem_of_filter in Ha as [[Hax Hay] Hak]. exists a. split; [|done].
    by apply list_elem_of_filter.
Qed.

Lemma traverse_spec g :
  graph_wf g →
  ∃ r, traverse iter g = Some r ∧
    match r with
    | Ok l => l ≡ₚ dkeys g ∧ topological g l
    | Raise e => (∃ v, tc (edge g) v v) ∧ (e = ValueError "cyclic" ∨
        e = AssertionError "Traversal did not reach every vertex exactly once")
    end.
Proof.
  intros Hwf. unfold traverse.
  case_bool as Hl; [destruct g; [|done]; exists (Ok []); split_and_all; [done..|]|].
  { intros l1 v l2 Heq. by destruct l1. }
  pose proof (kahn_inv_init g Hwf) as Hinit. set (c := (λ p, (p.1, in_count p.2)) <$> g) in *.
  set (q := (filter _ c).*1) in *. case_bool as Hq.
  - destruct q; [|done]. eexists. split; [done|]. split; [|by left]. destruct g as [|[v x] g]; [done|].
    apply (kahn_inv_stuck _ _ _ v Hwf Hinit); set_solver.
  - destruct (kahn_total g (length g) c q [] Hwf Hinit) as (c' & l & -> & Hdone); [simpl; lia|].
    pose proof (kahn_inv_done _ _ _ Hwf Hdone) as Hsum. case_bool as Hs; eexists; (split; [done|]).
    + destruct Hdone as [Hnd _ _ Hz Ht]. rewrite app_nil_r in *. split; [|done].
      apply NoDup_Permutation; [done|apply (gwf_keys g Hwf)|]. intros v. split; [by intros [? _]%Hz|].
      by apply Hsum.
    + split; [|by right]. destruct (decide (Forall (λ v, v ∈ l) (dkeys g))) as [Ha|Ha].
      { exfalso. apply Hs, Hsum. by apply Forall_forall. }
      apply not_Forall_Exists, Exists_exists in Ha as (v & Hv & Hnl); [|apply _].
      by eapply kahn_inv_stuck.
Qed.

(** C20. For every sequence of [connect] calls and every iteration order of the
    edge sets, [traverse] terminates.  If it returns a list, the list holds
    each vertex once, each after all its predecessors, and the graph has no
    cycle; if it raises, the graph has a cycle, and the error is one of the
    two the code names (never a [KeyError] from the counters). *)
Theorem traverse_topological es :
  ∃ r, traverse iter (graph_of es) = Some r ∧
    match r with
    | Ok l => NoDup l ∧ (∀ v, v ∈ l ↔ ∃ w, (v, w) ∈ es ∨ (w, v) ∈ es)
              ∧ (∀ l1 v l2 a, l = l1 ++ v :: l2 → (a, v) ∈ es → a ∈ l1)
              ∧ (∀ v, ¬ tc (λ a b, (a, b) ∈ es) v v)
    | Raise e => (∃ v, tc (λ a b, (a, b) ∈ es) v v) ∧ (e = ValueError "cyclic" ∨
        e = AssertionError "Traversal did not reach every vertex exactly once")
    end.
Proof.
  destruct (graph_of_spec es) as (Hwf & He & Hk).
  assert (Htc : ∀ v w, tc (edge (graph_of es)) v w ↔ tc (λ a b, (a, b) ∈ es) v w).
  { intros v w. split; induction 1 as [x y Hxy|x y z Hxy _ IH];
      (apply He in Hxy; by apply tc_once) || (apply He in Hxy; by eapply tc_l). }
  destruct (traverse_spec _ Hwf) as (r & Hr & Hspec). exists r. split; [done|].
  destruct r as [l|e]; [|naive_solver]. destruct Hspec as [Hp Ht].
  assert (Hnd : NoDup l) by (rewrite Hp; apply (gwf_keys _ Hwf)).
  split_and_all; [done| | |].
  - intros v. by rewrite Hp, Hk.
  - intros l1 v l2 a Heq Ha%He. by eapply Ht.
  - intros v Hv. apply Htc in Hv.
    assert (Hin : v ∈ l).
    { rewrite Hp. inversion Hv; by eapply edge_source. }
    apply list_elem_of_split in Hin as (l1 & l2 & ->).
    pose proof (topological_tc _ _ _ _ _ Ht Hv) as Hl1.
    apply NoDup_app in Hnd as (_ & Hd & _). eapply Hd; [done|left].
Qed.

End kahn.
End graph.

Lemma traverse_topological_witness :
  ∃ r, traverse id (graph_of [(1, 2); (3, 2); (2, 4)]) = Some r ∧
    match r with
    | Ok l => NoDup l
              ∧ (∀ v, v ∈ l ↔ ∃ w, (v, w) ∈ [(1, 2); (3, 2); (2, 4)] ∨ (w, v) ∈ [(1, 2); (3, 2); (2, 4)])
              ∧ (∀ l1 v l2 a, l = l1 ++ v :: l2 → (a, v) ∈ [(1, 2); (3, 2); (2, 4)] → a ∈ l1)
              ∧ (∀ v, ¬ tc (λ a b, (a, b) ∈ [(1, 2); (3, 2); (2, 4)]) v v)
    | Raise e => (∃ v, tc (λ a b, (a, b) ∈ [(1, 2); (3, 2); (2, 4)]) v v) ∧ (e = ValueError "cyclic" ∨
        e = AssertionError "Traversal did not reach every vertex exactly once")
    end.
Proof. apply (traverse_topological id). intros l. reflexivity. Defined.

Arguments Vertex : clear implicits.
Arguments DependencyGraph : clear implicits.

(** ** Dependencies, injectors and the manager *)

(** The dependency classes. *)
Inductive dep_class : Type := ServiceDependency | SecretDependency | IngressClassesDependency.
#[export] Instance dep_class_eq_dec : EqDecision dep_class.
Proof. solve_decision. Defined.

Definition watt_key (d : dep_class) : string :=
  match d with
  | ServiceDependency => "service"
  | SecretDependency => "secret"
  | IngressClassesDependency => "ingressclasses"
  end.

Record DependencyInjector : Type := mkInjector { wants : list dep_class; provides : list dep_class }.

(** [deps] are the registered classes; [injectors] is the [defaultdict] by
    processor (an object identity). *)
Record DependencyManager : Type := mkManager {
  deps : list dep_class;
  injectors : list (nat * DependencyInjector)
}.

Definition set_add (d : dep_class) (s : list dep_class) : list dep_class :=
  if bool_decide (d ∈ s) then s else s ++ [d].

Definition DependencyManager_init (ds : list dep_class) : DependencyManager :=
  mkManager (foldl (λ s d, set_add d s) [] ds) [].

Definition for_instance (m : DependencyManager) (obj : nat) : DependencyInjector * DependencyManager :=
  match dget obj (injectors m) with
  | Some i => (i, m)
  | None => let i := mkInjector [] [] in (i, mkManager (deps m) (dset obj i (injectors m)))
  end.

(** [self.deps[cls]] *)
Definition deps_getitem (m : DependencyManager) (cls : dep_class) : res unit :=
  if bool_decide (cls ∈ deps m) then Ok () else Raise (KeyError "deps").

(** [m.for_instance(obj).want(cls)]: the class is recorded before the lookup
    that can raise. *)
Definition want (m : DependencyManager) (obj : nat) (cls : dep_class) : DependencyManager * res unit :=
  let '(i, m) := for_instance m obj in
  let m := mkManager (deps m) (dset obj (mkInjector (set_add cls (wants i)) (provides i)) (injectors m)) in
  (m, deps_getitem m cls).

Definition provide (m : DependencyManager) (obj : nat) (cls : dep_class) : DependencyManager * res unit :=
  let '(i, m) := for_instance m obj in
  let m := mkManager (deps m) (dset obj (mkInjector (wants i) (set_add cls (provides i))) (injectors m)) in
  (m, deps_getitem m cls).

(** Vertices of the graph: processors and dependency classes. *)
Notation dep_node := (nat + dep_class)%type.

Section manager.
Context (iter : list dep_node → list dep_node) (iter_dep : list dep_class → list dep_class).

Definition injector_edges (oi : nat * DependencyInjector) : list (dep_node * dep_node) :=
  ((λ cls, (inl oi.1, inr cls)) <$> iter_dep (provides oi.2)) ++
  ((λ cls, (inr cls, inl oi.1)) <$> iter_dep (wants oi.2)).

Definition manager_edges (m : DependencyManager) : list (dep_node * dep_node) :=
  injectors m ≫= injector_edges.

(** [obj in self.deps]: only classes are keys of [deps]. *)
Definition registered (m : DependencyManager) (v : dep_node) : option dep_class :=
  match v with
  | inr cls => if bool_decide (cls ∈ deps m) then Some cls else None
  | inl _ => None
  end.

Definition sorted_watt_keys (m : DependencyManager) : option (res (list string)) :=
  match traverse iter (graph_of (manager_edges m)) with
  | None => None
  | Some (Raise e) => Some (Raise e)
  | Some (Ok l) => Some (Ok (watt_key <$> omap (registered m) l))
  end.

Hypothesis iter_perm : ∀ l, iter l ≡ₚ l.
Hypothesis iter_dep_perm : ∀ l, iter_dep l ≡ₚ l.

Lemma manager_edges_provides m obj i A :
  (obj, i) ∈ injectors m → A ∈ provides i → (inl obj, inr A) ∈ manager_edges m.
Proof.
  intros Hi HA. apply list_elem_of_bind. exists (obj, i). split; [|done].
  apply elem_of_app. left. apply list_elem_of_fmap. exists A. by rewrite iter_dep_perm.
Qed.

Lemma manager_edges_wants m obj i B :
  (obj, i) ∈ injectors m → B ∈ wants i → (inr B, inl obj) ∈ manager_edges m.
Proof.
  intros Hi HB. apply list_elem_of_bind. exists (obj, i). split; [|done].
  apply elem_of_app. right. apply list_elem_of_fmap. exists B. by rewrite iter_dep_perm.
Qed.

(** When [sorted_watt_keys] returns, a resource kind wanted by a processor
    comes strictly before every kind that this processor provides. *)
Theorem sorted_watt_keys_order m keys obj i A B :
  sorted_watt_keys m = Some (Ok keys) →
  (obj, i) ∈ injectors m → A ∈ provides i → B ∈ wants i → A ∈ deps m → B ∈ deps m →
  ∃ k1 k2 k3, keys = k1 ++ watt_key B :: k2 ++ watt_key A :: k3.
Proof.
  unfold sorted_watt_keys. intros Hs Hi HA HB HAd HBd.
  destruct (graph_of_spec (manager_edges m)) as (Hwf & He & Hk).
  destruct (traverse_spec iter iter_perm _ Hwf) as (r & Hr & Hspec). rewrite Hr in Hs.
  destruct r as [l|]; [|done]. injection Hs as <-. destruct Hspec as [Hp Ht].
  pose proof (manager_edges_provides m obj i A Hi HA) as HeA.
  pose proof (manager_edges_wants m obj i B Hi HB) as HeB.
  assert (HinA : inr A ∈ l) by (rewrite Hp; apply Hk; eauto).
  apply list_elem_of_split in HinA as (l1 & l2 & ->).
  assert (Hobj : inl obj ∈ l1) by (eapply Ht; [done|]; by apply He).
  apply list_elem_of_split in Hobj as (l3 & l4 & ->). rewrite <- app_assoc in Ht.
  assert (HinB : inr B ∈ l3) by (eapply Ht; [done|]; by apply He).
  apply list_elem_of_split in HinB as (l5 & l6 & ->).
  exists (watt_key <$> omap (registered m) l5), (watt_key <$> omap (registered m) (l6 ++ inl obj :: l4)),
    (watt_key <$> omap (registered m) l2).
  rewrite !omap_app, !fmap_app. simpl. rewrite !bool_decide_true by done.
  rewrite <- ?app_assoc. simpl. rewrite <- ?app_assoc. done.
Qed.

End manager.

(** The registrations of the fetcher's processors: the service processor
    provides services, the ingress-class processor provides classes, the
    ingress processor wants both. *)
Definition demo_manager : DependencyManager :=
  let m := DependencyManager_init [ServiceDependency; SecretDependency; IngressClassesDependency] in
  let m := (provide m 0 IngressClassesDependency).1 in
  let m := (want m 1 ServiceDependency).1 in
  let m := (want m 1 IngressClassesDependency).1 in
  let m := (provide m 1 SecretDependency).1 in
  (provide m 2 ServiceDependency).1.

Lemma sorted_watt_keys_order_witness :
  ∃ k1 k2 k3, ["ingressclasses"; "service"; "secret"] = k1 ++ "service" :: k2 ++ "secret" :: k3.
Proof.
  apply (sorted_watt_keys_order id id (λ l, Permutation_refl l) (λ l, Permutation_refl l) demo_manager
    ["ingressclasses"; "service"; "secret"] 1
    (mkInjector [ServiceDependency; IngressClassesDependency] [SecretDependency])
    SecretDependency ServiceDependency); try (vm_compute; reflexivity); apply list_elem_of_In; vm_compute; tauto.
Defined.
