(* ===== verification/Location.v ===== *)
(** * Parse locations ([fetch/location.py])

    [LocationManager] keeps a stack of locations that [with] blocks push and
    pop.  A block's body is a [script]; [run] executes it with Python's context
    manager protocol, exceptions included. *)

From S2P Require Import Prelude PyStr PyVal.

Record Location : Type := mkLocation { filename : option string; ocount : Z }.
#[export] Instance Location_eq_dec : EqDecision Location.
Proof. solve_decision. Defined.

(** [self.filename or default] *)
Definition filename_default (l : Location) (dflt : string) : string :=
  match filename l with Some f => if str_bool f then f else dflt | None => dflt end.

Definition Location_str (l : Location) : string :=
  filename_default l "anonymous YAML" +:+ "." +:+ str_of_int (ocount l).

Record LocationManager : Type := mkLM { previous : list Location; current : Location }.

Definition LocationManager_init : LocationManager := mkLM [] (mkLocation None 1).

(** [push]: the top of the stack is the end of [previous]. *)
Definition push (m : LocationManager) (f : option string) (n : Z) : LocationManager :=
  mkLM (previous m ++ [current m]) (mkLocation f n).

Definition push_reset (m : LocationManager) : LocationManager := push m (filename (current m)) 1.

(** [pop]: [list.pop] raises on an empty stack. *)
Definition pop (m : LocationManager) : res (Location * LocationManager) :=
  match last (previous m) with
  | Some top => Ok (current m, mkLM (removelast (previous m)) top)
  | None => Raise IndexError
  end.

Definition set_filename (m : LocationManager) (f : option string) : LocationManager :=
  mkLM (previous m) (mkLocation f (ocount (current m))).

(** The annotated filename of [mark_annotated]. *)
Definition annotated (f : option string) : option string :=
  match f with
  | Some s => if str_bool s && negb (endswith s ":annotation") then Some (s +:+ ":annotation") else f
  | None => None
  end.

(** [mark_annotated]: the new state and the filename its cleaner restores. *)
Definition mark_annotated (m : LocationManager) : LocationManager * option string :=
  (set_filename m (annotated (filename (current m))), filename (current m)).

(** What runs inside the blocks: counting an object, raising, and nested
    blocks in sequence. *)
Inductive script : Type :=
  | Done
  | Count (rest : script)
  | Throw (e : exn)
  | WithPush (f : option string) (n : Z) (body rest : script)
  | WithReset (body rest : script)
  | WithAnnotated (body rest : script).

(** The generators behind the blocks have no [try]/[finally]: an exception in
    the body skips the clean-up and propagates. *)
Fixpoint run (s : script) (m : LocationManager) : LocationManager * option exn :=
  match s with
  | Done => (m, None)
  | Count rest =>
      run rest (mkLM (previous m) (mkLocation (filename (current m)) (ocount (current m) + 1)))
  | Throw e => (m, Some e)
  | WithPush f n body rest =>
      match run body (push m f n) with
      | (m', Some e) => (m', Some e)
      | (m', None) => match pop m' with Ok (_, m'') => run rest m'' | Raise e => (m', Some e) end
      end
  | WithReset body rest =>
      match run body (push_reset m) with
      | (m', Some e) => (m', Some e)
      | (m', None) => match pop m' with Ok (_, m'') => run rest m'' | Raise e => (m', Some e) end
      end
  | WithAnnotated body rest =>
      let '(m1, f) := mark_annotated m in
      match run body m1 with
      | (m', Some e) => (m', Some e)
      | (m', None) => run rest (set_filename m' f)
      end
  end.

Fixpoint throws (s : script) : bool :=
  match s with
  | Done => false
  | Throw _ => true
  | Count rest => throws rest
  | WithPush _ _ body rest | WithReset body rest | WithAnnotated body rest => throws body || throws rest
  end.

(** Pushing onto the stack and finding it unchanged below pops back. *)
Lemma pop_pushed prev cur loc : pop (mkLM (prev ++ [cur]) loc) = Ok (loc, mkLM prev cur).
Proof. unfold pop; simpl. by rewrite last_snoc, removelast_last. Qed.

(** [restored m r]: [r] ended normally with the stack and filename of [m]. *)
Definition restored (m : LocationManager) (r : LocationManager * option exn) : Prop :=
  r.2 = None ∧ previous r.1 = previous m ∧ filename (current r.1) = filename (current m).

Lemma run_restored s m : throws s = false → restored m (run s m).
Proof.
  revert m. induction s as [|rest IH|e|f n body IHb rest IHr|body IHb rest IHr|body IHb rest IHr];
    intros m; simpl; intros Ht; try apply orb_false_iff in Ht as [Hb Hr]; try done.
  - apply (IH (mkLM _ (mkLocation _ _)) Ht).
  - destruct (IHb (push m f n) Hb) as (He & Hp & _). destruct (run body _) as [[p c] ?]; simpl in *.
    subst. rewrite pop_pushed. destruct m. by apply IHr.
  - destruct (IHb (push_reset m) Hb) as (He & Hp & _). destruct (run body _) as [[p c] ?]; simpl in *.
    subst. rewrite pop_pushed. destruct m. by apply IHr.
  - destruct (IHb (set_filename m (annotated (filename (current m)))) Hb) as (He & Hp & _).
    destruct (run body _) as [[p c] ?]; simpl in *. subst.
    destruct (IHr (set_filename (mkLM (previous m) c) (filename (current m))) Hr) as (? & ? & ?).
    by split_and_all.
Qed.

(** Nested [with] blocks whose bodies do not raise leave the location stack
    and the current filename as they found them, and never pop an empty stack. *)
Theorem location_blocks_balanced s m :
  throws s = false →
  ∃ m', run s m = (m', None) ∧ previous m' = previous m ∧
        filename (current m') = filename (current m).
Proof.
  intros Ht. destruct (run_restored s m Ht) as (He & Hp & Hf).
  destruct (run s m) as [m' r]. simpl in *. subst. eauto.
Qed.

Lemma location_blocks_balanced_witness :
  ∃ m', run (WithPush (Some "svc.yaml") 1 (WithAnnotated (Count (WithReset (Count Done) Done)) Done) Done)
          LocationManager_init = (m', None) ∧ previous m' = [] ∧ filename (current m') = None.
Proof.
  apply (location_blocks_balanced
    (WithPush (Some "svc.yaml") 1 (WithAnnotated (Count (WithReset (Count Done) Done)) Done) Done)
    LocationManager_init). reflexivity.
Defined.

(** An exception inside a pushed block is not cleaned up: the location
    stack stays one deeper than before the block. *)
Theorem location_block_leaks_on_exception m f n e rest :
  run (WithPush f n (Throw e) rest) m = (push m f n, Some e)
  ∧ length (previous (push m f n)) = S (length (previous m)).
Proof. split; [done|]. simpl. rewrite length_app. simpl. lia. Qed.
