(* ===== verification/Resource.v ===== *)
(** * Resources ([resource.py], [ir/irresource.py])

    A resource is a Python dictionary whose attributes are its items
    ([__getattr__] and [__setattr__] go to the dictionary), so it is a
    [dict pyval] here.  A resource stored inside another is embedded as a
    [PDict]. *)

From S2P Require Import Prelude PyStr PyVal.

Notation resource := (dict pyval) (only parsing).

(** [__getattr__] *)
Definition getattr (r : resource) (key : string) : res pyval :=
  res_of_option (AttributeError key) (dget key r).

(** [__setattr__] *)
Definition setattr (r : resource) (key : string) (v : pyval) : resource := dset key v r.

(** ** [Resource] *)

(** [Resource.__init__]: the dictionary is filled in this order; [kwargs]
    has none of the named keys. *)
Definition Resource_init (rkey location kind : string) (serialization : pyval) (kwargs : resource)
    : res resource :=
  if negb (str_bool rkey) then Raise (PyException "Resource requires rkey")
  else if negb (str_bool kind) then Raise (PyException "Resource requires kind")
  else Ok (("rkey", PStr rkey) :: ("location", PStr location) :: ("kind", PStr kind)
           :: ("serialization", serialization) :: ("_referenced_by", PDict []) :: kwargs).

Definition sourced_by (self other : resource) : res resource :=
  rkey ← getattr other "rkey";
  location ← getattr other "location";
  Ok (setattr (setattr self "rkey" rkey) "location" location).

(** [referenced_by]: [other] is recorded under its location. *)
Definition referenced_by (self other : resource) : res resource :=
  refs ← getattr self "_referenced_by";
  location ← getattr other "location";
  match refs, location with
  | PDict d, PStr l => Ok (setattr self "_referenced_by" (PDict (dset l (PDict other) d)))
  | _, _ => Raise TypeError
  end.

Definition is_referenced_by (self : resource) (other_location : string) : res pyval :=
  refs ← getattr self "_referenced_by";
  vget other_location PNone refs.

Definition dpop (keys : list string) (d : resource) : resource := foldl (λ d k, ddel k d) d keys.

Definition Resource_as_dict (self : resource) : resource :=
  dpop ["rkey"; "serialization"; "location"; "_referenced_by"; "_errored"] self.

(** The keyword arguments [from_resource] builds for the new resource. *)
Definition from_resource_attrs (other kwargs : resource) (kind serialization : pyval) : res resource :=
  let new_attrs := match kwargs with [] => other | _ => kwargs end in
  let new_attrs := if py_bool kind then dset "kind" kind new_attrs else ddel "kind" new_attrs in
  new_attrs ←
    (if py_bool serialization then Ok (dset "serialization" serialization new_attrs)
     else s ← getattr other "serialization";
          Ok (if py_bool s then dset "serialization" s new_attrs else new_attrs));
  Ok (dpop ["rkey"; "location"; "_errors"; "_errored"; "_referenced_by"] new_attrs).

(** ** [IRResource] *)

(** [lookup_default]; [defaults] is the [defaults] element of the Ambassador
    module. *)
Definition lookup_default (defaults self : resource) (key : string) (default_value lookup_class : pyval)
    : res pyval :=
  let lclass := if py_bool lookup_class then lookup_class else pget "default_class" self in
  let case2 := Ok (match defaults with
                   | [] => default_value
                   | _ => match dget key defaults with Some v => v | None => default_value end
                   end) in
  match lclass with
  | PStr c =>
      if str_bool c && negb (bool_decide (c = "/")) then
        match pget c defaults with
        | PDict [] => case2
        | PDict classdict => match dget key classdict with Some v => Ok v | None => case2 end
        | classdict =>
            if py_bool classdict then
              found ← vmem key classdict;
              if (found : bool) then Raise TypeError else case2
            else case2
        end
      else case2
  | _ => if py_bool lclass then Raise TypeError else case2
  end.

(** [lookup]; [args] is [*args]. *)
Definition lookup_attr (defaults self : resource) (key : string) (args : list pyval)
    (default_class default_key : pyval) : res pyval :=
  let value := pget key self in
  let default_value := match args with v :: _ => v | [] => PNone end in
  match value with
  | PNone =>
      let default_key := if py_bool default_key then default_key else PStr key in
      dk ← as_str default_key;
      lookup_default defaults self dk default_value default_class
  | _ => Ok value
  end.

(** [__bool__] *)
Definition IRResource_bool (_active _errored : bool) : bool := _active && negb _errored.

(** [skip_key]; [helpers] is the shared table of dictionary helpers. *)
Definition skip_key (helpers : dict string) (k : string) : bool :=
  if startswith k "__" || startswith k "_IRResource__" then true
  else match dget k helpers with Some h => bool_decide (h = "drop") | None => false end.

(** [normalize_service]: strips one leading scheme, whatever its case. *)
Definition normalize_service (service : string) : string :=
  if startswith (lower service) "http://" then drop_str (slen "http://") service
  else if startswith (lower service) "https://" then drop_str (slen "https://") service
  else service.

(** ** Lemmas *)

(** The documented resolution order: the resource itself, then the defaults of
    the lookup class, then the global defaults, then the given default. *)
Definition resolution (defaults self : resource) (key : string) (lclass : string) (dflt : pyval) : pyval :=
  match dget key self with
  | Some v => if bool_decide (v = PNone) then
      match (match dget lclass defaults with Some (PDict cd) => dget key cd | _ => None end) with
      | Some v => v
      | None => default dflt (dget key defaults)
      end else v
  | None =>
      match (match dget lclass defaults with Some (PDict cd) => dget key cd | _ => None end) with
      | Some v => v
      | None => default dflt (dget key defaults)
      end
  end.

Lemma lookup_default_class defaults self key dflt c :
  str_bool c = true → c ≠ "/" → (∀ v, dget c defaults = Some v → ∃ cd, v = PDict cd) →
  lookup_default defaults self key dflt (PStr c)
  = Ok (match (match dget c defaults with Some (PDict cd) => dget key cd | _ => None end) with
        | Some v => v
        | None => default dflt (dget key defaults)
        end).
Proof.
  intros Hc Hs Hd. unfold lookup_default. cbn [py_bool]. rewrite Hc. cbv beta iota zeta.
  rewrite Hc, bool_decide_false by done. cbn [andb negb]. unfold pget, dget_default.
  destruct (dget c defaults) as [v|] eqn:E.
  - destruct (Hd v eq_refl) as [cd ->]. cbn [default].
    cbv beta iota. destruct cd as [|p cd]; [|cbn [from_option id]; destruct (dget key (p :: cd)); [done|]]; by destruct defaults.
  - by destruct defaults.
Qed.

(** [lookup] resolves a key in the documented order: the resource's own
    value, the class defaults of the Ambassador module, its global defaults,
    and last the caller's default; [None] counts as absent in the resource. *)
Theorem lookup_resolution_order defaults self key dflt c :
  str_bool c = true → c ≠ "/" → (∀ v, dget c defaults = Some v → ∃ cd, v = PDict cd) →
  lookup_attr defaults self key [dflt] (PStr c) PNone = Ok (resolution defaults self key c dflt).
Proof.
  intros Hc Hs Hd. unfold lookup_attr, resolution, pget, dget_default. cbn [py_bool as_str mbind res_bind].
  pose proof (lookup_default_class defaults self key dflt c Hc Hs Hd) as HL.
  destruct (dget key self) as [[]|]; cbn [default]; try rewrite HL; try (by rewrite bool_decide_false); done.
Qed.

Lemma lookup_resolution_order_witness :
  lookup_attr [("httpmapping", PDict [("timeout_ms", PInt 3)]); ("timeout_ms", PInt 9)]
    [("timeout_ms", PNone)] "timeout_ms" [PInt 5] (PStr "httpmapping") PNone
  = Ok (resolution [("httpmapping", PDict [("timeout_ms", PInt 3)]); ("timeout_ms", PInt 9)]
          [("timeout_ms", PNone)] "timeout_ms" "httpmapping" (PInt 5)).
Proof.
  apply lookup_resolution_order; [reflexivity|done|].
  intros v Hv. vm_compute in Hv. injection Hv as <-. by eexists.
Defined.
