(* ===== verification/IpAddr.v ===== *)
(** * IP addresses and CIDR ranges

    The parts of Python's [ipaddress] the compiler uses ([ip_address] and
    [str] of an address), [CIDRRange] ([envoy/v3/v3cidrrange.py]) and the
    allow/deny filter built from CIDR ranges ([ir/iripallowdeny.py]). *)

From S2P Require Import Prelude PyStr PyVal.

(** ** [ipaddress] *)

Definition parse_octet (s : string) : option Z :=
  if negb (str_bool s) then None
  else if negb (all_chars is_digit s) then None
  else if bool_decide (3 < slen s) then None
  else if negb (bool_decide (s = "0")) && startswith s "0" then None
  else n ← digits_val false 0 s; if bool_decide (255 < n)%Z then None else Some n.

Definition ipv4_int (s : string) : option Z :=
  match split "." s with
  | [a; b; c; d] =>
      a ← parse_octet a; b ← parse_octet b; c ← parse_octet c; d ← parse_octet d;
      Some (((a * 256 + b) * 256 + c) * 256 + d)%Z
  | _ => None
  end.

Definition octet (z : Z) (i : Z) : Z := (z / 2 ^ i) mod 256.
Definition ipv4_str (z : Z) : string :=
  join "." [str_of_int (octet z 24); str_of_int (octet z 16); str_of_int (octet z 8);
            str_of_int (octet z 0)].

Definition parse_hextet (s : string) : option Z :=
  if negb (all_chars is_hex s) then None
  else if bool_decide (4 < slen s) then None
  else if negb (str_bool s) then None
  else hex_acc 0 s.

(** The index of the one inner empty part; [None] when there are two. *)
Fixpoint find_skip (i : nat) (skip : option nat) (parts : list string) : option (option nat) :=
  match parts with
  | [] | [_] => Some skip
  | p :: rest =>
      if negb (str_bool p) && bool_decide (0 < i) then
        match skip with Some _ => None | None => find_skip (S i) (Some i) rest end
      else find_skip (S i) skip rest
  end.

Fixpoint hextets_acc (acc : Z) (l : list string) : option Z :=
  match l with
  | [] => Some acc
  | p :: l => h ← parse_hextet p; hextets_acc (acc * 65536 + h) l
  end.

(** The parts of an IPv6 address, an IPv4 tail turned into two hextets. *)
Definition ipv6_parts (s : string) : option (list string) :=
  let parts := split ":" s in
  if bool_decide (length parts < 3) then None
  else match last parts with
       | Some p =>
           if contains p "." then
             v4 ← ipv4_int p;
             Some (removelast parts ++ [hex_16 (v4 / 65536); hex_16 (v4 mod 65536)])
           else Some parts
       | None => None
       end.

Definition first_empty (parts : list string) : bool :=
  match parts with p :: _ => negb (str_bool p) | [] => false end.
Definition last_empty (parts : list string) : bool :=
  match last parts with Some p => negb (str_bool p) | None => false end.

(** How many parts are before and after the double colon, and how many
    hextets it stands for. *)
Definition ipv6_layout (parts : list string) : option (nat * nat * nat) :=
  if bool_decide (9 < length parts) then None
  else
    skip ← find_skip 0 None parts;
    match skip with
    | Some i =>
        let hi := i in
        let lo := length parts - i - 1 in
        hi ← (if first_empty parts then if bool_decide (hi = 1) then Some 0 else None else Some hi);
        lo ← (if last_empty parts then if bool_decide (lo = 1) then Some 0 else None else Some lo);
        if bool_decide (hi + lo < 8) then Some (hi, lo, 8 - (hi + lo)) else None
    | None =>
        if bool_decide (length parts ≠ 8) then None
        else if first_empty parts || last_empty parts then None
        else Some (8, 0, 0)
    end.

Definition ipv6_int (s : string) : option Z :=
  if negb (str_bool s) then None
  else
    parts ← ipv6_parts s;
    '(hi, lo, skipped) ← ipv6_layout parts;
    z ← hextets_acc 0 (take hi parts);
    hextets_acc (z * 65536 ^ Z.of_nat skipped)%Z (drop (length parts - lo) parts).

Definition hextets_of (z : Z) : list string :=
  (λ i, hex_16 ((z / 65536 ^ i) mod 65536)) <$> [7; 6; 5; 4; 3; 2; 1; 0]%Z.

(** The loop of [_compress_hextets]: best start and length, current start and
    length. *)
Definition zero_run (st : (Z * Z) * (Z * Z)) (ih : Z * string) : (Z * Z) * (Z * Z) :=
  let '((bs, bl), (ds, dl)) := st in
  if bool_decide (ih.2 = "0") then
    let dl := (dl + 1)%Z in
    let ds := if bool_decide (ds = -1)%Z then ih.1 else ds in
    if bool_decide (bl < dl)%Z then ((ds, dl), (ds, dl)) else ((bs, bl), (ds, dl))
  else ((bs, bl), (-1, 0))%Z.

Definition compress_hextets (hs : list string) : list string :=
  let '((bs, bl), _) := foldl zero_run ((-1, 0), (-1, 0))%Z (zip (Z.of_nat <$> seq 0 (length hs)) hs) in
  if bool_decide (1 < bl)%Z then
    let be := (bs + bl)%Z in
    let hs' := if bool_decide (be = Z.of_nat (length hs)) then hs ++ [EmptyString] else hs in
    let hs' := take (Z.to_nat bs) hs' ++ [EmptyString] ++ drop (Z.to_nat be) hs' in
    if bool_decide (bs = 0)%Z then EmptyString :: hs' else hs'
  else hs.

Definition ipv6_plain (z : Z) : string := join ":" (compress_hextets (hextets_of z)).

(** An IPv4-mapped address is written with its dotted quad. *)
Definition ipv6_str (z : Z) : string :=
  if bool_decide (z / 2 ^ 32 = 65535)%Z then
    ipv6_plain (z / 2 ^ 32) +:+ ":" +:+ ipv4_str (z mod 2 ^ 32)
  else ipv6_plain z.

Inductive ip_addr : Type :=
  | IPv4Address (z : Z)
  | IPv6Address (z : Z) (scope_id : option string).

(** [ip_address(s)]; [None] is the [ValueError]. *)
Definition ip_address (s : string) : option ip_addr :=
  if contains s "/" then None
  else match ipv4_int s with
       | Some z => Some (IPv4Address z)
       | None =>
           match split1 "%" s with
           | Some (a, scope) =>
               if negb (str_bool scope) || contains scope "%" then None
               else z ← ipv6_int a; Some (IPv6Address z (Some scope))
           | None => z ← ipv6_int s; Some (IPv6Address z None)
           end
       end.

Definition ip_str (a : ip_addr) : string :=
  match a with
  | IPv4Address z => ipv4_str z
  | IPv6Address z (Some sc) => ipv6_str z +:+ "%" +:+ sc
  | IPv6Address z None => ipv6_str z
  end.

Definition max_prefixlen (a : ip_addr) : Z := match a with IPv4Address _ => 32 | _ => 128 end.
Definition ip_version (a : ip_addr) : Z := match a with IPv4Address _ => 4 | _ => 6 end.

(** ** [CIDRRange] *)

Record CIDRRange : Type := mkCIDR {
  cidr_error : option string;
  cidr_address : option string;
  cidr_prefix_len : option Z
}.

Definition cidr_fail (msg : string) : CIDRRange := mkCIDR (Some msg) None None.

(** The part of [__init__] after the length is split off. *)
Definition cidr_build (address : string) (pfx_len : option Z) : CIDRRange :=
  match ip_address address with
  | None => cidr_fail ("Invalid IP address " +:+ address)
  | Some addr =>
      match pfx_len with
      | None => mkCIDR None (Some (ip_str addr)) (Some (max_prefixlen addr))
      | Some n =>
          if bool_decide (max_prefixlen addr < n)%Z then
            cidr_fail ("Invalid prefix length for IPv" +:+ str_of_int (ip_version addr) +:+ " address "
                       +:+ address +:+ "/" +:+ str_of_int n)
          else mkCIDR None (Some (ip_str addr)) (Some n)
      end
  end.

(** [CIDRRange.__init__] *)
Definition CIDRRange_init (spec : string) : CIDRRange :=
  match split1 "/" spec with
  | Some (address, lenstr) =>
      match py_int lenstr with
      | None => cidr_fail ("CIDR range " +:+ spec +:+ " has an invalid length, ignoring")
      | Some n => cidr_build address (Some n)
      end
  | None => cidr_build spec None
  end.

Definition CIDRRange_bool (c : CIDRRange) : bool :=
  match cidr_error c with Some e => negb (str_bool e) | None => true end
  && bool_decide (cidr_address c ≠ None) && bool_decide (cidr_prefix_len c ≠ None).

Definition CIDRRange_str (c : CIDRRange) : res string :=
  match CIDRRange_bool c, cidr_address c, cidr_prefix_len c with
  | true, Some a, Some n => Ok (a +:+ "/" +:+ str_of_int n)
  | _, _, _ => Raise (RuntimeError "cannot serialize an invalid CIDRRange!")
  end.

Definition CIDRRange_as_dict (c : CIDRRange) : dict pyval :=
  [("address_prefix", from_option PStr PNone (cidr_address c));
   ("prefix_len", from_option PInt PNone (cidr_prefix_len c))].

(** ** [IRIPAllowDeny] *)

Definition EnvoyTypeMap : dict string := [("remote", "remote_ip"); ("peer", "direct_remote_ip")].

(** The loop over one principal's items: what is kept and the errors posted
    on the parent.  [first] is the loop's flag. *)
Fixpoint principal_items (action : string) (first : bool) (items : dict string)
    : list (string * CIDRRange) * list string :=
  match items with
  | [] => ([], [])
  | (kind, spec) :: rest =>
      if negb first then
        ([], ["ip" +:+ lower action +:+ " principals must be separate list elements"])
      else
        match dget kind EnvoyTypeMap with
        | None =>
            let '(ps, es) := principal_items action false rest in
            (ps, ("ip" +:+ lower action +:+ " principal type " +:+ kind
                  +:+ " unknown: must be peer or remote") :: es)
        | Some envoy_kind =>
            let cidrrange := CIDRRange_init spec in
            let '(ps, es) := principal_items action false rest in
            if CIDRRange_bool cidrrange then ((envoy_kind, cidrrange) :: ps, es)
            else (ps, ("ip_" +:+ lower action +:+ " principal " +:+ spec +:+ " is not valid: "
                       +:+ default "None" (cidr_error cidrrange)) :: es)
        end
  end.

Record IRIPAllowDeny : Type := mkIPAllowDeny {
  iad_action : string;
  iad_principals : list (string * CIDRRange);
  iad_active : bool
}.

(** [setup]: the filter and the errors posted on the parent. *)
Definition IRIPAllowDeny_setup (action : string) (principals : list (dict string))
    : res (IRIPAllowDeny * list string) :=
  let action := upper action in
  if negb (bool_decide (action = "ALLOW")) && negb (bool_decide (action = "DENY")) then
    Raise (RuntimeError ("IRIPAllowDeny action must be ALLOW or DENY, not " +:+ action))
  else
    let rs := principal_items action true <$> principals in
    let ps := rs ≫= fst in
    Ok (mkIPAllowDeny action ps (bool_decide (0 < length ps)), rs ≫= snd).

Definition IRIPAllowDeny_as_dict (f : IRIPAllowDeny) : dict pyval :=
  [("action", PStr (iad_action f));
   ("principals", PList ((λ p, PDict [(p.1, PDict (CIDRRange_as_dict p.2))]) <$> iad_principals f))].

(** ** Lemmas *)

Definition octet_ok (n : Z) : bool :=
  bool_decide (parse_octet (str_of_int n) = Some n) && negb (mem_char "." (str_of_int n))
  && negb (mem_char "/" (str_of_int n)).

Lemma octets_ok : forallb octet_ok (Z.of_nat <$> seq 0 256) = true.
Proof. vm_compute. reflexivity. Qed.

Lemma octet_spec n :
  (0 ≤ n < 256)%Z →
  parse_octet (str_of_int n) = Some n ∧ mem_char "." (str_of_int n) = false
  ∧ mem_char "/" (str_of_int n) = false.
Proof.
  intros Hn. assert (Hok : octet_ok n = true).
  { apply (proj1 (forallb_elem_of _ _) octets_ok). apply list_elem_of_fmap. exists (Z.to_nat n).
    split; [lia|]. apply elem_of_seq. lia. }
  unfold octet_ok in Hok. rewrite !andb_true_iff, !negb_true_iff, bool_decide_eq_true in Hok. tauto.
Qed.

Lemma octet_range z i : (0 ≤ octet z i < 256)%Z.
Proof. apply Z.mod_pos_bound. lia. Qed.

Lemma octets_sum z :
  (0 ≤ z < 2 ^ 32)%Z →
  (((octet z 24 * 256 + octet z 16) * 256 + octet z 8) * 256 + octet z 0)%Z = z.
Proof.
  intros Hz. unfold octet. change (2 ^ 24)%Z with (256 * (256 * 256))%Z.
  change (2 ^ 16)%Z with (256 * 256)%Z. change (2 ^ 8)%Z with 256%Z. change (2 ^ 0)%Z with 1%Z.
  rewrite Z.div_1_r, <- !Z.div_div by lia.
  pose proof (Z.div_mod z 256). pose proof (Z.div_mod (z / 256) 256).
  pose proof (Z.div_mod (z / 256 / 256) 256).
  assert (z / 256 / 256 / 256 < 256)%Z.
  { rewrite !Z.div_div by lia. apply Z.div_lt_upper_bound; lia. }
  rewrite (Z.mod_small (z / 256 / 256 / 256)); [lia|].
  split; [|done]. repeat apply Z.div_pos; lia.
Qed.

Lemma ipv4_roundtrip z : (0 ≤ z < 2 ^ 32)%Z → ipv4_int (ipv4_str z) = Some z.
Proof.
  intros Hz. unfold ipv4_int, ipv4_str.
  rewrite (split_join "." [_; _; _; _]); [|done|].
  - rewrite !(λ i, proj1 (octet_spec _ (octet_range z i))). simpl. f_equal. by apply octets_sum.
  - intros x Hx. rewrite !elem_of_cons in Hx.
    destruct Hx as [->|[->|[->|[->|Hx]]]]; [..|by apply not_elem_of_nil in Hx];
      apply octet_spec, octet_range.
Qed.

Lemma mem_char_app c s t : mem_char c (s +:+ t) = mem_char c s || mem_char c t.
Proof. induction s as [|a s IH]; [done|]. rewrite app_cons. simpl. by rewrite IH, orb_assoc. Qed.

Lemma ipv4_str_no_slash z : mem_char "/" (ipv4_str z) = false.
Proof.
  unfold ipv4_str. cbn [join]. rewrite !mem_char_app.
  rewrite !(λ i, proj2 (proj2 (octet_spec _ (octet_range z i)))). done.
Qed.

Lemma contains_char s c : contains s (String c EmptyString) = mem_char c s.
Proof.
  induction s as [|a s IH]; [done|]. cbn [contains mem_char]. rewrite IH. f_equal.
  cbn [startswith]. rewrite andb_true_r. apply bool_decide_ext. naive_solver.
Qed.

(** Printing and parsing IPv4 addresses are inverse: the text
    [CIDRRange] puts in the Envoy configuration denotes the address that was
    parsed, for every 32-bit address. *)
Theorem ip_address_str_roundtrip z :
  (0 ≤ z < 2 ^ 32)%Z → ip_address (ip_str (IPv4Address z)) = Some (IPv4Address z).
Proof.
  intros Hz. unfold ip_address, ip_str. rewrite contains_char.
  by rewrite ipv4_str_no_slash, ipv4_roundtrip.
Qed.

Lemma ip_address_str_roundtrip_witness : ip_address "10.0.255.1" = Some (IPv4Address 167837441).
Proof. apply (ip_address_str_roundtrip 167837441). lia. Defined.

Lemma cidr_build_bool address pfx_len :
  CIDRRange_bool (cidr_build address pfx_len) = true ↔
  ∃ a n, ip_address address = Some a ∧ (n ≤ max_prefixlen a)%Z ∧
         n = default (max_prefixlen a) pfx_len ∧
         cidr_build address pfx_len = mkCIDR None (Some (ip_str a)) (Some n).
Proof.
  unfold cidr_build. destruct (ip_address address) as [a|]; [|naive_solver].
  destruct pfx_len as [n|]; simpl.
  - case_bool as Hn; (split; [try done|]).
    + intros (? & ? & ? & ? & ? & ?). done.
    + intros _. exists a, n. split_and_all; [done|lia|done..].
    + done.
  - split; [|done]. intros _. exists a, (max_prefixlen a). split_and_all; [done|lia|done..].
Qed.

(** A [CIDRRange] is valid exactly when its specification is a valid IP
    address, alone or with an integer length of at most 32 (IPv4) or 128
    (IPv6); it then holds the normalised address and that length, or the
    maximal one. *)
Theorem cidr_range_valid spec :
  CIDRRange_bool (CIDRRange_init spec) = true ↔
  ∃ address a n,
    ip_address address = Some a ∧ (n ≤ max_prefixlen a)%Z ∧
    CIDRRange_init spec = mkCIDR None (Some (ip_str a)) (Some n) ∧
    ((split1 "/" spec = None ∧ spec = address ∧ n = max_prefixlen a) ∨
     ∃ lenstr, split1 "/" spec = Some (address, lenstr) ∧ py_int lenstr = Some n).
Proof.
  unfold CIDRRange_init. destruct (split1 "/" spec) as [[address lenstr]|].
  - destruct (py_int lenstr) as [n|] eqn:Hi; [|split; [done|intros (? & ? & ? & ? & ? & [=] & ?)]].
    rewrite cidr_build_bool. split.
    + intros (a & n' & ? & ? & -> & ?). exists address, a, n. split_and_all; [done..|]. right. by exists lenstr.
    + intros (address' & a & n' & ? & ? & ? & [[[=] _]|(l & [= <- <-] & ?)]). exists a, n'. naive_solver.
  - rewrite cidr_build_bool. split.
    + intros (a & n' & ? & ? & -> & ?). exists spec, a, (max_prefixlen a). split_and_all; [done..|]. by left.
    + intros (address' & a & n' & ? & ? & ? & [(_ & <- & ?)|(l & [=] & _)]). exists a, n'. done.
Qed.

(** A negative prefix length passes validation and reaches the Envoy
    configuration. *)
Theorem cidr_negative_length :
  CIDRRange_str (CIDRRange_init "192.168.0.0/-1") = Ok "192.168.0.0/-1".
Proof. vm_compute. reflexivity. Qed.

Definition keep_principal (p : string * string) : option (string * CIDRRange) :=
  k ← dget p.1 EnvoyTypeMap;
  if CIDRRange_bool (CIDRRange_init p.2) then Some (k, CIDRRange_init p.2) else None.

Lemma principal_items_single action p :
  (principal_items action true [p]).1 = option_list (keep_principal p)
  ∧ length (principal_items action true [p]).2
    = match keep_principal p with Some _ => 0 | None => 1 end.
Proof.
  destruct p as [kind spec]. unfold keep_principal. cbn [principal_items negb fst snd].
  destruct (dget kind EnvoyTypeMap); [|done]. cbn [mbind option_bind].
  by destruct (CIDRRange_bool (CIDRRange_init spec)).
Qed.

Lemma principals_single action ps :
  let rs := principal_items action true <$> ((λ p, [p]) <$> ps) in
  rs ≫= fst = omap keep_principal ps
  ∧ length (rs ≫= snd) + length (omap keep_principal ps) = length ps.
Proof.
  cbv zeta. rewrite <- list_fmap_compose. induction ps as [|p ps [IH1 IH2]]; [done|].
  rewrite fmap_cons, !bind_cons, length_app, IH1. unfold compose at 1 2.
  destruct (principal_items_single action p) as [-> ->].
  change (omap keep_principal (p :: ps)) with
    (match keep_principal p with Some y => y :: omap keep_principal ps | None => omap keep_principal ps end).
  destruct (keep_principal p); simpl; (split; [done|]); lia.
Qed.

(** On principals given one per element, the allow/deny filter keeps, in
    order, exactly those of a known type with a valid CIDR range, posts one
    error for each of the others, and is active iff it keeps one; its action is
    [ALLOW] or [DENY]. *)
Theorem ip_allow_deny_setup action ps f errs :
  IRIPAllowDeny_setup action ((λ p, [p]) <$> ps) = Ok (f, errs) →
  iad_principals f = omap keep_principal ps ∧
  length errs + length (iad_principals f) = length ps ∧
  (iad_active f = true ↔ iad_principals f ≠ []) ∧
  (iad_action f = "ALLOW" ∨ iad_action f = "DENY").
Proof.
  unfold IRIPAllowDeny_setup. destruct (negb _ && negb _) eqn:Ha; [done|].
  intros [= <- <-]. cbn [iad_principals iad_active iad_action].
  destruct (principals_single (upper action) ps) as [Hps Hlen]. rewrite Hps. split_and_all.
  - done.
  - done.
  - rewrite bool_decide_eq_true. destruct (omap _ _); simpl; [split; [lia|done]|]. split; [done|lia].
  - apply andb_false_iff in Ha. rewrite !negb_false_iff, !bool_decide_eq_true in Ha. tauto.
Qed.

Lemma ip_allow_deny_setup_witness :
  ∃ f errs, IRIPAllowDeny_setup "allow" [[("peer", "127.0.0.1")]; [("remote", "10.0.0.0/99")]] = Ok (f, errs)
    ∧ length errs + length (iad_principals f) = 2.
Proof.
  eexists _, _. split; [vm_compute; reflexivity|].
  refine (proj1 (proj2 (ip_allow_deny_setup "allow" [("peer", "127.0.0.1"); ("remote", "10.0.0.0/99")] _ _ _))).
  vm_compute. reflexivity.
Defined.
