(* ===== verification/ServiceName.v ===== *)
(** * Service names ([ir/irbasemapping.py], first half)

    [normalize_service_name] parses a Mapping's service as a URL and qualifies
    its hostname with the Mapping's namespace.  The parts of [urllib.parse]
    and [re] that it uses are modelled first.  Percent-escapes of bytes above
    [%7F] are outside the model: they would decode to code points that
    [string] does not have. *)

From S2P Require Import Prelude PyStr PyVal IpAddr.

(** ** Python's [repr] of a string *)

Definition repr_char (q a : ascii) : string :=
  let n := code a in
  if bool_decide (a = q) || bool_decide (n = 92)%Z then String (chr 92) (str1 a)
  else if bool_decide (n = 9)%Z then String (chr 92) "t"
  else if bool_decide (n = 10)%Z then String (chr 92) "n"
  else if bool_decide (n = 13)%Z then String (chr 92) "r"
  else if bool_decide (n < 32 ∨ 127 ≤ n ≤ 160 ∨ n = 173)%Z then
    String (chr 92) ("x" +:+ hex_fixed true 2 n)
  else str1 a.
Fixpoint repr_body (q : ascii) (s : string) : string :=
  match s with EmptyString => EmptyString | String a s' => repr_char q a +:+ repr_body q s' end.
Definition py_repr (s : string) : string :=
  let q := if mem_char "'" s && negb (mem_char (chr 34) s) then chr 34 else "'"%char in
  str1 q +:+ repr_body q s +:+ str1 q.

(** ** [urllib.parse] *)

Definition is_alpha (c : ascii) : bool :=
  let n := code c in bool_decide (65 ≤ n ≤ 90 ∨ 97 ≤ n ≤ 122)%Z.
(** [scheme_chars] *)
Definition is_scheme_char (c : ascii) : bool :=
  is_alpha c || is_digit c || mem_char c "+-.".
Definition is_c0_or_space (c : ascii) : bool := bool_decide (code c ≤ 32)%Z.

Fixpoint lstrip_if (f : ascii → bool) (s : string) : string :=
  match s with
  | EmptyString => EmptyString
  | String a s' => if f a then lstrip_if f s' else s
  end.

(** The text up to the first of [/?#]. *)
Fixpoint until_delim (s : string) : string :=
  match s with
  | EmptyString => EmptyString
  | String a s' => if mem_char a "/?#" then EmptyString else String a (until_delim s')
  end.

Fixpoint after_delim (s : string) : string :=
  match s with
  | EmptyString => EmptyString
  | String a s' => if mem_char a "/?#" then s else after_delim s'
  end.

(** [^v[a-fA-F0-9]+\..+$] *)
Definition is_ipvfuture (h : string) : bool :=
  match split1 "." (drop_str 1 h) with
  | Some (v, rest) => str_bool v && all_chars is_hex v && str_bool rest
  | None => false
  end.

Definition check_bracketed_host (h : string) : res unit :=
  if startswith h "v" then
    if is_ipvfuture h then Ok () else Raise (ValueError "IPvFuture address is invalid")
  else match ip_address h with
       | None => Raise (ValueError (py_repr h +:+ " does not appear to be an IPv4 or IPv6 address"))
       | Some (IPv4Address _) => Raise (ValueError "An IPv4 address cannot be in brackets")
       | Some _ => Ok ()
       end.

Definition check_bracketed_netloc (netloc : string) : res unit :=
  let hostport := (rpartition "@" netloc).2 in
  let '(before, have_br, bracketed) := partition "[" hostport in
  if have_br then
    if str_bool before then Raise (ValueError "Invalid IPv6 URL")
    else
      let '(hostname, _, port) := partition "]" bracketed in
      if str_bool port && negb (startswith port ":") then Raise (ValueError "Invalid IPv6 URL")
      else check_bracketed_host hostname
  else check_bracketed_host (partition ":" hostport).1.1.

(** [urlsplit]: the scheme, the network location and the text after it (path,
    query and fragment together). *)
Definition urlsplit (url : string) : res (string * string * string) :=
  let url := lstrip_if is_c0_or_space url in
  let url := replace_char (chr 10) EmptyString
               (replace_char (chr 13) EmptyString (replace_char (chr 9) EmptyString url)) in
  let '(scheme, url) :=
    match split1 ":" url with
    | Some (String a pre, post) =>
        if is_alpha a && all_chars is_scheme_char (String a pre) then (lower (String a pre), post)
        else (EmptyString, url)
    | _ => (EmptyString, url)
    end in
  if startswith url "//" then
    let netloc := until_delim (drop_str 2 url) in
    let rest := after_delim (drop_str 2 url) in
    let op := mem_char "[" netloc in
    let cl := mem_char "]" netloc in
    if (op && negb cl) || (cl && negb op) then Raise (ValueError "Invalid IPv6 URL")
    else if op && cl then _ ← check_bracketed_netloc netloc; Ok (scheme, netloc, rest)
    else Ok (scheme, netloc, rest)
  else Ok (scheme, EmptyString, url).

(** [_hostinfo]: the host and the port text. *)
Definition hostinfo (netloc : string) : string * string :=
  let hi := (rpartition "@" netloc).2 in
  let '(_, have_br, bracketed) := partition "[" hi in
  if have_br then
    let '(hostname, _, port) := partition "]" bracketed in
    (hostname, (partition ":" port).2)
  else
    let '(hostname, _, port) := partition ":" hi in (hostname, port).

(** The [hostname] property; the empty string stands for [None]. *)
Definition url_hostname (netloc : string) : string :=
  let '(h, pct, zone) := partition "%" (hostinfo netloc).1 in
  lower h +:+ (if (pct : bool) then "%" else EmptyString) +:+ zone.

(** The [port] property. *)
Definition url_port (netloc : string) : res (option Z) :=
  let port := (hostinfo netloc).2 in
  if negb (str_bool port) then Ok None
  else if all_chars is_digit port then
    match digits_val false 0 port with
    | Some n =>
        if bool_decide (0 ≤ n ≤ 65535)%Z then Ok (Some n)
        else Raise (ValueError "Port out of range 0-65535")
    | None => Raise (ValueError EmptyString)
    end
  else Raise (ValueError ("Port could not be cast to integer value as " +:+ py_repr port)).

(** The matches of [%.{,2}], left to right without overlap. *)
Fixpoint percent_seqs (s : string) : list string :=
  match s with
  | EmptyString => []
  | String a s' =>
      if bool_decide (a = "%"%char) then
        match s' with
        | String b (String c s'') => String a (String b (str1 c)) :: percent_seqs s''
        | String b EmptyString => [String a (str1 b)]
        | EmptyString => [str1 a]
        end
      else percent_seqs s'
  end.

(** [%[0-9a-fA-F]{2}] *)
Definition good_seq (s : string) : bool :=
  match s with
  | String _ (String b (String c EmptyString)) => is_hex b && is_hex c
  | _ => false
  end.

(** [unquote] of a text whose escapes are all good; [None] for an escape above
    [%7F]. *)
Fixpoint unquote (s : string) : option string :=
  match s with
  | EmptyString => Some EmptyString
  | String a s' =>
      if bool_decide (a = "%"%char) then
        match s' with
        | String b (String c s'') =>
            hb ← hex_val b; hc ← hex_val c;
            if bool_decide (hb < 8)%Z then t ← unquote s''; Some (String (chr (16 * hb + hc)) t)
            else None
        | _ => None
        end
      else t ← unquote s'; Some (String a t)
  end.

(** The characters [quote] leaves alone, with the code's [safe] argument. *)
Definition quote_safe (c : ascii) : bool :=
  is_alpha c || is_digit c || mem_char c "_.-~" || mem_char c "!$&'()*+,;=:[]<>" || bool_decide (code c = 34)%Z.

(** [quote]: other characters become the escapes of their UTF-8 bytes. *)
Definition quote_char (c : ascii) : string :=
  if quote_safe c then str1 c
  else if bool_decide (code c < 128)%Z then "%" +:+ hex_fixed false 2 (code c)
  else "%" +:+ hex_fixed false 2 (192 + code c / 64) +:+ "%" +:+ hex_fixed false 2 (128 + code c mod 64).
Fixpoint quote (s : string) : string :=
  match s with EmptyString => EmptyString | String a s' => quote_char a +:+ quote s' end.

(** ** The code *)

Definition would_confuse_urlparse (url : string) : bool :=
  if bool_decide (0 < find url ":")%Z && startswith (lstrip_if is_scheme_char url) "://" then false
  else if startswith url "//" then false
  else true.

(** What [normalize_service_name] reads of the IR. *)
Record service_ctx : Type := mkServiceCtx {
  use_ambassador_namespace_for_service_resolution : bool;
  sc_ambassador_namespace : string
}.

(** The [try] block: hostname, scheme and port. *)
Definition parse_service (in_service : string) : res (option (string * string * option Z)) :=
  '(scheme, netloc, _) ← urlsplit (if would_confuse_urlparse in_service then "//" +:+ in_service else in_service);
  let hostname := url_hostname netloc in
  if negb (str_bool hostname) then Raise (ValueError "No hostname")
  else
    match List.filter (λ s, negb (good_seq s)) (percent_seqs hostname) with
    | bad :: _ => Raise (ValueError ("Invalid percent-escape in hostname: " +:+ bad))
    | [] =>
        match unquote hostname with
        | None => Ok None
        | Some hostname => port ← url_port netloc; Ok (Some (hostname, scheme, port))
        end
    end.

(** The code after the [try] block. *)
Definition requalify (ctx : service_ctx) (hostname scheme : string) (port : option Z)
    (mapping_namespace : option string) (resolver_kind : string) : string :=
  let want_qualified :=
    negb (use_ambassador_namespace_for_service_resolution ctx) && startswith resolver_kind "Kubernetes" in
  let is_qualified := contains hostname "." || contains hostname ":" || bool_decide ("localhost" = hostname) in
  let hostname :=
    match mapping_namespace with
    | Some ns =>
        if str_bool ns && negb (bool_decide (ns = sc_ambassador_namespace ctx)) && want_qualified
           && negb is_qualified
        then hostname +:+ "." +:+ ns else hostname
    | None => hostname
    end in
  let out_service := quote hostname in
  let out_service := if contains out_service ":" then "[" +:+ out_service +:+ "]" else out_service in
  let out_service := if str_bool scheme then scheme +:+ "://" +:+ out_service else out_service in
  match port with
  | Some p => if bool_decide (p ≠ 0)%Z then out_service +:+ ":" +:+ str_of_int p else out_service
  | None => out_service
  end.

(** [normalize_service_name]: the service and the error it posts, if any.
    The outer option is the limit of the model on percent-escapes. *)
Definition normalize_service_name (ctx : service_ctx) (in_service : string)
    (mapping_namespace : option string) (resolver_kind : string) (rkey : option string)
    : option (string * list string) :=
  match parse_service in_service with
  | Ok None => None
  | Ok (Some (hostname, scheme, port)) =>
      Some (requalify ctx hostname scheme port mapping_namespace resolver_kind, [])
  | Raise (ValueError e) =>
      let errstr := "Malformed service " +:+ py_repr in_service +:+ ": " +:+ e in
      let errstr := match rkey with
                    | Some k => if str_bool k then k +:+ ": " +:+ errstr else errstr
                    | None => errstr
                    end in
      Some (in_service, [errstr])
  | Raise _ => None
  end.

(** ** Character classes *)

Lemma all_chars_mem f c s : all_chars f s = true → f c = false → mem_char c s = false.
Proof.
  induction s as [|a s IH]; simpl; [done|]. intros [Ha Hs]%andb_true_iff Hc.
  rewrite IH by done. rewrite orb_false_r, bool_decide_eq_false. congruence.
Qed.

Lemma all_chars_impl (f g : ascii → bool) s :
  (∀ c, f c = true → g c = true) → all_chars f s = true → all_chars g s = true.
Proof. intros Hfg. induction s; simpl; [done|]. rewrite !andb_true_iff. naive_solver. Qed.

Lemma all_chars_app f s t : all_chars f (s +:+ t) = all_chars f s && all_chars f t.
Proof. induction s as [|a s IH]; [done|]. rewrite app_cons. simpl. by rewrite IH, andb_assoc. Qed.

Lemma replace_char_absent c t s : mem_char c s = false → replace_char c t s = s.
Proof.
  induction s as [|a s IH]; simpl; [done|]. intros [Ha Hs]%orb_false_iff. by rewrite Ha, IH.
Qed.

Lemma split1_absent c s : mem_char c s = false → split1 c s = None.
Proof.
  induction s as [|a s IH]; simpl; [done|]. intros [Ha Hs]%orb_false_iff. by rewrite Ha, IH.
Qed.

Lemma rsplit1_absent c s : mem_char c s = false → rsplit1 c s = None.
Proof.
  induction s as [|a s IH]; simpl; [done|]. intros [Ha Hs]%orb_false_iff. by rewrite IH, Ha.
Qed.

Lemma split1_app c s t : mem_char c s = false → split1 c (s +:+ String c t) = Some (s, t).
Proof.
  induction s as [|a s IH]; cbn [mem_char]; intros Hm.
  - rewrite app_empty_l. cbn [split1]. by rewrite bool_decide_true.
  - apply orb_false_iff in Hm as [Ha Hs]. rewrite app_cons. cbn [split1]. by rewrite Ha, IH.
Qed.

(** The characters of an ordinary host name and of a lower-case scheme. *)
Definition plain_char (c : ascii) : bool :=
  let n := code c in bool_decide (97 ≤ n ≤ 122)%Z || is_digit c || mem_char c "-._".
Definition plain_scheme_char (c : ascii) : bool :=
  let n := code c in bool_decide (97 ≤ n ≤ 122)%Z || is_digit c || mem_char c "+-.".
Definition netloc_char (c : ascii) : bool := plain_char c || bool_decide (c = ":"%char).

Definition impl_all (f g : ascii → bool) : bool :=
  forallb (λ n, implb (f (ascii_of_nat n)) (g (ascii_of_nat n))) (seq 0 256).

Lemma impl_all_spec f g : impl_all f g = true → ∀ c, f c = true → g c = true.
Proof.
  unfold impl_all. rewrite forallb_elem_of. intros H c Hf. specialize (H (nat_of_ascii c)).
  rewrite ascii_nat_embedding, Hf in H. apply H, elem_of_seq. pose proof (nat_ascii_bounded c). lia.
Qed.

Ltac char_class := apply impl_all_spec; vm_compute; reflexivity.

Lemma lower_plain s : all_chars plain_char s = true → lower s = s.
Proof.
  assert (Hc : ∀ c, plain_char c = true → bool_decide (lower_char c = c) = true) by char_class.
  induction s as [|a s IH]; simpl; [done|]. intros [Ha%Hc Hs]%andb_true_iff.
  apply bool_decide_eq_true in Ha. by rewrite Ha, IH.
Qed.

Lemma lower_plain_scheme s : all_chars plain_scheme_char s = true → lower s = s.
Proof.
  assert (Hc : ∀ c, plain_scheme_char c = true → bool_decide (lower_char c = c) = true) by char_class.
  induction s as [|a s IH]; simpl; [done|]. intros [Ha%Hc Hs]%andb_true_iff.
  apply bool_decide_eq_true in Ha. by rewrite Ha, IH.
Qed.

Lemma quote_plain s : all_chars plain_char s = true → quote s = s.
Proof.
  assert (Hc : ∀ c, plain_char c = true → quote_safe c = true) by char_class.
  induction s as [|a s IH]; simpl; [done|]. intros [Ha%Hc Hs]%andb_true_iff.
  unfold quote_char. rewrite Ha, IH by done. done.
Qed.

Lemma unquote_plain s : mem_char "%" s = false → unquote s = Some s ∧ percent_seqs s = [].
Proof.
  induction s as [|a s IH]; simpl; [done|]. intros [Ha Hs]%orb_false_iff.
  rewrite Ha. destruct (IH Hs) as [-> ->]. done.
Qed.

Lemma until_delim_id s :
  all_chars netloc_char s = true → until_delim s = s ∧ after_delim s = EmptyString.
Proof.
  assert (Hc : ∀ c, netloc_char c = true → negb (mem_char c "/?#") = true) by char_class.
  induction s as [|a s IH]; cbn [all_chars until_delim after_delim]; [done|].
  intros [Ha%Hc%negb_true_iff Hs]%andb_true_iff. rewrite Ha. by destruct (IH Hs) as [-> ->].
Qed.

(** ** Ordinary services *)

(** A service as it is usually written: an optional lower-case scheme, a host
    of ordinary characters, an optional port from 1 to 65535. *)
Definition port_suffix (port : option Z) : string :=
  match port with Some p => ":" +:+ str_of_int p | None => EmptyString end.
Definition service_str (scheme host : string) (port : option Z) : string :=
  (if str_bool scheme then scheme +:+ "://" else EmptyString) +:+ host +:+ port_suffix port.

Definition scheme_ok (s : string) : Prop :=
  all_chars plain_scheme_char s = true ∧
  match s with String a _ => is_alpha a = true | EmptyString => True end.
Definition host_ok (h : string) : Prop := str_bool h = true ∧ all_chars plain_char h = true.
Definition port_ok (p : option Z) : Prop := match p with Some n => (1 ≤ n ≤ 65535)%Z | None => True end.

Lemma netloc_all host port :
  host_ok host → port_ok port → all_chars netloc_char (host +:+ port_suffix port) = true.
Proof.
  intros [_ Hh] Hp. rewrite all_chars_app.
  rewrite (all_chars_impl plain_char netloc_char host) by (done || char_class). simpl.
  destruct port as [n|]; [|done]. unfold port_suffix. rewrite all_chars_app. simpl.
  destruct (digits_of_int n) as (_ & Hd & _); [simpl in Hp; lia|].
  apply (all_chars_impl is_digit); [char_class|done].
Qed.

(** A network location without brackets or escapes is read as it is. *)
Lemma hostinfo_plain host port :
  host_ok host → port_ok port →
  hostinfo (host +:+ port_suffix port) = (host, match port with Some n => str_of_int n | None => EmptyString end).
Proof.
  intros Hh Hp. pose proof (netloc_all _ _ Hh Hp) as Hn. destruct Hh as [_ Hh].
  unfold hostinfo, rpartition, partition.
  rewrite rsplit1_absent by (by eapply all_chars_mem). cbn [snd].
  rewrite (split1_absent "[") by (by eapply all_chars_mem).
  destruct port as [n|]; unfold port_suffix.
  - change (":" +:+ str_of_int n) with (String ":" (str_of_int n)).
    rewrite split1_app by (by eapply all_chars_mem). done.
  - rewrite app_empty_r, split1_absent by (by eapply all_chars_mem). done.
Qed.

Lemma url_hostname_plain host port :
  host_ok host → port_ok port → url_hostname (host +:+ port_suffix port) = host.
Proof.
  intros Hh Hp. unfold url_hostname. rewrite hostinfo_plain by done. destruct Hh as [_ Hh]. cbn [fst].
  unfold partition. rewrite split1_absent by (by eapply all_chars_mem).
  by rewrite lower_plain, app_empty_l, app_empty_r.
Qed.

Lemma url_port_plain host port :
  host_ok host → port_ok port → url_port (host +:+ port_suffix port) = Ok port.
Proof.
  intros Hh Hp. unfold url_port. rewrite hostinfo_plain by done. cbn [snd].
  destruct port as [n|]; [|done]. simpl in Hp.
  destruct (digits_of_int n) as (Hv & Hd & Hb); [lia|]. rewrite Hb, Hd, Hv.
  cbn [negb]. rewrite bool_decide_true by lia. done.
Qed.

(** Text of URL characters is not changed by the clean-up of [urlsplit]. *)
Definition url_char (c : ascii) : bool :=
  netloc_char c || plain_scheme_char c || bool_decide (c = "/"%char).

Lemma url_clean s :
  str_bool s = true → all_chars url_char s = true →
  replace_char (chr 10) EmptyString (replace_char (chr 13) EmptyString (replace_char (chr 9) EmptyString
    (lstrip_if is_c0_or_space s))) = s.
Proof.
  assert (Hc : ∀ c, url_char c = true → negb (is_c0_or_space c) = true) by char_class.
  intros Hb Hs. destruct s as [|a s]; [done|].
  assert (Hl : lstrip_if is_c0_or_space (String a s) = String a s).
  { cbn [lstrip_if]. cbn [all_chars] in Hs. apply andb_true_iff in Hs as [Ha _].
    apply Hc, negb_true_iff in Ha. by rewrite Ha. }
  rewrite Hl. rewrite (replace_char_absent (chr 9)) by by eapply all_chars_mem.
  rewrite (replace_char_absent (chr 13)) by by eapply all_chars_mem.
  by rewrite (replace_char_absent (chr 10)) by by eapply all_chars_mem.
Qed.

Definition full_url (scheme netloc : string) : string :=
  (if str_bool scheme then scheme +:+ ":" else EmptyString) +:+ "//" +:+ netloc.

Lemma full_url_all scheme netloc :
  scheme_ok scheme → all_chars netloc_char netloc = true →
  str_bool (full_url scheme netloc) = true ∧ all_chars url_char (full_url scheme netloc) = true.
Proof.
  intros [Hs _] Hn. unfold full_url. rewrite !all_chars_app.
  rewrite (all_chars_impl netloc_char url_char netloc) by (done || char_class).
  split; [by destruct scheme|]. destruct scheme as [|a s]; [done|]. cbn [str_bool].
  rewrite all_chars_app, (all_chars_impl plain_scheme_char url_char _) by (done || char_class). done.
Qed.

Lemma urlsplit_full scheme netloc :
  scheme_ok scheme → all_chars netloc_char netloc = true →
  urlsplit (full_url scheme netloc) = Ok (scheme, netloc, EmptyString).
Proof.
  intros Hs Hn. destruct (full_url_all _ _ Hs Hn) as [Hb Ha]. unfold urlsplit.
  rewrite url_clean by done.
  assert (Hrest : startswith ("//" +:+ netloc) "//" = true) by (apply startswith_spec; by eexists).
  assert (Hend : until_delim (drop_str 2 ("//" +:+ netloc)) = netloc
                 ∧ after_delim (drop_str 2 ("//" +:+ netloc)) = EmptyString) by by apply until_delim_id.
  destruct Hend as [Hend Haft].
  assert (Hbr : mem_char "[" netloc = false ∧ mem_char "]" netloc = false)
    by (split; by eapply all_chars_mem).
  destruct Hbr as [Hb1 Hb2]. unfold full_url. destruct scheme as [|a s].
  - cbn [str_bool]. rewrite app_empty_l.
    assert (Hsp : (match split1 ":" ("//" +:+ netloc) with
      | Some (String a pre, post) =>
          if is_alpha a && all_chars is_scheme_char (String a pre) then (lower (String a pre), post)
          else (EmptyString, "//" +:+ netloc)
      | _ => (EmptyString, "//" +:+ netloc)
      end) = (EmptyString, "//" +:+ netloc)).
    { destruct (split1 ":" _) as [[[|b pre] post]|] eqn:E; [done| |done].
      apply split1_Some in E as [E _]. rewrite app_cons in E. injection E as <- _. done. }
    rewrite Hsp, Hrest, Hend, Haft, Hb1, Hb2. done.
  - destruct Hs as [Hs Hal]. cbn [str_bool].
    change ((String a s +:+ ":") +:+ "//" +:+ netloc) with ((String a s +:+ str1 ":") +:+ "//" +:+ netloc).
    rewrite <- app_assoc_str.
    change (str1 ":" +:+ "//" +:+ netloc) with (String ":" ("//" +:+ netloc)).
    rewrite split1_app by (by eapply all_chars_mem).
    rewrite Hal, (all_chars_impl plain_scheme_char is_scheme_char) by (done || char_class).
    cbn [andb]. rewrite lower_plain_scheme by done. rewrite Hrest, Hend, Haft, Hb1, Hb2. done.
Qed.

Lemma find_from_ge i s sub : (find_from i s sub = -1 ∨ i ≤ find_from i s sub)%Z.
Proof.
  revert i. induction s as [|a s IH]; intros i; cbn [find_from]; destruct (startswith _ _);
    try lia. destruct (IH (i + 1)%Z); lia.
Qed.

Lemma find_from_found i s c : (0 ≤ i)%Z → mem_char c s = true → (i ≤ find_from i s (str1 c))%Z.
Proof.
  revert i. induction s as [|a s IH]; intros i Hi; [done|]. cbn [find_from mem_char].
  intros Hm. destruct (startswith (String a s) (str1 c)) eqn:E; [lia|].
  destruct (bool_decide_reflect (a = c)) as [->|Hne].
  - exfalso. apply not_true_iff_false in E. apply E, startswith_spec. by exists s.
  - specialize (IH (i + 1)%Z ltac:(lia) Hm). lia.
Qed.

Lemma find_pos a s c : a ≠ c → mem_char c s = true → (0 < find (String a s) (str1 c))%Z.
Proof.
  intros Hne Hm. unfold find. cbn [find_from]. destruct (startswith _ _) eqn:E.
  - apply startswith_spec in E as (t & Ht). unfold str1 in Ht. rewrite app_cons in Ht. congruence.
  - pose proof (find_from_found (0 + 1) s c ltac:(lia) Hm). lia.
Qed.

Lemma lstrip_if_mem f c s : mem_char c s = false → mem_char c (lstrip_if f s) = false.
Proof.
  induction s as [|a s IH]; [done|]. cbn [mem_char lstrip_if]. intros [Ha Hs]%orb_false_iff.
  destruct (f a); [auto|]. cbn [mem_char]. by rewrite Ha, Hs.
Qed.

Lemma lstrip_if_app f s t : all_chars f s = true → lstrip_if f (s +:+ t) = lstrip_if f t.
Proof.
  induction s as [|a s IH]; [done|]. rewrite app_cons. cbn [all_chars lstrip_if].
  intros [-> Hs]%andb_true_iff. auto.
Qed.

Lemma startswith_slash s p : mem_char "/" p = true → mem_char "/" s = false → startswith s p = false.
Proof.
  intros Hp Hs. apply not_true_iff_false. intros (t & ->)%startswith_spec.
  rewrite mem_char_app, Hp in Hs. done.
Qed.

Lemma parse_service_plain scheme host port :
  scheme_ok scheme → host_ok host → port_ok port →
  parse_service (service_str scheme host port) = Ok (Some (host, scheme, port)).
Proof.
  intros Hs Hh Hp. pose proof (netloc_all _ _ Hh Hp) as Hn.
  assert (Hurl : (if would_confuse_urlparse (service_str scheme host port)
                  then "//" +:+ service_str scheme host port else service_str scheme host port)
                 = full_url scheme (host +:+ port_suffix port)).
  { unfold would_confuse_urlparse, service_str, full_url. destruct scheme as [|a s]; cbn [str_bool].
    - rewrite app_empty_l.
      assert (Hsl : mem_char "/" (host +:+ port_suffix port) = false) by (by eapply all_chars_mem).
      rewrite (startswith_slash _ "://") by (done || by apply lstrip_if_mem).
      rewrite (startswith_slash _ "//") by done. by rewrite andb_false_r.
    - destruct Hs as [Hs Hal]. rewrite <- !app_assoc_str.
      rewrite lstrip_if_app; [|by apply (all_chars_impl plain_scheme_char); [char_class|]].
      assert (Hst : startswith (lstrip_if is_scheme_char ("://" +:+ host +:+ port_suffix port)) "://" = true)
        by (apply startswith_spec; by eexists).
      rewrite Hst, bool_decide_true; [done|]. rewrite app_cons. apply (find_pos a _ ":").
      + intros ->. done.
      + by rewrite mem_char_app, orb_true_r. }
  unfold parse_service. rewrite Hurl, urlsplit_full by done. cbn [mbind res_bind].
  rewrite url_hostname_plain, url_port_plain by done. destruct Hh as [Hb Hh]. rewrite Hb. cbn [negb].
  destruct (unquote_plain host) as [-> ->]; [by eapply all_chars_mem|]. done.
Qed.

(** The host after qualification. *)
Definition qualified_host (ctx : service_ctx) (host : string) (ns : option string) (kind : string) : string :=
  match ns with
  | Some ns =>
      if str_bool ns && negb (bool_decide (ns = sc_ambassador_namespace ctx))
         && (negb (use_ambassador_namespace_for_service_resolution ctx) && startswith kind "Kubernetes")
         && negb (contains host "." || bool_decide ("localhost" = host))
      then host +:+ "." +:+ ns else host
  | None => host
  end.

Lemma qualified_host_ok ctx host ns kind :
  host_ok host → (∀ n, ns = Some n → all_chars plain_char n = true) →
  host_ok (qualified_host ctx host ns kind).
Proof.
  intros [Hb Hh] Hns. unfold qualified_host. destruct ns as [n|]; [|done].
  destruct (_ && _); [|done]. split; [by destruct host|].
  rewrite !all_chars_app, Hh, (Hns n) by done. done.
Qed.

Lemma contains_colon h : all_chars plain_char h = true → contains h ":" = false.
Proof. intros Hh. rewrite (contains_char h ":"). by eapply all_chars_mem. Qed.

Lemma requalify_plain ctx host scheme port ns kind :
  host_ok host → port_ok port → (∀ n, ns = Some n → all_chars plain_char n = true) →
  requalify ctx host scheme port ns kind = service_str scheme (qualified_host ctx host ns kind) port.
Proof.
  intros Hh Hp Hns. destruct (qualified_host_ok ctx host ns kind Hh Hns) as [_ Hq].
  unfold requalify. rewrite (contains_colon host) by apply Hh. rewrite orb_false_r.
  change (match ns with
    | Some ns => if str_bool ns && negb (bool_decide (ns = sc_ambassador_namespace ctx)) &&
          (negb (use_ambassador_namespace_for_service_resolution ctx) && startswith kind "Kubernetes") &&
          negb (contains host "." || bool_decide ("localhost" = host))
        then host +:+ "." +:+ ns else host
    | None => host end) with (qualified_host ctx host ns kind).
  rewrite quote_plain, contains_colon by done. unfold service_str, port_suffix. destruct port as [p|].
  - simpl in Hp. rewrite bool_decide_true by lia.
    destruct (str_bool scheme); by rewrite <- ?app_assoc_str, ?app_empty_l.
  - rewrite app_empty_r. destruct (str_bool scheme); by rewrite <- ?app_assoc_str, ?app_empty_l.
Qed.

Lemma normalize_plain ctx scheme host port ns kind rkey :
  scheme_ok scheme → host_ok host → port_ok port → (∀ n, ns = Some n → all_chars plain_char n = true) →
  normalize_service_name ctx (service_str scheme host port) ns kind rkey
  = Some (service_str scheme (qualified_host ctx host ns kind) port, []).
Proof.
  intros. unfold normalize_service_name. rewrite parse_service_plain by done.
  by rewrite requalify_plain.
Qed.

(** C34. On an ordinary service (optional scheme, host of ordinary characters,
    port from 1 to 65535), [normalize_service_name] posts no error, keeps
    scheme and port, and appends the Mapping's namespace to the host exactly
    when the host is unqualified, the resolver is a Kubernetes one, the
    namespace is not Ambassador's own and qualification is not disabled. *)
Theorem normalize_service_name_plain ctx scheme host port ns kind rkey :
  scheme_ok scheme → host_ok host → port_ok port → (∀ n, ns = Some n → all_chars plain_char n = true) →
  normalize_service_name ctx (service_str scheme host port) ns kind rkey
  = Some (service_str scheme (qualified_host ctx host ns kind) port, []).
Proof. apply normalize_plain. Qed.

Lemma normalize_service_name_plain_witness :
  normalize_service_name (mkServiceCtx false "ambassador") "https://quote:8443" (Some "prod")
    "KubernetesEndpointResolver" None = Some ("https://quote.prod:8443", []).
Proof.
  apply (normalize_service_name_plain (mkServiceCtx false "ambassador") "https" "quote" (Some 8443%Z)
    (Some "prod") "KubernetesEndpointResolver" None); [by split|by split|simpl; lia|].
  intros n [= <-]. reflexivity.
Defined.

Lemma qualified_host_idem ctx host ns kind :
  qualified_host ctx (qualified_host ctx host ns kind) ns kind = qualified_host ctx host ns kind.
Proof.
  destruct ns as [n|]; [|done]. unfold qualified_host at 2 3.
  destruct (_ && _) eqn:E; [|unfold qualified_host; by rewrite E].
  unfold qualified_host. rewrite (contains_char _ "."), !mem_char_app, orb_true_r. cbn [orb negb].
  by rewrite andb_false_r.
Qed.

(** C35. Normalizing an ordinary service twice is the same as once, so a
    Mapping that is set up again from its stored service does not change. *)
Theorem normalize_service_name_idempotent ctx scheme host port ns kind rkey s' :
  scheme_ok scheme → host_ok host → port_ok port → (∀ n, ns = Some n → all_chars plain_char n = true) →
  normalize_service_name ctx (service_str scheme host port) ns kind rkey = Some (s', []) →
  normalize_service_name ctx s' ns kind rkey = Some (s', []).
Proof.
  intros Hs Hh Hp Hns. rewrite normalize_plain by done. intros [= <-].
  rewrite normalize_plain by (done || by apply qualified_host_ok). by rewrite qualified_host_idem.
Qed.

Lemma normalize_service_name_idempotent_witness :
  normalize_service_name (mkServiceCtx false "ambassador") "quote.prod" (Some "prod")
    "KubernetesEndpointResolver" None = Some ("quote.prod", []).
Proof.
  apply (normalize_service_name_idempotent (mkServiceCtx false "ambassador") EmptyString "quote" None
    (Some "prod") "KubernetesEndpointResolver" None); [by split|by split|done| |vm_compute; reflexivity].
  intros n [= <-]. reflexivity.
Defined.

(** ** [ParsedService] ([utils.py]) *)

Record ParsedService : Type := mkParsedService {
  ps_scheme : string;
  ps_errors : list string;
  ps_name_fields : list string;
  ps_hostname : option string;
  ps_port : Z;
  ps_hostname_port : string
}.

(** Path, query or fragment is not empty. *)
Definition has_extra (rest : string) : bool :=
  let '(rest, _, fragment) := partition "#" rest in
  let '(path, _, query) := partition "?" rest in
  str_bool path || str_bool query || str_bool fragment.

Definition hostname_opt (netloc : string) : option string :=
  let h := url_hostname netloc in if str_bool h then Some h else None.

(** The scheme handling of [__init__]: the remaining service, whether TLS is
    originated, the name fields and the errors. *)
Definition strip_scheme (service : string) (allow_scheme : bool) (ctx_name : option string)
    : string * bool * list string * list string :=
  let ctx := match ctx_name with Some c => if str_bool c then Some c else None | None => None end in
  if allow_scheme && startswith (lower service) "https://" then
    (drop_str (slen "https://") service, true, ["otls"], [])
  else if allow_scheme && startswith (lower service) "http://" then
    let service := drop_str (slen "http://") service in
    match ctx with
    | Some c => (service, true, ["otls"],
        ["Originate-TLS context " +:+ c +:+ " being used even though service " +:+ service +:+ " lists HTTP"])
    | None => (service, false, [], [])
    end
  else match ctx with
       | Some c => (service, true, ["otls"; c], [])
       | None => (service, false, [], [])
       end.

(** A scheme that is left after [strip_scheme]. *)
Definition drop_unknown_scheme (service : string) (allow_scheme : bool) (errors : list string)
    : string * list string :=
  let i := find service "://" in
  if bool_decide (0 ≤ i)%Z then
    let scheme := take_str (Z.to_nat i) service in
    (drop_str (Z.to_nat i + 3) service,
     errors ++ [if allow_scheme
                then "service " +:+ service +:+ " has unknown scheme " +:+ scheme +:+ ", assuming http"
                else "ignoring scheme " +:+ scheme +:+ " for service " +:+ service
                     +:+ ", since it is being used for a non-HTTP mapping"])
  else (service, errors).

(** The guarded [p.port]. *)
Definition guarded_port (service netloc : string) (errors : list string) : res (option Z * list string) :=
  match url_port netloc with
  | Ok p => Ok (p, errors)
  | Raise (ValueError e) =>
      Ok (Some 0%Z, errors ++ ["found invalid port for service " +:+ service
        +:+ ". Please specify a valid port between 0 and 65535 - " +:+ e +:+ ". Service " +:+ service
        +:+ " cluster will be ignored, please re-configure"])
  | Raise e => Raise e
  end.

(** The rest of [__init__], from the [urlparse] call, which is outside any
    [try]. *)
Definition parsed_host_port (service : string) (originate_tls : bool) (name_fields errors : list string)
    : res ParsedService :=
  '(_, netloc, rest) ← urlsplit ("random://" +:+ service);
  let errors := if has_extra rest
    then errors ++ ["service " +:+ service
                    +:+ " has extra URL components; ignoring everything but the host and port"]
    else errors in
  let hostname := hostname_opt netloc in
  '(port, errors) ← guarded_port service netloc errors;
  let port := match port with
              | Some p => if bool_decide (p = 0)%Z then None else Some p
              | None => None
              end in
  let port := default (if originate_tls then 443 else 80)%Z port in
  Ok (mkParsedService "http" errors name_fields hostname port
        (default "None" hostname +:+ ":" +:+ str_of_int port)).

(** [ParsedService.__init__] *)
Definition ParsedService_init (service : string) (allow_scheme : bool) (ctx_name : option string)
    : res ParsedService :=
  let '(service, originate_tls, name_fields, errors) := strip_scheme service allow_scheme ctx_name in
  let '(service, errors) := drop_unknown_scheme service allow_scheme errors in
  parsed_host_port service originate_tls name_fields errors.

Lemma find_absent s : mem_char "/" s = false → find s "://" = (-1)%Z.
Proof.
  unfold find. generalize 0%Z. induction s as [|a s IH]; intros i Hm; cbn [find_from].
  - done.
  - rewrite startswith_slash by done. cbn [mem_char] in Hm. apply orb_false_iff in Hm as [_ Hm]. by apply IH.
Qed.

Lemma urlsplit_random netloc :
  all_chars netloc_char netloc = true →
  urlsplit ("random://" +:+ netloc) = Ok ("random", netloc, EmptyString).
Proof. intros Hn. apply (urlsplit_full "random" netloc); [by split|done]. Qed.

Lemma parsed_host_port_plain host port b nf :
  host_ok host → port_ok port →
  parsed_host_port (host +:+ port_suffix port) b nf []
  = Ok (mkParsedService "http" [] nf (Some host) (default (if b then 443 else 80)%Z port)
          (host +:+ ":" +:+ str_of_int (default (if b then 443 else 80)%Z port))).
Proof.
  intros Hh Hp. unfold parsed_host_port, guarded_port, hostname_opt.
  rewrite urlsplit_random by by apply netloc_all. cbn [mbind res_bind].
  rewrite url_hostname_plain, url_port_plain by done. rewrite (proj1 Hh). cbn [mbind res_bind].
  destruct port as [p|]; [|done]. simpl in Hp. rewrite bool_decide_false by lia. done.
Qed.

Lemma drop_str_app s t : drop_str (slen s) (s +:+ t) = t.
Proof. induction s as [|a s IH]; [done|]. rewrite app_cons, slen_cons. exact IH. Qed.

Lemma lower_app s t : lower (s +:+ t) = lower s +:+ lower t.
Proof. induction s as [|a s IH]; [done|]. rewrite app_cons. cbn [lower]. by rewrite IH. Qed.

(** How the scheme tests see an ordinary service. *)
Lemma service_str_scheme scheme host port :
  scheme ∈ [EmptyString; "http"; "https"] → host_ok host → port_ok port →
  startswith (lower (service_str scheme host port)) "https://" = bool_decide (scheme = "https")
  ∧ startswith (lower (service_str scheme host port)) "http://" = bool_decide (scheme = "http")
  ∧ drop_str (if str_bool scheme then slen scheme + 3 else 0) (service_str scheme host port)
    = host +:+ port_suffix port.
Proof.
  intros Hs Hh Hp. pose proof (netloc_all _ _ Hh Hp) as Hn.
  assert (Hsl : mem_char "/" (host +:+ port_suffix port) = false) by (by eapply all_chars_mem).
  unfold service_str. rewrite !elem_of_cons in Hs.
  destruct Hs as [->|[->|[->|Hs]]]; [| | |by apply not_elem_of_nil in Hs]; cbn [str_bool];
    [|by rewrite lower_app..].
  rewrite app_empty_l.
  assert (Hlo : mem_char "/" (lower (host +:+ port_suffix port)) = false).
  { rewrite lower_app, lower_plain by apply Hh. rewrite mem_char_app in *.
    apply orb_false_iff in Hsl as [-> Hsl]. destruct port as [p|]; [|done]. simpl in Hp.
    destruct (digits_of_int p) as (_ & Hd & _); [lia|]. unfold port_suffix. rewrite lower_app.
    rewrite (lower_plain (str_of_int p)); [by rewrite mem_char_app in *|].
    apply (all_chars_impl is_digit); [char_class|done]. }
  by rewrite !startswith_slash.
Qed.

(** For an ordinary HTTP, HTTPS or scheme-less service, parsing reports no
    error and yields the host and the port, which defaults to 443 for HTTPS
    and to 80 otherwise. *)
Theorem parsed_service_plain scheme host port :
  scheme ∈ [EmptyString; "http"; "https"] → host_ok host → port_ok port →
  ∃ ps, ParsedService_init (service_str scheme host port) true None = Ok ps ∧
    ps_errors ps = [] ∧ ps_hostname ps = Some host ∧
    ps_port ps = default (if bool_decide (scheme = "https") then 443 else 80)%Z port ∧
    ps_hostname_port ps = host +:+ ":" +:+ str_of_int (ps_port ps).
Proof.
  intros Hs Hh Hp. pose proof (netloc_all _ _ Hh Hp) as Hn.
  assert (Hsl : mem_char "/" (host +:+ port_suffix port) = false) by (by eapply all_chars_mem).
  assert (Hdrop : ∀ es, drop_unknown_scheme (host +:+ port_suffix port) true es = (host +:+ port_suffix port, es)).
  { intros es. unfold drop_unknown_scheme. by rewrite find_absent. }
  assert (Hstrip : ∃ nf, strip_scheme (service_str scheme host port) true None
    = (host +:+ port_suffix port, bool_decide (scheme = "https"), nf, [])).
  { unfold strip_scheme. destruct (service_str_scheme _ _ _ Hs Hh Hp) as (-> & -> & Hd).
    rewrite !elem_of_cons in Hs.
    destruct Hs as [->|[->|[->|Hs]]]; [| | |by apply not_elem_of_nil in Hs]; cbn in Hd |- *; rewrite ?Hd; eauto. }
  destruct Hstrip as (nf & Hstrip). unfold ParsedService_init. rewrite Hstrip, Hdrop.
  rewrite parsed_host_port_plain by done. eexists. split; [done|]. by split_and_all.
Qed.

Lemma parsed_service_plain_witness :
  ∃ ps, ParsedService_init "https://quote" true None = Ok ps ∧
    ps_errors ps = [] ∧ ps_hostname ps = Some "quote" ∧ ps_port ps = 443%Z ∧
    ps_hostname_port ps = "quote" +:+ ":" +:+ str_of_int (ps_port ps).
Proof.
  apply (parsed_service_plain "https" "quote" None); [apply list_elem_of_In; simpl; tauto|by split|done].
Defined.

(** A service with an unbalanced bracket is reported and passed on by
    [normalize_service_name], but the parser that gets it next raises. *)
Theorem malformed_service_raises :
  normalize_service_name (mkServiceCtx false "default") "[::1" None "KubernetesServiceResolver" None
    = Some ("[::1", ["Malformed service '[::1': Invalid IPv6 URL"])
  ∧ ParsedService_init "[::1" true None = Raise (ValueError "Invalid IPv6 URL").
Proof. split; vm_compute; reflexivity. Qed.
