(* ===== verification/PyText.v ===== *)
(** * The text of a value

    [str(v)] and [repr(v)] as f-strings and [%s] print them, for values of any
    type. *)

From S2P Require Import Prelude PyStr PyVal ServiceName.

Fixpoint repr_val (v : pyval) : string :=
  match v with
  | PNone => "None"
  | PBool true => "True"
  | PBool false => "False"
  | PInt z => str_of_int z
  | PStr s => py_repr s
  | PList l => "[" +:+ join ", " (List.map repr_val l) +:+ "]"
  | PDict d => "{" +:+ join ", " (List.map (λ '(k, v), py_repr k +:+ ": " +:+ repr_val v) d) +:+ "}"
  end.

(** [str(v)]: a string prints as itself. *)
Definition py_text (v : pyval) : string := match v with PStr s => s | _ => repr_val v end.

(** [sep.join(v)] *)
Definition py_join (sep : string) (v : pyval) : res string :=
  l ← match v with
      | PList l => Ok l
      | PDict d => Ok (List.map PStr (dkeys d))
      | PStr s => Ok ((fix go s := match s with EmptyString => [] | String a s => PStr (str1 a) :: go s end) s)
      | _ => Raise TypeError
      end;
  ss ← (fix go l := match l with [] => Ok [] | v :: l => s ← as_str v; ss ← go l; Ok (s :: ss) end) l;
  Ok (join sep ss).

(** [v[-1]] *)
Definition last_item (v : pyval) : res pyval :=
  match v with
  | PList l => res_of_option IndexError (last l)
  | PStr s => c ← last_str s; Ok (PStr (str1 c))
  | PDict _ => Raise (KeyError "-1")
  | _ => Raise TypeError
  end.

(** [v.lower()] and [v.upper()] *)
Definition py_lower (v : pyval) : res string :=
  match v with PStr s => Ok (lower s) | _ => Raise (AttributeError "lower") end.
Definition py_upper (v : pyval) : res string :=
  match v with PStr s => Ok (upper s) | _ => Raise (AttributeError "upper") end.

(** Membership of a set or dictionary of strings hashes the value. *)
Definition hashable (v : pyval) : res unit :=
  match v with PList _ | PDict _ => Raise TypeError | _ => Ok tt end.
