(* ===== verification/Resolver.v ===== *)
(** * Service resolvers ([ir/irserviceresolver.py])

    Resolvers turn a service name into endpoints or a cluster-map entry; the
    factory loads the configured ones and makes sure the default names and
    their aliases exist. *)

From S2P Require Import Prelude PyStr PyVal IpAddr.

Record IRServiceResolver : Type := mkResolver {
  rv_name : string;
  rv_kind : string;
  rv_datacenter : pyval;
  rv_namespace : string;
  rv_resolve_with : option string;
  rv_active : bool;
  rv_errored : bool
}.

(** [bool(resolver)] *)
Definition rv_bool (r : IRServiceResolver) : bool := rv_active r && negb (rv_errored r).

(** Constructing a resolver runs [setup]; the errors are those it posts. *)
Definition IRServiceResolver_setup (name kind : string) (datacenter : pyval) (namespace : string)
    : IRServiceResolver * list string :=
  if bool_decide (kind = "ConsulResolver") then
    if negb (py_bool datacenter) then
      (mkResolver name kind datacenter namespace (Some "consul") false true,
       ["ConsulResolver is required to have a datacenter"])
    else (mkResolver name kind datacenter namespace (Some "consul") true false, [])
  else if bool_decide (kind = "KubernetesServiceResolver") then
    (mkResolver name kind datacenter namespace (Some "k8s") true false, [])
  else if bool_decide (kind = "KubernetesEndpointResolver") then
    (mkResolver name kind datacenter namespace (Some "k8s") true false, [])
  else
    (mkResolver name kind datacenter namespace None false true,
     ["Resolver kind " +:+ kind +:+ " unknown"]).

(** ** Mapping validation *)

(** [_k8s_svc_valid_mapping] *)
Definition k8s_svc_valid_mapping (mapping : dict pyval) : bool * list string :=
  if py_bool (pget "load_balancer" mapping) then
    (false, ["No load_balancer setting is allowed with the KubernetesServiceResolver"])
  else (true, []).

(** [_consul_valid_mapping]: also the notices it posts. *)
Definition consul_valid_mapping (service : string) : bool * list string * list string :=
  let dots := bool_decide (0 ≤ find service ".")%Z in
  (negb dots,
   if dots then ["The Consul resolver does not allow dots in service names"] else [],
   if bool_decide (0 ≤ find service ":")%Z
   then ["The Consul resolver does not allow overriding service port; ignoring requested port"] else []).

(** [valid_mapping]: validity, errors and notices. *)
Definition valid_mapping (r : IRServiceResolver) (mapping : dict pyval)
    : res (bool * list string * list string) :=
  if bool_decide (rv_kind r = "KubernetesServiceResolver") then
    let '(v, es) := k8s_svc_valid_mapping mapping in Ok (v, es, [])
  else if bool_decide (rv_kind r = "KubernetesEndpointResolver") then Ok (true, [], [])
  else if bool_decide (rv_kind r = "ConsulResolver") then
    service ← res_of_option (AttributeError "service") (dget "service" mapping);
    service ← as_str service;
    Ok (consul_valid_mapping service)
  else Raise (KeyError (rv_kind r)).

(** ** Resolution *)

Definition is_ip_address (addr : string) : bool :=
  match ip_address addr with Some _ => true | None => false end.

(** Keys of a Service's endpoints: a port, or the star of any port. *)
Inductive ep_key : Type := EpPort (p : Z) | EpAny.
#[export] Instance ep_key_eq_dec : EqDecision ep_key.
Proof. solve_decision. Defined.

Notation SvcEndpoint := (dict pyval) (only parsing).

Record ac_service : Type := mkService {
  svc_name : string;
  svc_endpoints : list (ep_key * list SvcEndpoint)
}.

(** What resolution reads of the IR and the configuration. *)
Record resolve_ctx : Type := mkResolveCtx {
  rc_services : dict ac_service;
  rc_use_ambassador_namespace : bool;
  rc_ambassador_namespace : string
}.

Definition parse_service (ctx : resolve_ctx) (svc_name svc_namespace : string) : string * string :=
  if contains svc_name "." && negb (is_ip_address svc_name) then
    match split "." svc_name with
    | s :: ns :: _ => (s, ns)
    | _ => (svc_name, rc_ambassador_namespace ctx)
    end
  else if negb (rc_use_ambassador_namespace ctx) && str_bool svc_namespace then (svc_name, svc_namespace)
  else (svc_name, rc_ambassador_namespace ctx).

(** [port or "*"] *)
Definition ep_key_of (port : option Z) : ep_key :=
  match port with Some p => if bool_decide (p = 0)%Z then EpAny else EpPort p | None => EpAny end.

Definition port_str (port : option Z) : string :=
  match port with Some p => str_of_int p | None => "None" end.

(** [get_endpoints]: the targets and the errors posted. *)
Definition get_endpoints (ctx : resolve_ctx) (r : IRServiceResolver) (key : string) (port : option Z)
    : option (list SvcEndpoint) * list string :=
  match dget key (rc_services ctx) with
  | None => (None, [])
  | Some service =>
      match svc_endpoints service with
      | [] => (None, [])
      | endpoints =>
          match dget (ep_key_of port) endpoints with
          | Some (t :: ts) => (Some (t :: ts), [])
          | _ =>
              let rw := default "None" (rv_resolve_with r) in
              let hrtype := if bool_decide (rv_resolve_with r = Some "k8s") then "Kubernetes" else rw in
              (None, ["Service " +:+ svc_name service +:+ ": " +:+ key +:+ ":" +:+ port_str port
                      +:+ " matches no endpoints from " +:+ hrtype])
          end
      end
  end.

(** [str(self.datacenter)] inside an f-string *)
Definition dc_str (v : pyval) : string :=
  match v with PStr s => s | PInt n => str_of_int n | PNone => "None" | _ => EmptyString end.

Definition resolve (ctx : resolve_ctx) (r : IRServiceResolver) (svc_name svc_namespace : string) (port : Z)
    : res (option (list SvcEndpoint) * list string) :=
  if bool_decide (rv_kind r = "KubernetesServiceResolver") then
    Ok (Some [[("ip", PStr svc_name); ("port", PInt port); ("target_kind", PStr "DNSname")]], [])
  else if bool_decide (rv_kind r = "KubernetesEndpointResolver") then
    let '(svc, namespace) := parse_service ctx svc_name svc_namespace in
    Ok (get_endpoints ctx r ("k8s-" +:+ svc +:+ "-" +:+ namespace) (Some port))
  else if bool_decide (rv_kind r = "ConsulResolver") then
    Ok (get_endpoints ctx r ("consul-" +:+ svc_name +:+ "-" +:+ dc_str (rv_datacenter r)) None)
  else Raise (KeyError (rv_kind r)).

Definition ip_fallback_entry (svc_name svc_namespace : string) (port : Z) : dict pyval :=
  [("service", PStr svc_name); ("namespace", PStr svc_namespace); ("port", PInt port);
   ("kind", PStr "KubernetesServiceResolver")].

Definition clustermap_entry (ctx : resolve_ctx) (r : IRServiceResolver) (svc_name svc_namespace : string)
    (port : Z) : res (dict pyval) :=
  if bool_decide (rv_kind r = "KubernetesServiceResolver") then
    let '(svc, namespace) := parse_service ctx svc_name svc_namespace in
    Ok [("port", PInt port); ("kind", PStr (rv_kind r)); ("service", PStr svc); ("namespace", PStr namespace)]
  else if bool_decide (rv_kind r = "KubernetesEndpointResolver") then
    if is_ip_address svc_name then Ok (ip_fallback_entry svc_name svc_namespace port)
    else
      let portstr := if bool_decide (port ≠ 0)%Z then "/" +:+ str_of_int port else EmptyString in
      let '(svc, namespace) := parse_service ctx svc_name svc_namespace in
      Ok [("service", PStr svc); ("namespace", PStr namespace); ("port", PInt port); ("kind", PStr (rv_kind r));
          ("endpoint_path", PStr ("k8s/" +:+ namespace +:+ "/" +:+ svc +:+ portstr))]
  else if bool_decide (rv_kind r = "ConsulResolver") then
    if is_ip_address svc_name then Ok (ip_fallback_entry svc_name svc_namespace port)
    else Ok [("service", PStr svc_name); ("datacenter", rv_datacenter r); ("kind", PStr (rv_kind r));
             ("endpoint_path", PStr ("consul/" +:+ dc_str (rv_datacenter r) +:+ "/" +:+ svc_name))]
  else Raise (KeyError (rv_kind r)).

(** ** The factory *)

Notation resolvers := (dict IRServiceResolver) (only parsing).

(** [ir.get_resolver(name)], as a truth value too *)
Definition get_resolver (name : string) (rs : resolvers) : option IRServiceResolver := dget name rs.
Definition has_resolver (name : string) (rs : resolvers) : bool :=
  match get_resolver name rs with Some r => rv_bool r | None => false end.

Definition add_resolver (r : IRServiceResolver) (rs : resolvers) : resolvers := dset (rv_name r) r rs.

(** [ir.add_resolver(IRServiceResolver(...))], with the errors of its setup *)
Definition new_resolver (name kind : string) (dc : pyval) (ns : string) (st : resolvers * list string)
    : resolvers * list string :=
  let '(r, es) := IRServiceResolver_setup name kind dc ns in
  (add_resolver r st.1, st.2 ++ es).

(** [check_aliases]: the missing one of two names is made from the other. *)
Definition check_aliases (n1 n2 : string) (st : resolvers * list string) : resolvers * list string :=
  let source :=
    if negb (has_resolver n1 st.1) then
      match get_resolver n2 st.1 with Some r => if rv_bool r then Some (r, n1) else None | None => None end
    else if negb (has_resolver n2 st.1) then
      match get_resolver n1 st.1 with Some r => if rv_bool r then Some (r, n2) else None | None => None end
    else None in
  match source with
  | Some (r, name) => new_resolver name (rv_kind r) (rv_datacenter r) (rv_namespace r) st
  | None => st
  end.

(** A configured resolver: name, kind, datacenter and namespace. *)
Definition load_resolvers (configs : list (string * string * pyval * string)) (st : resolvers * list string)
    : resolvers * list string :=
  foldl (λ st c, let '(name, kind, dc, ns) := c in new_resolver name kind dc ns st) st configs.

(** [load_all]; [ns] is the namespace of the default resolvers. *)
Definition load_all (configs : list (string * string * pyval * string)) (ns : string)
    : resolvers * list string :=
  let st := load_resolvers configs ([], []) in
  let st := if negb (has_resolver "kubernetes-service" st.1)
            then new_resolver "kubernetes-service" "KubernetesServiceResolver" PNone ns st else st in
  let st := if negb (has_resolver "endpoint" st.1) && negb (has_resolver "kubernetes-endpoint" st.1)
            then new_resolver "endpoint" "KubernetesEndpointResolver" PNone ns
                   (new_resolver "kubernetes-endpoint" "KubernetesEndpointResolver" PNone ns st)
            else check_aliases "endpoint" "kubernetes-endpoint" st in
  if negb (has_resolver "consul" st.1) && negb (has_resolver "consul-endpoint" st.1)
  then new_resolver "consul" "ConsulResolver" (PStr "dc1") ns
         (new_resolver "consul-endpoint" "ConsulResolver" (PStr "dc1") ns st)
  else check_aliases "consul" "consul-endpoint" st.

(** ** Lemmas *)

Lemma setup_bool name name' kind dc ns ns' :
  rv_bool (IRServiceResolver_setup name kind dc ns).1
  = rv_bool (IRServiceResolver_setup name' kind dc ns').1.
Proof. unfold IRServiceResolver_setup. by repeat case_match. Qed.

Lemma setup_fields name kind dc ns :
  rv_name (IRServiceResolver_setup name kind dc ns).1 = name
  ∧ rv_kind (IRServiceResolver_setup name kind dc ns).1 = kind
  ∧ rv_datacenter (IRServiceResolver_setup name kind dc ns).1 = dc.
Proof. unfold IRServiceResolver_setup. by repeat case_match. Qed.

Lemma new_resolver_fst name kind dc ns st :
  (new_resolver name kind dc ns st).1 = dset name (IRServiceResolver_setup name kind dc ns).1 st.1.
Proof.
  unfold new_resolver, add_resolver. pose proof (setup_fields name kind dc ns) as (Hn & _).
  destruct (IRServiceResolver_setup name kind dc ns). simpl in *. by rewrite Hn.
Qed.

Lemma has_resolver_new n name kind dc ns st :
  has_resolver n (new_resolver name kind dc ns st).1
  = if bool_decide (n = name) then rv_bool (IRServiceResolver_setup name kind dc ns).1
    else has_resolver n st.1.
Proof.
  unfold has_resolver, get_resolver. rewrite new_resolver_fst, dget_dset. by case_bool.
Qed.

(** Every stored resolver is as [setup] made it. *)
Definition rs_wf (rs : resolvers) : Prop :=
  ∀ n r, dget n rs = Some r →
    rv_bool r = rv_bool (IRServiceResolver_setup n (rv_kind r) (rv_datacenter r) (rv_namespace r)).1.

Lemma rs_wf_new name kind dc ns st : rs_wf st.1 → rs_wf (new_resolver name kind dc ns st).1.
Proof.
  intros Hwf n r. rewrite new_resolver_fst, dget_dset. case_bool as Hn; [|apply Hwf].
  intros [= <-]. destruct (setup_fields name kind dc ns) as (_ & -> & ->). apply setup_bool.
Qed.

Lemma rs_wf_load configs st : rs_wf st.1 → rs_wf (load_resolvers configs st).1.
Proof.
  unfold load_resolvers. revert st. induction configs as [|[[[name kind] dc] ns] configs IH]; intros st Hwf;
    simpl; [done|]. apply IH. by apply rs_wf_new.
Qed.

Lemma rs_wf_aliases n1 n2 st : rs_wf st.1 → rs_wf (check_aliases n1 n2 st).1.
Proof. intros Hwf. unfold check_aliases. repeat case_match; try done; by apply rs_wf_new. Qed.

(** Aliasing an existing resolver makes both names usable and disturbs no other. *)
Lemma check_aliases_spec n1 n2 st :
  rs_wf st.1 → has_resolver n1 st.1 || has_resolver n2 st.1 = true →
  has_resolver n1 (check_aliases n1 n2 st).1 = true ∧ has_resolver n2 (check_aliases n1 n2 st).1 = true
  ∧ ∀ n, n ≠ n1 → n ≠ n2 → has_resolver n (check_aliases n1 n2 st).1 = has_resolver n st.1.
Proof.
  intros Hwf Hor. unfold check_aliases.
  assert (Hget : ∀ n, has_resolver n st.1 = true → ∃ r, get_resolver n st.1 = Some r ∧ rv_bool r = true).
  { intros n. unfold has_resolver. destruct (get_resolver n st.1); eauto. done. }
  assert (Hcopy : ∀ n n' r, get_resolver n st.1 = Some r → rv_bool r = true →
    rv_bool (IRServiceResolver_setup n' (rv_kind r) (rv_datacenter r) (rv_namespace r)).1 = true).
  { intros n n' r Hg Hb. rewrite (setup_bool n' n _ _ _ (rv_namespace r)), <- (Hwf n r Hg). done. }
  destruct (has_resolver n1 st.1) eqn:H1, (has_resolver n2 st.1) eqn:H2; simpl in *; [done| | |done].
  - destruct (Hget n1 H1) as (r & Hr & Hb). rewrite Hr, Hb.
    split_and_all; [| |intros n ? ?]; rewrite has_resolver_new.
    + case_bool; [by eapply Hcopy|done].
    + rewrite bool_decide_true by done. by eapply Hcopy.
    + by rewrite bool_decide_false.
  - destruct (Hget n2 H2) as (r & Hr & Hb). rewrite Hr, Hb.
    split_and_all; [| |intros n ? ?]; rewrite has_resolver_new.
    + rewrite bool_decide_true by done. by eapply Hcopy.
    + case_bool; [by eapply Hcopy|done].
    + by rewrite bool_decide_false.
Qed.

Lemma pair_step n1 n2 kind dc ns st :
  rs_wf st.1 → (∀ n, rv_bool (IRServiceResolver_setup n kind dc ns).1 = true) →
  let st' := if negb (has_resolver n1 st.1) && negb (has_resolver n2 st.1)
             then new_resolver n1 kind dc ns (new_resolver n2 kind dc ns st)
             else check_aliases n1 n2 st in
  rs_wf st'.1 ∧ has_resolver n1 st'.1 = true ∧ has_resolver n2 st'.1 = true
  ∧ ∀ n, n ≠ n1 → n ≠ n2 → has_resolver n st'.1 = has_resolver n st.1.
Proof.
  intros Hwf Hk st'. unfold st'. destruct (negb _ && negb _) eqn:E.
  - split; [by do 2 apply rs_wf_new|]. rewrite !has_resolver_new, !Hk, bool_decide_true by done.
    split; [done|]. split; [by repeat case_bool|]. intros n H1 H2.
    rewrite !has_resolver_new, !bool_decide_false by done. done.
  - split; [by apply rs_wf_aliases|]. apply check_aliases_spec; [done|].
    by rewrite <- negb_orb, negb_false_iff in E.
Qed.

(** Whatever resolvers are configured, broken ones included, after
    [load_all] each of the five well-known names has a usable resolver. *)
Theorem default_resolvers_usable configs ns name :
  name ∈ ["kubernetes-service"; "kubernetes-endpoint"; "endpoint"; "consul-endpoint"; "consul"] →
  has_resolver name (load_all configs ns).1 = true.
Proof.
  intros Hname. unfold load_all.
  assert (H0 : rs_wf (load_resolvers configs ([], [])).1) by by apply rs_wf_load.
  set (st0 := load_resolvers configs ([], [])) in *.
  set (st1 := if negb (has_resolver "kubernetes-service" st0.1) then _ else st0).
  assert (H1 : rs_wf st1.1 ∧ has_resolver "kubernetes-service" st1.1 = true).
  { unfold st1. destruct (has_resolver "kubernetes-service" st0.1) eqn:E; cbn [negb]; [done|].
    split; [by apply rs_wf_new|]. by rewrite has_resolver_new. }
  destruct H1 as [H1 Hs].
  destruct (pair_step "endpoint" "kubernetes-endpoint" "KubernetesEndpointResolver" PNone ns st1 H1)
    as (H2 & He1 & He2 & Ho2); [done|].
  set (st2 := if negb (has_resolver "endpoint" st1.1) && _ then _ else _) in *.
  destruct (pair_step "consul" "consul-endpoint" "ConsulResolver" (PStr "dc1") ns st2 H2)
    as (H3 & Hc1 & Hc2 & Ho3); [done|].
  rewrite !elem_of_cons in Hname.
  destruct Hname as [->|[->|[->|[->|[->|Hn]]]]]; [| | |done|done|by apply not_elem_of_nil in Hn].
  - by rewrite Ho3, Ho2.
  - by rewrite Ho3.
  - by rewrite Ho3.
Qed.

Lemma default_resolvers_usable_witness :
  has_resolver "consul" (load_all [("endpoint", "KubernetesEndpointResolver", PNone, "default");
                                   ("consul", "ConsulResolver", PNone, "default")] "ambassador").1 = true.
Proof. apply default_resolvers_usable. apply list_elem_of_In. simpl. tauto. Defined.
