(* ===== verification/BaseMapping.v ===== *)
(** * Mappings and groups: the common part
    ([ir/irbasemapping.py], [ir/irbasemappinggroup.py])

    Cache keys, resolver and circuit-breaker validation of a Mapping, and the
    weights of the Mappings of a group. *)

From S2P Require Import Prelude PyStr PyVal Resource Resolver.

(** ** Cache keys *)

Definition make_cache_key (kind name namespace version : string) : string :=
  let name := match split "." name with n :: _ => n | [] => EmptyString end in
  kind +:+ "-" +:+ version +:+ "-" +:+ name +:+ "-" +:+ namespace.

(** [IRBaseMappingGroup.key_for_id] *)
Definition key_for_id (cls group_id : string) : string := cls +:+ "-" +:+ group_id.

(** ** Circuit breakers *)

(** [int(v)]; [None] is the [ValueError]. *)
Definition int_of (v : pyval) : res (option Z) :=
  match v with
  | PInt z => Ok (Some z)
  | PBool b => Ok (Some (Z.b2z b))
  | PStr s => Ok (py_int s)
  | _ => Raise TypeError
  end.

Definition digit_fields : list (string * string) :=
  [("max_connections", "c"); ("max_pending_requests", "p"); ("max_requests", "r"); ("max_retries", "t")].

(** The loop over [digit_fields]; [None] is the early [return False]. *)
Fixpoint breaker_digits (cb : dict pyval) (fields : list (string * string)) (acc : string)
    : res (option string) :=
  match fields with
  | [] => Ok (Some acc)
  | (field, abbrev) :: fields =>
      match dget field cb with
      | None => breaker_digits cb fields acc
      | Some v =>
          n ← int_of v;
          match n with
          | Some value => breaker_digits cb fields (acc +:+ abbrev +:+ str_of_int value)
          | None => Ok None
          end
      end
  end.

Definition breaker_priority (cb : dict pyval) : res (option string) :=
  match dget "priority" cb with
  | Some (PStr p) =>
      let prio := lower p in
      if bool_decide (prio ∈ ["default"; "high"]) then Ok (Some (take_str 1 prio)) else Ok None
  | Some _ => Raise (AttributeError "lower")
  | None => Ok (Some "n")
  end.

(** One breaker: [None] when it is invalid, else the breaker with its
    [_name]. *)
Definition validate_breaker (cb : dict pyval) : res (option (dict pyval)) :=
  if dmem "_name" cb then Ok (Some cb)
  else
    prio ← breaker_priority cb;
    match prio with
    | None => Ok None
    | Some p =>
        name ← breaker_digits cb digit_fields ("cb" +:+ p);
        Ok (n ← name; Some (dset "_name" (PStr n) cb))
    end.

(** The loop over the breakers, which are updated in place: the verdict and
    the list as it is left. *)
Fixpoint validate_breakers (cbs : list pyval) : res (bool * list pyval) :=
  match cbs with
  | [] => Ok (true, [])
  | PDict cb :: rest =>
      r ← validate_breaker cb;
      match r with
      | None => Ok (false, PDict cb :: rest)
      | Some cb' => '(v, rest') ← validate_breakers rest; Ok (v, PDict cb' :: rest')
      end
  | _ :: _ => Raise TypeError
  end.

Definition validate_circuit_breakers (circuit_breakers : pyval) : res (bool * pyval) :=
  match circuit_breakers with
  | PList cbs => '(v, cbs') ← validate_breakers cbs; Ok (v, PList cbs')
  | _ => Ok (false, circuit_breakers)
  end.

(** ** Labels and status *)

Definition get_label (self : dict pyval) (key : string) : res pyval :=
  let labels := py_or (pget "metadata_labels" self) (PDict []) in
  v ← vget key PNone labels;
  Ok (py_or v PNone).

(** [check_status]: the status updates of the IR, by CRD name, as they are
    after the call. *)
Definition check_status (self : dict pyval) (wanted : pyval) (updates : dict (string * pyval * pyval))
    : res (dict (string * pyval * pyval)) :=
  crd_name ← get_label self "ambassador_crd";
  match crd_name with
  | PStr n =>
      cached ← getattr self "cached_status";
      if negb (py_eqb wanted cached) then
        ns ← getattr self "namespace";
        Ok (dset n ("Mapping", ns, wanted) updates)
      else Ok updates
  | _ => if py_bool crd_name then Raise TypeError else Ok updates
  end.

(** ** [IRBaseMapping.setup] *)

(** What the setup of a Mapping reads of the IR. *)
Record ir_ctx : Type := mkIRCtx {
  ambassador_module : dict pyval;
  ambassador_namespace : string;
  ir_resolvers : dict IRServiceResolver;
  ir_hosts : list (dict pyval);
  ir_env : dict string
}.

(** A mapping being set up: its attributes, and the errors and notices
    posted. *)
Record setup_state : Type := mkSetup {
  su_self : dict pyval;
  su_errors : list string;
  su_notices : list string
}.

Definition su_set (k : string) (v : pyval) (s : setup_state) : setup_state :=
  mkSetup (dset k v (su_self s)) (su_errors s) (su_notices s).

(** [self.post_error(msg)] *)
Definition su_post (msg : string) (s : setup_state) : setup_state :=
  mkSetup (dset "_errored" (PBool true) (su_self s)) (su_errors s ++ [msg]) (su_notices s).

(** [setup]; [group_id] and [route_weight] are what the subclass computes.
    (The circuit-breaker message of the code also shows the value.) *)
Definition IRBaseMapping_setup (ctx : ir_ctx) (group_id : string) (route_weight : pyval) (s : setup_state)
    : res (bool * setup_state) :=
  kind ← getattr (su_self s) "kind"; kind ← as_str kind;
  name ← getattr (su_self s) "name"; name ← as_str name;
  ns ← getattr (su_self s) "namespace"; ns ← as_str ns;
  let s := su_set "_cache_key" (PStr (make_cache_key kind name ns "v2")) s in
  let s := su_set "cluster_key" PNone s in
  let s := su_set "group_id" (PStr group_id) s in
  let s := su_set "route_weight" route_weight s in
  let s := if py_bool (pget "resolver" (su_self s)) then s
           else su_set "resolver" (dget_default "resolver" (PStr "kubernetes-service") (ambassador_module ctx)) s in
  rname ← as_str (pget "resolver" (su_self s));
  match dget rname (ir_resolvers ctx) with
  | Some r =>
      if rv_bool r then
        '(valid, es, ns) ← valid_mapping r (su_self s);
        let s := foldl (λ s e, su_post e s) s es in
        let s := mkSetup (su_self s) (su_errors s) (su_notices s ++ ns) in
        if negb valid then Ok (false, s)
        else
          s ← (match pget "circuit_breakers" (su_self s) with
               | PNone => cb ← getattr (ambassador_module ctx) "circuit_breakers";
                          Ok (su_set "circuit_breakers" cb s)
               | _ => Ok s
               end);
          match pget "circuit_breakers" (su_self s) with
          | PNone => Ok (true, s)
          | cb =>
              '(v, cb') ← validate_circuit_breakers cb;
              let s := su_set "circuit_breakers" cb' s in
              if (v : bool) then Ok (true, s)
              else Ok (false, su_post "Invalid circuit_breakers specified, invalidating mapping" s)
          end
      else Ok (false, su_post ("resolver " +:+ rname +:+ " is unknown!") s)
  | None => Ok (false, su_post ("resolver " +:+ rname +:+ " is unknown!") s)
  end.

(** ** Weights of a group *)

(** Python's [round(a / b)] for integers: to nearest, ties to even.  (The
    division is in floating point; for operands below 2^40 no quotient other
    than an exact half is rounded to one.) *)
Definition round_div (a b : Z) : Z :=
  let q := (a / b)%Z in
  let r2 := (2 * (a mod b))%Z in
  if bool_decide (r2 < b)%Z then q
  else if bool_decide (b < r2)%Z then (q + 1)%Z
  else if Z.even q then q else (q + 1)%Z.

Definition set_weight (n : Z) (m : dict pyval) : dict pyval := dset "_weight" (PInt n) m.

(** The first loop, over all Mappings: those with a weight get the running
    sum.  An over-large weight stops it. *)
Inductive weigh_result : Type :=
  | WeighOk (normalized weightless : list (dict pyval)) (current_weight : Z)
  | WeighBad (name : pyval) (weight : Z).

Fixpoint weigh (current_weight : Z) (mappings : list (dict pyval)) : res weigh_result :=
  match mappings with
  | [] => Ok (WeighOk [] [] current_weight)
  | m :: rest =>
      match dget "weight" m with
      | Some v =>
          w ← as_int v;
          if bool_decide (100 < w)%Z then name ← getattr m "name"; Ok (WeighBad name w)
          else
            let cw := (current_weight + w)%Z in
            r ← weigh cw rest;
            Ok (match r with
                | WeighOk ns ws c => WeighOk (set_weight cw m :: ns) ws c
                | bad => bad
                end)
      | None =>
          r ← weigh current_weight rest;
          Ok (match r with WeighOk ns ws c => WeighOk ns (m :: ws) c | bad => bad end)
      end
  end.

(** The second loop: [k] weightless Mappings are left, the last gets 100. *)
Fixpoint spread (current_weight per : Z) (weightless : list (dict pyval)) : list (dict pyval) :=
  match weightless with
  | [] => []
  | [m] => [set_weight 100 m]
  | m :: rest =>
      let cw := (current_weight + per)%Z in
      set_weight cw m :: spread cw per rest
  end.

(** [normalize_weights_in_mappings]: the Mappings of the group afterwards, or
    the error that is posted (the group then stays as it is, except for the
    [_weight] attributes already assigned). *)
Definition normalize_weights_in_mappings (mappings : list (dict pyval))
    : res (list (dict pyval) + string) :=
  match mappings with
  | [m] => Ok (inl [set_weight 100 m])
  | _ =>
      r ← weigh 0 mappings;
      match r with
      | WeighBad name w =>
          name ← as_str name;
          Ok (inr ("Mapping " +:+ name +:+ " has invalid weight " +:+ str_of_int w))
      | WeighOk normalized weightless current_weight =>
          if bool_decide (100 < current_weight)%Z then
            Ok (inr "Total weight of mappings exceeds 100, please reconfigure for correct behavior...")
          else match weightless with
               | [] => Ok (inl normalized)
               | _ =>
                   let remaining := (100 - current_weight)%Z in
                   let per := round_div remaining (Z.of_nat (length weightless)) in
                   Ok (inl (normalized ++ spread current_weight per weightless))
               end
      end
  end.

(** ** Lemmas on weights *)

(** The weight a Mapping asks for. *)
Definition weight_of (m : dict pyval) : option Z :=
  match dget "weight" m with Some (PInt w) => Some w | _ => None end.
Definition weights_valid (ms : list (dict pyval)) : Prop :=
  ∀ m v, m ∈ ms → dget "weight" m = Some v → ∃ w, v = PInt w ∧ (0 ≤ w)%Z.
Definition is_weightless (m : dict pyval) : Prop := dget "weight" m = None.
#[export] Instance is_weightless_dec m : Decision (is_weightless m).
Proof. unfold is_weightless. apply _. Defined.

Definition total_weight (ms : list (dict pyval)) : Z := foldr Z.add 0%Z (omap weight_of ms).

Fixpoint partial_sums (acc : Z) (l : list Z) : list Z :=
  match l with [] => [] | w :: l => (acc + w)%Z :: partial_sums (acc + w) l end.

(** The computed weight, and the Mapping without it. *)
Definition computed (m : dict pyval) : option Z :=
  match dget "_weight" m with Some (PInt w) => Some w | _ => None end.
Definition unweighed (m : dict pyval) : dict pyval := filter (λ p, p.1 ≠ "_weight") m.

Lemma computed_set n m : computed (set_weight n m) = Some n.
Proof. unfold computed, set_weight. by rewrite dget_dset_eq. Qed.

Lemma unweighed_set n m : unweighed (set_weight n m) = unweighed m.
Proof.
  unfold unweighed, set_weight. induction m as [|[k v] m IH]; [done|]. cbn [dset].
  case_bool as Hk; rewrite !filter_cons; simpl; [subst; done|]. by rewrite IH.
Qed.

Lemma total_cons m ms : total_weight (m :: ms) = (default 0 (weight_of m) + total_weight ms)%Z.
Proof. unfold total_weight. csimpl. by destruct (weight_of m). Qed.

Lemma weights_valid_cons m ms :
  weights_valid (m :: ms) →
  weights_valid ms ∧ ((is_weightless m ∧ weight_of m = None) ∨
                      ∃ w, dget "weight" m = Some (PInt w) ∧ weight_of m = Some w ∧ (0 ≤ w)%Z).
Proof.
  intros Hv. split; [intros m' v Hm'; apply Hv; by right|].
  unfold is_weightless, weight_of. destruct (dget "weight" m) as [v|] eqn:E; [|by left].
  destruct (Hv m v (list_elem_of_here _ _) E) as (w & -> & Hw). right. eauto.
Qed.

Lemma total_nonneg ms : weights_valid ms → (0 ≤ total_weight ms)%Z.
Proof.
  induction ms as [|m ms IH]; [done|]. intros [Hv Hm]%weights_valid_cons. rewrite total_cons.
  specialize (IH Hv). destruct Hm as [[_ ->]|(w & _ & -> & ?)]; simpl; lia.
Qed.

(** The first loop on valid weights: it stops only above 100, and else leaves
    the running sums and the weightless Mappings in order. *)
Lemma weigh_spec cw ms :
  weights_valid ms → (0 ≤ cw)%Z → (cw + total_weight ms ≤ 100)%Z →
  ∃ ns, weigh cw ms = Ok (WeighOk ns (filter is_weightless ms) (cw + total_weight ms))
    ∧ computed <$> ns = Some <$> partial_sums cw (omap weight_of ms)
    ∧ unweighed <$> ns = unweighed <$> filter (λ m, ¬ is_weightless m) ms.
Proof.
  revert cw. induction ms as [|m ms IH]; intros cw Hv Hcw Htot.
  { exists []. unfold total_weight. simpl. by rewrite Z.add_0_r. }
  apply weights_valid_cons in Hv as [Hv Hm]. rewrite total_cons in *.
  pose proof (total_nonneg ms Hv). cbn [weigh]. rewrite !filter_cons.
  destruct Hm as [[Hd Hw]|(w & Hd & Hw & Hw0)]; rewrite Hw in *; cbn [from_option id] in *.
  - rewrite decide_True, decide_False by (done || tauto).
    unfold is_weightless in Hd. rewrite Hd. destruct (IH cw Hv Hcw ltac:(lia)) as (ns & -> & Hc & Hu).
    exists ns. cbn [mbind res_bind]. split_and_all; [do 2 f_equal; lia| |done].
    csimpl. rewrite Hw. done.
  - rewrite decide_False, decide_True by (unfold is_weightless; rewrite Hd; congruence).
    rewrite Hd. cbn [as_int mbind res_bind]. rewrite bool_decide_false by lia.
    destruct (IH (cw + w)%Z Hv ltac:(lia) ltac:(lia)) as (ns & -> & Hc & Hu).
    exists (set_weight (cw + w) m :: ns). cbn [mbind res_bind]. split_and_all.
    + do 2 f_equal. lia.
    + csimpl. rewrite Hw. csimpl. by rewrite computed_set, Hc.
    + csimpl. by rewrite unweighed_set, Hu.
Qed.

Lemma weigh_total cw ms ns ws c :
  weights_valid ms → weigh cw ms = Ok (WeighOk ns ws c) → c = (cw + total_weight ms)%Z.
Proof.
  revert cw ns ws. induction ms as [|m ms IH]; intros cw ns ws Hv; cbn [weigh].
  { intros [= <- <- <-]. unfold total_weight. simpl. lia. }
  apply weights_valid_cons in Hv as [Hv Hm]. rewrite total_cons.
  destruct Hm as [[Hd Hw]|(w & Hd & Hw & Hw0)]; rewrite Hw.
  - unfold is_weightless in Hd. rewrite Hd. intros Hr. res_inv. destruct x; simplify_eq.
    simpl. by eapply IH.
  - rewrite Hd. cbn [as_int mbind res_bind]. case_bool; intros Hr; res_inv; [done|].
    destruct x; simplify_eq. erewrite (IH (cw + w)%Z); [|done..]. simpl. lia.
Qed.

(** The weights of the second loop. *)
Fixpoint spread_z (cw per : Z) (n : nat) : list Z :=
  match n with
  | O => []
  | S O => [100%Z]
  | S n => (cw + per)%Z :: spread_z (cw + per) per n
  end.

Lemma length_spread_z cw per n : length (spread_z cw per n) = n.
Proof.
  revert cw. induction n as [|[|n] IH]; intros cw; [done..|].
  change (spread_z cw per (S (S n))) with ((cw + per)%Z :: spread_z (cw + per) per (S n)).
  cbn [length]. by rewrite IH.
Qed.

Lemma spread_computed cw per ws :
  computed <$> spread cw per ws = Some <$> spread_z cw per (length ws)
  ∧ unweighed <$> spread cw per ws = unweighed <$> ws.
Proof.
  revert cw. induction ws as [|m ws IH]; intros cw; [done|]. destruct ws as [|m' ws].
  - cbn [spread]. csimpl. by rewrite computed_set, unweighed_set.
  - destruct (IH (cw + per)%Z) as [Hl Hu].
    change (spread cw per (m :: m' :: ws)) with
      (set_weight (cw + per) m :: spread (cw + per) per (m' :: ws)).
    change (spread_z cw per (length (m :: m' :: ws))) with
      ((cw + per)%Z :: spread_z (cw + per) per (length (m' :: ws))).
    by rewrite !fmap_cons, computed_set, unweighed_set, Hl, Hu.
Qed.

(** Mappings have names. *)
Definition named (ms : list (dict pyval)) : Prop := ∀ m, m ∈ ms → ∃ n, dget "name" m = Some (PStr n).

Lemma weigh_no_raise cw ms :
  weights_valid ms → named ms →
  ∃ r, weigh cw ms = Ok r ∧ match r with WeighBad n _ => ∃ s, n = PStr s | _ => True end.
Proof.
  revert cw. induction ms as [|m ms IH]; intros cw Hv Hn; cbn [weigh]; [by eexists|].
  apply weights_valid_cons in Hv as [Hv Hm].
  assert (Hn' : named ms) by (intros m' ?; apply Hn; by right).
  destruct Hm as [[Hd _]|(w & Hd & _ & _)].
  - unfold is_weightless in Hd. rewrite Hd. destruct (IH cw Hv Hn') as (r & -> & Hr).
    eexists. split; [done|]. by destruct r.
  - rewrite Hd. cbn [as_int mbind res_bind]. case_bool.
    + destruct (Hn m (list_elem_of_here _ _)) as (n & E). unfold getattr. rewrite E.
      eexists. split; [done|]. by eexists.
    + destruct (IH (cw + w)%Z Hv Hn') as (r & -> & Hr). eexists. split; [done|]. by destruct r.
Qed.

Lemma normalize_many ms :
  length ms ≠ 1 →
  normalize_weights_in_mappings ms
  = (r ← weigh 0 ms;
     match r with
     | WeighBad name w =>
         name ← as_str name;
         Ok (inr ("Mapping " +:+ name +:+ " has invalid weight " +:+ str_of_int w))
     | WeighOk normalized weightless current_weight =>
         if bool_decide (100 < current_weight)%Z then
           Ok (inr "Total weight of mappings exceeds 100, please reconfigure for correct behavior...")
         else match weightless with
              | [] => Ok (inl normalized)
              | _ => Ok (inl (normalized ++ spread current_weight
                    (round_div (100 - current_weight) (Z.of_nat (length weightless))) weightless))
              end
     end).
Proof. intros Hl. by destruct ms as [|? [|? ?]]. Qed.

Lemma partition_perm {A} (P : A → Prop) `{!∀ x, Decision (P x)} (l : list A) :
  filter (λ x, ¬ P x) l ++ filter P l ≡ₚ l.
Proof.
  induction l as [|x l IH]; [done|]. rewrite !filter_cons. destruct (decide (P x)).
  - rewrite decide_False by tauto. by rewrite <- Permutation_middle, IH.
  - rewrite decide_True by done. simpl. by rewrite IH.
Qed.

(** The outcome of normalization when the total is at most 100. *)
Lemma normalize_ok ms :
  length ms ≠ 1 → weights_valid ms → (total_weight ms ≤ 100)%Z →
  ∃ ms', normalize_weights_in_mappings ms = Ok (inl ms')
    ∧ unweighed <$> ms' ≡ₚ unweighed <$> ms
    ∧ computed <$> ms' = Some <$> (partial_sums 0 (omap weight_of ms) ++
        spread_z (total_weight ms)
          (round_div (100 - total_weight ms) (Z.of_nat (length (filter is_weightless ms))))
          (length (filter is_weightless ms))).
Proof.
  intros Hl Hv Ht. rewrite normalize_many by done.
  destruct (weigh_spec 0 ms Hv ltac:(lia) ltac:(lia)) as (ns & -> & Hc & Hu).
  cbn [mbind res_bind]. rewrite Z.add_0_l, bool_decide_false by lia.
  set (wl := filter is_weightless ms) in *.
  set (per := round_div _ (Z.of_nat (length wl))).
  assert (Hgen : unweighed <$> (ns ++ spread (total_weight ms) per wl) ≡ₚ unweighed <$> ms
    ∧ computed <$> (ns ++ spread (total_weight ms) per wl)
      = Some <$> (partial_sums 0 (omap weight_of ms) ++ spread_z (total_weight ms) per (length wl))).
  { destruct (spread_computed (total_weight ms) per wl) as [Hs1 Hs2].
    rewrite !fmap_app, Hs1, Hs2, Hc, Hu. split; [|done].
    rewrite <- fmap_app. apply fmap_Permutation. apply (partition_perm is_weightless). }
  destruct wl as [|m wl]; eexists; (split; [done|]); [|done].
  cbn [spread] in Hgen. by rewrite app_nil_r in Hgen.
Qed.


(** ** Weights are cumulative *)

(** From [lo], never decreasing, and at most [hi] at the end. *)
Fixpoint nondecr (lo : Z) (l : list Z) (hi : Z) : Prop :=
  match l with [] => (lo ≤ hi)%Z | w :: l => (lo ≤ w)%Z ∧ nondecr w l hi end.

Lemma nondecr_le lo lo' l hi : (lo' ≤ lo)%Z → nondecr lo l hi → nondecr lo' l hi.
Proof. destruct l; simpl; [lia|]. intros ? [? ?]. split; [lia|done]. Qed.

Lemma nondecr_app lo l1 mid l2 hi :
  nondecr lo l1 mid → nondecr mid l2 hi → nondecr lo (l1 ++ l2) hi.
Proof.
  revert lo. induction l1 as [|w l1 IH]; intros lo; simpl; [apply nondecr_le|].
  intros [? ?] ?. split; [done|]. by apply IH.
Qed.

Lemma nondecr_partial acc ms :
  weights_valid ms → nondecr acc (partial_sums acc (omap weight_of ms)) (acc + total_weight ms).
Proof.
  revert acc. induction ms as [|m ms IH]; intros acc.
  { intros _. unfold total_weight. simpl. lia. }
  intros [Hv Hm]%weights_valid_cons. rewrite total_cons. csimpl.
  destruct Hm as [[_ ->]|(w & _ & -> & ?)]; simpl; [by apply IH|].
  split; [lia|]. rewrite Z.add_assoc. by apply IH.
Qed.

Lemma nondecr_spread cw per n :
  (0 ≤ per)%Z → (0 < n) → (cw + (Z.of_nat n - 1) * per ≤ 100)%Z → nondecr cw (spread_z cw per n) 100.
Proof.
  intros Hp. revert cw. induction n as [|n IH]; intros cw Hn Hb; [lia|]. destruct n as [|n].
  - simpl. lia.
  - change (spread_z cw per (S (S n))) with ((cw + per)%Z :: spread_z (cw + per) per (S n)).
    split; [lia|]. apply IH; [lia|]. rewrite !Nat2Z.inj_succ in *. nia.
Qed.

Lemma last_spread cw per n : 0 < n → last (spread_z cw per n) = Some 100%Z.
Proof.
  revert cw. induction n as [|n IH]; intros cw Hn; [lia|]. destruct n as [|n]; [done|].
  change (spread_z cw per (S (S n))) with ((cw + per)%Z :: spread_z (cw + per) per (S n)).
  rewrite last_cons, IH by lia. done.
Qed.

Lemma round_div_small a n :
  (0 ≤ a)%Z → (1 ≤ n ≤ 4)%Z → (0 ≤ round_div a n)%Z ∧ ((n - 1) * round_div a n ≤ a)%Z.
Proof.
  intros Ha Hn. unfold round_div.
  pose proof (Z.div_mod a n ltac:(lia)). pose proof (Z.mod_pos_bound a n ltac:(lia)).
  assert (0 ≤ a / n)%Z by (apply Z.div_pos; lia).
  set (q := (a / n)%Z) in *. set (r := (a mod n)%Z) in *.
  assert (n = 1 ∨ n = 2 ∨ n = 3 ∨ n = 4)%Z as Hc by lia.
  assert (Hq : Z.even q = false → (1 ≤ q)%Z).
  { destruct (decide (q = 0)%Z) as [->|]; [done|lia]. }
  repeat case_bool; [nia..|].
  destruct (Z.even q); [|specialize (Hq eq_refl)]; destruct_or?; subst n; lia.
Qed.

(** With at most four weightless Mappings the computed weights never
    decrease, stay within 0 to 100, and end at exactly 100 when there is a
    weightless Mapping: Envoy compares one random number per request with them
    in order, so each Mapping gets the difference to the one before it. *)
Theorem normalize_weights_cumulative ms ms' :
  length ms ≠ 1 → weights_valid ms → length (filter is_weightless ms) ≤ 4 →
  (total_weight ms ≤ 100)%Z → normalize_weights_in_mappings ms = Ok (inl ms') →
  ∃ ws, computed <$> ms' = Some <$> ws ∧ nondecr 0 ws 100 ∧
        (filter is_weightless ms ≠ [] → last ws = Some 100%Z).
Proof.
  intros Hl Hv H4 Ht Hn. destruct (normalize_ok ms Hl Hv Ht) as (ms'' & H1 & _ & H3).
  rewrite Hn in H1. injection H1 as <-. eexists. split; [exact H3|].
  pose proof (total_nonneg ms Hv). pose proof (nondecr_partial 0 ms Hv) as Hp. rewrite Z.add_0_l in Hp.
  destruct (filter is_weightless ms) as [|m wl].
  - split; [|done]. eapply nondecr_app; [exact Hp|]. simpl. lia.
  - set (n := length (m :: wl)) in *. assert (0 < n) by (unfold n; simpl; lia).
    destruct (round_div_small (100 - total_weight ms) (Z.of_nat n)) as [Hr1 Hr2]; [lia..|].
    split.
    + eapply nondecr_app; [exact Hp|]. apply nondecr_spread; [done..|lia].
    + intros _. rewrite last_app, last_spread by done. done.
Qed.

(** The weights asked for stay with the Mappings. *)
Lemma weight_of_unweighed m : weight_of (unweighed m) = weight_of m.
Proof.
  unfold weight_of, unweighed. induction m as [|[k v] m IH]; [done|]. rewrite filter_cons. cbn [fst].
  destruct (decide (k ≠ "_weight")) as [Hk|Hk]; cbn [dget].
  - case_bool; [done|exact IH].
  - apply dec_stable in Hk. subst k. rewrite bool_decide_false by done. exact IH.
Qed.

Lemma weight_of_same (ms ms' : list (dict pyval)) : unweighed <$> ms' = unweighed <$> ms → weight_of <$> ms' = weight_of <$> ms.
Proof.
  intros H. rewrite <- (list_fmap_ext (weight_of ∘ unweighed) weight_of ms') by (intros; apply weight_of_unweighed).
  rewrite <- (list_fmap_ext (weight_of ∘ unweighed) weight_of ms) by (intros; apply weight_of_unweighed).
  by rewrite !list_fmap_compose, H.
Qed.

Lemma normalize_weight_of (ms ms' : list (dict pyval)) :
  length ms ≠ 1 → weights_valid ms → (total_weight ms ≤ 100)%Z → normalize_weights_in_mappings ms = Ok (inl ms') →
  weight_of <$> ms' = (Some <$> omap weight_of ms) ++ replicate (length (filter is_weightless ms)) None.
Proof.
  intros Hl Hv Ht. rewrite normalize_many by done.
  destruct (weigh_spec 0 ms Hv ltac:(lia) ltac:(lia)) as (ns & -> & _ & Hu).
  cbn [mbind res_bind]. rewrite Z.add_0_l, bool_decide_false by lia. set (per := round_div _ _). intros H.
  assert (ms' = ns ++ spread (total_weight ms) per (filter is_weightless ms)) as ->.
  { destruct (filter is_weightless ms); injection H as <-; [by rewrite app_nil_r|done]. }
  rewrite fmap_app, (weight_of_same _ _ Hu), (weight_of_same _ _ (proj2 (spread_computed _ _ _))). f_equal.
  - clear - Hv. induction ms as [|m ms IH]; [done|]. apply weights_valid_cons in Hv as [Hv Hm]. rewrite filter_cons.
    destruct Hm as [[Hd Hw]|(w & Hd & Hw & _)].
    + rewrite decide_False by tauto. csimpl. rewrite Hw. by apply IH.
    + rewrite decide_True by (unfold is_weightless; by rewrite Hd). csimpl. rewrite Hw. csimpl. by rewrite IH.
  - clear. induction ms as [|m ms IH]; [done|]. rewrite filter_cons. case_decide as Hd; [|done].
    csimpl. rewrite IH. unfold weight_of, is_weightless in *. by rewrite Hd.
Qed.

Definition wm (n : string) (w : Z) : dict pyval := [("name", PStr n); ("weight", PInt w)].
Definition um (n : string) : dict pyval := [("name", PStr n)].


Lemma normalize_weights_cumulative_witness :
  ∃ ws, computed <$> [set_weight 10 (wm "b" 10); set_weight 100 (um "a")] = Some <$> ws
    ∧ nondecr 0 ws 100 ∧ (filter is_weightless [um "a"; wm "b" 10] ≠ [] → last ws = Some 100%Z).
Proof.
  apply (normalize_weights_cumulative [um "a"; wm "b" 10]); [done| |vm_compute; lia|vm_compute; discriminate|reflexivity].
  intros m v Hm Hw. rewrite !elem_of_cons in Hm.
  destruct Hm as [->|[->|Hm]]; [done| |by apply not_elem_of_nil in Hm].
  vm_compute in Hw. injection Hw as <-. eexists. split; [reflexivity|lia].
Defined.

(** With five weightless Mappings and 97 already assigned, rounding makes
    the computed weights rise to 101 and then fall back to 100: the last
    Mapping can never be chosen. *)
Theorem normalize_weights_overshoot :
  normalize_weights_in_mappings [wm "w" 97; um "a"; um "b"; um "c"; um "d"; um "e"]
  = Ok (inl [set_weight 97 (wm "w" 97); set_weight 98 (um "a"); set_weight 99 (um "b");
             set_weight 100 (um "c"); set_weight 101 (um "d"); set_weight 100 (um "e")]).
Proof. vm_compute. reflexivity. Qed.

(** ** Cache keys identify Mappings within a namespace only *)

Lemma split_absent c s : mem_char c s = false → split c s = [s].
Proof.
  intros Hm. rewrite <- (app_empty_r s) at 1. unfold split. by rewrite split_go_app.
Qed.

(** Within one namespace, dot-free Mappings of one kind have the same cache
    key exactly when they have the same name. *)
Theorem make_cache_key_inj kind n1 n2 ns v :
  mem_char "." n1 = false → mem_char "." n2 = false →
  make_cache_key kind n1 ns v = make_cache_key kind n2 ns v ↔ n1 = n2.
Proof.
  intros H1 H2. split; [|by intros ->]. unfold make_cache_key. rewrite !split_absent by done. intros Heq.
  do 4 apply app_inj_l in Heq. by apply app_inj_r in Heq.
Qed.

Lemma make_cache_key_inj_witness :
  make_cache_key "Mapping" "quote" "default" "v2" = make_cache_key "Mapping" "echo" "default" "v2"
  ↔ "quote" = "echo".
Proof. apply make_cache_key_inj; reflexivity. Defined.

(** Across namespaces the key is ambiguous: the dash that separates name
    and namespace may occur in both. *)
Theorem make_cache_key_collision :
  make_cache_key "Mapping" "shop-cart" "prod" "v2" = make_cache_key "Mapping" "shop" "cart-prod" "v2".
Proof. reflexivity. Qed.

(** ** Circuit breakers are validated once *)

Lemma validate_breaker_named cb cb' :
  validate_breaker cb = Ok (Some cb') → dmem "_name" cb' = true.
Proof.
  unfold validate_breaker. destruct (dmem "_name" cb) eqn:E; [naive_solver|].
  intros Hr. res_inv. destruct x as [p|]; [|done]. res_inv. destruct x as [n|]; simplify_eq/=.
  rewrite dmem_dset. by rewrite bool_decide_true.
Qed.

(** When circuit breakers are accepted, every one has a name afterwards,
    and validating the updated list again accepts it unchanged: the breakers
    of the Ambassador module, which many Mappings share, are safe to validate
    for each of them. *)
Theorem validate_circuit_breakers_idempotent cb cb' :
  validate_circuit_breakers cb = Ok (true, cb') →
  (∃ l, cb' = PList l ∧ Forall (λ v, ∃ d, v = PDict d ∧ dmem "_name" d = true) l)
  ∧ validate_circuit_breakers cb' = Ok (true, cb').
Proof.
  unfold validate_circuit_breakers. destruct cb as [| | | |cbs|]; try done. intros Hv. res_inv.
  destruct x as [v l]. simplify_eq. rename H into Hrun.
  assert (Hboth : Forall (λ v, ∃ d, v = PDict d ∧ dmem "_name" d = true) l
                  ∧ validate_breakers l = Ok (true, l)).
  { revert l Hrun. induction cbs as [|c cbs IH]; intros l; cbn [validate_breakers].
    - intros [= <-]. by split; [constructor|].
    - destruct c as [| | | | |d]; try done. intros Hr. res_inv. destruct x as [d'|]; res_inv; [|done].
      destruct x as [v rest]. simplify_eq. destruct (IH _ H0) as [Hf Hi].
      assert (Hd : dmem "_name" d' = true) by by eapply validate_breaker_named.
      split; [constructor; [by eexists|done]|]. cbn [validate_breakers].
      unfold validate_breaker. rewrite Hd. cbn [mbind res_bind]. by rewrite Hi. }
  destruct Hboth as [Hf Hi]. split; [by eexists|]. by rewrite Hi.
Qed.

Lemma validate_circuit_breakers_idempotent_witness :
  validate_circuit_breakers (PList [PDict [("priority", PStr "High"); ("max_retries", PInt 3); ("_name", PStr "cbht3")]])
  = Ok (true, PList [PDict [("priority", PStr "High"); ("max_retries", PInt 3); ("_name", PStr "cbht3")]]).
Proof.
  apply (validate_circuit_breakers_idempotent
    (PList [PDict [("priority", PStr "High"); ("max_retries", PInt 3)]])). vm_compute. reflexivity.
Defined.
