(* ===== verification/Sha1.v ===== *)
(** * SHA-1, as [hashlib] computes it

    Group identifiers are SHA-1 digests.  The digest of a byte string, its
    hexadecimal text, and the UTF-8 encoding of a [str]. *)

From S2P Require Import Prelude PyStr.
Local Open Scope Z_scope.

Definition mask32 (x : Z) : Z := Z.land x (Z.ones 32).
Definition rotl (n x : Z) : Z := mask32 (Z.lor (Z.shiftl x n) (Z.shiftr x (32 - n))).

(** [s.encode("utf-8")] for code points below 256 *)
Fixpoint encode_utf8 (s : string) : list Z :=
  match s with
  | EmptyString => []
  | String a s' =>
      let n := code a in
      (if bool_decide (n < 128) then [n] else [192 + n / 64; 128 + n mod 64]) ++ encode_utf8 s'
  end.

(** [k] bytes, most significant first *)
Fixpoint be_bytes (k : nat) (n : Z) : list Z :=
  match k with O => [] | S k' => be_bytes k' (n / 256) ++ [n mod 256] end.

Definition pad (msg : list Z) : list Z :=
  let len := Z.of_nat (length msg) in
  let zeros := (55 - len) mod 64 in
  msg ++ [128] ++ replicate (Z.to_nat zeros) 0 ++ be_bytes 8 (8 * len).

Fixpoint words (l : list Z) : list Z :=
  match l with
  | a :: b :: c :: d :: l' => (((a * 256 + b) * 256 + c) * 256 + d) :: words l'
  | _ => []
  end.

(** The message schedule, newest word first. *)
Definition schedule_step (w : list Z) : list Z :=
  let at_ i := nth i w 0 in
  rotl 1 (Z.lxor (Z.lxor (at_ 2%nat) (at_ 7%nat)) (Z.lxor (at_ 13%nat) (at_ 15%nat))) :: w.
Definition schedule (block : list Z) : list Z := rev (Nat.iter 64 schedule_step (rev block)).

Record digest : Type := mkDigest { da : Z; db : Z; dc : Z; dd : Z; de : Z }.

Definition round_f (i b c d : Z) : Z * Z :=
  if bool_decide (i < 20) then
    (Z.lor (Z.land b c) (Z.land (Z.lxor b (Z.ones 32)) d), 1518500249)
  else if bool_decide (i < 40) then (Z.lxor b (Z.lxor c d), 1859775393)
  else if bool_decide (i < 60) then
    (Z.lor (Z.land b c) (Z.lor (Z.land b d) (Z.land c d)), 2400959708)
  else (Z.lxor b (Z.lxor c d), 3395469782).

Definition round_step (st : Z * digest) (w : Z) : Z * digest :=
  let '(i, mkDigest a b c d e) := st in
  let '(f, k) := round_f i b c d in
  (i + 1, mkDigest (mask32 (rotl 5 a + f + e + k + w)) a (rotl 30 b) c d).

Definition compress (h : digest) (block : list Z) : digest :=
  let '(_, r) := foldl round_step (0, h) (schedule block) in
  mkDigest (mask32 (da h + da r)) (mask32 (db h + db r)) (mask32 (dc h + dc r))
           (mask32 (dd h + dd r)) (mask32 (de h + de r)).

(** Blocks of sixteen words; [fuel] bounds their number. *)
Fixpoint blocks (fuel : nat) (ws : list Z) : list (list Z) :=
  match fuel, ws with
  | S fuel, _ :: _ => take 16 ws :: blocks fuel (drop 16 ws)
  | _, _ => []
  end.

Definition sha1 (msg : list Z) : digest :=
  let ws := words (pad msg) in
  foldl compress (mkDigest 1732584193 4023233417 2562383102 271733878 3285377520)
    (blocks (length ws) ws).

Definition hexdigest (d : digest) : string :=
  hex_fixed true 8 (da d) +:+ hex_fixed true 8 (db d) +:+ hex_fixed true 8 (dc d)
  +:+ hex_fixed true 8 (dd d) +:+ hex_fixed true 8 (de d).

Definition sha1_hex (msg : list Z) : string := hexdigest (sha1 msg).

(** Test vectors. *)
Lemma sha1_abc : sha1_hex (encode_utf8 "abc") = "a9993e364706816aba3e25717850c26c9cd0d89d".
Proof. vm_compute. reflexivity. Qed.

Lemma sha1_two_blocks :
  sha1_hex (encode_utf8 "abcdbcdecdefdefgefghfghighijhijkijkljklmklmnlmnomnopnopq")
  = "84983e441c3bd26ebaae4aa1f95129e5e54670f1".
Proof. vm_compute. reflexivity. Qed.

Lemma slen_hex_fixed lc k n : slen (hex_fixed lc k n) = k.
Proof.
  revert n. induction k as [|k IH]; intros n; [done|]. cbn [hex_fixed]. rewrite slen_app, IH.
  cbn. lia.
Qed.

Lemma slen_sha1_hex msg : slen (sha1_hex msg) = 40%nat.
Proof. unfold sha1_hex, hexdigest. by rewrite !slen_app, !slen_hex_fixed. Qed.

(** Encoding distributes over concatenation. *)
Lemma encode_utf8_app s t : encode_utf8 (s +:+ t) = encode_utf8 s ++ encode_utf8 t.
Proof.
  induction s as [|a s IH]; [done|]. rewrite app_cons. cbn [encode_utf8]. by rewrite IH, <- app_assoc.
Qed.
