(* ===== verification/HTTPMapping.v ===== *)
(** * HTTP Mappings ([ir/irhttpmapping.py], with [ir/ircors.py] and
    [ir/irretrypolicy.py])

    Building an [IRHTTPMapping] from the fields of a Mapping resource: header
    and query-parameter matches, the host, the normalized service, CORS, retry
    and load-balancer validation, the group identifier and the route weight. *)

From S2P Require Import Prelude PyStr PyVal Utils HostGlob Resource IpAddr ServiceName Resolver BaseMapping Sha1.

(** ** Header and query-parameter matches *)

Record KeyValueDecorator : Type := mkKV { kv_name : string; kv_value : pyval; kv_regex : pyval }.

(** [_get_value], which must be a string where it is measured or joined *)
Definition kv_get_value (kv : KeyValueDecorator) : pyval := py_or (kv_value kv) (PStr "*").

Definition kv_length (kv : KeyValueDecorator) : res Z :=
  v ← as_str (kv_get_value kv);
  Ok (Z.of_nat (slen (kv_name kv)) + Z.of_nat (slen v) + (if py_bool (kv_regex kv) then 1 else 0))%Z.

Definition kv_key (kv : KeyValueDecorator) : res string :=
  v ← as_str (kv_get_value kv); Ok (kv_name kv +:+ "-" +:+ v).

(** ** CORS and retry policies *)

(** [str(x)] for the scalar values of a list *)
Definition py_str (v : pyval) : res string :=
  match v with
  | PStr s => Ok s
  | PInt n => Ok (str_of_int n)
  | PBool true => Ok "True"
  | PBool false => Ok "False"
  | PNone => Ok "None"
  | _ => Raise TypeError
  end.

Fixpoint map_res {A B} (f : A → res B) (l : list A) : res (list B) :=
  match l with
  | [] => Ok []
  | x :: l => y ← f x; ys ← map_res f l; Ok (y :: ys)
  end.

(** [_cors_normalize] *)
Definition cors_normalize (value : pyval) : res pyval :=
  match value with
  | PList l => ss ← map_res py_str l; Ok (PStr (join ", " ss))
  | _ => Ok value
  end.

Definition cors_keys : list (string * string) :=
  [("max_age", "max_age"); ("credentials", "allow_credentials"); ("methods", "allow_methods");
   ("headers", "allow_headers"); ("exposed_headers", "expose_headers")].

Fixpoint cors_rename (keys : list (string * string)) (kwargs acc : dict pyval) : res (dict pyval) :=
  match keys with
  | [] => Ok acc
  | (from_key, to_key) :: keys =>
      let value := pget from_key kwargs in
      if py_bool value then
        v ← cors_normalize value; cors_rename keys kwargs (dset to_key v acc)
      else cors_rename keys kwargs acc
  end.

(** [for origin in origins] *)
Definition py_iter (v : pyval) : res (list pyval) :=
  match v with
  | PList l => Ok l
  | PDict d => Ok (PStr <$> dkeys d)
  | PStr s => Ok ((fix go s := match s with EmptyString => [] | String a s => PStr (str1 a) :: go s end) s)
  | _ => Raise TypeError
  end.

(** [set_id] *)
Definition cors_set_id (group_id : string) (cors : dict pyval) : dict pyval :=
  dset "filter_enabled"
    (PDict [("default_value", PDict [("denominator", PStr "HUNDRED"); ("numerator", PInt 100)]);
            ("runtime_key", PStr ("routing.cors_enabled." +:+ group_id))]) cors.

(** The data of an [IRCORS] built from a Mapping's [cors] field. *)
Definition IRCORS_init (kwargs : dict pyval) : res (dict pyval) :=
  new ← cors_rename cors_keys kwargs [];
  new ← (match pget "origins" kwargs with
         | PNone => Ok new
         | origins =>
             os ← py_iter origins;
             Ok (dset "allow_origin_string_match" (PList ((λ o, PDict [("exact", o)]) <$> os)) new)
         end);
  Ok (cors_set_id "unset" new).

(** [validate_retry_policy] *)
Definition validate_retry_policy (rp : dict pyval) : bool :=
  in_strs (pget "retry_on" rp)
    ["5xx"; "gateway-error"; "connect-failure"; "retriable-4xx"; "refused-stream"; "retriable-status-codes"].

(** [validate_load_balancer] *)
Definition validate_load_balancer (lb : dict pyval) : res bool :=
  let policy := pget "policy" lb in
  if in_strs policy ["round_robin"; "least_request"] then Ok (bool_decide (length lb = 1))
  else if in_strs policy ["ring_hash"; "maglev"] then
    if bool_decide (length lb = 2) then
      match dget "cookie" lb with
      | Some cookie => vmem "name" cookie
      | None => Ok (dmem "header" lb || dmem "source_ip" lb)
      end
    else Ok false
  else Ok false.

(** ** The fields of a new Mapping *)

Definition AllowedKeys : dict bool :=
  [("add_linkerd_headers", false); ("auto_host_rewrite", false); ("bypass_auth", false);
   ("auth_context_extensions", false); ("case_sensitive", false); ("circuit_breakers", false);
   ("cluster_idle_timeout_ms", false); ("cluster_max_connection_lifetime_ms", false);
   ("connect_timeout_ms", false); ("cors", false); ("docs", false); ("dns_type", false);
   ("enable_ipv4", false); ("enable_ipv6", false); ("error_response_overrides", false); ("grpc", false);
   ("health_checks", false); ("host_redirect", false); ("host_regex", false); ("host_rewrite", false);
   ("idle_timeout_ms", false); ("keepalive", false); ("labels", false); ("load_balancer", false);
   ("metadata_labels", false); ("method_regex", false); ("path_redirect", false);
   ("prefix_redirect", false); ("regex_redirect", false); ("redirect_response_code", false);
   ("prefix", false); ("prefix_exact", false); ("prefix_regex", false); ("priority", false);
   ("rate_limits", false); ("remove_request_headers", true); ("remove_response_headers", true);
   ("resolver", false); ("respect_dns_ttl", false); ("retry_policy", false); ("service", false);
   ("shadow", false); ("stats_name", true); ("timeout_ms", false); ("tls", false);
   ("use_websocket", false); ("allow_upgrade", false); ("weight", false); ("serialization", false)].

(** The [defaults] element of the Ambassador module. *)
Definition module_defaults (ctx : ir_ctx) : res (dict pyval) :=
  as_dict (dget_default "defaults" (PDict []) (ambassador_module ctx)).

Definition http_default (ctx : ir_ctx) (key : string) (dflt : pyval) : res pyval :=
  d ← module_defaults ctx;
  lookup_default d [("default_class", PStr "httpmapping")] key dflt PNone.

(** The loop over [AllowedKeys]. *)
Fixpoint copy_allowed (ctx : ir_ctx) (keys : dict bool) (kwargs new_args : dict pyval) : res (dict pyval) :=
  match keys with
  | [] => Ok new_args
  | (key, check_defaults) :: keys =>
      match dget key kwargs with
      | Some value => copy_allowed ctx keys kwargs (dset key value new_args)
      | None =>
          if (check_defaults : bool) then
            value ← http_default ctx key PNone;
            copy_allowed ctx keys kwargs
              (match value with PNone => new_args | _ => dset key value new_args end)
          else copy_allowed ctx keys kwargs new_args
      end
  end.

(** What the header loops compute. *)
Record header_state : Type := mkHS {
  hs_hdrs : list KeyValueDecorator;
  hs_host : pyval;
  hs_host_regex : pyval;
  hs_deferred : option string
}.

(** One header of the [headers] field. *)
Definition add_header (hs : header_state) (h : string * pyval) : res header_state :=
  match h.2 with
  | PBool true => Ok (mkHS (hs_hdrs hs ++ [mkKV h.1 PNone (PBool false)]) (hs_host hs) (hs_host_regex hs) (hs_deferred hs))
  | v =>
      if bool_decide (lower h.1 = ":authority") then
        star ← vmem "*" v;
        if (star : bool) then
          s ← py_str v;
          Ok (mkHS (hs_hdrs hs) (hs_host hs) (hs_host_regex hs)
                (Some (":authority exact-match '" +:+ s +:+ "' contains *, which cannot match anything.")))
        else Ok (mkHS (hs_hdrs hs) v (hs_host_regex hs) (hs_deferred hs))
      else Ok (mkHS (hs_hdrs hs ++ [mkKV h.1 v (PBool false)]) (hs_host hs) (hs_host_regex hs) (hs_deferred hs))
  end.

Fixpoint fold_res {A B} (f : A → B → res A) (l : list B) (a : A) : res A :=
  match l with [] => Ok a | b :: l => a ← f a b; fold_res f l a end.

(** [kwargs.get(k, {}).items()] *)
Definition items_of (k : string) (kwargs : dict pyval) : res (dict pyval) :=
  match dget k kwargs with
  | None => Ok []
  | Some (PDict d) => Ok d
  | Some _ => Raise (AttributeError "items")
  end.

(** All header matches, the host and whether it is a regular expression. *)
Definition collect_headers (kwargs : dict pyval) : res header_state :=
  hdrs ← items_of "headers" kwargs;
  hs ← fold_res add_header hdrs (mkHS [] PNone (PBool false) None);
  rhdrs ← items_of "regex_headers" kwargs;
  let hs := mkHS (hs_hdrs hs ++ ((λ h, mkKV h.1 h.2 (PBool true)) <$> rhdrs)) (hs_host hs)
              (hs_host_regex hs) (hs_deferred hs) in
  hs ← (match dget "host" kwargs with
        | None => Ok hs
        | Some host =>
            let host_regex := dget_default "host_regex" (PBool false) kwargs in
            deferred ← (if py_bool host_regex then Ok (hs_deferred hs)
                        else star ← vmem "*" host;
                             if (star : bool) then
                               s ← py_str host;
                               Ok (Some ("host exact-match " +:+ s +:+ " contains *, which cannot match anything."))
                             else Ok (hs_deferred hs));
            Ok (mkHS (hs_hdrs hs) host host_regex deferred)
        end);
  let hs := match dget "hostname" kwargs with
            | None => hs
            | Some h => mkHS (hs_hdrs hs) h (PBool false) (hs_deferred hs)
            end in
  let hs := if py_bool (hs_host hs)
            then mkHS (hs_hdrs hs ++ [mkKV ":authority" (hs_host hs) (hs_host_regex hs)]) (hs_host hs)
                   (hs_host_regex hs) (hs_deferred hs)
            else hs in
  Ok (match dget "method" kwargs with
      | None => hs
      | Some m => mkHS (hs_hdrs hs ++ [mkKV ":method" m (dget_default "method_regex" (PBool false) kwargs)])
                    (hs_host hs) (hs_host_regex hs) (hs_deferred hs)
      end).

(** [self.host] after the headers are read. *)
Definition host_attr (hs : header_state) : pyval :=
  if py_bool (hs_host hs) && negb (py_bool (hs_host_regex hs)) then hs_host hs else PNone.

(** The [use_websocket] block: the key's presence is what counts. *)
Definition fold_websocket (new_args : dict pyval) : res (dict pyval) :=
  if dmem "use_websocket" new_args then
    let au := dget_default "allow_upgrade" (PList []) new_args in
    found ← vmem "websocket" au;
    au ← (if (found : bool) then Ok au
          else match au with PList l => Ok (PList (l ++ [PStr "websocket"])) | _ => Raise (AttributeError "append") end);
    Ok (ddel "use_websocket" (dset "allow_upgrade" au new_args))
  else Ok new_args.

Definition collect_query (kwargs : dict pyval) : res (list KeyValueDecorator) :=
  qs ← items_of "query_parameters" kwargs;
  rqs ← items_of "regex_query_parameters" kwargs;
  Ok (((λ q : string * pyval, match q.2 with
                              | PBool true => mkKV q.1 PNone (PBool false)
                              | v => mkKV q.1 v (PBool false)
                              end) <$> qs)
      ++ ((λ q : string * pyval, mkKV q.1 q.2 (PBool true)) <$> rqs)).

(** ** Group identifier and route weight *)

Record IRHTTPMapping : Type := mkHTTPMapping {
  hm_self : dict pyval;
  hm_headers : list KeyValueDecorator;
  hm_query : list KeyValueDecorator
}.

(** The text a match contributes to the group identifier: its name, and its
    value when it has one. *)
Definition kv_id (kv : KeyValueDecorator) : res string :=
  match kv_value kv with
  | PNone => Ok (kv_name kv)
  | PStr v => Ok (kv_name kv +:+ v)
  | _ => Raise (AttributeError "encode")
  end.

(** The labels of one Host's [mappingSelector], if it selects the Mapping. *)
Definition host_id (ctx : ir_ctx) (labels : pyval) (host : dict pyval) : res string :=
  let mapsel := pget "mappingSelector" host in
  if negb (py_bool mapsel) then Ok EmptyString
  else
    m ← selector_matches (ir_env ctx) mapsel labels;
    if (m : bool) then
      ml ← vget "matchLabels" (PDict []) mapsel;
      items ← as_dict ml;
      ss ← map_res (λ kv : string * pyval, v ← as_str kv.2; Ok (kv.1 +:+ v)) items;
      Ok (join EmptyString ss)
    else Ok EmptyString.

(** The text that is hashed. *)
Definition group_id_text (ctx : ir_ctx) (m : IRHTTPMapping) : res string :=
  let self := hm_self m in
  method ← as_str (py_or (pget "method" self) (PStr "GET"));
  prefix ← getattr self "prefix"; prefix ← as_str prefix;
  hs ← map_res kv_id (hm_headers m);
  qs ← map_res kv_id (hm_query m);
  labels ← getattr self "metadata_labels";
  host ← getattr self "host";
  sel ← (if negb (py_bool host) && negb (bool_decide (labels = PNone))
         then ss ← map_res (host_id ctx labels) (ir_hosts ctx); Ok (join EmptyString ss)
         else Ok EmptyString);
  prec ← getattr self "precedence";
  prec ← as_int prec;
  Ok ("HTTP-" +:+ method +:+ prefix +:+ join EmptyString hs +:+ join EmptyString qs +:+ sel
      +:+ (if bool_decide (prec = 0)%Z then EmptyString else str_of_int prec)).

(** [_group_id] *)
Definition http_group_id (ctx : ir_ctx) (m : IRHTTPMapping) : res string :=
  t ← group_id_text ctx m; Ok (sha1_hex (encode_utf8 t)).

(** [_route_weight] *)
Definition http_route_weight (m : IRHTTPMapping) : res pyval :=
  let self := hm_self m in
  hl ← map_res kv_length (hm_headers m);
  ql ← map_res kv_length (hm_query m);
  prec ← getattr self "precedence";
  prefix ← getattr self "prefix"; prefix ← as_str prefix;
  hk ← map_res kv_key (hm_headers m);
  qk ← map_res kv_key (hm_query m);
  Ok (PList ([prec; PInt (Z.of_nat (slen prefix)); PInt (foldr Z.add 0%Z hl); PInt (foldr Z.add 0%Z ql);
              PStr prefix; dget_default "method" (PStr "GET") self]
             ++ (PStr <$> hk) ++ (PStr <$> qk))).

(** ** Setup *)

(** [_enforce_mutual_exclusion] posts on the configuration, not on the
    Mapping, which stays active. *)
Definition enforce_mutual_exclusion (preferred other : string) (s : setup_state) : setup_state :=
  if dmem preferred (su_self s) && dmem other (su_self s) then
    mkSetup (ddel other (su_self s))
      (su_errors s ++ ["Cannot specify both " +:+ preferred +:+ " and " +:+ other +:+ ". Using "
                       +:+ preferred +:+ " and ignoring " +:+ other +:+ "."])
      (su_notices s)
  else s.

(** The CORS block: [false] when the Mapping must be dropped. *)
Definition setup_cors (s : setup_state) : res setup_state :=
  match dget "cors" (su_self s) with
  | None => Ok s
  | Some c => kwargs ← as_dict c; cors ← IRCORS_init kwargs; Ok (su_set "cors" (PDict cors) s)
  end.

Definition setup_retry (s : setup_state) : res (bool * setup_state) :=
  match dget "retry_policy" (su_self s) with
  | None => Ok (true, s)
  | Some r =>
      rp ← as_dict r;
      if validate_retry_policy rp then Ok (true, s)
      else Ok (false, mkSetup (su_self s) (su_errors s ++ ["Invalid retry policy specified"]) (su_notices s))
  end.

Definition setup_load_balancer (s : setup_state) : res (bool * setup_state) :=
  match pget "load_balancer" (su_self s) with
  | PNone => Ok (true, s)
  | lb =>
      lbd ← as_dict lb;
      ok ← validate_load_balancer lbd;
      if (ok : bool) then Ok (true, s)
      else Ok (false, su_post "Invalid load_balancer specified, invalidating mapping" s)
  end.

Definition exclude_redirects (s : setup_state) : setup_state :=
  enforce_mutual_exclusion "prefix_redirect" "regex_redirect"
    (enforce_mutual_exclusion "path_redirect" "regex_redirect"
       (enforce_mutual_exclusion "path_redirect" "prefix_redirect" s)).

(** [IRHTTPMapping.setup] *)
Definition IRHTTPMapping_setup (ctx : ir_ctx) (hdrs query : list KeyValueDecorator) (s : setup_state)
    : res (bool * setup_state) :=
  match pget "_deferred_error" (su_self s) with
  | PStr e =>
      if str_bool e then Ok (false, su_post e s) else Raise TypeError
  | PNone =>
      let m := mkHTTPMapping (su_self s) hdrs query in
      gid ← http_group_id ctx m;
      rw ← http_route_weight m;
      '(ok, s) ← IRBaseMapping_setup ctx gid rw s;
      if negb ok then Ok (false, s)
      else
        s ← setup_cors s;
        '(ok, s) ← setup_retry s;
        if negb ok then Ok (false, s)
        else
          let s := if dmem "error_response_overrides" (su_self s)
                   then su_post "error_response_overrides is not supported in Emissary 4 and will be ignored" s
                   else s in
          '(ok, s) ← setup_load_balancer s;
          if negb ok then Ok (false, s) else Ok (true, exclude_redirects s)
  | _ => Raise TypeError
  end.

(** ** Construction *)

(** The named arguments of [IRHTTPMapping.__init__]. *)
Record http_args : Type := mkHTTPArgs {
  ha_rkey : string; ha_name : string; ha_location : string; ha_service : string;
  ha_namespace : pyval; ha_metadata_labels : pyval; ha_kind : string; ha_apiVersion : string;
  ha_precedence : Z; ha_rewrite : pyval; ha_cluster_tag : pyval
}.

Definition opt_str (v : pyval) : res (option string) :=
  match v with PStr s => Ok (Some s) | PNone => Ok None | _ => Raise TypeError end.

(** The kind of the resolver the service is qualified for. *)
Definition resolver_kind_for (ctx : ir_ctx) (kwargs : dict pyval) : res string :=
  let rname := py_or (pget "resolver" kwargs)
                 (dget_default "resolver" (PStr "kubernetes-service") (ambassador_module ctx)) in
  if negb (py_bool rname) then Raise (AssertionError EmptyString)
  else rname ← as_str rname;
       Ok (match dget rname (ir_resolvers ctx) with
           | Some r => if rv_bool r then rv_kind r else "KubernetesBogusResolver"
           | None => "KubernetesBogusResolver"
           end).

Definition service_context (ctx : ir_ctx) : res service_ctx :=
  u ← getattr (ambassador_module ctx) "use_ambassador_namespace_for_service_resolution";
  Ok (mkServiceCtx (py_bool u) (ambassador_namespace ctx)).

(** The normalized service and the error it posts. *)
Definition normalized_service (ctx : ir_ctx) (service : string) (namespace : pyval) (kind rkey : string)
    : res (string * list string) :=
  sc ← service_context ctx;
  ns ← opt_str namespace;
  res_of_option (PyException "percent-escape outside the model")
    (normalize_service_name sc service ns kind (Some rkey)).

(** The default-able header dictionaries. *)
Definition header_dict (ctx : ir_ctx) (key : string) (kwargs : dict pyval) : res (dict pyval) :=
  v ← (match dget key kwargs with Some v => Ok v | None => http_default ctx key (PDict []) end);
  as_dict v.

(** [rewrite] and [regex_rewrite], with the notice about having both. *)
Definition rewrites (rewrite : pyval) (kwargs : dict pyval) : res (pyval * pyval * list string) :=
  match dget "regex_rewrite" kwargs with
  | None => Ok (rewrite, PDict [], [])
  | Some rr =>
      p ← vget "pattern" (PStr EmptyString) rr;
      sub ← vget "substitution" (PStr EmptyString) rr;
      Ok (PStr EmptyString, PDict [("pattern", p); ("substitution", sub)],
          if py_bool rewrite && negb (py_eqb rewrite (PStr "/"))
          then ["Cannot specify both rewrite and regex_rewrite: using regex_rewrite and ignoring rewrite"] else [])
  end.

(** Every attribute set before [setup] runs. *)
Definition base_attrs (ctx : ir_ctx) (a : http_args) (service : string) (host rewrite regex_rewrite : pyval)
    (arh rrh new_args : dict pyval) : dict pyval :=
  let ns := if py_bool (ha_namespace a) then ha_namespace a else PStr (ambassador_namespace ctx) in
  dupdate
    [("default_class", PStr "httpmapping"); ("host", host); ("cached_status", PNone);
     ("status_update", PNone); ("cluster_key", PNone); ("_weight", PInt 0); ("namespace", ns);
     ("rkey", PStr (ha_rkey a)); ("location", PStr (ha_location a)); ("kind", PStr (ha_kind a));
     ("serialization", PNone); ("_referenced_by", PDict []); ("name", PStr (ha_name a));
     ("metadata_labels", ha_metadata_labels a); ("apiVersion", PStr (ha_apiVersion a));
     ("precedence", PInt (ha_precedence a)); ("cluster_tag", ha_cluster_tag a);
     ("service", PStr service); ("add_request_headers", PDict arh); ("add_response_headers", PDict rrh);
     ("rewrite", rewrite); ("regex_rewrite", regex_rewrite); ("_errored", PBool false);
     ("_active", PBool false); ("_cache_key", PNone)] new_args.

(** [IRHTTPMapping.__init__]: the Mapping with the errors and notices posted. *)
Definition IRHTTPMapping_init (ctx : ir_ctx) (a : http_args) (kwargs : dict pyval)
    : res (IRHTTPMapping * list string * list string) :=
  new_args ← copy_allowed ctx AllowedKeys kwargs [];
  let new_args :=
    if dmem "add_linkerd_headers" new_args then new_args
    else match pget "add_linkerd_headers" (ambassador_module ctx) with
         | PNone => new_args
         | v => dset "add_linkerd_headers" v new_args
         end in
  hs ← collect_headers kwargs;
  let new_args := match hs_deferred hs with
                  | Some e => dset "_deferred_error" (PStr e) new_args
                  | None => new_args
                  end in
  new_args ← fold_websocket new_args;
  arh ← header_dict ctx "add_request_headers" kwargs;
  rrh ← header_dict ctx "add_response_headers" kwargs;
  kind ← resolver_kind_for ctx kwargs;
  '(service, serr) ← normalized_service ctx (ha_service a) (ha_namespace a) kind (ha_rkey a);
  svc ← ParsedService_init service true None;
  let arh := if py_bool (pget "add_linkerd_headers" new_args)
             then dset "l5d-dst-override" (PStr (ps_hostname_port svc)) arh else arh in
  query ← collect_query kwargs;
  '(rewrite, regex_rewrite, notices) ← rewrites (ha_rewrite a) kwargs;
  let self := base_attrs ctx a service (host_attr hs) rewrite regex_rewrite arh rrh new_args in
  '(active, s) ← IRHTTPMapping_setup ctx (hs_hdrs hs) query (mkSetup self serr notices);
  let s := su_set "_active" (PBool active) s in
  let s := if dmem "outlier_detection" kwargs then su_post "outlier_detection is not supported" s else s in
  Ok (mkHTTPMapping (su_self s) (hs_hdrs hs) query, su_errors s, su_notices s).

(** ** Status *)

(** [summarize_errors]; [errors] are the texts posted for the Mapping's key. *)
Definition summarize_errors (errors : list string) : string :=
  match errors with
  | [] => "(no errors)"
  | e :: rest =>
      (if str_bool e then e else "unknown error?")
      +:+ (match rest with [] => EmptyString | _ => " (and more)" end)
  end.

Definition http_status (m : IRHTTPMapping) (errors : list string) : pyval :=
  if negb (py_bool (pget "_active" (hm_self m)))
  then PDict [("state", PStr "Inactive"); ("reason", PStr (summarize_errors errors))]
  else PDict [("state", PStr "Running")].

(** ** Redirects *)

Definition redirect_keys : list string := ["path_redirect"; "prefix_redirect"; "regex_redirect"].
(** The first of [ks] that the Mapping has. *)
Fixpoint first_present (ks : list string) (d : dict pyval) : option string :=
  match ks with [] => None | k :: ks => if dmem k d then Some k else first_present ks d end.

Lemma dmem_ddel_eq k (d : dict pyval) : dict_ok d → dmem k (ddel k d) = false.
Proof. intros Hd. by apply dmem_false, dget_ddel_eq. Qed.
Lemma dmem_ddel_ne k k' (d : dict pyval) : k ≠ k' → dmem k (ddel k' d) = dmem k d.
Proof. intros Hne. unfold dmem. by rewrite dget_ddel_ne. Qed.

Lemma enforce_dmem p o s k :
  dict_ok (su_self s) → p ≠ o →
  dict_ok (su_self (enforce_mutual_exclusion p o s))
  ∧ dmem k (su_self (enforce_mutual_exclusion p o s))
    = dmem k (su_self s) && negb (bool_decide (k = o) && dmem p (su_self s)).
Proof.
  intros Hd Hpo. unfold enforce_mutual_exclusion.
  destruct (dmem p (su_self s)) eqn:Hp, (dmem o (su_self s)) eqn:Ho; cbn [andb];
    (split; [try done|]); try (by apply dict_ok_ddel).
  - cbn [su_self]. case_bool as Hk; cbn [andb negb].
    + subst. by rewrite dmem_ddel_eq, andb_false_r.
    + by rewrite dmem_ddel_ne, andb_true_r.
  - case_bool as Hk; cbn; [subst; by rewrite Ho|by rewrite andb_true_r].
  - by rewrite andb_false_r, andb_true_r.
  - by rewrite andb_false_r, andb_true_r.
Qed.

(** After [setup] has excluded conflicting redirects, a Mapping has at most
    one of the three redirect fields, namely the first it was given in the
    order path, prefix, regex; no other field changes. *)
Theorem redirects_exclusive s k :
  dict_ok (su_self s) →
  dmem k (su_self (exclude_redirects s))
  = if bool_decide (k ∈ redirect_keys)
    then bool_decide (first_present redirect_keys (su_self s) = Some k)
    else dmem k (su_self s).
Proof.
  intros Hd. unfold exclude_redirects.
  set (s1 := enforce_mutual_exclusion "path_redirect" "prefix_redirect" s).
  set (s2 := enforce_mutual_exclusion "path_redirect" "regex_redirect" s1).
  assert (H1 := λ k, enforce_dmem "path_redirect" "prefix_redirect" s k Hd ltac:(done)).
  assert (Hd1 : dict_ok (su_self s1)) by apply (H1 k).
  assert (H2 := λ k, enforce_dmem "path_redirect" "regex_redirect" s1 k Hd1 ltac:(done)).
  assert (Hd2 : dict_ok (su_self s2)) by apply (H2 k).
  destruct (enforce_dmem "prefix_redirect" "regex_redirect" s2 k Hd2 ltac:(done)) as [_ ->].
  fold s1 in H1. fold s2 in H2.
  rewrite !(λ k, proj2 (H2 k)), !(λ k, proj2 (H1 k)). unfold redirect_keys, first_present.
  destruct (decide (k = "path_redirect")) as [->|Hk1]; [cbn; by destruct (dmem "path_redirect" (su_self s)),
    (dmem "prefix_redirect" (su_self s)), (dmem "regex_redirect" (su_self s))|].
  destruct (decide (k = "prefix_redirect")) as [->|Hk2]; [cbn; by destruct (dmem "path_redirect" (su_self s)),
    (dmem "prefix_redirect" (su_self s)), (dmem "regex_redirect" (su_self s))|].
  destruct (decide (k = "regex_redirect")) as [->|Hk3]; [cbn; by destruct (dmem "path_redirect" (su_self s)),
    (dmem "prefix_redirect" (su_self s)), (dmem "regex_redirect" (su_self s))|].
  rewrite (bool_decide_false (k = "prefix_redirect")), (bool_decide_false (k = "regex_redirect")) by done.
  rewrite (bool_decide_false (k ∈ _)) by set_solver.
  cbn [andb negb]. by rewrite !andb_true_r.
Qed.

Lemma redirects_exclusive_witness :
  dmem "prefix_redirect" (su_self (exclude_redirects
    (mkSetup [("prefix_redirect", PStr "/a"); ("path_redirect", PStr "/b"); ("name", PStr "m")] [] [])))
  = bool_decide (Some "path_redirect" = Some "prefix_redirect").
Proof.
  apply (redirects_exclusive
    (mkSetup [("prefix_redirect", PStr "/a"); ("path_redirect", PStr "/b"); ("name", PStr "m")] [] [])
    "prefix_redirect").
  repeat constructor; set_solver.
Defined.

(** ** Hosts *)

(** Host fields have the documented priority: [hostname] beats [host],
    which beats an exact [:authority] header; the winner is added as the
    [:authority] match, and it is the Mapping's host unless [host] is given as
    a regular expression. *)
Theorem host_priority kwargs hs :
  collect_headers kwargs = Ok hs →
  match dget "hostname" kwargs with
  | Some h => host_attr hs = (if py_bool h then h else PNone)
              ∧ (py_bool h = true → mkKV ":authority" h (PBool false) ∈ hs_hdrs hs)
  | None =>
      match dget "host" kwargs with
      | Some h =>
          let rx := dget_default "host_regex" (PBool false) kwargs in
          host_attr hs = (if py_bool h && negb (py_bool rx) then h else PNone)
          ∧ (py_bool h = true → mkKV ":authority" h rx ∈ hs_hdrs hs)
      | None => True
      end
  end.
Proof.
  unfold collect_headers. intros Hrun. res_inv. clear H H0 H1. rename x0 into hs0, x1 into rh, x2 into hs1.
  assert (Hhost : match dget "host" kwargs with
                  | Some h => hs_host hs1 = h ∧ hs_host_regex hs1 = dget_default "host_regex" (PBool false) kwargs
                  | None => True end).
  { destruct (dget "host" kwargs) as [h|]; [|done]. res_inv. done. }
  clear H2.
  destruct (dget "hostname" kwargs) as [h|]; [|destruct (dget "host" kwargs) as [h|]; [destruct Hhost as [<- <-]|done]].
  - unfold host_attr. cbn [hs_host hs_host_regex hs_hdrs].
    destruct (py_bool h) eqn:Hb; destruct (dget "method" kwargs); cbn; rewrite Hb; cbn; (split; [done|]);
      intros Ht; try done; set_solver.
  - unfold host_attr. cbv zeta.
    destruct (py_bool (hs_host hs1)) eqn:Hb; destruct (dget "method" kwargs); cbn; rewrite Hb; cbn;
      (split; [done|]); intros Ht; try done; set_solver.
Qed.

Lemma host_priority_witness :
  ∃ hs, collect_headers [("host", PStr "old.example.com"); ("hostname", PStr "*.example.com")] = Ok hs
    ∧ host_attr hs = PStr "*.example.com".
Proof.
  eexists. split; [vm_compute; reflexivity|].
  refine (proj1 (host_priority [("host", PStr "old.example.com"); ("hostname", PStr "*.example.com")] _ _)).
  vm_compute. reflexivity.
Defined.

Lemma copy_allowed_ok ctx keys kwargs d d' :
  copy_allowed ctx keys kwargs d = Ok d' → dict_ok d → dict_ok d'.
Proof.
  revert d. induction keys as [|[k b] keys IH]; intros d; cbn [copy_allowed]; [naive_solver|].
  destruct (dget k kwargs); [intros H Hd; eapply IH; [done|by apply dict_ok_dset]|].
  destruct b; [|naive_solver]. intros H Hd. res_inv. eapply IH; [done|].
  destruct x; auto using dict_ok_dset.
Qed.

Lemma fold_websocket_keeps k d d' :
  fold_websocket d = Ok d' → dict_ok d → k ≠ "use_websocket" → k ≠ "allow_upgrade" →
  dict_ok d' ∧ dget k d' = dget k d.
Proof.
  unfold fold_websocket. intros H Hd H1 H2. destruct (dmem "use_websocket" d); [|naive_solver].
  res_inv. split; [by apply dict_ok_ddel, dict_ok_dset|].
  by rewrite dget_ddel_ne, dget_dset_ne.
Qed.

Lemma setup_deferred ctx h q s e :
  pget "_deferred_error" (su_self s) = PStr e → str_bool e = true →
  IRHTTPMapping_setup ctx h q s = Ok (false, su_post e s).
Proof. intros Hd He. unfold IRHTTPMapping_setup. by rewrite Hd, He. Qed.

Lemma su_set_active v s : pget "_active" (su_self (su_set "_active" v s)) = v.
Proof. unfold pget, dget_default, su_set. cbn [su_self]. by rewrite dget_dset_eq. Qed.
Lemma su_post_active e s : pget "_active" (su_self (su_post e s)) = pget "_active" (su_self s).
Proof. unfold pget, dget_default, su_post. cbn [su_self]. by rewrite dget_dset_ne. Qed.
Lemma su_post_errors e s : e ∈ su_errors (su_post e s).
Proof. apply elem_of_app. right. left. Qed.
Lemma su_post_errors_mono e e' s : e ∈ su_errors s → e ∈ su_errors (su_post e' s).
Proof. intros. apply elem_of_app. by left. Qed.
Lemma su_set_errors k v s : su_errors (su_set k v s) = su_errors s.
Proof. done. Qed.

(** A [host] that is an exact match but contains a star. *)
Definition bad_exact_host (kwargs : dict pyval) (h : string) : Prop :=
  dget "host" kwargs = Some (PStr h) ∧ contains h "*" = true ∧
  py_bool (dget_default "host_regex" (PBool false) kwargs) = false.

Lemma collect_headers_bad_host kwargs h hs :
  bad_exact_host kwargs h → collect_headers kwargs = Ok hs →
  hs_deferred hs = Some ("host exact-match " +:+ h +:+ " contains *, which cannot match anything.").
Proof.
  intros (Hh & Hs & Hr) Hrun. unfold collect_headers in Hrun. rewrite Hh, Hr in Hrun.
  cbn [vmem] in Hrun. rewrite Hs in Hrun. cbn [py_str mbind res_bind] in Hrun. res_inv.
  destruct (dget "hostname" kwargs), (dget "method" kwargs); cbn; by case_match.
Qed.

#[local] Opaque copy_allowed AllowedKeys.

(** A Mapping whose exact [host] contains a star is never active, whatever
    its other fields are, and the reason is posted as an error. *)
Theorem bad_exact_host_inactive ctx a kwargs h m es ns :
  bad_exact_host kwargs h → IRHTTPMapping_init ctx a kwargs = Ok (m, es, ns) →
  pget "_active" (hm_self m) = PBool false ∧
  ("host exact-match " +:+ h +:+ " contains *, which cannot match anything.") ∈ es.
Proof.
  intros Hbad Hrun. unfold IRHTTPMapping_init in Hrun.
  apply res_bind_Ok in Hrun as (na & Hna & Hrun). apply copy_allowed_ok in Hna; [|apply dict_ok_nil].
  set (na1 := if dmem "add_linkerd_headers" na then na else _) in Hrun.
  assert (Hna1 : dict_ok na1) by (unfold na1; repeat case_match; auto using dict_ok_dset).
  apply res_bind_Ok in Hrun as (hs & Hhs & Hrun). rewrite (collect_headers_bad_host _ _ _ Hbad Hhs) in Hrun.
  set (msg := "host exact-match " +:+ _) in *.
  apply res_bind_Ok in Hrun as (na2 & Hna2 & Hrun).
  apply (fold_websocket_keeps "_deferred_error") in Hna2 as [Hok2 Hdef]; [|by apply dict_ok_dset|done..].
  rewrite dget_dset_eq in Hdef.
  bind_step Hrun as arh0 Harh. bind_step Hrun as rrh Hrrh. bind_step Hrun as kind Hkind.
  bind_step Hrun as [service serr] Hsvc. bind_step Hrun as svc Hps. bind_step Hrun as query Hq.
  bind_step Hrun as [[rw rrw] notices] Hrw.
  set (arh := if py_bool _ then _ else _) in Hrun.
  rewrite (setup_deferred _ _ _ _ msg) in Hrun.
  - cbn [mbind res_bind] in Hrun. injection Hrun as <- <- _. cbn [hm_self].
    destruct (dmem "outlier_detection" kwargs); rewrite ?su_post_active, su_set_active; (split; [done|]);
      [apply su_post_errors_mono|]; rewrite su_set_errors; apply su_post_errors.
  - cbn [su_self]. unfold base_attrs, pget, dget_default. by rewrite dget_dupdate, Hdef.
  - done.
Qed.

Definition demo_ctx : ir_ctx :=
  mkIRCtx [("use_ambassador_namespace_for_service_resolution", PBool false); ("circuit_breakers", PNone)]
    "ambassador" (load_all [] "ambassador").1 [] [].
Definition demo_args : http_args :=
  mkHTTPArgs "quote.default.1" "quote" "quote.yaml" "quote" (PStr "default") PNone "Mapping"
    "getambassador.io/v3alpha1" 0 (PStr "/") PNone.

Lemma bad_exact_host_inactive_witness :
  ∃ m es ns, IRHTTPMapping_init demo_ctx demo_args [("prefix", PStr "/q/"); ("host", PStr "*.example.com")] = Ok (m, es, ns)
    ∧ pget "_active" (hm_self m) = PBool false.
Proof.
  eexists _, _, _. split; [vm_compute; reflexivity|].
  refine (proj1 (bad_exact_host_inactive demo_ctx demo_args [("prefix", PStr "/q/"); ("host", PStr "*.example.com")]
    "*.example.com" _ _ _ _ _)); [by split_and_all|vm_compute; reflexivity].
Defined.

(** [use_websocket: false] turns WebSocket upgrades on: only the presence
    of the field is tested. *)
Theorem use_websocket_false_enables :
  fold_websocket [("use_websocket", PBool false)] = Ok [("allow_upgrade", PList [PStr "websocket"])].
Proof. reflexivity. Qed.

(** The group identifier leaves out whether a match is a regular
    expression: Mappings that differ only in that are put in one group, whose
    route is built from the first of them. *)
Theorem group_id_ignores_regex ctx m :
  http_group_id ctx m
  = http_group_id ctx (mkHTTPMapping (hm_self m)
      ((λ kv, mkKV (kv_name kv) (kv_value kv) (PBool (negb (py_bool (kv_regex kv))))) <$> hm_headers m)
      (hm_query m)).
Proof.
  unfold http_group_id, group_id_text. cbn [hm_self hm_headers hm_query].
  assert (He : map_res kv_id (hm_headers m)
    = map_res kv_id ((λ kv, mkKV (kv_name kv) (kv_value kv) (PBool (negb (py_bool (kv_regex kv))))) <$> hm_headers m)).
  { induction (hm_headers m) as [|kv l IH]; [done|].
    rewrite fmap_cons. cbn [map_res]. by rewrite <- IH. }
  by rewrite He.
Qed.
