(* ===== verification/HealthChecks.v ===== *)
(** * Active health checks ([ir/irhealthchecks.py])

    [generate_mappers] turns a Mapping's [health_checks] into the form the
    Envoy configuration needs, dropping what is malformed.  Posted errors are
    named by kind; the code's texts also show the offending value. *)

From S2P Require Import Prelude PyStr PyVal BaseMapping HTTPMapping.

Inductive hc_error : Type :=
  | HcNotObject | HcHttpNotObject | HcHeadersNotDict | HcRemoveNotList | HcBadRange | HcGrpcNotObject
  | HcNoneValid.
#[export] Instance hc_error_eq_dec : EqDecision hc_error.
Proof. solve_decision. Defined.

(** [v[k]] on a value *)
Definition vitem (k : string) (v : pyval) : res pyval :=
  match v with PDict d => dget_exn k d | _ => Raise TypeError end.

(** [generate_headers_to_add] *)
Definition header_to_add (kv : string * pyval) : res pyval :=
  match kv.2 with
  | PDict d =>
      v ← dget_exn "value" d;
      let append := match dget "append" d with Some a => py_bool a | None => true end in
      Ok (PDict [("header", PDict [("key", PStr kv.1); ("value", v)]); ("append", PBool append)])
  | v => Ok (PDict [("header", PDict [("key", PStr kv.1); ("value", v)]); ("append", PBool true)])
  end.

Definition generate_headers_to_add (header_dict : pyval) : res (list pyval) :=
  match header_dict with
  | PDict d => map_res header_to_add d
  | _ => Raise (AttributeError "items")
  end.

(** [int(v)] where a [ValueError] propagates *)
Definition int_exn (v : pyval) : res Z :=
  n ← int_of v; res_of_option (ValueError "int") n.

(** The loop over [expected_statuses]: ranges kept and errors. *)
Fixpoint status_ranges (l : list pyval) : res (list pyval * list hc_error) :=
  match l with
  | [] => Ok ([], [])
  | r :: l =>
      lo ← vitem "min" r; minCode ← int_exn lo;
      hi ← vitem "max" r; maxCode ← int_exn hi;
      let maxCode := (maxCode + 1)%Z in
      '(rs, es) ← status_ranges l;
      if bool_decide (maxCode < minCode)%Z then Ok (rs, HcBadRange :: es)
      else Ok (PDict [("start", PInt minCode); ("end", PInt maxCode)] :: rs, es)
  end.

Definition hc_add_headers (http m : dict pyval) : res (dict pyval * list hc_error) :=
  match pget "add_request_headers" http with
  | PNone => Ok (m, [])
  | h =>
      let es := match h with PList _ => [HcHeadersNotDict] | _ => [] end in
      hs ← generate_headers_to_add h;
      Ok (match hs with [] => m | _ => dset "request_headers_to_add" (PList hs) m end, es)
  end.

Definition hc_remove_headers (http m : dict pyval) : dict pyval * list hc_error :=
  match pget "remove_request_headers" http with
  | PNone => (m, [])
  | PList l => (dset "request_headers_to_remove" (PList l) m, [])
  | _ => (m, [HcRemoveNotList])
  end.

Definition hc_statuses (http m : dict pyval) : res (dict pyval * list hc_error) :=
  match pget "expected_statuses" http with
  | PNone => Ok (m, [])
  | s =>
      l ← py_iter s;
      '(rs, es) ← status_ranges l;
      Ok (match rs with [] => m | _ => dset "expected_statuses" (PList rs) m end, es)
  end.

(** The HTTP part of one check. *)
Definition hc_http (http : dict pyval) : res (dict pyval * list hc_error) :=
  path ← dget_exn "path" http;
  '(m, e1) ← hc_add_headers http [("path", path)];
  let '(m, e2) := hc_remove_headers http m in
  let m := match pget "hostname" http with PNone => m | h => dset "host" h m end in
  '(m, e3) ← hc_statuses http m;
  Ok (m, e1 ++ e2 ++ e3).

Definition hc_grpc (grpc : dict pyval) : res (dict pyval) :=
  u ← dget_exn "upstream_name" grpc;
  let m := [("service_name", u)] in
  Ok (match pget "authority" grpc with PNone => m | a => dset "authority" a m end).

(** One health check: the mapper, or [None] when it is skipped. *)
Definition hc_one (hc : pyval) : res (option pyval * list hc_error) :=
  cfg ← vitem "health_check" hc;
  match cfg, hc with
  | PDict cfg, PDict hcd =>
      let mapper := [("timeout", dget_default "timeout" (PStr "3s") hcd);
                     ("interval", dget_default "interval" (PStr "5s") hcd);
                     ("healthy_threshold", dget_default "healthy_threshold" (PInt 1) hcd);
                     ("unhealthy_threshold", dget_default "unhealthy_threshold" (PInt 2) hcd)] in
      r ← match pget "http" cfg with
          | PNone => Ok (inl (mapper, []))
          | PDict http => '(hm, es) ← hc_http http; Ok (inl (dset "http_health_check" (PDict hm) mapper, es))
          | _ => Ok (inr HcHttpNotObject)
          end;
      match r with
      | inr e => Ok (None, [e])
      | inl (mapper, es) =>
          match pget "grpc" cfg with
          | PNone => Ok (Some (PDict mapper), es)
          | PDict grpc => gm ← hc_grpc grpc; Ok (Some (PDict (dset "grpc_health_check" (PDict gm) mapper)), es)
          | _ => Ok (None, es ++ [HcGrpcNotObject])
          end
      end
  | _, _ => Ok (None, [HcNotObject])
  end.

Fixpoint hc_all (l : list pyval) : res (list pyval * list hc_error) :=
  match l with
  | [] => Ok ([], [])
  | hc :: l =>
      '(m, es) ← hc_one hc;
      '(ms, es') ← hc_all l;
      Ok (option_list m ++ ms, es ++ es')
  end.

(** [_generate_mappers] *)
Definition generate_mappers (config : list pyval) : res (option (list pyval) * list hc_error) :=
  '(ms, es) ← hc_all config;
  Ok (match ms with [] => (None, es ++ [HcNoneValid]) | _ => (Some ms, es) end).

(** [config()] after [setup]. *)
Definition health_checks_config (cfg : pyval) : res (option (list pyval) * list hc_error) :=
  if negb (py_bool cfg) then Ok (None, [])
  else l ← py_iter cfg; generate_mappers l.

(** ** Status ranges *)

Lemma status_ranges_spec (rs : list (Z * Z)) :
  status_ranges ((λ r, PDict [("min", PInt r.1); ("max", PInt r.2)]) <$> rs)
  = Ok ((λ r, PDict [("start", PInt r.1); ("end", PInt (r.2 + 1))]) <$> filter (λ r, (r.1 ≤ r.2 + 1)%Z) rs,
        (λ _, HcBadRange) <$> filter (λ r, ¬ (r.1 ≤ r.2 + 1)%Z) rs).
Proof.
  induction rs as [|[lo hi] rs IH]; [done|]. rewrite fmap_cons. cbn -[filter fmap]. rewrite IH.
  cbn [mbind res_bind]. rewrite !filter_cons. simpl. case_bool as Hb.
  - rewrite decide_False, decide_True by lia. done.
  - rewrite decide_True, decide_False by lia. done.
Qed.

(** The inclusive status ranges of a health check become half-open Envoy
    ranges in order, and each rejected range is reported; but the comparison
    comes after the end is incremented, so a range whose start is one above
    its end is kept as an empty range. *)
Theorem expected_statuses_ranges (rs : list (Z * Z)) :
  ∃ kept es,
    status_ranges ((λ r, PDict [("min", PInt r.1); ("max", PInt r.2)]) <$> rs) = Ok (kept, es) ∧
    kept = (λ r, PDict [("start", PInt r.1); ("end", PInt (r.2 + 1))]) <$> filter (λ r, (r.1 ≤ r.2 + 1)%Z) rs ∧
    length kept + length es = length rs ∧
    (∀ n, (n + 1, n)%Z ∈ rs → PDict [("start", PInt (n + 1)); ("end", PInt (n + 1))] ∈ kept).
Proof.
  eexists _, _. split; [apply status_ranges_spec|]. split; [done|]. split.
  - rewrite !length_fmap. induction rs as [|r rs IH]; [done|]. rewrite !filter_cons.
    destruct (decide (r.1 ≤ r.2 + 1)%Z); [rewrite decide_False by lia|rewrite decide_True by lia]; simpl; lia.
  - intros n Hn. apply list_elem_of_fmap. exists (n + 1, n)%Z. split; [done|].
    apply list_elem_of_filter. split; [simpl; lia|done].
Qed.

(** [add_request_headers] given as a list is reported as ignored, but the
    next call raises on it, so the whole configuration fails. *)
Theorem health_check_list_headers_raise path l :
  hc_http [("path", path); ("add_request_headers", PList l)] = Raise (AttributeError "items").
Proof. reflexivity. Qed.
