(* ===== verification/Cluster.v ===== *)
(** * Clusters ([ir/ircluster.py])

    An [IRCluster] is built from a service: TLS origination, host and port,
    the cluster name, and the targets its resolver finds.  [merge] joins the
    endpoints of two clusters.  A TLS context is represented by its name, the
    key it has in the IR. *)

From S2P Require Import Prelude PyStr PyVal Resource IpAddr ServiceName Resolver BaseMapping HTTPMapping HealthChecks.

(** ** Inputs *)

(** A TLS context of the IR: its truth value and, by location, what refers to
    it. *)
Record tls_ctx : Type := mkTLSCtx { tx_bool : bool; tx_refs : dict string }.

(** What a cluster reads of the IR and the configuration. *)
Record cluster_ctx : Type := mkClusterCtx {
  cc_module : dict pyval;
  cc_tls : dict tls_ctx;
  cc_resolvers : dict IRServiceResolver;
  cc_resolve : resolve_ctx;
  cc_enable_endpoints : bool
}.

(** The errors a cluster posts, with the values their texts print. *)
Inductive cluster_error : Type :=
  | NoContext (ctx_name : pyval)
  | ContextWithHTTP (ctx_name : pyval) (service : string)
  | UnknownScheme (service scheme assumed : string)
  | IgnoredScheme (scheme service : string)
  | ExtraURL (service : string)
  | NoHostname (service : string)
  | InvalidPort (service reason : string)
  | UnvalidatedBreaker (service : string) (breaker : pyval)
  | NoEndpointRouting (service : string) (fallback : pyval)
  | InvalidResolver (cluster : string) (resolver : pyval)
  | ResolverError (text : string)
  | HealthCheckError (e : hc_error)
  | CannotMerge (other : string) (mismatches : list string).

(** A keyword argument with its default. *)
Definition kwarg (kwargs : dict pyval) (k : string) (dflt : pyval) : pyval := dget_default k dflt kwargs.

(** [d.get(v)] on a dictionary with string keys *)
Definition get_by {A} (v : pyval) (d : dict A) : res (option A) :=
  match v with
  | PStr s => Ok (dget s d)
  | PList _ | PDict _ => Raise TypeError
  | _ => Ok None
  end.

(** ** TLS origination *)

(** [IRTLSContext.null_context] *)
Definition null_context (tls : dict tls_ctx) : string * dict tls_ctx :=
  ("no-cert-upstream",
   match dget "no-cert-upstream" tls with
   | Some (mkTLSCtx true _) => tls
   | _ => dset "no-cert-upstream" (mkTLSCtx true []) tls
   end).

(** The context the name stands for when it is true, and the IR's contexts. *)
Definition find_context (tls : dict tls_ctx) (ctx_name : pyval)
    : res (option string * dict tls_ctx * list cluster_error) :=
  if negb (py_bool ctx_name) then Ok (None, tls, [])
  else match ctx_name with
       | PBool true => let '(n, tls) := null_context tls in Ok (Some n, tls, [])
       | _ =>
           c ← get_by ctx_name tls;
           match ctx_name, c with
           | PStr n, Some (mkTLSCtx true _) => Ok (Some n, tls, [])
           | _, _ => Ok (None, tls, [NoContext ctx_name])
           end
       end.

(** The scheme branches: the rest of the service, [originate_tls], the name
    fields and the errors. *)
Definition choose_tls (allow_scheme : bool) (service : string) (ctx_name : pyval) (ctx : option string)
    : string * bool * list string * list cluster_error :=
  if allow_scheme && startswith (lower service) "https://" then
    (drop_str (slen "https://") service, true, ["otls"], [])
  else if allow_scheme && startswith (lower service) "http://" then
    let service := drop_str (slen "http://") service in
    match ctx with
    | Some _ => (service, true, ["otls"], [ContextWithHTTP ctx_name service])
    | None => (service, false, [], [])
    end
  else match ctx with
       | Some n => (service, true, ["otls"; n], [])
       | None => (service, false, [], [])
       end.

(** A scheme that is left. *)
Definition drop_scheme (allow_scheme originate_tls : bool) (service : string) : string * list cluster_error :=
  let idx := find service "://" in
  if bool_decide (0 ≤ idx)%Z then
    let scheme := take_str (Z.to_nat idx) service in
    (drop_str (Z.to_nat idx + 3) service,
     [if allow_scheme then UnknownScheme service scheme (if originate_tls then "HTTPS" else "HTTP")
      else IgnoredScheme scheme service])
  else (service, []).

(** ** Host and port *)

Record endpoint : Type := mkEndpoint {
  ep_hostname : string; ep_port : Z; ep_ignore : bool; ep_errors : list cluster_error
}.

Definition parse_endpoint (service : string) (originate_tls : bool) : res endpoint :=
  '(_, netloc, rest) ← urlsplit ("random://" +:+ service);
  let e1 := if has_extra rest then [ExtraURL service] else [] in
  let '(hostname, ign1, e2) :=
    match hostname_opt netloc with
    | Some h => (h, false, [])
    | None => ("unknown", true, [NoHostname service])
    end in
  '(port, ign2, e3) ←
    match url_port netloc with
    | Ok (Some p) => Ok (p, false, [])
    | Ok None => Ok (0%Z, false, [])
    | Raise (ValueError e) => Ok (0%Z, true, [InvalidPort service e])
    | Raise e => Raise e
    end;
  let port := if bool_decide (port = 0)%Z then (if originate_tls then 443 else 80)%Z else port in
  Ok (mkEndpoint hostname port (ign1 || ign2) (e1 ++ e2 ++ e3)).

(** ** Name *)

(** [re.sub(r"[^0-9A-Za-z_]", "_", s)] *)
Definition safe_char (c : ascii) : bool := is_alpha c || is_digit c || bool_decide (c = "_"%char).
Definition safe_name (s : string) : string := map_str (λ c, if safe_char c then c else "_"%char) s.

(** The name fields of the circuit breakers; [unknown] counts those without a
    name. *)
Fixpoint breaker_fields (service : string) (unknown : Z) (breakers : list pyval)
    : res (list pyval * list cluster_error) :=
  match breakers with
  | [] => Ok ([], [])
  | b :: breakers =>
      name ← vget "_name" PNone b;
      if py_bool name then
        '(fs, es) ← breaker_fields service unknown breakers; Ok (name :: fs, es)
      else
        '(fs, es) ← breaker_fields service (unknown + 1) breakers;
        Ok (PStr ("cbu" +:+ str_of_int unknown) :: fs, UnvalidatedBreaker service b :: es)
  end.

Definition endpoints_required (load_balancer : pyval) : res bool :=
  if py_bool load_balancer then
    policy ← vget "policy" PNone load_balancer;
    Ok (in_strs policy ["round_robin"; "least_request"; "ring_hash"; "maglev"])
  else Ok false.

(** The name field of a load balancer that routes to endpoints. *)
Definition lb_key (lb : dict pyval) (policy : string) : res string :=
  hdr ← match dget "header" lb with Some v => Ok [PStr "hdr"; v] | None => Ok [] end;
  cookie ← match dget "cookie" lb with
           | Some v => n ← vitem "name" v; Ok [PStr "cookie"; n]
           | None => Ok []
           end;
  let src := if dmem "source_ip" lb then [PStr "srcip"] else [] in
  fs ← map_res as_str ([PStr "er"; PStr (lower policy)] ++ hdr ++ cookie ++ src);
  Ok (join "-" fs).

Record lb_choice : Type := mkLB {
  lb_balancer : pyval; lb_type : pyval; lb_endpoints : bool; lb_fields : list pyval;
  lb_errors : list cluster_error
}.

(** The load balancer and endpoint routing. *)
Definition choose_lb (ctx : cluster_ctx) (kwargs : dict pyval) (service : string) : res lb_choice :=
  global ← getattr (cc_module ctx) "load_balancer";
  let lb := py_or (kwarg kwargs "load_balancer" PNone) global in
  let lb_type := kwarg kwargs "lb_type" (PStr "round_robin") in
  required ← endpoints_required lb;
  if (required : bool) then
    if negb (cc_enable_endpoints ctx) then
      Ok (mkLB global lb_type false [] [NoEndpointRouting service global])
    else
      lbd ← as_dict lb;
      let p := dget_default "policy" (PStr "default") lbd in
      policy ← as_str p;
      f ← lb_key lbd policy;
      Ok (mkLB lb p true [PStr f] [])
  else Ok (mkLB lb lb_type false [] []).

(** ** The cluster *)

(** [cl_targets] is [None] while the attribute [targets] does not exist, which
    is the case on an ignored cluster. *)
Record IRCluster : Type := mkCluster {
  cl_name : string;
  cl_rkey : string;
  cl_location : string;
  cl_hostname : string;
  cl_namespace : string;
  cl_port : Z;
  cl_resolver : pyval;
  cl_ignore : bool;
  cl_active : bool;
  cl_errored : bool;
  cl_urls : list string;
  cl_targets : option (option (list SvcEndpoint));
  cl_attrs : dict pyval;
  cl_health : option (list pyval);
  cl_refs : dict string
}.

Definition cluster_cache_key (c : IRCluster) : string := "Cluster-" +:+ cl_name c.

(** [IR.resolve_resolver] *)
Definition resolve_resolver (ctx : cluster_ctx) (resolver_name : pyval) : res IRServiceResolver :=
  let name := if py_bool resolver_name then resolver_name
              else dget_default "resolver" (PStr "kubernetes-service") (cc_module ctx) in
  r ← get_by name (cc_resolvers ctx);
  res_of_option (AssertionError EmptyString) r.

(** [IR.resolve_targets] *)
Definition resolve_targets (ctx : cluster_ctx) (cluster : string) (resolver_name : pyval)
    (hostname namespace : string) (port : Z) : res (option (list SvcEndpoint) * list cluster_error) :=
  if is_ip_address hostname then
    Ok (Some [[("ip", PStr hostname); ("port", PInt port); ("target_kind", PStr "IPaddr")]], [])
  else
    r ← resolve_resolver ctx resolver_name;
    if rv_bool r then
      '(ts, es) ← resolve (cc_resolve ctx) r hostname namespace port;
      Ok (ts, List.map ResolverError es)
    else Ok (None, [InvalidResolver cluster resolver_name]).

(** [new_args], without [urls]. *)
Definition new_args (ctx : cluster_ctx) (kwargs : dict pyval) (service : string) (lb : lb_choice)
    (tls_context : option string) : res (dict pyval) :=
  let arg := kwarg kwargs in
  v4 ← match arg "enable_ipv4" PNone with PNone => getattr (cc_module ctx) "enable_ipv4" | v => Ok v end;
  v6 ← match arg "enable_ipv6" PNone with PNone => getattr (cc_module ctx) "enable_ipv6" | v => Ok v end;
  let d :=
    [("type", arg "dns_type" (PStr "strict_dns")); ("lb_type", lb_type lb);
     ("load_balancer", lb_balancer lb); ("keepalive", arg "keepalive" PNone);
     ("circuit_breakers", arg "circuit_breakers" PNone); ("service", PStr service);
     ("enable_ipv4", v4); ("enable_ipv6", v6); ("enable_endpoints", PBool (lb_endpoints lb));
     ("connect_timeout_ms", arg "connect_timeout_ms" (PInt 3000));
     ("cluster_idle_timeout_ms", arg "cluster_idle_timeout_ms" PNone);
     ("cluster_max_connection_lifetime_ms", arg "cluster_max_connection_lifetime_ms" PNone);
     ("respect_dns_ttl", arg "respect_dns_ttl" (PBool false));
     ("health_checks", arg "health_checks" PNone);
     ("stats_name", py_or (arg "stats_name" PNone) (PStr (safe_name service)))] in
  let d := if py_bool (arg "grpc" (PBool false)) then d ++ [("grpc", PBool true)] else d in
  let d := if py_bool (arg "host_rewrite" PNone) then d ++ [("host_rewrite", arg "host_rewrite" PNone)] else d in
  Ok (match tls_context with Some n => d ++ [("tls_context", PStr n)] | None => d end).

(** The name, from the fields in the order they are appended. *)
Definition cluster_name (marker : pyval) (service : string) (otls : list string) (originate_tls : bool)
    (host_rewrite : pyval) (namespace : string) (breakers lb : list pyval) : res string :=
  hr ← (if originate_tls && py_bool host_rewrite
        then h ← py_str host_rewrite; Ok [PStr ("hr-" +:+ h)] else Ok []);
  fs ← map_res as_str
    ([PStr "cluster"] ++ (if py_bool marker then [marker] else []) ++ [PStr service] ++ (PStr <$> otls)
     ++ hr ++ [PStr namespace] ++ breakers ++ lb);
  Ok (safe_name (join "_" fs)).

(** [setup]: the targets and the health checks of a cluster that is not
    ignored. *)
Definition IRCluster_setup (ctx : cluster_ctx) (c : IRCluster) : res (IRCluster * list cluster_error) :=
  if cl_ignore c then Ok (c, [])
  else
    '(targets, es) ← resolve_targets ctx (cl_name c) (cl_resolver c) (cl_hostname c) (cl_namespace c) (cl_port c);
    '(health, hes) ← health_checks_config (pget "health_checks" (cl_attrs c));
    Ok (mkCluster (cl_name c) (cl_rkey c) (cl_location c) (cl_hostname c) (cl_namespace c) (cl_port c)
          (cl_resolver c) false true (cl_errored c) (cl_urls c) (Some targets) (cl_attrs c) health (cl_refs c),
        es ++ List.map HealthCheckError hes).

(** [ctx.referenced_by(self)] for the context found. *)
Definition context_referenced (found : option string) (location name : string) (tls : dict tls_ctx)
    : dict tls_ctx :=
  match found with
  | Some n => match dget n tls with
              | Some x => dset n (mkTLSCtx (tx_bool x) (dset location name (tx_refs x))) tls
              | None => tls
              end
  | None => tls
  end.

(** [IRCluster.__init__]: the cluster, the IR's TLS contexts afterwards and the
    errors posted, those of [setup] first. *)
Definition IRCluster_init (ctx : cluster_ctx) (namespace location service : string) (kwargs : dict pyval)
    : res (IRCluster * dict tls_ctx * list cluster_error) :=
  let arg := kwarg kwargs in
  let ctx_name := arg "ctx_name" PNone in
  let allow_scheme := py_bool (arg "allow_scheme" (PBool true)) in
  '(found, tls, e0) ← find_context (cc_tls ctx) ctx_name;
  let '(service1, originate_tls, otls, e1) := choose_tls allow_scheme service ctx_name found in
  let '(service2, e2) := drop_scheme allow_scheme originate_tls service1 in
  ep ← parse_endpoint service2 originate_tls;
  cbs ← (if py_bool (arg "circuit_breakers" PNone) then py_iter (arg "circuit_breakers" PNone) else Ok []);
  '(breakers, e3) ← breaker_fields service2 0 cbs;
  lb ← choose_lb ctx kwargs service2;
  name ← cluster_name (arg "marker" PNone) service otls originate_tls (arg "host_rewrite" PNone) namespace
           breakers (lb_fields lb);
  let '(tls_context, tls) :=
    if originate_tls then
      match found with Some n => (Some n, tls) | None => let '(n, tls) := null_context tls in (Some n, tls) end
    else (None, tls) in
  attrs ← new_args ctx kwargs service2 lb tls_context;
  rkey ← as_str (arg "rkey" (PStr "-override-"));
  let rkey := if bool_decide (rkey = "-override-") then name else rkey in
  let url := "tcp://" +:+ ep_hostname ep +:+ ":" +:+ str_of_int (ep_port ep) in
  '(c, es) ← IRCluster_setup ctx
    (mkCluster name rkey location (ep_hostname ep) namespace (ep_port ep) (arg "resolver" PNone) (ep_ignore ep)
       false false [url] None attrs None []);
  Ok (c, context_referenced found location name tls,
      es ++ e0 ++ e1 ++ e2 ++ ep_errors ep ++ e3 ++ lb_errors lb).

(** ** Merging *)

Definition merge_keys : list string :=
  ["type"; "lb_type"; "host_rewrite"; "tls_context"; "originate_tls"; "grpc"; "connect_timeout_ms";
   "cluster_idle_timeout_ms"; "cluster_max_connection_lifetime_ms"].

Definition mismatches (self other : IRCluster) : list string :=
  List.filter (λ k, negb (py_eqb (pget k (cl_attrs self)) (pget k (cl_attrs other)))) merge_keys.

(** A cluster with the fields [merge] assigns. *)
Definition cl_update (c : IRCluster) (errored : bool) (urls : list string)
    (targets : option (option (list SvcEndpoint))) (refs : dict string) : IRCluster :=
  mkCluster (cl_name c) (cl_rkey c) (cl_location c) (cl_hostname c) (cl_namespace c) (cl_port c) (cl_resolver c)
    (cl_ignore c) (cl_active c) errored urls targets (cl_attrs c) (cl_health c) refs.

Definition merge (self other : IRCluster) : res (bool * IRCluster * list cluster_error) :=
  match mismatches self other with
  | [] =>
      let ref := dset (cl_location other) (cl_name other) in
      let '(urls, refs) := match cl_urls other with
                           | [] => (cl_urls self, cl_refs self)
                           | us => (cl_urls self ++ us, ref (cl_refs self))
                           end in
      other_targets ← res_of_option (AttributeError "targets") (cl_targets other);
      match other_targets with
      | Some (t :: ts) =>
          self_targets ← res_of_option (AttributeError "targets") (cl_targets self);
          let targets := match self_targets with None => t :: ts | Some l => l ++ t :: ts end in
          Ok (true, cl_update self (cl_errored self) urls (Some (Some targets)) (ref refs), [])
      | _ => Ok (true, cl_update self (cl_errored self) urls (cl_targets self) refs, [])
      end
  | ms => Ok (false, cl_update self true (cl_urls self) (cl_targets self) (cl_refs self),
              [CannotMerge (cl_name other) ms])
  end.

(** [clustermap_entry] *)
Definition cluster_clustermap_entry (ctx : cluster_ctx) (c : IRCluster) : res (dict pyval) :=
  r ← resolve_resolver ctx (cl_resolver c);
  clustermap_entry (cc_resolve ctx) r (cl_hostname c) (cl_namespace c) (cl_port c).

(** ** The IR's clusters ([ir/ir.py]) *)

Definition cluster_bool (c : IRCluster) : bool := IRResource_bool (cl_active c) (cl_errored c).

Definition has_cluster (name : string) (clusters : dict IRCluster) : bool := dmem name clusters.
Definition get_cluster (name : string) (clusters : dict IRCluster) : option IRCluster := dget name clusters.

(** [add_cluster]: the cluster kept under the name, and the clusters. *)
Definition add_cluster (c : IRCluster) (clusters : dict IRCluster) : IRCluster * dict IRCluster :=
  match dget (cl_name c) clusters with
  | None => (c, dset (cl_name c) c clusters)
  | Some extant => (extant, clusters)
  end.

Definition merge_cluster (c : IRCluster) (clusters : dict IRCluster)
    : res (bool * dict IRCluster * list cluster_error) :=
  match get_cluster (cl_name c) clusters with
  | Some extant =>
      if cluster_bool extant then
        '(ok, extant, es) ← merge extant c;
        Ok (ok, dset (cl_name c) extant clusters, es)
      else Ok (true, (add_cluster c clusters).2, [])
  | None => Ok (true, (add_cluster c clusters).2, [])
  end.

Definition add_grpc_service (name : string) (c : IRCluster) (clusters services : dict IRCluster)
    : IRCluster * dict IRCluster * dict IRCluster :=
  match dget name services with
  | Some s => (s, clusters, services)
  | None =>
      let clusters := if has_cluster (cl_name c) clusters then clusters else dset (cl_name c) c clusters in
      (c, clusters, dset name c services)
  end.

(** ** Correctness *)

Lemma safe_name_safe s : all_chars safe_char (safe_name s) = true.
Proof.
  induction s as [|a s IH]; [done|]. cbn [safe_name map_str all_chars].
  fold (safe_name s). rewrite IH. destruct (safe_char a) eqn:E; [by rewrite E|done].
Qed.

Lemma url_port_range netloc p : url_port netloc = Ok (Some p) → (0 ≤ p ≤ 65535)%Z.
Proof.
  unfold url_port. destruct (negb _); [done|]. destruct (all_chars _ _); [|done].
  destruct (digits_val _ _ _) as [n|]; [|done]. case_bool as Hn; [|done]. by intros [= <-].
Qed.

Lemma parse_endpoint_port service b ep : parse_endpoint service b = Ok ep → (1 ≤ ep_port ep ≤ 65535)%Z.
Proof.
  unfold parse_endpoint. intros H. bind_step H as x Hx. destruct x as [[? netloc] rest].
  destruct (hostname_opt netloc) as [h|]; bind_step H as y Hy; destruct y as [[p i] e]; injection H as <-; simpl;
    (destruct (url_port netloc) as [[q|]|[]] eqn:E; try done; injection Hy as <- <- <-;
     [apply url_port_range in E; case_bool; [destruct b|]; lia|destruct b; simpl; lia..]).
Qed.

Lemma parse_endpoint_plain host port b :
  host_ok host → port_ok port →
  parse_endpoint (host +:+ port_suffix port) b
  = Ok (mkEndpoint host (default (if b then 443 else 80)%Z port) false []).
Proof.
  intros Hh Hp. unfold parse_endpoint, hostname_opt.
  rewrite urlsplit_random by by apply netloc_all. cbn [mbind res_bind].
  rewrite url_hostname_plain, url_port_plain by done. rewrite (proj1 Hh).
  destruct port as [p|]; [|done]. cbn [mbind res_bind]. simpl in Hp. by rewrite bool_decide_false by lia.
Qed.

Lemma cluster_name_safe m s o b hr ns bs lb n :
  cluster_name m s o b hr ns bs lb = Ok n → all_chars safe_char n = true.
Proof.
  unfold cluster_name. intros H. bind_step H as h Hh. bind_step H as fs Hfs. injection H as <-.
  apply safe_name_safe.
Qed.

Lemma new_args_tls ctx kw s lb t d : new_args ctx kw s lb t = Ok d → dget "tls_context" d = PStr <$> t.
Proof.
  unfold new_args. intros H. bind_step H as v4 H4. bind_step H as v6 H6. injection H as <-.
  destruct (py_bool (kwarg kw "grpc" _)), (py_bool (kwarg kw "host_rewrite" _)), t; reflexivity.
Qed.

(** What [setup] leaves as it is, and what it decides. *)
Lemma setup_shape ctx c c' es :
  IRCluster_setup ctx c = Ok (c', es) →
  cl_active c = false → cl_targets c = None →
  cl_name c' = cl_name c ∧ cl_port c' = cl_port c ∧ cl_hostname c' = cl_hostname c ∧ cl_urls c' = cl_urls c
  ∧ cl_attrs c' = cl_attrs c ∧ cl_ignore c' = cl_ignore c ∧ cl_active c' = negb (cl_ignore c)
  ∧ (cl_targets c' = None ↔ cl_ignore c = true).
Proof.
  unfold IRCluster_setup. destruct (cl_ignore c) eqn:Hi; intros H Ha Ht.
  - injection H as <- <-. naive_solver.
  - bind_step H as x Hx. destruct x as [ts e]. bind_step H as y Hy. destruct y as [hc he].
    injection H as <- <-. simpl. naive_solver.
Qed.

Lemma choose_tls_originate allow s n f :
  (choose_tls allow s n f).1.1.2
  = allow && startswith (lower s) "https://" || match f with Some _ => true | None => false end.
Proof.
  unfold choose_tls. destruct (allow && startswith (lower s) "https://"); [done|].
  by destruct (allow && startswith (lower s) "http://"), f.
Qed.


Definition demo_cluster_ctx : cluster_ctx :=
  mkClusterCtx [("load_balancer", PNone); ("enable_ipv4", PBool true); ("enable_ipv6", PBool false)]
    [("up", mkTLSCtx true []); ("alt", mkTLSCtx true [])]
    [("kubernetes-service", (IRServiceResolver_setup "kubernetes-service" "KubernetesServiceResolver" PNone "default").1)]
    (mkResolveCtx [] false "default") true.


(** The name of a cluster whose service says [https], and its TLS context. *)
Lemma https_cluster_name ctx ns loc service kw c tls es :
  IRCluster_init ctx ns loc service kw = Ok (c, tls, es) →
  py_bool (kwarg kw "allow_scheme" (PBool true)) && startswith (lower service) "https://" = true →
  let s2 := (drop_scheme (py_bool (kwarg kw "allow_scheme" (PBool true))) true (drop_str (slen "https://") service)).1 in
  (cbs ← (if py_bool (kwarg kw "circuit_breakers" PNone) then py_iter (kwarg kw "circuit_breakers" PNone) else Ok []);
   '(bs, _) ← breaker_fields s2 0 cbs;
   lb ← choose_lb ctx kw s2;
   cluster_name (kwarg kw "marker" PNone) service ["otls"] true (kwarg kw "host_rewrite" PNone) ns bs (lb_fields lb))
  = Ok (cl_name c)
  ∧ ∃ found tls0 es0, find_context (cc_tls ctx) (kwarg kw "ctx_name" PNone) = Ok (found, tls0, es0)
      ∧ pget "tls_context" (cl_attrs c) = PStr (default "no-cert-upstream" found).
Proof.
  unfold IRCluster_init, choose_tls. intros H Hs. rewrite Hs in H. cbv zeta.
  bind_step H as x Hx. destruct x as [[found tls0] es0].
  destruct (drop_scheme _ _ _) as [s2 e2]. cbn [fst].
  bind_step H as ep Hep. bind_step H as cbs Hcbs. bind_step H as bs Hbs. destruct bs as [bs e3].
  bind_step H as lb Hlb. bind_step H as name Hname.
  destruct (match found with Some _ => _ | None => _ end) as [tc tls1] eqn:Htc.
  bind_step H as attrs Hattrs. bind_step H as rkey Hrkey. bind_step H as r Hr. destruct r as [c0 es1].
  injection H as -> <- <-. apply setup_shape in Hr; [|done..]. cbn in Hr.
  destruct Hr as (Hn & _ & _ & _ & Ha & _). rewrite Hn, Ha. split.
  - rewrite Hcbs. cbn [mbind res_bind]. rewrite Hbs. cbn [mbind res_bind]. rewrite Hlb. exact Hname.
  - exists found, tls0, es0. split; [done|]. unfold pget, dget_default.
    apply new_args_tls in Hattrs as ->. destruct found; injection Htc as <- _; done.
Qed.

(** Two [https] clusters that differ only in their TLS context get the same
    name, so the IR keeps the one added first and the second service is reached
    with the first one's context. *)
Theorem https_name_ignores_context ctx ns loc1 loc2 service kw n1 n2 c1 c2 t1 t2 e1 e2 :
  py_bool (kwarg kw "allow_scheme" (PBool true)) = true → startswith (lower service) "https://" = true →
  find_context (cc_tls ctx) (PStr n1) = Ok (Some n1, cc_tls ctx, []) →
  find_context (cc_tls ctx) (PStr n2) = Ok (Some n2, cc_tls ctx, []) →
  IRCluster_init ctx ns loc1 service (("ctx_name", PStr n1) :: kw) = Ok (c1, t1, e1) →
  IRCluster_init ctx ns loc2 service (("ctx_name", PStr n2) :: kw) = Ok (c2, t2, e2) →
  ∀ clusters, dget (cl_name c1) clusters = None →
    let clusters1 := (add_cluster c1 clusters).2 in
    let '(kept, clusters2) := add_cluster c2 clusters1 in
    kept = c1 ∧ clusters2 = clusters1
    ∧ pget "tls_context" (cl_attrs kept) = PStr n1 ∧ pget "tls_context" (cl_attrs c2) = PStr n2.
Proof.
  intros Ha Hs Hf1 Hf2 H1 H2 clusters Hc.
  assert (Has : py_bool (kwarg kw "allow_scheme" (PBool true)) && startswith (lower service) "https://" = true)
    by by rewrite Ha, Hs.
  apply https_cluster_name in H1 as [Hn1 (f1 & x & x0 & Hg1 & Ht1)]; [|exact Has].
  apply https_cluster_name in H2 as [Hn2 (f2 & x1 & x2 & Hg2 & Ht2)]; [|exact Has].
  assert (Hn : Ok (cl_name c1) = Ok (cl_name c2)) by (rewrite <- Hn1, <- Hn2; reflexivity).
  injection Hn as Hn.
  change (find_context (cc_tls ctx) (PStr n1) = Ok (f1, x, x0)) in Hg1. rewrite Hf1 in Hg1.
  change (find_context (cc_tls ctx) (PStr n2) = Ok (f2, x1, x2)) in Hg2. rewrite Hf2 in Hg2.
  injection Hg1 as <- <- <-. injection Hg2 as <- <- <-.
  unfold add_cluster. rewrite Hc. cbn [snd]. rewrite <- Hn, dget_dset_eq. done.
Qed.

Lemma https_name_ignores_context_witness :
  ∃ c1 t1 e1 c2 t2 e2,
    IRCluster_init demo_cluster_ctx "default" "a.yaml" "https://quote" [("ctx_name", PStr "up")] = Ok (c1, t1, e1)
    ∧ IRCluster_init demo_cluster_ctx "default" "b.yaml" "https://quote" [("ctx_name", PStr "alt")] = Ok (c2, t2, e2)
    ∧ pget "tls_context" (cl_attrs c1) = PStr "up" ∧ pget "tls_context" (cl_attrs c2) = PStr "alt"
    ∧ (add_cluster c2 (add_cluster c1 []).2).1 = c1.
Proof.
  destruct (IRCluster_init demo_cluster_ctx "default" "a.yaml" "https://quote" [("ctx_name", PStr "up")])
    as [[[c1 t1] e1]|] eqn:E1; [|by vm_compute in E1].
  destruct (IRCluster_init demo_cluster_ctx "default" "b.yaml" "https://quote" [("ctx_name", PStr "alt")])
    as [[[c2 t2] e2]|] eqn:E2; [|by vm_compute in E2].
  exists c1, t1, e1, c2, t2, e2.
  pose proof (https_name_ignores_context demo_cluster_ctx "default" "a.yaml" "b.yaml" "https://quote" [] "up" "alt"
    c1 c2 t1 t2 e1 e2 eq_refl eq_refl eq_refl eq_refl E1 E2 [] eq_refl) as H.
  cbv zeta in H. destruct (add_cluster c2 _) as [kept cs]. destruct H as (-> & _ & H1 & H2). clear E1 E2. done.
Defined.

(** [merge] succeeds exactly when the compared attributes agree; it then
    appends the other cluster's URLs and targets and changes neither the name
    nor the attributes, so a third cluster can be merged exactly when it could
    before; when it fails, the endpoints are untouched and the cluster is
    marked as errored. *)
Theorem merge_spec self other ts1 ts2 :
  cl_targets self = Some ts1 → cl_targets other = Some ts2 →
  ∃ ok c es, merge self other = Ok (ok, c, es)
    ∧ (ok = true ↔ ∀ k, k ∈ merge_keys → py_eqb (pget k (cl_attrs self)) (pget k (cl_attrs other)) = true)
    ∧ cl_name c = cl_name self ∧ (∀ third, mismatches c third = mismatches self third)
    ∧ (ok = true → cl_urls c = cl_urls self ++ cl_urls other
         ∧ default [] (default None (cl_targets c)) = default [] ts1 ++ default [] ts2
         ∧ cl_errored c = cl_errored self ∧ es = [])
    ∧ (ok = false → cl_urls c = cl_urls self ∧ cl_targets c = cl_targets self ∧ cluster_bool c = false
         ∧ es = [CannotMerge (cl_name other) (mismatches self other)]).
Proof.
  intros H1 H2.
  assert (Hm : mismatches self other = []
    ↔ ∀ k, k ∈ merge_keys → py_eqb (pget k (cl_attrs self)) (pget k (cl_attrs other)) = true).
  { unfold mismatches. induction merge_keys as [|k ks IH]; [set_solver|]. cbn [List.filter].
    destruct (py_eqb _ _) eqn:E; simpl.
    - rewrite IH. split; [intros H k' [->|Hk]%elem_of_cons; auto|intros H k' Hk; apply H; by right].
    - split; [done|]. intros H. rewrite H in E by by left. done. }
  unfold merge. rewrite H1, H2. destruct (mismatches self other) as [|m ms] eqn:Em.
  - destruct ts2 as [[|t ts]|], ts1 as [l|], (cl_urls other) as [|u us]; eexists true, _, []; split; try done;
      (split; [by rewrite <- Hm|]); simpl; rewrite ?app_nil_r; repeat split; done.
  - eexists false, _, _. split; [done|]. split; [rewrite <- Hm; done|]. split; [done|]. split; [done|]. split; [done|].
    intros _. split; [done|]. split; [done|]. split; [|done]. unfold cluster_bool, IRResource_bool. simpl. by rewrite andb_false_r.
Qed.

Definition demo_cluster (url : string) (attrs : dict pyval) : IRCluster :=
  mkCluster "c" "c" url "quote" "default" 80 PNone false true false [url] (Some (Some [[("ip", PStr url)]])) attrs None [].

Lemma merge_spec_witness :
  ∃ ok c es, merge (demo_cluster "u1" [("type", PStr "strict_dns")]) (demo_cluster "u2" [("type", PStr "strict_dns")])
             = Ok (ok, c, es)
    ∧ ok = true ∧ cl_urls c = ["u1"; "u2"].
Proof.
  destruct (merge_spec (demo_cluster "u1" [("type", PStr "strict_dns")]) (demo_cluster "u2" [("type", PStr "strict_dns")])
    (Some [[("ip", PStr "u1")]]) (Some [[("ip", PStr "u2")]]) eq_refl eq_refl) as (ok & c & es & Hm & Hk & _ & _ & Ht & _).
  assert (Ho : ok = true) by (vm_compute in Hm; by injection Hm).
  exists ok, c, es. split; [done|]. split; [done|]. by apply Ht.
Defined.

Lemma choose_lb_default ctx s :
  getattr (cc_module ctx) "load_balancer" = Ok PNone →
  choose_lb ctx [] s = Ok (mkLB PNone (PStr "round_robin") false [] []).
Proof. intros H. unfold choose_lb. by rewrite H. Qed.

Lemma new_args_default ctx s lb t v4 v6 :
  getattr (cc_module ctx) "enable_ipv4" = Ok v4 → getattr (cc_module ctx) "enable_ipv6" = Ok v6 →
  ∃ d, new_args ctx [] s lb t = Ok d ∧ pget "health_checks" d = PNone.
Proof. intros H4 H6. unfold new_args. cbv zeta. cbn. rewrite H4, H6. destruct t; eexists; done. Qed.

Lemma resolve_targets_service ctx cluster r host ns port :
  resolve_resolver ctx PNone = Ok r → rv_bool r = true → rv_kind r = "KubernetesServiceResolver" →
  resolve_targets ctx cluster PNone host ns port
  = Ok (Some [[("ip", PStr host); ("port", PInt port);
               ("target_kind", PStr (if is_ip_address host then "IPaddr" else "DNSname"))]], []).
Proof.
  intros Hr Hb Hk. unfold resolve_targets. destruct (is_ip_address host); [done|].
  rewrite Hr. cbn [mbind res_bind]. rewrite Hb. unfold resolve. by rewrite Hk.
Qed.

Lemma choose_tls_plain scheme host port :
  scheme ∈ [EmptyString; "http"; "https"] → host_ok host → port_ok port →
  ∃ nf, choose_tls true (service_str scheme host port) PNone None
        = (host +:+ port_suffix port, bool_decide (scheme = "https"), nf, [])
    ∧ ∀ b, drop_scheme true b (host +:+ port_suffix port) = (host +:+ port_suffix port, []).
Proof.
  intros Hs Hh Hp. destruct (service_str_scheme _ _ _ Hs Hh Hp) as (Hs1 & Hs2 & Hd).
  assert (Hds : ∀ b, drop_scheme true b (host +:+ port_suffix port) = (host +:+ port_suffix port, [])).
  { intros b. unfold drop_scheme. rewrite find_absent; [done|]. eapply all_chars_mem; [by apply netloc_all|done]. }
  unfold choose_tls. rewrite Hs1, Hs2. rewrite !elem_of_cons in Hs.
  destruct Hs as [->|[->|[->|Hs]]]; [| | |by apply not_elem_of_nil in Hs]; cbn in Hd |- *; rewrite ?Hd; eauto.
Qed.

Lemma cluster_name_plain service nf b ns : ∃ n, cluster_name PNone service nf b PNone ns [] [] = Ok n.
Proof.
  unfold cluster_name. rewrite andb_false_r. cbn [mbind res_bind py_bool app].
  assert (Hm : ∀ l, map_res as_str (PStr <$> l) = Ok l) by (induction l as [|a l IH]; [done|]; cbn; by rewrite IH).
  rewrite <- (fmap_cons PStr _ []), <- fmap_app, <- !(fmap_cons PStr), Hm. cbn. eauto.
Qed.

(** A cluster for an ordinary HTTP, HTTPS or scheme-less service is always
    constructed, without errors when nothing else is asked for: it has the
    service's host, the given port or 443 for HTTPS and 80 otherwise, TLS
    exactly for HTTPS, and the target its resolver gives. *)
Theorem cluster_plain_service ctx namespace location scheme host port r v4 v6 :
  scheme ∈ [EmptyString; "http"; "https"] → host_ok host → port_ok port →
  getattr (cc_module ctx) "load_balancer" = Ok PNone →
  getattr (cc_module ctx) "enable_ipv4" = Ok v4 → getattr (cc_module ctx) "enable_ipv6" = Ok v6 →
  resolve_resolver ctx PNone = Ok r → rv_bool r = true → rv_kind r = "KubernetesServiceResolver" →
  ∃ c tls, IRCluster_init ctx namespace location (service_str scheme host port) [] = Ok (c, tls, [])
    ∧ cl_hostname c = host
    ∧ cl_port c = default (if bool_decide (scheme = "https") then 443 else 80)%Z port
    ∧ dmem "tls_context" (cl_attrs c) = bool_decide (scheme = "https")
    ∧ cluster_bool c = true
    ∧ cl_targets c = Some (Some [[("ip", PStr host); ("port", PInt (cl_port c));
        ("target_kind", PStr (if is_ip_address host then "IPaddr" else "DNSname"))]])
    ∧ cl_resolver c = PNone ∧ cl_ignore c = false ∧ cl_health c = None
    ∧ new_args ctx [] (host +:+ port_suffix port) (mkLB PNone (PStr "round_robin") false [] [])
        (if bool_decide (scheme = "https") then Some "no-cert-upstream" else None) = Ok (cl_attrs c).
Proof.
  intros Hs Hh Hp Hlb H4 H6 Hr Hrb Hrk.
  destruct (choose_tls_plain scheme host port) as (nf & Hc & Hds); [done..|].
  destruct (cluster_name_plain (service_str scheme host port) nf (bool_decide (scheme = "https")) namespace) as [n Hn].
  set (tc := if bool_decide (scheme = "https") then Some "no-cert-upstream" else None).
  destruct (new_args_default ctx (host +:+ port_suffix port) (mkLB PNone (PStr "round_robin") false [] []) tc v4 v6)
    as (d & Hargs & Hhc); [done..|].
  pose proof (new_args_tls _ _ _ _ _ _ Hargs) as Htls.
  unfold IRCluster_init. change (py_bool (kwarg [] "allow_scheme" (PBool true))) with true.
  change (kwarg [] "ctx_name" PNone) with PNone. cbn [find_context py_bool negb mbind res_bind].
  rewrite Hc, Hds, parse_endpoint_plain by done.
  change (py_bool (kwarg [] "circuit_breakers" PNone)) with false. cbn [mbind res_bind breaker_fields].
  rewrite choose_lb_default by done. cbn [mbind res_bind lb_fields].
  change (kwarg [] "marker" PNone) with PNone. change (kwarg [] "host_rewrite" PNone) with PNone.
  rewrite Hn. cbn [mbind res_bind].
  set (b := bool_decide (scheme = "https")) in *. clearbody b.
  assert (Htc : ∃ tls1, (if b then let '(n, tls) := null_context (cc_tls ctx) in (Some n, tls) else (None, cc_tls ctx))
    = (tc, tls1)) by (subst tc; destruct b; eauto).
  destruct Htc as [tls1 ->]. rewrite Hargs. cbn [mbind res_bind]. change (as_str (kwarg [] "rkey" (PStr "-override-"))) with (Ok "-override-").
  cbn [mbind res_bind ep_ignore ep_hostname ep_port].
  unfold IRCluster_setup. cbn [cl_ignore cl_name cl_resolver cl_hostname cl_namespace cl_port cl_attrs].
  change (kwarg [] "resolver" PNone) with PNone. rewrite (resolve_targets_service _ _ r) by done.
  cbn [mbind res_bind]. rewrite Hhc. cbn. eexists _, _. split; [done|]. simpl.
  split; [done|]. split; [done|]. split; [|done]. unfold dmem. rewrite Htls. subst tc. by destruct b.
Qed.

Lemma cluster_plain_service_witness :
  ∃ c tls, IRCluster_init demo_cluster_ctx "default" "quote.yaml" "https://quote" [] = Ok (c, tls, [])
    ∧ cl_hostname c = "quote" ∧ cl_port c = 443%Z.
Proof.
  destruct (cluster_plain_service demo_cluster_ctx "default" "quote.yaml" "https" "quote" None
    (IRServiceResolver_setup "kubernetes-service" "KubernetesServiceResolver" PNone "default").1 (PBool true) (PBool false))
    as (c & tls & H & Hh & Hp & _); try done.
  - apply list_elem_of_In; simpl; tauto.
  - exists c, tls. done.
Defined.
