(* ===== verification/TCPMapping.v ===== *)
(** * TCP Mappings ([ir/irtcpmapping.py])

    Construction and setup of a TCPMapping, the identifier of its group and
    the name of the binding it wants. *)

From S2P Require Import Prelude PyStr PyVal Resource ServiceName Resolver BaseMapping Sha1 HTTPMapping.

Definition tcp_allowed_keys : list string :=
  ["address"; "circuit_breakers"; "enable_ipv4"; "enable_ipv6"; "host"; "idle_timeout_ms"; "metadata_labels";
   "port"; "service"; "tls"; "weight"; "resolver"; "serialization"].

(** [str(self.port)] *)
Definition port_text (self : dict pyval) : res string := p ← getattr self "port"; py_str p.

(** [self.get(k) or dflt], used as a string *)
Definition str_or (self : dict pyval) (k dflt : string) : res string :=
  match py_or (pget k self) (PStr dflt) with PStr s => Ok s | _ => Raise (AttributeError "encode") end.

(** The text [_group_id] hashes. *)
Definition tcp_group_text (self : dict pyval) : res string :=
  address ← str_or self "address" "*";
  port ← port_text self;
  host ← str_or self "host" "*";
  Ok ("TCP-" +:+ address +:+ port +:+ host).

Definition tcp_group_id (self : dict pyval) : res string :=
  t ← tcp_group_text self; Ok (sha1_hex (encode_utf8 t)).

Definition tcp_route_weight : pyval := PList [PInt 0].

Definition bind_to (self : dict pyval) : res string :=
  addr ← py_str (py_or (pget "address" self) (PStr "0.0.0.0"));
  port ← port_text self;
  Ok ("tcp-" +:+ addr +:+ "-" +:+ port).

(** [IRTCPMapping.__init__], with [IRBaseMapping.setup]: the Mapping's
    attributes and the errors and notices posted. *)
Definition IRTCPMapping_init (ctx : ir_ctx) (a : http_args) (kwargs : dict pyval)
    : res (dict pyval * list string * list string) :=
  let new_args := List.filter (λ kv : string * pyval, bool_decide (kv.1 ∈ tcp_allowed_keys)) kwargs in
  kind ← resolver_kind_for ctx kwargs;
  '(service, serr) ← normalized_service ctx (ha_service a) (ha_namespace a) kind (ha_rkey a);
  let ns := if py_bool (ha_namespace a) then ha_namespace a else PStr (ambassador_namespace ctx) in
  let self := dupdate
    [("cached_status", PNone); ("status_update", PNone); ("cluster_key", PNone); ("_weight", PInt 0);
     ("namespace", ns); ("rkey", PStr (ha_rkey a)); ("location", PStr (ha_location a));
     ("kind", PStr (ha_kind a)); ("serialization", PNone); ("_referenced_by", PDict []);
     ("name", PStr (ha_name a)); ("metadata_labels", ha_metadata_labels a);
     ("apiVersion", PStr (ha_apiVersion a)); ("precedence", PInt (ha_precedence a));
     ("cluster_tag", ha_cluster_tag a); ("service", PStr service); ("_errored", PBool false);
     ("_active", PBool false); ("_cache_key", PNone)] new_args in
  gid ← tcp_group_id self;
  '(active, s) ← IRBaseMapping_setup ctx gid tcp_route_weight (mkSetup self serr []);
  Ok (su_self (su_set "_active" (PBool active) s), su_errors s, su_notices s).
