(* ===== verification/Group.v ===== *)
(** * Mapping groups ([ir/irhttpmappinggroup.py], [ir/irtcpmappinggroup.py])

    A group collects the Mappings of one group identifier.  Mappings, groups
    and clusters are shared objects: the IR, the groups and the cache refer to
    the same Mapping, and [finalize] writes to it.  They live in a store and
    are referred to by location. *)

From S2P Require Import Prelude PyStr PyVal Resource Cache ServiceName Resolver BaseMapping HTTPMapping HealthChecks Cluster.

(** ** Route weights *)

(** Python's order on the lists [_route_weight] builds.  A position holds
    integers or strings in every weight; across the two the order is
    arbitrary. *)
Notation weight := (list (Z + string)) (only parsing).

Definition item_le (x y : Z + string) : bool :=
  match x, y with
  | inl a, inl b => bool_decide (a ≤ b)%Z
  | inr a, inr b => str_le a b
  | inl _, inr _ => true
  | inr _, inl _ => false
  end.

Fixpoint weight_le (v w : list (Z + string)) : bool :=
  match v, w with
  | [], _ => true
  | _ :: _, [] => false
  | x :: v, y :: w => if bool_decide (x = y) then weight_le v w else item_le x y
  end.

Definition weight_item (v : pyval) : res (Z + string) :=
  match v with
  | PInt n => Ok (inl n)
  | PBool b => Ok (inl (Z.b2z b))
  | PStr s => Ok (inr s)
  | _ => Raise TypeError
  end.

Definition as_weight (v : pyval) : res (list (Z + string)) := l ← as_list v; map_res weight_item l.

Lemma item_le_total x y : item_le x y = true ∨ item_le y x = true.
Proof.
  destruct x as [a|a], y as [b|b]; cbn; auto.
  - rewrite !bool_decide_eq_true. lia.
  - apply String.leb_total.
Qed.

Lemma item_le_antisym x y : item_le x y = true → item_le y x = true → x = y.
Proof.
  destruct x as [a|a], y as [b|b]; cbn; try done.
  - rewrite !bool_decide_eq_true. intros. f_equal. lia.
  - intros. f_equal. by apply String.leb_antisym.
Qed.

Lemma item_le_trans x y z : item_le x y = true → item_le y z = true → item_le x z = true.
Proof.
  destruct x as [a|a], y as [b|b], z as [c|c]; cbn; try done.
  - rewrite !bool_decide_eq_true. lia.
  - unfold str_le. intros H1 H2. apply Is_true_true. eapply (transitivity (R := String.le) (y := b)); by apply Is_true_true.
Qed.

Lemma weight_le_total v w : weight_le v w = true ∨ weight_le w v = true.
Proof.
  revert w. induction v as [|x v IH]; intros [|y w]; cbn; auto.
  case_bool as E.
  - subst. rewrite bool_decide_true by done. apply IH.
  - rewrite bool_decide_false by done. apply item_le_total.
Qed.

Lemma weight_le_trans u v w : weight_le u v = true → weight_le v w = true → weight_le u w = true.
Proof.
  revert v w. induction u as [|x u IH]; intros [|y v] [|z w]; cbn; try done.
  destruct (decide (x = y)) as [->|Hxy]; [rewrite (bool_decide_true (y = y)) by done|rewrite (bool_decide_false (x = y)) by done];
    (destruct (decide (y = z)) as [->|Hyz]; [rewrite (bool_decide_true (z = z)) by done|rewrite (bool_decide_false (y = z)) by done]).
  - apply IH.
  - by intros.
  - by rewrite bool_decide_false.
  - intros H1 H2. case_bool as E; [subst|by eapply item_le_trans]. exfalso. by apply Hxy, item_le_antisym.
Qed.

(** ** Objects *)

Inductive group_class : Type := HTTPGroup | TCPGroup.
#[export] Instance group_class_eq_dec : EqDecision group_class.
Proof. solve_decision. Defined.

(** A Mapping: its attributes, and the cluster assigned to it. *)
Record mapping_obj : Type := mkMO {
  mo_class : group_class;
  mo_self : dict pyval;
  mo_cluster : option nat
}.

(** A group.  Its [labels] are the very dictionary of the Mapping
    [go_labels_of] while it has one. *)
Record group_obj : Type := mkGO {
  go_class : group_class;
  go_self : dict pyval;
  go_mappings : list nat;
  go_shadows : list nat;
  go_redirect : option nat;
  go_labels_of : option nat;
  go_refs : dict nat
}.

(** What the cache holds: a location with the immutable cache key of the
    object there. *)
Inductive ref : Type :=
  | RMapping (i : nat) (key : string)
  | RGroup (i : nat) (key : string)
  | RCluster (i : nat) (key : string)
  | RRoute (i : nat) (key : string)
  | RV3Cluster (i : nat) (key : string).
Definition ref_key (r : ref) : string :=
  match r with RMapping _ k | RGroup _ k | RCluster _ k | RRoute _ k | RV3Cluster _ k => k end.
#[export] Instance ref_cacheable : Cacheable ref := λ r, IRResource_cache_key (Some (ref_key r)).

Inductive group_error : Type :=
  | Mismatched (mapping : pyval) (ms : list (string * pyval * pyval))
  | ShadowAndRedirect
  | SecondShadow (mapping first : pyval)
  | SecondRedirect (mapping first : pyval)
  | RedirectAfterMappings (mapping first : pyval)
  | MappingAfterRedirect (mapping first : pyval)
  | LabelEntries (keys : list string)
  | InvalidWeights (text : string)
  | NotNormalized
  | ClusterError (e : cluster_error).

(** [bool(mapping)] *)
Definition mo_bool (m : mapping_obj) : bool :=
  IRResource_bool (py_bool (pget "_active" (mo_self m))) (py_bool (pget "_errored" (mo_self m))).

(** The object at a location: a location that is not there does not occur. *)
Definition deref {A} (l : list A) (i : nat) : res A := res_of_option (PyException "no such object") (l !! i).

Definition name_at (ms : list mapping_obj) (i : nat) : res pyval := m ← deref ms i; getattr (mo_self m) "name".

(** ** Construction *)

Definition http_core_keys : list string :=
  ["bypass_auth"; "circuit_breakers"; "cluster_timeout_ms"; "connect_timeout_ms"; "cluster_idle_timeout_ms";
   "cluster_max_connection_lifetime_ms"; "group_id"; "headers"; "keepalive"; "labels"; "load_balancer"; "method";
   "prefix"; "prefix_regex"; "prefix_exact"].
Definition tcp_core_keys : list string :=
  ["address"; "circuit_breakers"; "enable_ipv4"; "enable_ipv6"; "group_id"; "host"; "idle_timeout_ms"; "labels";
   "port"; "tls"].
Definition core_keys (c : group_class) : list string :=
  match c with HTTPGroup => http_core_keys | TCPGroup => tcp_core_keys end.

Definition do_not_flatten_keys (c : group_class) : list string :=
  core_keys c ++
  match c with
  | HTTPGroup => ["add_request_headers"; "add_response_headers"; "cluster"; "cluster_key"; "kind"; "location";
                  "name"; "resolver"; "rkey"; "route_weight"; "service"; "stats_name"; "weight"]
  | TCPGroup => ["cluster"; "cluster_key"; "kind"; "location"; "name"; "rkey"; "route_weight"; "service"; "weight"]
  end.

Definition go_set (k : string) (v : pyval) (g : group_obj) : group_obj :=
  mkGO (go_class g) (dset k v (go_self g)) (go_mappings g) (go_shadows g) (go_redirect g) (go_labels_of g) (go_refs g).

(** The core attributes that differ between a Mapping and the group. *)
Definition group_mismatches (g : group_obj) (m : dict pyval) : list (string * pyval * pyval) :=
  omap (λ k, match dget k m with
             | Some v =>
                 match dget k (go_self g) with
                 | Some w => if py_eqb v w then None else Some (k, v, w)
                 | None => Some (k, v, PStr "-unset-")
                 end
             | None => None
             end) (core_keys (go_class g)).

(** Lifting the core attributes of the first Mapping, at location [i]. *)
Definition lift_core (i : nat) (m : dict pyval) (g : group_obj) : group_obj :=
  foldl (λ g k,
    if dmem k (go_self g) then g
    else match dget k m with
         | Some v =>
             let g := go_set k v g in
             if bool_decide (k = "labels")
             then mkGO (go_class g) (go_self g) (go_mappings g) (go_shadows g) (go_redirect g) (Some i) (go_refs g)
             else g
         | None => g
         end) g (core_keys (go_class g)).

(** ** Adding a Mapping *)

(** [self.post_error] marks the group. *)
Definition go_post (g : group_obj) : group_obj := go_set "_errored" (PBool true) g.

Definition go_members (g : group_obj) (mappings shadows : list nat) (redirect : option nat) : group_obj :=
  mkGO (go_class g) (go_self g) mappings shadows redirect (go_labels_of g) (go_refs g).

(** [self.referenced_by(mapping)] *)
Definition go_referenced (g : group_obj) (m : dict pyval) (i : nat) : res group_obj :=
  l ← getattr m "location"; l ← as_str l;
  Ok (mkGO (go_class g) (go_self g) (go_mappings g) (go_shadows g) (go_redirect g) (go_labels_of g)
        (dset l i (go_refs g))).

(** The redirect of the group, when it is true. *)
Definition live_redirect (ms : list mapping_obj) (g : group_obj) : res (option nat) :=
  match go_redirect g with
  | None => Ok None
  | Some j => r ← deref ms j; Ok (if mo_bool r then Some j else None)
  end.

(** [if mapping.route_weight > self.group_weight: ...] *)
Definition raise_weight (g : group_obj) (m : dict pyval) : res group_obj :=
  rw ← getattr m "route_weight"; w ← as_weight rw;
  gw ← getattr (go_self g) "group_weight"; v ← as_weight gw;
  if weight_le w v then Ok g
  else match go_class g with
       | HTTPGroup => Ok (go_set "group_weight" rw g)
       | TCPGroup => gw ← getattr m "group_weight"; Ok (go_set "group_weight" gw g)
       end.

(** Where a Mapping without mismatches goes in an HTTP group. *)
Definition http_place (ms : list mapping_obj) (g : group_obj) (i : nat) (m : dict pyval)
    : res (group_obj * list group_error) :=
  name ← getattr m "name";
  if py_bool (pget "shadow" m) then
    match go_shadows g with
    | s :: _ => first ← name_at ms s; Ok (g, [SecondShadow name first])
    | [] => Ok (go_members g (go_mappings g) [i] (go_redirect g), [])
    end
  else
    live ← live_redirect ms g;
    if py_bool (pget "host_redirect" m) then
      match live, go_mappings g with
      | Some j, _ => first ← name_at ms j; Ok (g, [SecondRedirect name first])
      | None, j :: _ => first ← name_at ms j; Ok (g, [RedirectAfterMappings name first])
      | None, [] => Ok (go_members g (go_mappings g) (go_shadows g) (Some i), [])
      end
    else
      match live with
      | Some j => first ← name_at ms j; Ok (g, [MappingAfterRedirect name first])
      | None =>
          g ← raise_weight (go_members g (go_mappings g ++ [i]) (go_shadows g) (go_redirect g)) m;
          Ok (g, [])
      end.

(** A Mapping without mismatches always joins a TCP group. *)
Definition tcp_place (g : group_obj) (i : nat) (m : dict pyval) : res group_obj :=
  raise_weight (go_members g (go_mappings g ++ [i]) (go_shadows g) (go_redirect g)) m.

(** [IRTCPMappingGroup.bind_to]; the default address is the configured one. *)
Definition group_bind_to (envoy_bind_address : string) (g : group_obj) : res string :=
  addr ← py_str (py_or (pget "address" (go_self g)) (PStr envoy_bind_address));
  port ← getattr (go_self g) "port"; port ← py_str port;
  Ok ("tcp-" +:+ addr +:+ "-" +:+ port).

(** A Mapping that is both a shadow and a redirect loses its redirect. *)
Definition drop_redirect (m : dict pyval) : dict pyval * list group_error :=
  if py_bool (dget_default "shadow" (PBool false) m) && py_bool (dget_default "host_redirect" (PBool false) m)
  then (dpop ["host_redirect"; "path_redirect"; "prefix_redirect"; "regex_redirect"] m, [ShadowAndRedirect])
  else (m, []).

Definition set_mapping (i : nat) (m : dict pyval) (ms : list mapping_obj) : list mapping_obj :=
  alter (λ o, mkMO (mo_class o) m (mo_cluster o)) i ms.

(** [add_mapping] of both classes: the Mapping objects, the group and the
    errors posted. *)
Definition group_add_mapping (ms : list mapping_obj) (g : group_obj) (i : nat)
    : res (list mapping_obj * group_obj * list group_error) :=
  o ← deref ms i;
  let m := mo_self o in
  match group_mismatches g m with
  | [] =>
      match go_class g with
      | HTTPGroup =>
          let '(m, es1) := drop_redirect m in
          let ms := set_mapping i m ms in
          '(g, es2) ← http_place ms g i m;
          g ← go_referenced g m i;
          Ok (ms, g, es1 ++ es2)
      | TCPGroup =>
          g ← tcp_place g i m;
          g ← go_referenced g m i;
          Ok (ms, g, [])
      end
  | mis => name ← getattr m "name"; Ok (ms, go_post g, [Mismatched name mis])
  end.

(** [__init__] of both classes; [namespace] is the IR's. *)
Definition group_init (namespace name location : string) (ms : list mapping_obj) (i : nat)
    : res (list mapping_obj * group_obj * list group_error) :=
  o ← deref ms i;
  let m := mo_self o in
  rkey ← getattr m "rkey";
  let kind := match mo_class o with HTTPGroup => "IRHTTPMappingGroup" | TCPGroup => "IRTCPMappingGroup" end in
  let self :=
    [("_cache_key", PNone); ("namespace", PStr namespace); ("rkey", rkey); ("location", PStr location);
     ("kind", PStr kind); ("serialization", PNone); ("name", PStr name); ("metadata_labels", PNone);
     ("apiVersion", PStr "ambassador/ir"); ("_errored", PBool false); ("_active", PBool true)] in
  let g := mkGO (mo_class o) self [] [] None None [] in
  let g := match dget "route_weight" m with Some w => go_set "group_weight" w g | None => g end in
  group_add_mapping ms (lift_core i m g) i.

(** ** Finalizing: flattening *)

(** The keys [IRResource.skip_key] drops. *)
Definition dropped_keys : dict string := [("apiVersion", "drop"); ("logger", "drop"); ("ir", "drop")].

Definition flattens (c : group_class) (k : string) : bool :=
  negb (startswith k "_" || skip_key dropped_keys k || bool_decide (k ∈ do_not_flatten_keys c)).

(** The inner loop over one Mapping's keys.  A flattened [host_redirect]
    replaces the group's. *)
Definition flatten_one (g : group_obj) (m : dict pyval) : group_obj :=
  foldl (λ g kv,
    if flattens (go_class g) kv.1 then
      let g := go_set kv.1 kv.2 g in
      if bool_decide (kv.1 = "host_redirect" ∧ go_class g = HTTPGroup)
      then go_members g (go_mappings g) (go_shadows g) None else g
    else g) g m.

(** [d.update(v)] *)
Definition update_from (d : dict pyval) (v : pyval) : res (dict pyval) :=
  d2 ← as_dict v; Ok (dupdate d d2).

(** What the flattening loop collects besides. *)
Record flat : Type := mkFlat { f_request : dict pyval; f_response : dict pyval; f_labels : dict pyval }.

Definition flatten_step (c : group_class) (gf : group_obj * flat) (m : dict pyval) : res (group_obj * flat) :=
  let '(g, f) := gf in
  let g := flatten_one g m in
  '(rq, rs) ← match c with
              | HTTPGroup =>
                  rq ← update_from (f_request f) (dget_default "add_request_headers" (PDict []) m);
                  rs ← update_from (f_response f) (dget_default "add_response_headers" (PDict []) m);
                  Ok (rq, rs)
              | TCPGroup => Ok ([], [])
              end;
  ls ← update_from (f_labels f) (py_or (pget "metadata_labels" m) (PDict []));
  Ok (g, mkFlat rq rs ls).

Definition set_if (k : string) (d : dict pyval) (g : group_obj) : group_obj :=
  match d with [] => g | _ => go_set k (PDict d) g end.

Definition mapping_weight (m : dict pyval) : list (Z + string) :=
  match getattr m "route_weight" ≫= as_weight with Ok w => w | Raise _ => [] end.

Definition group_weight (g : group_obj) : list (Z + string) :=
  match getattr (go_self g) "group_weight" ≫= as_weight with Ok w => w | Raise _ => [] end.

(** The loop over [sorted(self.mappings, key=lambda m: m.route_weight)] and
    the assignments after it. *)
Definition flatten_group (ms : list mapping_obj) (g : group_obj) : res group_obj :=
  vs ← map_res (λ i, o ← deref ms i; w ← getattr (mo_self o) "route_weight"; _ ← as_weight w; Ok (mo_self o))
         (go_mappings g);
  '(g, f) ← fold_res (flatten_step (go_class g)) (py_sorted weight_le mapping_weight vs) (g, mkFlat [] [] []);
  Ok (set_if "metadata_labels" (f_labels f)
        (set_if "add_response_headers" (f_response f) (set_if "add_request_headers" (f_request f) g))).

(** ** Finalizing: defaults and labels *)

(** [IRAmbassador.get_default_labels] *)
Definition get_default_labels (module : dict pyval) (domain : pyval) : res pyval :=
  domain ← (if py_bool domain then Ok domain else getattr module "default_label_domain");
  dl ← getattr module "default_labels";
  domain ← as_str domain;
  info ← vget domain (PDict []) dl;
  vget "defaults" PNone info.

(** One label of a domain. *)
Definition prepend_label (defaults : list pyval) (label : pyval) : res (pyval * list group_error) :=
  match label with
  | PDict d =>
      let es := match d with _ :: _ :: _ => [LabelEntries (dkeys d)] | _ => [] end in
      match d with
      | [] => Raise IndexError
      | (lkey, v) :: _ =>
          if startswith lkey "v0_ratelimit_" then Ok (label, es)
          else l ← as_list v; Ok (PDict (dset lkey (PList (defaults ++ l)) d), es)
      end
  | _ => Raise (AttributeError "keys")
  end.

Fixpoint prepend_labels (defaults : list pyval) (ls : list pyval) : res (list pyval * list group_error) :=
  match ls with
  | [] => Ok ([], [])
  | l :: ls =>
      '(l, e1) ← prepend_label defaults l;
      '(ls, e2) ← prepend_labels defaults ls;
      Ok (l :: ls, e1 ++ e2)
  end.

(** The walk over all domains. *)
Fixpoint prepend_domains (module : dict pyval) (labels : dict pyval) : res (dict pyval * list group_error) :=
  match labels with
  | [] => Ok ([], [])
  | (domain, ls) :: rest =>
      defaults ← get_default_labels module (PStr domain);
      '(ls, e1) ← (if py_bool defaults
                   then ds ← as_list defaults; l ← as_list ls;
                        '(l, e) ← prepend_labels ds l; Ok (PList l, e)
                   else Ok (ls, []));
      '(rest, e2) ← prepend_domains module rest;
      Ok ((domain, ls) :: rest, e1 ++ e2)
  end.

(** The label block: the group's labels are changed in place, so the Mapping
    they belong to sees the change. *)
Definition default_labels (module : dict pyval) (ms : list mapping_obj) (g : group_obj)
    : res (list mapping_obj * group_obj * list group_error) :=
  let labels := pget "labels" (go_self g) in
  if negb (py_bool labels) then
    defaults ← get_default_labels module PNone;
    if py_bool defaults then
      domain ← getattr module "default_label_domain"; domain ← as_str domain;
      let g := go_set "labels" (PDict [(domain, PList [PDict [("defaults", defaults)]])]) g in
      Ok (ms, mkGO (go_class g) (go_self g) (go_mappings g) (go_shadows g) (go_redirect g) None (go_refs g), [])
    else Ok (ms, g, [])
  else
    d ← as_dict labels;
    '(d, es) ← prepend_domains module d;
    let ms := match go_labels_of g with
              | Some i => alter (λ o, mkMO (mo_class o) (dset "labels" (PDict d) (mo_self o)) (mo_cluster o)) i ms
              | None => ms
              end in
    Ok (ms, go_set "labels" (PDict d) g, es).

(** The attributes with a default from the Ambassador Module. *)
Definition default_attrs (module : dict pyval) (g : group_obj) : res group_obj :=
  g ← match pget "load_balancer" (go_self g) with
      | PNone => lb ← getattr module "load_balancer"; Ok (go_set "load_balancer" lb g)
      | _ => Ok g
      end;
  let g := if dmem "rewrite" (go_self g) then g else go_set "rewrite" (PStr "/") g in
  Ok (match pget "keepalive" (go_self g) with
      | PNone => let k := pget "keepalive" module in if py_bool k then go_set "keepalive" k g else g
      | _ => g
      end).

(** ** The IR state *)

(** What the IR keeps of Mappings: the objects, its groups and clusters by
    name, the cache, the TLS contexts and the errors posted. *)
Record ir_state (C : Type) : Type := mkIRState {
  st_mappings : list mapping_obj;
  st_group_objs : list group_obj;
  st_cluster_objs : list IRCluster;
  st_groups : dict nat;
  st_clusters : dict nat;
  st_cache : C;
  st_tls : dict tls_ctx;
  st_errors : list group_error
}.
Arguments mkIRState {C}.
Arguments st_mappings {C}.
Arguments st_group_objs {C}.
Arguments st_cluster_objs {C}.
Arguments st_groups {C}.
Arguments st_clusters {C}.
Arguments st_cache {C}.
Arguments st_tls {C}.
Arguments st_errors {C}.

Section with_cache.
Context {C : Type} `{ops : !CacheOps C ref}.
Implicit Types s : ir_state C.

Definition st_with_mappings s (ms : list mapping_obj) : ir_state C :=
  mkIRState ms (st_group_objs s) (st_cluster_objs s) (st_groups s) (st_clusters s) (st_cache s) (st_tls s) (st_errors s).
Definition st_with_groups s (gs : list group_obj) : ir_state C :=
  mkIRState (st_mappings s) gs (st_cluster_objs s) (st_groups s) (st_clusters s) (st_cache s) (st_tls s) (st_errors s).
Definition st_with_cache s (c : C) : ir_state C :=
  mkIRState (st_mappings s) (st_group_objs s) (st_cluster_objs s) (st_groups s) (st_clusters s) c (st_tls s) (st_errors s).
Definition st_post s (es : list group_error) : ir_state C :=
  mkIRState (st_mappings s) (st_group_objs s) (st_cluster_objs s) (st_groups s) (st_clusters s) (st_cache s) (st_tls s)
    (st_errors s ++ es).

(** [IR.cache_fetch] *)
Definition cache_fetch s (key : string) : option ref * ir_state C :=
  let '(r, c) := c_getitem (st_cache s) key in (r, st_with_cache s c).
(** [IR.cache_add], [IR.cache_link] *)
Definition cache_add s (r : ref) : res (ir_state C) := c ← c_add (st_cache s) r; Ok (st_with_cache s c).
Definition cache_link s (owner owned : ref) : res (ir_state C) :=
  c ← c_link (st_cache s) owner owned; Ok (st_with_cache s c).

(** The cache key of a group object. *)
Definition class_name (c : group_class) : string :=
  match c with HTTPGroup => "IRHTTPMappingGroup" | TCPGroup => "IRTCPMappingGroup" end.
Definition group_ref s (i : nat) : res ref :=
  g ← deref (st_group_objs s) i;
  id ← getattr (go_self g) "group_id"; id ← as_str id;
  Ok (RGroup i (key_for_id (class_name (go_class g)) id)).

Definition cluster_at s (i : nat) : res IRCluster := deref (st_cluster_objs s) i.

(** ** Clusters of Mappings *)

(** The keyword arguments for the cluster of a Mapping: those of both classes,
    and the whole list of each. *)
Definition common_kwargs (m : dict pyval) (marker : pyval) : res (dict pyval) :=
  resolver ← getattr m "resolver";
  let arg k d := (k, dget_default k d m) in
  Ok [("resolver", resolver); ("ctx_name", pget "tls" m); arg "host_rewrite" (PBool false);
      arg "enable_ipv4" PNone; arg "enable_ipv6" PNone; arg "circuit_breakers" PNone; ("marker", marker)].

Definition http_kwargs (m : dict pyval) (marker : pyval) : res (dict pyval) :=
  common ← common_kwargs m marker;
  let arg k d := (k, dget_default k d m) in
  Ok (common ++ [arg "dns_type" (PStr "strict_dns"); arg "health_checks" PNone; arg "grpc" (PBool false);
                 arg "load_balancer" PNone; arg "keepalive" PNone; arg "connect_timeout_ms" (PInt 3000);
                 arg "cluster_idle_timeout_ms" PNone; arg "cluster_max_connection_lifetime_ms" PNone;
                 arg "stats_name" PNone; arg "respect_dns_ttl" (PBool false)]).

Definition tcp_kwargs (g : group_obj) (m : dict pyval) (marker : pyval) : res (dict pyval) :=
  common ← common_kwargs m marker; Ok (common ++ [("stats_name", pget "stats_name" (go_self g))]).

Definition cluster_kwargs (g : group_obj) (m : dict pyval) (marker : pyval) : res (dict pyval) :=
  match go_class g with HTTPGroup => http_kwargs m marker | TCPGroup => tcp_kwargs g m marker end.

(** A cluster for the Mapping, made anew. *)
Definition synthesize_cluster (ctx : cluster_ctx) s (g : group_obj) (m : dict pyval) (marker : pyval)
    : res (nat * ir_state C) :=
  ns ← getattr m "namespace"; ns ← as_str ns;
  location ← getattr m "location"; location ← as_str location;
  service ← getattr m "service"; service ← as_str service;
  kw ← cluster_kwargs g m marker;
  let ctx := mkClusterCtx (cc_module ctx) (st_tls s) (cc_resolvers ctx) (cc_resolve ctx) (cc_enable_endpoints ctx) in
  '(c, tls, es) ← IRCluster_init ctx ns location service kw;
  Ok (length (st_cluster_objs s),
      mkIRState (st_mappings s) (st_group_objs s) (st_cluster_objs s ++ [c]) (st_groups s) (st_clusters s)
        (st_cache s) tls (st_errors s ++ List.map ClusterError es)).

(** [IR.add_cluster] on objects: the location kept under the name. *)
Definition ir_add_cluster s (i : nat) : res (nat * ir_state C) :=
  c ← cluster_at s i;
  match dget (cl_name c) (st_clusters s) with
  | Some j => Ok (j, s)
  | None => Ok (i, mkIRState (st_mappings s) (st_group_objs s) (st_cluster_objs s) (st_groups s)
                     (dset (cl_name c) i (st_clusters s)) (st_cache s) (st_tls s) (st_errors s))
  end.

(** [stored.referenced_by(mapping)] *)
Definition cluster_referenced s (j : nat) (m : dict pyval) : res (ir_state C) :=
  l ← getattr m "location"; l ← as_str l;
  n ← getattr m "name"; n ← as_str n;
  Ok (mkIRState (st_mappings s) (st_group_objs s)
        (alter (λ c, cl_update c (cl_errored c) (cl_urls c) (cl_targets c) (dset l n (cl_refs c))) j (st_cluster_objs s))
        (st_groups s) (st_clusters s) (st_cache s) (st_tls s) (st_errors s)).

(** The cached cluster of a Mapping with a [cluster_key], when it is true. *)
Definition cached_cluster s (cluster_key : pyval) : res (option nat * ir_state C) :=
  if negb (py_bool cluster_key) then Ok (None, s)
  else
    k ← as_str cluster_key;
    let '(r, s) := cache_fetch s k in
    match r with
    | None => Ok (None, s)
    | Some (RCluster i _) => c ← cluster_at s i; Ok (if cluster_bool c then Some i else None, s)
    | Some _ => Raise (AssertionError EmptyString)
    end.

(** [add_cluster_for_mapping] of both classes, for the group at [gi] and the
    Mapping at [i]. *)
Definition add_cluster_for_mapping (ctx : cluster_ctx) s (gi i : nat) (marker : pyval) : res (nat * ir_state C) :=
  g ← deref (st_group_objs s) gi;
  o ← deref (st_mappings s) i;
  let m := mo_self o in
  cluster_key ← getattr m "cluster_key";
  '(cached, s) ← cached_cluster s cluster_key;
  '(ci, s) ← match cached with
             | Some ci => Ok (ci, s)
             | None => synthesize_cluster ctx s g m marker
             end;
  '(stored, s) ← ir_add_cluster s ci;
  s ← cluster_referenced s stored m;
  if py_bool cluster_key then Ok (stored, s)
  else
    c ← cluster_at s stored;
    let r := RCluster stored (cluster_cache_key c) in
    s ← cache_add s r;
    gr ← group_ref s gi;
    s ← cache_link s gr r;
    Ok (stored, st_with_mappings s (set_mapping i (dset "cluster_key" (PStr (cluster_cache_key c)) m) (st_mappings s))).

(** ** Finalizing a group *)

(** [mapping.cluster = self.add_cluster_for_mapping(mapping, marker)] *)
Definition assign_cluster (ctx : cluster_ctx) (gi : nat) s (im : nat * pyval) : res (ir_state C) :=
  '(ci, s) ← add_cluster_for_mapping ctx s gi im.1 im.2;
  Ok (st_with_mappings s (alter (λ o, mkMO (mo_class o) (mo_self o) (Some ci)) im.1 (st_mappings s))).

(** [mapping.cluster_tag] for each Mapping of the group. *)
Definition with_tags s (ids : list nat) : res (list (nat * pyval)) :=
  map_res (λ i, o ← deref (st_mappings s) i; t ← getattr (mo_self o) "cluster_tag"; Ok (i, t)) ids.

(** The locations of the Mappings with, then those without, a weight. *)
Definition weight_order (ms : list mapping_obj) (ids : list nat) : list nat :=
  let has i := match ms !! i with Some o => dmem "weight" (mo_self o) | None => false end in
  match ids with
  | [i] => [i]
  | _ => List.filter has ids ++ List.filter (λ i, negb (has i)) ids
  end.

(** [normalize_weights_in_mappings] on the objects of a group. *)
Definition normalize_group s (gi : nat) : res (bool * ir_state C) :=
  g ← deref (st_group_objs s) gi;
  vs ← map_res (λ i, o ← deref (st_mappings s) i; Ok (mo_self o)) (go_mappings g);
  r ← normalize_weights_in_mappings vs;
  match r with
  | inl vs =>
      let ids := weight_order (st_mappings s) (go_mappings g) in
      let ms := foldl (λ ms (iv : nat * dict pyval), set_mapping iv.1 iv.2 ms) (st_mappings s) (zip ids vs) in
      let s := st_with_mappings s ms in
      Ok (true, st_with_groups s (<[gi := go_members g ids (go_shadows g) (go_redirect g)]> (st_group_objs s)))
  | inr text =>
      let s := st_with_groups s (<[gi := go_post g]> (st_group_objs s)) in
      Ok (false, st_post s [InvalidWeights text; NotNormalized])
  end.

(** The clusters of the Mappings and their weights; the result is the list of
    clusters. *)
Definition finalize_mappings (ctx : cluster_ctx) s (gi : nat) : res (list nat * ir_state C) :=
  g ← deref (st_group_objs s) gi;
  tagged ← with_tags s (go_mappings g);
  s ← fold_res (assign_cluster ctx gi) tagged s;
  '(ok, s) ← normalize_group s gi;
  if negb ok then Ok ([], s)
  else
    g ← deref (st_group_objs s) gi;
    cs ← map_res (λ i, o ← deref (st_mappings s) i; res_of_option (AttributeError "cluster") (mo_cluster o))
           (go_mappings g);
    Ok (cs, s).

(** [IRTCPMappingGroup.finalize] *)
Definition tcp_finalize (ctx : cluster_ctx) s (gi : nat) (g : group_obj) : res (list nat * ir_state C) :=
  g ← flatten_group (st_mappings s) g;
  finalize_mappings ctx (st_with_groups s (<[gi := g]> (st_group_objs s))) gi.

(** [IRHTTPMappingGroup.finalize] *)
Definition http_finalize (ctx : cluster_ctx) s (gi : nat) (g : group_obj) : res (list nat * ir_state C) :=
  g ← flatten_group (st_mappings s) g;
  g ← default_attrs (cc_module ctx) g;
  '(ms, g, es) ← default_labels (cc_module ctx) (st_mappings s) g;
  let s := st_post (st_with_mappings (st_with_groups s (<[gi := g]> (st_group_objs s))) ms) es in
  s ← match go_shadows g with
      | sh :: _ => assign_cluster ctx gi s (sh, PStr "shadow")
      | [] => Ok s
      end;
  redir ← live_redirect (st_mappings s) g;
  match redir with
  | None => finalize_mappings ctx s gi
  | Some j =>
      r ← deref (st_mappings s) j;
      let g := match dget "case_sensitive" (mo_self r) with
               | Some v => go_set "case_sensitive" v g
               | None => g
               end in
      Ok ([], st_with_groups s (<[gi := g]> (st_group_objs s)))
  end.

Definition finalize_group (ctx : cluster_ctx) s (gi : nat) : res (list nat * ir_state C) :=
  g ← deref (st_group_objs s) gi;
  match go_class g with TCPGroup => tcp_finalize ctx s gi g | HTTPGroup => http_finalize ctx s gi g end.

(** ** Adding Mappings to the IR *)

(** [mapping.status()]; [errors] are the texts posted by resource key. *)
Definition mapping_status (errors : dict (list string)) (o : mapping_obj) : res pyval :=
  match mo_class o with
  | TCPGroup => Ok PNone
  | HTTPGroup =>
      rkey ← getattr (mo_self o) "rkey"; rkey ← as_str rkey;
      Ok (http_status (mkHTTPMapping (mo_self o) [] []) (default [] (dget rkey errors)))
  end.

Definition mapping_key (o : mapping_obj) : res string := k ← getattr (mo_self o) "_cache_key"; as_str k.
Definition mapping_group_id (o : mapping_obj) : res string := k ← getattr (mo_self o) "group_id"; as_str k.

(** The cached group of a Mapping, or a new one. *)
Definition group_for (namespace : string) s (i : nat) (o : mapping_obj) : res (nat * ir_state C) :=
  id ← mapping_group_id o;
  let '(r, s) := cache_fetch s (key_for_id (class_name (mo_class o)) id) in
  match r with
  | Some (RGroup gi _) => Ok (gi, s)
  | Some _ => Raise (AssertionError EmptyString)
  | None =>
      name ← getattr (mo_self o) "name"; name ← as_str name;
      location ← getattr (mo_self o) "location"; location ← as_str location;
      '(ms, g, es) ← group_init namespace ("GROUP: " +:+ name) location (st_mappings s) i;
      let s := st_post (st_with_groups (st_with_mappings s ms) (st_group_objs s ++ [g])) es in
      Ok (length (st_group_objs s) - 1, s)
  end.

Definition register_group s (gi : nat) : res (ir_state C) :=
  g ← deref (st_group_objs s) gi;
  id ← getattr (go_self g) "group_id"; id ← as_str id;
  Ok (mkIRState (st_mappings s) (st_group_objs s) (st_cluster_objs s) (dset id gi (st_groups s)) (st_clusters s)
        (st_cache s) (st_tls s) (st_errors s)).

(** Joining a group the IR has already. *)
Definition join_group s (gi i : nat) (key : string) : res (ir_state C) :=
  g ← deref (st_group_objs s) gi;
  os ← map_res (deref (st_mappings s)) (go_mappings g);
  if existsb (λ o, py_eqb (pget "_cache_key" (mo_self o)) (PStr key)) os then Ok s
  else
    '(ms, g, es) ← group_add_mapping (st_mappings s) g i;
    Ok (st_post (st_with_groups (st_with_mappings s ms) (<[gi := g]> (st_group_objs s))) es).

(** [IR.add_mapping]: the group, the state and the status updates. *)
Definition ir_add_mapping (namespace : string) (errors : dict (list string)) s (i : nat)
    (updates : dict (string * pyval * pyval)) : res (option nat * ir_state C * dict (string * pyval * pyval)) :=
  o ← deref (st_mappings s) i;
  wanted ← mapping_status errors o;
  updates ← check_status (mo_self o) wanted updates;
  if negb (py_bool (pget "_active" (mo_self o))) then Ok (None, s, updates)
  else
    id ← mapping_group_id o;
    key ← mapping_key o;
    '(gi, s) ← match dget id (st_groups s) with
               | None => '(gi, s) ← group_for namespace s i o; s ← register_group s gi; Ok (gi, s)
               | Some gi => s ← join_group s gi i key; Ok (gi, s)
               end;
    gr ← group_ref s gi;
    s ← cache_add s (RMapping i key);
    s ← cache_add s gr;
    s ← cache_link s (RMapping i key) gr;
    Ok (Some gi, s, updates).
End with_cache.

(** ** Groups: correctness *)

(** A well-formed HTTP group: at most one shadow, no Mappings beside a redirect,
    and no Mapping heavier than the group. *)
Definition group_ok (ms : list mapping_obj) (g : group_obj) : Prop :=
  length (go_shadows g) ≤ 1
  ∧ (∀ j r, go_redirect g = Some j → ms !! j = Some r → mo_bool r = true → go_mappings g = [])
  ∧ (∀ i o, i ∈ go_mappings g → ms !! i = Some o → weight_le (mapping_weight (mo_self o)) (group_weight g) = true).

Lemma weight_le_refl w : weight_le w w = true.
Proof. by destruct (weight_le_total w w). Qed.

Lemma raise_weight_spec g m g' :
  raise_weight g m = Ok g' → go_class g = HTTPGroup →
  weight_le (mapping_weight m) (group_weight g') = true ∧ weight_le (group_weight g) (group_weight g') = true
  ∧ go_mappings g' = go_mappings g ∧ go_shadows g' = go_shadows g ∧ go_redirect g' = go_redirect g.
Proof.
  unfold raise_weight. intros H Hc. bind_step H as rw Hrw. bind_step H as w Hw. bind_step H as gw Hgw. bind_step H as v Hv.
  assert (Hm : mapping_weight m = w) by (unfold mapping_weight; rewrite Hrw; cbn; by rewrite Hw).
  assert (Hg : group_weight g = v) by (unfold group_weight; rewrite Hgw; cbn; by rewrite Hv).
  rewrite Hm, Hg. destruct (weight_le w v) eqn:Hle.
  - injection H as <-. rewrite Hg. auto using weight_le_refl.
  - rewrite Hc in H. injection H as <-.
    assert (Hg' : group_weight (go_set "group_weight" rw g) = w).
    { unfold group_weight, getattr, go_set. cbn [go_self]. rewrite dget_dset_eq. cbn. by rewrite Hw. }
    rewrite Hg'. destruct (weight_le_total v w) as [->|]; [|congruence]. auto using weight_le_refl.
Qed.

(** Dropping the redirect leaves what else is read of a Mapping. *)
Lemma drop_redirect_get k m :
  k ∉ ["host_redirect"; "path_redirect"; "prefix_redirect"; "regex_redirect"] →
  dget k (drop_redirect m).1 = dget k m.
Proof.
  intros Hk. unfold drop_redirect. destruct (_ && _); [|done]. cbn [fst]. unfold dpop. cbn [foldl].
  rewrite !dget_ddel_ne; [done|set_solver..].
Qed.

Lemma set_mapping_lookup i m ms j o' :
  set_mapping i m ms !! j = Some o' →
  ∃ o, ms !! j = Some o ∧ (o' = o ∨ j = i ∧ o' = mkMO (mo_class o) m (mo_cluster o)).
Proof.
  unfold set_mapping. destruct (decide (i = j)) as [<-|Hne].
  - rewrite list_lookup_alter_eq. destruct (ms !! i) as [o|]; [|done]. intros [= <-]. eauto.
  - rewrite list_lookup_alter_ne by done. eauto.
Qed.

(** The Mappings after [drop_redirect] have the weights and the truth values
    they had. *)
Lemma drop_redirect_objs ms i o j o' :
  ms !! i = Some o → set_mapping i (drop_redirect (mo_self o)).1 ms !! j = Some o' →
  ∃ o0, ms !! j = Some o0 ∧ mapping_weight (mo_self o') = mapping_weight (mo_self o0) ∧ mo_bool o' = mo_bool o0.
Proof.
  intros Hi Hj. apply set_mapping_lookup in Hj as (o0 & Hj & [->|[-> ->]]); [by exists o0|].
  exists o0. split; [done|]. rewrite Hi in Hj. injection Hj as ->. cbn [mo_self].
  unfold mapping_weight, mo_bool, getattr, pget, dget_default. cbn [mo_self]. rewrite !drop_redirect_get by set_solver. done.
Qed.

Lemma group_ok_objs ms ms' g :
  (∀ j o', ms' !! j = Some o' →
     ∃ o0, ms !! j = Some o0 ∧ mapping_weight (mo_self o') = mapping_weight (mo_self o0) ∧ mo_bool o' = mo_bool o0) →
  group_ok ms g → group_ok ms' g.
Proof.
  intros Hms (H1 & H2 & H3). split; [done|]. split.
  - intros j r Hr Hj Hb. destruct (Hms _ _ Hj) as (o0 & Hj0 & _ & Hb0). eapply H2; [done|done|congruence].
  - intros i o Hin Hi. destruct (Hms _ _ Hi) as (o0 & Hi0 & -> & _). eauto.
Qed.

Lemma live_redirect_None ms g j r :
  live_redirect ms g = Ok None → go_redirect g = Some j → ms !! j = Some r → mo_bool r = false.
Proof.
  unfold live_redirect, deref. intros H Hj Hr. rewrite Hj, Hr in H. cbn in H. by destruct (mo_bool r).
Qed.

Lemma http_place_ok ms g i m g' es o :
  ms !! i = Some o → mo_self o = m → go_class g = HTTPGroup → group_ok ms g → http_place ms g i m = Ok (g', es) →
  group_ok ms g'
  ∧ (es = [] → go_mappings g' = go_mappings g ++ [i] ∨ go_shadows g' = [i] ∨ go_redirect g' = Some i)
  ∧ (go_mappings g' = go_mappings g ∨ go_mappings g' = go_mappings g ++ [i]).
Proof.
  intros Hi Hm Hc Hok H. pose proof Hok as (H1 & H2 & H3). unfold http_place in H. bind_step H as name Hname.
  assert (Hkeep : ∀ e : group_error, group_ok ms g ∧ ([e] = [] → go_mappings g = go_mappings g ++ [i] ∨ go_shadows g = [i] ∨ go_redirect g = Some i)
    ∧ (go_mappings g = go_mappings g ∨ go_mappings g = go_mappings g ++ [i])) by (intros; split_and_all; auto; done).
  destruct (py_bool (pget "shadow" m)).
  { destruct (go_shadows g) as [|sh shs] eqn:Es; [|bind_step H as first Hf; injection H as <- <-; rewrite Es; apply Hkeep].
    injection H as <- <-. cbn. split; [split; [cbn; lia|done]|auto]. }
  bind_step H as live Hlive. destruct (py_bool (pget "host_redirect" m)).
  { destruct live as [j|]; [bind_step H as first Hf; injection H as <- <-; apply Hkeep|].
    destruct (go_mappings g) as [|j' js] eqn:Em; [|bind_step H as first Hf; injection H as <- <-; rewrite Em; apply Hkeep].
    injection H as <- <-. cbn. split; [|auto]. split; [done|]. split; [by intros; rewrite <- Em|]. set_solver. }
  destruct live as [j|]; [bind_step H as first Hf; injection H as <- <-; apply Hkeep|].
  bind_step H as g1 Hg1. injection H as <- <-. apply raise_weight_spec in Hg1 as (Hw & Hge & Hms & Hsh & Hrd); [|done].
  cbn in Hge, Hms, Hsh, Hrd. rewrite Hms. split; [|auto]. split; [by rewrite Hsh|]. split.
  - intros j r Hr Hj Hb. rewrite Hrd in Hr. pose proof (live_redirect_None _ _ _ _ Hlive Hr Hj). congruence.
  - intros k ok Hk Hok'. rewrite Hms in Hk. apply elem_of_app in Hk as [Hk|Hk%list_elem_of_singleton].
    + eapply weight_le_trans; [by eapply H3|done].
    + subst k. rewrite Hi in Hok'. injection Hok' as <-. by rewrite Hm.
Qed.

(** C25. Adding a Mapping to a well-formed HTTP group leaves it well-formed:
    at most one shadow, never Mappings beside a redirect, no member heavier
    than the group.  The members are kept in order with at most the new one
    at the end, and when nothing is reported the Mapping has become a member,
    the shadow or the redirect. *)
Theorem group_add_ok ms g i ms' g' es :
  go_class g = HTTPGroup → group_ok ms g → group_add_mapping ms g i = Ok (ms', g', es) →
  group_ok ms' g'
  ∧ (es = [] → go_mappings g' = go_mappings g ++ [i] ∨ go_shadows g' = [i] ∨ go_redirect g' = Some i)
  ∧ (go_mappings g' = go_mappings g ∨ go_mappings g' = go_mappings g ++ [i]).
Proof.
  intros Hc Hok H. unfold group_add_mapping in H. bind_step H as o Ho.
  unfold deref in Ho. apply res_of_option_Ok in Ho.
  destruct (group_mismatches g (mo_self o)) as [|mis miss].
  2: { bind_step H as name Hn. injection H as <- <- <-. split; [|split; [done|by left]].
       destruct Hok as (H1 & H2 & H3). split; [done|]. split; [done|].
       intros k ok Hk Hl. unfold group_weight, getattr. cbn. rewrite dget_dset_ne by done. by eapply H3. }
  rewrite Hc in H. pose proof (drop_redirect_objs ms i o) as Hobjs.
  destruct (drop_redirect (mo_self o)) as [m es1]. cbn [fst] in Hobjs.
  bind_step H as r Hr. destruct r as [g1 es2]. bind_step H as g2 Hg2. injection H as <- <- <-.
  assert (Hi : set_mapping i m ms !! i = Some (mkMO (mo_class o) m (mo_cluster o)))
    by (unfold set_mapping; by rewrite list_lookup_alter_eq, Ho).
  eapply http_place_ok in Hr as (Hok1 & Hplace & Hmem); [|exact Hi|done|done|].
  2: { eapply group_ok_objs; [|exact Hok]. intros j o' Hj. by apply Hobjs. }
  unfold go_referenced in Hg2. bind_step Hg2 as l Hl. bind_step Hg2 as l' Hl'. injection Hg2 as <-.
  split; [exact Hok1|]. split; [|exact Hmem]. intros [_ He]%app_nil. by apply Hplace.
Qed.

Definition demo_mapping (name : string) (extra : dict pyval) : mapping_obj :=
  mkMO HTTPGroup ([("name", PStr name); ("location", PStr name); ("rkey", PStr name); ("group_id", PStr "g");
    ("route_weight", PList [PInt 0; PInt 1; PStr "/"]); ("_active", PBool true); ("_errored", PBool false)] ++ extra) None.

Lemma group_add_ok_witness :
  ∃ ms g es, group_init "default" "GROUP: a" "a" [demo_mapping "a" []; demo_mapping "b" []] 0 = Ok (ms, g, es)
    ∧ ∃ ms' g' es', group_add_mapping ms g 1 = Ok (ms', g', es') ∧ group_ok ms' g'.
Proof.
  destruct (group_init "default" "GROUP: a" "a" [demo_mapping "a" []; demo_mapping "b" []] 0)
    as [[[ms g] es]|] eqn:E; [|by vm_compute in E].
  exists ms, g, es. split; [done|]. vm_compute in E. injection E as <- <- <-.
  match goal with |- context [group_add_mapping ?ms ?g 1] =>
    destruct (group_add_mapping ms g 1) as [[[ms' g'] es']|] eqn:E; [|by vm_compute in E] end.
  exists ms', g', es'. split; [done|].
  refine (proj1 (group_add_ok _ _ _ _ _ _ _ _ E)); [reflexivity|]. split; [cbn; lia|]. split; [done|].
  intros k o Hk Ho. apply list_elem_of_singleton in Hk as ->. injection Ho as <-. reflexivity.
Defined.
