(* ===== verification/Config.v ===== *)
(** * The configuration ([config/config.py], [config/acresource.py])

    [Config] files the resources it is given by kind and name, and keeps the
    errors and notices about them.  The resources are shared objects: one that
    is filed is also a source, and its name and namespace can still be changed;
    so they live in a store, and [Config] refers to them by location.  Resource
    keys, names and kinds are texts.  The environment, the host name, the
    version and the resolution of host names are parameters. *)

From S2P Require Import Prelude PyStr PyVal Utils Resource ServiceName PyText HTTPMapping Group.

(** ** The process environment *)

Record config_env : Type := mkCEnv {
  ce_environ : dict string;               (* os.environ *)
  ce_hostname : string;                   (* SystemInfo.MyHostName *)
  ce_version : string;                    (* Version *)
  ce_gethostbyname : string → option string;
  ce_package : list string                (* the names the package ambassador exports *)
}.

Definition environ_bool (o : option string) : bool := match o with Some s => str_bool s | None => false end.

Definition ambassador_id (env : config_env) : string := dget_default "AMBASSADOR_ID" "default" (ce_environ env).
Definition ambassador_namespace (env : config_env) : string :=
  dget_default "AMBASSADOR_NAMESPACE" "default" (ce_environ env).
Definition single_namespace (env : config_env) : bool := environ_bool (dget "AMBASSADOR_SINGLE_NAMESPACE" (ce_environ env)).
Definition certs_single_namespace (env : config_env) : bool :=
  environ_bool (match dget "AMBASSADOR_CERTS_SINGLE_NAMESPACE" (ce_environ env) with
                | Some s => Some s
                | None => dget "AMBASSADOR_SINGLE_NAMESPACE" (ce_environ env)
                end).

(** ** [RichStatus] *)

Record RichStatus : Type := mkStatus { rs_ok : bool; rs_info : dict pyval }.

Definition RichStatus_init (env : config_env) (ok : bool) (kwargs : dict pyval) : RichStatus :=
  mkStatus ok (dset "version" (PStr (ce_version env)) (dset "hostname" (PStr (ce_hostname env)) kwargs)).
Definition fromError (env : config_env) (error : string) : RichStatus := RichStatus_init env false [("error", PStr error)].
Definition status_OK (env : config_env) (msg : string) : RichStatus := RichStatus_init env true [("msg", PStr msg)].
Definition RichStatus_as_dict (rc : RichStatus) : dict pyval := dupdate [("ok", PBool (rs_ok rc))] (rs_info rc).

(** ** [ACResource] *)

(** [ACResource(rkey, location, **attrs)] *)
Definition ACResource_init (rkey location : pyval) (attrs : dict pyval) : res resource :=
  if existsb (λ k, dmem k attrs) ["self"; "rkey"; "location"] then Raise TypeError
  else
    kind ← res_of_option TypeError (dget "kind" attrs);
    let name := pget "name" attrs in
    let metadata_labels := pget "metadata_labels" attrs in
    let apiVersion := dget_default "apiVersion" (PStr "getambassador.io/v0") attrs in
    let kwargs := dpop ["kind"; "name"; "namespace"; "metadata_labels"; "apiVersion"; "serialization"] attrs in
    if negb (py_bool rkey) then Raise (PyException "ACResource requires rkey")
    else if negb (py_bool kind) then Raise (PyException "ACResource requires kind")
    else if negb (py_eqb kind (PStr "Pragma")) && negb (py_bool name) then
      Raise (PyException ("ACResource: " +:+ py_text kind +:+ " requires name (" +:+ repr_val (PDict kwargs) +:+ ")"))
    else if negb (py_bool apiVersion) then Raise (PyException "ACResource requires apiVersion")
    else
      let kwargs := if py_bool metadata_labels then dset "metadata_labels" metadata_labels kwargs else kwargs in
      if dmem "_referenced_by" kwargs then Raise TypeError else
      rkey ← as_str rkey; location ← as_str location; kind ← as_str kind;
      Resource_init rkey location kind (pget "serialization" attrs)
        (("name", name) :: ("namespace", pget "namespace" attrs) :: ("apiVersion", apiVersion) :: kwargs).

(** [a or b], the attribute [b] being looked up only when it is needed *)
Definition or_attr (a : pyval) (other : resource) (key : string) : res pyval :=
  if py_bool a then Ok a else getattr other key.

(** [ACResource.from_resource(other, **kw)] *)
Definition ACResource_from_resource (other : resource) (kw : dict pyval) : res resource :=
  if existsb (λ k, dmem k kw) ["cls"; "other"] then Raise TypeError
  else
    new_name ← or_attr (pget "name" kw) other "name";
    new_apiVersion ← or_attr (pget "apiVersion" kw) other "apiVersion";
    new_namespace ← or_attr (pget "namespace" kw) other "namespace";
    let new_labels := py_or (pget "metadata_labels" kw) (pget "metadata_labels" other) in
    let kwargs := dpop ["rkey"; "location"; "kind"; "serialization"; "name"; "namespace"; "metadata_labels"; "apiVersion"] kw in
    new_rkey ← or_attr (pget "rkey" kw) other "rkey";
    new_location ← or_attr (pget "location" kw) other "location";
    new_attrs ← from_resource_attrs other
      (("name", new_name) :: ("apiVersion", new_apiVersion) :: ("namespace", new_namespace)
       :: ("metadata_labels", new_labels) :: kwargs) (pget "kind" kw) (pget "serialization" kw);
    ACResource_init new_rkey new_location new_attrs.

(** [ACResource.from_dict]: no resource class is exported by the package, so a
    kind that is exported is not the name of one and cannot be called so. *)
Definition ACResource_from_dict (env : config_env) (rkey location serialization : string) (attrs : dict pyval) : res resource :=
  kind ← dget_exn "kind" attrs; kind ← as_str kind;
  if bool_decide (kind ∈ ce_package env) || bool_decide (("AC" +:+ kind) ∈ ce_package env) then Raise TypeError
  else if dmem "location" attrs || dmem "serialization" attrs then Raise TypeError
  else ACResource_init (PStr rkey) (PStr location) (dset "serialization" (PStr serialization) attrs).

Definition marker_resource (rkey kind name description : string) : resource :=
  [("rkey", PStr rkey); ("location", PStr rkey); ("kind", PStr kind); ("serialization", PNone); ("_referenced_by", PDict []);
   ("name", PStr name); ("namespace", PNone); ("apiVersion", PStr "getambassador.io/v0");
   ("version", PStr "getambassador.io/v0"); ("description", PStr description)].

Definition internal_resource : resource :=
  marker_resource "--internal--" "Internal" "Ambassador Internals"
    "The '--internal--' source marks objects created by Ambassador's internal logic.".
Definition diagnostics_resource : resource :=
  marker_resource "--diagnostics--" "Diagnostics" "Ambassador Diagnostics"
    "The '--diagnostics--' source marks objects created by Ambassador to assist with diagnostic output.".

(** ** [Config] *)

Record Config : Type := mkAconf {
  ac_objs : list resource;                          (* the store *)
  ac_current : option nat;                          (* current_resource *)
  ac_helm : pyval;                                  (* helm_chart *)
  ac_config : dict (dict nat);                      (* config *)
  ac_sources : dict nat;                            (* sources *)
  ac_counters : dict Z;                             (* counters *)
  ac_invalid : list pyval;                          (* invalid *)
  ac_errors : dict (list (dict pyval));             (* errors *)
  ac_notices : dict (list string);                  (* notices *)
  ac_fatal : Z;                                     (* fatal_errors *)
  ac_nodename : string;                             (* ambassador_nodename *)
  ac_statsd : dict pyval;                           (* statsd *)
  ac_status_updates : dict (pyval * pyval * pyval); (* k8s_status_updates *)
  ac_pod_labels : dict string                       (* pod_labels *)
}.

Definition ac_with_config (f : dict (dict nat) → dict (dict nat)) (c : Config) : Config :=
  mkAconf (ac_objs c) (ac_current c) (ac_helm c) (f (ac_config c)) (ac_sources c) (ac_counters c) (ac_invalid c) (ac_errors c)
    (ac_notices c) (ac_fatal c) (ac_nodename c) (ac_statsd c) (ac_status_updates c) (ac_pod_labels c).
Definition ac_with_objs (f : list resource → list resource) (c : Config) : Config :=
  mkAconf (f (ac_objs c)) (ac_current c) (ac_helm c) (ac_config c) (ac_sources c) (ac_counters c) (ac_invalid c) (ac_errors c)
    (ac_notices c) (ac_fatal c) (ac_nodename c) (ac_statsd c) (ac_status_updates c) (ac_pod_labels c).
Definition ac_with_current (o : option nat) (c : Config) : Config :=
  mkAconf (ac_objs c) o (ac_helm c) (ac_config c) (ac_sources c) (ac_counters c) (ac_invalid c) (ac_errors c)
    (ac_notices c) (ac_fatal c) (ac_nodename c) (ac_statsd c) (ac_status_updates c) (ac_pod_labels c).
Definition ac_with_posts (sources : dict nat) (errors : dict (list (dict pyval))) (notices : dict (list string)) (c : Config)
    : Config :=
  mkAconf (ac_objs c) (ac_current c) (ac_helm c) (ac_config c) sources (ac_counters c) (ac_invalid c) errors
    notices (ac_fatal c) (ac_nodename c) (ac_statsd c) (ac_status_updates c) (ac_pod_labels c).

(** [self.config.setdefault(storage_name, {})] and [storage[key] = resource] *)
Definition bucket (storage_name : string) (c : Config) : dict nat := dget_default storage_name [] (ac_config c).
Definition put (storage_name key : string) (i : nat) : Config → Config :=
  ac_with_config (λ d, dset storage_name (dset key i (dget_default storage_name [] d)) d).
Definition set_obj (i : nat) (r : resource) : Config → Config := ac_with_objs <[i := r]>.

Definition StorageByKind : dict string :=
  [("authservice", "auth_configs"); ("consulresolver", "resolvers"); ("host", "hosts"); ("listener", "listeners");
   ("mapping", "mappings"); ("kubernetesendpointresolver", "resolvers"); ("kubernetesserviceresolver", "resolvers");
   ("ratelimitservice", "ratelimit_configs"); ("devportal", "devportals"); ("tcpmapping", "tcpmappings");
   ("tlscontext", "tls_contexts"); ("tracingservice", "tracing_configs"); ("logservice", "log_services")].

Definition SupportedVersions : dict string := [("v2", "is deprecated, consider upgrading"); ("v3alpha1", "ok")].

Definition save_source (i : nat) (c : Config) : res Config :=
  r ← deref (ac_objs c) i;
  rkey ← getattr r "rkey"; rkey ← as_str rkey;
  Ok (ac_with_posts (dset rkey i (ac_sources c)) (ac_errors c) (ac_notices c) c).

(** [os.environ.get(key, "").lower() == "true"] *)
Definition environ_true (env : config_env) (key : string) : bool :=
  bool_decide (lower (dget_default key EmptyString (ce_environ env)) = "true").

Definition statsd_config (env : config_env) : dict pyval :=
  let dogstatsd := ("dogstatsd", PBool (environ_true env "DOGSTATSD")) in
  if environ_true env "STATSD_ENABLED" then
    let interval := ("interval", PStr (dget_default "STATSD_FLUSH_INTERVAL" "1" (ce_environ env))) in
    match ce_gethostbyname env (dget_default "STATSD_HOST" "statsd-sink" (ce_environ env)) with
    | Some ip => [("enabled", PBool true); dogstatsd; interval; ("ip", PStr ip)]
    | None => [("enabled", PBool false); dogstatsd; interval]
    end
  else [("enabled", PBool false); dogstatsd].

(** [_reset]: what is not reset is kept. *)
Definition Config_reset (env : config_env) (c : Config) : res Config :=
  let n := length (ac_objs c) in
  let c := mkAconf (ac_objs c ++ [internal_resource; diagnostics_resource]) None PNone [] [] [] [] [] [] 0
    (dget_default "AMBASSADOR_ID" "ambassador" (ce_environ env) +:+ "-" +:+ ambassador_namespace env)
    (ac_statsd c) (ac_status_updates c) (ac_pod_labels c) in
  c ← save_source n c;
  save_source (S n) c.

Definition Config_init (env : config_env) : res Config :=
  Config_reset env (mkAconf [] None PNone [] [] [] [] [] [] 0 "ambassador" (statsd_config env) [] []).

Definition good_ambassador_id (env : config_env) (r : resource) : bool :=
  let allowed_ids := match pget "ambassadorId" r with
                     | PNone => dget_default "ambassador_id" (PStr "default") r
                     | ids => ids
                     end in
  if py_eqb allowed_ids (PList [PStr "_automatic_"]) then true
  else if py_bool allowed_ids then
    let l := match allowed_ids with PList l => l | _ => [allowed_ids] end in
    existsb (py_eqb (PStr (ambassador_id env))) l
  else false.

Definition incr_count (key : string) (c : Config) : Config :=
  mkAconf (ac_objs c) (ac_current c) (ac_helm c) (ac_config c) (ac_sources c) (dset key (dget_default key 0 (ac_counters c) + 1)%Z (ac_counters c))
    (ac_invalid c) (ac_errors c) (ac_notices c) (ac_fatal c) (ac_nodename c) (ac_statsd c) (ac_status_updates c) (ac_pod_labels c).
Definition get_count (key : string) (c : Config) : Z := dget_default key 0%Z (ac_counters c).

Definition load_invalid (invalid : list pyval) (c : Config) : Config :=
  mkAconf (ac_objs c) (ac_current c) (ac_helm c) (ac_config c) (ac_sources c) (ac_counters c) invalid (ac_errors c)
    (ac_notices c) (ac_fatal c) (ac_nodename c) (ac_statsd c) (ac_status_updates c) (ac_pod_labels c).

(** [resource.rkey], of the current resource when none is given *)
Definition post_rkey (resource : option nat) (c : Config) : res (option (nat * string)) :=
  match (match resource with Some i => Some i | None => ac_current c end) with
  | None => Ok None
  | Some i => r ← deref (ac_objs c) i; rkey ← getattr r "rkey"; rkey ← as_str rkey; Ok (Some (i, rkey))
  end.

Definition post_notice (msg : string) (resource : option nat) (c : Config) : res Config :=
  o ← post_rkey resource c;
  let rkey := match o with Some (_, k) => k | None => "-global-" end in
  Ok (ac_with_posts (ac_sources c) (ac_errors c) (dset rkey (dget_default rkey [] (ac_notices c) ++ [msg]) (ac_notices c)) c).

Definition post_error_richstatus (rc : RichStatus) (resource : option nat) (rkey : option string) (c : Config) : res Config :=
  '(rkey, sources) ←
    (if environ_bool rkey then Ok (default EmptyString rkey, ac_sources c)
     else o ← post_rkey resource c;
          Ok (match o with Some (i, k) => (k, dset k i (ac_sources c)) | None => ("-global-", ac_sources c) end));
  Ok (ac_with_posts sources (dset rkey (dget_default rkey [] (ac_errors c) ++ [RichStatus_as_dict rc]) (ac_errors c))
        (ac_notices c) c).

(** The key that is given is not passed on. *)
Definition post_error_string (env : config_env) (msg : string) (resource : option nat) (rkey : option string) (c : Config)
    : res Config :=
  post_error_richstatus (fromError env msg) resource None c.

(** ** Processing a resource *)

(** [str(resource)] *)
Definition Resource_str (r : resource) : res string :=
  kind ← getattr r "kind"; rkey ← getattr r "rkey";
  Ok ("<" +:+ py_text kind +:+ " " +:+ py_text rkey +:+ ">").

Definition already_defined (r : resource) (name : string) (other : resource) : res string :=
  s ← Resource_str r; kind ← getattr r "kind"; location ← getattr other "location";
  Ok (s +:+ " defines " +:+ py_text kind +:+ " " +:+ name +:+ ", which is already defined by " +:+ py_text location).

Definition safe_store (env : config_env) (storage_name : string) (i : nat) (c : Config) : res Config :=
  r ← deref (ac_objs c) i;
  name ← getattr r "name"; name ← as_str name;
  c ← match dget name (bucket storage_name c) with
      | None => Ok c
      | Some j =>
          other ← deref (ac_objs c) j;
          namespace ← getattr r "namespace";
          if py_eqb namespace (pget "namespace" other) then
            msg ← already_defined r name other;
            post_error_string env msg (Some i) None c
          else Ok (set_obj i (setattr r "name" (PStr (name +:+ "." +:+ py_text namespace))) c)
      end;
  r ← deref (ac_objs c) i;
  _ ← Resource_str r;
  name ← getattr r "name"; name ← as_str name;
  Ok (put storage_name name i c).

Definition save_object (env : config_env) (i : nat) (c : Config) : res Config :=
  r ← deref (ac_objs c) i; kind ← getattr r "kind"; kind ← as_str kind; safe_store env kind i c.

Definition handle_module (env : config_env) (i : nat) (c : Config) : res Config :=
  r ← deref (ac_objs c) i;
  config ← getattr r "config"; config ← as_dict config;
  if dmem "kind" config then Raise TypeError
  else
    m ← ACResource_from_resource r (("kind", PStr "Module") :: config);
    safe_store env "modules" (length (ac_objs c)) (ac_with_objs (λ l, l ++ [m]) c).

(** [handle_secret], [handle_ingress] and the filing of [handle_service]: the
    key is the resource key. *)
Definition store_by_rkey (env : config_env) (storage_name : string) (i : nat) (c : Config) : res Config :=
  r ← deref (ac_objs c) i;
  key ← getattr r "rkey"; key ← as_str key;
  c ← match dget key (bucket storage_name c) with
      | None => Ok c
      | Some j => other ← deref (ac_objs c) j; msg ← already_defined r key other; post_error_string env msg (Some i) None c
      end;
  Ok (put storage_name key i c).

Definition handle_service (env : config_env) (i : nat) (c : Config) : res Config :=
  c ← store_by_rkey env "service" i c;
  r ← deref (ac_objs c) i;
  _ ← Resource_str r;
  let chart := pget "helm_chart" r in
  Ok (if py_bool chart then
        mkAconf (ac_objs c) (ac_current c) chart (ac_config c) (ac_sources c) (ac_counters c) (ac_invalid c) (ac_errors c)
          (ac_notices c) (ac_fatal c) (ac_nodename c) (ac_statsd c) (ac_status_updates c) (ac_pod_labels c)
      else c).

(** [getattr(self, "handle_" + lkind, None)], [save_object] when there is none *)
Definition handler (env : config_env) (lkind : string) : nat → Config → res Config :=
  if bool_decide (lkind = "module") then handle_module env
  else if bool_decide (lkind = "secret") then store_by_rkey env "secrets"
  else if bool_decide (lkind = "ingress") then store_by_rkey env "ingresses"
  else if bool_decide (lkind = "service") then handle_service env
  else save_object env.

Definition nl : ascii := chr 10.

(** The errors found by the Go part, on one line; they are removed. *)
Definition pop_errors (i : nat) (r : resource) (c : Config) : res (option string * Config) :=
  match dget "errors" r with
  | None => Ok (None, c)
  | Some (PStr errors) =>
      let watt_errors := join "; " (List.filter str_bool (split nl errors)) in
      Ok (if str_bool watt_errors then Some watt_errors else None, set_obj i (ddel "errors" r) c)
  | Some _ => Raise (AttributeError "split")
  end.

Definition validate_object (env : config_env) (i : nat) (c : Config) : res (RichStatus * Config) :=
  r ← deref (ac_objs c) i;
  if negb (dmem "apiVersion" r && dmem "kind" r && dmem "name" r) then
    Ok (fromError env "must have apiVersion, kind, and name", c)
  else
    apiVersion ← getattr r "apiVersion";
    match apiVersion with
    | PStr v =>
        let finish c :=
          '(e, c) ← pop_errors i r c;
          kind ← getattr r "kind";
          Ok (match e with Some e => fromError env e | None => status_OK env ("good " +:+ py_text kind) end, c) in
        if startswith v "getambassador.io/" then
          let version := lower (drop_str (slen "getambassador.io/") v) in
          let status := dget_default version "is not supported" SupportedVersions in
          c ← (if bool_decide (status = "ok") then Ok c else post_notice ("apiVersion " +:+ v +:+ " " +:+ status) (Some i) c);
          finish c
        else if startswith v "networking.internal.knative.dev" then finish c
        else Ok (fromError env ("apiVersion " +:+ v +:+ " unsupported"), c)
    | _ => Raise (AttributeError "startswith")
    end.

Definition process (env : config_env) (i : nat) (c : Config) : res (RichStatus * Config) :=
  r ← deref (ac_objs c) i;
  match r with
  | [] => Ok (fromError env "undefined object???", c)
  | _ =>
      let c := ac_with_current (Some i) c in
      apiVersion ← getattr r "apiVersion";
      if negb (py_bool apiVersion) then Ok (fromError env "need apiVersion", c)
      else
        kind ← getattr r "kind";
        if negb (py_bool kind) then Ok (fromError env "need kind", c)
        else if negb (dmem "name" r) then Ok (fromError env "need name", c)
        else
          let c := if py_bool (pget "namespace" r) then c
                   else set_obj i (dset "namespace" (PStr (ambassador_namespace env)) r) c in
          c ← save_source i c;
          '(rc, c) ← validate_object env i c;
          if negb (rs_ok rc) then Ok (rc, c)
          else
            lkind ← py_lower kind;
            c ← match dget lkind StorageByKind with
                | Some store_as => safe_store env store_as i c
                | None => handler env lkind i c
                end;
            Ok (status_OK env (py_text kind +:+ " object processed successfully"), ac_with_current None c)
  end.

Definition load_resource (env : config_env) (c : Config) (i : nat) : res Config :=
  r ← deref (ac_objs c) i;
  if negb (good_ambassador_id env r) then Ok c
  else
    _ ← getattr r "location";
    '(rc, c) ← process env i c;
    if rs_ok rc then Ok c else post_error_richstatus rc (Some i) None c.

(** [load_all]: the resources are new objects of the store. *)
Definition load_all (env : config_env) (resources : list resource) (c : Config) : res Config :=
  let n := length (ac_objs c) in
  c ← fold_res (load_resource env) (seq n (length resources)) (ac_with_objs (λ l, l ++ resources) c);
  if bool_decide (ac_fatal c = 0%Z) then Ok c
  else Raise (PyException "ERROR ERROR ERROR Unparseable configuration; exiting").

(** ** Looking up *)

(** [get_config(key)], with the objects *)
Definition get_config (key : string) (c : Config) : res (option (dict resource)) :=
  match dget key (ac_config c) with
  | None => Ok None
  | Some b => l ← map_res (λ kv : string * nat, r ← deref (ac_objs c) kv.2; Ok (kv.1, r)) b; Ok (Some l)
  end.

Definition get_module (module_name : string) (c : Config) : res (option resource) :=
  modules ← get_config "modules" c;
  Ok (match modules with Some ms => dget module_name ms | None => None end).

Definition module_lookup (module_name key : string) (dflt : pyval) (c : Config) : res pyval :=
  m ← get_module module_name c;
  Ok (match m with Some ((_ :: _) as r) => dget_default key dflt r | _ => dflt end).

Definition source_dict (r : resource) : res pyval :=
  match dget "_errors" r with
  | None => Ok (PDict r)
  | Some v =>
      errors ← py_iter v;
      match errors with
      | [] => Ok (PDict (dset "_errors" (PList []) r))
      | _ => Raise (AttributeError "as_dict")
      end
  end.

Definition Config_as_dict (c : Config) : res (dict pyval) :=
  sources ← map_res (λ ki : string * nat, r ← deref (ac_objs c) ki.2; s ← source_dict r; Ok (ki.1, s)) (ac_sources c);
  let od := [("_errors", PDict ((λ kv : string * list (dict pyval), (kv.1, PList (PDict <$> kv.2))) <$> ac_errors c));
             ("_notices", PDict ((λ kv : string * list string, (kv.1, PList (PStr <$> kv.2))) <$> ac_notices c));
             ("_sources", PDict sources)] in
  let od := if py_bool (ac_helm c) then dset "_helm_chart" (ac_helm c) od else od in
  fold_res (λ od (kb : string * dict nat),
    b ← map_res (λ ki : string * nat, r ← deref (ac_objs c) ki.2; Ok (ki.1, PDict (Resource_as_dict r))) kb.2;
    Ok (dset kb.1 (PDict b) od)) (ac_config c) od.

(** ** Every operation keeps the configuration well-formed *)

Definition obj_ok (r : resource) : Prop :=
  (∃ k, dget "rkey" r = Some (PStr k)) ∧ (∃ v, dget "location" r = Some v) ∧ (∃ v, dget "kind" r = Some v).

Record config_wf (c : Config) : Prop := {
  cw_objs : Forall obj_ok (ac_objs c);
  cw_buckets : ∀ b k i, dget k (bucket b c) = Some i → i < length (ac_objs c);
  cw_fatal : ac_fatal c = 0%Z
}.

Definition posted (rkey : string) (c : Config) : list (dict pyval) := dget_default rkey [] (ac_errors c).
Definition errors_grow (c c' : Config) : Prop := ∀ k, ∃ l, posted k c' = posted k c ++ l.

#[export] Instance errors_grow_preorder : PreOrder errors_grow.
Proof.
  split; [intros c k; exists []; by rewrite app_nil_r|].
  intros c1 c2 c3 H1 H2 k. destruct (H1 k) as [l1 E1], (H2 k) as [l2 E2]. exists (l1 ++ l2). by rewrite E2, E1, app_assoc.
Qed.

(** [r'] differs from [r] in its name only. *)
Definition renamed (r r' : resource) (name : string) : Prop :=
  dget "name" r' = Some (PStr name) ∧ ∀ k, k ≠ "name" → dget k r' = dget k r.

Lemma renamed_ok r r' name : renamed r r' name → obj_ok r → obj_ok r'.
Proof. intros [_ H] (Hk & Hl & Ht). unfold obj_ok. by rewrite !H. Qed.

Lemma config_wf_obj c i r : config_wf c → ac_objs c !! i = Some r → obj_ok r.
Proof. intros [Ho _ _] Hi. rewrite Forall_lookup in Ho. eauto. Qed.

Lemma deref_Some {A} (l : list A) i a : l !! i = Some a → deref l i = Ok a.
Proof. unfold deref. by intros ->. Qed.

Lemma getattr_Some (r : resource) k v : dget k r = Some v → getattr r k = Ok v.
Proof. unfold getattr. by intros ->. Qed.

(** Posting about a resource files the error under its key. *)
Lemma post_error_rkey env msg i c r k : ac_objs c !! i = Some r → dget "rkey" r = Some (PStr k) →
  post_error_string env msg (Some i) None c
  = Ok (ac_with_posts (dset k i (ac_sources c))
          (dset k (posted k c ++ [RichStatus_as_dict (fromError env msg)]) (ac_errors c)) (ac_notices c) c).
Proof.
  intros Hi Hk. unfold post_error_string, post_error_richstatus, post_rkey. cbn [environ_bool].
  rewrite (deref_Some _ _ _ Hi). cbn. rewrite (getattr_Some _ _ _ Hk). done.
Qed.

Lemma already_defined_total r name other : obj_ok r → obj_ok other → ∃ msg, already_defined r name other = Ok msg.
Proof.
  intros ((k & Hk) & _ & (t & Ht)) (_ & (l & Hl) & _). unfold already_defined, Resource_str.
  rewrite (getattr_Some _ _ _ Ht), (getattr_Some _ _ _ Hk), (getattr_Some _ _ _ Hl). cbn. by eexists.
Qed.

Lemma bucket_put b b' key i c :
  bucket b' (put b key i c) = if bool_decide (b' = b) then dset key i (bucket b c) else bucket b' c.
Proof. unfold bucket, put, dget_default. cbn. rewrite dget_dset. by case_bool. Qed.

Lemma put_wf b key i c : config_wf c → i < length (ac_objs c) → config_wf (put b key i c).
Proof.
  intros [Ho Hb Hf] Hi. constructor; [done| |done]. intros b' k j. rewrite bucket_put. case_bool as E; [|apply Hb].
  rewrite dget_dset. case_bool as E2; [intros [= <-]; done|]. subst. apply Hb.
Qed.

Lemma set_obj_wf i r c : config_wf c → obj_ok r → config_wf (set_obj i r c).
Proof.
  intros [Ho Hb Hf] Hr. constructor; [|intros b k j Hj; cbn; rewrite length_insert; by eapply Hb|done].
  apply Forall_lookup. intros j r' Hj. rewrite Forall_lookup in Ho.
  destruct (decide (i = j)) as [->|Hne].
  - cbn in Hj. apply list_lookup_insert_Some in Hj as [(_ & -> & _)|(? & _)]; [done|congruence].
  - cbn in Hj. rewrite list_lookup_insert_ne in Hj by done. eauto.
Qed.

Lemma posts_wf s e n c : config_wf c → config_wf (ac_with_posts s e n c).
Proof. intros []. by constructor. Qed.

Lemma posts_grow s k l n c : errors_grow c (ac_with_posts s (dset k (posted k c ++ l) (ac_errors c)) n c).
Proof.
  intros k'. unfold posted, dget_default; cbn. rewrite dget_dset. case_bool as E; [subst; by exists l|].
  exists []. by rewrite app_nil_r.
Qed.

(** The key [safe_store] files a resource under: its name, qualified by its
    namespace when a resource of that name in another namespace is there. *)
Definition store_key (c : Config) (b name : string) (namespace : pyval) : string :=
  match dget name (bucket b c) with
  | None => name
  | Some j => if py_eqb namespace (default PNone (pget "namespace" <$> ac_objs c !! j)) then name
              else name +:+ "." +:+ py_text namespace
  end.

(** What filing resource [i] under [key] does *)
Record filed_as (b key : string) (i : nat) (r' : resource) (c c' : Config) : Prop := {
  fa_wf : config_wf c';
  fa_config : ac_config c' = dset b (dset key i (bucket b c)) (ac_config c);
  fa_objs : ac_objs c' = <[i := r']> (ac_objs c);
  fa_errors : errors_grow c c'
}.

Lemma safe_store_filed env b i c r name ns : config_wf c → ac_objs c !! i = Some r →
  dget "name" r = Some (PStr name) → dget "namespace" r = Some ns →
  ∃ r' c', safe_store env b i c = Ok c' ∧ renamed r r' (store_key c b name ns)
    ∧ filed_as b (store_key c b name ns) i r' c c'.
Proof.
  intros Hwf Hi Hname Hns. pose proof (config_wf_obj _ _ _ Hwf Hi) as Hok. pose proof (lookup_lt_Some _ _ _ Hi) as Hlt.
  unfold safe_store, store_key. rewrite (deref_Some _ _ _ Hi). cbn [mbind res_bind].
  rewrite (getattr_Some _ _ _ Hname). cbn [mbind res_bind as_str].
  assert (Hstr : ∀ r', obj_ok r' → ∃ s, Resource_str r' = Ok s).
  { intros r' ((k & Hk) & _ & (t & Ht)). unfold Resource_str.
    rewrite (getattr_Some _ _ _ Ht), (getattr_Some _ _ _ Hk). by eexists. }
  destruct (dget name (bucket b c)) as [j|] eqn:Hj; cbn [mbind res_bind].
  - pose proof (cw_buckets _ Hwf _ _ _ Hj) as Hjlt. apply lookup_lt_is_Some in Hjlt as [other Hother].
    rewrite (deref_Some _ _ _ Hother), (getattr_Some _ _ _ Hns). cbn [mbind res_bind]. rewrite Hother. cbn [fmap option_fmap option_map default from_option id].
    destruct (py_eqb ns (pget "namespace" other)) eqn:Hdup.
    + destruct (already_defined_total r name other) as [msg Hmsg]; [done|by eapply config_wf_obj|].
      rewrite Hmsg. cbn [mbind res_bind]. destruct (proj1 Hok) as [k Hk].
      rewrite (post_error_rkey _ _ _ _ _ _ Hi Hk). cbn [mbind res_bind ac_objs ac_with_posts].
      rewrite (deref_Some _ _ _ Hi). cbn [mbind res_bind]. destruct (Hstr r Hok) as [s Hs]. rewrite Hs, (getattr_Some _ _ _ Hname).
      cbn. exists r. eexists. split; [done|]. split; [done|].
      constructor; [by apply put_wf; [apply posts_wf|]|done|by cbn; rewrite list_insert_id|].
      intros k'. apply (posts_grow _ _ _ _ _ k').
    + set (r' := setattr r _ _).
      assert (Hi' : ac_objs (set_obj i r' c) !! i = Some r') by (by apply list_lookup_insert_eq).
      cbn [mbind res_bind]. rewrite (deref_Some _ _ _ Hi'). cbn [mbind res_bind].
      assert (Hren : renamed r r' (name +:+ "." +:+ py_text ns)).
      { split; [apply dget_dset_eq|]. intros k Hne. by apply dget_dset_ne. }
      destruct (Hstr r' (renamed_ok _ _ _ Hren Hok)) as [s Hs]. rewrite Hs, (getattr_Some _ _ _ (proj1 Hren)). cbn.
      exists r'. eexists. split; [done|]. split; [done|].
      constructor; [|done|done|intros k'; exists []; by rewrite app_nil_r]. apply put_wf; [|cbn; by rewrite length_insert]. apply set_obj_wf; [done|by eapply renamed_ok].
  - rewrite (deref_Some _ _ _ Hi). cbn [mbind res_bind]. destruct (Hstr r Hok) as [s Hs]. rewrite Hs, (getattr_Some _ _ _ Hname).
    cbn. exists r. eexists. split; [done|]. split; [done|].
    constructor; [by apply put_wf|done|by cbn; rewrite list_insert_id|intros k'; exists []; by rewrite app_nil_r].
Qed.

Lemma store_by_rkey_filed env b i c r k : config_wf c → ac_objs c !! i = Some r → dget "rkey" r = Some (PStr k) →
  ∃ c', store_by_rkey env b i c = Ok c' ∧ filed_as b k i r c c'.
Proof.
  intros Hwf Hi Hk. pose proof (config_wf_obj _ _ _ Hwf Hi) as Hok. pose proof (lookup_lt_Some _ _ _ Hi) as Hlt.
  unfold store_by_rkey. rewrite (deref_Some _ _ _ Hi). cbn [mbind res_bind]. rewrite (getattr_Some _ _ _ Hk). cbn [mbind res_bind as_str].
  destruct (dget k (bucket b c)) as [j|] eqn:Hj; cbn [mbind res_bind].
  - pose proof (cw_buckets _ Hwf _ _ _ Hj) as Hjlt. apply lookup_lt_is_Some in Hjlt as [other Hother].
    rewrite (deref_Some _ _ _ Hother). cbn [mbind res_bind].
    destruct (already_defined_total r k other) as [msg ->]; [done|by eapply config_wf_obj|]. cbn [mbind res_bind].
    rewrite (post_error_rkey _ _ _ _ _ _ Hi Hk). cbn. eexists. split; [done|].
    constructor; [by apply put_wf; [apply posts_wf|]|done|by cbn; rewrite list_insert_id|]. intros k'. apply (posts_grow _ _ _ _ _ k').
  - eexists. split; [done|].
    constructor; [by apply put_wf|done|by cbn; rewrite list_insert_id|intros k'; exists []; by rewrite app_nil_r].
Qed.

(** ** What becomes of a resource *)

Definition text (k : string) (r : resource) : string := match dget k r with Some (PStr s) => s | _ => EmptyString end.

(** The errors found before the resource got here, on one line *)
Definition reported (r : resource) : string := join "; " (List.filter str_bool (split nl (text "errors" r))).

(** Why a resource is refused *)
Definition verdict (r : resource) : option string :=
  let v := text "apiVersion" r in
  if negb (str_bool v) then Some "need apiVersion"
  else if negb (str_bool (text "kind" r)) then Some "need kind"
  else if negb (startswith v "getambassador.io/" || startswith v "networking.internal.knative.dev") then
    Some ("apiVersion " +:+ v +:+ " unsupported")
  else if str_bool (reported r) then Some (reported r)
  else None.

(** The namespace a resource is in *)
Definition namespace_of (env : config_env) (r : resource) : string :=
  if str_bool (text "namespace" r) then text "namespace" r else ambassador_namespace env.

(** The kinds that are not filed by name, and where they are filed *)
Definition special_kinds : list string := ["module"; "secret"; "ingress"; "service"].
Definition special_buckets : list string := ["modules"; "secrets"; "ingresses"; "service"].

Definition by_name (r : resource) : option string :=
  match dget (lower (text "kind" r)) StorageByKind with
  | Some b => Some b
  | None => if bool_decide (lower (text "kind" r) ∈ special_kinds) then None else Some (text "kind" r)
  end.

(** Keys the settings of a Module cannot have, since they are parameters of the
    functions that copy them *)
Definition reserved_keys : list string :=
  ["cls"; "other"; "self"; "rkey"; "location"; "kind"; "serialization"; "name"; "namespace"; "metadata_labels"; "apiVersion";
   "_referenced_by"].

(** Resources as the constructor makes them *)
Record resource_wf (r : resource) : Prop := {
  rw_rkey : ∃ k, dget "rkey" r = Some (PStr k) ∧ str_bool k = true;
  rw_location : ∃ l, dget "location" r = Some (PStr l);
  rw_serialization : ∃ v, dget "serialization" r = Some v;
  rw_apiVersion : ∃ v, dget "apiVersion" r = Some (PStr v);
  rw_kind : ∃ k, dget "kind" r = Some (PStr k);
  rw_name : ∃ n, dget "name" r = Some (PStr n) ∧ str_bool n = true;
  rw_namespace : pget "namespace" r = PNone ∨ ∃ n, pget "namespace" r = PStr n;
  rw_errors : dget "errors" r = None ∨ ∃ e, dget "errors" r = Some (PStr e);
  rw_ok : dict_ok r;
  rw_config : lower (text "kind" r) = "module" →
    ∃ d, dget "config" r = Some (PDict d) ∧ dict_ok d ∧ ∀ k, k ∈ reserved_keys → dget k d = None
}.

(** ** Constructing resources *)

Lemma dpop_ok ks (d : resource) : dict_ok d → dict_ok (dpop ks d).
Proof. unfold dpop. revert d. induction ks as [|k ks IH]; intros d Hd; [done|]. apply IH. by apply dict_ok_ddel. Qed.

Lemma dget_dpop k ks (d : resource) : dict_ok d → dget k (dpop ks d) = if bool_decide (k ∈ ks) then None else dget k d.
Proof.
  unfold dpop. revert d. induction ks as [|k' ks IH]; intros d Hd; [done|]. cbn. rewrite IH by (by apply dict_ok_ddel).
  destruct (decide (k = k')) as [->|Hne].
  - rewrite (bool_decide_true (k' ∈ k' :: ks)) by left. by case_bool; [|apply dget_ddel_eq].
  - rewrite dget_ddel_ne by done. case_bool as H; [by rewrite bool_decide_true by (by right)|].
    rewrite bool_decide_false; [done|]. by intros [?|?]%elem_of_cons.
Qed.

Lemma dict_ok_cons k v (d : resource) : dict_ok d → dget k d = None → dict_ok ((k, v) :: d).
Proof. intros Hd Hk. apply NoDup_cons. split; [by apply dget_None|done]. Qed.

(** Membership of lists of keys, by evaluation *)
Lemma listed_sub (l l' : list string) k : forallb (λ x, bool_decide (x ∈ l')) l = true → k ∈ l → k ∈ l'.
Proof. intros H Hk. rewrite forallb_elem_of in H. specialize (H k Hk). by apply (bool_decide_eq_true_1 _) in H. Qed.

Ltac listed := apply (bool_decide_eq_true_1 _); vm_compute; reflexivity.
(** A key outside a list [H] is outside its sublists and none of its elements. *)
Ltac unlisted H :=
  first [intros ->; apply H; listed
        |intros ?; apply H; eapply listed_sub; [|eassumption]; vm_compute; reflexivity].

(** The attributes every resource has *)
Definition base_keys : list string :=
  ["rkey"; "location"; "kind"; "serialization"; "_referenced_by"; "name"; "namespace"; "apiVersion"; "metadata_labels"].

Record constructed (rkey location kind name v : string) (attrs r : resource) : Prop := {
  co_ok : dict_ok r;
  co_rkey : dget "rkey" r = Some (PStr rkey);
  co_location : dget "location" r = Some (PStr location);
  co_kind : dget "kind" r = Some (PStr kind);
  co_serialization : dget "serialization" r = Some (pget "serialization" attrs);
  co_name : dget "name" r = Some (PStr name);
  co_namespace : dget "namespace" r = Some (pget "namespace" attrs);
  co_apiVersion : dget "apiVersion" r = Some (PStr v);
  co_rest : ∀ k, k ∉ base_keys → dget k r = dget k attrs;
  co_labels : py_bool (pget "metadata_labels" attrs) = true → dget "metadata_labels" r = Some (pget "metadata_labels" attrs)
}.

Lemma ACResource_init_Ok rkey location kind name v attrs :
  dict_ok attrs → (∀ k, k ∈ ["self"; "rkey"; "location"; "_referenced_by"] → dget k attrs = None) →
  dget "kind" attrs = Some (PStr kind) → pget "name" attrs = PStr name →
  dget_default "apiVersion" (PStr "getambassador.io/v0") attrs = PStr v →
  str_bool rkey = true → str_bool kind = true → str_bool name = true → str_bool v = true →
  ∃ r, ACResource_init (PStr rkey) (PStr location) attrs = Ok r ∧ constructed rkey location kind name v attrs r.
Proof.
  intros Hok Habs Hkind Hname Hv H1 H2 H3 H4.
  assert (Hno : ∀ k, k ∈ ["self"; "rkey"; "location"; "_referenced_by"] → dmem k attrs = false).
  { intros k Hk. apply dmem_false. auto. }
  unfold ACResource_init. cbn [existsb]. rewrite (Hno "self"), (Hno "rkey"), (Hno "location") by listed. cbn [orb]. rewrite Hkind. cbn [res_of_option mbind res_bind].
  rewrite Hname, Hv. cbn [py_bool]. rewrite H1, H2, H3, H4. cbn [negb andb]. rewrite andb_false_r. cbv zeta.
  set (labels := pget "metadata_labels" attrs). set (kw0 := dpop _ attrs).
  set (kw := if py_bool labels then dset "metadata_labels" labels kw0 else kw0).
  assert (Hkw0 : ∀ k, dget k kw0 = if bool_decide (k ∈ ["kind"; "name"; "namespace"; "metadata_labels"; "apiVersion"; "serialization"])
                                   then None else dget k attrs) by (intros k; by apply dget_dpop).
  assert (Hkw : ∀ k, k ≠ "metadata_labels" → dget k kw = dget k kw0).
  { intros k Hne. unfold kw. destruct (py_bool labels); [by apply dget_dset_ne|done]. }
  assert (Hkwok : dict_ok kw).
  { unfold kw. destruct (py_bool labels); [apply dict_ok_dset|]; by apply dpop_ok. }
  assert (Href : dmem "_referenced_by" kw = false) by (apply dmem_false; rewrite Hkw, Hkw0 by done; apply Habs; listed).
  rewrite Href. cbn [as_str mbind res_bind]. unfold Resource_init. rewrite H1, H2. cbn [negb]. eexists. split; [done|].
  constructor; try done.
  - repeat (apply dict_ok_cons; [|cbn; rewrite ?Hkw, ?Hkw0 by done; try done; by apply Habs; listed]). done.
  - intros k Hk. cbn. repeat (rewrite bool_decide_false by (unlisted Hk)).
    rewrite Hkw, Hkw0 by (unlisted Hk). by rewrite bool_decide_false by (unlisted Hk).
  - intros Hl. change (py_bool labels = true) in Hl. cbn. unfold kw. rewrite Hl. apply dget_dset_eq.
Qed.

(** The resource a Module is filed as has its settings. *)
Lemma module_resource r d : resource_wf r → str_bool (text "apiVersion" r) = true → dmem "namespace" r = true →
  dict_ok d → (∀ k, k ∈ reserved_keys → dget k d = None) →
  ∃ m, ACResource_from_resource r (("kind", PStr "Module") :: d) = Ok m
    ∧ obj_ok m ∧ dget "name" m = dget "name" r ∧ dget "namespace" m = dget "namespace" r
    ∧ ∀ k, k ∉ "_errors" :: "_errored" :: reserved_keys → dget k m = dget k d.
Proof.
  intros [(rk & Hrk & Hrkb) (loc & Hloc) (ser & Hser) (v & Hv) _ (n & Hn & Hnb) _ _ _ _] Hvb Hns Hdok Hres.
  unfold text in Hvb. rewrite Hv in Hvb. apply dmem_true, dget_is_Some in Hns as [ns Hns].
  assert (Hpg : ∀ k, k ∈ reserved_keys → k ≠ "kind" → pget k (("kind", PStr "Module") :: d) = PNone).
  { intros k Hk Hne. unfold pget, dget_default. cbn. rewrite bool_decide_false by done. by rewrite Hres. }
  unfold ACResource_from_resource. cbn [existsb dmem dget]. unfold dmem. cbn [dget].
  rewrite !(Hres "cls"), !(Hres "other") by listed. cbn [orb].
  rewrite (Hpg "name"), (Hpg "apiVersion"), (Hpg "namespace"), (Hpg "metadata_labels"), (Hpg "rkey"), (Hpg "location"),
    (Hpg "serialization") by (done || listed). unfold or_attr. cbn [py_bool].
  rewrite (getattr_Some _ _ _ Hn), (getattr_Some _ _ _ Hv), (getattr_Some _ _ _ Hns), (getattr_Some _ _ _ Hrk), (getattr_Some _ _ _ Hloc).
  cbn [mbind res_bind]. set (lab := py_or _ _). set (kwargs := dpop _ _).
  assert (Hkok : dict_ok (("kind", PStr "Module") :: d)) by (apply dict_ok_cons; [done|apply Hres; listed]).
  assert (Hkw : ∀ k, dget k kwargs = if bool_decide (k ∈ reserved_keys) then None else dget k d).
  { intros k. unfold kwargs. rewrite dget_dpop by done. case_bool as E1.
    - rewrite bool_decide_true; [done|]. eapply listed_sub; [|exact E1]. vm_compute; reflexivity.
    - cbn [dget]. rewrite bool_decide_false by (unlisted E1). case_bool as E3; [by apply Hres|done]. }
  unfold from_resource_attrs. cbn [pget dget_default dget py_bool]. rewrite (getattr_Some _ _ _ Hser).
  change (pget "kind" (("kind", PStr "Module") :: d)) with (PStr "Module"). cbn [py_bool str_bool mbind res_bind].
  set (base := dset "kind" _ _). set (attrs := dpop _ _).
  assert (Hbase : dict_ok base).
  { apply dict_ok_dset. repeat (apply dict_ok_cons; [|cbn; by rewrite ?Hkw]). by apply dpop_ok. }
  assert (Hsok : dict_ok (if py_bool ser then dset "serialization" ser base else base)) by (case_match; [by apply dict_ok_dset|done]).
  assert (Hattrs : ∀ k, dget k attrs = if bool_decide (k ∈ ["rkey"; "location"; "_errors"; "_errored"; "_referenced_by"]) then None
                       else if bool_decide (k = "serialization") then if py_bool ser then Some ser else dget k base else dget k base).
  { intros k. unfold attrs. rewrite dget_dpop by done. case_bool; [done|]. case_match; [rewrite dget_dset; by case_bool|by case_bool]. }
  assert (Hb : ∀ k, dget k base = if bool_decide (k = "kind") then Some (PStr "Module") else
                    dget k (("name", PStr n) :: ("apiVersion", PStr v) :: ("namespace", ns) :: ("metadata_labels", lab) :: kwargs)).
  { intros k. unfold base. by rewrite dget_dset. }
  destruct (ACResource_init_Ok rk loc "Module" n v attrs) as (m & Hm & Hc); try done.
  - by apply dpop_ok.
  - intros k Hk. rewrite Hattrs. case_bool as Hno; [done|]. apply elem_of_cons in Hk as [->|Hk].
    + rewrite Hb. cbn [dget]. by rewrite Hkw.
    + destruct Hno. eapply listed_sub; [|exact Hk]. vm_compute; reflexivity.
  - by rewrite Hattrs, Hb.
  - unfold pget, dget_default. by rewrite Hattrs, Hb.
  - unfold dget_default. by rewrite Hattrs, Hb.
  - exists m. split; [exact Hm|]. destruct Hc as [_ ? ? ? _ Hcn Hcns _ Hrest]. split; [split; [by eexists|split; by eexists]|].
    rewrite Hn, Hns, Hcn, Hcns. split; [done|]. split; [unfold pget, dget_default; by rewrite Hattrs, Hb|].
    intros k Hk. rewrite Hrest by (unlisted Hk). rewrite Hattrs, bool_decide_false by (unlisted Hk).
    rewrite bool_decide_false by (unlisted Hk). rewrite Hb, bool_decide_false by (unlisted Hk). cbn [dget].
    repeat (rewrite bool_decide_false by (unlisted Hk)). rewrite Hkw. by rewrite bool_decide_false by (unlisted Hk).
Qed.

(** ** Processing a resource *)

(** [r'] agrees with [r] outside of the attributes that processing changes. *)
Definition kept (r r' : resource) : Prop := ∀ k, k ∉ ["name"; "namespace"; "errors"] → dget k r' = dget k r.

(** Steps that only change resource [i], and neither file anything nor post errors *)
Record quiet (i : nat) (r' : resource) (c c' : Config) : Prop := {
  qu_config : ac_config c' = ac_config c;
  qu_errors : ac_errors c' = ac_errors c;
  qu_fatal : ac_fatal c' = ac_fatal c;
  qu_objs : ac_objs c' = <[i := r']> (ac_objs c)
}.

Lemma quiet_trans i r1 r2 c1 c2 c3 : quiet i r1 c1 c2 → quiet i r2 c2 c3 → quiet i r2 c1 c3.
Proof.
  intros [A1 A2 A3 A4] [B1 B2 B3 B4]. constructor; [congruence..|]. by rewrite B4, A4, list_insert_insert_eq.
Qed.

Lemma quiet_wf i r' c c' : quiet i r' c c' → config_wf c → obj_ok r' → config_wf c'.
Proof.
  intros [Q1 Q2 Q3 Q4] Hwf Hr'. destruct (set_obj_wf i r' c Hwf Hr') as [Ho Hb Hf]. constructor.
  - by rewrite Q4.
  - intros b k j. unfold bucket. rewrite Q1, Q4. apply Hb.
  - rewrite Q3. exact Hf.
Qed.

Lemma quiet_grow i r' c c' : quiet i r' c c' → errors_grow c c'.
Proof. intros [_ Q _ _] k. exists []. unfold posted. by rewrite Q, app_nil_r. Qed.

Lemma kept_ok r r' : kept r r' → obj_ok r → obj_ok r'.
Proof. intros H (Hk & Hl & Ht). unfold obj_ok. rewrite !H by (intros ?; set_solver). done. Qed.

Lemma save_source_quiet i c r k : ac_objs c !! i = Some r → dget "rkey" r = Some (PStr k) →
  ∃ c', save_source i c = Ok c' ∧ quiet i r c c'.
Proof.
  intros Hi Hk. unfold save_source. rewrite (deref_Some _ _ _ Hi). cbn [mbind res_bind].
  rewrite (getattr_Some _ _ _ Hk). cbn. eexists. split; [done|]. constructor; try done. cbn. by rewrite list_insert_id.
Qed.

(** The part of the verdict that [validate_object] finds *)
Definition invalid_because (r : resource) : option string :=
  let v := text "apiVersion" r in
  if negb (startswith v "getambassador.io/" || startswith v "networking.internal.knative.dev") then
    Some ("apiVersion " +:+ v +:+ " unsupported")
  else if str_bool (reported r) then Some (reported r)
  else None.

Lemma ddel_errors_wf r : resource_wf r → resource_wf (ddel "errors" r).
Proof.
  intros [A1 A2 A3 A4 A5 A6 A7 A8 A9 A10]. unfold pget, dget_default in A7.
  constructor; unfold pget, dget_default, text; rewrite ?dget_ddel_ne by done; try done.
  - left. by apply dget_ddel_eq.
  - by apply dict_ok_ddel.
Qed.

Lemma pop_errors_spec i r c c0 : resource_wf r → quiet i r c c0 →
  ∃ r' c', pop_errors i r c0 = Ok (if str_bool (reported r) then Some (reported r) else None, c')
    ∧ quiet i r' c c' ∧ resource_wf r' ∧ (∀ k, k ≠ "errors" → dget k r' = dget k r).
Proof.
  intros Hwf Q. unfold pop_errors, reported, text. destruct (rw_errors _ Hwf) as [He|[e He]]; rewrite He; [by exists r, c0|].
  exists (ddel "errors" r). eexists. split; [done|].
  split; [|split; [by apply ddel_errors_wf|intros k' Hne; by apply dget_ddel_ne]]. eapply quiet_trans; [exact Q|]. by constructor.
Qed.

Lemma validate_object_spec env i c r k : ac_objs c !! i = Some r → resource_wf r → dget "rkey" r = Some (PStr k) →
  ∃ r' c', validate_object env i c
           = Ok (match invalid_because r with
                 | Some e => fromError env e
                 | None => status_OK env ("good " +:+ text "kind" r)
                 end, c')
    ∧ quiet i r' c c' ∧ resource_wf r' ∧ (∀ k, k ≠ "errors" → dget k r' = dget k r).
Proof.
  intros Hi Hwf Hk. pose proof Hwf as [_ _ _ (v & Hv) (kd & Hkd) (n & Hn & _) _ _ _ _].
  unfold validate_object, invalid_because, dmem. rewrite (deref_Some _ _ _ Hi). cbn [mbind res_bind].
  rewrite (getattr_Some _ _ _ Hv), (getattr_Some _ _ _ Hkd), Hv, Hkd, Hn. cbn [andb negb mbind res_bind].
  unfold text at 1 2 3 4. rewrite Hv, Hkd.
  assert (Hfin : ∀ c0, quiet i r c c0 → ∃ r' c',
    ('(e, c) ← pop_errors i r c0; kind ← Ok (PStr kd);
     Ok (match e with Some e => fromError env e | None => status_OK env ("good " +:+ py_text kind) end, c))
    = Ok (match (if str_bool (reported r) then Some (reported r) else None) with
          | Some e => fromError env e
          | None => status_OK env ("good " +:+ kd)
          end, c')
    ∧ quiet i r' c c' ∧ resource_wf r' ∧ (∀ k, k ≠ "errors" → dget k r' = dget k r)).
  { intros c0 Q. destruct (pop_errors_spec i r c c0 Hwf Q) as (r' & c' & Hp & H). exists r', c'. rewrite Hp. cbn. done. }
  assert (Q0 : quiet i r c c) by (constructor; try done; by rewrite list_insert_id).
  destruct (startswith v "getambassador.io/"); cbn [orb negb].
  - case_bool as Hst; cbn [mbind res_bind]; [by apply Hfin|].
    unfold post_notice, post_rkey. rewrite (deref_Some _ _ _ Hi). cbn [mbind res_bind]. rewrite (getattr_Some _ _ _ Hk).
    cbn [mbind res_bind as_str]. apply Hfin. destruct Q0. by constructor.
  - destruct (startswith v "networking.internal.knative.dev"); cbn [negb]; [by apply Hfin|]. by exists r, c.
Qed.

(** Where a resource that is not refused goes *)
Definition store_resource (env : config_env) (kind : string) (i : nat) (c : Config) : res Config :=
  match dget (lower kind) StorageByKind with
  | Some store_as => safe_store env store_as i c
  | None => handler env (lower kind) i c
  end.

Definition with_namespace (env : config_env) (r : resource) : resource :=
  if py_bool (pget "namespace" r) then r else dset "namespace" (PStr (ambassador_namespace env)) r.

Lemma with_namespace_wf env r : resource_wf r → resource_wf (with_namespace env r).
Proof.
  intros H. unfold with_namespace. destruct (py_bool _); [done|]. destruct H as [A1 A2 A3 A4 A5 A6 _ A8 A9 A10].
  constructor; rewrite ?dget_dset_ne by done; try done.
  - unfold pget, dget_default. rewrite dget_dset_eq. right. by eexists.
  - by apply dict_ok_dset.
  - unfold text. rewrite !dget_dset_ne by done. exact A10.
Qed.

Lemma with_namespace_text env r k : k ≠ "namespace" → dget k (with_namespace env r) = dget k r.
Proof. intros Hk. unfold with_namespace. destruct (py_bool _); [done|by apply dget_dset_ne]. Qed.

Lemma with_namespace_eq env r : resource_wf r →
  dget "namespace" (with_namespace env r) = Some (PStr (namespace_of env r)).
Proof.
  intros H. unfold with_namespace, namespace_of, text. pose proof (rw_namespace _ H) as Hns. unfold pget, dget_default in *.
  destruct (dget "namespace" r) as [v|] eqn:E; cbn in *; [|by rewrite dget_dset_eq].
  destruct Hns as [->|[n ->]]; cbn; [by rewrite dget_dset_eq|]. destruct (str_bool n); [done|by rewrite dget_dset_eq].
Qed.

Lemma process_spec env i c r : ac_objs c !! i = Some r → resource_wf r →
  match verdict r with
  | Some e => ∃ r' c', process env i c = Ok (fromError env e, c') ∧ kept r r' ∧ quiet i r' c c'
  | None =>
      ∃ r' c', process env i c
               = (c'' ← store_resource env (text "kind" r) i c';
                  Ok (status_OK env (text "kind" r +:+ " object processed successfully"), ac_with_current None c''))
        ∧ quiet i r' c c' ∧ resource_wf r' ∧ (∀ k, k ≠ "errors" → dget k r' = dget k (with_namespace env r))
  end.
Proof.
  intros Hi Hwf. pose proof Hwf as [(k & Hk & _) _ _ (v & Hv) (kd & Hkd) (n & Hn & _) _ _ _ _].
  set (c0 := ac_with_current (Some i) c). set (r1 := with_namespace env r).
  set (c1 := if py_bool (pget "namespace" r) then c0 else set_obj i (dset "namespace" (PStr (ambassador_namespace env)) r) c0).
  assert (Q1 : quiet i r1 c c1).
  { unfold c1, r1, with_namespace. destruct (py_bool _); constructor; try done. cbn. by rewrite list_insert_id. }
  assert (Hi1 : ac_objs c1 !! i = Some r1).
  { rewrite (qu_objs _ _ _ _ Q1). apply list_lookup_insert_eq. by eapply lookup_lt_Some. }
  pose proof (with_namespace_wf env r Hwf) as Hwf1. fold r1 in Hwf1.
  assert (Hk1 : dget "rkey" r1 = Some (PStr k)) by (by unfold r1; rewrite with_namespace_text).
  destruct (save_source_quiet i c1 r1 k Hi1 Hk1) as (c2 & Hs & Q2).
  assert (Hi2 : ac_objs c2 !! i = Some r1).
  { rewrite (qu_objs _ _ _ _ Q2). apply list_lookup_insert_eq. by eapply lookup_lt_Some. }
  destruct (validate_object_spec env i c2 r1 k Hi2 Hwf1 Hk1) as (r3 & c3 & Hval & Q3 & Hwf3 & Hk3).
  pose proof (quiet_trans _ _ _ _ _ _ (quiet_trans _ _ _ _ _ _ Q1 Q2) Q3) as Q.
  assert (Hkept : kept r r3).
  { intros k' Hk'. rewrite Hk3 by set_solver. apply with_namespace_text. set_solver. }
  assert (Hinv : invalid_because r1 = invalid_because r).
  { unfold invalid_because, reported, text. unfold r1. by rewrite !with_namespace_text by done. }
  assert (Htk : text "kind" r1 = kd) by (unfold text, r1; by rewrite with_namespace_text, Hkd).
  rewrite Hinv, Htk in Hval. unfold process. rewrite (deref_Some _ _ _ Hi). cbn [mbind res_bind].
  destruct r as [|p r]; [done|]. rewrite (getattr_Some _ _ _ Hv). cbn [mbind res_bind py_bool].
  assert (text "apiVersion" (p :: r) = v) as Htv by (unfold text; by rewrite Hv).
  assert (text "kind" (p :: r) = kd) as Htk0 by (unfold text; by rewrite Hkd).
  unfold verdict. rewrite Htv, Htk0.
  assert (Q0 : quiet i (p :: r) c c0) by (constructor; try done; by cbn; rewrite list_insert_id).
  destruct (str_bool v) eqn:Hvb; cbn [negb]; [|by exists (p :: r), c0].
  rewrite (getattr_Some _ _ _ Hkd). cbn [mbind res_bind py_bool].
  destruct (str_bool kd) eqn:Hkb; cbn [negb]; [|by exists (p :: r), c0].
  unfold dmem. rewrite Hn. cbn [negb]. fold c0. fold c1. rewrite Hs. cbn [mbind res_bind]. rewrite Hval. cbn [mbind res_bind].
  unfold invalid_because. rewrite Htv.
  destruct (negb (_ || _)); [by exists r3, c3|]. destruct (str_bool (reported (p :: r))); [by exists r3, c3|].
  exists r3, c3. split; [|done]. cbn [rs_ok status_OK RichStatus_init negb py_lower mbind res_bind py_text]. done.
Qed.

(** ** Loading a resource *)

Definition in_bucket (j : nat) (b : string) (c : Config) : Prop := ∃ k, dget k (bucket b c) = Some j.

(** What loading resource [i] does to the rest *)
Record load_step (i : nat) (c c' : Config) : Prop := {
  ls_wf : config_wf c';
  ls_errors : errors_grow c c';
  ls_len : length (ac_objs c) ≤ length (ac_objs c');
  ls_objs : ∀ j, j ≠ i → j < length (ac_objs c) → ac_objs c' !! j = ac_objs c !! j;
  ls_new : ∀ b j, in_bucket j b c' → in_bucket j b c ∨ j = i ∨ length (ac_objs c) ≤ j
}.

Lemma load_step_refl i c : config_wf c → load_step i c c.
Proof. intros. constructor; [done|reflexivity|done|done|]. auto. Qed.

Lemma quiet_step i r' c c' : quiet i r' c c' → config_wf c → obj_ok r' → load_step i c c'.
Proof.
  intros Q Hwf Hr. constructor; [by eapply quiet_wf|by eapply quiet_grow| | |].
  - rewrite (qu_objs _ _ _ _ Q), length_insert. done.
  - intros j Hj _. rewrite (qu_objs _ _ _ _ Q). by apply list_lookup_insert_ne.
  - intros b j Hb. left. unfold in_bucket, bucket in *. by rewrite <- (qu_config _ _ _ _ Q).
Qed.

Lemma load_step_trans i c1 c2 c3 : load_step i c1 c2 → load_step i c2 c3 → load_step i c1 c3.
Proof.
  intros [W1 E1 L1 O1 N1] [W2 E2 L2 O2 N2]. constructor; [done|by transitivity c2|lia| |].
  - intros j Hj Hlt. rewrite O2 by (done || lia). auto.
  - intros b j Hb. destruct (N2 b j Hb) as [H|[H|H]]; [auto|auto|right; right; lia].
Qed.

Lemma filed_step b key i r' c c' : filed_as b key i r' c c' → load_step i c c'.
Proof.
  intros [W C O E]. constructor; [done|done|by rewrite O, length_insert| |].
  - intros j Hj _. rewrite O. by apply list_lookup_insert_ne.
  - intros b' j [k Hk]. unfold bucket, dget_default in Hk. rewrite C, dget_dset in Hk.
    case_bool as Hb; [subst; cbn in Hk|left; exists k; exact Hk]. rewrite dget_dset in Hk.
    case_bool; [right; left; congruence|left; exists k; exact Hk].
Qed.

Lemma bucket_quiet i r' c c' b : quiet i r' c c' → bucket b c' = bucket b c.
Proof. intros Q. unfold bucket. by rewrite (qu_config _ _ _ _ Q). Qed.

Lemma current_step i c o : config_wf c → load_step i c (ac_with_current o c).
Proof. intros [Ho Hb Hf]. constructor; [by constructor|intros k; exists []; by rewrite app_nil_r|done|done|]. auto. Qed.

Lemma store_by_name env i c r b n ns : config_wf c → ac_objs c !! i = Some r → by_name r = Some b →
  dget "kind" r = Some (PStr (text "kind" r)) → dget "name" r = Some (PStr n) → dget "namespace" r = Some ns →
  ∃ r' c', store_resource env (text "kind" r) i c = Ok c' ∧ renamed r r' (store_key c b n ns) ∧ filed_as b (store_key c b n ns) i r' c c'.
Proof.
  intros Hwf Hi Hb Hk Hn Hns. unfold store_resource. unfold by_name in Hb.
  destruct (dget (lower (text "kind" r)) StorageByKind) as [b'|]; [injection Hb as ->; by apply safe_store_filed|].
  case_bool as Hspec; [done|]. injection Hb as <-. unfold handler.
  rewrite !bool_decide_false by (intros E; rewrite E in Hspec; apply Hspec; listed).
  unfold save_object. rewrite (deref_Some _ _ _ Hi). cbn [mbind res_bind]. rewrite (getattr_Some _ _ _ Hk). cbn [mbind res_bind as_str].
  by apply safe_store_filed.
Qed.

(** Filing among Secrets, Ingresses and Services *)
Lemma special_filed b key i r' c c' : b ∈ special_buckets → filed_as b key i r' c c' →
  load_step i c c' ∧ (∀ b', b' ∉ special_buckets → dget b' (ac_config c') = dget b' (ac_config c)).
Proof.
  intros Hb F. split; [by eapply filed_step|]. intros b' Hb'. rewrite (fa_config _ _ _ _ _ _ F). apply dget_dset_ne. by intros ->.
Qed.

Lemma handle_module_spec env i c r d n ns : config_wf c → ac_objs c !! i = Some r → resource_wf r →
  str_bool (text "apiVersion" r) = true → dget "name" r = Some (PStr n) → dget "namespace" r = Some ns →
  dget "config" r = Some (PDict d) → dict_ok d → (∀ k, k ∈ reserved_keys → dget k d = None) →
  ∃ m m' c', let c1 := ac_with_objs (λ l, l ++ [m]) c in
    handle_module env i c = Ok c' ∧ config_wf c1
    ∧ (∀ k, k ∉ "_errors" :: "_errored" :: reserved_keys → dget k m' = dget k d)
    ∧ filed_as "modules" (store_key c1 "modules" n ns) (length (ac_objs c)) m' c1 c'.
Proof.
  intros Hwf Hi Hrw Hv Hn Hns Hcfg Hdok Hres.
  destruct (module_resource r d Hrw Hv) as (m & Hm & Hmok & Hmn & Hmns & Hmk); [by unfold dmem; rewrite Hns|done..|].
  unfold handle_module. rewrite (deref_Some _ _ _ Hi). cbn [mbind res_bind]. rewrite (getattr_Some _ _ _ Hcfg).
  cbn [mbind res_bind as_dict]. unfold dmem. rewrite Hres by listed. rewrite Hm. cbn [mbind res_bind].
  set (c1 := ac_with_objs (λ l, l ++ [m]) c).
  assert (Hwf1 : config_wf c1).
  { destruct Hwf as [Ho Hb Hf]. constructor; [|intros b k j Hj; cbn; rewrite length_app; specialize (Hb b k j Hj); lia|done].
    apply Forall_app. split; [done|]. by apply Forall_singleton. }
  destruct (safe_store_filed env "modules" (length (ac_objs c)) c1 m n ns) as (m' & c' & Hs & [Hren1 Hren2] & Hf);
    [done|by cbn; rewrite lookup_app_r, Nat.sub_diag by lia|by rewrite Hmn|by rewrite Hmns|].
  exists m, m', c'. split; [done|]. split; [done|]. split; [|done].
  intros k Hk. rewrite Hren2 by (unlisted Hk). by apply Hmk.
Qed.

Lemma store_special env i c r n ns : config_wf c → ac_objs c !! i = Some r → resource_wf r → by_name r = None →
  str_bool (text "apiVersion" r) = true → dget "name" r = Some (PStr n) → dget "namespace" r = Some ns →
  ∃ c', store_resource env (text "kind" r) i c = Ok c' ∧ load_step i c c'
    ∧ (∀ b, b ∉ special_buckets → dget b (ac_config c') = dget b (ac_config c)).
Proof.
  intros Hwf Hi Hrw Hb Hv Hn Hns. destruct (rw_rkey _ Hrw) as (k & Hk & _). destruct (rw_kind _ Hrw) as [kd Hkd].
  unfold store_resource. unfold by_name in Hb. destruct (dget (lower (text "kind" r)) StorageByKind) as [b'|]; [done|].
  case_bool as Hspec; [|done]. unfold handler.
  case_bool as H1; [|case_bool as H2; [|case_bool as H3; [|case_bool as H4]]].
  - destruct (rw_config _ Hrw H1) as (d & Hcfg & Hdok & Hres).
    destruct (handle_module_spec env i c r d n ns) as (m & m' & c' & Hs & Hwf1 & _ & F); try done. cbv zeta in F.
    destruct (special_filed "modules" _ _ _ _ _ ltac:(listed) F) as [[W E L O N] C]. exists c'. split; [done|]. cbn [ac_objs ac_with_objs] in *.
    rewrite length_app in *. split; [|exact C]. constructor; [done|exact E|cbn in *; lia| |].
    + intros j Hj Hlt. rewrite O by (cbn in *; lia). by apply lookup_app_l.
    + intros b j Hin. destruct (N b j Hin) as [H|[H|H]]; [left; exact H|right; right; lia|right; right; cbn in H; lia].
  - destruct (store_by_rkey_filed env "secrets" i c r k Hwf Hi Hk) as (c' & Hs & F). exists c'. split; [done|].
    eapply special_filed; [|exact F]. listed.
  - destruct (store_by_rkey_filed env "ingresses" i c r k Hwf Hi Hk) as (c' & Hs & F). exists c'. split; [done|].
    eapply special_filed; [|exact F]. listed.
  - destruct (store_by_rkey_filed env "service" i c r k Hwf Hi Hk) as (c' & Hs & F). unfold handle_service. rewrite Hs. cbn [mbind res_bind].
    assert (Hi' : ac_objs c' !! i = Some r) by (rewrite (fa_objs _ _ _ _ _ _ F), list_lookup_insert_eq; [done|by eapply lookup_lt_Some]).
    rewrite (deref_Some _ _ _ Hi'). cbn [mbind res_bind]. unfold Resource_str.
    rewrite (getattr_Some _ _ _ Hkd), (getattr_Some _ _ _ Hk). cbn [mbind res_bind]. eexists. split; [done|].
    destruct (special_filed "service" _ _ _ _ _ ltac:(listed) F) as [S C]. destruct (py_bool _); [|done]. destruct S as [[Wo Wb Wf] E L O N].
    by split; [constructor|].
  - exfalso. unfold special_kinds in Hspec. rewrite !elem_of_cons, elem_of_nil in Hspec. tauto.
Qed.

Lemma post_error_step rc i c r k : config_wf c → ac_objs c !! i = Some r → dget "rkey" r = Some (PStr k) →
  ∃ c', post_error_richstatus rc (Some i) None c = Ok c' ∧ load_step i c c' ∧ ac_config c' = ac_config c ∧ ac_objs c' = ac_objs c
    ∧ RichStatus_as_dict rc ∈ posted k c'.
Proof.
  intros Hwf Hi Hk. unfold post_error_richstatus, post_rkey. cbn [environ_bool]. rewrite (deref_Some _ _ _ Hi). cbn [mbind res_bind].
  rewrite (getattr_Some _ _ _ Hk). cbn [mbind res_bind as_str]. eexists. split; [done|]. split; [|split; [done|split; [done|]]].
  - constructor; [by apply posts_wf|apply posts_grow|done|done|auto].
  - unfold posted, dget_default at 1. cbn. rewrite dget_dset_eq. cbn. set_solver.
Qed.

(** What loading a resource comes to *)
Definition outcome (env : config_env) (i : nat) (r : resource) (c c' : Config) : Prop :=
  if good_ambassador_id env r then
    match verdict r, by_name r with
    | Some e, _ => ac_config c' = ac_config c ∧ RichStatus_as_dict (fromError env e) ∈ posted (text "rkey" r) c'
    | None, Some b =>
        let key := store_key c b (text "name" r) (PStr (namespace_of env r)) in
        ac_config c' = dset b (dset key i (bucket b c)) (ac_config c)
        ∧ ∃ r', ac_objs c' !! i = Some r' ∧ dget "name" r' = Some (PStr key)
            ∧ dget "namespace" r' = Some (PStr (namespace_of env r)) ∧ kept r r'
    | None, None => ∀ b, b ∉ special_buckets → dget b (ac_config c') = dget b (ac_config c)
    end
  else c' = c.

Lemma store_key_quiet i r' c c' b n ns : quiet i r' c c' → ¬ in_bucket i b c → store_key c' b n ns = store_key c b n ns.
Proof.
  intros Q Hfresh. unfold store_key. rewrite (bucket_quiet _ _ _ _ b Q). destruct (dget n (bucket b c)) as [j|] eqn:Hj; [|done].
  rewrite (qu_objs _ _ _ _ Q), list_lookup_insert_ne; [done|]. intros ->. apply Hfresh. by exists n.
Qed.

Lemma load_resource_spec env i c r : config_wf c → ac_objs c !! i = Some r → resource_wf r → (∀ b, ¬ in_bucket i b c) →
  ∃ c', load_resource env c i = Ok c' ∧ load_step i c c' ∧ outcome env i r c c'.
Proof.
  intros Hwf Hi Hrw Hfresh. unfold load_resource, outcome. rewrite (deref_Some _ _ _ Hi). cbn [mbind res_bind].
  destruct (good_ambassador_id env r); cbn [negb]; [|exists c; by split_and_all; [|apply load_step_refl|]].
  pose proof Hrw as [(k & Hk & _) (l & Hl) _ (v & Hv) (kd & Hkd) (n & Hn & _) _ _ _ _].
  rewrite (getattr_Some _ _ _ Hl). cbn [mbind res_bind]. pose proof (config_wf_obj _ _ _ Hwf Hi) as Hok.
  pose proof (process_spec env i c r Hi Hrw) as HP. assert (text "rkey" r = k) as -> by (unfold text; by rewrite Hk).
  assert (text "name" r = n) as -> by (unfold text; by rewrite Hn).
  destruct (verdict r) as [e|] eqn:Hver.
  - destruct HP as (r' & c1 & HP & Hkept & Q). rewrite HP. cbn [mbind res_bind rs_ok fromError RichStatus_init].
    assert (Hi1 : ac_objs c1 !! i = Some r') by (rewrite (qu_objs _ _ _ _ Q), list_lookup_insert_eq; [done|by eapply lookup_lt_Some]).
    destruct (post_error_step (fromError env e) i c1 r' k) as (c' & Hp & S & Hc & _ & He);
      [by eapply quiet_wf, kept_ok|done|rewrite Hkept; [done|set_solver]|].
    exists c'. split; [done|]. split; [|split; [by rewrite Hc, (qu_config _ _ _ _ Q)|done]].
    eapply load_step_trans; [eapply quiet_step; [exact Q|done|by eapply kept_ok]|done].
  - destruct HP as (r' & c1 & HP & Q & Hrw' & Hr'). rewrite HP. set (r1 := with_namespace env r) in *.
    assert (Hkept : kept r r').
    { intros k' Hk'. rewrite Hr' by set_solver. apply with_namespace_text. set_solver. }
    assert (Hi1 : ac_objs c1 !! i = Some r') by (rewrite (qu_objs _ _ _ _ Q), list_lookup_insert_eq; [done|by eapply lookup_lt_Some]).
    assert (Hwf1 : config_wf c1) by (by eapply quiet_wf, kept_ok).
    assert (Hn' : dget "name" r' = Some (PStr n)) by (rewrite Hr' by done; unfold r1; by rewrite with_namespace_text).
    assert (Hns' : dget "namespace" r' = Some (PStr (namespace_of env r))) by (rewrite Hr' by done; by apply with_namespace_eq).
    assert (Htk : text "kind" r' = text "kind" r) by (unfold text; rewrite Hkept; [done|set_solver]).
    assert (Hbn : by_name r' = by_name r) by (unfold by_name; by rewrite Htk).
    assert (S1 : load_step i c c1) by (eapply quiet_step; [exact Q|done|by eapply kept_ok]).
    rewrite <- Htk, <- Hbn. destruct (by_name r') as [b|] eqn:Hb.
    + destruct (store_by_name env i c1 r' b n (PStr (namespace_of env r)) Hwf1 Hi1 Hb) as (r2 & c2 & Hs & [Hren1 Hren2] & F);
        [unfold text; rewrite Hkept, Hkd; [done|set_solver]|done|done|].
      rewrite Hs. cbn [mbind res_bind rs_ok status_OK RichStatus_init]. eexists. split; [done|].
      rewrite (store_key_quiet _ _ _ _ b n (PStr (namespace_of env r)) Q (Hfresh b)) in *. split; [|split].
      * eapply load_step_trans; [exact S1|]. eapply load_step_trans; [by eapply filed_step|]. apply current_step. by apply F.
      * cbn. by rewrite (fa_config _ _ _ _ _ _ F), (bucket_quiet _ _ _ _ b Q), (qu_config _ _ _ _ Q).
      * exists r2. split; [cbn; rewrite (fa_objs _ _ _ _ _ _ F); apply list_lookup_insert_eq; by eapply lookup_lt_Some|].
        split; [done|]. split; [by rewrite Hren2|]. intros k' Hk'. rewrite Hren2 by set_solver. auto.
    + destruct (store_special env i c1 r' n (PStr (namespace_of env r)) Hwf1 Hi1) as (c2 & Hs & S & C); try done.
      { unfold text. rewrite Hkept, Hv by set_solver. unfold verdict, text in Hver. rewrite Hv in Hver. by destruct (str_bool v). }
      rewrite Hs. cbn [mbind res_bind rs_ok status_OK RichStatus_init]. eexists. split; [done|]. split.
      * eapply load_step_trans; [exact S1|]. eapply load_step_trans; [done|]. apply current_step. by apply S.
      * intros b Hb'. cbn. by rewrite C, (qu_config _ _ _ _ Q).
Qed.

(** ** Loading all resources *)

(** Loading a list of resources, as an induction principle: a property that
    every outcome extends by one resource holds of the result. *)
Lemma load_fold env (P : list (nat * resource) → Config → Prop) :
  (∀ done_ c c' i r, P done_ c → config_wf c → ac_objs c !! i = Some r → resource_wf r → (∀ b, ¬ in_bucket i b c) →
     i ∉ done_.*1 → load_step i c c' → outcome env i r c c' → P (done_ ++ [(i, r)]) c') →
  ∀ rest done_ c, P done_ c → config_wf c → NoDup ((done_ ++ rest).*1) →
    (∀ i r, (i, r) ∈ rest → ac_objs c !! i = Some r ∧ resource_wf r ∧ ∀ b, ¬ in_bucket i b c) →
    ∃ c', fold_res (load_resource env) rest.*1 c = Ok c' ∧ config_wf c' ∧ P (done_ ++ rest) c'.
Proof.
  intros Hstep. induction rest as [|[i r] rest IH]; intros done_ c HP Hwf Hnd Hrest.
  - exists c. rewrite app_nil_r. done.
  - destruct (Hrest i r) as (Hi & Hrw & Hfresh); [by left|].
    destruct (load_resource_spec env i c r Hwf Hi Hrw Hfresh) as (c1 & Hl & S & O). change (((i, r) :: rest).*1) with (i :: rest.*1). cbn [fold_res].
    rewrite Hl. cbn [mbind res_bind].
    rewrite fmap_app in Hnd. cbn in Hnd. apply NoDup_app in Hnd as (Hnd1 & Hdis & [Hni Hnd2]%NoDup_cons).
    assert (Hid : i ∉ done_.*1) by (intros H; destruct (Hdis i H); by left).
    destruct (IH (done_ ++ [(i, r)]) c1) as (c' & Hf & Hwf' & HP'); [by eapply Hstep|apply S| | |].
    + rewrite !fmap_app. cbn. rewrite <- app_assoc. apply NoDup_app. split; [done|]. split; [|by apply NoDup_cons].
      intros x Hx. apply (Hdis x Hx).
    + intros j r' Hj. destruct (Hrest j r') as (Hj1 & Hj2 & Hj3); [by right|].
      assert (Hne : j ≠ i) by (intros ->; apply Hni, list_elem_of_fmap; by exists (i, r')).
      pose proof (lookup_lt_Some _ _ _ Hj1) as Hlt. split; [by rewrite (ls_objs _ _ _ S)|]. split; [done|].
      intros b Hb. destruct (ls_new _ _ _ S b j Hb) as [H|[H|H]]; [by eapply Hj3|done|lia].
    + exists c'. split; [done|]. rewrite <- app_assoc in HP'. done.
Qed.

(** The resources of a bucket filed by name: where they are, their names and
    namespaces *)
Definition entry (env : config_env) (b : string) (ir : nat * resource) : option (nat * string * string) :=
  if good_ambassador_id env ir.2 && bool_decide (verdict ir.2 = None) && bool_decide (by_name ir.2 = Some b)
  then Some (ir.1, text "name" ir.2, namespace_of env ir.2) else None.
Definition entries (env : config_env) (b : string) (l : list (nat * resource)) : list (nat * string * string) := omap (entry env b) l.

(** The key of an entry after the names [seen], and the keys of all *)
Definition entry_key (seen : list string) (e : nat * string * string) : string :=
  if bool_decide (e.1.2 ∈ seen) then e.1.2 +:+ "." +:+ e.2 else e.1.2.
Fixpoint filed_under (seen : list string) (es : list (nat * string * string)) : dict nat :=
  match es with
  | [] => []
  | e :: es => (entry_key seen e, e.1.1) :: filed_under (e.1.2 :: seen) es
  end.

Definition names_of (es : list (nat * string * string)) : list string := (λ e : nat * string * string, e.1.2) <$> es.
Definition dot : ascii := chr 46.
Definition plain_entries (es : list (nat * string * string)) : Prop :=
  (∀ e, e ∈ es → mem_char dot e.1.2 = false) ∧ NoDup ((λ e : nat * string * string, (e.1.2, e.2)) <$> es).

Lemma entry_key_ext seen seen' e : (∀ x, x ∈ seen ↔ x ∈ seen') → entry_key seen e = entry_key seen' e.
Proof. intros H. unfold entry_key. by rewrite (bool_decide_ext _ _ (H _)). Qed.

Lemma filed_under_ext es : ∀ seen seen', (∀ x, x ∈ seen ↔ x ∈ seen') → filed_under seen es = filed_under seen' es.
Proof.
  induction es as [|e es IH]; intros seen seen' H; [done|]. cbn. f_equal; [by rewrite (entry_key_ext seen seen')|].
  apply IH. set_solver.
Qed.

Lemma filed_under_snoc es : ∀ seen e,
  filed_under seen (es ++ [e]) = filed_under seen es ++ [(entry_key (names_of es ++ seen) e, e.1.1)].
Proof.
  induction es as [|e' es IH]; intros seen e; [done|]. cbn. f_equal. rewrite IH. do 3 f_equal.
  apply entry_key_ext. set_solver.
Qed.

(** The keys of plain entries: a name without a dot is that of the first entry
    of that name, and a qualified name that of its entry. *)
Lemma filed_under_plain es : ∀ seen n j, (∀ e, e ∈ es → mem_char dot e.1.2 = false) → mem_char dot n = false →
  dget n (filed_under seen es) = Some j → n ∉ seen ∧ ∃ e, e ∈ es ∧ e.1.1 = j ∧ e.1.2 = n.
Proof.
  induction es as [|e es IH]; intros seen n j Hp Hn; [done|]. cbn. unfold entry_key. case_bool as Hk.
  - case_bool as Hs; [subst; exfalso|intros [= <-]; subst; split; [done|exists e; set_solver]].
    assert (mem_char dot (e.1.2 +:+ "." +:+ e.2) = true) by (apply mem_char_spec; by eexists _, _). congruence.
  - intros H. destruct (IH (e.1.2 :: seen) n j) as (H1 & e' & H2 & H3); [set_solver|done|done|]. split; [set_solver|].
    exists e'. set_solver.
Qed.

Lemma filed_under_absent es : ∀ seen n, dget n (filed_under seen es) = None → n ∉ seen → n ∉ names_of es.
Proof.
  induction es as [|e es IH]; intros seen n; cbn; [set_solver|]. unfold entry_key. case_bool as Hk; [done|]. intros H Hs.
  assert (n ≠ e.1.2) by (intros ->; by rewrite bool_decide_false in Hk). specialize (IH _ n H). set_solver.
Qed.

Lemma dot_split n s n' s' : mem_char dot n = false → mem_char dot n' = false →
  n +:+ "." +:+ s = n' +:+ "." +:+ s' → n = n' ∧ s = s'.
Proof.
  intros Hn Hn' E. pose proof (proj2 (split1_Some dot (n +:+ "." +:+ s) n s) (conj eq_refl Hn)) as H1.
  rewrite E, (proj2 (split1_Some dot (n' +:+ "." +:+ s') n' s') (conj eq_refl Hn')) in H1. naive_solver.
Qed.

Lemma filed_under_qualified es : ∀ seen n s, (∀ e, e ∈ es → mem_char dot e.1.2 = false) → mem_char dot n = false →
  (n, s) ∉ (λ e : nat * string * string, (e.1.2, e.2)) <$> es → dget (n +:+ "." +:+ s) (filed_under seen es) = None.
Proof.
  induction es as [|e es IH]; intros seen n s Hp Hn Hni; [done|]. cbn. rewrite bool_decide_false; [apply IH; set_solver|].
  assert (He : mem_char dot e.1.2 = false) by (apply Hp; by left).
  unfold entry_key. case_bool as Hs; intros E.
  - apply dot_split in E as [-> ->]; [|done..]. set_solver.
  - assert (mem_char dot (n +:+ "." +:+ s) = true) by (apply mem_char_spec; by eexists _, _). congruence.
Qed.

(** The bucket of entries: there is none before the first. *)
Definition filed_bucket (es : list (nat * string * string)) : option (dict nat) :=
  match es with [] => None | _ => Some (filed_under [] es) end.

Lemma filed_bucket_snoc es e : filed_bucket (es ++ [e]) = Some (filed_under [] es ++ [(entry_key (names_of es) e, e.1.1)]).
Proof. assert (filed_bucket (es ++ [e]) = Some (filed_under [] (es ++ [e]))) as -> by (by destruct es). by rewrite filed_under_snoc, app_nil_r. Qed.

(** The bucket is exactly the reference filing of the entries so far. *)
Definition bucket_filed (env : config_env) (b : string) (l : list (nat * resource)) (c : Config) : Prop :=
  plain_entries (entries env b l) →
  dget b (ac_config c) = filed_bucket (entries env b l)
  ∧ ∀ i n ns, (i, n, ns) ∈ entries env b l →
      ∃ r', ac_objs c !! i = Some r' ∧ dget "namespace" r' = Some (PStr ns)
        ∧ (∃ key, dget "name" r' = Some (PStr key) ∧ (key, i) ∈ filed_under [] (entries env b l))
        ∧ ∃ r, (i, r) ∈ l ∧ kept r r'.

Lemma entries_snoc env b l ir :
  entries env b (l ++ [ir]) = entries env b l ++ match entry env b ir with Some e => [e] | None => [] end.
Proof. unfold entries. rewrite omap_app. cbn. by destruct (entry env b ir). Qed.

Lemma entries_elem env b l i n ns : (i, n, ns) ∈ entries env b l → ∃ r, (i, r) ∈ l ∧ entry env b (i, r) = Some (i, n, ns).
Proof.
  unfold entries. rewrite list_elem_of_omap. intros ([i' r] & Hin & He). exists r. unfold entry in He. destruct (_ && _) eqn:E in He; [|done].
  cbn in *. injection He as -> <- <-. split; [done|]. unfold entry. cbn. by rewrite E.
Qed.

(** With distinct plain entries [safe_store] files a resource as the reference
    does, under a key that is not taken. *)
Lemma store_key_entry c b es i n ns : plain_entries (es ++ [(i, n, ns)]) → bucket b c = filed_under [] es →
  (∀ j m ns', (j, m, ns') ∈ es → ∃ r', ac_objs c !! j = Some r' ∧ dget "namespace" r' = Some (PStr ns')) →
  store_key c b n (PStr ns) = entry_key (names_of es) (i, n, ns) ∧ dget (store_key c b n (PStr ns)) (bucket b c) = None.
Proof.
  intros [Hplain Hnd] Hb Hobjs. rewrite fmap_app in Hnd. apply NoDup_app in Hnd as (_ & Hdis & _).
  assert (Hn : mem_char dot n = false) by (apply (Hplain (i, n, ns)); set_solver).
  assert (Hnew : (n, ns) ∉ (λ e : nat * string * string, (e.1.2, e.2)) <$> es) by (intros H; apply (Hdis _ H); by left).
  assert (Hes : ∀ e, e ∈ es → mem_char dot e.1.2 = false) by (intros e He; apply Hplain; set_solver).
  unfold store_key. rewrite Hb. destruct (dget n (filed_under [] es)) as [j|] eqn:Hj.
  - destruct (filed_under_plain es [] n j Hes Hn Hj) as (_ & [[j' m] ns'] & Hin & Hj' & Hm). cbn in Hj', Hm. subst j' m.
    destruct (Hobjs _ _ _ Hin) as (r' & Hr' & Hns'). rewrite Hr'. cbn. unfold pget, dget_default. rewrite Hns'. cbn.
    assert (ns ≠ ns') by (intros ->; apply Hnew, list_elem_of_fmap; by exists (j, n, ns')).
    rewrite bool_decide_false by done. unfold entry_key. cbn. rewrite bool_decide_true.
    + split; [done|]. by apply filed_under_qualified.
    + apply list_elem_of_fmap. by exists (j, n, ns').
  - split; [|done]. unfold entry_key. cbn. rewrite bool_decide_false; [done|].
    eapply filed_under_absent; [exact Hj|]. by apply not_elem_of_nil.
Qed.

(** A resource that is not an entry of the bucket leaves it alone. *)
Lemma outcome_other env b i r c c' : b ∉ special_buckets → outcome env i r c c' → entry env b (i, r) = None →
  dget b (ac_config c') = dget b (ac_config c).
Proof.
  unfold outcome, entry. cbn. intros Hb O He. destruct (good_ambassador_id env r); [|by subst]. cbn in He.
  destruct (verdict r) as [e|]; [by destruct O as [-> _]|]. destruct (by_name r) as [b'|]; [|by apply O].
  destruct O as [-> _]. apply dget_dset_ne. intros ->. by rewrite !bool_decide_true in He.
Qed.

Lemma plain_entries_app es e : plain_entries (es ++ e) → plain_entries es.
Proof.
  intros [H1 H2]. split; [intros x Hx; apply H1; set_solver|]. rewrite fmap_app in H2. by apply NoDup_app in H2 as (? & _).
Qed.

Lemma bucket_filed_step env b done_ c c' i r : b ∉ special_buckets → bucket_filed env b done_ c → config_wf c →
  i ∉ done_.*1 → load_step i c c' → outcome env i r c c' → bucket_filed env b (done_ ++ [(i, r)]) c'.
Proof.
  intros Hb HI Hwf Hi S O. unfold bucket_filed. rewrite entries_snoc. intros Hplain.
  destruct (HI (plain_entries_app _ _ Hplain)) as [Hcfg Hobj].
  assert (Hold : ∀ j n ns, (j, n, ns) ∈ entries env b done_ → ∃ r', ac_objs c' !! j = Some r' ∧ dget "namespace" r' = Some (PStr ns)
             ∧ (∃ key, dget "name" r' = Some (PStr key) ∧ (key, j) ∈ filed_under [] (entries env b done_))
             ∧ ∃ r0, (j, r0) ∈ done_ ∧ kept r0 r').
  { intros j n ns Hin. destruct (Hobj j n ns Hin) as (r' & Hr' & H1 & H2 & H3). exists r'. split; [|done].
    rewrite (ls_objs _ _ _ S); [done| |by eapply lookup_lt_Some]. intros ->. destruct H3 as (r0 & Hr0 & _).
    apply Hi, list_elem_of_fmap. by exists (i, r0). }
  destruct (entry env b (i, r)) as [[[i' n] ns]|] eqn:He.
  - assert (He' := He). unfold entry in He'. cbn in He'. destruct (good_ambassador_id env r) eqn:Hg; [|done].
    case_bool as Hv; [|done]. case_bool as Hbn; [|done]. cbn in He'. injection He' as <- <- <-.
    unfold outcome in O. rewrite Hg, Hv, Hbn in O. destruct O as [Hc (r' & Hr' & Hname & Hns & Hkept)].
    assert (Hbk : bucket b c = filed_under [] (entries env b done_)).
    { unfold bucket, dget_default. rewrite Hcfg. by destruct (entries env b done_). }
    destruct (store_key_entry c b _ i _ _ Hplain Hbk) as [Hkey Hfresh].
    { intros j m ns' Hin. destruct (Hobj j m ns' Hin) as (r0 & Hr0 & H1 & _). by exists r0. }
    rewrite filed_bucket_snoc, filed_under_snoc, app_nil_r, <- Hkey. split.
    + rewrite Hc, dget_dset_eq, dset_fresh by (by apply dmem_false). by rewrite Hbk.
    + intros j m ns' [Hin|Hin]%elem_of_app.
      * destruct (Hold j m ns' Hin) as (r0 & H0 & H1 & (key & H2 & H3) & (r1 & H4 & H5)). exists r0. split_and_all; [done|done| |].
        -- exists key. set_solver.
        -- exists r1. set_solver.
      * apply list_elem_of_singleton in Hin as [= -> -> ->]. exists r'. split_and_all; [done|done| |].
        -- eexists. split; [exact Hname|]. set_solver.
        -- exists r. split; [set_solver|done].
  - rewrite app_nil_r. rewrite (outcome_other env b i r c c' Hb O He). split; [done|].
    intros j n ns Hin. destruct (Hold j n ns Hin) as (r0 & H0 & H1 & H2 & (r1 & H4 & H5)). exists r0. split_and_all; [done|done|done|].
    exists r1. set_solver.
Qed.

(** Refused resources so far: their error is posted under their key, and they
    are in no bucket. *)
Definition refused_reported (env : config_env) (l : list (nat * resource)) (c : Config) : Prop :=
  ∀ i r e, (i, r) ∈ l → good_ambassador_id env r = true → verdict r = Some e →
    RichStatus_as_dict (fromError env e) ∈ posted (text "rkey" r) c ∧ i < length (ac_objs c) ∧ ∀ b, ¬ in_bucket i b c.

Lemma refused_reported_step env done_ c c' i r : refused_reported env done_ c → config_wf c → ac_objs c !! i = Some r →
  (∀ b, ¬ in_bucket i b c) → i ∉ done_.*1 → load_step i c c' → outcome env i r c c' → refused_reported env (done_ ++ [(i, r)]) c'.
Proof.
  intros HI Hwf Hir Hfresh Hi S O j r0 e [Hin|Hin]%elem_of_app Hg Hv.
  - destruct (HI j r0 e Hin Hg Hv) as (H1 & H2 & H3). split_and_all.
    + destruct (ls_errors _ _ _ S (text "rkey" r0)) as [l ->]. set_solver.
    + pose proof (ls_len _ _ _ S). lia.
    + intros b Hb. destruct (ls_new _ _ _ S b j Hb) as [H|[->|H]]; [by eapply H3| |lia].
      apply Hi, list_elem_of_fmap. by exists (i, r0).
  - apply list_elem_of_singleton in Hin as [= -> ->]. unfold outcome in O. rewrite Hg, Hv in O. destruct O as [Hc He].
    split_and_all; [done|pose proof (ls_len _ _ _ S); apply lookup_lt_Some in Hir; lia|].
    intros b. unfold in_bucket, bucket. rewrite Hc. apply Hfresh.
Qed.

(** ** Loading into a new configuration *)

Lemma Config_init_wf env : ∃ c0, Config_init env = Ok c0 ∧ config_wf c0 ∧ ac_config c0 = [] ∧ ac_objs c0 = [internal_resource; diagnostics_resource].
Proof.
  eexists. split; [reflexivity|]. split; [|done]. constructor; [|done|done].
  repeat constructor; by eexists.
Qed.

(** The resources with their places in the store *)
Definition placed (c0 : Config) (rs : list resource) : list (nat * resource) := zip (seq (length (ac_objs c0)) (length rs)) rs.

Lemma load_all_ind env rs c0 (P : list (nat * resource) → Config → Prop) : Config_init env = Ok c0 → Forall resource_wf rs →
  (∀ c, ac_config c = [] → P [] c) →
  (∀ done_ c c' i r, P done_ c → config_wf c → ac_objs c !! i = Some r → resource_wf r → (∀ b, ¬ in_bucket i b c) →
     i ∉ done_.*1 → load_step i c c' → outcome env i r c c' → P (done_ ++ [(i, r)]) c') →
  ∃ c', load_all env rs c0 = Ok c' ∧ config_wf c' ∧ P (placed c0 rs) c'.
Proof.
  intros H0 Hrs HP0 Hstep. destruct (Config_init_wf env) as (c & Hc & Hwf & Hcfg & Hobjs). assert (c = c0) as -> by congruence.
  set (c1 := ac_with_objs (λ l, l ++ rs) c0).
  assert (Hb : ∀ b, bucket b c1 = []) by (intros b; unfold bucket; cbn; by rewrite Hcfg).
  assert (Hfst : (placed c0 rs).*1 = seq (length (ac_objs c0)) (length rs)) by (apply fst_zip; by rewrite length_seq).
  assert (Hwf1 : config_wf c1).
  { destruct Hwf as [Ho _ Hf]. constructor; [apply Forall_app; split; [done|]|intros b k i; by rewrite Hb|done].
    eapply Forall_impl; [exact Hrs|]. intros r [(k & Hk & _) (l & Hl) _ _ (kd & Hkd) _ _ _ _ _]. split; [by eexists|split; by eexists]. }
  destruct (load_fold env P Hstep (placed c0 rs) [] c1) as (c' & Hf & Hwf' & HP); [by apply HP0|done| | |].
  - cbn. rewrite Hfst. apply NoDup_seq.
  - intros i r Hin. assert (Hi : rs !! (i - length (ac_objs c0)) = Some r ∧ length (ac_objs c0) ≤ i).
    { apply list_elem_of_lookup in Hin as [k Hk]. unfold placed in Hk. rewrite lookup_zip_with in Hk.
      destruct (seq _ _ !! k) as [x|] eqn:Ex; [|done]. destruct (rs !! k) as [y|] eqn:Ey; [|done]. cbn in Hk. injection Hk as -> ->.
      apply lookup_seq in Ex as [-> _]. split; [by replace (_ + k - _) with k by lia|lia]. }
    destruct Hi as [Hi Hle]. split; [cbn; by rewrite lookup_app_r|]. split; [by eapply Forall_lookup_1|].
    intros b [k Hk]. by rewrite Hb in Hk.
  - exists c'. split; [|done]. unfold load_all. fold c1. rewrite <- Hfst, Hf. cbn [mbind res_bind].
    by rewrite (cw_fatal _ Hwf').
Qed.

(** What the buckets hold after loading *)
Lemma load_all_files env rs c0 b : Config_init env = Ok c0 → Forall resource_wf rs → b ∉ special_buckets →
  plain_entries (entries env b (placed c0 rs)) →
  ∃ c', load_all env rs c0 = Ok c'
    ∧ dget b (ac_config c') = filed_bucket (entries env b (placed c0 rs))
    ∧ ∀ i n ns, (i, n, ns) ∈ entries env b (placed c0 rs) →
        ∃ r', ac_objs c' !! i = Some r' ∧ dget "namespace" r' = Some (PStr ns)
          ∧ (∃ key, dget "name" r' = Some (PStr key) ∧ (key, i) ∈ filed_under [] (entries env b (placed c0 rs)))
          ∧ ∃ r, (i, r) ∈ placed c0 rs ∧ kept r r'.
Proof.
  intros H0 Hrs Hb Hplain. destruct (load_all_ind env rs c0 (bucket_filed env b) H0 Hrs) as (c' & Hl & _ & HP).
  - intros c Hc _. rewrite Hc. split; [done|]. set_solver.
  - intros done_ c c' i r HP Hwf Hi _ _ Hni S O. by eapply bucket_filed_step.
  - exists c'. split; [done|]. by apply HP.
Qed.

(** C4. Loading resources into a new configuration always succeeds, and every
    bucket of resources that are filed by name holds exactly the resources that
    are meant for this installation and are not refused, in order: the first of
    a name under its name, later ones of other namespaces under the name
    qualified by the namespace.  A filed resource has the key as its name, its
    namespace, and otherwise the attributes it came with.  This is for resources
    that differ in name or namespace and names without dots. *)
Theorem resources_filed env rs c0 b : Config_init env = Ok c0 → Forall resource_wf rs → b ∉ special_buckets →
  plain_entries (entries env b (placed c0 rs)) →
  ∃ c', load_all env rs c0 = Ok c'
    ∧ dget b (ac_config c') = filed_bucket (entries env b (placed c0 rs))
    ∧ ∀ i n ns, (i, n, ns) ∈ entries env b (placed c0 rs) →
        ∃ r', ac_objs c' !! i = Some r' ∧ dget "namespace" r' = Some (PStr ns)
          ∧ (∃ key, dget "name" r' = Some (PStr key) ∧ (key, i) ∈ filed_under [] (entries env b (placed c0 rs)))
          ∧ ∃ r, (i, r) ∈ placed c0 rs ∧ kept r r'.
Proof. apply load_all_files. Qed.

(** C5. A resource that is meant for this installation and is refused is filed
    nowhere, and the reason is posted as an error under its key; loading goes
    on with the other resources. *)
Theorem refused_resources_reported env rs c0 : Config_init env = Ok c0 → Forall resource_wf rs →
  ∃ c', load_all env rs c0 = Ok c'
    ∧ ∀ i r e, (i, r) ∈ placed c0 rs → good_ambassador_id env r = true → verdict r = Some e →
        RichStatus_as_dict (fromError env e) ∈ posted (text "rkey" r) c' ∧ ∀ b, ¬ in_bucket i b c'.
Proof.
  intros H0 Hrs. destruct (load_all_ind env rs c0 (refused_reported env) H0 Hrs) as (c' & Hl & _ & HP).
  - intros c Hc i r e Hin. set_solver.
  - intros done_ c c' i r HP Hwf Hi _ Hfresh Hni S O. by eapply refused_reported_step.
  - exists c'. split; [done|]. intros i r e Hin Hg Hv. destruct (HP i r e Hin Hg Hv) as (H1 & _ & H3). done.
Qed.

(** ** Examples *)

Definition demo_env : config_env := mkCEnv [] "host" "1" (λ _, None) [].
Definition demo_resource (kind rkey name namespace apiVersion : string) : resource :=
  [("rkey", PStr rkey); ("location", PStr rkey); ("kind", PStr kind); ("serialization", PNone); ("_referenced_by", PDict []);
   ("name", PStr name); ("namespace", PStr namespace); ("apiVersion", PStr apiVersion)].
Definition demo_mapping (rkey name namespace : string) : resource :=
  demo_resource "Mapping" rkey name namespace "getambassador.io/v3alpha1".
Definition demo_aconf : Config := match Config_init demo_env with Ok c => c | Raise _ => mkAconf [] None PNone [] [] [] [] [] [] 0 "x" [] [] [] end.

Lemma demo_resource_wf kind rkey name namespace v : str_bool rkey = true → str_bool name = true → lower kind ≠ "module" →
  resource_wf (demo_resource kind rkey name namespace v).
Proof.
  intros H1 H2 H3. constructor.
  1-6: by eexists.
  - right. by eexists.
  - by left.
  - repeat (apply NoDup_cons; split; [listed|]). by apply NoDup_nil_2.
  - done.
Qed.

Lemma resources_filed_witness :
  ∃ c', load_all demo_env [demo_mapping "a.x.1" "a" "x"; demo_mapping "a.y.1" "a" "y"] demo_aconf = Ok c'
    ∧ dget "mappings" (ac_config c') = Some [("a", 2); ("a.y", 3)].
Proof.
  destruct (resources_filed demo_env [demo_mapping "a.x.1" "a" "x"; demo_mapping "a.y.1" "a" "y"] demo_aconf "mappings")
    as (c' & Hl & Hb & _).
  - reflexivity.
  - repeat (constructor; [by apply demo_resource_wf|]). constructor.
  - by apply (bool_decide_eq_false_1 _).
  - split; [|by apply (bool_decide_eq_true_1 _)]. intros e He. vm_compute in He. set_solver.
  - exists c'. split; [exact Hl|]. rewrite Hb. reflexivity.
Defined.

Lemma refused_resources_reported_witness :
  ∃ c', load_all demo_env [demo_mapping "a.x.1" "a" "x"; demo_resource "Host" "h.x.1" "h" "x" "v1"] demo_aconf = Ok c'
    ∧ RichStatus_as_dict (fromError demo_env "apiVersion v1 unsupported") ∈ posted "h.x.1" c' ∧ ¬ in_bucket 3 "hosts" c'.
Proof.
  destruct (refused_resources_reported demo_env [demo_mapping "a.x.1" "a" "x"; demo_resource "Host" "h.x.1" "h" "x" "v1"] demo_aconf)
    as (c' & Hl & H).
  - reflexivity.
  - repeat (constructor; [by apply demo_resource_wf|]). constructor.
  - exists c'. split; [exact Hl|].
    destruct (H 3 (demo_resource "Host" "h.x.1" "h" "x" "v1") "apiVersion v1 unsupported") as [H1 H2].
    + right. left.
    + reflexivity.
    + reflexivity.
    + split; [exact H1|apply H2].
Defined.

(** ** Where resources get lost *)

(** A name that occurs in several namespaces: a duplicate is only found in the
    first of them; in the others it replaces the resource without an error. *)
Lemma duplicate_in_second_namespace :
  ∃ c', load_all demo_env [demo_mapping "1" "a" "x"; demo_mapping "2" "a" "y"; demo_mapping "3" "a" "y"] demo_aconf = Ok c'
    ∧ dget "mappings" (ac_config c') = Some [("a", 2); ("a.y", 4)] ∧ ac_errors c' = [].
Proof. eexists. split; [vm_compute; reflexivity|]. split; reflexivity. Qed.

(** A qualified name can be the name of another resource, which is replaced
    without an error. *)
Lemma qualified_name_replaces :
  ∃ c', load_all demo_env [demo_mapping "1" "a" "x"; demo_mapping "2" "a.y" "x"; demo_mapping "3" "a" "y"] demo_aconf = Ok c'
    ∧ dget "mappings" (ac_config c') = Some [("a", 2); ("a.y", 4)] ∧ ac_errors c' = [].
Proof. eexists. split; [vm_compute; reflexivity|]. split; reflexivity. Qed.

(** The key an error is posted for is dropped when the error is a text. *)
Lemma text_error_loses_rkey env msg rkey c : ac_current c = None →
  post_error_string env msg None (Some rkey) c
  = Ok (ac_with_posts (ac_sources c) (dset "-global-" (posted "-global-" c ++ [RichStatus_as_dict (fromError env msg)]) (ac_errors c))
          (ac_notices c) c).
Proof. intros Hc. unfold post_error_string, post_error_richstatus, post_rkey. cbn [environ_bool]. by rewrite Hc. Qed.

(** A refused resource stays the current one, so later errors that are about no
    resource are posted under its key. *)
Lemma refused_stays_current :
  ∃ c c', load_all demo_env [demo_resource "Host" "h.x.1" "h" "x" "v1"] demo_aconf = Ok c
    ∧ post_error_string demo_env "oops" None None c = Ok c' ∧ length (posted "h.x.1" c') = 2 ∧ posted "-global-" c' = [].
Proof. eexists _, _. split; [vm_compute; reflexivity|]. split; [vm_compute; reflexivity|]. split; reflexivity. Qed.
