(* ===== verification/Fetch.v ===== *)
(** * Fetched objects ([fetch/k8sobject.py], [fetch/resource.py])

    An object of Kubernetes is its dictionary; its API version, kind, name and
    namespace are texts.  The resource manager turns what the processors emit
    into resources, with the configuration it posts errors to and the location
    it is at.  The YAML and JSON texts of a value, the text of a [TypeError],
    the parsing of durations and the time are parameters. *)

From S2P Require Import Prelude PyStr PyVal Utils Location Resource ServiceName PyText HTTPMapping Group Config.

Record fetch_env : Type := mkFEnv {
  fe_config : config_env;
  fe_dump_yaml : pyval → string;
  fe_dump_json : pyval → string;
  fe_type_error : dict pyval → string;  (* of constructing a resource with these attributes *)
  fe_duration_ms : pyval → res Z;       (* int(durationpy.from_str(v).total_seconds() * 1000) *)
  fe_utcnow : string
}.

(** ** [KubernetesGVK] and [KubernetesObjectKey] *)

Record KubernetesGVK : Type := mkGVK { gvk_api_version : string; gvk_kind : string }.
#[export] Instance KubernetesGVK_eq_dec : EqDecision KubernetesGVK.
Proof. solve_decision. Defined.

Definition slash : ascii := chr 47.

Definition api_group (g : KubernetesGVK) : option string := fst <$> split1 slash (gvk_api_version g).
Definition gvk_version (g : KubernetesGVK) : string :=
  match split1 slash (gvk_api_version g) with Some (_, v) => v | None => gvk_api_version g end.
Definition gvk_domain (g : KubernetesGVK) : string :=
  match api_group g with
  | Some group => if str_bool group then lower (gvk_kind g) +:+ "." +:+ group else lower (gvk_kind g)
  | None => lower (gvk_kind g)
  end.
Definition for_ambassador (kind version : string) : KubernetesGVK := mkGVK ("getambassador.io/" +:+ version) kind.
Definition for_knative_networking (kind : string) : KubernetesGVK := mkGVK "networking.internal.knative.dev/v1alpha1" kind.

Record KubernetesObjectKey : Type := mkKey { key_gvk : KubernetesGVK; key_namespace : option string; key_name : string }.
#[export] Instance KubernetesObjectKey_eq_dec : EqDecision KubernetesObjectKey.
Proof. solve_decision. Defined.

(** ** [KubernetesObject] *)

Notation k8s_object := (dict pyval) (only parsing).

Definition k8s_gvk (obj : k8s_object) : res KubernetesGVK :=
  v ← dget_exn "apiVersion" obj; v ← as_str v; k ← dget_exn "kind" obj; k ← as_str k; Ok (mkGVK v k).
Definition k8s_metadata (obj : k8s_object) : res (dict pyval) := m ← dget_exn "metadata" obj; as_dict m.
Definition k8s_name (obj : k8s_object) : res string := m ← k8s_metadata obj; n ← dget_exn "name" m; as_str n.

(** [KubernetesObject(delegate)]: a missing key is a [ValueError]. *)
Definition KubernetesObject_init (delegate : dict pyval) : res k8s_object :=
  match (g ← k8s_gvk delegate; k8s_name delegate) with
  | Ok _ => Ok delegate
  | Raise (KeyError _) => Raise (ValueError "delegate is not a valid Kubernetes object")
  | Raise e => Raise e
  end.

Definition k8s_namespace (env : config_env) (obj : k8s_object) : res string :=
  m ← k8s_metadata obj;
  match pget "namespace" m with
  | PNone =>
      g ← k8s_gvk obj; n ← k8s_name obj;
      Raise (AttributeError ("KubernetesObject " +:+ gvk_domain g +:+ " " +:+ n +:+ " has no namespace (it is cluster-scoped)"))
  | val => if py_eqb val (PStr "_automatic_") then Ok (ambassador_namespace env) else as_str val
  end.

Definition k8s_key (env : config_env) (obj : k8s_object) : res KubernetesObjectKey :=
  ns ← match k8s_namespace env obj with
       | Ok ns => Ok (Some ns)
       | Raise (AttributeError _) => Ok None
       | Raise e => Raise e
       end;
  g ← k8s_gvk obj; n ← k8s_name obj; Ok (mkKey g ns n).

Definition k8s_generation (obj : k8s_object) : res pyval := m ← k8s_metadata obj; Ok (dget_default "generation" (PInt 1) m).
Definition k8s_annotations (obj : k8s_object) : res pyval := m ← k8s_metadata obj; Ok (dget_default "annotations" (PDict []) m).
Definition k8s_ambassador_id (obj : k8s_object) : res pyval :=
  a ← k8s_annotations obj; vget "getambassador.io/ambassador-id" (PStr "default") a.
Definition k8s_labels (obj : k8s_object) : res pyval := m ← k8s_metadata obj; Ok (dget_default "labels" (PDict []) m).
Definition k8s_spec (obj : k8s_object) : pyval := dget_default "spec" (PDict []) obj.
Definition k8s_status (obj : k8s_object) : pyval := dget_default "status" (PDict []) obj.

(** [KubernetesObjectKey.from_object_reference(ref)] *)
Definition from_object_reference (ref : pyval) : res KubernetesObjectKey :=
  d ← as_dict ref;
  k ← dget_exn "kind" d; k ← as_str k;
  n ← dget_exn "name" d; n ← as_str n;
  ns ← match pget "namespace" d with PNone => Ok None | ns => ns ← as_str ns; Ok (Some ns) end;
  Ok (mkKey (mkGVK "v1" k) ns n).

(** ** [NormalizedResource] *)

Record NormalizedResource : Type := mkNormalized { nr_object : pyval; nr_rkey : option string }.

(** [from_data]; [generation], [labels], [spec] and [errors] are [None] when
    they are not given. *)
Definition from_data (kind name : string) (namespace : option string) (generation : pyval) (version : string)
    (api_group : option string) (labels spec errors : pyval) (rkey : option string) : res NormalizedResource :=
  let rkey := match rkey with Some k => k | None => name +:+ "." +:+ default "None" namespace end in
  spec ← (if py_bool spec then as_dict spec else Ok []);
  let o := dset "name" (PStr name) (dset "kind" (PStr kind)
             (dset "apiVersion" (PStr (default "None" api_group +:+ "/" +:+ version)) spec)) in
  let o := match namespace with Some ns => dset "namespace" (PStr ns) o | None => o end in
  let o := match generation with PNone => o | g => dset "generation" g o end in
  let o := dset "metadata_labels" (py_or labels (PDict [])) o in
  let o := if py_bool errors then dset "errors" errors o else o in
  Ok (mkNormalized (PDict o) (Some rkey)).

(** [from_data] with its defaults for the version and group *)
Definition from_data_v3 (kind name : string) (namespace : option string) (generation labels spec errors : pyval)
    (rkey : option string) : res NormalizedResource :=
  from_data kind name namespace generation "v3alpha1" (Some "getambassador.io") labels spec errors rkey.

Definition from_kubernetes_object (env : config_env) (obj : k8s_object) (rkey : option string) : res NormalizedResource :=
  ns ← k8s_namespace env obj;
  labels ← k8s_labels obj; labels ← as_dict labels;
  n ← k8s_name obj; g ← k8s_gvk obj; gen ← k8s_generation obj;
  let '(rkey, labels) :=
    if environ_bool rkey then (default EmptyString rkey, ddel "ambassador_crd" labels)
    else (n +:+ "." +:+ ns, dset "ambassador_crd" (PStr (n +:+ "." +:+ ns)) labels) in
  from_data (gvk_kind g) n (Some ns) gen (gvk_version g) (api_group g) (PDict labels) (k8s_spec obj) (pget "errors" obj) (Some rkey).

(** ** [ResourceManager] *)

Record Endpoints : Type := mkEndpoints { ep_addresses : list pyval; ep_ports : dict pyval }.

(** What fetching has gathered: the configuration, the location, the elements,
    and what the processors keep for each other. *)
Record fetch_state : Type := mkFetch {
  fs_aconf : Config;
  fs_locations : LocationManager;
  fs_elements : list resource;
  fs_services : list (KubernetesObjectKey * k8s_object);     (* discovered_services *)
  fs_ambassador_service : option k8s_object;                 (* ambassador_service *)
  fs_ingress_classes : list string;                          (* ingress_classes *)
  fs_endpoints : list (KubernetesObjectKey * Endpoints);     (* discovered_endpoints *)
  fs_helm : pyval;                                           (* helm_chart *)
  fs_seen : list KubernetesObjectKey                         (* the cache of the deduplicating processor *)
}.

Definition fs_with_aconf (c : Config) (s : fetch_state) : fetch_state :=
  mkFetch c (fs_locations s) (fs_elements s) (fs_services s) (fs_ambassador_service s) (fs_ingress_classes s) (fs_endpoints s)
    (fs_helm s) (fs_seen s).
Definition fs_with_locations (l : LocationManager) (s : fetch_state) : fetch_state :=
  mkFetch (fs_aconf s) l (fs_elements s) (fs_services s) (fs_ambassador_service s) (fs_ingress_classes s) (fs_endpoints s)
    (fs_helm s) (fs_seen s).
Definition fs_with_elements (l : list resource) (s : fetch_state) : fetch_state :=
  mkFetch (fs_aconf s) (fs_locations s) l (fs_services s) (fs_ambassador_service s) (fs_ingress_classes s) (fs_endpoints s)
    (fs_helm s) (fs_seen s).

Definition fs_location (s : fetch_state) : string := Location_str (current (fs_locations s)).
Definition fs_post_error (env : fetch_env) (msg : string) (s : fetch_state) : res fetch_state :=
  c ← post_error_string (fe_config env) msg None None (fs_aconf s); Ok (fs_with_aconf c s).

(** [e.args[0]] *)
Definition exn_text (env : fetch_env) (attrs : dict pyval) (e : exn) : string :=
  match e with
  | PyException m | ValueError m | AssertionError m | RuntimeError m | KeyError m | AttributeError m => m
  | TypeError | IndexError => fe_type_error env attrs
  end.

(** [_emit]: whether the object counts *)
Definition emit_object (env : fetch_env) (resource : NormalizedResource) (s : fetch_state) : res (bool * fetch_state) :=
  match nr_object resource with
  | PDict obj =>
      if negb (good_ambassador_id (fe_config env) obj) then Ok (true, s)
      else
        match dget "kind" obj with
        | None =>
            s ← fs_post_error env (fs_location s +:+ " is missing 'kind'?? " +:+ fe_dump_json env (PDict obj)) s; Ok (true, s)
        | Some kind =>
            if py_eqb kind (PStr "Pragma") then
              let new_source := pget "source" obj in
              if py_bool new_source then
                f ← as_str new_source; Ok (false, fs_with_locations (set_filename (fs_locations s) (Some f)) s)
              else Ok (false, s)
            else
              let loc := current (fs_locations s) in
              let rkey := if environ_bool (nr_rkey resource) then default EmptyString (nr_rkey resource)
                          else filename_default loc "unknown" in
              let rkey := if py_eqb kind (PStr "Service") then rkey else rkey +:+ "." +:+ str_of_int (ocount loc) in
              match ACResource_from_dict (fe_config env) rkey rkey (fe_dump_yaml env (PDict obj)) obj with
              | Ok r => Ok (true, fs_with_elements (fs_elements s ++ [r]) s)
              | Raise e => s ← fs_post_error env (exn_text env obj e) s; Ok (true, s)
              end
        end
  | obj =>
      s ← (if py_bool obj then fs_post_error env (fs_location s +:+ " is not a dictionary? " +:+ fe_dump_json env obj) s
           else fs_post_error env (fs_location s +:+ " is empty") s);
      Ok (true, s)
  end.

Definition emit (env : fetch_env) (resource : NormalizedResource) (s : fetch_state) : res fetch_state :=
  '(counts, s) ← emit_object env resource s;
  Ok (if (counts : bool) then
        let m := fs_locations s in
        fs_with_locations (mkLM (previous m) (mkLocation (filename (current m)) (ocount (current m) + 1))) s
      else s).
