(* ===== verification/FetchService.v ===== *)
(** * Services and their endpoints ([fetch/service.py])

    Services and Endpoints are gathered first; [finalize] then joins them and
    emits an Ambassador Service for each, with the addresses and ports that its
    ports lead to.  Port numbers are keys of dictionaries here by their decimal
    text. *)

From S2P Require Import Prelude PyStr PyVal Utils Location Resource ServiceName PyText HTTPMapping Group Config Fetch.

(** [str(v).isdigit()] *)
Definition isdigit (s : string) : bool := str_bool s && all_chars is_digit s.

(** [v.items()] *)
Definition py_items (v : pyval) : res (dict pyval) :=
  match v with PDict d => Ok d | _ => Raise (AttributeError "items") end.

(** ** [InternalServiceProcessor] *)

Definition is_ambassador_service (env : config_env) (c : Config) (obj : dict pyval) : res bool :=
  selector ← vget "selector" (PDict []) (k8s_spec obj);
  labels ← k8s_labels obj;
  component ← vget "app.kubernetes.io/component" (PStr EmptyString) labels;
  component ← py_lower component;
  if negb (bool_decide (component = "ambassador-service")) then Ok false
  else
    ns ← k8s_namespace env obj;
    if negb (bool_decide (ns = ambassador_namespace env)) then Ok false
    else
      match selector with
      | PDict [] | PList [] | PStr EmptyString => Ok false
      | PNone | PBool _ | PInt _ => Raise TypeError
      | _ =>
          d ← py_items selector;
          Ok (forallb (λ kv : string * pyval,
                match dget kv.1 (ac_pod_labels c) with Some l => py_eqb (PStr l) kv.2 | None => py_eqb PNone kv.2 end) d)
      end.

Definition process_service (env : fetch_env) (obj : dict pyval) (s : fetch_state) : res fetch_state :=
  labels ← k8s_labels obj;
  chart_version ← vget "helm.sh/chart" PNone labels;
  let helm := if py_bool chart_version && negb (py_bool (fs_helm s)) then chart_version else fs_helm s in
  ports ← vget "ports" PNone (k8s_spec obj);
  let with_services services ambassador :=
    mkFetch (fs_aconf s) (fs_locations s) (fs_elements s) services ambassador (fs_ingress_classes s) (fs_endpoints s) helm (fs_seen s) in
  if negb (py_bool ports) then
    _ ← k8s_namespace (fe_config env) obj; Ok (with_services (fs_services s) (fs_ambassador_service s))
  else
    key ← k8s_key (fe_config env) obj;
    is_ambassador ← is_ambassador_service (fe_config env) (fs_aconf s) obj;
    Ok (with_services (dset key obj (fs_services s)) (if (is_ambassador : bool) then Some obj else fs_ambassador_service s)).

(** ** [InternalEndpointsProcessor] *)

(** The address of an endpoint; the target is looked at, but not kept here. *)
Definition endpoint_ip (address : pyval) : res (list pyval) :=
  ip ← vget "ip" PNone address;
  if negb (py_bool ip) then Ok []
  else
    ref ← vget "targetRef" (PDict []) address;
    match from_object_reference ref with
    | Ok _ | Raise (KeyError _) => Ok [ip]
    | Raise e => Raise e
    end.

(** One port: it is known by its number and by its name. *)
Definition endpoint_port (ports : dict pyval) (port : pyval) : res (dict pyval) :=
  name ← vget "name" PNone port;
  number ← vget "port" PNone port;
  proto ← vget "protocol" (PStr "TCP") port; proto ← py_upper proto;
  if negb (bool_decide (proto = "TCP")) then Ok ports
  else
    match number with
    | PNone => Ok ports
    | _ =>
        let ports := dset (py_text number) number ports in
        if py_bool name then name ← as_str name; Ok (dset name number ports) else Ok ports
    end.

Definition endpoint_subset (env : fetch_env) (obj : dict pyval) (s : fetch_state) (subset : pyval) : res fetch_state :=
  addresses ← vget "addresses" (PList []) subset; addresses ← py_iter addresses;
  ips ← map_res endpoint_ip addresses;
  match mjoin ips with
  | [] => Ok s
  | ips =>
      ports ← vget "ports" (PList []) subset; ports ← py_iter ports;
      port_dict ← fold_res endpoint_port ports [];
      match port_dict with
      | [] => _ ← k8s_namespace (fe_config env) obj; Ok s
      | _ =>
          key ← k8s_key (fe_config env) obj;
          Ok (mkFetch (fs_aconf s) (fs_locations s) (fs_elements s) (fs_services s) (fs_ambassador_service s) (fs_ingress_classes s)
                (dset key (mkEndpoints ips port_dict) (fs_endpoints s)) (fs_helm s) (fs_seen s))
      end
  end.

Definition process_endpoints (env : fetch_env) (obj : dict pyval) (s : fetch_state) : res fetch_state :=
  let subsets := pget "subsets" obj in
  if negb (py_bool subsets) then _ ← k8s_namespace (fe_config env) obj; Ok s
  else subsets ← py_iter subsets; fold_res (endpoint_subset env obj) subsets s.

(** ** [ServiceProcessor.finalize] *)

(** The attributes of a port of a Service, tried in order: the target found so
    far, the fallback, and whether there was any attribute. *)
Fixpoint match_port (ports : dict pyval) (port : dict pyval) (attrs : list string) (target fallback : pyval) (found : bool)
    : pyval * pyval * bool :=
  match attrs with
  | [] => (target, fallback, found)
  | attr :: attrs =>
      let port_key := pget attr port in
      if py_bool port_key then
        let fallback := if negb (py_bool fallback) && negb (py_eqb port_key (PStr "name")) && isdigit (py_text port_key)
                        then port_key else fallback in
        let target := pget (py_text port_key) ports in
        if py_bool target then (target, fallback, true) else match_port ports port attrs target fallback true
      else match_port ports port attrs target fallback found
  end.

(** The port of the endpoints that a port of the Service leads to *)
Definition target_port (ports : dict pyval) (port : dict pyval) : option pyval :=
  let src_port := pget "port" port in
  if negb (py_bool src_port) then None
  else
    match ports with
    | [(_, p)] => Some p
    | _ =>
        let '(target, fallback, found) := match_port ports port ["targetPort"; "name"; "port"] PNone PNone false in
        if negb found then None
        else Some (if py_bool target then target else py_or fallback src_port)
    end.

Definition add_target_port (ep : Endpoints) (targets : dict pyval) (port : pyval) : res (dict pyval) :=
  port ← (match port with PDict d => Ok d | _ => Raise (AttributeError "get") end);
  match target_port (ep_ports ep) port with
  | Some target => _ ← hashable (pget "port" port); Ok (dset (py_text (pget "port" port)) target targets)
  | None => Ok targets
  end.

Definition endpoint_targets (addrs : list pyval) (target : pyval) : pyval :=
  PList ((λ a, PDict [("ip", a); ("port", target)]) <$> addrs).

(** The endpoints of a Service, by its ports *)
Definition service_endpoints (env : fetch_env) (watch_only : bool) (s : fetch_state) (svc : dict pyval) (name ns : string)
    : res (dict pyval) :=
  if watch_only then Ok []
  else
    match dget (mkKey (mkGVK "v1" "Endpoints") (Some ns) name) (fs_endpoints s) with
    | None => Ok []
    | Some ep =>
        ports ← vget "ports" (PList []) (k8s_spec svc); ports ← py_iter ports;
        targets ← (fold_res (add_target_port ep) ports [] : res (dict pyval));
        let addrs := match ep_addresses ep with [] => [PStr (name +:+ "." +:+ ns)] | l => l end in
        Ok (List.map (λ kv : string * pyval, (kv.1, endpoint_targets addrs kv.2)) targets)
    end.

Definition emit_service (env : fetch_env) (watch_only : bool) (s : fetch_state) (ko : KubernetesObjectKey * dict pyval)
    : res fetch_state :=
  let svc := ko.2 in
  name ← k8s_name svc; ns ← k8s_namespace (fe_config env) svc;
  endpoints ← service_endpoints env watch_only s svc name ns;
  let spec := [("ambassador_id", PStr (ambassador_id (fe_config env))); ("endpoints", PDict endpoints)] ++
              (if py_bool (fs_helm s) then [("helm_chart", fs_helm s)] else []) in
  labels ← k8s_labels svc;
  r ← from_data_v3 "Service" name (Some ns) PNone labels (PDict spec) PNone (Some ("k8s-" +:+ name +:+ "-" +:+ ns));
  emit env r s.

Definition services_finalize (env : fetch_env) (watch_only : bool) (s : fetch_state) : res fetch_state :=
  fold_res (emit_service env watch_only) (fs_services s) s.
