(* ===== verification/FetchIngress.v ===== *)
(** * Ingresses ([fetch/ingress.py], [fetch/knative.py])

    Ingresses of Kubernetes and of Knative become Hosts and Mappings, and their
    status is updated from the Service of Ambassador.  An Ingress is in a
    namespace. *)

From S2P Require Import Prelude PyStr PyVal Utils Location Resource ServiceName PyText HTTPMapping Group Config Fetch FetchService.

(** ** [IngressClassProcessor] *)

Definition CONTROLLER : string := "getambassador.io/ingress-controller".

Definition process_ingress_class (env : fetch_env) (obj : dict pyval) (s : fetch_state) : res fetch_state :=
  controller ← vget "controller" (PStr EmptyString) (k8s_spec obj); controller ← py_lower controller;
  if negb (bool_decide (controller = CONTROLLER)) then Ok s
  else
    id ← k8s_ambassador_id obj;
    if negb (py_eqb id (PStr (ambassador_id (fe_config env)))) then Ok s
    else
      name ← k8s_name obj;
      let classes := fs_ingress_classes s in
      Ok (mkFetch (incr_count "k8s_ingress_class" (fs_aconf s)) (fs_locations s) (fs_elements s) (fs_services s)
            (fs_ambassador_service s) (if bool_decide (name ∈ classes) then classes else classes ++ [name]) (fs_endpoints s)
            (fs_helm s) (fs_seen s)).

(** ** The status of Ingresses *)

(** The Service of Ambassador, when it has a name *)
Definition ambassador_service (s : fetch_state) : option (dict pyval) :=
  match fs_ambassador_service s with
  | Some svc => match k8s_name svc with Ok n => if str_bool n then Some svc else None | Raise _ => None end
  | None => None
  end.

Definition set_status_update (key : string) (u : pyval * pyval * pyval) (s : fetch_state) : fetch_state :=
  let c := fs_aconf s in
  fs_with_aconf
    (mkAconf (ac_objs c) (ac_current c) (ac_helm c) (ac_config c) (ac_sources c) (ac_counters c) (ac_invalid c) (ac_errors c)
       (ac_notices c) (ac_fatal c) (ac_nodename c) (ac_statsd c) (dset key u (ac_status_updates c)) (ac_pod_labels c)) s.

Definition ingress_update_status (env : fetch_env) (obj : dict pyval) (s : fetch_state) : res fetch_state :=
  let service_status := match ambassador_service s with Some svc => k8s_status svc | None => PNone end in
  if py_eqb (k8s_status obj) service_status || negb (py_bool service_status) then Ok s
  else
    g ← k8s_gvk obj; ns ← k8s_namespace (fe_config env) obj; name ← k8s_name obj;
    Ok (set_status_update (name +:+ "." +:+ ns) (PStr (gvk_kind g), PStr ns, service_status) s).

(** ** [IngressProcessor] *)

Fixpoint named_port (service_port : pyval) (ports : list pyval) : res pyval :=
  match ports with
  | [] => Ok service_port
  | port :: ports =>
      name ← vget "name" PNone port;
      if py_eqb service_port name then vget "port" service_port port else named_port service_port ports
  end.

Definition try_resolve_service_port_number (s : fetch_state) (namespace : string) (service_name service_port : pyval) : res pyval :=
  _ ← hashable service_name;
  match service_name with
  | PStr n =>
      match dget (mkKey (mkGVK "v1" "Service") (Some namespace) n) (fs_services s) with
      | None => Ok service_port
      | Some svc => ports ← vget "ports" (PList []) (k8s_spec svc); ports ← py_iter ports; named_port service_port ports
      end
  | _ => Ok service_port
  end.

(** [int(v)], nothing when it raises *)
Definition int_of (v : pyval) : option Z :=
  match v with
  | PInt z => Some z
  | PBool b => Some (Z.b2z b)
  | PStr s => py_int s
  | _ => None
  end.

(** Rules with their index, as [enumerate] gives them *)
Definition enumerate {A} (l : list A) : list (nat * A) := imap (λ i x, (i, x)) l.

Definition nat_text (n : nat) : string := str_of_int (Z.of_nat n).

(** What all that comes from one Ingress shares: its name, namespace,
    identifier, labels and the identifier of its Hosts *)
Record ingress_info : Type := mkIngress {
  ig_name : string;
  ig_namespace : string;
  ig_id : pyval;
  ig_labels : pyval
}.

Definition ingress_host_id (i : ingress_info) : string := "a10r-ingress-" +:+ ig_name i +:+ "-" +:+ ig_namespace i.

Definition ingress_host_spec (i : ingress_info) (host tls_secret : pyval) : dict pyval :=
  [("ambassador_id", PList [ig_id i]); ("hostname", host); ("acmeProvider", PDict [("authority", PStr "none")]);
   ("tlsSecret", PDict [("name", tls_secret)]);
   ("selector", PDict [("matchLabels", PDict [("a10r-k8s-ingress", PStr (ingress_host_id i))])]);
   ("requestPolicy", PDict [("insecure", PDict [("action", PStr "Route")])])].

Definition emit_ingress_host (env : fetch_env) (i : ingress_info) (tls_count : nat) (tls_secret : pyval) (s : fetch_state)
    (h : nat * pyval) : res fetch_state :=
  r ← from_data_v3 "Host" (ig_name i +:+ "-" +:+ nat_text tls_count +:+ "-" +:+ nat_text h.1) (Some (ig_namespace i)) PNone
        (ig_labels i) (PDict (ingress_host_spec i h.2 tls_secret)) PNone None;
  emit env r s.

Definition emit_ingress_tls (env : fetch_env) (i : ingress_info) (s : fetch_state) (t : nat * pyval) : res fetch_state :=
  tls_secret ← vget "secretName" PNone t.2;
  match tls_secret with
  | PNone => Ok s
  | _ =>
      hosts ← vget "hosts" (PList [PStr "*"]) t.2; hosts ← py_iter hosts;
      fold_res (emit_ingress_host env i t.1 tls_secret) (enumerate hosts) s
  end.

(** The labels of a Mapping: with those of the Ingress, that its Hosts select *)
Definition mapping_labels (i : ingress_info) (has_tls : bool) : res pyval :=
  labels ← as_dict (ig_labels i);
  Ok (PDict (if has_tls then dset "a10r-k8s-ingress" (PStr (ingress_host_id i)) labels else labels)).

Definition emit_ingress_mapping (env : fetch_env) (i : ingress_info) (has_tls : bool) (suffix : string) (spec : dict pyval)
    (s : fetch_state) : res fetch_state :=
  labels ← mapping_labels i has_tls;
  r ← from_data_v3 "Mapping" (ig_name i +:+ "-" +:+ suffix) (Some (ig_namespace i)) PNone labels (PDict spec) PNone None;
  emit env r s.

Definition emit_default_backend (env : fetch_env) (i : ingress_info) (has_tls : bool) (spec : pyval) (s : fetch_state) : res fetch_state :=
  old ← vget "backend" (PDict []) spec;
  backend ← vget "defaultBackend" old spec;
  service_name ← vget "serviceName" PNone backend;
  service_port ← vget "servicePort" PNone backend;
  match service_name, service_port with
  | PNone, _ | _, PNone => Ok s
  | _, _ =>
      emit_ingress_mapping env i has_tls "default-backend"
        [("ambassador_id", ig_id i); ("hostname", PStr "*"); ("prefix", PStr "/");
         ("service", PStr (py_text service_name +:+ "." +:+ ig_namespace i +:+ ":" +:+ py_text service_port))] s
  end.

(** [host.replace(".", "\\.").replace("*", "...", 1) + "$"] *)
Definition host_regex (host : string) : string :=
  let escaped := replace_char (chr 46) "\." host in
  (match split1 (chr 42) escaped with
   | Some (a, b) => a +:+ "^[a-z0-9]([-a-z0-9]*[a-z0-9])?" +:+ b
   | None => escaped
   end) +:+ "$".

(** How a Mapping of a rule matches hosts *)
Definition rule_host_spec (rule_host : pyval) (has_tls : bool) : res (dict pyval) :=
  match rule_host with
  | PNone => Ok (if has_tls then [] else [("hostname", PStr "*")])
  | PStr h => Ok (if startswith h "*." then [("host", PStr (host_regex h)); ("host_regex", PBool true)] else [("hostname", PStr h)])
  | _ => Raise (AttributeError "startswith")
  end.

Definition emit_ingress_path (env : fetch_env) (i : ingress_info) (has_tls : bool) (rule_count : nat) (rule_host : pyval)
    (s : fetch_state) (p : nat * pyval) : res fetch_state :=
  let path := p.2 in
  backend ← vget "backend" (PDict []) path;
  path_type ← vget "pathType" (PStr "ImplementationSpecific") path;
  service_name ← vget "serviceName" PNone backend;
  service_port ← vget "servicePort" PNone backend;
  path_location ← vget "path" (PStr "/") path;
  service_port ← match int_of service_port with
                 | Some n => Ok (PInt n)
                 | None => try_resolve_service_port_number s (ig_namespace i) service_name service_port
                 end;
  if negb (py_bool service_name) || negb (py_bool service_port) || negb (py_bool path_location) then Ok s
  else
    let exact := py_eqb path_type (PStr "Exact") in
    host ← rule_host_spec rule_host has_tls;
    emit_ingress_mapping env i has_tls (nat_text rule_count +:+ "-" +:+ nat_text p.1)
      ([("ambassador_id", ig_id i); ("prefix", path_location); ("prefix_exact", PBool exact);
        ("precedence", PInt (if exact then 1 else 0));
        ("service", PStr (py_text service_name +:+ "." +:+ ig_namespace i +:+ ":" +:+ py_text service_port))] ++ host) s.

Definition emit_ingress_rule (env : fetch_env) (i : ingress_info) (has_tls : bool) (s : fetch_state) (r : nat * pyval) : res fetch_state :=
  http ← vget "http" (PDict []) r.2;
  rule_host ← vget "host" PNone r.2;
  paths ← vget "paths" (PList []) http; paths ← py_iter paths;
  fold_res (emit_ingress_path env i has_tls r.1 rule_host) (enumerate paths) s.

(** Whether an Ingress is for this controller *)
Definition ingress_wanted (obj : dict pyval) (s : fetch_state) : res bool :=
  class_name ← vget "ingressClassName" (PStr EmptyString) (k8s_spec obj);
  _ ← hashable class_name;
  annotations ← k8s_annotations obj;
  annotation ← vget "kubernetes.io/ingress.class" (PStr EmptyString) annotations; annotation ← py_lower annotation;
  Ok (in_strs class_name (fs_ingress_classes s) || bool_decide (annotation = "ambassador")).

Definition process_ingress (env : fetch_env) (obj : dict pyval) (s : fetch_state) : res fetch_state :=
  wanted ← ingress_wanted obj s;
  if negb wanted then Ok s
  else
    id ← k8s_ambassador_id obj;
    if negb (py_eqb id (PStr (ambassador_id (fe_config env)))) then Ok s
    else
      let s := fs_with_aconf (incr_count "k8s_ingress" (fs_aconf s)) s in
      let spec := k8s_spec obj in
      name ← k8s_name obj; ns ← k8s_namespace (fe_config env) obj; labels ← k8s_labels obj;
      let i := mkIngress name ns id labels in
      tls ← vget "tls" (PList []) spec; tls ← py_iter tls;
      s ← fold_res (emit_ingress_tls env i) (enumerate tls) s;
      let has_tls := match tls with [] => false | _ => true end in
      s ← emit_default_backend env i has_tls spec s;
      rules ← vget "rules" (PList []) spec; rules ← py_iter rules;
      s ← fold_res (emit_ingress_rule env i has_tls) (enumerate rules) s;
      ingress_update_status env obj s.

(** ** [KnativeIngressProcessor] *)

Definition INGRESS_CLASS : string := "ambassador.ingress.networking.knative.dev".

Definition has_required_annotations (env : fetch_env) (obj : dict pyval) : res bool :=
  annotations ← k8s_annotations obj;
  class_ ← vget "networking.knative.dev/ingress.class" (PStr INGRESS_CLASS) annotations; class_ ← py_lower class_;
  if negb (bool_decide (class_ = INGRESS_CLASS)) then Ok false
  else id ← k8s_ambassador_id obj; Ok (py_eqb id (PStr (ambassador_id (fe_config env)))).

(** The part of a Mapping that a split of a path gives *)
Definition split_spec (env : fetch_env) (ns : string) (path : pyval) (global_headers : pyval) (split : pyval) : res (list (dict pyval)) :=
  service_name ← vget "serviceName" PNone split;
  if negb (py_bool service_name) then Ok []
  else
    service_namespace ← vget "serviceNamespace" (PStr ns) split;
    service_port ← vget "servicePort" (PInt 80) split;
    headers ← vget "appendHeaders" (PDict []) split; headers ← as_dict headers; global ← as_dict global_headers;
    weight ← vget "percent" (PInt 100) split;
    prefix ← vget "path" (PStr "/") path;
    timeout ← vget "timeout" (PStr "15s") path; timeout ← fe_duration_ms env timeout;
    Ok [[("service", PStr (py_text service_name +:+ "." +:+ py_text service_namespace +:+ ":" +:+ py_text service_port));
         ("add_request_headers", PDict (dupdate global headers)); ("weight", weight); ("prefix", prefix);
         ("timeout_ms", PInt timeout)]].

Definition path_specs (env : fetch_env) (ns : string) (path : pyval) : res (list (dict pyval)) :=
  global_headers ← vget "appendHeaders" (PDict []) path;
  splits ← vget "splits" (PList []) path; splits ← py_iter splits;
  l ← map_res (split_spec env ns path global_headers) splits; Ok (List.concat l).

Definition emit_knative_mapping (env : fetch_env) (obj : dict pyval) (name ns : string) (rule_count : nat) (s : fetch_state)
    (x : nat * (pyval * dict pyval)) : res fetch_state :=
  let '(split_count, (host, split_mapping_spec)) := x in
  id ← k8s_ambassador_id obj; generation ← k8s_generation obj; labels ← k8s_labels obj;
  r ← from_data_v3 "Mapping" (name +:+ "-" +:+ nat_text rule_count +:+ "-" +:+ nat_text split_count) (Some ns) generation labels
        (PDict (dupdate [("ambassador_id", id); ("host", host)] split_mapping_spec)) PNone None;
  emit env r s.

(** [itertools.product(hosts, specs)] *)
Definition product {A B} (l : list A) (m : list B) : list (A * B) := l ≫= λ a, pair a <$> m.

Definition emit_knative_rule (env : fetch_env) (obj : dict pyval) (s : fetch_state) (r : nat * pyval) : res fetch_state :=
  hosts ← vget "hosts" (PList []) r.2;
  http ← vget "http" (PDict []) r.2; paths ← vget "paths" (PList []) http; paths ← py_iter paths;
  name ← k8s_name obj; ns ← k8s_namespace (fe_config env) obj;
  specs ← map_res (path_specs env ns) paths;
  hosts ← py_iter hosts;
  fold_res (emit_knative_mapping env obj name ns r.1) (enumerate (product hosts (List.concat specs))) s.

Definition make_status (env : fetch_env) (generation : pyval) (lb_domain : option string) : dict pyval :=
  let condition type := PDict [("lastTransitionTime", PStr (fe_utcnow env)); ("status", PStr "True"); ("type", PStr type)] in
  let load_balancer d := PDict [("ingress", PList [PDict [("domainInternal", PStr d)]])] in
  [("observedGeneration", generation);
   ("conditions", PList [condition "LoadBalancerReady"; condition "NetworkConfigured"; condition "Ready"])] ++
  match lb_domain with
  | Some d => if str_bool d then [("loadBalancer", load_balancer d); ("privateLoadBalancer", load_balancer d)] else []
  | None => []
  end.

(** The domain of the load balancer that the status of an Ingress shows *)
Definition observed_domain (status : pyval) : res pyval :=
  lb ← vget "privateLoadBalancer" (PDict []) status; ingress ← vget "ingress" (PList []) lb; ingress ← py_iter ingress;
  vget "domainInternal" PNone (default (PDict []) (head ingress)).

Definition knative_update_status (env : fetch_env) (obj : dict pyval) (s : fetch_state) : res fetch_state :=
  generation ← k8s_generation obj;
  observed ← vget "observedGeneration" (PInt 0) (k8s_status obj);
  g ← as_int generation; o ← as_int observed;
  current_lb_domain ← match ambassador_service s with
                      | None => Ok None
                      | Some svc => n ← k8s_name svc; ns ← k8s_namespace (fe_config env) svc;
                                    Ok (Some (n +:+ "." +:+ ns +:+ ".svc.cluster.local"))
                      end;
  observed_lb_domain ← observed_domain (k8s_status obj);
  if bool_decide (o < g)%Z || negb (py_eqb (match current_lb_domain with Some d => PStr d | None => PNone end) observed_lb_domain) then
    gvk ← k8s_gvk obj; ns ← k8s_namespace (fe_config env) obj; name ← k8s_name obj;
    Ok (set_status_update (name +:+ "." +:+ ns)
          (PStr (gvk_domain gvk), PStr ns, PDict (make_status env generation current_lb_domain)) s)
  else Ok s.

Definition process_knative (env : fetch_env) (obj : dict pyval) (s : fetch_state) : res fetch_state :=
  ok ← has_required_annotations env obj;
  if negb ok then Ok s
  else
    rules ← vget "rules" (PList []) (k8s_spec obj); rules ← py_iter rules;
    s ← fold_res (emit_knative_rule env obj) (enumerate rules) s;
    knative_update_status env obj s.
