(* ===== verification/Fetcher.v ===== *)
(** * Fetching ([fetch/fetcher.py], [fetch/k8sprocessor.py])

    A snapshot holds the objects of Kubernetes by kind, annotations by the
    object they are on, and the services of Consul.  The objects are handed to
    the processors of their kind, each only once. *)

From S2P Require Import Prelude PyStr PyVal Utils Dependency Location Resource ServiceName PyText HTTPMapping Group.
From S2P Require Import Config Fetch FetchService FetchIngress.

(** ** [AmbassadorProcessor] and [SecretProcessor] *)

Definition ambassador_kinds : list string :=
  ["AuthService"; "ConsulResolver"; "Host"; "KubernetesEndpointResolver"; "KubernetesServiceResolver"; "Listener"; "LogService";
   "Mapping"; "Module"; "RateLimitService"; "DevPortal"; "TCPMapping"; "TLSContext"; "TracingService"].

Definition process_ambassador (env : fetch_env) (obj : dict pyval) (s : fetch_state) : res fetch_state :=
  r ← from_kubernetes_object (fe_config env) obj None; emit env r s.

Definition KNOWN_TYPES : list string := ["Opaque"; "kubernetes.io/tls"; "istio.io/key-and-cert"].
Definition KNOWN_DATA_KEYS : list string :=
  ["tls.crt"; "tls.key"; "user.key"; "cert-chain.pem"; "key.pem"; "root-cert.pem"; "crl.pem"].

Definition process_secret (env : fetch_env) (obj : dict pyval) (s : fetch_state) : res fetch_state :=
  let secret_type := pget "type" obj in
  if negb (in_strs secret_type KNOWN_TYPES) then Ok s
  else
    let data := pget "data" obj in
    if negb (py_bool data) then Ok s
    else
      known ← map_res (λ k, vmem k data) KNOWN_DATA_KEYS;
      name ← k8s_name obj; ns ← k8s_namespace (fe_config env) obj;
      if negb (existsb id known) then Ok s
      else
        data ← py_items data;
        let spec := foldl (λ spec kv, dset (replace_char (chr 46) "_" kv.1) kv.2 spec)
                      [("ambassador_id", PStr (ambassador_id (fe_config env))); ("secret_type", secret_type)] data in
        labels ← k8s_labels obj;
        r ← from_data_v3 "Secret" name (Some ns) PNone labels (PDict spec) (pget "errors" obj) None;
        emit env r s.

(** ** The processors *)

Inductive processor : Type :=
  | CountingProcessor
  | AmbassadorProcessor
  | SecretProcessor
  | IngressClassProcessor
  | IngressProcessor
  | ServiceProcessor
  | KnativeIngressProcessor.

Definition delegates : list processor :=
  [CountingProcessor; AmbassadorProcessor; SecretProcessor; IngressClassProcessor; IngressProcessor; ServiceProcessor;
   KnativeIngressProcessor].

Definition processor_kinds (p : processor) : list KubernetesGVK :=
  match p with
  | CountingProcessor | KnativeIngressProcessor => [for_knative_networking "Ingress"]
  | AmbassadorProcessor => (λ kv, for_ambassador kv.1 kv.2) <$> product ambassador_kinds ["v1"; "v2"; "v3alpha1"]
  | SecretProcessor => [mkGVK "v1" "Secret"]
  | IngressClassProcessor => [mkGVK "networking.k8s.io/v1beta1" "IngressClass"; mkGVK "networking.k8s.io/v1" "IngressClass"]
  | IngressProcessor =>
      [mkGVK "extensions/v1beta1" "Ingress"; mkGVK "networking.k8s.io/v1beta1" "Ingress"; mkGVK "networking.k8s.io/v1" "Ingress"]
  | ServiceProcessor => [mkGVK "v1" "Service"; mkGVK "v1" "Endpoints"]
  end.

(** [KubernetesProcessor._admit] *)
Definition base_admit (env : config_env) (obj : dict pyval) : res bool :=
  key ← k8s_key env obj;
  Ok (match key_namespace key with
      | Some ns => negb (single_namespace env && negb (bool_decide (ns = ambassador_namespace env)))
      | None => true
      end).

Definition processor_admit (env : config_env) (p : processor) (obj : dict pyval) : res bool :=
  match p with
  | SecretProcessor => if certs_single_namespace env then base_admit env obj else Ok true
  | _ => base_admit env obj
  end.

Definition processor_process (env : fetch_env) (p : processor) (g : KubernetesGVK) (obj : dict pyval) (s : fetch_state) : res fetch_state :=
  match p with
  | CountingProcessor => Ok (fs_with_aconf (incr_count "knative_ingress" (fs_aconf s)) s)
  | AmbassadorProcessor => process_ambassador env obj s
  | SecretProcessor => process_secret env obj s
  | IngressClassProcessor => process_ingress_class env obj s
  | IngressProcessor => process_ingress env obj s
  | ServiceProcessor => if bool_decide (gvk_kind g = "Service") then process_service env obj s else process_endpoints env obj s
  | KnativeIngressProcessor => process_knative env obj s
  end.

(** [try_process] of one of the processors *)
Definition try_processor (env : fetch_env) (g : KubernetesGVK) (obj : dict pyval) (s : fetch_state) (p : processor) : res fetch_state :=
  if bool_decide (g ∈ processor_kinds p) then
    ok ← processor_admit (fe_config env) p obj;
    if (ok : bool) then processor_process env p g obj s else Ok s
  else Ok s.

(** [AggregateKubernetesProcessor.try_process] *)
Definition aggregate_kinds : list KubernetesGVK := delegates ≫= processor_kinds.

Definition aggregate_try_process (env : fetch_env) (g : KubernetesGVK) (obj : dict pyval) (s : fetch_state) : res fetch_state :=
  if bool_decide (g ∈ aggregate_kinds) then
    ok ← base_admit (fe_config env) obj;
    if (ok : bool) then fold_res (try_processor env g obj) (List.filter (λ p, bool_decide (g ∈ processor_kinds p)) delegates) s else Ok s
  else Ok s.

(** [DeduplicatingKubernetesProcessor.try_process] *)
Definition dedup_try_process (env : fetch_env) (obj : dict pyval) (s : fetch_state) : res fetch_state :=
  g ← k8s_gvk obj;
  if bool_decide (g ∈ aggregate_kinds) then
    ok ← base_admit (fe_config env) obj;
    if (ok : bool) then
      key ← k8s_key (fe_config env) obj;
      if bool_decide (key ∈ fs_seen s) then Ok s
      else
        aggregate_try_process env g obj
          (mkFetch (fs_aconf s) (fs_locations s) (fs_elements s) (fs_services s) (fs_ambassador_service s) (fs_ingress_classes s)
             (fs_endpoints s) (fs_helm s) (fs_seen s ++ [key]))
    else Ok s
  else Ok s.

(** ** [ResourceFetcher] *)

Definition handle_k8s (env : fetch_env) (raw_obj : pyval) (s : fetch_state) : res fetch_state :=
  d ← as_dict raw_obj;
  match KubernetesObject_init d with
  | Ok obj => dedup_try_process env obj s
  | Raise (ValueError _) => Ok s
  | Raise e => Raise e
  end.

(** [handle_annotation]: the filename is marked while the object is emitted. *)
Definition handle_annotation (env : fetch_env) (parent_key : string) (s : fetch_state) (raw_obj : pyval) : res fetch_state :=
  d ← as_dict raw_obj;
  match KubernetesObject_init d with
  | Ok obj =>
      let '(m, f) := mark_annotated (fs_locations s) in
      rkey ← res_of_option IndexError (snd <$> split1 slash parent_key);
      r ← from_kubernetes_object (fe_config env) obj (Some rkey);
      s ← emit env r (fs_with_locations m s);
      Ok (fs_with_locations (set_filename (fs_locations s) f) s)
  | Raise (ValueError _) => Ok s
  | Raise e => Raise e
  end.

Definition consul_endpoint (ep : pyval) : res (list pyval) :=
  addr ← vget "Address" PNone ep; port ← vget "Port" PNone ep;
  if negb (py_bool addr) || negb (py_bool port) then
    d ← as_dict ep; _ ← dget_exn "ID" d; Ok []
  else Ok [PDict [("ip", addr); ("port", port); ("target_kind", PStr "Consul")]].

Definition handle_consul_service (env : fetch_env) (s : fetch_state) (kv : string * pyval) : res fetch_state :=
  let '(consul_rkey, consul_object) := kv in
  endpoints ← vget "Endpoints" (PList []) consul_object;
  name ← vget "Service" (PStr consul_rkey) consul_object;
  endpoints ← py_iter endpoints;
  match endpoints with
  | [] => Ok s
  | _ =>
      eps ← map_res consul_endpoint endpoints;
      datacenter ← vget "Id" PNone consul_object;
      let datacenter := py_or datacenter (PStr "dc1") in
      let normalized := match List.concat eps with [] => [] | l => [("*", PList l)] end in
      name ← as_str name;
      r ← from_data_v3 "Service" name None PNone PNone
            (PDict [("ambassador_id", PStr (ambassador_id (fe_config env))); ("datacenter", datacenter); ("endpoints", PDict normalized)])
            PNone (Some ("consul-" +:+ name +:+ "-" +:+ py_text datacenter));
      emit env r s
  end.

(** Objects that are invalid go back to those of their kind. *)
Definition add_invalid (watt_k8s : dict pyval) (obj : pyval) : res (dict pyval) :=
  kind ← vget "kind" PNone obj;
  if negb (py_bool kind) then Ok watt_k8s
  else
    kind ← as_str kind;
    let watt_list := pget kind watt_k8s in
    if py_bool watt_list then
      match watt_list with PList l => Ok (dset kind (PList (l ++ [obj])) watt_k8s) | _ => Raise (AttributeError "append") end
    else Ok (dset kind (PList [obj]) watt_k8s).

(** [dict.fromkeys(keys)] *)
Fixpoint unique (keys : list string) : list string :=
  match keys with [] => [] | k :: keys => k :: filter (λ k', k' ≠ k) (unique keys) end.

(** The object of a snapshot that annotations are on *)
Definition annotation_parent (obj : dict pyval) : res string :=
  kind ← dget_exn "kind" obj; m ← dget_exn "metadata" obj; m ← as_dict m; name ← dget_exn "name" m;
  Ok (py_text kind +:+ "/" +:+ py_text name +:+ "." +:+ py_text (pget "namespace" m)).

Definition watt_object (env : fetch_env) (annotations : pyval) (s : fetch_state) (raw_obj : pyval) : res fetch_state :=
  s ← handle_k8s env raw_obj (fs_with_locations (push_reset (fs_locations s)) s);
  d ← as_dict raw_obj;
  s ← (if dmem "errors" d then Ok s
       else
         parent ← annotation_parent d;
         anns ← vget parent PNone annotations;
         anns ← (if py_bool anns then py_iter anns else Ok []);
         fold_res (handle_annotation env parent) anns s);
  '(_, m) ← pop (fs_locations s);
  Ok (fs_with_locations m s).

Definition watt_kind (env : fetch_env) (watt_k8s : dict pyval) (annotations : pyval) (s : fetch_state) (key : string) : res fetch_state :=
  let objs := pget key watt_k8s in
  objs ← (if py_bool objs then py_iter objs else Ok []);
  fold_res (watt_object env annotations) objs s.

(** What the fetcher registers with the dependency manager when it makes its
    processors, which are numbered in that order *)
Definition fetch_deps : DependencyManager :=
  let m := DependencyManager_init [ServiceDependency; SecretDependency; IngressClassesDependency] in
  let m := (provide m 0 SecretDependency).1 in
  let m := (provide m 1 IngressClassesDependency).1 in
  let m := (want m 2 SecretDependency).1 in
  let m := (want m 2 ServiceDependency).1 in
  let m := (want m 2 IngressClassesDependency).1 in
  let m := (want m 3 ServiceDependency).1 in
  let m := (provide m 4 ServiceDependency).1 in
  (want m 5 ServiceDependency).1.

Record fetcher : Type := mkFetcher { ft_state : fetch_state; ft_deltas : pyval; ft_invalid : list pyval }.

(** [parse_watt], from the dictionary that the text of the snapshot parses to,
    with the kinds that come first *)
Definition load_watt (env : fetch_env) (watch_only finalize : bool) (keys : list string) (watt : dict pyval) (s : fetch_state)
    : res fetcher :=
  let deltas := py_or (pget "Deltas" watt) (PList []) in
  watt_k8s ← as_dict (dget_default "Kubernetes" (PDict []) watt);
  invalid ← py_iter (py_or (pget "Invalid" watt) (PList []));
  watt_k8s ← fold_res add_invalid invalid watt_k8s;
  let annotations := dget_default "annotations" (PDict []) watt_k8s in
  let watt_k8s := ddel "annotations" watt_k8s in
  s ← fold_res (watt_kind env watt_k8s annotations) (unique (keys ++ dkeys watt_k8s)) s;
  consul ← vget "Endpoints" (PDict []) (dget_default "Consul" (PDict []) watt);
  consul ← py_items consul;
  s ← fold_res (handle_consul_service env) consul s;
  s ← (if finalize then services_finalize env watch_only s else Ok s);
  Ok (mkFetcher s deltas invalid).

Definition parse_watt (iter : list dep_node → list dep_node) (iter_dep : list dep_class → list dep_class) (env : fetch_env)
    (watch_only finalize : bool) (watt : dict pyval) (s : fetch_state) : res fetcher :=
  keys ← match sorted_watt_keys iter iter_dep fetch_deps with Some r => r | None => Raise (RuntimeError "no order") end;
  load_watt env watch_only finalize keys watt s.

(** [ResourceFetcher(logger, aconf)] *)
Definition ResourceFetcher_init (c : Config) : fetch_state :=
  mkFetch c LocationManager_init [] [] None [] [] PNone [].

(** [sorted()]: the elements by their keys *)
Definition element_key (r : resource) : string := text "rkey" r.
Definition fetcher_sorted (s : fetch_state) : list resource := py_sorted str_le element_key (fs_elements s).
