(* ===== verification/FetchOnce.v ===== *)
(** * Handling objects once

    Processors only add to what was fetched; so an object whose key was handled
    before adds nothing, and the objects of a snapshot can be thinned out to the
    first of each key. *)

From S2P Require Import Prelude PyStr PyVal Utils Dependency Location Resource ServiceName PyText HTTPMapping Group.
From S2P Require Import Config Fetch FetchService FetchIngress Fetcher.

(** ** What processors keep *)

(** From [s] to [s'] the keys that were handled are the same, and what was
    emitted is still there. *)
Definition extends (s s' : fetch_state) : Prop := fs_seen s' = fs_seen s ∧ fs_elements s `prefix_of` fs_elements s'.

#[export] Instance extends_preorder : PreOrder extends.
Proof.
  split.
  - intros s. by split.
  - intros s1 s2 s3 [H1 P1] [H2 P2]. split; [congruence|]. by etrans.
Qed.

(** When it returns, [r] extends [s]. *)
Definition extending (s : fetch_state) (r : res fetch_state) : Prop := match r with Ok s' => extends s s' | Raise _ => True end.

Lemma extending_bind {A} s (r : res A) f : (∀ x, extending s (f x)) → extending s (r ≫= f).
Proof. destruct r; [naive_solver|done]. Qed.

Lemma extending_then s r f : extending s r → (∀ s', extending s' (f s')) → extending s (r ≫= f).
Proof. destruct r as [s1|]; [|done]. cbn. intros H Hf. specialize (Hf s1). unfold extending in *. destruct (f s1); [by etrans|done]. Qed.

Lemma extending_fold {A} (f : fetch_state → A → res fetch_state) l : (∀ s x, extending s (f s x)) → ∀ s, extending s (fold_res f l s).
Proof.
  intros Hf. induction l as [|x l IH]; intros s; [cbn; reflexivity|]. cbn. apply extending_then; [done|]. intros s'. apply IH.
Qed.

Lemma extending_from s s0 r : extends s s0 → extending s0 r → extending s r.
Proof. unfold extending. destruct r; [|done]. intros ??. by etrans. Qed.

Lemma extends_same s s' : fs_seen s' = fs_seen s → fs_elements s' = fs_elements s → extends s s'.
Proof. intros H1 H2. split; [done|]. by rewrite H2. Qed.

Create HintDb fetch.
#[export] Hint Resolve extends_same : fetch.

(** Goes through a function that returns [s], a state that only differs in
    other parts, or what a function of the database returns. *)
Ltac extend :=
  repeat first
    [ solve [auto with fetch]
    | progress cbn beta
    | match goal with
      | |- extending _ (Ok _) => first [reflexivity | by apply extends_same]
      | |- extending _ (Raise _) => exact I
      | |- extending _ (fold_res _ _ _) => apply extending_fold; intros ? ?
      | |- extending ?s (mbind _ (?r : res fetch_state)) => apply extending_then; [|intros ?]
      | |- extending _ (mbind _ _) => apply extending_bind; intros ?
      | |- extending _ (match ?x with _ => _ end) => destruct x
      end ].

Lemma post_error_extends env m s s' : fs_post_error env m s = Ok s' → extends s s'.
Proof. unfold fs_post_error. intros H. res_inv. by apply extends_same. Qed.

Lemma emit_object_extends env r s b s' : emit_object env r s = Ok (b, s') → extends s s'.
Proof.
  unfold emit_object. intros H. repeat (case_match; res_inv); simplify_eq; eauto using post_error_extends with fetch; try reflexivity.
  all: split; [done|by eexists].
Qed.

Lemma emit_extending env r s : extending s (emit env r s).
Proof.
  unfold emit. destruct (emit_object env r s) as [[counts s1]|] eqn:E; [|done]. apply emit_object_extends in E. cbn.
  etrans; [exact E|]. by destruct counts; apply extends_same.
Qed.
#[export] Hint Resolve emit_extending : fetch.

Lemma process_service_extending env obj s : extending s (process_service env obj s).
Proof. unfold process_service. extend. Qed.

Lemma process_endpoints_extending env obj s : extending s (process_endpoints env obj s).
Proof. unfold process_endpoints. extend. unfold endpoint_subset. extend. Qed.

Lemma process_ingress_class_extending env obj s : extending s (process_ingress_class env obj s).
Proof. unfold process_ingress_class. extend. Qed.

Lemma process_secret_extending env obj s : extending s (process_secret env obj s).
Proof. unfold process_secret. extend. Qed.

Lemma emit_ingress_mapping_extending env i tls suffix spec s : extending s (emit_ingress_mapping env i tls suffix spec s).
Proof. unfold emit_ingress_mapping. extend. Qed.
#[export] Hint Resolve emit_ingress_mapping_extending : fetch.

Lemma emit_ingress_tls_extending env i t s : extending s (emit_ingress_tls env i s t).
Proof. unfold emit_ingress_tls. extend; unfold emit_ingress_host; extend. Qed.

Lemma emit_default_backend_extending env i tls spec s : extending s (emit_default_backend env i tls spec s).
Proof. unfold emit_default_backend. extend. Qed.

Lemma emit_ingress_rule_extending env i tls s r : extending s (emit_ingress_rule env i tls s r).
Proof. unfold emit_ingress_rule. extend; unfold emit_ingress_path; extend. Qed.

Lemma ingress_update_status_extending env obj s : extending s (ingress_update_status env obj s).
Proof. unfold ingress_update_status. extend. Qed.
#[export] Hint Resolve emit_ingress_tls_extending emit_default_backend_extending emit_ingress_rule_extending ingress_update_status_extending : fetch.

Lemma process_ingress_extending env obj s : extending s (process_ingress env obj s).
Proof.
  unfold process_ingress. apply extending_bind. intros wanted. case_match; [cbn; reflexivity|].
  apply extending_bind. intros id. case_match; [cbn; reflexivity|].
  apply (extending_from _ (fs_with_aconf (incr_count "k8s_ingress" (fs_aconf s)) s)); [by apply extends_same|]. extend.
Qed.

Lemma knative_update_status_extending env obj s : extending s (knative_update_status env obj s).
Proof. unfold knative_update_status. extend. Qed.
#[export] Hint Resolve knative_update_status_extending : fetch.

Lemma process_knative_extending env obj s : extending s (process_knative env obj s).
Proof.
  unfold process_knative. extend. unfold emit_knative_rule. extend. unfold emit_knative_mapping. extend.
Qed.
#[export] Hint Resolve process_service_extending process_endpoints_extending process_ingress_class_extending process_secret_extending : fetch.
#[export] Hint Resolve process_ingress_extending process_knative_extending : fetch.

Lemma processor_process_extending env p g obj s : extending s (processor_process env p g obj s).
Proof. destruct p; cbn [processor_process]; extend. unfold process_ambassador. extend. Qed.
#[export] Hint Resolve processor_process_extending : fetch.

Lemma aggregate_try_process_extending env g obj s : extending s (aggregate_try_process env g obj s).
Proof. unfold aggregate_try_process. extend. unfold try_processor. extend. Qed.

(** ** Duplicates *)

(** Whether the objects with a key are of no interest *)
Definition uninteresting (env : config_env) (key : KubernetesObjectKey) : Prop :=
  key_gvk key ∉ aggregate_kinds ∨ ∃ ns, key_namespace key = Some ns ∧ single_namespace env = true ∧ ns ≠ ambassador_namespace env.

Definition raw_key (env : config_env) (raw_obj : pyval) : res KubernetesObjectKey := obj ← as_dict raw_obj; k8s_key env obj.

Definition harmless (env : config_env) (key : KubernetesObjectKey) (s : fetch_state) : Prop := key ∈ fs_seen s ∨ uninteresting env key.

Lemma raw_key_inv env raw_obj key : raw_key env raw_obj = Ok key →
  ∃ obj, raw_obj = PDict obj ∧ k8s_key env obj = Ok key ∧ k8s_gvk obj = Ok (key_gvk key) ∧ KubernetesObject_init obj = Ok obj.
Proof.
  unfold raw_key. destruct raw_obj as [| | | | |obj]; try done. cbn. intros H. exists obj. split; [done|]. split; [done|].
  unfold k8s_key in H. unfold KubernetesObject_init. apply res_bind_Ok in H as (ns & _ & H). res_inv. cbn.
  repeat match goal with E : _ = Ok _ |- _ => rewrite E end. done.
Qed.

(** What handling an object does, by its key *)
Lemma handle_k8s_cases env raw_obj key s : raw_key (fe_config env) raw_obj = Ok key →
  (harmless (fe_config env) key s ∧ handle_k8s env raw_obj s = Ok s)
  ∨ extending (mkFetch (fs_aconf s) (fs_locations s) (fs_elements s) (fs_services s) (fs_ambassador_service s) (fs_ingress_classes s)
                 (fs_endpoints s) (fs_helm s) (fs_seen s ++ [key])) (handle_k8s env raw_obj s)
    ∧ ¬ harmless (fe_config env) key s.
Proof.
  intros (obj & -> & Hk & Hg & Hi)%raw_key_inv. unfold handle_k8s. cbn [as_dict mbind res_bind]. rewrite Hi. unfold dedup_try_process.
  rewrite Hg. cbn [mbind res_bind]. case_bool as Hin; [|left; split; [right; by left|done]]. unfold base_admit. rewrite Hk. cbn [mbind res_bind].
  destruct (match key_namespace key with Some _ => _ | None => _ end) eqn:Hadm.
  - case_bool as Hseen; [left; split; [by left|done]|]. right. split; [apply aggregate_try_process_extending|].
    intros [H|[H|(ns & Hns & Hs & Hne)]]; [done|done|]. rewrite Hns, Hs, bool_decide_false in Hadm by done. done.
  - left. split; [|done]. right. right. destruct (key_namespace key) as [ns|]; [|done]. exists ns. split; [done|].
    apply negb_false_iff, andb_true_iff in Hadm as [-> Hne]. rewrite negb_true_iff in Hne. by apply bool_decide_eq_false in Hne.
Qed.

(** The first object of each key *)
Fixpoint first_objects (env : config_env) (keys : list KubernetesObjectKey) (raw_objs : list pyval) : list pyval :=
  match raw_objs with
  | [] => []
  | o :: raw_objs =>
      match raw_key env o with
      | Ok key => if bool_decide (key ∈ keys) then first_objects env keys raw_objs else o :: first_objects env (key :: keys) raw_objs
      | Raise _ => o :: first_objects env keys raw_objs
      end
  end.

Definition handle_all (env : fetch_env) (raw_objs : list pyval) (s : fetch_state) : res fetch_state :=
  fold_res (λ s o, handle_k8s env o s) raw_objs s.

Lemma harmless_extends env key s s' : fs_seen s ⊆ fs_seen s' → harmless env key s → harmless env key s'.
Proof. intros Hsub [H|H]; [left; by apply Hsub|by right]. Qed.

Lemma handle_k8s_harmless env raw_obj key s s' : raw_key (fe_config env) raw_obj = Ok key → handle_k8s env raw_obj s = Ok s' →
  fs_seen s ⊆ fs_seen s' ∧ harmless (fe_config env) key s'.
Proof.
  intros Hk Hh. destruct (handle_k8s_cases env raw_obj key s Hk) as [[Hharm Heq]|[Hext _]].
  - rewrite Hh in Heq. injection Heq as ->. done.
  - rewrite Hh in Hext. destruct Hext as [Hseen _]. cbn in Hseen. unfold harmless. rewrite Hseen. set_solver.
Qed.

Lemma handle_all_first env raw_objs : (∀ o, o ∈ raw_objs → ∃ key, raw_key (fe_config env) o = Ok key) →
  ∀ keys s, (∀ key, key ∈ keys → harmless (fe_config env) key s) →
  handle_all env raw_objs s = handle_all env (first_objects (fe_config env) keys raw_objs) s.
Proof.
  intros Hall. induction raw_objs as [|o raw_objs IH]; intros keys s Hkeys; [done|].
  destruct (Hall o ltac:(by left)) as [key Hk]. specialize (IH ltac:(intros o' Ho'; apply Hall; by right)).
  cbn [first_objects]. rewrite Hk. case_bool as Hin.
  - unfold handle_all at 1. cbn [fold_res]. destruct (handle_k8s_cases env o key s Hk) as [[_ ->]|[_ Hno]]; [by apply IH|].
    destruct Hno. by apply Hkeys.
  - unfold handle_all. cbn [fold_res]. destruct (handle_k8s env o s) as [s'|] eqn:Hh; [|done]. cbn [mbind res_bind].
    destruct (handle_k8s_harmless _ _ _ _ _ Hk Hh) as [Hsub Hharm]. apply IH. intros key' [->|Hin']%elem_of_cons; [done|].
    eapply harmless_extends; [exact Hsub|]. by apply Hkeys.
Qed.

(** C19. Objects are handled once: handling the objects of a snapshot, each of
    which has a key, gives what handling the first object of each key gives,
    whatever the kinds of the objects and whether a processor raises or not. *)
Theorem objects_handled_once env raw_objs s : (∀ o, o ∈ raw_objs → ∃ key, raw_key (fe_config env) o = Ok key) →
  handle_all env raw_objs s = handle_all env (first_objects (fe_config env) [] raw_objs) s.
Proof. intros H. apply handle_all_first; [done|]. intros key Hk. by apply elem_of_nil in Hk. Qed.

(** ** Examples *)

Definition once_env : fetch_env := mkFEnv demo_env (λ _, "yaml") (λ _, "json") (λ _, "missing attributes") (λ _, Raise TypeError) "now".
Definition once_mapping (prefix : string) : pyval :=
  PDict [("apiVersion", PStr "getambassador.io/v3alpha1"); ("kind", PStr "Mapping");
         ("metadata", PDict [("name", PStr "a"); ("namespace", PStr "x")]); ("spec", PDict [("prefix", PStr prefix)])].

Lemma objects_handled_once_witness :
  handle_all once_env [once_mapping "/a/"; once_mapping "/b/"] (ResourceFetcher_init demo_aconf)
  = handle_all once_env [once_mapping "/a/"] (ResourceFetcher_init demo_aconf).
Proof.
  rewrite (objects_handled_once once_env [once_mapping "/a/"; once_mapping "/b/"]).
  - reflexivity.
  - intros o [->|[->|[]%elem_of_nil]%elem_of_cons]%elem_of_cons; eexists; reflexivity.
Defined.

(** Secrets of other namespaces are to be admitted although Ambassador is in a
    single namespace; but the processors around that of the secrets refuse
    them before. *)
Lemma secret_of_other_namespace env raw_obj key ns s : raw_key (fe_config env) raw_obj = Ok key → key_namespace key = Some ns →
  single_namespace (fe_config env) = true → ns ≠ ambassador_namespace (fe_config env) → handle_k8s env raw_obj s = Ok s.
Proof.
  intros Hk Hns Hs Hne. destruct (handle_k8s_cases env raw_obj key s Hk) as [[_ H]|[_ []]]; [done|]. right. right. eauto.
Qed.
