(* ===== verification/FetchLoad.v ===== *)
(** * From a snapshot to the configuration

    What the fetcher emits for the objects of a snapshot, and where the
    configuration files it: objects are handled once, and every object of one of
    Ambassador's own kinds reaches the bucket of its kind. *)

From S2P Require Import Prelude PyStr PyVal Utils Dependency Location Resource ServiceName PyText HTTPMapping Group.
From S2P Require Import Config Fetch FetchService FetchIngress Fetcher.

Lemma Forall2_elem_of_l {A B} (R : A → B → Prop) l k x : Forall2 R l k → x ∈ l → ∃ y, y ∈ k ∧ R x y.
Proof.
  induction 1 as [|a b l k Hab H IH]; [by intros ?%elem_of_nil|]. intros [->|Hx]%elem_of_cons; [exists b; split; [by left|done]|].
  destruct (IH Hx) as (y & Hy & HR). exists y. split; [by right|done].
Qed.

Lemma Forall2_elem_of_r {A B} (R : A → B → Prop) l k y : Forall2 R l k → y ∈ k → ∃ x, x ∈ l ∧ R x y.
Proof. intros H%Forall2_flip Hy. by apply (Forall2_elem_of_l _ _ _ _ H). Qed.

(** ** Emitting *)

(** [s'] is [s] with [rs] emitted at the current location. *)
Definition emitted (s : fetch_state) (rs : list resource) : fetch_state :=
  let m := fs_locations s in
  fs_with_locations (mkLM (previous m) (mkLocation (filename (current m)) (ocount (current m) + Z.of_nat (length rs))))
    (fs_with_elements (fs_elements s ++ rs) s).

Lemma emitted_nil s : emitted s [] = s.
Proof. destruct s as [c [pr [f o]] es]. unfold emitted. cbn. by rewrite app_nil_r, Z.add_0_r. Qed.

Lemma emitted_app s rs1 rs2 : emitted (emitted s rs1) rs2 = emitted s (rs1 ++ rs2).
Proof. unfold emitted. destruct s as [c [pr [f o]] es]. cbn. by rewrite <- app_assoc, length_app, Nat2Z.inj_add, Z.add_assoc. Qed.

(** The key an object gets when it is emitted *)
Definition emit_rkey (s : fetch_state) (rkey kind : string) : string :=
  if bool_decide (kind = "Service") then rkey else rkey +:+ "." +:+ str_of_int (ocount (current (fs_locations s))).

(** Attributes that an object cannot have, since they are parameters of the
    constructor *)
Definition parameter_keys : list string := ["self"; "rkey"; "location"; "serialization"; "_referenced_by"].

(** Kinds that are not names the package exports *)
Definition plain_kind (env : config_env) (kind : string) : Prop :=
  str_bool kind = true ∧ kind ≠ "Pragma" ∧ kind ∉ ce_package env ∧ ("AC" +:+ kind) ∉ ce_package env.

Record emittable (env : config_env) (o : dict pyval) (kind name v : string) : Prop := {
  em_ok : dict_ok o;
  em_good : good_ambassador_id env o = true;
  em_kind : dget "kind" o = Some (PStr kind);
  em_plain : plain_kind env kind;
  em_name : dget "name" o = Some (PStr name);
  em_name_bool : str_bool name = true;
  em_version : dget "apiVersion" o = Some (PStr v);
  em_version_bool : str_bool v = true;
  em_keys : ∀ k, k ∈ parameter_keys → dget k o = None
}.

Lemma str_bool_app_l s t : str_bool s = true → str_bool (s +:+ t) = true.
Proof. by destruct s. Qed.

Lemma emit_ok env o rkey kind name v s : emittable (fe_config env) o kind name v → str_bool rkey = true →
  ∃ r, emit env (mkNormalized (PDict o) (Some rkey)) s = Ok (emitted s [r])
    ∧ constructed (emit_rkey s rkey kind) (emit_rkey s rkey kind) kind name v
        (dset "serialization" (PStr (fe_dump_yaml env (PDict o))) o) r.
Proof.
  intros [Hok Hgood Hk (Hkb & Hpr & Hp1 & Hp2) Hn Hnb Hv Hvb Hkeys] Hrk.
  set (attrs := dset "serialization" (PStr (fe_dump_yaml env (PDict o))) o).
  assert (Ha : ∀ k, k ≠ "serialization" → dget k attrs = dget k o) by (intros k Hne; by apply dget_dset_ne).
  assert (Hrb : str_bool (emit_rkey s rkey kind) = true) by (unfold emit_rkey; case_bool; [done|by apply str_bool_app_l]).
  destruct (ACResource_init_Ok (emit_rkey s rkey kind) (emit_rkey s rkey kind) kind name v attrs) as (r & Hr & Hc); try done.
  - by apply dict_ok_dset.
  - intros k Hin. rewrite Ha by (intros ->; by apply (bool_decide_eq_true_2 _) in Hin; vm_compute in Hin).
    apply Hkeys. eapply listed_sub; [|exact Hin]. by vm_compute.
  - by rewrite Ha.
  - unfold pget, dget_default. by rewrite Ha, Hn.
  - unfold dget_default. by rewrite Ha, Hv.
  - exists r. split; [|exact Hc]. unfold emit, emit_object. cbn [nr_object nr_rkey]. rewrite Hgood. cbn [negb].
    rewrite Hk. cbn [py_eqb]. rewrite (bool_decide_false (kind = "Pragma")) by done. cbn [environ_bool default from_option id]. rewrite Hrk.
    change (if bool_decide (kind = "Service") then rkey else _) with (emit_rkey s rkey kind).
    unfold ACResource_from_dict. unfold dget_exn. rewrite Hk. cbn [res_of_option mbind res_bind as_str].
    rewrite !bool_decide_false by done. cbn [orb]. unfold dmem. rewrite (Hkeys "location"), (Hkeys "serialization") by listed. cbn [orb].
    fold attrs. rewrite Hr. cbn [mbind res_bind]. unfold emitted. cbn. done.
Qed.

(** The attributes that [from_data] sets *)
Definition data_keys : list string := ["apiVersion"; "kind"; "name"; "namespace"; "generation"; "metadata_labels"; "errors"].

Lemma from_data_spec kind name ns gen v group labels spec errors rkey : dict_ok spec →
  ∃ o, from_data kind name (Some ns) gen v (Some group) labels (PDict spec) errors (Some rkey) = Ok (mkNormalized (PDict o) (Some rkey))
    ∧ dict_ok o ∧ dget "apiVersion" o = Some (PStr (group +:+ "/" +:+ v)) ∧ dget "kind" o = Some (PStr kind)
    ∧ dget "name" o = Some (PStr name) ∧ dget "namespace" o = Some (PStr ns) ∧ dget "metadata_labels" o = Some (py_or labels (PDict []))
    ∧ dget "errors" o = (if py_bool errors then Some errors else dget "errors" spec)
    ∧ ∀ k, k ∉ data_keys → dget k o = dget k spec.
Proof.
  intros Hspec. unfold from_data. assert ((if py_bool (PDict spec) then as_dict (PDict spec) else Ok []) = Ok spec) as -> by (by destruct spec).
  cbn [mbind res_bind default from_option id]. eexists. split; [reflexivity|].
  set (o1 := dset "namespace" _ _). set (o2 := match gen with PNone => o1 | _ => dset "generation" gen o1 end).
  assert (H1 : ∀ k, dget k o1 = if bool_decide (k = "namespace") then Some (PStr ns) else if bool_decide (k = "name") then Some (PStr name)
                 else if bool_decide (k = "kind") then Some (PStr kind)
                 else if bool_decide (k = "apiVersion") then Some (PStr (group +:+ "/" +:+ v)) else dget k spec).
  { intros k. unfold o1. by rewrite !dget_dset. }
  assert (H2 : ∀ k, k ≠ "generation" → dget k o2 = dget k o1) by (intros k Hne; unfold o2; destruct gen; try done; by apply dget_dset_ne).
  assert (Hok1 : dict_ok o1) by (unfold o1; auto with emissary).
  assert (Hok2 : dict_ok o2) by (unfold o2; destruct gen; auto with emissary).
  set (o3 := dset "metadata_labels" _ o2). assert (Hok3 : dict_ok o3) by (unfold o3; auto with emissary).
  assert (H3 : ∀ k, k ≠ "errors" → dget k (if py_bool errors then dset "errors" errors o3 else o3) = dget k o3).
  { intros k Hne. destruct (py_bool errors); [by apply dget_dset_ne|done]. }
  split; [destruct (py_bool errors); auto with emissary|]. rewrite !H3 by done. unfold o3 at 1 2 3 4 5.
  rewrite !(dget_dset_ne _ "metadata_labels") by done. rewrite dget_dset_eq. rewrite !H2, !H1 by done. cbn [bool_decide decide].
  split_and_all; try done.
  - destruct (py_bool errors); [apply dget_dset_eq|]. unfold o3. rewrite dget_dset_ne, H2, H1 by done. done.
  - intros k Hk. rewrite H3 by (unlisted Hk). unfold o3. rewrite dget_dset_ne, H2, H1 by (unlisted Hk).
    by rewrite !bool_decide_false by (unlisted Hk).
Qed.

Lemma good_id_ext env (d d' : dict pyval) : dget "ambassadorId" d = dget "ambassadorId" d' → dget "ambassador_id" d = dget "ambassador_id" d' →
  good_ambassador_id env d = good_ambassador_id env d'.
Proof. intros H1 H2. unfold good_ambassador_id, pget, dget_default. by rewrite H1, H2. Qed.

Lemma no_parameters (spec : dict pyval) : forallb (λ k, negb (dmem k spec)) ("errors" :: parameter_keys) = true →
  ∀ k, k ∈ "errors" :: parameter_keys → dget k spec = None.
Proof. intros H k Hk. rewrite forallb_elem_of in H. specialize (H k Hk). rewrite negb_true_iff in H. by apply dmem_false. Qed.

(** The resource that is emitted for data *)
Record written (rkey kind name ns v : string) (labels : pyval) (spec : dict pyval) (errors : pyval) (r : resource) : Prop := {
  wr_constructed : ∃ attrs, constructed rkey rkey kind name v attrs r;
  wr_namespace : dget "namespace" r = Some (PStr ns);
  wr_labels : py_bool labels = true → dget "metadata_labels" r = Some labels;
  wr_errors : dget "errors" r = if py_bool errors then Some errors else None;
  wr_spec : ∀ k, k ∉ data_keys ++ base_keys → dget k r = dget k spec
}.

Lemma lists_disjoint (l l' : list string) k : forallb (λ k, negb (bool_decide (k ∈ l'))) l = true → k ∈ l → k ∉ l'.
Proof. intros H Hk. rewrite forallb_elem_of in H. specialize (H k Hk). rewrite negb_true_iff in H. by apply bool_decide_eq_false in H. Qed.

Lemma emit_data env kind name ns gen v group labels spec errors rkey s :
  dict_ok spec → (∀ k, k ∈ "errors" :: parameter_keys → dget k spec = None) → good_ambassador_id (fe_config env) spec = true →
  plain_kind (fe_config env) kind → str_bool name = true → str_bool group = true → str_bool rkey = true →
  ∃ r, (x ← from_data kind name (Some ns) gen v (Some group) labels (PDict spec) errors (Some rkey); emit env x s) = Ok (emitted s [r])
    ∧ written (emit_rkey s rkey kind) kind name ns (group +:+ "/" +:+ v) labels spec errors r.
Proof.
  intros Hok Hkeys Hgood Hplain Hn Hg Hrk.
  destruct (from_data_spec kind name ns gen v group labels spec errors rkey Hok) as (o & -> & Ho & Ov & Ok_ & On & Ons & Ol & Oe & Orest).
  cbn [mbind res_bind]. destruct (emit_ok env o rkey kind name (group +:+ "/" +:+ v) s) as (r & Hr & Hc); [|done|].
  - constructor; try done.
    + rewrite (good_id_ext _ o spec); [done|apply Orest; by apply (bool_decide_eq_false_1 _)..].
    + by apply str_bool_app_l.
    + intros k Hk. rewrite Orest by (by apply (lists_disjoint parameter_keys)). apply Hkeys. by right.
  - exists r. split; [exact Hr|]. set (attrs := dset "serialization" _ o) in Hc.
    assert (Ha : ∀ k, k ≠ "serialization" → dget k attrs = dget k o) by (intros k Hne; by apply dget_dset_ne).
    constructor.
    + by exists attrs.
    + rewrite (co_namespace _ _ _ _ _ _ _ Hc). unfold pget, dget_default. by rewrite Ha, Ons.
    + intros Hl. assert (Hp : pget "metadata_labels" attrs = labels) by (unfold pget, dget_default; rewrite Ha, Ol by done; cbn; unfold py_or; by rewrite Hl).
      rewrite (co_labels _ _ _ _ _ _ _ Hc); by rewrite Hp.
    + rewrite (co_rest _ _ _ _ _ _ _ Hc) by (by apply (bool_decide_eq_false_1 _)). rewrite Ha, Oe by done.
      destruct (py_bool _); [done|]. apply Hkeys. by left.
    + intros k Hk. rewrite (co_rest _ _ _ _ _ _ _ Hc) by (unlisted Hk). rewrite Ha by (unlisted Hk). apply Orest. unlisted Hk.
Qed.

(** ** Objects of Ambassador's kinds *)

Record crd (env : config_env) (obj : dict pyval) (kind name ns v : string) (spec : dict pyval) : Prop := {
  cr_version : dget "apiVersion" obj = Some (PStr ("getambassador.io/" +:+ v));
  cr_version_known : v ∈ ["v1"; "v2"; "v3alpha1"];
  cr_kind : dget "kind" obj = Some (PStr kind);
  cr_kind_known : kind ∈ ambassador_kinds;
  cr_package : kind ∉ ce_package env ∧ ("AC" +:+ kind) ∉ ce_package env;
  cr_metadata : ∃ m l, dget "metadata" obj = Some (PDict m) ∧ dget "name" m = Some (PStr name) ∧ dget "namespace" m = Some (PStr ns)
    ∧ dget_default "labels" (PDict []) m = PDict l;
  cr_name : str_bool name = true;
  cr_namespace : str_bool ns = true ∧ ns ≠ "_automatic_";
  cr_admitted : single_namespace env = false ∨ ns = ambassador_namespace env;
  cr_spec : k8s_spec obj = PDict spec;
  cr_spec_ok : dict_ok spec;
  cr_spec_keys : ∀ k, k ∈ "errors" :: parameter_keys → dget k spec = None;
  cr_good : good_ambassador_id env spec = true;
  cr_errors : pget "errors" obj = PNone ∨ ∃ e, pget "errors" obj = PStr e;
  cr_config : kind = "Module" → ∃ d, dget "config" spec = Some (PDict d) ∧ dict_ok d ∧ ∀ k, k ∈ reserved_keys → dget k d = None
}.

(** The errors that came with an object *)
Definition object_errors (obj : dict pyval) : string := match pget "errors" obj with PStr e => e | _ => EmptyString end.

(** What a resource that was emitted for an object is *)
Record emitted_for (obj : dict pyval) (kind name ns v : string) (spec : dict pyval) (r : resource) : Prop := {
  ef_wf : resource_wf r;
  ef_kind : text "kind" r = kind;
  ef_name : text "name" r = name;
  ef_namespace : text "namespace" r = ns;
  ef_version : text "apiVersion" r = "getambassador.io/" +:+ v;
  ef_errors : text "errors" r = object_errors obj;
  ef_spec : ∀ k, k ∉ data_keys ++ base_keys → dget k r = dget k spec
}.

Lemma crd_gvk env obj kind name ns v spec : crd env obj kind name ns v spec → k8s_gvk obj = Ok (for_ambassador kind v).
Proof. intros C. unfold k8s_gvk, dget_exn. rewrite (cr_version _ _ _ _ _ _ _ C), (cr_kind _ _ _ _ _ _ _ C). done. Qed.

Lemma crd_metadata env obj kind name ns v spec : crd env obj kind name ns v spec →
  k8s_name obj = Ok name ∧ k8s_namespace env obj = Ok ns ∧ (∃ l, k8s_labels obj = Ok (PDict l)) ∧ (∃ g, k8s_generation obj = Ok g)
  ∧ k8s_key env obj = Ok (mkKey (for_ambassador kind v) (Some ns) name).
Proof.
  intros C. destruct (cr_metadata _ _ _ _ _ _ _ C) as (m & l & Hm & Hn & Hns & Hl). destruct (cr_namespace _ _ _ _ _ _ _ C) as [_ Hauto].
  assert (Hname : k8s_name obj = Ok name) by (unfold k8s_name, k8s_metadata, dget_exn; rewrite Hm; cbn; by rewrite Hn).
  assert (Hnss : k8s_namespace env obj = Ok ns).
  { unfold k8s_namespace, k8s_metadata, dget_exn. rewrite Hm. cbn. unfold pget, dget_default. rewrite Hns. cbn. by rewrite bool_decide_false. }
  split_and_all; [done|done| | |].
  - exists l. unfold k8s_labels, k8s_metadata, dget_exn. rewrite Hm. cbn. by rewrite Hl.
  - unfold k8s_generation, k8s_metadata, dget_exn. rewrite Hm. by eexists.
  - unfold k8s_key. rewrite Hnss. cbn. by rewrite (crd_gvk _ _ _ _ _ _ _ C), Hname.
Qed.

Lemma ambassador_gvk kind v : kind ∈ ambassador_kinds → v ∈ ["v1"; "v2"; "v3alpha1"] → for_ambassador kind v ∈ processor_kinds AmbassadorProcessor.
Proof.
  intros Hk Hv. apply list_elem_of_fmap. exists (kind, v). split; [done|]. apply list_elem_of_bind. exists kind. split; [|done].
  apply list_elem_of_fmap. by exists v.
Qed.

(** No other processor handles these kinds. *)
Lemma ambassador_only g : g ∈ processor_kinds AmbassadorProcessor →
  List.filter (λ p, bool_decide (g ∈ processor_kinds p)) delegates = [AmbassadorProcessor].
Proof.
  intros Hg. assert (H : forallb (λ g, match List.filter (λ p, bool_decide (g ∈ processor_kinds p)) delegates with
                                       | [AmbassadorProcessor] => true | _ => false end) (processor_kinds AmbassadorProcessor) = true) by (by vm_compute).
  rewrite forallb_elem_of in H. specialize (H g Hg). by destruct (List.filter _ delegates) as [|[] []].
Qed.

Lemma api_group_ambassador kind v : v ∈ ["v1"; "v2"; "v3alpha1"] →
  api_group (for_ambassador kind v) = Some "getambassador.io" ∧ gvk_version (for_ambassador kind v) = v.
Proof. intros Hv. rewrite !elem_of_cons, elem_of_nil in Hv. by destruct Hv as [->|[->|[->|[]]]]. Qed.

Lemma written_for env obj kind name ns v spec rkey labels r : crd env obj kind name ns v spec → (lower kind = "module" → kind = "Module") →
  str_bool rkey = true → written rkey kind name ns ("getambassador.io/" +:+ v) labels spec (pget "errors" obj) r →
  emitted_for obj kind name ns v spec r.
Proof.
  intros C Hmod Hrk [[attrs Hc] Hnsr _ Herr Hspec]. constructor; unfold text.
  - constructor.
    + eexists. split; [apply Hc|done].
    + eexists. apply Hc.
    + eexists. apply Hc.
    + eexists. apply Hc.
    + eexists. apply Hc.
    + eexists. split; [apply Hc|apply C].
    + right. unfold pget, dget_default. rewrite Hnsr. by eexists.
    + rewrite Herr. destruct (cr_errors _ _ _ _ _ _ _ C) as [->|[e ->]]; [by left|]. cbn [py_bool].
      destruct (str_bool e); [right; by exists e|by left].
    + apply Hc.
    + unfold text. rewrite (co_kind _ _ _ _ _ _ _ Hc). intros H. rewrite (Hspec "config") by (by apply (bool_decide_eq_false_1 _)).
      apply (cr_config _ _ _ _ _ _ _ C). by apply Hmod.
  - by rewrite (co_kind _ _ _ _ _ _ _ Hc).
  - by rewrite (co_name _ _ _ _ _ _ _ Hc).
  - by rewrite Hnsr.
  - by rewrite (co_apiVersion _ _ _ _ _ _ _ Hc).
  - rewrite Herr. unfold object_errors. destruct (cr_errors _ _ _ _ _ _ _ C) as [->|[e ->]]; [done|]. cbn. by destruct e.
  - exact Hspec.
Qed.

(** The resource an object becomes *)
Lemma process_ambassador_spec env obj kind name ns v spec s : crd (fe_config env) obj kind name ns v spec →
  ∃ r, process_ambassador env obj s = Ok (emitted s [r]) ∧ emitted_for obj kind name ns v spec r
    ∧ text "rkey" r = name +:+ "." +:+ ns +:+ "." +:+ str_of_int (ocount (current (fs_locations s))).
Proof.
  intros C. destruct (crd_metadata _ _ _ _ _ _ _ C) as (Hn & Hns & (l & Hl) & (g & Hg) & _).
  destruct (api_group_ambassador kind v (cr_version_known _ _ _ _ _ _ _ C)) as [Hgrp Hver].
  pose proof (cr_kind_known _ _ _ _ _ _ _ C) as Hkk.
  assert (Hplain : str_bool kind = true ∧ kind ≠ "Pragma" ∧ kind ≠ "Service" ∧ (lower kind = "module" → kind = "Module")).
  { assert (H : forallb (λ k, str_bool k && negb (bool_decide (k = "Pragma")) && negb (bool_decide (k = "Service"))
                              && (negb (bool_decide (lower k = "module")) || bool_decide (k = "Module"))) ambassador_kinds = true) by (by vm_compute).
    rewrite forallb_elem_of in H. specialize (H kind Hkk). repeat (apply andb_true_iff in H as [H ?]).
    rewrite negb_true_iff in *. by repeat case_bool. }
  destruct Hplain as (Hkb & Hpr & Hsv & Hmod).
  destruct (emit_data env kind name ns g v "getambassador.io" (PDict (dset "ambassador_crd" (PStr (name +:+ "." +:+ ns)) l)) spec
              (pget "errors" obj) (name +:+ "." +:+ ns) s) as (r & Hr & W); try (done || by apply C).
  { unfold plain_kind. pose proof (cr_package _ _ _ _ _ _ _ C). tauto. }
  { apply str_bool_app_l, C. }
  exists r. unfold process_ambassador, from_kubernetes_object. rewrite Hns, Hl, Hn, (crd_gvk _ _ _ _ _ _ _ C), Hg. cbn [mbind res_bind as_dict environ_bool].
  rewrite Hgrp, Hver, (cr_spec _ _ _ _ _ _ _ C). cbn [gvk_kind for_ambassador]. split; [exact Hr|].
  unfold emit_rkey in W. rewrite bool_decide_false in W by done. split.
  - eapply written_for; [exact C|exact Hmod| |exact W]. apply str_bool_app_l, str_bool_app_l, C.
  - destruct W as [[attrs Hc] _ _ _ _]. unfold text. rewrite (co_rkey _ _ _ _ _ _ _ Hc). by rewrite <- !app_assoc_str.
Qed.

(** ** Objects of a snapshot *)

Definition with_seen (key : KubernetesObjectKey) (s : fetch_state) : fetch_state :=
  mkFetch (fs_aconf s) (fs_locations s) (fs_elements s) (fs_services s) (fs_ambassador_service s) (fs_ingress_classes s)
    (fs_endpoints s) (fs_helm s) (fs_seen s ++ [key]).

Lemma crd_admitted env p obj kind name ns v spec : crd env obj kind name ns v spec → p ≠ SecretProcessor → processor_admit env p obj = Ok true.
Proof.
  intros C Hp. destruct (crd_metadata _ _ _ _ _ _ _ C) as (_ & _ & _ & _ & Hk).
  assert (Hb : base_admit env obj = Ok true).
  { unfold base_admit. rewrite Hk. cbn. destruct (cr_admitted _ _ _ _ _ _ _ C) as [->|E]; [done|]. by rewrite bool_decide_true, andb_false_r. }
  by destruct p.
Qed.

Lemma handle_crd env obj kind name ns v spec s : crd (fe_config env) obj kind name ns v spec →
  mkKey (for_ambassador kind v) (Some ns) name ∉ fs_seen s →
  ∃ r, handle_k8s env (PDict obj) s = Ok (emitted (with_seen (mkKey (for_ambassador kind v) (Some ns) name) s) [r])
    ∧ emitted_for obj kind name ns v spec r
    ∧ text "rkey" r = name +:+ "." +:+ ns +:+ "." +:+ str_of_int (ocount (current (fs_locations s))).
Proof.
  intros C Hseen. destruct (crd_metadata _ _ _ _ _ _ _ C) as (Hn & _ & _ & _ & Hk). pose proof (crd_gvk _ _ _ _ _ _ _ C) as Hg.
  pose proof (ambassador_gvk kind v (cr_kind_known _ _ _ _ _ _ _ C) (cr_version_known _ _ _ _ _ _ _ C)) as Hin.
  assert (Hagg : for_ambassador kind v ∈ aggregate_kinds).
  { apply list_elem_of_bind. exists AmbassadorProcessor. split; [done|]. unfold delegates. set_solver. }
  pose proof (crd_admitted _ CountingProcessor _ _ _ _ _ _ C ltac:(done)) as Hb. cbn in Hb.
  unfold handle_k8s, KubernetesObject_init. cbn [as_dict mbind res_bind]. rewrite Hg, Hn. cbn [mbind res_bind].
  unfold dedup_try_process. rewrite Hg. cbn [mbind res_bind]. rewrite bool_decide_true by done. rewrite Hb. cbn [mbind res_bind]. rewrite Hk.
  cbn [mbind res_bind]. rewrite bool_decide_false by done. unfold aggregate_try_process. rewrite bool_decide_true by done. rewrite Hb. cbn [mbind res_bind].
  rewrite (ambassador_only _ Hin). cbn [fold_res]. unfold try_processor. rewrite bool_decide_true by done.
  rewrite (crd_admitted _ AmbassadorProcessor _ _ _ _ _ _ C ltac:(done)). cbn [mbind res_bind processor_process].
  destruct (process_ambassador_spec env obj kind name ns v spec
              (with_seen (mkKey (for_ambassador kind v) (Some ns) name) s) C) as (r & Hr & H).
  exists r. split; [|exact H]. change (mkFetch _ _ _ _ _ _ _ _ _) with (with_seen (mkKey (for_ambassador kind v) (Some ns) name) s).
  by rewrite Hr.
Qed.

(** An object with what is known of it *)
Record crd_info : Type := mkCrd { ci_obj : dict pyval; ci_kind : string; ci_name : string; ci_ns : string; ci_version : string; ci_spec : dict pyval }.
Definition ci_crd (env : config_env) (ci : crd_info) : Prop :=
  crd env (ci_obj ci) (ci_kind ci) (ci_name ci) (ci_ns ci) (ci_version ci) (ci_spec ci).
Definition ci_key (ci : crd_info) : KubernetesObjectKey := mkKey (for_ambassador (ci_kind ci) (ci_version ci)) (Some (ci_ns ci)) (ci_name ci).
Definition ci_emitted (ci : crd_info) (r : resource) : Prop :=
  emitted_for (ci_obj ci) (ci_kind ci) (ci_name ci) (ci_ns ci) (ci_version ci) (ci_spec ci) r
  ∧ text "rkey" r = ci_name ci +:+ "." +:+ ci_ns ci +:+ ".1".

(** [s] after fetching objects: their resources and keys are added. *)
Definition fetched (s : fetch_state) (keys : list KubernetesObjectKey) (rs : list resource) : fetch_state :=
  mkFetch (fs_aconf s) (fs_locations s) (fs_elements s ++ rs) (fs_services s) (fs_ambassador_service s) (fs_ingress_classes s)
    (fs_endpoints s) (fs_helm s) (fs_seen s ++ keys).

Lemma fetched_nil s : fetched s [] [] = s.
Proof. unfold fetched. rewrite !app_nil_r. by destruct s. Qed.

Lemma fetched_app s k1 k2 r1 r2 : fetched (fetched s k1 r1) k2 r2 = fetched s (k1 ++ k2) (r1 ++ r2).
Proof. unfold fetched. cbn. by rewrite <- !app_assoc. Qed.

Lemma watt_object_crd env ci s : ci_crd (fe_config env) ci → ci_key ci ∉ fs_seen s →
  ∃ r, watt_object env (PDict []) s (PDict (ci_obj ci)) = Ok (fetched s [ci_key ci] [r]) ∧ ci_emitted ci r.
Proof.
  destruct ci as [obj kind name ns v spec]. unfold ci_crd, ci_key, ci_emitted.
  cbn [ci_obj ci_kind ci_name ci_ns ci_version ci_spec]. intros C Hseen.
  set (s0 := fs_with_locations (push_reset (fs_locations s)) s).
  destruct (handle_crd env obj kind name ns v spec s0 C Hseen) as (r & Hr & He & Hk).
  exists r. split; [|done]. unfold watt_object. fold s0. rewrite Hr. cbn [mbind res_bind as_dict].
  set (s1 := emitted _ [r]).
  assert (Hpop : pop (fs_locations s1) = Ok (current (fs_locations s1), fs_locations s)).
  { unfold s1, s0, pop, push_reset, push. destruct s as [c [pr cur] es]. cbn. by rewrite last_snoc, removelast_last. }
  assert (Hann : (if dmem "errors" obj then Ok s1
                  else parent ← annotation_parent obj; anns ← vget parent PNone (PDict []);
                       anns ← (if py_bool anns then py_iter anns else Ok []); fold_res (handle_annotation env parent) anns s1) = Ok s1).
  { destruct (dmem "errors" obj); [done|]. destruct (cr_metadata _ _ _ _ _ _ _ C) as (m & l & Hm & Hn & _).
    unfold annotation_parent, dget_exn. rewrite (cr_kind _ _ _ _ _ _ _ C), Hm. cbn. by rewrite Hn. }
  rewrite Hann. cbn [mbind res_bind]. rewrite Hpop. cbn. done.
Qed.

(** All objects of a kind of the snapshot, and of all kinds *)
Lemma watt_objects_crd env cis : ∀ s, Forall (ci_crd (fe_config env)) cis → NoDup (fs_seen s ++ (ci_key <$> cis)) →
  ∃ rs, fold_res (watt_object env (PDict [])) ((λ ci, PDict (ci_obj ci)) <$> cis) s = Ok (fetched s (ci_key <$> cis) rs)
    ∧ Forall2 ci_emitted cis rs.
Proof.
  induction cis as [|ci cis IH]; intros s Hc Hnd; [exists []; split; [cbn; by rewrite fetched_nil|constructor]|].
  apply Forall_cons in Hc as [Hci Hc]. cbn in Hnd.
  destruct (watt_object_crd env ci s Hci) as (r & Hr & He).
  { apply NoDup_app in Hnd as (_ & Hd & _). intros H. apply (Hd _ H). by left. }
  destruct (IH (fetched s [ci_key ci] [r]) Hc) as (rs & Hrs & H2); [cbn; by rewrite <- app_assoc|].
  exists (r :: rs). split; [|by constructor]. rewrite !fmap_cons. cbn [fold_res].
  rewrite Hr. cbn [mbind res_bind]. by rewrite Hrs, fetched_app.
Qed.

Definition kind_objects (watt_k8s : dict pyval) (key : string) : list pyval := match pget key watt_k8s with PList l => l | _ => [] end.

Lemma watt_kinds_crd env watt_k8s keys : (∀ k v, dget k watt_k8s = Some v → v = PNone ∨ ∃ l, v = PList l) →
  ∀ s, fold_res (watt_kind env watt_k8s (PDict [])) keys s = fold_res (watt_object env (PDict [])) (keys ≫= kind_objects watt_k8s) s.
Proof.
  intros Hv. induction keys as [|k keys IH]; intros s; [done|].
  assert (Happ : ∀ l1 l2 s0, fold_res (watt_object env (PDict [])) (l1 ++ l2) s0
                  = (s1 ← fold_res (watt_object env (PDict [])) l1 s0; fold_res (watt_object env (PDict [])) l2 s1)).
  { induction l1 as [|x l1 IHl]; intros l2 s0; [done|]. cbn. destruct (watt_object env (PDict []) s0 x); cbn; [apply IHl|done]. }
  change ((k :: keys) ≫= kind_objects watt_k8s) with (kind_objects watt_k8s k ++ (keys ≫= kind_objects watt_k8s)). rewrite Happ.
  cbn [fold_res]. assert (watt_kind env watt_k8s (PDict []) s k = fold_res (watt_object env (PDict [])) (kind_objects watt_k8s k) s) as ->.
  { unfold watt_kind, kind_objects, pget, dget_default. destruct (dget k watt_k8s) as [v|] eqn:E; [|done].
    destruct (Hv k v E) as [->|[[|x l] ->]]; done. }
  destruct (fold_res _ (kind_objects watt_k8s k) s); cbn; [apply IH|done].
Qed.

Lemma ddel_absent {V} k (d : dict V) : dget k d = None → ddel k d = d.
Proof. induction d as [|[k' v] d IH]; [done|]. cbn. case_bool; [done|]. intros H. by rewrite IH. Qed.

(** ** The order of the kinds *)

Lemma elem_of_unique k keys : k ∈ unique keys ↔ k ∈ keys.
Proof.
  induction keys as [|k' keys IH]; [done|]. cbn. rewrite !elem_of_cons, list_elem_of_filter, IH. destruct (decide (k = k')); naive_solver.
Qed.

Lemma NoDup_unique keys : NoDup (unique keys).
Proof.
  induction keys as [|k keys IH]; [constructor|]. cbn. apply NoDup_cons. split; [|by apply NoDup_filter].
  rewrite list_elem_of_filter. naive_solver.
Qed.

(** Whatever kinds come first, all the objects are handled. *)
Lemma unique_kinds keys (k8s : dict pyval) : dict_ok k8s →
  (unique (keys ++ dkeys k8s) ≫= kind_objects k8s) ≡ₚ (dkeys k8s ≫= kind_objects k8s).
Proof.
  intros Hok. set (rest := filter (λ k, k ∉ dkeys k8s) (unique (keys ++ dkeys k8s))).
  assert (Hp : unique (keys ++ dkeys k8s) ≡ₚ dkeys k8s ++ rest).
  { apply NoDup_Permutation.
    - apply NoDup_unique.
    - apply NoDup_app. split; [done|]. split; [|by apply NoDup_filter, NoDup_unique]. intros k Hk. unfold rest. rewrite list_elem_of_filter. naive_solver.
    - intros k. unfold rest. rewrite elem_of_app, list_elem_of_filter, elem_of_unique, elem_of_app.
      destruct (decide (k ∈ dkeys k8s)); naive_solver. }
  rewrite Hp, bind_app. assert (Hnil : ∀ ks, (∀ k, k ∈ ks → k ∉ dkeys k8s) → (ks ≫= kind_objects k8s) = []).
  { induction ks as [|k ks IH]; intros Hks; [done|]. cbn. unfold kind_objects at 1, pget, dget_default.
    rewrite (proj2 (dget_None k k8s)) by (apply Hks; by left). apply IH. intros k' Hk'. apply Hks. by right. }
  rewrite (Hnil rest), app_nil_r; [done|]. intros k. unfold rest. rewrite list_elem_of_filter. naive_solver.
Qed.

(** No processor of the fetcher both wants and provides, so that its kinds can
    be ordered. *)
Definition dep_rank (v : nat + dep_class) : nat :=
  match v with inr _ => 1 | inl n => if bool_decide (n ∈ [0; 1; 4]) then 0 else 2 end.

Lemma fetch_deps_ranked iter_dep : (∀ l, iter_dep l ≡ₚ l) → ∀ v w, (v, w) ∈ manager_edges iter_dep fetch_deps → dep_rank v < dep_rank w.
Proof.
  intros Hperm v w ([n i] & Hin & Hi)%list_elem_of_bind.
  assert (H : forallb (λ oi, if bool_decide (oi.1 ∈ [0; 1; 4]) then bool_decide (wants oi.2 = []) else bool_decide (provides oi.2 = []))
                (injectors fetch_deps) = true) by (by vm_compute).
  rewrite forallb_elem_of in H. specialize (H _ Hi). cbn in H. unfold injector_edges in Hin. cbn in Hin.
  apply elem_of_app in Hin as [(c & [= -> ->] & Hc)%list_elem_of_fmap|(c & [= -> ->] & Hc)%list_elem_of_fmap]; rewrite Hperm in Hc; unfold dep_rank.
  - case_bool; [lia|]. apply bool_decide_eq_true in H. rewrite H in Hc. by apply elem_of_nil in Hc.
  - case_bool; [|lia]. apply bool_decide_eq_true in H. rewrite H in Hc. by apply elem_of_nil in Hc.
Qed.

Lemma fetch_deps_sorted iter iter_dep : (∀ l, iter l ≡ₚ l) → (∀ l, iter_dep l ≡ₚ l) →
  ∃ keys, sorted_watt_keys iter iter_dep fetch_deps = Some (Ok keys).
Proof.
  intros Hiter Hdep. destruct (graph_of_spec (manager_edges iter_dep fetch_deps)) as (Hwf & He & _).
  destruct (traverse_spec iter Hiter _ Hwf) as (r & Hr & Hspec). unfold sorted_watt_keys. rewrite Hr. destruct r as [l|e]; [by eexists|].
  destruct Hspec as [[v Hv] _]. exfalso. assert (Htc : ∀ a b, tc (edge (graph_of (manager_edges iter_dep fetch_deps))) a b → dep_rank a < dep_rank b).
  { intros a b. induction 1 as [a b H|a b c H _ IH]; apply He, (fetch_deps_ranked _ Hdep) in H; lia. }
  apply Htc in Hv. lia.
Qed.

(** ** Snapshots of Ambassador's kinds *)

Record crd_snapshot (env : config_env) (watt : dict pyval) (cis : list crd_info) : Prop := {
  sn_k8s : ∃ k8s, dget "Kubernetes" watt = Some (PDict k8s) ∧ dict_ok k8s ∧ dget "annotations" k8s = None
    ∧ (∀ k v, dget k k8s = Some v → v = PNone ∨ ∃ l, v = PList l)
    ∧ (dkeys k8s ≫= kind_objects k8s) = (λ ci, PDict (ci_obj ci)) <$> cis;
  sn_invalid : pget "Invalid" watt = PNone;
  sn_consul : dget "Consul" watt = None;
  sn_crds : Forall (ci_crd env) cis
}.

Lemma load_watt_crds env wo keys watt cis c0 : crd_snapshot (fe_config env) watt cis → NoDup (ci_key <$> cis) →
  ∃ f cis' rs, load_watt env wo true keys watt (ResourceFetcher_init c0) = Ok f
    ∧ fs_elements (ft_state f) = rs ∧ fs_aconf (ft_state f) = c0 ∧ cis' ≡ₚ cis ∧ Forall2 ci_emitted cis' rs.
Proof.
  intros [(k8s & Hk & Hok & Hann & Hvals & Hobjs) Hinv Hcon Hcrds] Hnd.
  pose proof (unique_kinds keys k8s Hok) as Hp. rewrite Hobjs in Hp.
  destruct (Permutation_map_inv _ _ Hp) as (cis' & Hobjs' & Hperm). change (map ?g cis') with (g <$> cis') in Hobjs'.
  rewrite Hperm in Hcrds, Hnd.
  destruct (watt_objects_crd env cis' (ResourceFetcher_init c0) Hcrds Hnd) as (rs & Hrs & H2).
  eexists _, cis', rs. split.
  - unfold load_watt. rewrite Hinv.
    assert (dget_default "Kubernetes" (PDict []) watt = PDict k8s) as -> by (unfold dget_default; by rewrite Hk).
    cbn [as_dict py_or py_bool mbind res_bind py_iter fold_res].
    assert (dget_default "annotations" (PDict []) k8s = PDict []) as -> by (unfold dget_default; by rewrite Hann).
    assert (dget_default "Consul" (PDict []) watt = PDict []) as -> by (unfold dget_default; by rewrite Hcon).
    rewrite (ddel_absent _ _ Hann), watt_kinds_crd by done. rewrite Hobjs'.
    rewrite Hrs. cbn. reflexivity.
  - done.
Qed.

(** ** Filing what was fetched *)

Definition kind_bucket (kind : string) : option string := dget (lower kind) StorageByKind.

Definition filing (env : config_env) (r : resource) : option string * string * string := (by_name r, text "name" r, namespace_of env r).

Lemma ambassador_by_name kind : kind ∈ ambassador_kinds → kind ≠ "Module" → is_Some (kind_bucket kind).
Proof.
  intros Hk Hm. assert (H : forallb (λ k, bool_decide (k = "Module") || match kind_bucket k with Some _ => true | None => false end) ambassador_kinds = true)
    by (by vm_compute).
  rewrite forallb_elem_of in H. specialize (H kind Hk). rewrite bool_decide_false in H by done. by destruct (kind_bucket kind).
Qed.

Lemma by_name_bucket kind r : kind ∈ ambassador_kinds → text "kind" r = kind → by_name r = kind_bucket kind.
Proof.
  intros Hk Ht. unfold by_name. rewrite Ht. fold (kind_bucket kind). destruct (decide (kind = "Module")) as [->|Hm]; [done|].
  by destruct (ambassador_by_name kind Hk Hm) as [b ->].
Qed.

Lemma emitted_filing env ci r : ci_crd env ci → ci_emitted ci r →
  good_ambassador_id env r = true ∧ filing env r = (kind_bucket (ci_kind ci), ci_name ci, ci_ns ci)
  ∧ (object_errors (ci_obj ci) = EmptyString → verdict r = None).
Proof.
  intros C [[Hwf Hk Hn Hns Hv He Hs] _]. split; [|split].
  - rewrite (good_id_ext _ r (ci_spec ci)); [apply C|apply Hs; by apply (bool_decide_eq_false_1 _)..].
  - unfold filing. rewrite (by_name_bucket (ci_kind ci)) by (done || apply C). unfold namespace_of.
    rewrite Hns, Hn. by rewrite (proj1 (cr_namespace _ _ _ _ _ _ _ C)).
  - intros Herr. unfold verdict, reported. rewrite Hv, Hk, He, Herr.
    assert (str_bool (ci_kind ci) = true) as ->.
    { assert (H : forallb str_bool ambassador_kinds = true) by (by vm_compute). rewrite forallb_elem_of in H. apply H, C. }
    assert (startswith ("getambassador.io/" +:+ ci_version ci) "getambassador.io/" = true) as -> by (apply startswith_spec; by eexists). done.
Qed.

Lemma entry_inv env b i r e : entry env b (i, r) = Some e → e.1.1 = i ∧ filing env r = (Some b, e.1.2, e.2).
Proof.
  unfold entry. cbn. destruct (_ && _ && _) eqn:E; [|done]. intros [= <-]. apply andb_true_iff in E as [_ Hb].
  apply bool_decide_eq_true in Hb. unfold filing. by rewrite Hb.
Qed.

Lemma entries_filing env b l : ∀ is_ e, e ∈ entries env b (zip is_ l) → ∃ r, r ∈ l ∧ filing env r = (Some b, e.1.2, e.2).
Proof.
  intros is_ [[i n] ns] (r & Hr & He)%entries_elem. exists r. split; [by apply elem_of_zip_r in Hr|]. by apply (entry_inv _ _ i r).
Qed.

(** Distinct filings give distinct entries of a bucket. *)
Lemma entries_distinct env b l : ∀ is_, NoDup (filing env <$> l) →
  NoDup ((λ e : nat * string * string, (e.1.2, e.2)) <$> entries env b (zip is_ l)).
Proof.
  induction l as [|r l IH]; intros [|i is_] Hnd; [constructor..|]. apply NoDup_cons in Hnd as [Hni Hnd].
  change (zip (i :: is_) (r :: l)) with ((i, r) :: zip is_ l). unfold entries in *. cbn [omap list_omap].
  destruct (entry env b (i, r)) as [e|] eqn:He; [|by apply IH]. rewrite fmap_cons. apply NoDup_cons. split; [|by apply IH].
  intros (e' & [= H1 H2] & Hin)%list_elem_of_fmap. apply Hni, list_elem_of_fmap.
  destruct (entries_filing env b l is_ e' Hin) as (r' & Hr' & Hf). exists r'. split; [|done].
  apply entry_inv in He as [_ ->]. by rewrite Hf, H1, H2.
Qed.

Lemma placed_lookup c0 rs r : r ∈ rs → ∃ i, (i, r) ∈ placed c0 rs.
Proof.
  intros [k Hk]%list_elem_of_lookup. exists (length (ac_objs c0) + k). apply list_elem_of_lookup. exists k. unfold placed.
  rewrite lookup_zip_with, Hk. rewrite lookup_seq_lt by (by eapply lookup_lt_Some). done.
Qed.

Lemma placed_inj c0 rs i r r' : (i, r) ∈ placed c0 rs → (i, r') ∈ placed c0 rs → r = r'.
Proof.
  unfold placed. intros [k Hk]%list_elem_of_lookup [k' Hk']%list_elem_of_lookup. rewrite !lookup_zip_with in *.
  destruct (seq _ _ !! k) eqn:E1, (rs !! k) eqn:E2; cbn in Hk; try done. destruct (seq _ _ !! k') eqn:E3, (rs !! k') eqn:E4; cbn in Hk'; try done.
  simplify_eq. apply lookup_seq in E1 as [-> _], E3 as [? _]. assert (k = k') as -> by lia. congruence.
Qed.

Lemma filed_under_elem es : ∀ seen key i, (key, i) ∈ filed_under seen es →
  ∃ e, e ∈ es ∧ e.1.1 = i ∧ (key = e.1.2 ∨ key = e.1.2 +:+ "." +:+ e.2).
Proof.
  induction es as [|e es IH]; intros seen key i; cbn; [by intros ?%elem_of_nil|]. intros [[= -> ->]|Hin]%elem_of_cons.
  - exists e. split; [by left|]. split; [done|]. unfold entry_key. case_bool; auto.
  - destruct (IH _ _ _ Hin) as (e' & H1 & H2). exists e'. split; [by right|done].
Qed.

Lemma filed_under_ok es : ∀ seen, plain_entries es → dict_ok (filed_under seen es).
Proof.
  induction es as [|e es IH]; intros seen [Hp Hnd]; [constructor|]. cbn in Hnd. apply NoDup_cons in Hnd as [Hni Hnd].
  assert (Hes : plain_entries es) by (split; [intros e' He'; apply Hp; by right|done]).
  cbn. apply NoDup_cons. split; [|by apply IH]. change (entry_key seen e ∉ dkeys (filed_under (e.1.2 :: seen) es)). apply dget_None.
  unfold entry_key. case_bool as Hs.
  - apply filed_under_qualified; [apply Hes|apply Hp; by left|done].
  - destruct (dget e.1.2 (filed_under (e.1.2 :: seen) es)) as [j|] eqn:Hj; [|done].
    apply filed_under_plain in Hj as [Hn _]; [destruct Hn; by left|apply Hes|apply Hp; by left].
Qed.

Lemma kind_bucket_plain kind b : kind_bucket kind = Some b → b ∉ special_buckets.
Proof.
  intros H%dget_elem_of. assert (Hall : forallb (λ kb, negb (bool_decide (kb.2 ∈ special_buckets))) StorageByKind = true) by (by vm_compute).
  rewrite forallb_elem_of in Hall. specialize (Hall _ H). cbn in Hall. rewrite negb_true_iff in Hall. by apply bool_decide_eq_false in Hall.
Qed.

(** Where the filings of a list come from *)
Lemma emitted_filings env cis rs : Forall (ci_crd env) cis → Forall2 ci_emitted cis rs →
  Forall resource_wf rs ∧ filing env <$> rs = (λ ci, (kind_bucket (ci_kind ci), ci_name ci, ci_ns ci)) <$> cis.
Proof.
  intros Hc H2. induction H2 as [|ci r cis rs He H2 IH]; [done|]. apply Forall_cons in Hc as [Hci Hc]. destruct (IH Hc) as [H1 H3].
  split; [constructor; [apply He|done]|]. cbn. f_equal; [by apply emitted_filing|done].
Qed.

(** Resources with distinct filings and names without dots are plain entries. *)
Lemma filings_plain env b c0 rs : NoDup (filing env <$> rs) → (∀ r, r ∈ rs → mem_char dot (text "name" r) = false) →
  plain_entries (entries env b (placed c0 rs)).
Proof.
  intros Hnd Hdot. split; [|by apply entries_distinct]. intros e (r & Hr & [= _ Hn _])%entries_filing. rewrite <- Hn. by apply Hdot.
Qed.

(** Where the configuration has a resource that is an entry *)
Definition found_as (c' : Config) (b n ns : string) (r : resource) : Prop :=
  ∃ key i r', dget key (bucket b c') = Some i ∧ ac_objs c' !! i = Some r' ∧ (key = n ∨ key = n +:+ "." +:+ ns)
    ∧ dget "namespace" r' = Some (PStr ns) ∧ kept r r'.

Lemma entry_found env b c0 rs c' r n ns : Config_init env = Ok c0 → Forall resource_wf rs → b ∉ special_buckets →
  plain_entries (entries env b (placed c0 rs)) → load_all env rs c0 = Ok c' →
  r ∈ rs → good_ambassador_id env r = true → verdict r = None → filing env r = (Some b, n, ns) → found_as c' b n ns r.
Proof.
  intros H0 Hwf Hb Hplain Hload Hr Hgood Hver Hfil.
  destruct (load_all_files env rs c0 b H0 Hwf Hb Hplain) as (c2 & Hl & Hcfg & Hobj). rewrite Hload in Hl. injection Hl as <-.
  destruct (placed_lookup c0 rs r Hr) as [i Hi]. unfold filing in Hfil. injection Hfil as Hbn Hn Hns.
  assert (Hin : (i, n, ns) ∈ entries env b (placed c0 rs)).
  { apply list_elem_of_omap. exists (i, r). split; [done|]. unfold entry. cbn. rewrite Hgood, Hver, Hbn. cbn. by rewrite bool_decide_true, Hn, Hns. }
  destruct (Hobj i n ns Hin) as (r' & Hr' & Hnsr & (key & _ & Hkey) & r2 & Hr2 & Hkept).
  rewrite (placed_inj _ _ _ _ _ Hr2 Hi) in Hkept. exists key, i, r'. split; [|split; [done|split; [|done]]].
  - assert (bucket b c' = filed_under [] (entries env b (placed c0 rs))) as ->.
    { unfold bucket, dget_default. rewrite Hcfg. by destruct (entries env b (placed c0 rs)). }
    apply elem_of_dget; [by apply filed_under_ok|done].
  - destruct (filed_under_elem _ _ _ _ Hkey) as ([[j n'] ns'] & He & Hj & Hk). cbn in Hj, Hk. subst j.
    apply entries_elem in He as (r3 & Hr3 & He). rewrite (placed_inj _ _ _ _ _ Hr3 Hi) in He.
    apply entry_inv in He as [_ He]. cbn in He. unfold filing in He. by injection He as _ <- <-; rewrite Hn, Hns in Hk.
Qed.

(** Loading what was emitted for objects with distinct filings *)
Lemma filed_emitted env cis rs sorted c0 : Config_init env = Ok c0 → Forall (ci_crd env) cis → Forall2 ci_emitted cis rs → sorted ≡ₚ rs →
  NoDup ((λ ci, (kind_bucket (ci_kind ci), ci_name ci, ci_ns ci)) <$> cis) → (∀ ci, ci ∈ cis → mem_char dot (ci_name ci) = false) →
  ∃ c', load_all env sorted c0 = Ok c' ∧ ∀ ci b, ci ∈ cis → object_errors (ci_obj ci) = EmptyString → kind_bucket (ci_kind ci) = Some b →
    ∃ key i r, dget key (bucket b c') = Some i ∧ ac_objs c' !! i = Some r
      ∧ (key = ci_name ci ∨ key = ci_name ci +:+ "." +:+ ci_ns ci)
      ∧ dget "namespace" r = Some (PStr (ci_ns ci)) ∧ dget "kind" r = Some (PStr (ci_kind ci))
      ∧ ∀ k, k ∉ data_keys ++ base_keys → dget k r = dget k (ci_spec ci).
Proof.
  intros H0 Hc H2 Hperm Hnd Hdot. destruct (emitted_filings _ _ _ Hc H2) as [Hwf Hfil]. rewrite <- Hfil in Hnd.
  assert (Hdot' : ∀ r, r ∈ sorted → mem_char dot (text "name" r) = false).
  { intros r Hr. rewrite Hperm in Hr. destruct (Forall2_elem_of_r _ _ _ _ H2 Hr) as (ci & Hci & He).
    rewrite (ef_name _ _ _ _ _ _ _ (proj1 He)). by apply Hdot. }
  rewrite <- Hperm in Hwf, Hnd. assert (Hplain := λ b, filings_plain env b c0 sorted Hnd Hdot').
  destruct (load_all_files env sorted c0 "mappings" H0 Hwf) as (c' & Hl & _); [by apply (bool_decide_eq_false_1 _)|done|].
  exists c'. split; [done|]. intros ci b Hci Herr Hb.
  destruct (Forall2_elem_of_l _ _ _ _ H2 Hci) as (r & Hr & He). rewrite Forall_forall in Hc. specialize (Hc ci Hci).
  destruct (emitted_filing _ _ _ Hc He) as (Hgood & Hfr & Hver). rewrite Hb in Hfr.
  destruct (entry_found env b c0 sorted c' r (ci_name ci) (ci_ns ci)) as (key & i & r' & H1 & H3 & H4 & H5 & H6);
    [done|done|by eapply kind_bucket_plain|done|done|by rewrite Hperm|done|by apply Hver|done|].
  exists key, i, r'. split_and_all; try done.
  - rewrite H6 by (by apply (bool_decide_eq_false_1 _)). destruct He as [[[_ _ _ _ (k & Hk) _ _ _ _ _] Hkk _ _ _ _ _] _].
    unfold text in Hkk. rewrite Hk in Hkk. by rewrite Hk, Hkk.
  - intros k Hk. rewrite H6 by (unlisted Hk). by apply He.
Qed.


(** ** Examples *)

Definition demo_fetch_env : fetch_env := mkFEnv demo_env (λ _, "yaml") (λ _, "json") (λ _, "missing attributes") (λ _, Raise TypeError) "now".

Definition demo_object (kind name ns : string) (spec : dict pyval) : crd_info :=
  mkCrd [("apiVersion", PStr "getambassador.io/v3alpha1"); ("kind", PStr kind);
         ("metadata", PDict [("name", PStr name); ("namespace", PStr ns)]); ("spec", PDict spec)]
    kind name ns "v3alpha1" spec.

Lemma demo_object_crd kind name ns spec : kind ∈ ambassador_kinds → kind ≠ "Module" → str_bool name = true →
  str_bool ns = true → ns ≠ "_automatic_" → dict_ok spec → forallb (λ k, negb (dmem k spec)) ("errors" :: parameter_keys) = true →
  good_ambassador_id demo_env spec = true → ci_crd demo_env (demo_object kind name ns spec).
Proof.
  intros Hk Hm Hn Hns Ha Hok Hkeys Hg. constructor; try done.
  - listed.
  - split; by apply not_elem_of_nil.
  - eexists _, _. split_and_all; reflexivity.
  - by left.
  - by apply no_parameters.
  - by left.
Qed.

Definition demo_cis : list crd_info :=
  [demo_object "Host" "h" "x" [("hostname", PStr "*")]; demo_object "Mapping" "a" "x" [("prefix", PStr "/a/"); ("service", PStr "s")];
   demo_object "Mapping" "a" "y" [("prefix", PStr "/b/"); ("service", PStr "t")]].
Definition demo_watt : dict pyval :=
  [("Kubernetes", PDict [("Host", PList (PDict ∘ ci_obj <$> take 1 demo_cis)); ("Mapping", PList (PDict ∘ ci_obj <$> drop 1 demo_cis)); ("Listener", PNone)])].

Lemma demo_snapshot : crd_snapshot demo_env demo_watt demo_cis.
Proof.
  constructor; try done.
  - eexists. split; [reflexivity|]. split_and_all; [by apply (bool_decide_eq_true_1 _)|reflexivity| |reflexivity].
    intros k v H%dget_elem_of. unfold demo_cis in H. cbn in H. rewrite !elem_of_cons, elem_of_nil in H.
    destruct H as [[= _ ->]|[[= _ ->]|[[= _ ->]|[]]]]; [right; by eexists..|by left].
  - repeat (constructor; [apply demo_object_crd; first [listed|by apply (bool_decide_eq_true_1 _)|done]|]). constructor.
Qed.

