(* ===== verification/FetchPorts.v ===== *)
(** * Services and the ports they lead to

    A Service and its Endpoints, fetched from a snapshot, become one Service
    resource whose endpoints are, for each of its ports, the addresses with the
    port of the endpoints that the target port names or numbers. *)

From S2P Require Import Prelude PyStr PyVal Utils Dependency Location Resource ServiceName PyText HTTPMapping Group.
From S2P Require Import Config Fetch FetchService FetchIngress Fetcher FetchOnce FetchLoad.

(** ** Ports of endpoints *)

(** A TCP port as Kubernetes writes it: with a name, or without when the name is
    empty *)
Definition endpoint_port_obj (p : string * Z) : pyval :=
  PDict ((if str_bool p.1 then [("name", PStr p.1)] else []) ++ [("port", PInt p.2); ("protocol", PStr "TCP")]).

(** The names of ports differ, and none is a number. *)
Record ports_named (ps : list (string * Z)) : Prop := {
  pn_distinct : NoDup (filter (λ n, str_bool n = true) ps.*1);
  pn_letter : ∀ n, n ∈ ps.*1 → isdigit n = false;
  pn_positive : ∀ z, z ∈ ps.*2 → (0 ≤ z)%Z
}.

Lemma port_not_number ps n z : ports_named ps → n ∈ ps.*1 → z ∈ ps.*2 → n ≠ str_of_int z.
Proof.
  intros [_ H1 H2] Hn Hz ->. apply H1 in Hn. apply H2, digits_of_int in Hz as (_ & Hd & Hb). unfold isdigit in Hn. by rewrite Hd, Hb in Hn.
Qed.

Definition ports_dict (ps : list (string * Z)) : dict pyval :=
  foldl (λ d p, let d := dset (str_of_int p.2) (PInt p.2) d in if str_bool p.1 then dset p.1 (PInt p.2) d else d) [] ps.

Lemma endpoint_ports_fold ps : ∀ d,
  fold_res endpoint_port (endpoint_port_obj <$> ps) d
  = Ok (foldl (λ d p, let d := dset (str_of_int p.2) (PInt p.2) d in if str_bool p.1 then dset p.1 (PInt p.2) d else d) d ps).
Proof.
  induction ps as [|[n z] ps IH]; intros d; [done|]. rewrite fmap_cons. cbn [fold_res foldl].
  assert (endpoint_port d (endpoint_port_obj (n, z)) = Ok (let d := dset (str_of_int z) (PInt z) d in if str_bool n then dset n (PInt z) d else d)) as ->.
  { unfold endpoint_port_obj. cbn. destruct n; done. }
  cbn. apply IH.
Qed.

Lemma ports_named_app ps ps' : ports_named (ps ++ ps') → ports_named ps.
Proof.
  intros [H1 H2 H3]. split; [|intros; apply H2 + apply H3; rewrite fmap_app; set_solver..]. rewrite fmap_app, filter_app in H1. by apply NoDup_app in H1 as [H1 _].
Qed.

(** The number of a port is itself a key, and so is its name. *)
Lemma ports_dict_number ps n z : ports_named ps → (n, z) ∈ ps → dget (str_of_int z) (ports_dict ps) = Some (PInt z).
Proof.
  intros Hp Hin. unfold ports_dict. revert Hin. induction ps as [|[n' z'] ps IH] using rev_ind; [by intros ?%elem_of_nil|].
  pose proof (ports_named_app _ _ Hp) as Hp'.
  rewrite foldl_app. cbn [foldl]. set (d := foldl _ _ _) in *. intros Hin.
  assert (Hne : str_of_int z ≠ n') by (symmetry; apply (port_not_number _ _ _ Hp); [rewrite fmap_app; set_solver|apply list_elem_of_fmap; by exists (n, z)]).
  assert (Hz : dget (str_of_int z) (dset (str_of_int z') (PInt z') d) = Some (PInt z)).
  { rewrite dget_dset. case_bool as Hb; [by apply str_of_int_inj in Hb as ->|]. apply elem_of_app in Hin as [Hin|Hin]; [by apply IH|].
    rewrite elem_of_cons, elem_of_nil in Hin. destruct Hin as [[= -> ->]|[]]. done. }
  cbn [fst snd]. destruct (str_bool n'); [by rewrite dget_dset_ne|done].
Qed.

Lemma ports_dict_name ps n z : ports_named ps → (n, z) ∈ ps → str_bool n = true → dget n (ports_dict ps) = Some (PInt z).
Proof.
  intros Hp Hin Hn. unfold ports_dict. revert Hin. induction ps as [|[n' z'] ps IH] using rev_ind; [by intros ?%elem_of_nil|].
  pose proof (pn_distinct _ Hp) as Hd. rewrite fmap_app, filter_app in Hd. cbn in Hd.
  pose proof (ports_named_app _ _ Hp) as Hp'.
  rewrite foldl_app. cbn [foldl]. set (d := foldl _ _ _) in *. intros Hin. cbn [fst snd].
  assert (Hne : n ≠ str_of_int z').
  { apply (port_not_number _ _ _ Hp); [apply list_elem_of_fmap; by exists (n, z)|rewrite fmap_app; set_solver]. }
  apply elem_of_app in Hin as [Hin|Hin].
  - assert (Hdn : str_bool n' = true → n ≠ n').
    { intros Hn' ->. rewrite decide_True in Hd by done. apply NoDup_app in Hd as (_ & Hd & _). apply (Hd n'); [|by left].
      apply list_elem_of_filter. split; [done|]. apply list_elem_of_fmap. by exists (n', z). }
    destruct (str_bool n'); rewrite !dget_dset_ne by auto; by apply IH.
  - rewrite elem_of_cons, elem_of_nil in Hin. destruct Hin as [[= <- <-]|[]]. rewrite Hn. apply dget_dset_eq.
Qed.

(** ** Ports of Services *)

(** A port of a Service, given as a dictionary, with number [n] leads to [z] when
    the first of its attributes that is a key of the ports of the endpoints is
    one of [z]. *)
Definition port_attrs : list string := ["targetPort"; "name"; "port"].
Definition leads_to (ports : dict pyval) (port : dict pyval) (n z : Z) : Prop :=
  pget "port" port = PInt n ∧ n ≠ 0%Z ∧ z ≠ 0%Z ∧ ∃ before attr after, port_attrs = before ++ attr :: after
  ∧ (∀ a, a ∈ before → dget (py_text (pget a port)) ports = None) ∧ py_bool (pget attr port) = true
  ∧ dget (py_text (pget attr port)) ports = Some (PInt z).

Lemma py_bool_int z : z ≠ 0%Z → py_bool (PInt z) = true.
Proof. intros Hz. by apply bool_decide_true. Qed.

Lemma pget_dget k (d : dict pyval) v : dget k d = Some v → pget k d = v.
Proof. intros H. unfold pget, dget_default. by rewrite H. Qed.

Lemma match_port_found ports port before attr after z : z ≠ 0%Z →
  (∀ a, a ∈ before → dget (py_text (pget a port)) ports = None) → py_bool (pget attr port) = true →
  dget (py_text (pget attr port)) ports = Some (PInt z) →
  ∀ target fallback found, py_bool target = false →
    ∃ fallback', match_port ports port (before ++ attr :: after) target fallback found = (PInt z, fallback', true).
Proof.
  intros Hz Hmiss Hb Hd. induction before as [|a before IH]; intros target fallback found Ht; cbn [app match_port].
  - rewrite Hb, (pget_dget _ _ _ Hd), (py_bool_int z Hz). by eexists.
  - specialize (IH ltac:(intros a' Ha'; apply Hmiss; by right)). destruct (py_bool (pget a port)); [|by apply IH].
    assert (pget (py_text (pget a port)) ports = PNone) as -> by (unfold pget at 1, dget_default; by rewrite Hmiss by left). by apply IH.
Qed.

Lemma target_port_found ports port n z : leads_to ports port n z → target_port ports port = Some (PInt z).
Proof.
  intros (Hn & Hn0 & Hz0 & before & attr & after & Hattrs & Hmiss & Hb & Hz). unfold target_port. rewrite Hn, (py_bool_int n Hn0). cbn [negb].
  fold port_attrs. rewrite Hattrs. destruct (match_port_found ports port before attr after z Hz0 Hmiss Hb Hz PNone PNone false eq_refl) as [f Hf].
  destruct ports as [|[k v] [|kv ports]]; [done| |by rewrite Hf, (py_bool_int z Hz0)].
  cbn in Hz. case_bool; [by injection Hz as ->|done].
Qed.

Lemma target_ports_found ep ports targets : ∀ d, Forall2 (λ port nz, leads_to (ep_ports ep) port nz.1 nz.2) ports targets →
  fold_res (add_target_port ep) (PDict <$> ports) d = Ok (foldl (λ d nz, dset (str_of_int nz.1) (PInt nz.2) d) d targets).
Proof.
  intros d H. revert d. induction H as [|port [n z] ports targets Hp H IH]; intros d; [done|]. rewrite fmap_cons. cbn [fold_res foldl].
  assert (add_target_port ep d (PDict port) = Ok (dset (str_of_int n) (PInt z) d)) as ->; [|by apply IH].
  unfold add_target_port. cbn [mbind res_bind]. rewrite (target_port_found _ _ _ _ Hp), (proj1 Hp). done.
Qed.

(** The last of the ports with a number gives its target. *)
Lemma targets_dict targets : ∀ d n z, NoDup targets.*1 → (n, z) ∈ targets →
  dget (str_of_int n) (foldl (λ d nz, dset (str_of_int nz.1) (PInt nz.2) d) d targets) = Some (PInt z).
Proof.
  induction targets as [|[n' z'] targets IH] using rev_ind; intros d n z Hnd Hin; [by apply elem_of_nil in Hin|].
  rewrite fmap_app in Hnd. apply NoDup_app in Hnd as (Hnd & Hd & _). rewrite foldl_app. cbn.
  apply elem_of_app in Hin as [Hin|Hin].
  - rewrite dget_dset_ne; [by apply IH|]. intros E%str_of_int_inj. subst n'. apply (Hd n); [|by left]. apply list_elem_of_fmap. by exists (n, z).
  - rewrite elem_of_cons, elem_of_nil in Hin. destruct Hin as [[= -> ->]|[]]. apply dget_dset_eq.
Qed.

(** ** Objects *)

Record endpoints_object (env : config_env) (obj : dict pyval) (name ns : string) (addrs : list string) (ps : list (string * Z)) : Prop := {
  eo_key : k8s_key env obj = Ok (mkKey (mkGVK "v1" "Endpoints") (Some ns) name);
  eo_subset : pget "subsets" obj
    = PList [PDict [("addresses", PList ((λ a, PDict [("ip", PStr a)]) <$> addrs)); ("ports", PList (endpoint_port_obj <$> ps))]];
  eo_addrs : addrs ≠ [] ∧ Forall (λ a, str_bool a = true) addrs;
  eo_ports : ps ≠ []
}.

Record service_object (env : config_env) (c : Config) (obj : dict pyval) (name ns : string) (ports : list (dict pyval)) : Prop := {
  so_name : k8s_name obj = Ok name ∧ str_bool name = true;
  so_namespace : k8s_namespace env obj = Ok ns;
  so_gvk : k8s_gvk obj = Ok (mkGVK "v1" "Service");
  so_labels : ∃ l, k8s_labels obj = Ok (PDict l);
  so_spec : ∃ spec, k8s_spec obj = PDict spec ∧ dget "ports" spec = Some (PList (PDict <$> ports));
  so_ports : ports ≠ [];
  so_ambassador : ∃ b, is_ambassador_service env c obj = Ok b
}.

Lemma ports_dict_cons ps : ps ≠ [] → ports_dict ps ≠ [].
Proof.
  destruct ps as [|[n z] ps] using rev_ind; [done|]. intros _. unfold ports_dict. rewrite foldl_app. cbn.
  assert (H : ∀ k v (d : dict pyval), dset k v d ≠ []) by (intros k v [|[k' v'] d]; cbn; [done|by case_bool]).
  destruct (str_bool n); apply H.
Qed.

Lemma endpoint_ips addrs : Forall (λ a, str_bool a = true) addrs →
  map_res endpoint_ip ((λ a, PDict [("ip", PStr a)]) <$> addrs) = Ok ((λ a, [PStr a]) <$> addrs).
Proof.
  induction 1 as [|a addrs Ha H IH]; [done|]. rewrite !fmap_cons. cbn [map_res].
  assert (endpoint_ip (PDict [("ip", PStr a)]) = Ok [PStr a]) as -> by (by destruct a). cbn [mbind res_bind]. by rewrite IH.
Qed.

Lemma process_endpoints_spec env obj name ns addrs ps s : endpoints_object (fe_config env) obj name ns addrs ps →
  process_endpoints env obj s
  = Ok (mkFetch (fs_aconf s) (fs_locations s) (fs_elements s) (fs_services s) (fs_ambassador_service s) (fs_ingress_classes s)
          (dset (mkKey (mkGVK "v1" "Endpoints") (Some ns) name) (mkEndpoints (PStr <$> addrs) (ports_dict ps)) (fs_endpoints s))
          (fs_helm s) (fs_seen s)).
Proof.
  intros [Hk Hs [Ha Hab] Hp]. pose proof (endpoint_ips _ Hab) as Hips. pose proof (endpoint_ports_fold ps []) as Hports. unfold process_endpoints.
  remember ((λ a, PDict [("ip", PStr a)]) <$> addrs) as objs eqn:Hobjs. remember (endpoint_port_obj <$> ps) as pobjs eqn:Hpobjs.
  rewrite Hs. cbn [py_bool negb py_iter mbind res_bind fold_res].
  unfold endpoint_subset. change (vget "addresses" _ _) with (Ok (PList objs)). change (vget "ports" _ _) with (Ok (PList pobjs)).
  cbn [mbind res_bind py_iter]. rewrite Hips. cbn [mbind res_bind].
  assert (Hj : mjoin ((λ a, [PStr a]) <$> addrs) = PStr <$> addrs) by (clear; induction addrs as [|a addrs IH]; [done|]; cbn; by f_equal).
  rewrite Hj. destruct addrs as [|a addrs]; [done|]. rewrite !fmap_cons. cbn [mbind res_bind].
  rewrite Hports. cbn [mbind res_bind]. fold (ports_dict ps). pose proof (ports_dict_cons ps Hp) as Hne.
  destruct (ports_dict ps) eqn:E; [done|]. rewrite Hk. done.
Qed.

Lemma own_id_good env (o : dict pyval) : dget "ambassadorId" o = None → dget "ambassador_id" o = Some (PStr (ambassador_id env)) →
  str_bool (ambassador_id env) = true → good_ambassador_id env o = true.
Proof.
  intros H1 H2 H3. unfold good_ambassador_id, pget, dget_default. rewrite H1, H2. cbn. rewrite H3. cbn. by rewrite bool_decide_true.
Qed.

(** The resource of a Service *)
Lemma emit_service_spec env s key svc name ns ports es : service_object (fe_config env) (fs_aconf s) svc name ns ports →
  str_bool (ambassador_id (fe_config env)) = true → plain_kind (fe_config env) "Service" →
  service_endpoints env false s svc name ns = Ok es →
  ∃ r, emit_service env false s (key, svc) = Ok (emitted s [r])
    ∧ text "kind" r = "Service" ∧ text "name" r = name ∧ text "namespace" r = ns ∧ text "rkey" r = "k8s-" +:+ name +:+ "-" +:+ ns
    ∧ dget "endpoints" r = Some (PDict es).
Proof.
  intros [[Hn Hnb] Hns _ (l & Hl) _ _ _] Hid Hplain Hes. unfold emit_service. cbn [snd]. rewrite Hn, Hns. cbn [mbind res_bind].
  rewrite Hes. cbn [mbind res_bind]. rewrite Hl. cbn [mbind res_bind]. unfold from_data_v3.
  set (spec := (_ ++ (if py_bool (fs_helm s) then _ else []) : dict pyval)).
  assert (Hspec : ∀ k, k ≠ "helm_chart" → dget k spec = dget k [("ambassador_id", PStr (ambassador_id (fe_config env))); ("endpoints", PDict es)]).
  { intros k Hne. unfold spec. destruct (py_bool (fs_helm s)); [|by rewrite app_nil_r]. cbn. repeat case_bool; done. }
  destruct (emit_data env "Service" name ns PNone "v3alpha1" "getambassador.io" (PDict l) spec PNone ("k8s-" +:+ name +:+ "-" +:+ ns) s) as (r & Hr & W);
    try done.
  - unfold spec. destruct (py_bool _); by apply (bool_decide_eq_true_1 _).
  - apply no_parameters. unfold spec. by destruct (py_bool _).
  - apply own_id_good; [| |done]; by rewrite Hspec.
  - exists r. split; [exact Hr|]. destruct W as [[attrs Hc] Hnsr _ _ Hrest]. unfold text.
    rewrite (co_kind _ _ _ _ _ _ _ Hc), (co_name _ _ _ _ _ _ _ Hc), (co_rkey _ _ _ _ _ _ _ Hc), Hnsr, Hrest, Hspec
      by (done || by apply (bool_decide_eq_false_1 _)). done.
Qed.

Lemma process_service_spec env svc name ns ports s : service_object (fe_config env) (fs_aconf s) svc name ns ports →
  ∃ amb helm, process_service env svc s
    = Ok (mkFetch (fs_aconf s) (fs_locations s) (fs_elements s) (dset (mkKey (mkGVK "v1" "Service") (Some ns) name) svc (fs_services s)) amb
            (fs_ingress_classes s) (fs_endpoints s) helm (fs_seen s)).
Proof.
  intros [[Hn _] Hns Hg (l & Hl) (spec & Hspec & Hp) Hne (b & Hb)]. unfold process_service. rewrite Hl, Hspec. cbn [mbind res_bind vget].
  assert (dget_default "ports" PNone spec = PList (PDict <$> ports)) as -> by (unfold dget_default; by rewrite Hp). destruct ports as [|port ports]; [done|]. rewrite fmap_cons. cbn [py_bool negb].
  unfold k8s_key. rewrite Hns. cbn [mbind res_bind]. rewrite Hg, Hn. cbn [mbind res_bind]. rewrite Hb. cbn [mbind res_bind]. by eexists _, _.
Qed.

(** A port of a Service reaches one of the endpoints: by the number of its target
    port, by the name of its target port, or by its own name when its target port is
    neither a name nor a number of a port of the endpoints. *)
Definition reaches (ps : list (string * Z)) (port : dict pyval) (p : string * Z) : Prop :=
  p ∈ ps ∧ p.2 ≠ 0%Z
  ∧ (pget "targetPort" port = PInt p.2
     ∨ str_bool p.1 = true
       ∧ (pget "targetPort" port = PStr p.1
          ∨ (∀ q, q ∈ ps → py_text (pget "targetPort" port) ≠ q.1 ∧ py_text (pget "targetPort" port) ≠ str_of_int q.2)
            ∧ pget "name" port = PStr p.1)).

Lemma ports_dict_absent ps k : (∀ q, q ∈ ps → k ≠ q.1 ∧ k ≠ str_of_int q.2) → dget k (ports_dict ps) = None.
Proof.
  unfold ports_dict. induction ps as [|[n z] ps IH] using rev_ind; intros Hk; [done|]. rewrite foldl_app. cbn [foldl fst snd].
  destruct (Hk (n, z)) as [H1 H2]; [apply elem_of_app; right; by left|]. cbn in H1, H2.
  destruct (str_bool n); rewrite !dget_dset_ne by done; apply IH; intros q Hq; apply Hk, elem_of_app; by left.
Qed.

Lemma reaches_leads ps (port : dict pyval) n (p : string * Z) : ports_named ps → pget "port" port = PInt n → n ≠ 0%Z → reaches ps port p →
  leads_to (ports_dict ps) port n p.2.
Proof.
  destruct p as [m z]. unfold reaches, leads_to. cbn [fst snd]. intros Hps Hn Hn0 (Hin & Hz & Hcases). split_and_all; [done..|].
  destruct Hcases as [Ht|[Hm [Ht|[Hmiss Hname]]]].
  - exists [], "targetPort", ["name"; "port"]. rewrite Ht. split_and_all; [done|by intros a ?%elem_of_nil|by apply py_bool_int|by eapply ports_dict_number].
  - exists [], "targetPort", ["name"; "port"]. rewrite Ht. split_and_all; [done|by intros a ?%elem_of_nil|done|by apply ports_dict_name].
  - exists ["targetPort"], "name", ["port"]. rewrite Hname. split_and_all; [done| |done|by apply ports_dict_name].
    intros a [->|[]%elem_of_nil]%elem_of_cons. by apply ports_dict_absent.
Qed.

Lemma service_endpoints_spec env s svc name ns ports targets addrs ps : service_object (fe_config env) (fs_aconf s) svc name ns ports →
  dget (mkKey (mkGVK "v1" "Endpoints") (Some ns) name) (fs_endpoints s) = Some (mkEndpoints (PStr <$> addrs) (ports_dict ps)) → addrs ≠ [] →
  Forall2 (λ port nz, leads_to (ports_dict ps) port nz.1 nz.2) ports targets → NoDup targets.*1 →
  ∃ es, service_endpoints env false s svc name ns = Ok es
    ∧ ∀ n z, (n, z) ∈ targets → dget (str_of_int n) es = Some (endpoint_targets (PStr <$> addrs) (PInt z)).
Proof.
  intros Hsvc Hep Ha Hports Hnd. destruct (so_spec _ _ _ _ _ _ Hsvc) as (spec & Hspec & Hp). unfold service_endpoints. rewrite Hep, Hspec.
  cbn [vget mbind res_bind]. unfold dget_default. rewrite Hp. cbn [default from_option id py_iter mbind res_bind].
  rewrite (target_ports_found _ _ targets) by done. cbn [mbind res_bind]. eexists. split; [reflexivity|]. intros n z Hin.
  pose proof (targets_dict targets [] n z Hnd Hin) as Hd. revert Hd. generalize (foldl (λ d nz, dset (str_of_int nz.1) (PInt nz.2) d) [] targets).
  cbn [ep_addresses]. assert (match PStr <$> addrs with [] => [PStr (name +:+ "." +:+ ns)] | l => l end = PStr <$> addrs) as -> by (by destruct addrs).
  intros d. induction d as [|[k v] d IH]; [done|]. cbn. case_bool; [by intros [= ->]|]. apply IH.
Qed.


(** ** Examples *)

Definition ports_endpoints (subsets : list pyval) : dict pyval :=
  [("apiVersion", PStr "v1"); ("kind", PStr "Endpoints"); ("metadata", PDict [("name", PStr "a"); ("namespace", PStr "x")]); ("subsets", PList subsets)].
Definition ports_subset (addrs : list string) (ps : list (string * Z)) : pyval :=
  PDict [("addresses", PList ((λ a, PDict [("ip", PStr a)]) <$> addrs)); ("ports", PList (endpoint_port_obj <$> ps))].
Definition ports_service (ports : list (dict pyval)) : dict pyval :=
  [("apiVersion", PStr "v1"); ("kind", PStr "Service"); ("metadata", PDict [("name", PStr "a"); ("namespace", PStr "x")]);
   ("spec", PDict [("ports", PList (PDict <$> ports))])].
Definition demo_ports : list (dict pyval) :=
  [[("name", PStr "web"); ("port", PInt 80); ("targetPort", PStr "http")]; [("name", PStr "admin"); ("port", PInt 81); ("targetPort", PInt 8081)]].


(** ** Where endpoints get lost *)

(** Of the subsets of Endpoints only the last one is kept. *)
Lemma later_subset_overwrites :
  ∃ s', process_endpoints once_env (ports_endpoints [ports_subset ["1.1.1.1"] [("web", 80%Z)]; ports_subset ["2.2.2.2"] [("web", 81%Z)]])
          (ResourceFetcher_init demo_aconf) = Ok s'
    ∧ fs_endpoints s' = [(mkKey (mkGVK "v1" "Endpoints") (Some "x") "a", mkEndpoints [PStr "2.2.2.2"] [("81", PInt 81); ("web", PInt 81)])].
Proof. eexists. split; reflexivity. Qed.

(** The name of a target port is looked up among the names of the ports of the
    endpoints, which are those of the Service: the port [web] whose target port
    has the name of the port [admin] is led to the latter. *)
Lemma target_name_of_other_port :
  target_port (ports_dict [("web", 8080%Z); ("admin", 8081%Z)]) [("name", PStr "web"); ("port", PInt 80); ("targetPort", PStr "admin")]
  = Some (PInt 8081).
Proof. reflexivity. Qed.
