(* ===== verification/FetchRoutes.v ===== *)
(** * Ingresses and what serves them

    An Ingress becomes a Host for every host of its TLS settings and a Mapping
    for every path of its rules; the Hosts select the Mappings. *)

From S2P Require Import Prelude PyStr PyVal Utils HostGlob Dependency Location Resource ServiceName PyText HTTPMapping Group.
From S2P Require Import Config Fetch FetchService FetchIngress Fetcher FetchOnce FetchLoad FetchPorts.

(** ** Ingresses as they are written *)

Record path : Type := mkPath { pa_path : string; pa_exact : bool; pa_service : string; pa_port : Z }.
Definition path_obj (p : path) : pyval :=
  PDict [("path", PStr (pa_path p)); ("pathType", PStr (if pa_exact p then "Exact" else "Prefix"));
         ("backend", PDict [("serviceName", PStr (pa_service p)); ("servicePort", PInt (pa_port p))])].
Definition path_ok (p : path) : Prop := str_bool (pa_path p) = true ∧ str_bool (pa_service p) = true ∧ pa_port p ≠ 0%Z.

Record rule : Type := mkRule { ru_host : option string; ru_paths : list path }.
Definition rule_obj (r : rule) : pyval :=
  PDict ((match ru_host r with Some h => [("host", PStr h)] | None => [] end) ++ [("http", PDict [("paths", PList (path_obj <$> ru_paths r))])]).

Record tls : Type := mkTls { tl_secret : string; tl_hosts : list string }.
Definition tls_obj (t : tls) : pyval := PDict [("hosts", PList (PStr <$> tl_hosts t)); ("secretName", PStr (tl_secret t))].

Record ingress_object (env : config_env) (obj : dict pyval) (name ns : string) (labels : dict pyval) (ts : list tls) (rs : list rule) : Prop := {
  io_gvk : is_Some (match k8s_gvk obj with Ok g => Some g | Raise _ => None end);
  io_name : k8s_name obj = Ok name ∧ str_bool name = true;
  io_namespace : k8s_namespace env obj = Ok ns;
  io_labels : k8s_labels obj = Ok (PDict labels);
  io_id : k8s_ambassador_id obj = Ok (PStr (ambassador_id env)) ∧ str_bool (ambassador_id env) = true;
  io_spec : ∃ spec, k8s_spec obj = PDict spec ∧ dget_default "tls" (PList []) spec = PList (tls_obj <$> ts)
    ∧ dget_default "rules" (PList []) spec = PList (rule_obj <$> rs) ∧ dget "defaultBackend" spec = None ∧ dget "backend" spec = None;
  io_rules : Forall (λ r, Forall path_ok (ru_paths r)) rs
}.

(** ** What is emitted *)

Lemma fold_res_fmap {A B S} (f : S → B → res S) (g : A → B) l : ∀ s, fold_res f (g <$> l) s = fold_res (λ s x, f s (g x)) l s.
Proof. induction l as [|x l IH]; intros s; [done|]. cbn. destruct (f s (g x)); [apply IH|done]. Qed.

Lemma enumerate_fmap {A B} (g : A → B) (l : list A) : enumerate (g <$> l) = (λ x, (x.1, g x.2)) <$> enumerate l.
Proof. unfold enumerate. rewrite imap_fmap, fmap_imap. done. Qed.

(** What a loop emits is what its iterations emit. *)
Lemma emits_fold {A} (f : fetch_state → A → res fetch_state) (Q : A → list resource → Prop) l :
  (∀ s x, x ∈ l → ∃ rs, f s x = Ok (emitted s rs) ∧ Q x rs) →
  ∀ s, ∃ rss, fold_res f l s = Ok (emitted s (mjoin rss)) ∧ Forall2 Q l rss.
Proof.
  intros Hf. induction l as [|x l IH]; intros s; [exists []; split; [cbn; by rewrite emitted_nil|constructor]|].
  destruct (Hf s x ltac:(by left)) as (rs & Hx & HQ). destruct (IH ltac:(intros s' y Hy; apply Hf; by right) (emitted s rs)) as (rss & Hl & H2).
  exists (rs :: rss). split; [|by constructor]. cbn [fold_res]. rewrite Hx. cbn [mbind res_bind]. rewrite Hl, emitted_app. done.
Qed.

Lemma emits_enumerate {A} (f : fetch_state → nat * pyval → res fetch_state) (g : A → pyval) (Q : nat → A → list resource → Prop) l :
  (∀ s j x, l !! j = Some x → ∃ rs, f s (j, g x) = Ok (emitted s rs) ∧ Q j x rs) →
  ∀ s, ∃ rs, fold_res f (enumerate (g <$> l)) s = Ok (emitted s rs)
    ∧ (∀ j x, l !! j = Some x → ∃ rs', Q j x rs' ∧ rs' ⊆ rs) ∧ ∀ r, r ∈ rs → ∃ j x rs', l !! j = Some x ∧ Q j x rs' ∧ r ∈ rs'.
Proof.
  intros Hf s. rewrite enumerate_fmap, fold_res_fmap.
  destruct (emits_fold (λ s x, f s (x.1, g x.2)) (λ x, Q x.1 x.2) (enumerate l)) with (s := s) as (rss & Hl & H2).
  { intros s' [j x] [k Hk]%list_elem_of_lookup. unfold enumerate in Hk. rewrite list_lookup_imap in Hk. destruct (l !! k) eqn:E; [|done].
    injection Hk as <- <-. by apply Hf. }
  exists (mjoin rss). split; [exact Hl|]. split.
  - intros j x Hx. assert (He : enumerate l !! j = Some (j, x)) by (unfold enumerate; by rewrite list_lookup_imap, Hx).
    destruct (Forall2_lookup_l _ _ _ _ _ H2 He) as (rs' & Hrs' & HQ). exists rs'. split; [exact HQ|]. intros r Hr.
    apply list_elem_of_join. exists rs'. split; [done|]. by eapply list_elem_of_lookup_2.
  - intros r (rs' & Hr & Hrs')%list_elem_of_join. apply list_elem_of_lookup in Hrs' as [k Hk].
    destruct (Forall2_lookup_r _ _ _ _ _ H2 Hk) as ([j x] & Hx & HQ). unfold enumerate in Hx. rewrite list_lookup_imap in Hx.
    destruct (l !! k) as [y|] eqn:E; [|done]. injection Hx as <- <-. by exists k, y, rs'.
Qed.

Section ingress.
Context (env : fetch_env) (name ns : string) (labels : dict pyval).
Context (Hname : str_bool name = true) (Hid : str_bool (ambassador_id (fe_config env)) = true).
Context (Hhost : plain_kind (fe_config env) "Host") (Hmapping : plain_kind (fe_config env) "Mapping").

Definition this_ingress : ingress_info := mkIngress name ns (PStr (ambassador_id (fe_config env))) (PDict labels).

(** The label that ties Hosts and Mappings together *)
Definition ingress_label : dict pyval := [("a10r-k8s-ingress", PStr (ingress_host_id this_ingress))].

Definition host_for (j k : nat) (t : tls) (h : string) (r : resource) : Prop :=
  text "kind" r = "Host" ∧ text "name" r = name +:+ "-" +:+ nat_text j +:+ "-" +:+ nat_text k ∧ text "namespace" r = ns
  ∧ dget "hostname" r = Some (PStr h) ∧ dget "tlsSecret" r = Some (PDict [("name", PStr (tl_secret t))])
  ∧ dget "selector" r = Some (PDict [("matchLabels", PDict ingress_label)]).

(** How a Mapping tells the hosts of its rule *)
Definition serves_host (has_tls : bool) (host : option string) (m : resource) : Prop :=
  match host with
  | Some h => if startswith h "*." then dget "host" m = Some (PStr (host_regex h)) ∧ dget "host_regex" m = Some (PBool true)
              else dget "hostname" m = Some (PStr h)
  | None => dget "hostname" m = if has_tls then None else Some (PStr "*")
  end.

Definition mapping_for (has_tls : bool) (j k : nat) (ru : rule) (p : path) (m : resource) : Prop :=
  text "kind" m = "Mapping" ∧ text "name" m = name +:+ "-" +:+ nat_text j +:+ "-" +:+ nat_text k ∧ text "namespace" m = ns
  ∧ dget "prefix" m = Some (PStr (pa_path p)) ∧ dget "prefix_exact" m = Some (PBool (pa_exact p))
  ∧ dget "service" m = Some (PStr (pa_service p +:+ "." +:+ ns +:+ ":" +:+ str_of_int (pa_port p)))
  ∧ serves_host has_tls (ru_host ru) m
  ∧ (has_tls = true → dget "metadata_labels" m = Some (PDict (dset "a10r-k8s-ingress" (PStr (ingress_host_id this_ingress)) labels))).

Lemma written_text rkey kind n v lab spec errors r : written rkey kind n ns v lab spec errors r →
  text "kind" r = kind ∧ text "name" r = n ∧ text "namespace" r = ns.
Proof.
  intros [[attrs Hc] Hns _ _ _]. unfold text. by rewrite (co_kind _ _ _ _ _ _ _ Hc), (co_name _ _ _ _ _ _ _ Hc), Hns.
Qed.

Lemma own_list_good (spec : dict pyval) : dget "ambassadorId" spec = None →
  dget "ambassador_id" spec = Some (PList [PStr (ambassador_id (fe_config env))]) → good_ambassador_id (fe_config env) spec = true.
Proof.
  intros H1 H2. unfold good_ambassador_id, pget, dget_default. rewrite H1, H2. cbn. rewrite andb_true_r. case_bool; [done|].
  cbn. by rewrite bool_decide_true.
Qed.

Lemma emit_ingress_host_spec j k t h s :
  ∃ r, emit_ingress_host env this_ingress j (PStr (tl_secret t)) s (k, PStr h) = Ok (emitted s [r]) ∧ host_for j k t h r.
Proof.
  set (spec := ingress_host_spec this_ingress (PStr h) (PStr (tl_secret t))).
  destruct (emit_data env "Host" (name +:+ "-" +:+ nat_text j +:+ "-" +:+ nat_text k) ns PNone "v3alpha1" "getambassador.io" (PDict labels) spec PNone
              ((name +:+ "-" +:+ nat_text j +:+ "-" +:+ nat_text k) +:+ "." +:+ ns) s) as (r & Hr & W); try done.
  - by apply (bool_decide_eq_true_1 _).
  - by apply no_parameters.
  - apply own_list_good; done.
  - by apply str_bool_app_l.
  - by do 2 apply str_bool_app_l.
  - exists r. split; [exact Hr|]. destruct (written_text _ _ _ _ _ _ _ _ W) as (H1 & H2 & H3).
    unfold host_for. rewrite H1, H2, H3, !(wr_spec _ _ _ _ _ _ _ _ _ W) by (by apply (bool_decide_eq_false_1 _)). done.
Qed.

(** The Hosts of one entry of the TLS settings *)
Definition tls_resources (j : nat) (t : tls) (rs : list resource) : Prop :=
  (∀ k h, tl_hosts t !! k = Some h → ∃ r, r ∈ rs ∧ host_for j k t h r) ∧ ∀ r, r ∈ rs → ∃ k h, host_for j k t h r.

Lemma emit_ingress_tls_spec j t s : ∃ rs, emit_ingress_tls env this_ingress s (j, tls_obj t) = Ok (emitted s rs) ∧ tls_resources j t rs.
Proof.
  destruct (emits_enumerate (emit_ingress_host env this_ingress j (PStr (tl_secret t))) PStr (λ k h rs, ∃ r, rs = [r] ∧ host_for j k t h r) (tl_hosts t))
    with (s := s) as (rs & Hrs & H1 & H2).
  { intros s' k h _. destruct (emit_ingress_host_spec j k t h s') as (r & Hr & Hf). exists [r]. eauto. }
  exists rs. split; [exact Hrs|]. split.
  - intros k h Hh. destruct (H1 k h Hh) as (rs' & (r & -> & Hf) & Hsub). exists r. split; [apply Hsub; by left|done].
  - intros r Hr. destruct (H2 r Hr) as (k & h & rs' & _ & (r' & -> & Hf) & Hin). apply list_elem_of_singleton in Hin as ->. eauto.
Qed.

(** The attributes that tell the hosts of a rule *)
Definition host_keys : list string := ["host"; "host_regex"; "hostname"].

Lemma rule_host_cases has_tls ru :
  ∃ host, rule_host_spec (match ru_host ru with Some h => PStr h | None => PNone end) has_tls = Ok host
    ∧ dict_ok host ∧ (∀ k, k ∉ host_keys → dget k host = None)
    ∧ ∀ m, (∀ k, k ∈ host_keys → dget k m = dget k host) → serves_host has_tls (ru_host ru) m.
Proof.
  assert (Hnil : ∀ (k : string), k ∉ host_keys → k ≠ "host" ∧ k ≠ "host_regex" ∧ k ≠ "hostname") by (intros k Hk; split_and_all; unlisted Hk).
  unfold rule_host_spec, serves_host. destruct (ru_host ru) as [h|]; [destruct (startswith h "*.")|destruct has_tls]; eexists;
    (split; [reflexivity|]; split; [by apply (bool_decide_eq_true_1 _)|]; split).
  all: try (intros m Hm; rewrite ?Hm by listed; done).
  all: intros k Hk; destruct (Hnil k Hk) as (H1 & H2 & H3); cbn; by rewrite ?bool_decide_false by done.
Qed.

Lemma emit_ingress_path_spec has_tls j k ru p s : path_ok p →
  ∃ m, emit_ingress_path env this_ingress has_tls j (match ru_host ru with Some h => PStr h | None => PNone end) s (k, path_obj p) = Ok (emitted s [m])
    ∧ mapping_for has_tls j k ru p m.
Proof.
  intros (Hp & Hs & Hz). unfold emit_ingress_path. cbn [snd fst].
  set (backend := PDict [("serviceName", PStr (pa_service p)); ("servicePort", PInt (pa_port p))]).
  change (vget "backend" (PDict []) (path_obj p)) with (Ok backend).
  change (vget "pathType" (PStr "ImplementationSpecific") (path_obj p)) with (Ok (PStr (if pa_exact p then "Exact" else "Prefix"))).
  change (vget "path" (PStr "/") (path_obj p)) with (Ok (PStr (pa_path p))).
  cbn [mbind res_bind]. change (vget "serviceName" PNone backend) with (Ok (PStr (pa_service p))).
  change (vget "servicePort" PNone backend) with (Ok (PInt (pa_port p))). cbn [mbind res_bind int_of].
  rewrite (py_bool_int _ Hz). cbn [py_bool]. rewrite Hs, Hp. cbn [negb orb].
  assert (py_eqb (PStr (if pa_exact p then "Exact" else "Prefix")) (PStr "Exact") = pa_exact p) as -> by (by destruct (pa_exact p)).
  change (py_text (PStr (pa_service p))) with (pa_service p). change (py_text (PInt (pa_port p))) with (str_of_int (pa_port p)).
  destruct (rule_host_cases has_tls ru) as (host & -> & Hok & Hnone & Hserves). cbn [mbind res_bind].
  unfold emit_ingress_mapping, mapping_labels. cbn [ig_labels as_dict mbind res_bind ig_name ig_namespace ig_id this_ingress].
  set (fixed := [("ambassador_id", _); _; _; _; _]). set (lab := if has_tls then _ else labels).
  assert (Hfix : ∀ x, x ∈ dkeys fixed → dget x (fixed ++ host) = dget x fixed) by (intros x Hx; by apply dget_app_l).
  assert (Hhost' : ∀ x, x ∉ dkeys fixed → dget x (fixed ++ host) = dget x host) by (intros x Hx; by apply dget_app_r).
  destruct (emit_data env "Mapping" (name +:+ "-" +:+ nat_text j +:+ "-" +:+ nat_text k) ns PNone "v3alpha1" "getambassador.io" (PDict lab)
              (fixed ++ host) PNone ((name +:+ "-" +:+ nat_text j +:+ "-" +:+ nat_text k) +:+ "." +:+ ns) s) as (m & Hm & W); try done.
  - apply dict_ok_app; [by apply (bool_decide_eq_true_1 _)|done|]. intros x Hx. apply Hnone. by apply (lists_disjoint (dkeys fixed)).
  - intros x Hx. rewrite Hhost' by (by apply (lists_disjoint ("errors" :: parameter_keys))). apply Hnone.
    by apply (lists_disjoint ("errors" :: parameter_keys)).
  - apply own_id_good; [|rewrite Hfix by listed; done|done]. rewrite Hhost' by (by apply (bool_decide_eq_false_1 _)). apply Hnone. by apply (bool_decide_eq_false_1 _).
  - by apply str_bool_app_l.
  - by do 2 apply str_bool_app_l.
  - exists m. split; [exact Hm|]. destruct (written_text _ _ _ _ _ _ _ _ W) as (H1 & H2 & H3).
    unfold mapping_for. rewrite H1, H2, H3, !(wr_spec _ _ _ _ _ _ _ _ _ W) by (by apply (bool_decide_eq_false_1 _)).
    rewrite !Hfix by listed. split_and_all; try done.
    + apply Hserves. intros x Hx. rewrite (wr_spec _ _ _ _ _ _ _ _ _ W) by (by apply (lists_disjoint host_keys)).
      apply Hhost'. by apply (lists_disjoint host_keys).
    + intros Ht. rewrite (wr_labels _ _ _ _ _ _ _ _ _ W); unfold lab; rewrite Ht; [done|]. cbn. destruct labels as [|[]]; cbn; [done|by case_bool].
Qed.

(** The Mappings of one rule *)
Definition rule_resources (has_tls : bool) (j : nat) (ru : rule) (rs : list resource) : Prop :=
  (∀ k p, ru_paths ru !! k = Some p → ∃ m, m ∈ rs ∧ mapping_for has_tls j k ru p m) ∧ ∀ m, m ∈ rs → ∃ k p, mapping_for has_tls j k ru p m.

Lemma emit_ingress_rule_spec has_tls j ru s : Forall path_ok (ru_paths ru) →
  ∃ rs, emit_ingress_rule env this_ingress has_tls s (j, rule_obj ru) = Ok (emitted s rs) ∧ rule_resources has_tls j ru rs.
Proof.
  intros Hok. set (host := match ru_host ru with Some h => PStr h | None => PNone end).
  destruct (emits_enumerate (emit_ingress_path env this_ingress has_tls j host) path_obj (λ k p rs, ∃ m, rs = [m] ∧ mapping_for has_tls j k ru p m)
              (ru_paths ru)) with (s := s) as (rs & Hrs & H1 & H2).
  { intros s' k p Hp. rewrite Forall_lookup in Hok. destruct (emit_ingress_path_spec has_tls j k ru p s' (Hok k p Hp)) as (m & Hm & Hf). exists [m]. eauto. }
  exists rs. split; [|split].
  - unfold emit_ingress_rule. cbn [snd fst].
    assert (vget "http" (PDict []) (rule_obj ru) = Ok (PDict [("paths", PList (path_obj <$> ru_paths ru))])) as -> by (unfold rule_obj; by destruct (ru_host ru)).
    assert (vget "host" PNone (rule_obj ru) = Ok host) as -> by (unfold host, rule_obj; by destruct (ru_host ru)). exact Hrs.
  - intros k p Hp. destruct (H1 k p Hp) as (rs' & (m & -> & Hf) & Hsub). exists m. split; [apply Hsub; by left|done].
  - intros m Hm. destruct (H2 m Hm) as (k & p & rs' & _ & (m' & -> & Hf) & Hin). apply list_elem_of_singleton in Hin as ->. eauto.
Qed.

(** A Host of the Ingress selects its Mappings, in both modes of selecting. *)
Lemma host_selects e b j k t h r j' k' ru p m : host_for j k t h r → mapping_for true j' k' ru p m → disable_strict_selectors e = Ok b →
  selector_matches e (pget "selector" r) (pget "metadata_labels" m) = Ok true.
Proof.
  intros (_ & _ & _ & _ & _ & Hs) (_ & _ & _ & _ & _ & _ & _ & Hl) He. specialize (Hl eq_refl). unfold pget, dget_default. rewrite Hs, Hl. cbn [default from_option id].
  set (lab := dset _ _ labels). unfold selector_matches. change (vget "matchLabels" PNone _) with (Ok (PDict ingress_label)). cbn [mbind res_bind].
  assert (Hne : py_bool (PDict lab) = true) by (unfold lab; destruct labels as [|[]]; cbn; [done|by case_bool]).
  change (py_or (PDict ingress_label) (PDict [])) with (PDict ingress_label). change (py_bool (PDict ingress_label)) with true.
  rewrite Hne. cbn [negb mbind res_bind]. rewrite He. cbn [mbind res_bind].
  assert (Hhit : label_hit lab ("a10r-k8s-ingress", PStr (ingress_host_id this_ingress)) = true).
  { unfold label_hit, pget, dget_default, lab. cbn [fst snd]. rewrite dget_dset_eq. cbn. by apply bool_decide_true. }
  unfold ingress_label. cbn [selector_loop_any selector_loop_all]. rewrite Hhit. by destruct b.
Qed.

End ingress.

Lemma update_status_elements env obj s name ns : k8s_name obj = Ok name → k8s_namespace (fe_config env) obj = Ok ns → (∃ g, k8s_gvk obj = Ok g) →
  ∃ s', ingress_update_status env obj s = Ok s' ∧ fs_elements s' = fs_elements s.
Proof.
  intros Hn Hns (g & Hg). unfold ingress_update_status. case_match; [by eexists|]. rewrite Hg, Hns, Hn. by eexists.
Qed.


(** ** An example *)

Definition demo_tls : list tls := [mkTls "cert" ["a.com"; "b.com"]].
Definition demo_rules : list rule :=
  [mkRule (Some "a.com") [mkPath "/x" false "web" 80; mkPath "/y" true "api" 8080]; mkRule None [mkPath "/" false "web" 80]].
Definition demo_ingress : dict pyval :=
  [("apiVersion", PStr "networking.k8s.io/v1"); ("kind", PStr "Ingress");
   ("metadata", PDict [("name", PStr "i"); ("namespace", PStr "x"); ("annotations", PDict [("kubernetes.io/ingress.class", PStr "ambassador")])]);
   ("spec", PDict [("tls", PList (tls_obj <$> demo_tls)); ("rules", PList (rule_obj <$> demo_rules))])].

