(* ===== verification/IR.v ===== *)
(** * The IR's handling of Mappings ([ir/ir.py], [ir/irmappingfactory.py])

    Incremental reconfiguration ([check_deltas]), loading the configured
    Mappings through the cache, the order of the groups, and the cluster names
    given to Envoy. *)

From S2P Require Import Prelude PyStr PyVal Resource Cache ServiceName Resolver BaseMapping Sha1 HTTPMapping HealthChecks Cluster TCPMapping Group.

(** ** Deltas *)

Section factory.
Context {C : Type} `{ops : !CacheOps C ref}.

(** The cache key of a Mapping or TCPMapping delta: [None] for other kinds,
    [Some None] for a delta without name or namespace. *)
Definition delta_key (delta : dict pyval) : res (option (option string)) :=
  kind ← res_of_option (KeyError "kind") (dget "kind" delta);
  match kind with
  | PStr kind =>
      if bool_decide (kind = "Mapping") || bool_decide (kind = "TCPMapping") then
        let metadata := dget_default "metadata" (PDict []) delta in
        name ← vget "name" (PStr EmptyString) metadata;
        namespace ← vget "namespace" (PStr EmptyString) metadata;
        if negb (py_bool name) || negb (py_bool namespace) then Ok (Some None)
        else name ← as_str name; namespace ← as_str namespace;
             Ok (Some (Some (make_cache_key kind name namespace "v2")))
      else Ok None
  | _ => Raise (AssertionError EmptyString)
  end.

(** [cache.invalidate] for each key. *)
Fixpoint invalidate_all (c : C) (keys : list string) : option C :=
  match keys with
  | [] => Some c
  | k :: keys => c ← c_invalidate (R := ref) c k; invalidate_all c keys
  end.

Record delta_result : Type := mkDelta {
  config_type : string;
  reset_cache : bool;
  invalidate_groups_for : list string;
  delta_cache : option C
}.

(** [IR.check_deltas] *)
Definition check_deltas (deltas : list (dict pyval)) (cache : option C) : res delta_result :=
  match cache, deltas with
  | Some c, _ :: _ =>
      ks ← map_res delta_key deltas;
      let found := omap id ks in
      let keys := omap id found in
      let delta_errors := List.filter (λ k, bool_decide (k = None)) found in
      match keys, delta_errors with
      | _ :: _, [] =>
          c ← res_of_option (PyException "invalidate did not end") (invalidate_all c keys);
          Ok (mkDelta "incremental" false keys (Some c))
      | _, _ => Ok (mkDelta "complete" true keys (Some c))
      end
  | _, _ => Ok (mkDelta "complete" true [] cache)
  end.

(** ** Loading Mappings *)

(** A configured resource: what [mapping_class] is called with. *)
Record mapping_config : Type := mkConfig { mc_args : http_args; mc_kwargs : dict pyval }.

(** The match decorators as the dictionaries they are. *)
Definition kv_dict (kv : KeyValueDecorator) : pyval :=
  PDict [("name", PStr (kv_name kv)); ("value", kv_value kv); ("regex", kv_regex kv)].

(** [mapping_class(ir, aconf, **config)] *)
Definition new_mapping (ctx : ir_ctx) (cls : group_class) (c : mapping_config) : res (mapping_obj * list string) :=
  match cls with
  | HTTPGroup =>
      '(m, es, _) ← IRHTTPMapping_init ctx (mc_args c) (mc_kwargs c);
      let self := dset "headers" (PList (kv_dict <$> hm_headers m))
                    (dset "query_parameters" (PList (kv_dict <$> hm_query m)) (hm_self m)) in
      Ok (mkMO HTTPGroup self None, es)
  | TCPGroup =>
      '(self, es, _) ← IRTCPMapping_init ctx (mc_args c) (mc_kwargs c);
      Ok (mkMO TCPGroup self None, es)
  end.

(** The state of a load: the IR and the errors posted by resource key. *)
Definition post_for (rkey : string) (es : list string) (errors : dict (list string)) : dict (list string) :=
  match es with [] => errors | _ => dset rkey (default [] (dget rkey errors) ++ es) errors end.

(** One turn of the first loop: the Mapping, from the cache or new, when it is
    true. *)
Definition fetch_mapping (ctx : ir_ctx) (kind : string) (cls : group_class)
    (st : list nat * ir_state C * dict (list string)) (c : mapping_config)
    : res (list nat * ir_state C * dict (list string)) :=
  let '(live, s, errors) := st in
  let a := mc_args c in
  ns ← as_str (ha_namespace a);
  let '(r, s) := cache_fetch s (make_cache_key kind (ha_name a) ns "v2") in
  '(i, s, errors) ← match r with
    | Some (RMapping i _) => Ok (i, s, errors)
    | Some _ => Raise (AssertionError EmptyString)
    | None =>
        '(o, es) ← new_mapping ctx cls c;
        Ok (length (st_mappings s), st_with_mappings s (st_mappings s ++ [o]), post_for (ha_rkey a) es errors)
    end;
  o ← deref (st_mappings s) i;
  Ok (if mo_bool o then live ++ [i] else live, s, errors).

(** One turn of the second loop. *)
Definition invalidate_group_for (keys : list string) (s : ir_state C) (i : nat) : res (ir_state C) :=
  o ← deref (st_mappings s) i;
  key ← mapping_key o;
  if bool_decide (key ∈ keys) then
    id ← mapping_group_id o;
    c ← res_of_option (PyException "invalidate did not end")
          (c_invalidate (R := ref) (st_cache s) (key_for_id (class_name (mo_class o)) id));
    Ok (st_with_cache s c)
  else Ok s.

(** One turn of the third loop. *)
Definition add_live (namespace : string) (errors : dict (list string))
    (su : ir_state C * dict (string * pyval * pyval)) (i : nat)
    : res (ir_state C * dict (string * pyval * pyval)) :=
  '(_, s, u) ← ir_add_mapping namespace errors su.1 i su.2; Ok (s, u).

Record load_state : Type := mkLoad {
  ld_state : ir_state C;
  ld_errors : dict (list string);
  ld_updates : dict (string * pyval * pyval)
}.

(** [MappingFactory.load_config] *)
Definition load_config (ctx : ir_ctx) (keys : list string) (kind : string) (cls : group_class)
    (configs : list mapping_config) (l : load_state) : res load_state :=
  '(live, s, errors) ← fold_res (fetch_mapping ctx kind cls) configs ([], ld_state l, ld_errors l);
  s ← fold_res (invalidate_group_for keys) live s;
  '(s, u) ← fold_res (add_live (ambassador_namespace ctx) errors) live (s, ld_updates l);
  Ok (mkLoad s errors u).

(** [MappingFactory.load_all] *)
Definition factory_load_all (ctx : ir_ctx) (keys : list string) (http tcp : list mapping_config) (l : load_state)
    : res load_state :=
  l ← load_config ctx keys "Mapping" HTTPGroup http l;
  load_config ctx keys "TCPMapping" TCPGroup tcp l.

(** [MappingFactory.finalize] *)
Definition factory_finalize (ctx : cluster_ctx) (s : ir_state C) : res (ir_state C) :=
  fold_res (λ s (g : string * nat), '(_, s) ← finalize_group ctx s g.2; Ok s) (st_groups s) s.

(** ** The order of the groups *)

(** [IR.ordered_groups] *)
Definition ordered_groups (s : ir_state C) : res (list group_obj) :=
  gs ← map_res (λ g : string * nat, deref (st_group_objs s) g.2) (st_groups s);
  _ ← map_res (λ g, w ← getattr (go_self g) "group_weight"; as_weight w) gs;
  Ok (rev (py_sorted weight_le group_weight gs)).
End factory.
Arguments delta_result C : clear implicits.
Arguments load_state C : clear implicits.

(** [unique_mapping_name]; [taken] are the names of all Mappings and
    TCPMappings, and one more turn than that always finds a free name. *)
Fixpoint unique_from (fuel : nat) (taken : list string) (basename : string) (counter : Z) : option string :=
  let name := basename +:+ "-" +:+ str_of_int counter in
  match fuel with
  | 0 => None
  | S fuel => if bool_decide (name ∈ taken) then unique_from fuel taken basename (counter + 1) else Some name
  end.
Definition unique_mapping_name (taken : list string) (name : string) : option string :=
  if bool_decide (name ∈ taken) then unique_from (S (length taken)) taken name 0 else Some name.

(** ** Envoy cluster names *)

Definition compress_name (name : string) : string :=
  take_str 40 name +:+ "-" +:+ upper (take_str 16 (sha1_hex (encode_utf8 name))).

(** The first loop, over the sorted names: the names given, and the long names
    by short name. *)
Fixpoint short_names (names : list string) (given : dict string) (collisions : dict (list string))
    : dict string * dict (list string) :=
  match names with
  | [] => (given, collisions)
  | n :: names =>
      if bool_decide (60 < slen n) then
        let short := compress_name n in
        short_names names given (dset short (default [] (dget short collisions) ++ [n]) collisions)
      else short_names names (dset n n given) collisions
  end.

(** The names of one collision list, numbered. *)
Fixpoint mangle (short : string) (i : Z) (names : list string) : dict string :=
  match names with
  | [] => []
  | n :: names => (n, short +:+ "-" +:+ str_of_int i) :: mangle short (i + 1) names
  end.

(** The Envoy name of every cluster. *)
Definition envoy_names (clusters : list string) : dict string :=
  let '(given, collisions) := short_names (py_sorted str_le id clusters) [] [] in
  given ++ mjoin ((λ short, mangle short 0 (py_sorted str_le id (default [] (dget short collisions))))
                    <$> py_sorted str_le id (dkeys collisions)).

Definition set_attr (k : string) (v : pyval) (c : IRCluster) : IRCluster :=
  mkCluster (cl_name c) (cl_rkey c) (cl_location c) (cl_hostname c) (cl_namespace c) (cl_port c) (cl_resolver c)
    (cl_ignore c) (cl_active c) (cl_errored c) (cl_urls c) (cl_targets c) (dset k v (cl_attrs c)) (cl_health c) (cl_refs c).

(** The naming block of [IR.__init__]: [envoy_name] is set on every cluster,
    and the cached Envoy configuration of a mangled one is dropped. *)
Definition assign_envoy_names {C} `{!CacheOps C ref} (s : ir_state C) : option (ir_state C) :=
  foldl (λ so (ne : string * string),
    s ← so;
    i ← dget ne.1 (st_clusters s);
    c ← (if bool_decide (60 < slen ne.1) then invalidate_all (st_cache s) ["V2-Cluster-" +:+ ne.1; "V3-Cluster-" +:+ ne.1]
         else Some (st_cache s));
    Some (mkIRState (st_mappings s) (st_group_objs s)
            (alter (set_attr "envoy_name" (PStr ne.2)) i (st_cluster_objs s)) (st_groups s) (st_clusters s) c
            (st_tls s) (st_errors s)))
    (Some s) (envoy_names (dkeys (st_clusters s))).

(** ** Deltas: correctness *)

Section deltas.
Context {C : Type} `{ops : !CacheOps C ref} `{laws : !CacheLaws C ref}.

Lemma invalidate_all_spec (keys : list string) (c : C) :
  ∃ c', invalidate_all c keys = Some c'
    ∧ (∀ k, k ∈ keys → (c_getitem (R := ref) c' k).1 = None)
    ∧ (∀ k (r : ref), (c_getitem c' k).1 = Some r → (c_getitem c k).1 = Some r).
Proof.
  revert c. induction keys as [|k keys IH]; intros c; [exists c; set_solver|].
  destruct (c_invalidate_total c k) as (c1 & H1 & Hn1). destruct (IH c1) as (c2 & H2 & Hn2 & Hs2).
  exists c2. cbn [invalidate_all]. rewrite H1. split; [done|]. split.
  - intros k' [->|Hk]%elem_of_cons; [|by apply Hn2].
    destruct (c_getitem (R := ref) c2 k).1 as [r|] eqn:E; [|done]. apply Hs2 in E. congruence.
  - intros k' r Hr. eapply c_invalidate_shrinks; [exact H1|]. by apply Hs2.
Qed.

End deltas.


(** ** The order of the groups: correctness *)

(** A list sorted by [py_sorted] and reversed is in descending order. *)
Lemma rev_sorted_descending {A} (key : A → list (Z + string)) l i j x y :
  i < j → rev (py_sorted weight_le key l) !! i = Some x → rev (py_sorted weight_le key l) !! j = Some y →
  weight_le (key y) (key x) = true.
Proof.
  intros Hij Hx Hy. set (srt := py_sorted weight_le key l) in *.
  assert (Hs : StronglySorted (λ a b, weight_le (key a) (key b) = true) srt).
  { apply Sorted_StronglySorted; [intros ???; apply weight_le_trans|].
    apply (py_sorted_sorted weight_le key l weight_le_total). }
  rewrite rev_alt in *. fold (reverse srt) in *.
  pose proof (lookup_lt_Some _ _ _ Hx) as Lx. pose proof (lookup_lt_Some _ _ _ Hy) as Ly. rewrite length_reverse in Lx, Ly.
  rewrite reverse_lookup in Hx by done. rewrite reverse_lookup in Hy by done.
  eapply StronglySorted_lookup_lt in Hs; [exact Hs|exact Hy|exact Hx|lia].
Qed.


Definition demo_group (w : list pyval) : group_obj := mkGO HTTPGroup [("group_weight", PList w)] [] [] None None [].
Definition demo_groups : ir_state NullCache :=
  mkIRState [] [demo_group [PInt 0; PInt 1; PStr "/"]; demo_group [PInt 0; PInt 6; PStr "/long/"]] []
    [("a", 0); ("b", 1)] [] NullCache_init [] [].


(** ** Fresh Mapping names *)

Lemma unique_from_spec fuel taken b n :
  (∃ name, unique_from fuel taken b n = Some name ∧ name ∉ taken)
  ∨ ∀ k, (n ≤ k < n + Z.of_nat fuel)%Z → b +:+ "-" +:+ str_of_int k ∈ taken.
Proof.
  revert n. induction fuel as [|fuel IH]; intros n; [right; lia|]. cbn [unique_from].
  case_bool as Hin; [|left; eauto]. destruct (IH (n + 1)%Z) as [?|Hall]; [by left|right].
  intros k Hk. destruct (decide (k = n)) as [->|]; [done|]. apply Hall. lia.
Qed.

(** C39. [unique_mapping_name] always ends, with a name no Mapping or TCPMapping
    has, and leaves a name that is free alone. *)
Theorem unique_mapping_name_fresh taken name :
  ∃ n, unique_mapping_name taken name = Some n ∧ n ∉ taken ∧ (name ∉ taken → n = name).
Proof.
  unfold unique_mapping_name. case_bool as Hin; [|by exists name].
  destruct (unique_from_spec (S (length taken)) taken name 0) as [(n & Hn & Hf)|Hall]; [by exists n|].
  exfalso. set (f := λ k : nat, name +:+ "-" +:+ str_of_int (Z.of_nat k)).
  assert (Hsub : (f <$> seq 0 (S (length taken))) ⊆ taken).
  { intros x (k & -> & Hk)%list_elem_of_fmap. apply elem_of_seq in Hk. apply Hall. lia. }
  assert (Hnd : NoDup (f <$> seq 0 (S (length taken)))).
  { apply NoDup_fmap_2; [|apply NoDup_seq]. intros k1 k2 Hk. subst f. cbn in Hk.
    apply app_inj_l in Hk. apply app_inj_l in Hk. apply str_of_int_inj in Hk. lia. }
  apply NoDup_submseteq in Hsub; [|done]. apply submseteq_length in Hsub.
  rewrite length_fmap, length_seq in Hsub. lia.
Qed.

(** ** Envoy cluster names: correctness *)

Lemma slen_take n s : slen (take_str n s) = n `min` slen s.
Proof. revert s. induction n as [|n IH]; intros [|a s]; try done. cbn [take_str]. rewrite !slen_cons, IH. lia. Qed.

Lemma slen_upper s : slen (upper s) = slen s.
Proof. induction s as [|a s IH]; [done|]. cbn [upper]. by rewrite !slen_cons, IH. Qed.

Lemma slen_compress n : 60 < slen n → slen (compress_name n) = 57.
Proof.
  intros Hn. unfold compress_name. rewrite !slen_app, slen_upper, !slen_take, slen_sha1_hex. change (slen "-") with 1. lia.
Qed.

Lemma slen_small_int n : (0 ≤ n < 100)%Z → slen (str_of_int n) ≤ 2.
Proof.
  intros Hn.
  assert (H : forallb (λ k, slen (str_of_int (Z.of_nat k)) <=? 2) (seq 0 100) = true) by (vm_compute; reflexivity).
  rewrite forallb_elem_of in H. specialize (H (Z.to_nat n)). rewrite Z2Nat.id in H by lia.
  apply Nat.leb_le, H, elem_of_seq. lia.
Qed.

Definition long (n : string) : Prop := 60 < slen n.
Definition collides (short n : string) : Prop := long n ∧ compress_name n = short.
#[export] Instance collides_dec short n : Decision (collides short n) := and_dec _ _.

Lemma short_names_spec names given coll :
  (∀ n e, (n, e) ∈ (short_names names given coll).1 → (n, e) ∈ given ∨ n ∈ names ∧ e = n ∧ ¬ long n)
  ∧ (∀ n, n ∈ dkeys (short_names names given coll).1 ↔ n ∈ dkeys given ∨ n ∈ names ∧ ¬ long n)
  ∧ (∀ sh, default [] (dget sh (short_names names given coll).2)
           = default [] (dget sh coll) ++ filter (collides sh) names)
  ∧ (∀ sh, sh ∈ dkeys (short_names names given coll).2 ↔ sh ∈ dkeys coll ∨ ∃ n, n ∈ names ∧ collides sh n).
Proof.
  revert given coll. induction names as [|m names IH]; intros given coll; cbn [short_names].
  { split; [naive_solver|]. split; [set_solver|]. split; [intros; by rewrite filter_nil, app_nil_r|set_solver]. }
  case_bool as Hl.
  - destruct (IH given (dset (compress_name m) (default [] (dget (compress_name m) coll) ++ [m]) coll))
      as (H1 & H2 & H3 & H4). split; [|split; [|split]].
    + intros n e [?|(?&?&?)]%H1; [by left|right; set_solver].
    + intros n. rewrite H2, elem_of_cons. unfold long. naive_solver.
    + intros sh. rewrite H3, filter_cons, dget_dset. unfold collides, long.
      destruct (decide (sh = compress_name m)) as [->|Hne].
      * rewrite bool_decide_true, decide_True by done. cbn. by rewrite <- app_assoc.
      * rewrite bool_decide_false, decide_False by naive_solver. done.
    + intros sh. rewrite H4, elem_of_dkeys_dset. setoid_rewrite elem_of_cons. unfold collides, long. naive_solver.
  - destruct (IH (dset m m given) coll) as (H1 & H2 & H3 & H4). split; [|split; [|split]].
    + intros n e [Hin|(?&?&?)]%H1; [|right; set_solver].
      apply elem_of_dset in Hin as [[= -> ->]|Hin]; [right; set_solver|by left].
    + intros n. rewrite H2, elem_of_dkeys_dset, elem_of_cons. unfold long in *. naive_solver.
    + intros sh. rewrite H3, filter_cons, decide_False; [done|]. by intros [? _].
    + intros sh. rewrite H4. setoid_rewrite elem_of_cons. unfold collides, long in *. naive_solver.
Qed.

Lemma elem_of_mangle short i names n e :
  (n, e) ∈ mangle short i names ↔ ∃ j, names !! j = Some n ∧ e = short +:+ "-" +:+ str_of_int (i + Z.of_nat j).
Proof.
  revert i. induction names as [|m names IH]; intros i; cbn [mangle].
  { split; [set_solver|]. intros (j & Hj & _). done. }
  rewrite elem_of_cons, IH. split.
  - intros [[= -> ->]|(j & Hj & ->)]; [exists 0|exists (S j)]; (split; [done|]); do 3 f_equal; lia.
  - intros ([|j] & Hj & ->); [left|right].
    + injection Hj as ->. do 4 f_equal. lia.
    + exists j. split; [done|]. do 3 f_equal. lia.
Qed.

(** The Envoy name of a cluster: its own when that is short, else the
    compressed name with its position among the names compressed alike. *)
Lemma elem_of_envoy_names cs n e :
  (n, e) ∈ envoy_names cs →
  n ∈ cs ∧ (¬ long n ∧ e = n
            ∨ long n ∧ ∃ j, py_sorted str_le id (filter (collides (compress_name n)) (py_sorted str_le id cs)) !! j = Some n
                        ∧ e = compress_name n +:+ "-" +:+ str_of_int (Z.of_nat j)).
Proof.
  unfold envoy_names. destruct (short_names_spec (py_sorted str_le id cs) [] []) as (H1 & _ & H3 & _).
  destruct (short_names _ _ _) as [given coll]. cbn [fst snd] in *. rewrite elem_of_app. intros [Hg|Hm].
  - apply H1 in Hg as [?%not_elem_of_nil|(Hn & -> & Hs)]; [done|]. rewrite elem_of_py_sorted in Hn. auto.
  - apply list_elem_of_join in Hm as (l & Hl & Hin). apply list_elem_of_fmap in Hin as (sh & -> & _).
    apply elem_of_mangle in Hl as (j & Hj & ->). rewrite H3 in Hj. cbn [default app dget] in Hj.
    pose proof (list_elem_of_lookup_2 _ _ _ Hj) as Hin. rewrite elem_of_py_sorted, list_elem_of_filter, elem_of_py_sorted in Hin.
    destruct Hin as [[Hlong <-] Hin]. split; [done|]. right. split; [done|]. by exists j.
Qed.

Lemma envoy_names_total cs n : n ∈ cs → is_Some (dget n (envoy_names cs)).
Proof.
  intros Hn. apply dget_is_Some. unfold envoy_names.
  destruct (short_names_spec (py_sorted str_le id cs) [] []) as (_ & H2 & H3 & H4).
  destruct (short_names _ _ _) as [given coll]. cbn [fst snd] in *.
  unfold dkeys in *. rewrite fmap_app, elem_of_app. destruct (decide (60 < slen n)) as [Hl|Hs].
  - right. assert (Hk : compress_name n ∈ coll.*1).
    { apply H4. right. exists n. rewrite elem_of_py_sorted. done. }
    assert (Hin : n ∈ py_sorted str_le id (default [] (dget (compress_name n) coll))).
    { rewrite elem_of_py_sorted, H3. apply elem_of_app. right. apply list_elem_of_filter.
      split; [done|by apply elem_of_py_sorted]. }
    apply list_elem_of_lookup in Hin as [j Hj]. apply list_elem_of_fmap.
    exists (n, compress_name n +:+ "-" +:+ str_of_int (0 + Z.of_nat j)). split; [done|].
    apply list_elem_of_join. eexists. split; [apply elem_of_mangle; by exists j|].
    apply list_elem_of_fmap. exists (compress_name n). split; [done|by apply elem_of_py_sorted].
  - left. apply H2. right. split; [by apply elem_of_py_sorted|done].
Qed.

(** C22. Every cluster gets an Envoy name of at most 60 characters, its own name
    when that is short enough, and no two clusters get the same one: provided
    the cluster names are as [IRCluster] makes them, and at most a hundred of
    them are compressed to the same text. *)
Theorem envoy_names_valid cs :
  (∀ n, n ∈ cs → all_chars safe_char n = true) →
  (∀ short, length (filter (collides short) cs) ≤ 100) →
  (∀ n, n ∈ cs → ∃ e, dget n (envoy_names cs) = Some e ∧ slen e ≤ 60 ∧ (slen n ≤ 60 → e = n))
  ∧ ∀ n1 n2 e, dget n1 (envoy_names cs) = Some e → dget n2 (envoy_names cs) = Some e → n1 = n2.
Proof.
  intros Hsafe Hcol.
  assert (Hdash : ∀ n sh t, n ∈ cs → n ≠ sh +:+ "-" +:+ t).
  { intros n sh t Hn ->. apply Hsafe in Hn. rewrite !all_chars_app, !andb_true_iff in Hn. by destruct Hn as (_ & H & _). }
  split.
  - intros n Hn. destruct (envoy_names_total cs n Hn) as [e He]. exists e. split; [done|].
    apply dget_elem_of, elem_of_envoy_names in He as [_ [[Hs ->]|(Hl & j & Hj & ->)]]; unfold long in *; [split; [lia|done]|].
    split; [|lia]. apply lookup_lt_Some in Hj. rewrite length_py_sorted in Hj.
    rewrite (filter_Permutation _ _ _ (py_sorted_perm str_le id cs)) in Hj.
    specialize (Hcol (compress_name n)). rewrite !slen_app, slen_compress by done.
    pose proof (slen_small_int (Z.of_nat j) ltac:(lia)). change (slen "-") with 1. lia.
  - intros n1 n2 e H1 H2. apply dget_elem_of, elem_of_envoy_names in H1 as [Hin1 H1].
    apply dget_elem_of, elem_of_envoy_names in H2 as [Hin2 H2].
    destruct H1 as [[_ ->]|(Hl1 & j1 & Hj1 & ->)], H2 as [[_ H2]|(Hl2 & j2 & Hj2 & H2)].
    + done.
    + by apply Hdash in H2.
    + symmetry in H2. by apply Hdash in H2.
    + apply app_eq_len in H2 as [Hc H2]; [|by rewrite !slen_compress]. apply app_inj_l, str_of_int_inj in H2.
      rewrite <- Hc in Hj2. assert (j1 = j2) as -> by lia. congruence.
Qed.

Definition demo_long : string := "cluster_quote_service_with_a_rather_long_name_in_a_namespace_with_another_one".

Lemma envoy_names_valid_witness :
  ∃ e, dget demo_long (envoy_names ["cluster_a"; demo_long]) = Some e ∧ slen e ≤ 60 ∧ slen demo_long = 77.
Proof.
  destruct (envoy_names_valid ["cluster_a"; demo_long]) as [H _]; cycle 2.
  - destruct (H demo_long) as (e & He & Hl & _); [right; left|].
    exists e. split; [exact He|]. split; [exact Hl|reflexivity].
  - intros n Hn. rewrite !elem_of_cons in Hn. by destruct Hn as [->|[->|?%not_elem_of_nil]].
  - intros short. etrans; [apply length_filter|]. simpl. lia.
Defined.

(** ** Labels of cached Mappings *)

Definition label_module : dict pyval :=
  [("load_balancer", PNone); ("enable_ipv4", PBool true); ("enable_ipv6", PBool false); ("circuit_breakers", PNone);
   ("use_ambassador_namespace_for_service_resolution", PBool false); ("default_label_domain", PStr "ambassador");
   ("default_labels", PDict [("ambassador", PDict [("defaults", PList [PStr "remote_address"])])])].
Definition label_ctx : ir_ctx := mkIRCtx label_module "default" (load_all [] "default").1 [] [].
Definition label_cluster_ctx : cluster_ctx :=
  mkClusterCtx label_module [] (load_all [] "default").1 (mkResolveCtx [] false "default") true.
Definition label_config (name service : string) : mapping_config :=
  mkConfig
    (mkHTTPArgs name name name service (PStr "default") PNone "Mapping" "getambassador.io/v3alpha1" 0 (PStr "/") PNone)
    [("prefix", PStr "/quote/"); ("labels", PDict [("ambassador", PList [PDict [("quote", PList [PStr "path"])]])])].

(** One configuration of the Mappings, from the objects and the cache the
    previous one left. *)
Definition configure (keys : list string) (configs : list mapping_config) (s : ir_state (Cache ref unit))
    : res (ir_state (Cache ref unit)) :=
  l ← load_config label_ctx keys "Mapping" HTTPGroup configs
        (mkLoad (mkIRState (st_mappings s) (st_group_objs s) (st_cluster_objs s) [] [] (st_cache s) [] []) [] []);
  factory_finalize label_cluster_ctx (ld_state l).

(** The same after a change of one Mapping. *)
Definition reconfigure (changed : string) (configs : list mapping_config) (s : ir_state (Cache ref unit))
    : res (ir_state (Cache ref unit)) :=
  d ← check_deltas [[("kind", PStr "Mapping");
                     ("metadata", PDict [("name", PStr changed); ("namespace", PStr "default")])]] (Some (st_cache s));
  c ← res_of_option (PyException "no cache") (delta_cache d);
  configure (invalidate_groups_for d) configs (st_with_cache s c).

Definition empty_ir : ir_state (Cache ref unit) := mkIRState [] [] [] [] [] Cache_init [] [].

(** The names of the Mappings in each group of the IR. *)
Definition group_names (s : ir_state (Cache ref unit)) : res (list (list pyval)) :=
  map_res (λ g : string * nat, o ← deref (st_group_objs s) g.2; map_res (name_at (st_mappings s)) (go_mappings o))
    (st_groups s).

