(* ===== verification/Listener.v ===== *)
(** * Listeners ([ir/irlistener.py], and [save_listener] of [ir/ir.py])

    Construction and setup of a Listener, which Hosts it takes, the factory
    that loads configured Listeners and makes missing ones for TCP groups, and
    the marking of HTTP/3 companions. *)

From S2P Require Import Prelude PyStr PyVal HostGlob Resource ServiceName PyText Resolver BaseMapping HTTPMapping.
From S2P Require Import Cache Cluster Group IR.

(** ** Construction of a resource *)

(** The named arguments of a resource. *)
Record res_args : Type := mkRA {
  ra_rkey : string;
  ra_name : string;
  ra_location : string;
  ra_namespace : pyval;
  ra_kind : string;
  ra_apiVersion : string
}.

(** [Cls(ir, aconf, **config)]: the named arguments, with the defaults of the
    class, and the other keyword arguments. *)
Definition split_args (kind apiVersion : string) (config : dict pyval) : res (res_args * dict pyval) :=
  let required k := v ← res_of_option TypeError (dget k config); as_str v in
  rkey ← required "rkey";
  name ← required "name";
  location ← required "location";
  kind ← as_str (dget_default "kind" (PStr kind) config);
  apiVersion ← as_str (dget_default "apiVersion" (PStr apiVersion) config);
  Ok (mkRA rkey name location (pget "namespace" config) kind apiVersion,
      dpop ["rkey"; "name"; "location"; "namespace"; "kind"; "apiVersion"] config).

(** [IRResource.__init__] up to the call of [setup]; [kwargs] has none of the
    named keys but may have [metadata_labels] and [serialization]. *)
Definition IRResource_init (ambassador_namespace : string) (a : res_args) (kwargs : dict pyval) : res (dict pyval) :=
  let ns := py_or (ra_namespace a) (PStr ambassador_namespace) in
  r ← Resource_init (ra_rkey a) (ra_location a) (ra_kind a) (pget "serialization" kwargs)
        ([("name", PStr (ra_name a)); ("namespace", ns); ("metadata_labels", pget "metadata_labels" kwargs);
          ("apiVersion", PStr (ra_apiVersion a))] ++ dpop ["serialization"; "metadata_labels"] kwargs);
  Ok (dupdate [("namespace", ns)]
        (r ++ [("_errored", PBool false); ("_active", PBool false); ("_cache_key", PNone)])).

(** ** [IRListener] *)

Definition listener_allowed_keys : list string :=
  ["bind_address"; "l7Depth"; "hostBinding"; "http2MaxConcurrentStreams"; "port"; "protocol"; "protocolStack";
   "securityModel"; "statsPrefix"].

Definition ProtocolStacks : dict (list string) :=
  [("HTTP", ["HTTP"; "TCP"]); ("HTTPS", ["TLS"; "HTTP"; "TCP"]); ("HTTPPROXY", ["PROXY"; "HTTP"; "TCP"]);
   ("HTTPSPROXY", ["TLS"; "PROXY"; "HTTP"; "TCP"]); ("TCP", ["TCP"]); ("TLS", ["TLS"; "TCP"])].

(** A step of [setup]: whether it goes on, and the state. *)
Definition setup_step : Type := res (bool * setup_state).

(** [post_error(msg); return False] *)
Definition setup_fail (msg : string) (s : setup_state) : setup_step := Ok (false, su_post msg s).

Definition and_then (r : setup_step) (k : setup_state → setup_step) : setup_step :=
  '(ok, s) ← r; if (ok : bool) then k s else Ok (false, s).

(** [protocolStack], from [protocol] where it is not given *)
Definition choose_stack (s : setup_state) : setup_step :=
  let protocol := pget "protocol" (su_self s) in
  if py_bool (pget "protocolStack" (su_self s)) then
    if py_bool protocol then
      Ok (true, su_set "protocol" PNone (su_post
        "protocol and protocolStack may not both be specified; using protocolStack and ignoring protocol" s))
    else Ok (true, s)
  else if negb (py_bool protocol) then setup_fail "one of protocol and protocolStack must be specified" s
  else
    _ ← hashable protocol;
    match (match protocol with PStr p => dget p ProtocolStacks | _ => None end) with
    | Some st => Ok (true, su_set "protocolStack" (PList (List.map PStr st)) s)
    | None => setup_fail ("protocol " +:+ py_text protocol +:+ " is not valid") s
    end.

(** [socket_protocol] and [http3_enabled] *)
Definition choose_socket (s : setup_state) : setup_step :=
  stack ← getattr (su_self s) "protocolStack";
  name ← getattr (su_self s) "name";
  sp ← last_item stack;
  let s := su_set "socket_protocol" sp s in
  _ ← hashable sp;
  if negb (in_strs sp ["TCP"; "UDP"]) then
    setup_fail ("TCP or UDP should be the last protocol in the protocolStack. " +:+
      "Unable to determine socket protocol for listener " +:+ py_text name) s
  else
    let s := su_set "http3_enabled" (PBool false) s in
    if in_strs sp ["UDP"] then
      http ← vmem "HTTP" stack;
      if (http : bool) then Ok (true, su_set "http3_enabled" (PBool true) s)
      else setup_fail ("UDP is only supported with HTTP. Invalid protocolStack for listener " +:+ py_text name) s
    else Ok (true, s).

(** [securityModel] and [statsPrefix]; [security] is [securityModel] as it was
    when the setup began *)
Definition choose_stats (security : pyval) (s : setup_state) : setup_step :=
  if negb (py_bool security) then setup_fail "securityModel is required" s
  else if py_bool (dget_default "statsPrefix" (PStr EmptyString) (su_self s)) then Ok (true, s)
  else
    stack ← getattr (su_self s) "protocolStack";
    tls ← vmem "TLS" stack;
    http ← vmem "HTTP" stack;
    port ← getattr (su_self s) "port";
    sp ← getattr (su_self s) "socket_protocol";
    sp ← py_lower sp;
    let prefix :=
      if (http : bool) then (if (tls : bool) then "ingress_https" else "ingress_http")
      else if (tls : bool) then "ingress_tls_" +:+ py_text port
      else "ingress_" +:+ sp +:+ "_" +:+ py_text port in
    Ok (true, su_set "statsPrefix" (PStr prefix) s).

(** [hostBinding.namespace] *)
Definition bind_namespace (hb_namespace : pyval) (s : setup_state) : setup_step :=
  if py_bool hb_namespace then
    nsfrom ← vget "from" PNone hb_namespace;
    if negb (py_bool nsfrom) then setup_fail "hostBinding.namespace.from is required" s
    else
      f ← py_lower nsfrom;
      if bool_decide (f = "all") then Ok (true, su_set "namespace_literal" (PStr "*") s)
      else if bool_decide (f = "self") then
        ns ← getattr (su_self s) "namespace"; Ok (true, su_set "namespace_literal" ns s)
      else if bool_decide (f = "selector") then
        Ok (true, su_post "hostBinding.namespace.from=selector is not yet supported" s)
      else Ok (true, s)
  else Ok (true, s).

(** [hostBinding.selector] *)
Definition bind_selector (hb_selector : pyval) (s : setup_state) : setup_step :=
  if py_bool hb_selector then
    found ← vmem "matchLabels" hb_selector;
    if (found : bool) then Ok (true, su_set "host_selector" hb_selector s)
    else setup_fail "hostBinding.selector currently supports only matchLabels" s
  else Ok (true, s).

(** [hostBinding], which is replaced by what it means *)
Definition choose_binding (s : setup_state) : setup_step :=
  let hostbinding := pget "hostBinding" (su_self s) in
  if negb (py_bool hostbinding) then setup_fail "hostBinding is required" s
  else
    let s := mkSetup (ddel "hostBinding" (su_self s)) (su_errors s) (su_notices s) in
    hb_namespace ← vget "namespace" PNone hostbinding;
    hb_selector ← vget "selector" PNone hostbinding;
    if negb (py_bool hb_namespace) && negb (py_bool hb_selector) then
      setup_fail "hostBinding must have at least one of namespace or selector" s
    else and_then (bind_namespace hb_namespace s) (bind_selector hb_selector).

(** [setup]; [bind_address] is [Config.envoy_bind_address]. *)
Definition IRListener_setup (bind_address : string) (s : setup_state) : setup_step :=
  ns ← getattr (su_self s) "namespace";
  let s := su_set "namespace_literal" ns s in
  let s := su_set "namespace_selector" (PDict []) s in
  let s := su_set "host_selector" (PDict []) s in
  let s := if py_bool (pget "bind_address" (su_self s)) then s else su_set "bind_address" (PStr bind_address) s in
  _ ← getattr (su_self s) "port";
  let security := pget "securityModel" (su_self s) in
  and_then (and_then (and_then (choose_stack s) choose_socket) (choose_stats security)) choose_binding.

(** [__init__]: the Listener and the errors posted. *)
Definition IRListener_init (ambassador_namespace bind_address : string) (a : res_args) (insecure_only : pyval)
    (kwargs : dict pyval) : res (dict pyval * list string) :=
  let new_args := List.filter (λ kv : string * pyval, bool_decide (kv.1 ∈ listener_allowed_keys)) kwargs in
  self ← IRResource_init ambassador_namespace a (("insecure_only", insecure_only) :: new_args);
  '(active, s) ← IRListener_setup bind_address (mkSetup self [] []);
  Ok (su_self (su_set "_active" (PBool active) s), su_errors s).

Definition matches_host (env : dict string) (self host : dict pyval) : res bool :=
  lit ← getattr self "namespace_literal";
  nsmatch ← (if py_eqb lit (PStr "*") then Ok true else ns ← getattr host "namespace"; Ok (py_eqb lit ns));
  if (nsmatch : bool) then
    sel ← getattr self "host_selector";
    labels ← getattr host "metadata_labels";
    selector_matches env sel labels
  else Ok false.

(** [k=v; k=v] of a selector *)
Definition selector_text (v : pyval) : res string :=
  if py_bool v then
    match v with
    | PDict d => Ok (join "; " (List.map (λ '(k, v), k +:+ "=" +:+ py_text v) d))
    | _ => Raise (AttributeError "items")
    end
  else Ok EmptyString.

(** [__str__] *)
Definition listener_str (self : dict pyval) : res string :=
  pstack ← (if py_bool (pget "protocolStack" self) then py_join ";" (pget "protocolStack" self) else Ok "????");
  let security := py_or (pget "securityModel" self) (PStr "????") in
  hs ← getattr self "host_selector"; hs ← selector_text hs;
  nsel ← getattr self "namespace_selector"; nsel ← selector_text nsel;
  sp ← (if py_bool (pget "socket_protocol" self) then py_lower (pget "socket_protocol" self) else Ok EmptyString);
  name ← getattr self "name";
  addr ← getattr self "bind_address";
  port ← getattr self "port";
  lit ← getattr self "namespace_literal";
  Ok ("<Listener " +:+ py_text name +:+ " on " +:+ sp +:+ "://" +:+ py_text addr +:+ ":" +:+ py_text port +:+ " (" +:+
      py_text security +:+ " -- " +:+ pstack +:+ ") ns " +:+ py_text lit +:+ " sel " +:+ nsel +:+ ", host sel " +:+
      hs +:+ " (statsPrefix " +:+ py_text (dget_default "statsPrefix" (PStr EmptyString) self) +:+ ")>").

(** [bind_to] *)
Definition listener_bind_to (self : dict pyval) : res string :=
  sp ← getattr self "socket_protocol"; sp ← py_lower sp;
  addr ← getattr self "bind_address";
  port ← getattr self "port";
  Ok (sp +:+ "-" +:+ py_text addr +:+ "-" +:+ py_text port).

(** ** The Listeners of the IR *)

(** The Listeners by binding, and the errors posted. *)
Record listeners : Type := mkListeners {
  ls_map : dict (dict pyval);
  ls_errors : list string
}.

(** [bool(resource)] *)
Definition res_bool (r : dict pyval) : bool := py_bool (pget "_active" r) && negb (py_bool (pget "_errored" r)).

(** [IR.save_listener] *)
Definition save_listener (listener : dict pyval) (ls : listeners) : res listeners :=
  key ← listener_bind_to listener;
  match dget key (ls_map ls) with
  | Some extant =>
      if res_bool extant then
        name ← getattr listener "name";
        sp ← getattr listener "socket_protocol"; sp ← py_lower sp;
        addr ← getattr listener "bind_address";
        port ← getattr listener "port";
        location ← getattr extant "location";
        Ok (mkListeners (ls_map ls) (ls_errors ls ++
          ["Duplicate listener " +:+ py_text name +:+ " on " +:+ sp +:+ "://" +:+ py_text addr +:+ ":" +:+
           py_text port +:+ "; keeping definition from " +:+ py_text location]))
      else Ok (mkListeners (dset key listener (ls_map ls)) (ls_errors ls))
  | None => Ok (mkListeners (dset key listener (ls_map ls)) (ls_errors ls))
  end.

(** One configured Listener of [ListenerFactory.load_all]. *)
Definition load_listener (ambassador_namespace bind_address : string) (ls : listeners) (config : dict pyval)
    : res listeners :=
  '(a, kwargs) ← split_args "IRListener" "getambassador.io/v3alpha1" config;
  '(l, es) ← IRListener_init ambassador_namespace bind_address a
               (dget_default "insecure_only" (PBool false) kwargs) (ddel "insecure_only" kwargs);
  let ls := mkListeners (ls_map ls) (ls_errors ls ++ es) in
  if py_bool (pget "_active" l) then
    l ← referenced_by l config;
    l ← sourced_by l config;
    _ ← listener_str l;
    save_listener l ls
  else
    _ ← listener_str l;
    Ok ls.

Definition listeners_load_all (ambassador_namespace bind_address : string) (configs : list (dict pyval))
    (ls : listeners) : res listeners :=
  fold_res (load_listener ambassador_namespace bind_address) configs ls.

(** The marking of HTTP/3 companions, one Listener. *)
Definition mark_http3 (ls : dict (dict pyval)) (udp : dict pyval) : res (dict (dict pyval)) :=
  sp ← getattr udp "socket_protocol";
  if py_eqb sp (PStr "UDP") then
    addr ← getattr udp "bind_address";
    port ← getattr udp "port";
    let key := "tcp-" +:+ py_text addr +:+ "-" +:+ py_text port in
    match dget key ls with
    | Some tcp =>
        stack ← getattr tcp "protocolStack";
        _ ← vmem "HTTP" stack;
        Ok (dset key (dset "http3_enabled" (PBool true) tcp) ls)
    | None => Ok ls
    end
  else Ok ls.

Definition mark_http3_all (ls : dict (dict pyval)) : res (dict (dict pyval)) := fold_res mark_http3 (dvalues ls) ls.

(** ["%d" % v] *)
Definition percent_d (v : pyval) : res string := z ← as_int v; Ok (str_of_int z).

(** One group of [ListenerFactory.finalize]. *)
Definition finalize_listener (ambassador_namespace bind_address : string) (ls : listeners) (g : group_obj)
    : res listeners :=
  match go_class g with
  | HTTPGroup => Ok ls
  | TCPGroup =>
      key ← group_bind_to bind_address g;
      if dmem key (ls_map ls) then Ok ls
      else
        let protocol := if py_bool (pget "host" (go_self g)) then "TLS" else "TCP" in
        let addr := py_or (pget "address" (go_self g)) (PStr bind_address) in
        port ← getattr (go_self g) "port";
        _ ← percent_d port;
        '(l, es) ← IRListener_init ambassador_namespace bind_address
           (mkRA "-internal-" ("listener-" +:+ py_text addr +:+ "-" +:+ py_text port) "-internal-" PNone "IRListener"
              "getambassador.io/v3alpha1")
           (PBool false)
           [("bind_address", addr); ("port", port); ("protocol", PStr protocol); ("securityModel", PStr "SECURE");
            ("hostBinding", PDict [("namespace", PDict [("from", PStr "SELF")])])];
        save_listener l (mkListeners (ls_map ls) (ls_errors ls ++ es))
  end.

(** [ListenerFactory.finalize] *)
Definition listeners_finalize {C} `{!CacheOps C ref} (ambassador_namespace bind_address : string) (s : ir_state C)
    (ls : listeners) : res listeners :=
  gs ← ordered_groups s;
  fold_res (finalize_listener ambassador_namespace bind_address) gs ls.

(** ** Lemmas *)

(** A state that differs from another only in some attributes. *)
Definition frame (ks : list string) (s s' : setup_state) : Prop :=
  (dict_ok (su_self s) → dict_ok (su_self s')) ∧
  ∀ k, k ∉ ks → dget k (su_self s') = dget k (su_self s).

Lemma frame_refl ks s : frame ks s s.
Proof. by split. Qed.

Lemma frame_trans ks1 ks2 s1 s2 s3 : frame ks1 s1 s2 → frame ks2 s2 s3 → frame (ks1 ++ ks2) s1 s3.
Proof. intros [? H1] [? H2]. split; [auto|]. intros k Hk. rewrite H2, H1; [done|set_solver..]. Qed.

Lemma frame_sub ks ks' s s' : ks ⊆ ks' → frame ks s s' → frame ks' s s'.
Proof. intros Hs [H1 H2]. split; [done|]. intros k Hk. apply H2. set_solver. Qed.

Lemma frame_set k v ks s s' : k ∈ ks → frame ks s s' → frame ks s (su_set k v s').
Proof.
  intros Hk [H1 H2]. split; simpl; [by auto using dict_ok_dset|].
  intros k' Hk'. rewrite dget_dset_ne by (by intros ->). auto.
Qed.

Lemma frame_post e ks s s' : "_errored" ∈ ks → frame ks s s' → frame ks s (su_post e s').
Proof. intros Hk Hf. exact (frame_set "_errored" (PBool true) ks s (mkSetup (su_self s') [] []) Hk Hf). Qed.

#[local] Hint Resolve frame_refl frame_set frame_post : emissary.
(** Lookups through updates of named attributes. *)
Ltac dlook := repeat first [rewrite dget_dset_eq | rewrite dget_dset_ne by discriminate].
Ltac in_list := rewrite ?elem_of_cons; tauto.
Ltac solve_frame := repeat first [apply frame_refl | apply frame_set; [in_list|] | apply frame_post; [in_list|]].

Lemma and_then_true r k s :
  and_then r k = Ok (true, s) → ∃ s0, r = Ok (true, s0) ∧ k s0 = Ok (true, s).
Proof. unfold and_then. intros H. bind_step H as [[] s0] Hr; [by exists s0|done]. Qed.

Lemma pget_true_dget k d : py_bool (pget k d) = true → dget k d = Some (pget k d).
Proof. unfold pget, dget_default. by destruct (dget k d). Qed.

Lemma choose_stack_true s s' :
  choose_stack s = Ok (true, s') →
  frame ["protocol"; "protocolStack"; "_errored"] s s' ∧
  ∃ stack, dget "protocolStack" (su_self s') = Some stack ∧ py_bool stack = true.
Proof.
  unfold choose_stack. destruct (py_bool (pget "protocolStack" (su_self s))) eqn:Hp.
  - pose proof (pget_true_dget _ _ Hp) as Hd.
    destruct (py_bool (pget "protocol" (su_self s))); intros [= <-]; (split; [solve_frame|]);
      eexists; (split; [|exact Hp]); simpl; by rewrite ?dget_dset_ne.
  - destruct (negb _); [done|]. intros H. bind_step H as [] Hu.
    destruct (pget "protocol" (su_self s)) as [| | |p| |]; try done.
    destruct (dget p ProtocolStacks) as [st|] eqn:Hst; [|done]. injection H as <-.
    split; [solve_frame|]. eexists. simpl. split; [apply dget_dset_eq|].
    apply dget_elem_of in Hst. unfold ProtocolStacks in Hst.
    repeat (apply elem_of_cons in Hst as [[= -> ->]|Hst]; [done|]). by apply elem_of_nil in Hst.
Qed.

(** What the protocol stack makes of a Listener. *)
Definition socket_ok (l : dict pyval) : Prop :=
  ∃ stack sp, dget "protocolStack" l = Some stack ∧ last_item stack = Ok (PStr sp) ∧
    dget "socket_protocol" l = Some (PStr sp) ∧
    ((sp = "TCP" ∧ dget "http3_enabled" l = Some (PBool false)) ∨
     (sp = "UDP" ∧ vmem "HTTP" stack = Ok true ∧ dget "http3_enabled" l = Some (PBool true))).

Lemma choose_socket_true s s' :
  choose_socket s = Ok (true, s') →
  frame ["socket_protocol"; "http3_enabled"; "_errored"] s s' ∧ socket_ok (su_self s').
Proof.
  unfold choose_socket. intros H. bind_step H as stack Hs. bind_step H as name Hn. bind_step H as sp Hl.
  bind_step H as [] Hu. apply res_of_option_Ok in Hs.
  destruct (in_strs sp ["TCP"; "UDP"]) eqn:Hi; [|done]. simpl in H.
  destruct sp as [| | |sp| |]; try done. simpl in Hi.
  apply bool_decide_eq_true in Hi. rewrite !elem_of_cons, elem_of_nil in Hi.
  destruct Hi as [->|[->|[]]]; simpl in H.
  - injection H as <-. split; [solve_frame|]. exists stack, "TCP". simpl.
    dlook. auto 10.
  - bind_step H as http Hh. destruct http; [|done]. injection H as <-. split; [solve_frame|].
    exists stack, "UDP". simpl. dlook. auto 10.
Qed.

Lemma choose_stats_true security s s' :
  choose_stats security s = Ok (true, s') →
  frame ["statsPrefix"] s s' ∧ py_bool security = true ∧ py_bool (pget "statsPrefix" (su_self s')) = true.
Proof.
  unfold choose_stats. destruct (py_bool security); [|done]. simpl.
  destruct (py_bool (dget_default _ _ _)) eqn:Hp.
  - intros [= <-]. split; [solve_frame|]. split; [done|].
    unfold pget, dget_default in *. by destruct (dget "statsPrefix" (su_self s)).
  - intros H. bind_step H as stack Hs. bind_step H as tls Ht. bind_step H as http Hh. bind_step H as port Hpt.
    bind_step H as sp Hsp. bind_step H as spl Hl. injection H as <-. split; [solve_frame|]. split; [done|].
    unfold pget, dget_default. simpl. dlook. by destruct http, tls.
Qed.

(** The namespace and the labels of the Hosts a Listener takes. *)
Definition binding_ok (l : dict pyval) : Prop :=
  dget "hostBinding" l = None ∧
  (dget "namespace_literal" l = Some (PStr "*") ∨ dget "namespace_literal" l = dget "namespace" l) ∧
  (dget "host_selector" l = Some (PDict []) ∨
   ∃ v, dget "host_selector" l = Some v ∧ vmem "matchLabels" v = Ok true).

Lemma bind_namespace_true v s s' :
  bind_namespace v s = Ok (true, s') → dget "namespace_literal" (su_self s) = dget "namespace" (su_self s) →
  frame ["namespace_literal"; "_errored"] s s' ∧
  (dget "namespace_literal" (su_self s') = Some (PStr "*") ∨
   dget "namespace_literal" (su_self s') = dget "namespace" (su_self s')).
Proof.
  unfold bind_namespace. intros H Hd. destruct (py_bool v); [|injection H as <-; split; [solve_frame|by auto]].
  bind_step H as nsfrom Hf. destruct (negb (py_bool nsfrom)); [done|]. bind_step H as f Hl.
  case_bool as H1; [|case_bool as H2; [|case_bool as H3]].
  - injection H as <-. split; [solve_frame|]. simpl. dlook. auto.
  - bind_step H as ns Hn. apply res_of_option_Ok in Hn. injection H as <-. split; [solve_frame|]. simpl. dlook. auto.
  - injection H as <-. split; [solve_frame|]. simpl. dlook. auto.
  - injection H as <-. split; [solve_frame|]. auto.
Qed.

Lemma choose_binding_true s s' :
  choose_binding s = Ok (true, s') → dict_ok (su_self s) →
  dget "namespace_literal" (su_self s) = dget "namespace" (su_self s) →
  dget "host_selector" (su_self s) = Some (PDict []) →
  frame ["hostBinding"; "namespace_literal"; "host_selector"; "_errored"] s s' ∧ binding_ok (su_self s').
Proof.
  unfold choose_binding. intros H Hok Hns Hsel. destruct (negb (py_bool (pget _ _))); [done|].
  bind_step H as hn Hhn. bind_step H as hs Hhs. destruct (negb (py_bool hn) && negb (py_bool hs)); [done|].
  set (s0 := mkSetup (ddel "hostBinding" (su_self s)) (su_errors s) (su_notices s)) in H.
  assert (H0 : frame ["hostBinding"] s s0).
  { split; simpl; [apply dict_ok_ddel|]. intros k Hk. apply dget_ddel_ne. set_solver. }
  apply and_then_true in H as (s1 & H1 & H2).
  apply bind_namespace_true in H1 as [F1 Hl]; [|simpl; by rewrite !dget_ddel_ne].
  assert (F2 : frame ["host_selector"] s1 s' ∧ (dget "host_selector" (su_self s') = dget "host_selector" (su_self s1) ∨
    ∃ v, dget "host_selector" (su_self s') = Some v ∧ vmem "matchLabels" v = Ok true)).
  { unfold bind_selector in H2. destruct (py_bool hs); [|injection H2 as <-; split; [solve_frame|by left]].
    bind_step H2 as found Hv. destruct found; [|done]. injection H2 as <-. split; [solve_frame|].
    right. exists hs. simpl. by dlook. }
  destruct F2 as [F2 Hs2]. split.
  { eapply frame_sub; [|apply (frame_trans _ _ _ _ _ (frame_trans _ _ _ _ _ H0 F1) F2)]. set_solver. }
  destruct F1 as [_ F1], F2 as [_ F2]. split_and!.
  - rewrite F2, F1 by set_solver. simpl. by apply dget_ddel_eq.
  - rewrite !(F2 "namespace_literal"), !(F2 "namespace") by set_solver. done.
  - destruct Hs2 as [Hs2|]; [left|by right]. rewrite Hs2, F1 by set_solver. simpl. by rewrite dget_ddel_ne.
Qed.

(** A Listener that Envoy can be configured with. *)
Definition listener_wf (l : dict pyval) : Prop :=
  socket_ok l ∧ binding_ok l ∧ py_bool (pget "securityModel" l) = true ∧ py_bool (pget "statsPrefix" l) = true ∧
  py_bool (pget "bind_address" l) = true ∧ is_Some (dget "port" l).

Lemma pget_frame ks k s s' : frame ks s s' → k ∉ ks → pget k (su_self s') = pget k (su_self s).
Proof. intros [_ H] Hk. unfold pget, dget_default. by rewrite H. Qed.

Lemma socket_ok_frame ks s s' :
  frame ks s s' → "protocolStack" ∉ ks → "socket_protocol" ∉ ks → "http3_enabled" ∉ ks →
  socket_ok (su_self s) → socket_ok (su_self s').
Proof. intros [_ H] ???. unfold socket_ok. by rewrite !H. Qed.

Lemma setup_true bind_address s s' :
  dict_ok (su_self s) → str_bool bind_address = true →
  IRListener_setup bind_address s = Ok (true, s') → listener_wf (su_self s').
Proof.
  unfold IRListener_setup. intros Hok Hb H. bind_step H as ns Hns. apply res_of_option_Ok in Hns.
  match type of H with context [if py_bool _ then ?a else ?b] =>
    set (s0 := a) in H; set (s1 := if py_bool (pget "bind_address" (su_self s0)) then s0
      else su_set "bind_address" (PStr bind_address) s0) in H end.
  bind_step H as port Hport. apply res_of_option_Ok in Hport.
  assert (H1 : dict_ok (su_self s1) ∧ py_bool (pget "bind_address" (su_self s1)) = true ∧
    dget "namespace_literal" (su_self s1) = dget "namespace" (su_self s1) ∧
    dget "host_selector" (su_self s1) = Some (PDict [])).
  { unfold s1. destruct (py_bool (pget "bind_address" (su_self s0))) eqn:Hp;
      (split; [repeat apply dict_ok_dset; done|]); simpl; dlook; rewrite Hns; split; try done.
    unfold pget, dget_default. by rewrite dget_dset_eq. }
  destruct H1 as (Hok1 & Hb1 & Hn1 & Hs1). clearbody s1. clear Hns.
  apply and_then_true in H as (s4 & H & H4). apply and_then_true in H as (s3 & H & H3).
  apply and_then_true in H as (s2 & H2 & Hk).
  apply choose_stack_true in H2 as [F2 _]. apply choose_socket_true in Hk as [F3 Hsock].
  apply choose_stats_true in H3 as (F4 & Hsec & Hst).
  pose proof (frame_trans _ _ _ _ _ (frame_trans _ _ _ _ _ F2 F3) F4) as F.
  assert (Hd : ∀ k, k ∉ (["protocol"; "protocolStack"; "_errored"] ++ ["socket_protocol"; "http3_enabled"; "_errored"])
    ++ ["statsPrefix"] → dget k (su_self s4) = dget k (su_self s1)) by apply F.
  apply choose_binding_true in H4 as [F5 Hbind];
    [|by apply F|by rewrite !Hd by set_solver|by rewrite Hd by set_solver].
  unfold listener_wf. split_and!; [|done|..].
  - eapply (socket_ok_frame _ s4); [exact F5|set_solver..|].
    eapply (socket_ok_frame _ s3); [exact F4|set_solver..|done].
  - rewrite (pget_frame _ _ _ _ F5), (pget_frame _ _ _ _ F) by set_solver. done.
  - rewrite (pget_frame _ _ _ _ F5) by set_solver. done.
  - rewrite (pget_frame _ _ _ _ F5), (pget_frame _ _ _ _ F) by set_solver. done.
  - destruct F5 as [_ F5]. rewrite F5, Hd by set_solver. eauto.
Qed.

Definition wf_keys : list string :=
  ["protocolStack"; "socket_protocol"; "http3_enabled"; "hostBinding"; "namespace_literal"; "namespace";
   "host_selector"; "securityModel"; "statsPrefix"; "bind_address"; "port"].

Lemma listener_wf_dset k v l : k ∉ wf_keys → listener_wf l → listener_wf (dset k v l).
Proof.
  unfold wf_keys. rewrite !elem_of_cons, elem_of_nil. intros Hk.
  unfold listener_wf, socket_ok, binding_ok, pget, dget_default.
  by rewrite !dget_dset_ne by (intros <-; tauto).
Qed.

Lemma listener_init_wf ns ba a io kwargs l es :
  str_bool ba = true → IRListener_init ns ba a io kwargs = Ok (l, es) →
  py_bool (pget "_active" l) = true → listener_wf l.
Proof.
  unfold IRListener_init. intros Hb H Hact. bind_step H as self Hself. bind_step H as [active s] Hs.
  injection H as <- <-. simpl in *. unfold pget, dget_default in Hact. rewrite dget_dset_eq in Hact. simpl in Hact.
  subst active. apply listener_wf_dset; [unfold wf_keys; set_solver|].
  apply setup_true in Hs; [done| |done]. unfold IRResource_init in Hself. bind_step Hself as r Hr.
  injection Hself as <-. apply dict_ok_dupdate. unfold dict_ok. simpl. apply NoDup_singleton.
Qed.

Lemma referenced_by_wf l c l' : referenced_by l c = Ok l' → listener_wf l → listener_wf l'.
Proof.
  unfold referenced_by. intros H Hwf. bind_step H as r Hr. bind_step H as loc Hl.
  destruct r, loc; try done. injection H as <-. apply listener_wf_dset; [unfold wf_keys; set_solver|done].
Qed.

Lemma sourced_by_wf l c l' : sourced_by l c = Ok l' → listener_wf l → listener_wf l'.
Proof.
  unfold sourced_by. intros H Hwf. bind_step H as r Hr. bind_step H as loc Hl. injection H as <-.
  repeat (apply listener_wf_dset; [unfold wf_keys; set_solver|]). done.
Qed.

(** The Listeners the IR holds: well-formed, and filed under their binding. *)
Definition listeners_ok (m : dict (dict pyval)) : Prop :=
  dict_ok m ∧ ∀ k l, dget k m = Some l → listener_wf l ∧ listener_bind_to l = Ok k.

Lemma save_listener_ok l ls ls' :
  listener_wf l → listeners_ok (ls_map ls) → save_listener l ls = Ok ls' → listeners_ok (ls_map ls').
Proof.
  intros Hwf [Hd Hok] H. unfold save_listener in H. bind_step H as key Hk.
  assert (Hins : listeners_ok (dset key l (ls_map ls))).
  { split; [by apply dict_ok_dset|]. intros k l'. rewrite dget_dset.
    case_bool as E; [by intros [= <-]; subst|apply Hok]. }
  destruct (dget key (ls_map ls)) as [x|]; [destruct (res_bool x)|]; res_inv; simpl; try done.
Qed.

Lemma load_listener_ok ns ba ls c ls' :
  str_bool ba = true → listeners_ok (ls_map ls) → load_listener ns ba ls c = Ok ls' → listeners_ok (ls_map ls').
Proof.
  intros Hb Hok H. unfold load_listener in H. bind_step H as [a kwargs] Ha. bind_step H as [l es] Hl.
  destruct (py_bool (pget "_active" l)) eqn:Hact.
  - bind_step H as l1 H1. bind_step H as l2 H2. bind_step H as t Ht.
    refine (save_listener_ok l2 (mkListeners (ls_map ls) (ls_errors ls ++ es)) ls' _ Hok H).
    eauto using listener_init_wf, referenced_by_wf, sourced_by_wf.
  - bind_step H as t Ht. by injection H as <-.
Qed.

Lemma load_all_ok ns ba cs : ∀ ls ls',
  str_bool ba = true → listeners_ok (ls_map ls) → listeners_load_all ns ba cs ls = Ok ls' → listeners_ok (ls_map ls').
Proof.
  induction cs as [|c cs IH]; intros ls ls' Hb Hok H; [by injection H as <-|].
  cbn [listeners_load_all fold_res] in H. bind_step H as ls1 H1. eauto using load_listener_ok.
Qed.

(** The binding a Listener wants an HTTP/3 companion on. *)
Definition udp_target (u : dict pyval) : option string :=
  match dget "socket_protocol" u, dget "bind_address" u, dget "port" u with
  | Some sp, Some a, Some p => if py_eqb sp (PStr "UDP") then Some ("tcp-" +:+ py_text a +:+ "-" +:+ py_text p) else None
  | _, _, _ => None
  end.

Definition targets (k : string) (u : dict pyval) : bool := bool_decide (udp_target u = Some k).

Lemma wf_bound l : listener_wf l → ∃ sp a p, dget "socket_protocol" l = Some (PStr sp) ∧
  (sp = "TCP" ∨ sp = "UDP") ∧ dget "bind_address" l = Some a ∧ dget "port" l = Some p.
Proof.
  intros ((stack & sp & _ & _ & Hsp & Hc) & _ & _ & _ & Ha & [p Hp]).
  exists sp, (pget "bind_address" l), p. split; [done|]. split; [naive_solver|]. split; [|done].
  by apply pget_true_dget.
Qed.

(** The protocol stack can be searched. *)
Definition stack_ok (l : dict pyval) : Prop := ∃ stack b, dget "protocolStack" l = Some stack ∧ vmem "HTTP" stack = Ok b.

Lemma wf_stack l : listener_wf l → stack_ok l.
Proof.
  intros ((stack & sp & Hs & Hl & _) & _). destruct stack; try done; (eexists; eexists; split; [exact Hs|reflexivity]).
Qed.

Lemma dset_twice {V} k (v w : V) (d : dict V) : dset k v (dset k w d) = dset k v d.
Proof.
  induction d as [|[k' x] d IH]; simpl; [by rewrite bool_decide_true|].
  case_bool as H; simpl; [by rewrite bool_decide_true|]. rewrite bool_decide_false by done. by rewrite IH.
Qed.

Lemma mark_step m u :
  listener_wf u → (∀ k l, dget k m = Some l → stack_ok l) →
  ∃ m', mark_http3 m u = Ok m' ∧
    ∀ k, dget k m' = (λ l, if targets k u then dset "http3_enabled" (PBool true) l else l) <$> dget k m.
Proof.
  intros Hu Hst. destruct (wf_bound u Hu) as (sp & a & p & Hsp & Hc & Ha & Hp).
  unfold mark_http3, targets, udp_target, getattr. rewrite Hsp, Ha, Hp. simpl.
  assert (Hid : ∀ k, dget k m = (λ l : dict pyval, l) <$> dget k m) by (intros k; by destruct (dget k m)).
  destruct Hc as [-> | ->]; simpl; [by eexists|].
  destruct (dget _ m) as [tcp|] eqn:Ht.
  - destruct (Hst _ _ Ht) as (stack & b & Hs & Hv). rewrite Hs. simpl. rewrite Hv. simpl.
    eexists. split; [done|]. intros k. rewrite dget_dset.
    case_bool as E; [subst k; rewrite Ht; simpl; by rewrite bool_decide_true|].
    rewrite bool_decide_false by (intros [= E']; by apply E). apply Hid.
  - eexists. split; [done|]. intros k. case_bool as E; [|apply Hid]. injection E as <-. by rewrite Ht.
Qed.

Lemma mark_all us : ∀ m,
  Forall listener_wf us → (∀ k l, dget k m = Some l → stack_ok l) →
  ∃ m', fold_res mark_http3 us m = Ok m' ∧
    ∀ k, dget k m' = (λ l, if existsb (targets k) us then dset "http3_enabled" (PBool true) l else l) <$> dget k m.
Proof.
  induction us as [|u us IH]; intros m Hus Hst; simpl.
  { eexists. split; [done|]. intros k. by destruct (dget k m). }
  apply Forall_cons in Hus as [Hu Hus]. destruct (mark_step m u Hu Hst) as (m1 & -> & H1). simpl.
  destruct (IH m1 Hus) as (m2 & -> & H2).
  { intros k l. rewrite H1. destruct (dget k m) as [l0|] eqn:E; [|done]. simpl. intros [= <-].
    destruct (Hst _ _ E) as (stack & b & Hs & Hv). destruct (targets k u); [|by exists stack, b].
    exists stack, b. split; [by dlook|done]. }
  eexists. split; [done|]. intros k. rewrite H2, H1. destruct (dget k m) as [l|]; [|done]. simpl. f_equal.
  destruct (targets k u), (existsb (targets k) us); simpl; by rewrite ?dset_twice.
Qed.

Lemma bind_to_tcp l k :
  listener_wf l → listener_bind_to l = Ok k →
  (dget "socket_protocol" l = Some (PStr "TCP") ∧ pget "http3_enabled" l = PBool false ∧
   udp_target l = None ∧ ∃ r, k = "tcp-" +:+ r) ∨
  (dget "socket_protocol" l = Some (PStr "UDP") ∧ ∃ r, k = "udp-" +:+ r ∧ udp_target l = Some ("tcp-" +:+ r)).
Proof.
  intros Hwf. destruct (wf_bound l Hwf) as (sp & a & p & Hsp & Hc & Ha & Hp).
  destruct Hwf as ((stack & sp' & _ & _ & Hsp' & H3) & _).
  unfold listener_bind_to, udp_target, getattr. rewrite Hsp, Ha, Hp. simpl. intros [= <-].
  assert (sp' = sp) as -> by congruence.
  destruct Hc as [-> | ->]; [left|right].
  - split; [done|]. split; [|split; [done|]].
    + destruct H3 as [[_ H3]|[? _]]; [|done]. unfold pget, dget_default. by rewrite H3.
    + by exists (py_text a +:+ "-" +:+ py_text p).
  - split; [done|]. by exists (py_text a +:+ "-" +:+ py_text p).
Qed.

(** The target of a UDP Listener, by its key. *)
Lemma targets_udp m r :
  listeners_ok m → existsb (targets ("tcp-" +:+ r)) (dvalues m) = true ↔ is_Some (dget ("udp-" +:+ r) m).
Proof.
  intros [Hd Hok]. rewrite existsb_elem_of. unfold dvalues. split.
  - intros (u & ([k u'] & -> & Hin)%list_elem_of_fmap & Ht). apply bool_decide_eq_true in Ht. cbn [snd] in Ht.
    apply elem_of_dget in Hin; [|done]. destruct (Hok _ _ Hin) as [Hwf Hb].
    destruct (bind_to_tcp _ _ Hwf Hb) as [(_ & _ & ? & _)|(_ & r' & -> & Ht')]; [congruence|].
    rewrite Ht' in Ht. apply (inj Some), (inj (String.append "tcp-")) in Ht as ->. eauto.
  - intros [u Hu]. destruct (Hok _ _ Hu) as [Hwf Hb]. exists u. split.
    + apply list_elem_of_fmap. exists ("udp-" +:+ r, u). split; [done|]. by apply dget_elem_of.
    + unfold targets. destruct (bind_to_tcp _ _ Hwf Hb) as [(_ & _ & _ & r' & ?)|(_ & r' & E & ->)]; [done|].
      apply (inj (String.append "udp-")) in E as ->. by apply bool_decide_eq_true.
Qed.

(** ** Properties *)

(** C31. A Listener that is active after construction is fit for Envoy: its
    [socket_protocol] is the last element of its protocol stack, TCP or UDP;
    a UDP Listener speaks HTTP and has HTTP/3 enabled, a TCP one has not; it
    has a security model, a statistics prefix, an address and a port; its
    [hostBinding] is gone, replaced by a namespace that is its own or any and a
    selector that is empty or has [matchLabels]. *)
Theorem listener_active_wf ambassador_namespace bind_address a insecure_only kwargs l es :
  str_bool bind_address = true →
  IRListener_init ambassador_namespace bind_address a insecure_only kwargs = Ok (l, es) →
  py_bool (pget "_active" l) = true → listener_wf l.
Proof. apply listener_init_wf. Qed.

Definition demo_args (name : string) : res_args :=
  mkRA name name (name +:+ ".default.1") PNone "IRListener" "getambassador.io/v3alpha1".
Definition self_binding : pyval := PDict [("namespace", PDict [("from", PStr "SELF")])].

Lemma listener_active_wf_witness :
  ∃ l, IRListener_init "default" "0.0.0.0" (demo_args "quic") (PBool false)
    [("port", PInt 8443); ("protocolStack", PList [PStr "TLS"; PStr "HTTP"; PStr "UDP"]);
     ("securityModel", PStr "XFP"); ("hostBinding", self_binding)] = Ok (l, []) ∧
    pget "http3_enabled" l = PBool true ∧ listener_wf l.
Proof.
  eexists. split; [vm_compute; reflexivity|]. split; [reflexivity|].
  apply (listener_active_wf "default" "0.0.0.0" (demo_args "quic") (PBool false)
    [("port", PInt 8443); ("protocolStack", PList [PStr "TLS"; PStr "HTTP"; PStr "UDP"]);
     ("securityModel", PStr "XFP"); ("hostBinding", self_binding)] _ []); [reflexivity|vm_compute; reflexivity|reflexivity].
Defined.

(** HTTP/3 companions: after all Listeners are loaded, the marking returns,
    keeps them under their bindings, and a TCP Listener has HTTP/3 enabled
    exactly when a UDP Listener is bound to the same address and port. *)
Theorem http3_companions ambassador_namespace bind_address configs ls :
  str_bool bind_address = true →
  listeners_load_all ambassador_namespace bind_address configs (mkListeners [] []) = Ok ls →
  ∃ m, mark_http3_all (ls_map ls) = Ok m ∧
    (∀ k, is_Some (dget k m) ↔ is_Some (dget k (ls_map ls))) ∧
    (∀ r l, dget ("tcp-" +:+ r) m = Some l →
      (pget "http3_enabled" l = PBool true ↔ is_Some (dget ("udp-" +:+ r) (ls_map ls)))).
Proof.
  intros Hb Hl. apply load_all_ok in Hl as Hok; [|done|split; [constructor|done]].
  destruct (mark_all (dvalues (ls_map ls)) (ls_map ls)) as (m & Hm & Hget).
  { apply Forall_forall. intros u ([k u'] & -> & Hin)%list_elem_of_fmap. destruct Hok as [Hd Hok].
    by apply (Hok k), elem_of_dget. }
  { intros k l Hk. by apply wf_stack, (proj2 Hok k). }
  exists m. split; [exact Hm|]. split; [intros k; rewrite Hget; by rewrite fmap_is_Some|].
  intros r l. rewrite Hget, <- (targets_udp _ r Hok).
  destruct (dget ("tcp-" +:+ r) (ls_map ls)) as [l0|] eqn:E; [|done]. simpl. intros [= <-].
  destruct (proj2 Hok _ _ E) as [Hwf Hbt].
  destruct (bind_to_tcp _ _ Hwf Hbt) as [(_ & Hh & _)|(_ & r' & ? & _)]; [|done].
  destruct (existsb _ _); [|by rewrite Hh]. unfold pget, dget_default. by rewrite dget_dset_eq.
Qed.

Definition demo_config (name : string) (stack : list string) : dict pyval :=
  [("rkey", PStr name); ("name", PStr name); ("location", PStr name); ("kind", PStr "Listener");
   ("port", PInt 8443); ("protocolStack", PList (PStr <$> stack)); ("securityModel", PStr "XFP");
   ("hostBinding", self_binding)].

Lemma http3_companions_witness :
  ∃ ls m, listeners_load_all "default" "0.0.0.0" [demo_config "t" ["TLS"; "HTTP"; "TCP"]; demo_config "u" ["TLS"; "HTTP"; "UDP"]]
      (mkListeners [] []) = Ok ls ∧ mark_http3_all (ls_map ls) = Ok m ∧
    (∀ k, is_Some (dget k m) ↔ is_Some (dget k (ls_map ls))) ∧ dkeys m = ["tcp-0.0.0.0-8443"; "udp-0.0.0.0-8443"].
Proof.
  eexists.
  destruct (http3_companions "default" "0.0.0.0"
    [demo_config "t" ["TLS"; "HTTP"; "TCP"]; demo_config "u" ["TLS"; "HTTP"; "UDP"]] _ eq_refl
    ltac:(vm_compute; reflexivity)) as (m & Hm & Hk & _).
  exists m. split; [vm_compute; reflexivity|]. split; [exact Hm|]. split; [exact Hk|].
  vm_compute in Hm. injection Hm as <-. reflexivity.
Defined.

(** A raw TCP Listener is marked too, though it answers no HTTP request that
    could carry the announcement. *)
Lemma http3_marks_raw_tcp :
  ∃ ls m l, listeners_load_all "default" "0.0.0.0" [demo_config "t" ["TLS"; "TCP"]; demo_config "u" ["TLS"; "HTTP"; "UDP"]]
      (mkListeners [] []) = Ok ls ∧ mark_http3_all (ls_map ls) = Ok m ∧
    dget "tcp-0.0.0.0-8443" m = Some l ∧ pget "protocolStack" l = PList [PStr "TLS"; PStr "TCP"] ∧
    pget "http3_enabled" l = PBool true.
Proof.
  eexists. eexists. eexists. split; [vm_compute; reflexivity|]. split; [vm_compute; reflexivity|].
  split; [reflexivity|]. split; reflexivity.
Qed.

(** A Listener in use with a posted error gives way to a duplicate, and no
    error says so: [save_listener] tests the truth of the Listener it finds,
    which is false after an error. *)
Lemma errored_listener_replaced :
  let both := dset "protocol" (PStr "HTTP") (demo_config "first" ["HTTP"; "TCP"]) in
  ∃ ls l, listeners_load_all "default" "0.0.0.0" [both; demo_config "second" ["TLS"; "TCP"]] (mkListeners [] []) = Ok ls ∧
    dget "tcp-0.0.0.0-8443" (ls_map ls) = Some l ∧ pget "name" l = PStr "second" ∧
    ls_errors ls = ["protocol and protocolStack may not both be specified; using protocolStack and ignoring protocol"].
Proof. eexists. eexists. split; [vm_compute; reflexivity|]. split; [reflexivity|]. split; reflexivity. Qed.

(** ** Listeners for TCP groups *)

(** A TCP group as a TCPMapping makes it: a numeric port, a textual address
    where there is one. *)
Definition tcp_group_ok (g : group_obj) : Prop :=
  go_class g = TCPGroup →
  (∃ n, dget "port" (go_self g) = Some (PInt n)) ∧
  (py_bool (pget "address" (go_self g)) = false ∨ ∃ a, pget "address" (go_self g) = PStr a).

(** The Listener made for a group, on the group's binding. *)
Lemma synthesized_listener ns ba addr port protocol :
  str_bool addr = true → protocol = "TLS" ∨ protocol = "TCP" →
  ∃ l, IRListener_init ns ba
      (mkRA "-internal-" ("listener-" +:+ addr +:+ "-" +:+ str_of_int port) "-internal-" PNone "IRListener"
         "getambassador.io/v3alpha1") (PBool false)
      [("bind_address", PStr addr); ("port", PInt port); ("protocol", PStr protocol); ("securityModel", PStr "SECURE");
       ("hostBinding", self_binding)] = Ok (l, []) ∧
    pget "_active" l = PBool true ∧ pget "protocol" l = PStr protocol ∧
    listener_bind_to l = Ok ("tcp-" +:+ addr +:+ "-" +:+ str_of_int port).
Proof.
  intros Ha Hp. destruct addr as [|c addr]; [done|].
  destruct Hp as [-> | ->]; (eexists; split; [cbv -[str_of_int String.append]; reflexivity|]);
    (split; [reflexivity|]; split; reflexivity).
Qed.

(** The Listeners of one state are kept in the other. *)
Definition extends (m m' : dict (dict pyval)) : Prop := ∀ k l, dget k m = Some l → dget k m' = Some l.

Lemma finalize_one ns ba ls g :
  str_bool ba = true → tcp_group_ok g →
  ∃ ls', finalize_listener ns ba ls g = Ok ls' ∧ ls_errors ls' = ls_errors ls ∧ extends (ls_map ls) (ls_map ls') ∧
    (go_class g = TCPGroup → ∃ k, group_bind_to ba g = Ok k ∧ dmem k (ls_map ls') = true).
Proof.
  intros Hb Hg. unfold finalize_listener. destruct (go_class g) eqn:Hc.
  { exists ls. split; [done|]. split; [done|]. split; [by intros ??|done]. }
  destruct (Hg Hc) as [[n Hn] Ha].
  assert (Haddr : ∃ a, py_or (pget "address" (go_self g)) (PStr ba) = PStr a ∧ str_bool a = true).
  { unfold py_or. destruct (py_bool (pget "address" (go_self g))) eqn:E; [|by exists ba].
    destruct Ha as [?|[a Ha]]; [done|]. exists a. rewrite Ha in E |- *. done. }
  destruct Haddr as (a & Ha' & Hta). unfold group_bind_to, getattr. rewrite Ha', Hn. simpl.
  set (key := "tcp-" +:+ a +:+ "-" +:+ str_of_int n).
  destruct (dmem key (ls_map ls)) eqn:Hk.
  { exists ls. split; [done|]. split; [done|]. split; [by intros ??|]. intros _. by exists key. }
  set (protocol := if py_bool (pget "host" (go_self g)) then "TLS" else "TCP").
  assert (Hp : protocol = "TLS" ∨ protocol = "TCP") by (unfold protocol; destruct (py_bool (pget "host" (go_self g))); [by left|by right]).
  destruct (synthesized_listener ns ba a n protocol Hta Hp) as (l & Hl & _ & _ & Hbt).
  unfold self_binding in Hl. unfold py_text. simpl repr_val. rewrite Hl. simpl. rewrite app_nil_r.
  unfold save_listener. rewrite Hbt. cbn [mbind res_bind]. fold key.
  apply dmem_false in Hk as Hk'. simpl. rewrite Hk'. eexists. split; [reflexivity|]. simpl. split; [done|]. split.
  - intros k l' Hl'. rewrite dget_dset_ne; [done|]. intros ->. congruence.
  - intros _. exists key. split; [done|]. rewrite dmem_dset. by rewrite bool_decide_true.
Qed.

Lemma extends_mem m m' k : extends m m' → dmem k m = true → dmem k m' = true.
Proof. intros He. unfold dmem. destruct (dget k m) as [l|] eqn:E; [|done]. by rewrite (He _ _ E). Qed.

Lemma finalize_fold ns ba gs : ∀ ls,
  str_bool ba = true → Forall tcp_group_ok gs →
  ∃ ls', fold_res (finalize_listener ns ba) gs ls = Ok ls' ∧ ls_errors ls' = ls_errors ls ∧
    extends (ls_map ls) (ls_map ls') ∧
    ∀ g, g ∈ gs → go_class g = TCPGroup → ∃ k, group_bind_to ba g = Ok k ∧ dmem k (ls_map ls') = true.
Proof.
  induction gs as [|g gs IH]; intros ls Hb Hgs; simpl.
  { exists ls. split; [done|]. split; [done|]. split; [by intros ??|]. intros g Hg. by apply elem_of_nil in Hg. }
  apply Forall_cons in Hgs as [Hg Hgs].
  destruct (finalize_one ns ba ls g Hb Hg) as (ls1 & -> & He1 & Hx1 & Hc1). simpl.
  destruct (IH ls1 Hb Hgs) as (ls2 & -> & He2 & Hx2 & Hc2).
  exists ls2. split; [done|]. split; [congruence|]. split; [intros k l Hl; eauto|].
  intros g' [->|Hin]%elem_of_cons Hcl; [|eauto].
  destruct (Hc1 Hcl) as (k & ? & ?). exists k. eauto using extends_mem.
Qed.

Lemma map_res_elem {A B} (f : A → res B) l ys y :
  map_res f l = Ok ys → y ∈ ys → ∃ x, x ∈ l ∧ f x = Ok y.
Proof.
  revert ys. induction l as [|x l IH]; simpl; intros ys H Hy.
  - injection H as <-. by apply elem_of_nil in Hy.
  - bind_step H as z Hz. bind_step H as zs Hzs. injection H as <-.
    apply elem_of_cons in Hy as [->|Hy]; [exists x; split; [left|done]|].
    destruct (IH _ Hzs Hy) as (x' & ? & ?). exists x'. split; [by right|done].
Qed.

Lemma map_res_elem_2 {A B} (f : A → res B) l ys x y :
  map_res f l = Ok ys → x ∈ l → f x = Ok y → y ∈ ys.
Proof.
  revert ys. induction l as [|x' l IH]; simpl; intros ys H Hx Hf; [by apply elem_of_nil in Hx|].
  bind_step H as z Hz. bind_step H as zs Hzs. injection H as <-.
  apply elem_of_cons in Hx as [->|Hx]; [rewrite Hf in Hz; injection Hz as ->; left|]. right. eauto.
Qed.

Lemma ordered_groups_perm {C} (s : ir_state C) gs :
  ordered_groups s = Ok gs →
  ∃ all, map_res (λ g : string * nat, deref (st_group_objs s) g.2) (st_groups s) = Ok all ∧ gs ≡ₚ all.
Proof.
  unfold ordered_groups. intros H. bind_step H as all Ha. bind_step H as ws Hw. injection H as <-.
  exists all. split; [done|]. rewrite <- Permutation_rev. apply py_sorted_perm.
Qed.

(** C32. Every TCP group gets a Listener: [ListenerFactory.finalize] always
    returns, keeps every Listener there is, posts no error, and leaves each TCP
    group of the IR with a Listener under the very binding the group computes
    for itself. *)
Theorem tcp_groups_have_listeners {C} `{!CacheOps C ref} ambassador_namespace bind_address (s : ir_state C) ls gs :
  str_bool bind_address = true → ordered_groups s = Ok gs → Forall tcp_group_ok (st_group_objs s) →
  ∃ ls', listeners_finalize ambassador_namespace bind_address s ls = Ok ls' ∧ ls_errors ls' = ls_errors ls ∧
    (∀ k l, dget k (ls_map ls) = Some l → dget k (ls_map ls') = Some l) ∧
    (∀ n i g, (n, i) ∈ st_groups s → st_group_objs s !! i = Some g → go_class g = TCPGroup →
      ∃ k, group_bind_to bind_address g = Ok k ∧ dmem k (ls_map ls') = true).
Proof.
  intros Hb Hg Hok. unfold listeners_finalize. rewrite Hg. cbn [mbind res_bind].
  apply ordered_groups_perm in Hg as (all & Ha & Hp).
  destruct (finalize_fold ambassador_namespace bind_address gs ls Hb) as (ls' & Hf & He & Hx & Hc).
  { rewrite Hp. apply Forall_forall. intros g Hin. destruct (map_res_elem _ _ _ _ Ha Hin) as ([n i] & _ & Hd).
    apply res_of_option_Ok, list_elem_of_lookup_2 in Hd. by eapply Forall_forall in Hok. }
  exists ls'. split; [exact Hf|]. split; [exact He|]. split; [exact Hx|].
  intros n i g Hin Hi Hcl. apply Hc; [|done]. rewrite Hp.
  apply (map_res_elem_2 _ _ _ (n, i) g Ha Hin). simpl. unfold deref. by rewrite Hi.
Qed.

Definition tcp_demo : ir_state NullCache :=
  mkIRState [] [mkGO TCPGroup [("group_weight", PList [PInt 0]); ("port", PInt 6379); ("host", PStr "redis")] [] [] None None []]
    [] [("g", 0)] [] NullCache_init [] [].

Lemma tcp_groups_have_listeners_witness :
  ∃ gs ls', ordered_groups tcp_demo = Ok gs ∧ listeners_finalize "default" "0.0.0.0" tcp_demo (mkListeners [] []) = Ok ls' ∧
    ∀ n i g, (n, i) ∈ st_groups tcp_demo → st_group_objs tcp_demo !! i = Some g → go_class g = TCPGroup →
      ∃ k, group_bind_to "0.0.0.0" g = Ok k ∧ dmem k (ls_map ls') = true.
Proof.
  eexists.
  destruct (tcp_groups_have_listeners "default" "0.0.0.0" tcp_demo (mkListeners [] []) _ eq_refl
    ltac:(vm_compute; reflexivity)) as (ls' & Hf & _ & _ & Hc).
  - apply Forall_singleton. intros _. split; [exists 6379%Z; reflexivity|left; reflexivity].
  - exists ls'. split; [vm_compute; reflexivity|]. split; [exact Hf|exact Hc].
Defined.
