(* ===== verification/LogService.v ===== *)
(** * Log services ([ir/irlogservice.py])

    A log service sends the access log to a cluster of its own. *)

From S2P Require Import Prelude PyStr PyVal Resource Cache ServiceName PyText BaseMapping HTTPMapping Cluster Group Listener.

(** A log service, with the location of its cluster. *)
Record IRLogService : Type := mkLogService {
  lg_self : dict pyval;
  lg_cluster : option nat
}.

Definition get_additional_headers (self : dict pyval) : res (list pyval) :=
  dc ← getattr self "driver_config";
  b ← vmem "additional_log_headers" dc;
  if (b : bool) then h ← vget "additional_log_headers" (PList []) dc; py_iter h else Ok [].

(** Every additional header is named. *)
Fixpoint headers_named (hs : list pyval) : res bool :=
  match hs with
  | [] => Ok true
  | h :: hs =>
      n ← vget "header_name" (PStr EmptyString) h;
      if py_eqb n (PStr EmptyString) then Ok false else headers_named hs
  end.

(** [setup], given the configuration *)
Definition IRLogService_setup (config : dict pyval) (s : setup_state) : setup_step :=
  let s := su_set "service" (pget "service" config) s in
  if negb (py_bool (pget "service" config)) then
    setup_fail "service must be present for a remote log service!" s
  else
    ns ← getattr (su_self s) "namespace";
    let s := su_set "namespace" (dget_default "namespace" ns config) s in
    let s := su_set "grpc" (dget_default "grpc" (PBool false) config) (su_set "cluster" PNone s) in
    let version := dget_default "protocol_version" (PStr "v2") config in
    let s := su_set "protocol_version" version s in
    if py_eqb version (PStr "v2") then
      setup_fail ("LogService: protocol_version " +:+ py_text version +:+ " is unsupported, protocol_version must be " +:+
        dquote +:+ "v3" +:+ dquote) s
    else
      let driver := pget "driver" config in
      let s := su_set "driver" driver s in
      let s := su_set "flush_interval_byte_size" (dget_default "flush_interval_byte_size" (PInt 16384) config) s in
      let s := su_set "flush_interval_time" (dget_default "flush_interval_time" (PInt 1) config) s in
      let dc := pget "driver_config" config in
      let s := su_set "driver_config" dc s in
      b ← vmem "additional_log_headers" dc;
      extra ← (if (b : bool) then vget "additional_log_headers" (PList []) dc else Ok (PList []));
      if negb (py_eqb driver (PStr "http")) && py_bool extra then
        setup_fail "additional_log_headers are not supported in tcp mode" s
      else
        hs ← get_additional_headers (su_self s);
        named ← headers_named hs;
        if (named : bool) then
          self ← sourced_by (su_self s) config;
          self ← referenced_by self config;
          Ok (true, mkSetup self (su_errors s) (su_notices s))
        else setup_fail "Please provide a header name for every additional log header!" s.

(** [get_common_config] *)
Definition get_common_config (cs : list IRCluster) (al : IRLogService) : res pyval :=
  ci ← res_of_option (AssertionError EmptyString) (lg_cluster al);
  c ← deref cs ci;
  if cl_active c && negb (cl_errored c) then
    version ← getattr (lg_self al) "protocol_version"; version ← as_str version;
    name ← getattr (lg_self al) "name";
    envoy_name ← getattr (cl_attrs c) "envoy_name";
    interval ← getattr (lg_self al) "flush_interval_time"; interval ← percent_d interval;
    size ← getattr (lg_self al) "flush_interval_byte_size";
    Ok (PDict
      [("transport_api_version", PStr (upper version));
       ("log_name", name);
       ("grpc_service", PDict [("envoy_grpc", PDict [("cluster_name", envoy_name)])]);
       ("buffer_flush_interval", PStr (interval +:+ "s"));
       ("buffer_size_bytes", size)])
  else Raise (AssertionError EmptyString).

(** ** The log services of the IR *)

(** [__init__], with the errors posted *)
Definition IRLogService_init (ambassador_namespace : string) (config : dict pyval) : res (dict pyval * list string) :=
  self ← IRResource_init ambassador_namespace
           (mkRA "ir.logservice" "logservice" "--internal--" PNone "ir.logservice" "ambassador/ir") [];
  '(active, s) ← IRLogService_setup config (mkSetup self [] []);
  Ok (dset "_active" (PBool active) (su_self s), su_errors s).

(** The services by name, and the errors posted. *)
Record log_services : Type := mkLogs {
  lgs_map : dict IRLogService;
  lgs_errors : list string
}.

(** One service of [IRLogServiceFactory.load_all] *)
Definition load_log_service (ambassador_namespace : string) (ls : log_services) (config : dict pyval) : res log_services :=
  '(srv, es) ← IRLogService_init ambassador_namespace config;
  name ← getattr srv "name"; name ← as_str name;
  let es := lgs_errors ls ++ es in
  let saved := if py_bool (pget "_active" srv) then dset name (mkLogService srv None) (lgs_map ls) else lgs_map ls in
  match dget name (lgs_map ls) with
  | Some extant =>
      if res_bool (lg_self extant) then
        location ← getattr (lg_self extant) "location";
        Ok (mkLogs (lgs_map ls)
              (es ++ ["Duplicate LogService " +:+ name +:+ "; keeping definition from " +:+ py_text location]))
      else Ok (mkLogs saved es)
  | None => Ok (mkLogs saved es)
  end.

Definition log_services_load_all (ambassador_namespace : string) (configs : list (dict pyval)) : res log_services :=
  fold_res (load_log_service ambassador_namespace) configs (mkLogs [] []).

(** [IRCluster(...)] for a service of the IR's own: the location of the new
    cluster, and the state with the errors posted *)
Definition service_cluster {C} (ctx : cluster_ctx) (s : ir_state C) (namespace location service : string) (kw : dict pyval)
    : res (nat * ir_state C) :=
  let ctx := mkClusterCtx (cc_module ctx) (st_tls s) (cc_resolvers ctx) (cc_resolve ctx) (cc_enable_endpoints ctx) in
  '(c, tls, es) ← IRCluster_init ctx namespace location service kw;
  Ok (length (st_cluster_objs s),
      mkIRState (st_mappings s) (st_group_objs s) (st_cluster_objs s ++ [c]) (st_groups s) (st_clusters s)
        (st_cache s) tls (st_errors s ++ List.map ClusterError es)).

(** The cluster of a service, added to the IR and referenced by it *)
Definition add_service_cluster {C} (ctx : cluster_ctx) (s : ir_state C) (self kw : dict pyval) : res (nat * ir_state C) :=
  ns ← getattr self "namespace"; ns ← as_str ns;
  location ← getattr self "location"; location ← as_str location;
  service ← getattr self "service"; service ← as_str service;
  '(i, s) ← service_cluster ctx s ns location service kw;
  '(j, s) ← ir_add_cluster s i;
  s ← cluster_referenced s j self;
  Ok (j, s).

(** [add_mappings] *)
Definition log_add_mappings {C} (ctx : cluster_ctx) (s : ir_state C) (al : IRLogService) : res (IRLogService * ir_state C) :=
  let self := lg_self al in
  grpc ← getattr self "grpc";
  '(j, s) ← add_service_cluster ctx s self
    [("host_rewrite", pget "host_rewrite" self); ("marker", PStr "logging"); ("grpc", grpc); ("stats_name", pget "stats_name" self)];
  Ok (mkLogService self (Some j), s).

(** ** Only one is kept *)

Definition demo_log_config (name service : string) : dict pyval :=
  [("rkey", PStr name); ("name", PStr name); ("location", PStr name); ("kind", PStr "LogService");
   ("service", PStr service); ("protocol_version", PStr "v3"); ("driver", PStr "tcp"); ("driver_config", PDict [])].

(** Every log service is named [logservice], whatever the name of its
    resource, so a second one is refused as a duplicate. *)
Lemma second_log_service_refused :
  ∃ ls, log_services_load_all "default" [demo_log_config "one" "als-one:3000"; demo_log_config "two" "als-two:3000"] = Ok ls
    ∧ dkeys (lgs_map ls) = ["logservice"]
    ∧ lgs_errors ls = ["Duplicate LogService logservice; keeping definition from one"].
Proof. eexists. split; [vm_compute; reflexivity|]. split; reflexivity. Qed.
