(* ===== verification/Filters.v ===== *)
(** * Filters and services of the IR ([ir/irfilter.py], [ir/irbuffer.py],
      [ir/irgzip.py], [ir/irauth.py], [ir/irratelimit.py], [ir/irtracing.py])

    The HTTP filters Envoy runs, and the services that some of them call.  An
    authentication service is put together from all AuthServices; there is at
    most one rate limit and one tracing service. *)

From S2P Require Import Prelude PyStr PyVal Resource Cache IpAddr ServiceName PyText BaseMapping HTTPMapping Cluster Group Listener LogService.

(** ** Filters *)

(** [IRFilter.__init__], up to the call of [setup] *)
Definition IRFilter_init (ambassador_namespace : string) (a : res_args) (type config : pyval) (kwargs : dict pyval)
    : res (dict pyval) :=
  IRResource_init ambassador_namespace a ([("type", type); ("config", config)] ++ kwargs).

(** A filter of no class of its own: its [setup] is the one that always succeeds. *)
Definition plain_filter (ambassador_namespace rkey kind name : string) (type config : pyval) : res (dict pyval) :=
  self ← IRFilter_init ambassador_namespace (mkRA rkey name "--internal--" PNone kind "ambassador/ir") type config [];
  Ok (dset "_active" (PBool true) self).

Definition IRBuffer_setup (s : setup_state) : setup_step :=
  let self := ddel "max_request_bytes" (su_self s) in
  match pget "max_request_bytes" (su_self s) with
  | PNone => setup_fail "missing required field: max_request_bytes" (mkSetup self (su_errors s) (su_notices s))
  | bytes =>
      let self := dset "max_request_bytes" bytes self in
      Ok (true, mkSetup (ddel "max_request_time" self) (su_errors s)
                  (su_notices s ++ (if py_bool (pget "max_request_time" self)
                                    then ["'max_request_time' is no longer supported, ignoring"] else [])))
  end.

(** The settings of the compressor: the attribute, where it comes from and its default *)
Definition gzip_settings : list (string * string * pyval) :=
  [("memory_level", "memory_level", PNone); ("content_length", "min_content_length", PNone);
   ("compression_level", "compression_level", PNone); ("compression_strategy", "compression_strategy", PNone);
   ("window_bits", "window_bits", PNone); ("content_type", "content_type", PList []);
   ("disable_on_etag_header", "disable_on_etag_header", PNone);
   ("remove_accept_encoding_header", "remove_accept_encoding_header", PNone)].

Definition IRGzip_setup (s : setup_state) : setup_step :=
  Ok (true, mkSetup (foldl (λ self '(to, from, dflt), dset to (dget_default from dflt self) (ddel from self)) (su_self s) gzip_settings)
              (su_errors s) (su_notices s)).

(** A filter with the [setup] of its class, with the errors and notices posted *)
Definition filter_with_setup (setup : setup_state → setup_step) (self : dict pyval) : res setup_state :=
  '(active, s) ← setup (mkSetup self [] []);
  Ok (su_set "_active" (PBool active) s).

(** ** Authentication *)

(** The filter; for every service whether it speaks gRPC, its TLS context and
    location; the cluster; the errors posted, with the keys they are posted
    under. *)
Record IRAuth : Type := mkAuth {
  au_self : dict pyval;
  au_hosts : dict (bool * pyval * string);
  au_cluster : option nat;
  au_posts : list (string * string)
}.

Definition au_with (a : IRAuth) (self : dict pyval) : IRAuth := mkAuth self (au_hosts a) (au_cluster a) (au_posts a).
Definition au_set (k : string) (v : pyval) (a : IRAuth) : IRAuth := au_with a (dset k v (au_self a)).

Definition rkey_of (r : dict pyval) : res string := k ← getattr r "rkey"; as_str k.

(** [self.post_error(msg)], and [aconf.post_error(msg, resource=module)] *)
Definition auth_post (msg : string) (a : IRAuth) : res IRAuth :=
  k ← rkey_of (au_self a);
  Ok (mkAuth (dset "_errored" (PBool true) (au_self a)) (au_hosts a) (au_cluster a) (au_posts a ++ [(k, msg)])).
Definition config_post (module : dict pyval) (msg : string) (a : IRAuth) : res IRAuth :=
  k ← rkey_of module; Ok (mkAuth (au_self a) (au_hosts a) (au_cluster a) (au_posts a ++ [(k, msg)])).

Definition single_keys : list string := ["path_prefix"; "timeout_ms"; "cluster"; "allow_request_body"; "proto"].

(** One of the settings that all AuthServices should agree on *)
Definition auth_single (module : dict pyval) (a : IRAuth) (key : string) : res IRAuth :=
  let value := pget key module in
  let previous := pget key (au_self a) in
  a ← (if py_bool value then
         if py_bool previous && negb (py_eqb previous value) then
           config_post module ("AuthService cannot support multiple " +:+ key +:+ " values; using " +:+ py_text previous) a
         else Ok (au_set key value a)
       else Ok a);
  self ← referenced_by (au_self a) module;
  Ok (au_with a self).

Definition auth_linkerd (amod module : dict pyval) (a : IRAuth) : IRAuth :=
  match pget "add_linkerd_headers" module with
  | PNone => au_set "add_linkerd_headers" (dget_default "add_linkerd_headers" (PBool false) amod) a
  | v => if py_bool v then au_set "add_linkerd_headers" v a else a
  end.

Definition auth_breakers (amod module : dict pyval) (a : IRAuth) : IRAuth :=
  let given := pget "circuit_breakers" module in
  let cb := pget "circuit_breakers" amod in
  if py_bool given then au_set "circuit_breakers" given a
  else if py_bool cb then au_set "circuit_breakers" cb a else a.

(** The settings that every AuthService sets anew: the attribute, where it comes
    from and its default *)
Definition auth_settings : list (string * string * pyval) :=
  [("allow_request_body", "allow_request_body", PBool false); ("include_body", "include_body", PNone);
   ("api_version", "apiVersion", PNone); ("proto", "proto", PStr "http"); ("timeout_ms", "timeout_ms", PInt 5000);
   ("connect_timeout_ms", "connect_timeout_ms", PInt 3000); ("cluster_idle_timeout_ms", "cluster_idle_timeout_ms", PNone);
   ("cluster_max_connection_lifetime_ms", "cluster_max_connection_lifetime_ms", PNone);
   ("add_auth_headers", "add_auth_headers", PDict [])].

Definition set_settings (module : dict pyval) (self : dict pyval) : dict pyval :=
  foldl (λ self '(to, from, dflt), dset to (dget_default from dflt module) self) self auth_settings.

(** [__to_header_list] *)
Definition add_allowed (allowed : list pyval) (hdr : string) : list pyval :=
  if existsb (py_eqb (PStr (lower hdr))) allowed then allowed else allowed ++ [PStr (lower hdr)].

Definition to_header_list (module : dict pyval) (self : dict pyval) (list_name : string) : res (dict pyval) :=
  let headers := pget list_name module in
  if py_bool headers then
    l ← py_iter headers; l ← map_res as_str l;
    allowed ← as_list (dget_default list_name (PList []) self);
    Ok (dset list_name (PList (foldl add_allowed allowed (py_sorted str_le id l))) self)
  else Ok self.

Definition header_lists : list string := ["allowed_headers"; "allowed_request_headers"; "allowed_authorization_headers"].

(** The checks of the protocol *)
Definition check_proto (module : dict pyval) (a : IRAuth) : res IRAuth :=
  proto ← getattr (au_self a) "proto";
  a ← (if in_strs proto ["grpc"; "http"] then Ok a
       else auth_post ("AuthService: proto_version " +:+ py_text proto +:+ " is unsupported, proto must be " +:+
              dquote +:+ "grpc" +:+ dquote +:+ " or " +:+ dquote +:+ "http" +:+ dquote) a);
  let version := dget_default "protocol_version" (PStr "v2") module in
  let a := au_set "protocol_version" version a in
  if in_strs proto ["grpc"] && negb (in_strs version ["v3"]) then
    auth_post ("AuthService: protocol_version " +:+ py_text version +:+ " is unsupported, protocol_version must be " +:+
      dquote +:+ "v3" +:+ dquote) a
  else Ok a.

Definition set_if_true (key : string) (module : dict pyval) (a : IRAuth) : IRAuth :=
  let v := pget key module in if py_bool v then au_set key v a else a.

(** The fields that are required, and those that exclude each other *)
Definition check_fields (a : IRAuth) : res IRAuth :=
  a ← match pget "api_version" (au_self a) with
      | PNone => auth_post "AuthService config requires apiVersion field" a
      | _ => Ok a
      end;
  a ← match pget "proto" (au_self a) with PNone => auth_post "AuthService requires proto field." a | _ => Ok a end;
  if py_bool (pget "include_body" (au_self a)) && py_bool (pget "allow_request_body" (au_self a)) then
    a ← auth_post "AuthService ignoring allow_request_body since include_body is present" a;
    Ok (au_with a (ddel "allow_request_body" (au_self a)))
  else Ok a.

Definition add_auth_service (module : dict pyval) (a : IRAuth) : res IRAuth :=
  let service := pget "auth_service" module in
  if py_bool service then
    service ← as_str service;
    location ← getattr module "location"; location ← as_str location;
    let grpc := in_strs (pget "proto" (au_self a)) ["grpc"] in
    Ok (mkAuth (au_self a) (dset service (grpc, pget "tls" module, location) (au_hosts a)) (au_cluster a) (au_posts a))
  else Ok a.

(** [_load_auth] *)
Definition load_auth (amod : dict pyval) (a : IRAuth) (module : dict pyval) : res IRAuth :=
  ns ← getattr (au_self a) "namespace";
  let a := au_set "namespace" (dget_default "namespace" ns module) a in
  location ← getattr (au_self a) "location";
  a ← (if py_eqb location (PStr "--internal--") then self ← sourced_by (au_self a) module; Ok (au_with a self) else Ok a);
  a ← fold_res (auth_single module) single_keys a;
  let a := auth_breakers amod module (auth_linkerd amod module a) in
  self ← fold_res (to_header_list module) header_lists (set_settings module (au_self a));
  a ← check_proto module (au_with a self);
  let a := au_set "stats_name" (pget "stats_name" module) a in
  let a := set_if_true "failure_mode_allow" module (set_if_true "status_on_error" module a) in
  a ← check_fields a;
  add_auth_service module a.

(** [setup], given the authentication module and the AuthServices *)
Definition IRAuth_setup (amod : dict pyval) (module_info : option (dict pyval)) (configs : list (dict pyval)) (a : IRAuth)
    : res (bool * IRAuth) :=
  a ← match module_info with Some (kv :: m) => load_auth amod a (kv :: m) | _ => Ok a end;
  a ← fold_res (load_auth amod) configs a;
  Ok (match au_hosts a with [] => false | _ => true end, a).

Definition auth_args : dict pyval :=
  [("cluster", PNone); ("timeout_ms", PNone); ("connect_timeout_ms", PInt 3000); ("path_prefix", PNone);
   ("api_version", PNone); ("allowed_headers", PList []); ("allowed_request_headers", PList []);
   ("allowed_authorization_headers", PList [])].

Definition IRAuth_init (ambassador_namespace : string) (amod : dict pyval) (module_info : option (dict pyval))
    (configs : list (dict pyval)) : res IRAuth :=
  self ← IRFilter_init ambassador_namespace (mkRA "ir.auth" "extauth" "--internal--" PNone "IRAuth" "ambassador/ir")
           (PStr "decoder") PNone auth_args;
  '(active, a) ← IRAuth_setup amod module_info configs (mkAuth self [] None []);
  Ok (au_set "_active" (PBool active) a).

Section with_cache.
Context {C : Type}.

(** One service of [add_mappings]: the filter, whether the cluster is good so far,
    and the IR *)
Definition auth_host (ctx : cluster_ctx) (x : IRAuth * bool * ir_state C) (h : string * (bool * pyval * string))
    : res (IRAuth * bool * ir_state C) :=
  let '(a, _, s) := x in
  let '(service, (grpc, ctx_name, location)) := h in
  let self := au_self a in
  ns ← getattr self "namespace"; ns ← as_str ns;
  '(i, s) ← service_cluster ctx s ns location service
    [("host_rewrite", dget_default "host_rewrite" (PBool false) self); ("ctx_name", ctx_name); ("grpc", PBool grpc);
     ("marker", PStr "extauth"); ("stats_name", pget "stats_name" self); ("circuit_breakers", pget "circuit_breakers" self)];
  s ← cluster_referenced s i self;
  c ← deref (st_cluster_objs s) i;
  let fresh := Ok (mkAuth self (au_hosts a) (Some i) (au_posts a), true, s) in
  match au_cluster a with
  | None => fresh
  | Some j =>
      c0 ← deref (st_cluster_objs s) j;
      if cluster_bool c0 then
        '(ok, c0, es) ← merge c0 c;
        let s := st_post (mkIRState (st_mappings s) (st_group_objs s) (<[j := c0]> (st_cluster_objs s)) (st_groups s)
                            (st_clusters s) (st_cache s) (st_tls s) (st_errors s)) (List.map ClusterError es) in
        if (ok : bool) then Ok (a, true, s)
        else a ← auth_post ("auth canary " +:+ cl_name c +:+ " can only change service!") a; Ok (a, false, s)
      else fresh
  end.

(** [add_mappings] *)
Definition auth_add_mappings (ctx : cluster_ctx) (s : ir_state C) (a : IRAuth) : res (IRAuth * ir_state C) :=
  '(a, good, s) ← fold_res (auth_host ctx) (au_hosts a) (mkAuth (au_self a) (au_hosts a) None (au_posts a), false, s);
  match au_cluster a with
  | Some i =>
      if (good : bool) then
        '(_, s) ← ir_add_cluster s i;
        c ← deref (st_cluster_objs s) i;
        self ← referenced_by (au_self a) [("location", PStr (cl_location c)); ("name", PStr (cl_name c))];
        Ok (au_with a self, s)
      else Ok (a, s)
  | None => Ok (a, s)
  end.

(** ** Rate limiting *)

Record IRRateLimit : Type := mkRateLimit { rl_self : dict pyval; rl_cluster : option nat }.

Definition ratelimit_config (config : dict pyval) (domain : pyval) : res pyval :=
  exhausted ← vget "rate_limited_as_resource_exhausted" (PBool false) (dget_default "grpc" (PDict []) config);
  Ok (PDict [("domain", domain); ("timeout_ms", dget_default "timeout_ms" (PInt 20) config); ("request_type", PStr "both");
             ("failure_mode_deny", dget_default "failure_mode_deny" (PBool false) config);
             ("rate_limited_as_resource_exhausted", exhausted)]).

Definition IRRateLimit_setup (amod : dict pyval) (configs : list (dict pyval)) (s : setup_state) : setup_step :=
  match configs with
  | [] => Ok (false, s)
  | [config] =>
      let service := pget "service" config in
      if negb (py_bool service) then setup_fail "service is required in RateLimitService" s
      else
        let s := su_set "name" (PStr "rate_limit") (su_set "ctx_name" (pget "tls" config) (su_set "service" service s)) in
        ns ← getattr (su_self s) "namespace";
        let s := su_set "namespace" (dget_default "namespace" ns config) s in
        domain ← getattr amod "default_label_domain";
        let domain := dget_default "domain" domain config in
        let version := dget_default "protocol_version" (PStr "v2") config in
        let s := su_set "protocol_version" version (su_set "domain" domain s) in
        if py_eqb version (PStr "v2") then
          setup_fail ("RateLimitService: protocol_version " +:+ py_text version +:+ " is unsupported, protocol_version must be " +:+
            dquote +:+ "v3" +:+ dquote) s
        else
          let s := su_set "stats_name" (pget "stats_name" config) s in
          let s := su_set "data_plane_proto" (PBool false) (su_set "host_rewrite" (pget "host_rewrite" config) s) in
          conf ← ratelimit_config config domain;
          self ← sourced_by (su_self (su_set "config" conf s)) config;
          self ← referenced_by self config;
          Ok (true, mkSetup self (su_errors s) (su_notices s))
  | _ => setup_fail ("only one RateLimitService is supported, got " +:+ str_of_int (Z.of_nat (length configs))) s
  end.

Definition IRRateLimit_init (ambassador_namespace : string) (amod : dict pyval) (configs : list (dict pyval))
    : res (IRRateLimit * list string) :=
  self ← IRFilter_init ambassador_namespace (mkRA "ir.ratelimit" "rate_limit" "--internal--" PNone "IRRateLimit" "ambassador/ir")
           (PStr "decoder") PNone [];
  s ← filter_with_setup (IRRateLimit_setup amod configs) self;
  Ok (mkRateLimit (su_self s) None, su_errors s).

(** [IR.add_grpc_service] on objects *)
Definition ir_add_grpc_service (name : string) (j : nat) (services : dict nat) (s : ir_state C)
    : res (dict nat * ir_state C) :=
  if dmem name services then Ok (services, s) else '(_, s) ← ir_add_cluster s j; Ok (dset name j services, s).

(** [add_mappings] *)
Definition ratelimit_add_mappings (ctx : cluster_ctx) (services : dict nat) (s : ir_state C) (rl : IRRateLimit)
    : res (IRRateLimit * dict nat * ir_state C) :=
  let self := rl_self rl in
  '(j, s) ← add_service_cluster ctx s self
    [("grpc", PBool true); ("host_rewrite", pget "host_rewrite" self); ("ctx_name", pget "ctx_name" self);
     ("stats_name", pget "stats_name" self)];
  '(services, s) ← ir_add_grpc_service "rate_limit_service" j services s;
  Ok (mkRateLimit self (Some j), services, s).

(** ** Tracing *)

Record IRTracing : Type := mkTracing { tr_self : dict pyval; tr_cluster : option nat }.

(** The configuration of the driver, with the defaults and the check for Zipkin *)
Definition zipkin_config (dc : pyval) : res (option pyval) :=
  endpoint ← vget "collector_endpoint" PNone dc; d ← as_dict dc;
  let d := if py_bool endpoint then d else dset "collector_endpoint" (PStr "/api/v2/spans") d in
  let d := if py_bool (pget "collector_endpoint_version" d) then d else dset "collector_endpoint_version" (PStr "HTTP_JSON") d in
  let d := if dmem "trace_id_128bit" d then d else dset "trace_id_128bit" (PBool true) d in
  Ok (if in_strs (pget "collector_endpoint_version" d) ["HTTP_JSON"; "HTTP_PROTO"] then Some (PDict d) else None).

Definition IRTracing_setup (configs : list (dict pyval)) (s : setup_state) : setup_step :=
  match configs with
  | [] => Ok (false, s)
  | [config] =>
      let service := pget "service" config in
      let driver := pget "driver" config in
      if negb (py_bool service) then setup_fail "service field is required in TracingService" s
      else if negb (py_bool driver) then setup_fail "driver field is required in TracingService" s
      else
        ns ← getattr (su_self s) "namespace";
        let s := su_set "namespace" (dget_default "namespace" ns config) s in
        if in_strs driver ["lightstep"] then
          setup_fail ("as of v3.4+ the 'lightstep' driver is no longer supported in the TracingService, " +:+
            "please see docs for migration options") s
        else
          let grpc := in_strs driver ["opentelemetry"] in
          let driver := if in_strs driver ["datadog"] then PStr "envoy.tracers.datadog" else driver in
          let dc := dget_default "config" (PDict []) config in
          dc ← (if in_strs driver ["zipkin"] then zipkin_config dc else Ok (Some dc));
          match dc with
          | None => setup_fail "collector_endpoint_version must be one of HTTP_JSON, HTTP_PROTO'" s
          | Some dc =>
              self ← sourced_by (su_self s) config;
              let fields := [("service", service); ("driver", driver); ("grpc", PBool grpc); ("cluster", PNone); ("driver_config", dc);
                             ("tag_headers", dget_default "tag_headers" (PList []) config);
                             ("custom_tags", dget_default "custom_tags" (PList []) config);
                             ("sampling", dget_default "sampling" (PDict []) config);
                             ("stats_name", pget "stats_name" config); ("host_rewrite", pget "host_rewrite" config)] in
              self ← referenced_by (dupdate self fields) config;
              Ok (true, mkSetup self (su_errors s) (su_notices s))
          end
  | _ => setup_fail ("exactly one TracingService is supported, got " +:+ str_of_int (Z.of_nat (length configs))) s
  end.

Definition IRTracing_init (ambassador_namespace : string) (configs : list (dict pyval)) : res (IRTracing * list string) :=
  self ← IRResource_init ambassador_namespace (mkRA "ir.tracing" "tracing" "--internal--" PNone "ir.tracing" "ambassador/ir") [];
  s ← filter_with_setup (IRTracing_setup configs) self;
  Ok (mkTracing (dset "cluster" PNone (su_self s)) None, su_errors s).

Definition tracing_add_mappings (ctx : cluster_ctx) (s : ir_state C) (tr : IRTracing) : res (IRTracing * ir_state C) :=
  let self := tr_self tr in
  grpc ← getattr self "grpc";
  '(j, s) ← add_service_cluster ctx s self
    [("host_rewrite", pget "host_rewrite" self); ("marker", PStr "tracing"); ("grpc", grpc); ("stats_name", pget "stats_name" self)];
  Ok (mkTracing self (Some j), s).

(** [finalize], when the clusters have their Envoy names *)
Definition tracing_finalize (cs : list IRCluster) (tr : IRTracing) : res IRTracing :=
  j ← res_of_option (AssertionError EmptyString) (tr_cluster tr);
  c ← deref cs j;
  if negb (cluster_bool c) then Raise (AssertionError EmptyString)
  else
    name ← getattr (cl_attrs c) "envoy_name";
    driver ← getattr (tr_self tr) "driver";
    dc ← getattr (tr_self tr) "driver_config"; dc ← as_dict dc;
    let dc := if in_strs driver ["opentelemetry"]
              then dset "grpc_service" (PDict [("envoy_grpc", PDict [("cluster_name", name)])]) dc
              else dset "collector_cluster" name dc in
    Ok (mkTracing (dset "driver_config" (PDict dc) (tr_self tr)) (tr_cluster tr)).
End with_cache.

(** ** The filters and saved resources of the IR *)

(** A filter, by its class *)
Inductive ir_filter : Type :=
  | FPlain (self : dict pyval)
  | FBuffer (self : dict pyval)
  | FGzip (self : dict pyval)
  | FAuth (a : IRAuth)
  | FRateLimit (rl : IRRateLimit)
  | FIPAllowDeny (f : IRIPAllowDeny).

(** What a saved resource is: one that adds Mappings or clusters, or another. *)
Inductive saved_ref : Type := SModule | STracing | SRateLimit | SLog (name : string) | SAuth | SOther.

(** [IR.save_resource] *)
Definition save_resource (self : dict pyval) (r : saved_ref) (saved : dict saved_ref) : res (dict saved_ref) :=
  if py_bool (pget "_active" self) then k ← rkey_of self; Ok (dset k r saved) else Ok saved.

(** [IR.save_filter], of a filter that is not saved yet *)
Definition save_filter (self : dict pyval) (r : saved_ref) (f : ir_filter) (x : list ir_filter * dict saved_ref)
    : res (list ir_filter * dict saved_ref) :=
  if py_bool (pget "_active" self) then saved ← save_resource self r x.2; Ok (x.1 ++ [f], saved) else Ok x.
