(* ===== verification/AmbassadorModule.v ===== *)
(** * The Ambassador module ([ir/irambassador.py])

    The module holds the settings of the whole proxy.  It is created first, and
    finalized when secrets and TLS contexts are known: then the settings of the
    Module resource are copied and checked, and the filters they ask for are
    saved. *)

From S2P Require Import Prelude PyStr PyVal Resource Cache IpAddr ServiceName PyText BaseMapping HTTPMapping Cluster Group IR.
From S2P Require Import Listener LogService Filters.

Definition AModTransparentKeys : list string :=
  ["add_linkerd_headers"; "admin_port"; "auth_enabled"; "allow_chunked_length"; "buffer_limit_bytes"; "circuit_breakers";
   "cluster_idle_timeout_ms"; "cluster_max_connection_lifetime_ms"; "cluster_request_timeout_ms"; "debug_mode";
   "default_label_domain"; "default_labels"; "diagnostics"; "enable_http10"; "enable_ipv4"; "enable_ipv6"; "envoy_log_format";
   "envoy_log_path"; "envoy_log_type"; "forward_client_cert_details"; "headers_with_underscores_action"; "keepalive";
   "listener_idle_timeout_ms"; "liveness_probe"; "load_balancer"; "max_request_headers_kb"; "merge_slashes";
   "reject_requests_with_escaped_slashes"; "preserve_external_request_id"; "proper_case"; "prune_unreachable_routes";
   "readiness_probe"; "regex_max_size"; "regex_type"; "resolver"; "runtime_flags"; "error_response_overrides";
   "header_case_overrides"; "server_name"; "service_port"; "set_current_client_cert_details"; "statsd";
   "strip_matching_host_port"; "suppress_envoy_headers"; "use_ambassador_namespace_for_service_resolution"; "use_proxy_proto";
   "use_remote_address"; "x_forwarded_proto_redirect"; "xff_num_trusted_hops"].

Definition module_args : dict pyval :=
  [("service_port", PInt 8080); ("admin_port", PInt 8001); ("auth_enabled", PNone); ("enable_ipv6", PBool false);
   ("envoy_log_type", PStr "text"); ("envoy_log_path", PStr "/dev/fd/1"); ("envoy_log_format", PNone);
   ("envoy_validation_timeout", PInt 60); ("enable_ipv4", PBool true); ("listener_idle_timeout_ms", PNone);
   ("liveness_probe", PDict [("enabled", PBool true)]); ("readiness_probe", PDict [("enabled", PBool true)]);
   ("diagnostics", PDict [("enabled", PBool true)]); ("use_proxy_proto", PBool false); ("enable_http10", PBool false);
   ("proper_case", PBool false); ("prune_unreachable_routes", PBool true); ("use_remote_address", PBool true);
   ("x_forwarded_proto_redirect", PBool false); ("load_balancer", PNone); ("circuit_breakers", PNone);
   ("xff_num_trusted_hops", PInt 0); ("use_ambassador_namespace_for_service_resolution", PBool false);
   ("server_name", PStr "envoy"); ("debug_mode", PBool false); ("preserve_external_request_id", PBool false);
   ("max_request_headers_kb", PNone)].

(** The Module resource, when there is one and it is true *)
Definition true_module (amod : option (dict pyval)) : option (dict pyval) :=
  match amod with Some (kv :: m) => Some (kv :: m) | _ => None end.

(** [__init__], with [setup] *)
Definition IRAmbassador_init (ambassador_namespace : string) (amod : option (dict pyval)) : res (dict pyval) :=
  self ← IRResource_init ambassador_namespace
           (mkRA "ir.ambassador" "ir.ambassador" "--internal--" PNone "IRAmbassador" "ambassador/ir") module_args;
  let self := match true_module amod with
              | Some m => match dget "defaults" m with Some v => dset "defaults" v self | None => self end
              | None => self
              end in
  Ok (dset "_finalized" (PBool false) (dset "_active" (PBool true) self)).

(** ** Finalizing *)

(** The module, the filters and resources the IR has saved, the errors posted on
    the module and on what it makes, and the notices *)
Record module_state : Type := mkMS {
  ms_self : dict pyval;
  ms_filters : list ir_filter;
  ms_saved : dict saved_ref;
  ms_errors : list string;
  ms_notices : list string
}.

Definition ms_with (s : module_state) (self : dict pyval) : module_state :=
  mkMS self (ms_filters s) (ms_saved s) (ms_errors s) (ms_notices s).
Definition ms_set (k : string) (v : pyval) (s : module_state) : module_state := ms_with s (dset k v (ms_self s)).
Definition ms_post (msg : string) (s : module_state) : module_state :=
  mkMS (dset "_errored" (PBool true) (ms_self s)) (ms_filters s) (ms_saved s) (ms_errors s ++ [msg]) (ms_notices s).
Definition ms_posted (es ns : list string) (s : module_state) : module_state :=
  mkMS (ms_self s) (ms_filters s) (ms_saved s) (ms_errors s ++ es) (ms_notices s ++ ns).

(** A part of [finalize]: whether it goes on, and the state *)
Definition module_step : Type := module_state → res (bool * module_state).

Fixpoint steps (l : list module_step) (s : module_state) : res (bool * module_state) :=
  match l with
  | [] => Ok (true, s)
  | f :: l => '(ok, s) ← f s; if (ok : bool) then steps l s else Ok (false, s)
  end.

Definition ms_fail (msg : string) : module_step := λ s, Ok (false, ms_post msg s).

(** The settings that are copied *)
Definition copy_settings (m : dict pyval) (self : dict pyval) : dict pyval :=
  foldl (λ self k, match dget k m with Some v => dset k v self | None => self end) self AModTransparentKeys.

Definition validation_timeout (m : dict pyval) : module_step := λ s,
  match dget "envoy_validation_timeout" m with
  | None => Ok (true, s)
  | Some v =>
      n ← int_of v;
      Ok (true, match n with
                | Some n => ms_set "envoy_validation_timeout" (PInt n) s
                | None => ms_post "envoy_validation_timeout must be an integer number of seconds" s
                end)
  end.

Definition settings (amod : option (dict pyval)) : module_step := λ s,
  match amod with
  | None => Ok (true, s)
  | Some m => validation_timeout m (ms_with s (copy_settings m (ms_self s)))
  end.

Definition default_labels_step : module_step := λ s,
  let s := if py_bool (pget "default_label_domain" (ms_self s)) then s else ms_set "default_label_domain" (PStr "ambassador") s in
  Ok (true, if py_bool (pget "default_labels" (ms_self s)) then s else ms_set "default_labels" (PDict []) s).

(** The probes, with the prefix each has by default *)
Definition probes : list (string * string) :=
  [("liveness_probe", "/ambassador/v0/check_alive"); ("readiness_probe", "/ambassador/v0/check_ready");
   ("diagnostics", "/ambassador/v0/")].

Definition probe_enabled (cur : pyval) : res bool :=
  if py_bool cur then e ← vget "enabled" (PBool false) cur; Ok (py_bool e) else Ok false.

Definition fill_probe (self : dict pyval) (p : string * string) : res (dict pyval) :=
  cur ← getattr self p.1;
  enabled ← probe_enabled cur;
  if (enabled : bool) then
    d ← as_dict cur;
    let fill k v d := if py_bool (pget k d) then d else dset k (PStr v) d in
    Ok (dset p.1 (PDict (fill "service" "127.0.0.1:8877" (fill "rewrite" p.2 (fill "prefix" p.2 d)))) self)
  else Ok self.

Definition probes_step : module_step := λ s, self ← fold_res fill_probe probes (ms_self s); Ok (true, ms_with s self).

(** A filter without a class, sourced by the Module resource *)
Definition save_plain (ambassador_namespace : string) (m : dict pyval) (attr kind name : string) (config : pyval) : module_step := λ s,
  f ← plain_filter ambassador_namespace "ir.filter" kind name PNone config;
  f ← sourced_by f m;
  '(filters, saved) ← save_filter f SOther (FPlain f) (ms_filters s, ms_saved s);
  Ok (true, mkMS (dset attr (PDict f) (ms_self s)) filters saved (ms_errors s) (ms_notices s)).

Definition grpc_stats_config (stats : pyval) : res pyval :=
  services ← vmem "services" stats; upstream ← vmem "upstream_stats" stats;
  all ← (if (services : bool) then v ← vget "services" PNone stats; Ok ("individual_method_stats_allowlist", PDict [("services", v)])
         else v ← vget "all_methods" (PBool false) stats; Ok ("stats_for_all_methods", PBool (py_bool v)));
  up ← (if (upstream : bool) then v ← vget "upstream_stats" PNone stats; Ok (py_bool v) else Ok false);
  Ok (PDict [("enable_upstream_stats", PBool up); all]).

Definition plain_filters (ambassador_namespace : string) (m : dict pyval) : module_step := λ s,
  let save := save_plain ambassador_namespace m in
  steps
    [(λ s, if dmem "enable_grpc_http11_bridge" m
           then save "grpc_http11_bridge" "ir.grpc_http1_bridge" "grpc_http1_bridge" (PDict []) s else Ok (true, s));
     (λ s, if dmem "enable_grpc_web" m then save "grpc_web" "ir.grpc_web" "grpc_web" (PDict []) s else Ok (true, s));
     (λ s, match pget "grpc_stats" m with
           | PNone => Ok (true, s)
           | stats => config ← grpc_stats_config stats; save "grpc_stats" "ir.grpc_stats" "grpc_stats" config s
           end);
     (λ s, match dget "lua_scripts" m with
           | None => Ok (true, s)
           | Some code => save "lua_scripts" "ir.lua_scripts" "lua_scripts" (PDict [("inline_code", code)]) s
           end)] s.

(** [Cls(ir, aconf, location=..., **kwargs)] for a filter: the keyword arguments
    may override the key, kind and name of the class. *)
Definition class_filter (ambassador_namespace location dflt kind : string) (kwargs : dict pyval) : res (dict pyval) :=
  if dmem "location" kwargs then Raise TypeError
  else
    rkey ← as_str (dget_default "rkey" (PStr dflt) kwargs);
    name ← as_str (dget_default "name" (PStr dflt) kwargs);
    kind ← as_str (dget_default "kind" (PStr kind) kwargs);
    apiVersion ← as_str (dget_default "apiVersion" (PStr "ambassador/ir") kwargs);
    IRFilter_init ambassador_namespace (mkRA rkey name location (pget "namespace" kwargs) kind apiVersion)
      (pget "type" kwargs) (pget "config" kwargs)
      (dpop ["rkey"; "name"; "kind"; "apiVersion"; "namespace"; "type"; "config"] kwargs).

(** A filter with a class, which must be good *)
Definition save_class (ambassador_namespace : string) (m : dict pyval) (key dflt kind : string)
    (setup : setup_state → setup_step) (make : dict pyval → ir_filter) : module_step := λ s,
  match dget key m with
  | None => Ok (true, s)
  | Some v =>
      kwargs ← as_dict v;
      location ← getattr (ms_self s) "location"; location ← as_str location;
      f ← class_filter ambassador_namespace location dflt kind kwargs;
      f ← filter_with_setup setup f;
      let self := su_self f in
      let s := ms_posted (su_errors f) (su_notices f) (ms_set key (PDict self) s) in
      if res_bool self then
        '(filters, saved) ← save_filter self SOther (make self) (ms_filters s, ms_saved s);
        Ok (true, mkMS (ms_self s) filters saved (ms_errors s) (ms_notices s))
      else Ok (false, s)
  end.

(** The default CORS policy and retry policy *)
Definition cors_step (m : dict pyval) : module_step := λ s,
  match dget "cors" m with
  | None => Ok (true, s)
  | Some v => kwargs ← as_dict v; cors ← IRCORS_init kwargs; Ok (true, ms_set "cors" (PDict cors) s)
  end.

Definition retry_step (m : dict pyval) : module_step := λ s,
  match dget "retry_policy" m with
  | None => Ok (true, s)
  | Some v =>
      rp ← as_dict v;
      let s := ms_set "retry_policy" (PDict rp) s in
      if validate_retry_policy rp then Ok (true, s) else Ok (false, ms_posted ["Invalid retry policy specified"] [] s)
  end.

(** [handle_ip_allow_deny]: the filter there is so far, and the state.  The filter
    asserts that its parent, the module, is true. *)
Definition principal_dict (v : pyval) : res (dict string) :=
  match v with
  | PDict d => map_res (λ kv : string * pyval, t ← as_str kv.2; Ok (kv.1, t)) d
  | _ => Raise (AttributeError "items")
  end.

Definition handle_ip_allow_deny (allow : bool) (principals : pyval) (x : option IRIPAllowDeny * module_state)
    : res (option IRIPAllowDeny * module_state) :=
  match x.1 with
  | Some f => Ok (Some f, ms_post "ip_allow and ip_deny may not both be set" x.2)
  | None =>
      if negb (res_bool (ms_self x.2)) then Raise (AssertionError EmptyString) else
      l ← py_iter principals; l ← map_res principal_dict l;
      '(f, es) ← IRIPAllowDeny_setup (if allow then "ALLOW" else "DENY") l;
      Ok (if iad_active f then Some f else None, foldl (λ s e, ms_post e s) x.2 es)
  end.

Definition ip_step (m : dict pyval) : module_step := λ s,
  x ← match dget "ip_allow" m with Some p => handle_ip_allow_deny true p (None, s) | None => Ok (None, s) end;
  '(f, s) ← match dget "ip_deny" m with Some p => handle_ip_allow_deny false p x | None => Ok x end;
  match f with
  | None => Ok (true, s)
  | Some f =>
      k ← rkey_of (ms_self s);
      Ok (true, mkMS (ms_self s) (ms_filters s ++ [FIPAllowDeny f]) (dset k SOther (ms_saved s)) (ms_errors s) (ms_notices s))
  end.

(** ** The checks at the end *)

Definition lb_step : module_step := λ s,
  match pget "load_balancer" (ms_self s) with
  | PNone => Ok (true, s)
  | lb =>
      d ← as_dict lb; ok ← validate_load_balancer d;
      if (ok : bool) then Ok (true, s) else ms_fail ("Invalid load_balancer specified: " +:+ py_text lb) s
  end.

Definition breakers_step : module_step := λ s,
  match pget "circuit_breakers" (ms_self s) with
  | PNone => Ok (true, s)
  | cbs =>
      '(ok, cbs) ← validate_circuit_breakers cbs;
      let s := ms_set "circuit_breakers" cbs s in
      if (ok : bool) then Ok (true, s) else ms_fail ("Invalid circuit_breakers specified: " +:+ py_text cbs) s
  end.

Definition log_step : module_step := λ s,
  let type := pget "envoy_log_type" (ms_self s) in
  let format := pget "envoy_log_format" (ms_self s) in
  let bad (t what : string) (dflt : pyval) :=
    Ok (false, ms_set "envoy_log_format" dflt
      (ms_post ("envoy_log_type '" +:+ t +:+ "' requires a " +:+ what +:+ " in envoy_log_format: " +:+ py_text format +:+ ", invalidating...") s)) in
  if in_strs type ["text"] then match format with PNone | PStr _ => Ok (true, s) | _ => bad "text" "string" (PStr EmptyString) end
  else if in_strs type ["json"] then match format with PNone | PDict _ => Ok (true, s) | _ => bad "json" "dictionary" (PDict []) end
  else if in_strs type ["typed_json"] then
    match format with PNone | PDict _ => Ok (true, s) | _ => bad "typed_json" "dictionary" (PDict []) end
  else ms_fail ("Invalid log_type specified: " +:+ py_text type +:+ ". Supported: json, text, typed_json") s.

Definition client_cert_values : list string := ["SANITIZE"; "FORWARD_ONLY"; "APPEND_FORWARD"; "SANITIZE_SET"; "ALWAYS_FORWARD_ONLY"].
Definition cert_detail_keys : list string := ["subject"; "cert"; "chain"; "dns"; "uri"].

Definition client_cert_step : module_step := λ s,
  match pget "forward_client_cert_details" (ms_self s) with
  | PNone => Ok (true, s)
  | v =>
      if in_strs v client_cert_values then Ok (true, s)
      else ms_fail ("'forward_client_cert_details' may not be set to '" +:+ py_text v +:+ "'; it may only be set to one of: " +:+
             join ", " client_cert_values) s
  end.

(** [v in (True, False)] *)
Definition is_bool (v : pyval) : bool := py_eqb v (PBool true) || py_eqb v (PBool false).

Fixpoint check_details (d : dict pyval) : option string :=
  match d with
  | [] => None
  | (k, v) :: d =>
      if negb (bool_decide (k ∈ cert_detail_keys)) then
        Some ("'set_current_client_cert_details' may not contain key '" +:+ k +:+ "'; it may only contain keys: " +:+ join ", " cert_detail_keys)
      else if negb (is_bool v) then
        Some ("'set_current_client_cert_details' value for key '" +:+ k +:+ "' may only be 'true' or 'false', not '" +:+ py_text v +:+ "'")
      else check_details d
  end.

Definition cert_details_step : module_step := λ s,
  let details := pget "set_current_client_cert_details" (ms_self s) in
  if py_bool details then
    d ← match details with PDict d => Ok d | _ => Raise (AttributeError "items") end;
    match check_details d with Some msg => ms_fail msg s | None => Ok (true, s) end
  else Ok (true, s).

Definition when_module (amod : option (dict pyval)) (f : dict pyval → module_step) : module_step := λ s,
  match amod with Some m => f m s | None => Ok (true, s) end.

(** [finalize]; [tls] is whether a TLS context terminates TLS, as
    [TLSContext.resolve_contexts] finds. *)
Definition module_finalize (ambassador_namespace : string) (amod : option (dict pyval)) (tls : bool) : module_step := λ s,
  let m := true_module amod in
  let s := ms_set "_finalized" (PBool true) s in
  let s := if tls then ms_set "service_port" (PInt 8443) s else s in
  steps
    [settings m; default_labels_step; probes_step; when_module m (plain_filters ambassador_namespace);
     when_module m (λ m, save_class ambassador_namespace m "gzip" "ir.gzip" "IRGzip" IRGzip_setup FGzip);
     when_module m (λ m, save_class ambassador_namespace m "buffer" "ir.buffer" "IRBuffer" IRBuffer_setup FBuffer);
     when_module m cors_step; when_module m retry_step; when_module m ip_step;
     lb_step; breakers_step; log_step; client_cert_step; cert_details_step] s.

(** The module as the IR finalizes it: one that cannot be finalized is set
    inactive, and what was done so far stays. *)
Definition finalize_module (ambassador_namespace : string) (amod : option (dict pyval)) (tls : bool) (self : dict pyval)
    (saved : dict saved_ref) : res module_state :=
  '(ok, s) ← module_finalize ambassador_namespace amod tls (mkMS self [] saved [] []);
  Ok (if (ok : bool) then s else ms_set "_active" (PBool false) s).

(** ** The Mappings of the probes *)

Definition probe_names : list (string * string) :=
  [("liveness", "liveness_probe"); ("readiness", "readiness_probe"); ("diagnostics", "diagnostics")].

(** [IRHTTPMapping(ir, aconf, kind="InternalMapping", ..., **cur)] *)
Definition probe_config (self : dict pyval) (name : string) (cur : dict pyval) : res mapping_config :=
  if bool_decide (Exists (λ k, k ∈ dkeys cur) ["kind"; "rkey"; "name"; "location"; "timeout_ms"; "hostname"]) then Raise TypeError
  else
    rkey ← rkey_of self;
    location ← getattr self "location"; location ← as_str location;
    service ← res_of_option TypeError (dget "service" cur); service ← as_str service;
    apiVersion ← as_str (dget_default "apiVersion" (PStr "getambassador.io/v3alpha1") cur);
    precedence ← as_int (dget_default "precedence" (PInt 0) cur);
    Ok (mkConfig
      (mkHTTPArgs rkey name location service (pget "namespace" cur) (pget "metadata_labels" cur) "InternalMapping" apiVersion
         precedence (dget_default "rewrite" (PStr "/") cur) (pget "cluster_tag" cur))
      ([("timeout_ms", PInt 10000); ("hostname", PStr "*")]
       ++ dpop ["service"; "namespace"; "metadata_labels"; "apiVersion"; "precedence"; "rewrite"; "cluster_tag"] cur)).

Section with_cache.
Context {C : Type} `{ops : !CacheOps C ref}.

(** [mapping.referenced_by(self)] *)
Definition mapping_referenced (self : dict pyval) (o : mapping_obj) : res mapping_obj :=
  m ← referenced_by (mo_self o) self; Ok (mkMO (mo_class o) m (mo_cluster o)).

(** One probe of [add_mappings] *)
Definition add_probe (ctx : ir_ctx) (self : dict pyval) (l : load_state C) (p : string * string) : res (load_state C) :=
  cur ← getattr self p.2;
  enabled ← probe_enabled cur;
  if negb (enabled : bool) then Ok l
  else
    d ← as_dict cur;
    let name := "internal_" +:+ p.1 +:+ "_probe_mapping" in
    let '(r, s) := cache_fetch (ld_state l) ("InternalMapping-v2-" +:+ name +:+ "-default") in
    '(i, s, errors) ← match r with
      | Some (RMapping i _) => Ok (i, s, ld_errors l)
      | Some _ => Raise (AssertionError EmptyString)
      | None =>
          c ← probe_config self name d;
          '(o, es) ← new_mapping ctx HTTPGroup c;
          o ← mapping_referenced self o;
          Ok (length (st_mappings s), st_with_mappings s (st_mappings s ++ [o]), post_for (ha_rkey (mc_args c)) es (ld_errors l))
      end;
    '(_, s, u) ← ir_add_mapping (ambassador_namespace ctx) errors s i (ld_updates l);
    Ok (mkLoad s errors u).

Definition module_add_mappings (ctx : ir_ctx) (self : dict pyval) (l : load_state C) : res (load_state C) :=
  fold_res (add_probe ctx self) probe_names l.
End with_cache.
