(* ===== verification/Secret.v ===== *)
(** * Secrets ([SecretInfo], [SavedSecret] and [SecretHandler] of [utils.py], and
      the secrets of [ir/ir.py])

    Decoding of the elements of a secret, saving them as files, and the lookup
    of a secret by name and namespace.  The text of an element is held as its
    UTF-8 bytes.  The files written are a dictionary from path to contents;
    what the operating system refuses is not modelled. *)

From S2P Require Import Prelude PyStr PyVal Resource ServiceName PyText Sha1.

Notation bytes := (list Z) (only parsing).

(** ** [binascii.a2b_base64] *)

(** The value of a character of the alphabet. *)
Definition b64_val (c : ascii) : option Z :=
  let n := code c in
  if bool_decide (65 ≤ n ≤ 90)%Z then Some (n - 65)%Z
  else if bool_decide (97 ≤ n ≤ 122)%Z then Some (n - 71)%Z
  else if bool_decide (48 ≤ n ≤ 57)%Z then Some (n + 4)%Z
  else if bool_decide (n = 43)%Z then Some 62%Z
  else if bool_decide (n = 47)%Z then Some 63%Z
  else None.

(** The decoder is lenient: characters outside the alphabet are skipped, and
    input after the padding is ignored.  [quad] counts the characters of the
    group read so far and [left] holds their bits that are not yet output. *)
Fixpoint b64_go (quad left pads : Z) (s : string) : option bytes :=
  match s with
  | EmptyString => if bool_decide (quad = 0)%Z then Some [] else None
  | String c s =>
      if bool_decide (code c = 61)%Z then
        if bool_decide (2 ≤ quad)%Z then
          if bool_decide (4 ≤ quad + (pads + 1))%Z then Some [] else b64_go quad left (pads + 1) s
        else b64_go quad left pads s
      else
        match b64_val c with
        | None => b64_go quad left pads s
        | Some v =>
            if bool_decide (quad = 0)%Z then b64_go 1 v 0 s
            else if bool_decide (quad = 1)%Z then cons (left * 4 + v / 16)%Z <$> b64_go 2 (v mod 16) 0 s
            else if bool_decide (quad = 2)%Z then cons (left * 16 + v / 4)%Z <$> b64_go 3 (v mod 4) 0 s
            else cons (left * 64 + v)%Z <$> b64_go 0 0 0 s
        end
  end.

(** [None] is [binascii.Error]. *)
Definition a2b_base64 (s : string) : res (option bytes) :=
  if all_chars (λ c, bool_decide (code c < 128)%Z) s then Ok (b64_go 0 0 0 s)
  else Raise (ValueError "string argument should contain only ASCII characters").

(** ** Valid UTF-8 *)

Definition in_range (lo hi b : Z) : bool := bool_decide (lo ≤ b ≤ hi)%Z.
Definition is_cont (b : Z) : bool := in_range 128 191 b.

Fixpoint utf8_valid (l : bytes) : bool :=
  match l with
  | [] => true
  | b0 :: l =>
      if in_range 0 127 b0 then utf8_valid l
      else
        match l with
        | [] => false
        | b1 :: l =>
            if in_range 194 223 b0 then is_cont b1 && utf8_valid l
            else
              match l with
              | [] => false
              | b2 :: l =>
                  if in_range 224 239 b0 then
                    in_range (if bool_decide (b0 = 224)%Z then 160 else 128)
                      (if bool_decide (b0 = 237)%Z then 159 else 191) b1 && is_cont b2 && utf8_valid l
                  else
                    match l with
                    | [] => false
                    | b3 :: l =>
                        in_range 240 244 b0 &&
                        in_range (if bool_decide (b0 = 240)%Z then 144 else 128)
                          (if bool_decide (b0 = 244)%Z then 143 else 191) b1 &&
                        is_cont b2 && is_cont b3 && utf8_valid l
                    end
              end
        end
  end.

(** ** [SecretInfo] *)

Record SecretInfo : Type := mkSecretInfo {
  si_name : string;
  si_namespace : string;
  si_type : string;
  tls_crt : option bytes;
  tls_key : option bytes;
  user_key : option bytes;
  root_crt : option bytes
}.

Definition is_decodable (b64_pem : option string) : bool :=
  match b64_pem with
  | None => false
  | Some s => str_bool s && negb (startswith s "-----BEGIN" || startswith s "-sanitized-")
  end.

Definition decode (b64_pem : string) : res (option bytes) :=
  utf8_pem ← a2b_base64 b64_pem;
  Ok (match utf8_pem with Some b => if utf8_valid b then Some b else None | None => None end).

(** One element: decoded where that is wanted. *)
Definition element (decode_b64 : bool) (pem : option string) : res (option bytes) :=
  match pem with
  | Some s => if decode_b64 && is_decodable pem then decode s else Ok (Some (encode_utf8 s))
  | None => Ok None
  end.

Definition SecretInfo_init (name namespace secret_type : string) (crt key user root : option string)
    (decode_b64 : bool) : res SecretInfo :=
  crt ← element decode_b64 crt;
  key ← element decode_b64 key;
  user ← element decode_b64 user;
  root ← element decode_b64 root;
  Ok (mkSecretInfo name namespace secret_type crt key user root).

(** [bool(pem)] *)
Definition pem_bool (pem : option bytes) : bool := match pem with Some (_ :: _) => true | _ => false end.

Definition bytes_start (b p : bytes) : bool := bool_decide (take (length p) b = p).

Definition fingerprint (pem : option bytes) : string :=
  match pem with
  | Some ((_ :: _) as b) =>
      (if bytes_start b (encode_utf8 "-----BEGIN") then "PEM" else "RAW") +:+ ": " +:+ upper (take_str 16 (sha1_hex b))
  | _ => "<none>"
  end.

Definition SecretInfo_to_dict (s : SecretInfo) : dict pyval :=
  [("name", PStr (si_name s)); ("namespace", PStr (si_namespace s)); ("secret_type", PStr (si_type s));
   ("tls_crt", PStr (fingerprint (tls_crt s))); ("tls_key", PStr (fingerprint (tls_key s)));
   ("user_key", PStr (fingerprint (user_key s))); ("root_crt", PStr (fingerprint (root_crt s)))].

(** An element of a configured secret: a text, or nothing. *)
Definition text_of (v : pyval) : res (option string) :=
  match v with
  | PStr s => Ok (Some s)
  | _ => if py_bool v then Raise (AttributeError "startswith") else Ok None
  end.

(** [d.get(k)], or [d.get(k')] where that is false *)
Definition get_or (k k' : string) (d : dict pyval) : pyval :=
  if py_bool (pget k d) then pget k d else pget k' d.

Definition from_aconf_secret (o : dict pyval) : res SecretInfo :=
  name ← getattr o "name"; name ← as_str name;
  ns ← getattr o "namespace"; ns ← as_str ns;
  ty ← getattr o "secret_type"; ty ← as_str ty;
  crt ← text_of (get_or "tls_crt" "cert-chain_pem" o);
  key ← text_of (get_or "tls_key" "key_pem" o);
  user ← text_of (get_or "user_key" "crl_pem" o);
  root ← text_of (pget "root-cert_pem" o);
  SecretInfo_init name ns ty crt key user root true.

(** [from_dict]; [None] where the code logs an error. *)
Definition from_dict (secret_name namespace secret_type : string) (cert_data : option (dict pyval))
    : res (option SecretInfo) :=
  match cert_data with
  | None | Some [] => Ok None
  | Some d =>
      if bool_decide (secret_type = "kubernetes.io/tls") then
        if negb (py_bool (pget "tls.crt" d)) then Ok None
        else
          crt ← text_of (pget "tls.crt" d);
          key ← text_of (pget "tls.key" d);
          i ← SecretInfo_init secret_name namespace secret_type crt key None None true; Ok (Some i)
      else if bool_decide (secret_type = "Opaque") then
        if negb (py_bool (pget "user.key" d)) then Ok None
        else
          user ← text_of (pget "user.key" d);
          i ← SecretInfo_init secret_name namespace secret_type None None user None true; Ok (Some i)
      else i ← SecretInfo_init secret_name namespace secret_type None None None None true; Ok (Some i)
  end.

(** ** [SavedSecret] *)

Record SavedSecret : Type := mkSaved {
  ss_secret_name : string;
  ss_namespace : string;
  cert_path : option string;
  key_path : option string;
  user_path : option string;
  root_cert_path : option string;
  cert_data : option (dict (option bytes))
}.

Definition SavedSecret_name (s : SavedSecret) : string :=
  "secret " +:+ ss_secret_name s +:+ " in namespace " +:+ ss_namespace s.

Definition path_bool (p : option string) : bool := match p with Some s => str_bool s | None => false end.

(** [__bool__] *)
Definition SavedSecret_bool (s : SavedSecret) : bool :=
  (path_bool (cert_path s) || path_bool (user_path s)) && match cert_data s with Some _ => true | None => false end.

Definition path_text (p : option string) : string := default "None" p.

(** [__str__] *)
Definition SavedSecret_str (s : SavedSecret) : string :=
  "<SavedSecret " +:+ ss_secret_name s +:+ "." +:+ ss_namespace s +:+ " -- cert_path " +:+ path_text (cert_path s) +:+
  ", key_path " +:+ path_text (key_path s) +:+ ", user_path " +:+ path_text (user_path s) +:+ ", root_cert_path " +:+
  path_text (root_cert_path s) +:+ ", cert_data " +:+
  (match cert_data s with Some (_ :: _) => "present" | _ => "absent" end) +:+ ">".

(** ** [SecretHandler] *)

(** [os.path.join] *)
Definition path_join (a b : string) : string :=
  if startswith b "/" then b
  else if negb (str_bool a) || endswith a "/" then a +:+ b
  else a +:+ "/" +:+ b.

Definition secret_dir (cache_dir namespace name : string) : string :=
  path_join (path_join (path_join cache_dir namespace) "secrets-decoded") name.

(** The digest that names the files of a secret. *)
Definition secret_digest (s : SecretInfo) : string :=
  upper (sha1_hex (default [] (tls_crt s) ++ default [] (tls_key s) ++ default [] (user_key s))).

(** [open(path, "w").write(el)] where there is an element; the path written. *)
Definition write_element (path : string) (el : option bytes) (fs : dict bytes) : option string * dict bytes :=
  match el with
  | Some ((_ :: _) as b) => (Some path, dset path b fs)
  | _ => (None, fs)
  end.

(** [cache_secret], with [cache_internal]: what is saved, and the files. *)
Definition cache_secret (cache_dir : string) (s : SecretInfo) (fs : dict bytes) : SavedSecret * dict bytes :=
  if pem_bool (tls_crt s) || pem_bool (user_key s) || pem_bool (root_crt s) then
    let base := path_join (secret_dir cache_dir (si_namespace s) (si_name s)) (secret_digest s) in
    let '(crt, fs) := write_element (base +:+ ".crt") (tls_crt s) fs in
    let '(key, fs) := write_element (base +:+ ".key") (tls_key s) fs in
    let '(user, fs) := write_element (base +:+ ".user") (user_key s) fs in
    let '(root, fs) := write_element (base +:+ ".root.crt") (root_crt s) fs in
    (mkSaved (si_name s) (si_namespace s) crt key user root
       (Some [("tls_crt", tls_crt s); ("tls_key", tls_key s); ("user_key", user_key s); ("root_crt", root_crt s)]), fs)
  else (mkSaved (si_name s) (si_namespace s) None None None None None, fs).

(** ** The secrets of the IR *)

Record secrets : Type := mkSecrets {
  secret_info : dict SecretInfo;
  saved_secrets : dict SavedSecret;
  secret_files : dict bytes
}.

(** One secret of [save_secret_info]. *)
Definition save_secret (infos : dict SecretInfo) (aconf_secret : dict pyval) : res (dict SecretInfo) :=
  if py_bool (pget "tls_crt" aconf_secret) || py_bool (pget "cert-chain_pem" aconf_secret) ||
     py_bool (pget "user_key" aconf_secret) || py_bool (pget "crl_pem" aconf_secret) then
    i ← from_aconf_secret aconf_secret;
    Ok (dset (si_name i +:+ "." +:+ si_namespace i) i infos)
  else Ok infos.

Definition save_secret_info (aconf_secrets : list (dict pyval)) (st : secrets) : res secrets :=
  infos ← (fix go l infos := match l with [] => Ok infos | s :: l => infos ← save_secret infos s; go l infos end)
            aconf_secrets (secret_info st);
  Ok (mkSecrets infos (saved_secrets st) (secret_files st)).

(** What the IR asks of its secret handler: the directory it saves to, and
    [load_secret], which the base class leaves to its subclasses. *)
Record SecretHandler : Type := mkHandler {
  cache_dir : string;
  load_secret : string → string → option SecretInfo
}.

(** The base class: what is not configured is not found. *)
Definition base_handler (dir : string) : SecretHandler := mkHandler dir (λ _ _, None).

(** A secret that was found is saved, and remembered under its name. *)
Definition found_secret (h : SecretHandler) (secret_name : string) (i : SecretInfo) (st : secrets)
    : SavedSecret * secrets :=
  let '(ss, fs) := cache_secret (cache_dir h) i (secret_files st) in
  (ss, mkSecrets (secret_info st) (dset secret_name ss (saved_secrets st)) fs).

(** The lookup of a secret that is not remembered. *)
Definition fetch_secret (h : SecretHandler) (secret_name namespace : string) (st : secrets) : SavedSecret * secrets :=
  match dget (secret_name +:+ "." +:+ namespace) (secret_info st) with
  | Some i => found_secret h secret_name i st
  | None =>
      match load_secret h secret_name namespace with
      | Some i => found_secret h secret_name i st
      | None => (mkSaved secret_name namespace None None None None None, st)
      end
  end.

(** [IR.resolve_secret] *)
Definition resolve_secret (h : SecretHandler) (secret_name namespace : string) (st : secrets)
    : SavedSecret * secrets :=
  match dget (secret_name +:+ "." +:+ namespace) (saved_secrets st) with
  | Some ss => if SavedSecret_bool ss then (ss, st) else fetch_secret h secret_name namespace st
  | None => fetch_secret h secret_name namespace st
  end.

(** ** Base64, as RFC 4648 encodes *)

#[local] Ltac Zify.zify_post_hook ::= Z.to_euclidean_division_equations.

Definition b64_char (v : Z) : ascii :=
  chr (if bool_decide (v < 26) then v + 65 else if bool_decide (v < 52) then v + 71
       else if bool_decide (v < 62) then v - 4 else if bool_decide (v = 62) then 43 else 47)%Z.

Fixpoint b64_encode (l : bytes) : string :=
  match l with
  | [] => EmptyString
  | [a] => String (b64_char (a / 4)) (String (b64_char (a mod 4 * 16)) "==")
  | [a; b] => String (b64_char (a / 4)) (String (b64_char (a mod 4 * 16 + b / 16))
                (String (b64_char (b mod 16 * 4)) "="))
  | a :: b :: c :: l => String (b64_char (a / 4)) (String (b64_char (a mod 4 * 16 + b / 16))
                          (String (b64_char (b mod 16 * 4 + c / 64)) (String (b64_char (c mod 64)) (b64_encode l))))
  end%Z.

Definition is_byte (b : Z) : Prop := (0 ≤ b < 256)%Z.

(** The alphabet: each digit's character is ASCII, is no padding and has the
    digit as its value. *)
Definition digit_ok (v : Z) : bool :=
  bool_decide (b64_val (b64_char v) = Some v) && bool_decide (code (b64_char v) ≠ 61)%Z &&
  bool_decide (code (b64_char v) < 128)%Z && bool_decide (code (b64_char v) ≠ 45)%Z.

Lemma digits_ok v : (0 ≤ v < 64)%Z → digit_ok v = true.
Proof.
  intros Hv. assert (Hall : forallb (λ n, digit_ok (Z.of_nat n)) (seq 0 64) = true) by (vm_compute; reflexivity).
  rewrite forallb_forall in Hall. rewrite <- (Z2Nat.id v) by lia. apply Hall. apply in_seq. lia.
Qed.

Lemma digit_val v : (0 ≤ v < 64)%Z → b64_val (b64_char v) = Some v ∧ bool_decide (code (b64_char v) = 61)%Z = false.
Proof.
  intros Hv. pose proof (digits_ok v Hv) as H. unfold digit_ok in H. rewrite !andb_true_iff in H.
  destruct H as (((H1 & H2) & _) & _). apply bool_decide_eq_true in H1, H2. split; [done|]. by apply bool_decide_eq_false.
Qed.

(** The four digits of a group, and the padding. *)
Section digits.
Context (left pads v : Z) (s : string) (Hv : (0 ≤ v < 64)%Z).

Lemma go_digit0 : b64_go 0 left pads (String (b64_char v) s) = b64_go 1 v 0 s.
Proof. cbn [b64_go]. by destruct (digit_val v Hv) as [-> ->]. Qed.
Lemma go_digit1 :
  b64_go 1 left pads (String (b64_char v) s) = cons (left * 4 + v / 16)%Z <$> b64_go 2 (v mod 16) 0 s.
Proof. cbn [b64_go]. by destruct (digit_val v Hv) as [-> ->]. Qed.
Lemma go_digit2 :
  b64_go 2 left pads (String (b64_char v) s) = cons (left * 16 + v / 4)%Z <$> b64_go 3 (v mod 4) 0 s.
Proof. cbn [b64_go]. by destruct (digit_val v Hv) as [-> ->]. Qed.
Lemma go_digit3 :
  b64_go 3 left pads (String (b64_char v) s) = cons (left * 64 + v)%Z <$> b64_go 0 0 0 s.
Proof. cbn [b64_go]. by destruct (digit_val v Hv) as [-> ->]. Qed.
End digits.

Lemma go_pad2 left : b64_go 2 left 0 "==" = Some [].
Proof. reflexivity. Qed.
Lemma go_pad3 left : b64_go 3 left 0 "=" = Some [].
Proof. reflexivity. Qed.

(** Induction on a list three elements at a time. *)
Lemma list_ind3 {A} (P : list A → Prop) :
  P [] → (∀ a, P [a]) → (∀ a b, P [a; b]) → (∀ a b c l, P l → P (a :: b :: c :: l)) → ∀ l, P l.
Proof.
  intros H0 H1 H2 H3. fix IH 1. intros [|a [|b [|c l]]]; [done|apply H1|apply H2|apply H3, IH].
Qed.

Lemma b64_decodes l : Forall is_byte l → b64_go 0 0 0 (b64_encode l) = Some l.
Proof.
  induction l as [|a|a b|a b c l IH] using list_ind3; intros Hl; [done|..];
    repeat (apply Forall_cons in Hl as [? Hl]); unfold is_byte in *; cbn [b64_encode].
  - rewrite go_digit0, go_digit1, go_pad2 by lia. cbn [fmap option_fmap option_map]. do 2 f_equal. lia.
  - rewrite go_digit0, go_digit1, go_digit2, go_pad3 by lia. cbn [fmap option_fmap option_map].
    f_equal. f_equal; [lia|]. f_equal. lia.
  - rewrite go_digit0, go_digit1, go_digit2, go_digit3, IH by (done || lia). cbn [fmap option_fmap option_map].
    f_equal. f_equal; [lia|]. f_equal; [lia|]. f_equal. lia.
Qed.

Lemma b64_all_chars (f : ascii → bool) l :
  (∀ v, (0 ≤ v < 64)%Z → f (b64_char v) = true) → f "="%char = true → Forall is_byte l →
  all_chars f (b64_encode l) = true.
Proof.
  intros Hf He. induction l as [|a|a b|a b c l IH] using list_ind3; intros Hl; [done|..];
    repeat (apply Forall_cons in Hl as [? Hl]); unfold is_byte in *; cbn [b64_encode all_chars];
    rewrite ?He, !Hf by lia; simpl; auto.
Qed.

Ltac all_bytes IH :=
  repeat (apply Forall_cons; split); try (by apply IH); unfold is_byte; repeat case_bool_decide; lia.

(** Whatever is valid UTF-8 is made of bytes. *)
Lemma utf8_bytes l : utf8_valid l = true → Forall is_byte l.
Proof.
  revert l. fix IH 1. intros [|b0 l]; [constructor|]. cbn [utf8_valid]. unfold is_cont, in_range.
  case_bool as H0; [intros; apply Forall_cons; split; [unfold is_byte; lia|by apply IH]|].
  destruct l as [|b1 l]; [done|]. case_bool as H1.
  { rewrite andb_true_iff, bool_decide_eq_true. intros [? ?]. all_bytes IH. }
  destruct l as [|b2 l]; [done|]. case_bool as H2.
  { rewrite !andb_true_iff, !bool_decide_eq_true. intros [[Hb1 ?] ?]. all_bytes IH. }
  destruct l as [|b3 l]; [done|]. rewrite !andb_true_iff, !bool_decide_eq_true. intros [[[[? Hb1] ?] ?] ?]. all_bytes IH.
Qed.

Lemma b64_not_pem l : Forall is_byte l → ∀ p, startswith (b64_encode l) (String "-" p) = false.
Proof.
  assert (Hd : ∀ v s p, (0 ≤ v < 64)%Z → startswith (String (b64_char v) s) (String "-" p) = false).
  { intros v s p Hv. pose proof (digits_ok v Hv) as H. unfold digit_ok in H. rewrite !andb_true_iff in H.
    destruct H as (_ & H). apply bool_decide_eq_true in H. cbn [startswith].
    rewrite bool_decide_eq_false_2; [done|]. intros E. apply H. by rewrite <- E. }
  intros Hl p. destruct l as [|a [|b [|c l]]]; [done|..]; apply Forall_cons in Hl as [? _]; unfold is_byte in *;
    cbn [b64_encode]; apply Hd; lia.
Qed.

(** ** Properties *)

(** C37. Decoding inverts base64: whatever text an element of a secret has, its
    base64 encoding is decoded to exactly that text, while a PEM or sanitized
    text given as it is stays as it is. *)
Theorem secret_element_roundtrip (pem : bytes) (text : string) :
  utf8_valid pem = true → startswith text "-----BEGIN" = true ∨ startswith text "-sanitized-" = true →
  element true (Some (b64_encode pem)) = Ok (Some pem) ∧ element true (Some text) = Ok (Some (encode_utf8 text)).
Proof.
  intros Hv Ht. pose proof (utf8_bytes _ Hv) as Hb. split.
  - destruct pem as [|b pem]; [done|]. unfold element, is_decodable.
    rewrite !b64_not_pem by done. simpl negb. rewrite andb_true_r.
    assert (Hs : str_bool (b64_encode (b :: pem)) = true) by (by destruct pem as [|? [|? ?]]).
    rewrite Hs. unfold decode, a2b_base64. rewrite b64_all_chars; [|..|done]; [|intros v Hd|done].
    + rewrite b64_decodes by done. cbn [mbind res_bind]. by rewrite Hv.
    + pose proof (digits_ok v Hd) as H. unfold digit_ok in H. rewrite !andb_true_iff in H. tauto.
  - unfold element, is_decodable. destruct Ht as [-> | ->]; by rewrite ?orb_true_r, andb_false_r.
Qed.

Lemma secret_element_roundtrip_witness :
  element true (Some (b64_encode [65; 195; 169; 10]%Z)) = Ok (Some [65; 195; 169; 10]%Z) ∧
  element true (Some "-----BEGIN") = Ok (Some (encode_utf8 "-----BEGIN")).
Proof. apply secret_element_roundtrip; [reflexivity|left; reflexivity]. Defined.

(** What each path of a saved secret should hold. *)
Definition holds (fs : dict bytes) (path : option string) (el : option bytes) : Prop :=
  match path with Some p => dget p fs = el | None => pem_bool el = false end.

Lemma write_element_spec base ext el fs p fs' :
  write_element (base +:+ ext) el fs = (p, fs') →
  holds fs' p el ∧ (∀ x, x ≠ ext → dget (base +:+ x) fs' = dget (base +:+ x) fs) ∧
  match p with Some q => q = base +:+ ext ∧ pem_bool el = true | None => pem_bool el = false end.
Proof.
  unfold write_element. destruct el as [[|b el]|]; intros [= <- <-]; [done| |done].
  split; [apply dget_dset_eq|]. split; [|done].
  intros x Hx. apply dget_dset_ne. intros E. by apply (inj (String.append base)) in E.
Qed.

Lemma holds_later base ext fs fs' p el :
  holds fs p el → match p with Some q => q = base +:+ ext ∧ pem_bool el = true | None => pem_bool el = false end →
  dget (base +:+ ext) fs' = dget (base +:+ ext) fs → holds fs' p el.
Proof. destruct p; simpl; [intros H [-> _] E; congruence|done]. Qed.

Lemma path_bool_ext base ext p (el : option bytes) :
  str_bool ext = true →
  match p with Some q => q = base +:+ ext ∧ pem_bool el = true | None => pem_bool el = false end →
  path_bool p = pem_bool el.
Proof. intros He. destruct p; simpl; [|done]. intros [-> ->]. by destruct base, ext. Qed.

(** The files of a saved secret: each path that [cache_secret] reports holds
    the element it is for, an element without a path is empty, and the result
    is true exactly when there is a certificate or a user key. *)
Theorem cache_secret_files cache_dir s fs ss fs' :
  cache_secret cache_dir s fs = (ss, fs') →
  (SavedSecret_bool ss = true ↔ pem_bool (tls_crt s) = true ∨ pem_bool (user_key s) = true) ∧
  holds fs' (cert_path ss) (tls_crt s) ∧ holds fs' (user_path ss) (user_key s) ∧
  holds fs' (root_cert_path ss) (root_crt s) ∧
  (SavedSecret_bool ss = true → holds fs' (key_path ss) (tls_key s)).
Proof.
  unfold cache_secret. destruct (pem_bool (tls_crt s) || _ || _) eqn:Hany.
  - set (base := path_join _ _).
    destruct (write_element (base +:+ ".crt") _ _) as [p1 fs1] eqn:H1.
    destruct (write_element (base +:+ ".key") _ _) as [p2 fs2] eqn:H2.
    destruct (write_element (base +:+ ".user") _ _) as [p3 fs3] eqn:H3.
    destruct (write_element (base +:+ ".root.crt") _ _) as [p4 fs4] eqn:H4. intros [= <- <-].
    apply write_element_spec in H1 as (W1 & F1 & P1), H2 as (W2 & F2 & P2), H3 as (W3 & F3 & P3), H4 as (W4 & F4 & P4).
    unfold SavedSecret_bool. cbn [cert_path user_path key_path root_cert_path cert_data].
    rewrite (path_bool_ext base ".crt" p1 _ eq_refl P1), (path_bool_ext base ".user" p3 _ eq_refl P3), andb_true_r.
    split; [by rewrite orb_true_iff|]. split_and!; [|..|done|intros _].
    + eapply (holds_later base ".crt" fs1); [done..|]. by rewrite F4, F3, F2.
    + eapply (holds_later base ".user" fs3); [done..|]. by rewrite F4.
    + eapply (holds_later base ".key" fs2); [done..|]. by rewrite F4, F3.
  - rewrite !orb_false_iff in Hany. destruct Hany as [[Hc Hu] Hr]. intros [= <- <-]. simpl.
    rewrite Hc, Hu. split; [split; [done|intros [?|?]; done]|]. done.
Qed.

Definition demo_secret : SecretInfo :=
  mkSecretInfo "tls" "default" "kubernetes.io/tls" (Some [67]%Z) (Some [75]%Z) None (Some [82]%Z).

Lemma cache_secret_files_witness :
  ∃ ss fs', cache_secret "/cache" demo_secret [] = (ss, fs') ∧ SavedSecret_bool ss = true ∧
    holds fs' (cert_path ss) (Some [67]%Z) ∧ holds fs' (key_path ss) (Some [75]%Z).
Proof.
  destruct (cache_secret "/cache" demo_secret []) as [ss fs'] eqn:E. exists ss, fs'.
  destruct (cache_secret_files "/cache" demo_secret [] ss fs' E) as (Hb & Hc & _ & _ & Hk).
  split; [reflexivity|]. assert (Hs : SavedSecret_bool ss = true) by (apply Hb; left; reflexivity).
  split; [exact Hs|]. split; [exact Hc|]. exact (Hk Hs).
Defined.

(** ** Lookup *)

(** The secret a name and a namespace mean: the configured one, or else what
    the handler loads. *)
Definition meant (h : SecretHandler) (infos : dict SecretInfo) (name namespace : string) : SavedSecret :=
  match dget (name +:+ "." +:+ namespace) infos with
  | Some i => (cache_secret (cache_dir h) i []).1
  | None =>
      match load_secret h name namespace with
      | Some i => (cache_secret (cache_dir h) i []).1
      | None => mkSaved name namespace None None None None None
      end
  end.

Lemma cache_secret_indep dir i fs fs' : (cache_secret dir i fs).1 = (cache_secret dir i fs').1.
Proof.
  unfold cache_secret, write_element. destruct (pem_bool (tls_crt i) || _ || _); [|done].
  destruct (tls_crt i) as [[]|], (tls_key i) as [[]|], (user_key i) as [[]|], (root_crt i) as [[]|]; done.
Qed.

Definition dotless (s : string) : bool := negb (mem_char "." s).

(** Requests, one after the other, and the answers. *)
Fixpoint resolve_all (h : SecretHandler) (reqs : list (string * string)) (st : secrets) : list SavedSecret :=
  match reqs with
  | [] => []
  | (name, ns) :: reqs => let '(ss, st) := resolve_secret h name ns st in ss :: resolve_all h reqs st
  end.

Lemma resolve_step h name ns st :
  dotless name = true → Forall (λ k, dotless k = true) (dkeys (saved_secrets st)) →
  ∃ st', resolve_secret h name ns st = (meant h (secret_info st) name ns, st') ∧ secret_info st' = secret_info st ∧
    Forall (λ k, dotless k = true) (dkeys (saved_secrets st')).
Proof.
  intros Hn Hs. unfold resolve_secret, fetch_secret, found_secret, meant. set (key := name +:+ "." +:+ ns).
  assert (Hk : dget key (saved_secrets st) = None).
  { apply dget_None. intros Hin. eapply Forall_forall in Hs; [|exact Hin]. unfold dotless in Hs.
    rewrite (proj2 (mem_char_spec "." key)) in Hs; [done|]. by exists name, ns. }
  rewrite Hk. assert (Hd : ∀ ss, Forall (λ k, dotless k = true) (dkeys (dset name ss (saved_secrets st)))).
  { intros ss. apply Forall_forall. intros k [->|Hin]%elem_of_dkeys_dset; [done|]. by eapply Forall_forall in Hs. }
  destruct (dget key (secret_info st)) as [i|]; [|destruct (load_secret h name ns) as [i|]].
  - rewrite (cache_secret_indep _ i [] (secret_files st)).
    destruct (cache_secret (cache_dir h) i (secret_files st)) as [ss fs].
    eexists. split; [reflexivity|]. split; [done|]. apply Hd.
  - rewrite (cache_secret_indep _ i [] (secret_files st)).
    destruct (cache_secret (cache_dir h) i (secret_files st)) as [ss fs].
    eexists. split; [reflexivity|]. split; [done|]. apply Hd.
  - eexists. split; [reflexivity|]. by split.
Qed.

(** C36. Lookup answers the secret that is meant: whatever was looked up before,
    a request for a name and a namespace is answered with the configured
    secret of that name in that namespace, else with what the handler loads,
    else with an empty one - as long as no name has a dot in it. *)
Theorem resolve_secret_exact h reqs st :
  saved_secrets st = [] → Forall (λ r, dotless r.1 = true) reqs →
  resolve_all h reqs st = (λ r, meant h (secret_info st) r.1 r.2) <$> reqs.
Proof.
  intros H0 Hr. assert (Hs : Forall (λ k, dotless k = true) (dkeys (saved_secrets st))) by (by rewrite H0).
  clear H0. revert st Hs. induction Hr as [|[name ns] reqs Hn _ IH]; intros st Hs; [done|]. cbn [resolve_all].
  destruct (resolve_step h name ns st Hn Hs) as (st' & -> & Hi & Hs'). rewrite (IH st' Hs'), Hi. done.
Qed.

Lemma name_not_key (a b : string) : a ≠ a +:+ "." +:+ b.
Proof. intros E%(f_equal slen). rewrite slen_app in E. simpl in E. lia. Qed.

(** A lookup leaves what it looks up as it was. *)
Lemma found_secret_keeps h name ns i st ss st' :
  found_secret h name i st = (ss, st') →
  secret_info st' = secret_info st ∧
  dget (name +:+ "." +:+ ns) (saved_secrets st') = dget (name +:+ "." +:+ ns) (saved_secrets st) ∧
  (found_secret h name i st').1 = ss.
Proof.
  unfold found_secret. pose proof (cache_secret_indep (cache_dir h) i (secret_files st)) as Hi.
  destruct (cache_secret (cache_dir h) i (secret_files st)) as [x fs]. intros [= <- <-]. simpl in *.
  split; [done|]. split; [|rewrite (Hi fs); by destruct (cache_secret _ i fs)].
  apply dget_dset_ne. intros E. by apply (name_not_key name ns).
Qed.

(** Looking a secret up again gives the same answer. *)
Lemma resolve_secret_again h name ns st ss st' :
  resolve_secret h name ns st = (ss, st') → (resolve_secret h name ns st').1 = ss.
Proof.
  intros H. unfold resolve_secret in *.
  assert (Hl : fetch_secret h name ns st = (ss, st') →
    dget (name +:+ "." +:+ ns) (saved_secrets st') = dget (name +:+ "." +:+ ns) (saved_secrets st) ∧
    (fetch_secret h name ns st').1 = ss).
  { unfold fetch_secret. destruct (dget _ (secret_info st)) as [i|] eqn:Hi; [|destruct (load_secret h name ns) as [i|] eqn:Hld].
    - intros Hf. destruct (found_secret_keeps h name ns i st ss st' Hf) as (E1 & E2 & E3). by rewrite E1, Hi.
    - intros Hf. destruct (found_secret_keeps h name ns i st ss st' Hf) as (E1 & E2 & E3). by rewrite E1, Hi.
    - intros [= <- <-]. by rewrite Hi. }
  destruct (dget _ (saved_secrets st)) as [x|] eqn:Hk.
  - destruct (SavedSecret_bool x) eqn:Hx; [injection H as <- <-; by rewrite Hk, Hx|].
    destruct (Hl H) as [-> E]. by rewrite Hx.
  - destruct (Hl H) as [-> E]. done.
Qed.

Definition demo_store : secrets :=
  mkSecrets [("a.b.c", mkSecretInfo "a.b" "c" "kubernetes.io/tls" (Some [1]%Z) (Some [2]%Z) None None);
             ("a.b", mkSecretInfo "a" "b" "kubernetes.io/tls" (Some [3]%Z) (Some [4]%Z) None None)] [] [].

Lemma resolve_secret_exact_witness :
  resolve_all (base_handler "/cache") [("a", "b"); ("x", "y"); ("a", "b")] demo_store
  = (λ r, meant (base_handler "/cache") (secret_info demo_store) r.1 r.2) <$> [("a", "b"); ("x", "y"); ("a", "b")].
Proof. apply resolve_secret_exact; [reflexivity|]. repeat constructor. Defined.

(** With a dot the answer can be another secret: what is found is remembered
    under its name alone but looked for under name and namespace, so once
    secret [a.b] of namespace [c] was found, secret [a] of namespace [b] is
    answered with it. *)
Lemma resolve_secret_confused :
  ∃ s1 s2, resolve_all (base_handler "/cache") [("a.b", "c"); ("a", "b")] demo_store = [s1; s2] ∧
    ss_secret_name s2 = "a.b" ∧ ss_namespace s2 = "c" ∧
    meant (base_handler "/cache") (secret_info demo_store) "a" "b" ≠ s2.
Proof.
  eexists. eexists. split; [vm_compute; reflexivity|]. split; [reflexivity|]. split; [reflexivity|]. vm_compute. discriminate.
Qed.

(** The names of the files leave out the root certificate: a secret whose root
    certificate alone changes keeps every path. *)
Lemma root_change_keeps_paths dir name ns ty crt key user r r' fs fs' :
  r ≠ [] → r' ≠ [] →
  SavedSecret_str (cache_secret dir (mkSecretInfo name ns ty crt key user (Some r)) fs).1 =
  SavedSecret_str (cache_secret dir (mkSecretInfo name ns ty crt key user (Some r')) fs').1.
Proof.
  intros Hr Hr'. unfold cache_secret, write_element, secret_digest. cbn [tls_crt tls_key user_key root_crt si_name si_namespace].
  destruct r; [done|]. destruct r'; [done|]. simpl pem_bool. rewrite !orb_true_r.
  destruct crt as [[]|], key as [[]|], user as [[]|]; reflexivity.
Qed.
