(* ===== verification/TLSContext.v ===== *)
(** * TLS contexts ([ir/irtlscontext.py], [ir/irtls.py], and the TLS contexts of
      [ir/ir.py] and [ir/irambassador.py])

    A TLS context is shared: the IR files it by name and a Host holds it too,
    so contexts live in a store and are referred to by location.  The order in
    which Python iterates over the set of certificate keys is an argument. *)

From S2P Require Import Prelude PyStr PyVal Resource ServiceName PyText BaseMapping HTTPMapping Group Listener Secret.

Definition CertKeys : list string :=
  ["secret"; "cert_chain_file"; "private_key_file"; "ca_secret"; "cacert_chain_file"; "crl_secret"; "crl_file"].

Definition tls_allowed_keys : list string :=
  ["_ambassador_enabled"; "_legacy"; "alpn_protocols"; "cert_required"; "cipher_suites"; "ecdh_curves"; "hosts";
   "max_tls_version"; "min_tls_version"; "redirect_cleartext_from"; "secret_namespacing"; "sni"].

Definition AllowedTLSVersions : list string := ["v1.0"; "v1.1"; "v1.2"; "v1.3"].

(** What TLS contexts read of the IR: its namespace, the [defaults] of the
    Ambassador module, the secret handler, the file checker, and the iteration
    order of [CertKeys]. *)
Record tls_env : Type := mkTLSEnv {
  te_namespace : string;
  te_defaults : dict pyval;
  te_handler : SecretHandler;
  te_file_checker : string → bool;
  te_order : list string
}.

(** [self.name], as it is printed *)
Definition name_text (self : dict pyval) : res string := n ← getattr self "name"; Ok (py_text n).

(** ** [setup] *)

(** The certificate is named once; the number of errors is that of the posted
    ones. *)
Definition check_cert_spec (s : setup_state) : res setup_state :=
  name ← name_text (su_self s);
  let sec := py_bool (pget "secret" (su_self s)) in
  let chain := py_bool (pget "cert_chain_file" (su_self s)) in
  let s := if chain && negb (py_bool (pget "private_key_file" (su_self s)))
           then su_post ("TLSContext " +:+ name +:+ ": 'cert_chain_file' requires 'private_key_file' as well") s else s in
  Ok (if sec && chain
      then su_post ("TLSContext " +:+ name +:+ ": exactly one of 'secret' and 'cert_chain_file' must be present") s
      else s).

Definition check_redirect (s : setup_state) : res setup_state :=
  match pget "redirect_cleartext_from" (su_self s) with
  | PNone => Ok s
  | rcf =>
      n ← int_of rcf;
      match n with
      | Some z => Ok (su_set "redirect_cleartext_from" (PInt z) s)
      | None =>
          name ← name_text (su_self s);
          Ok (su_set "redirect_cleartext_from" PNone (su_post ("TLSContext " +:+ name +:+
            ": redirect_cleartext_from must be a port number rather than '" +:+ py_text rcf +:+ "'") s))
      end
  end.

(** The certificate keys move into [secret_info]. *)
Fixpoint move_keys (keys : list string) (self info : dict pyval) : dict pyval * dict pyval :=
  match keys with
  | [] => (self, info)
  | k :: keys =>
      match dget k self with
      | Some v => move_keys keys (ddel k self) (dset k v info)
      | None => move_keys keys self info
      end
  end.

Definition IRTLSContext_setup (order : list string) (s : setup_state) : setup_step :=
  s' ← (if py_bool (dget_default "_ambassador_enabled" (PBool false) (su_self s)) then Ok s else check_cert_spec s);
  if bool_decide (length (su_errors s) < length (su_errors s')) then Ok (false, s')
  else
    s' ← check_redirect s';
    let self := dset "secret_info" (PDict []) (su_self s') in
    let '(self, info) := move_keys order self [] in
    Ok (true, mkSetup (dset "secret_info" (PDict info) self) (su_errors s') (su_notices s')).

(** [__init__]: the context and the errors posted. *)
Definition IRTLSContext_init (env : tls_env) (a : res_args) (metadata_labels is_fallback : pyval) (kwargs : dict pyval)
    : res (dict pyval * list string) :=
  let new_args := List.filter (λ kv : string * pyval, bool_decide (kv.1 ∈ tls_allowed_keys ++ CertKeys)) kwargs in
  self ← IRResource_init (te_namespace env) a
           (("metadata_labels", metadata_labels) :: ("is_fallback", is_fallback) :: new_args);
  '(active, s) ← IRTLSContext_setup (te_order env) (mkSetup self [] []);
  Ok (su_self (su_set "_active" (PBool active) s), su_errors s).

(** ** The secret of a context *)

Definition info_of (self : dict pyval) : res (dict pyval) := i ← getattr self "secret_info"; as_dict i.

Definition has_secret (self : dict pyval) : res bool := vmem "secret" (dget_default "secret_info" (PDict []) self).

Definition ctx_secret_name (self : dict pyval) : res pyval :=
  h ← has_secret self;
  if (h : bool) then i ← info_of self; dget_exn "secret" i else Ok PNone.

Definition set_secret_name (secret_name : pyval) (self : dict pyval) : res (dict pyval) :=
  i ← info_of self; Ok (dset "secret_info" (PDict (dset "secret" secret_name i)) self).

(** [IRTLSContext.resolve_secret] *)
Definition ctx_resolve_secret (env : tls_env) (self : dict pyval) (secret_name : string) (st : secrets)
    : res (SavedSecret * secrets) :=
  ns ← getattr self "namespace"; ns ← as_str ns;
  namespacing ← lookup_attr (te_defaults env) self "secret_namespacing" [PBool true] PNone (PStr "tls_secret_namespacing");
  match (if mem_char "." secret_name && py_bool namespacing then rsplit1 "." secret_name else None) with
  | Some (name, ns) => Ok (resolve_secret (te_handler env) name ns st)
  | None => Ok (resolve_secret (te_handler env) secret_name ns st)
  end.

(** ** [resolve] *)

(** A context being resolved: its attributes, the errors posted and the
    secrets; [rs_valid] is [secret_valid]. *)
Record resolving : Type := mkRes {
  rs_self : dict pyval;
  rs_errors : list string;
  rs_secrets : secrets;
  rs_valid : bool
}.

Definition rs_post (msg : string) (r : resolving) : resolving :=
  mkRes (dset "_errored" (PBool true) (rs_self r)) (rs_errors r ++ [msg]) (rs_secrets r) (rs_valid r).
Definition rs_invalid (r : resolving) : resolving := mkRes (rs_self r) (rs_errors r) (rs_secrets r) false.
Definition rs_with (sec : secrets) (r : resolving) : resolving := mkRes (rs_self r) (rs_errors r) sec (rs_valid r).
Definition rs_set (k : string) (v : pyval) (r : resolving) : resolving :=
  mkRes (dset k v (rs_self r)) (rs_errors r) (rs_secrets r) (rs_valid r).
Definition rs_info (f : dict pyval → dict pyval) (r : resolving) : res resolving :=
  i ← info_of (rs_self r); Ok (rs_set "secret_info" (PDict (f i)) r).

Definition path_val (p : option string) : pyval := match p with Some s => PStr s | None => PNone end.

(** A step: whether [resolve] goes on (or returns [False]), and the state. *)
Definition resolve_step_t : Type := res (bool * resolving).

(** The certificate *)
Definition resolve_cert (env : tls_env) (r : resolving) : resolve_step_t :=
  i ← info_of (rs_self r);
  name ← name_text (rs_self r);
  if py_bool (pget "secret" i) then
    sn ← as_str (pget "secret" i);
    '(ss, sec) ← ctx_resolve_secret env (rs_self r) sn (rs_secrets r);
    let r := rs_with sec r in
    if negb (SavedSecret_bool ss) then
      r ← rs_info (ddel "secret")
            (rs_post ("TLSContext " +:+ name +:+ " found no certificate in " +:+ SavedSecret_name ss +:+ ", ignoring...") r);
      Ok (true, rs_invalid r)
    else if negb (path_bool (key_path ss)) then
      Ok (false, rs_post ("TLSContext " +:+ name +:+ " found no private key in " +:+ SavedSecret_name ss) r)
    else
      r ← rs_info (λ i,
            let i := dset "private_key_file" (path_val (key_path ss)) (dset "cert_chain_file" (path_val (cert_path ss)) i) in
            if path_bool (root_cert_path ss) then dset "cacert_chain_file" (path_val (root_cert_path ss)) i else i) r;
      Ok (true, r)
  else Ok (true, r).

(** The certificate revocation list *)
Definition resolve_crl (env : tls_env) (r : resolving) : resolve_step_t :=
  i ← info_of (rs_self r);
  name ← name_text (rs_self r);
  if py_bool (pget "crl_secret" i) then
    sn ← as_str (pget "crl_secret" i);
    '(crls, sec) ← ctx_resolve_secret env (rs_self r) sn (rs_secrets r);
    let r := rs_with sec r in
    if negb (SavedSecret_bool crls) then
      Ok (true, rs_invalid (rs_post ("TLSContext " +:+ name +:+ " found no certificate revocation list in " +:+
                                     SavedSecret_name crls) r))
    else r ← rs_info (dset "crl_file" (path_val (user_path crls))) r; Ok (true, r)
  else Ok (true, r).

(** The text of an ASCII element *)
Fixpoint text_bytes (b : list Z) : string :=
  match b with [] => EmptyString | n :: b => String (chr n) (text_bytes b) end.

(** [base64.b64decode(v).decode("utf-8").lower() == "true"] *)
Definition cert_required_true (v : list Z) : res bool :=
  d ← a2b_base64 (text_bytes v);
  match d with
  | Some b => if utf8_valid b then Ok (bool_decide (lower (text_bytes b) = "true")) else Raise (ValueError "utf-8")
  | None => Raise (ValueError "Incorrect padding")
  end.

(** The certificate clients are validated against *)
Definition resolve_ca (env : tls_env) (r : resolving) : resolve_step_t :=
  i ← info_of (rs_self r);
  name ← name_text (rs_self r);
  let no_termination := rs_post ("TLSContext " +:+ name +:+ " cannot validate client certs without TLS termination") r in
  if py_bool (pget "ca_secret" i) then
    if negb (py_bool (pget "cert_chain_file" i)) then Ok (false, no_termination)
    else
      sn ← as_str (pget "ca_secret" i);
      '(ss, sec) ← ctx_resolve_secret env (rs_self r) sn (rs_secrets r);
      let r := rs_with sec r in
      if negb (SavedSecret_bool ss) then
        Ok (true, rs_invalid (rs_post ("TLSContext " +:+ name +:+ " found no validation certificate in " +:+
                                       SavedSecret_name ss) r))
      else
        r ← rs_info (dset "cacert_chain_file" (path_val (cert_path ss))) r;
        match cert_data ss ≫= dget "cert_required" with
        | Some (Some v) => b ← cert_required_true v; Ok (true, rs_set "cert_required" (PBool b) r)
        | _ => Ok (true, r)
        end
  else if py_bool (pget "cacert_chain_file" i) && negb (py_bool (pget "cert_chain_file" i)) then Ok (false, no_termination)
  else Ok (true, r).

(** One path of the final check: the errors it adds. *)
Definition check_path (env : tls_env) (info : dict pyval) (hosts : bool) (name key : string) : list string :=
  let path := pget key info in
  if py_bool path then
    if te_file_checker env (py_text path) then []
    else ["TLSContext " +:+ name +:+ " found no " +:+ key +:+ " '" +:+ py_text path +:+ "'"]
  else if negb (bool_decide (key = "cacert_chain_file") || bool_decide (key = "crl_file")) && hosts
  then ["TLSContext " +:+ name +:+ " is missing " +:+ key]
  else [].

Definition path_keys : list string := ["cert_chain_file"; "private_key_file"; "cacert_chain_file"; "crl_file"].

Definition check_paths (env : tls_env) (r : resolving) : resolve_step_t :=
  i ← info_of (rs_self r);
  name ← name_text (rs_self r);
  let es := path_keys ≫= check_path env i (py_bool (pget "hosts" (rs_self r))) name in
  Ok (match es with [] => true | _ => false end, foldl (λ r e, rs_post e r) r es).

Definition rs_then (x : resolve_step_t) (k : resolving → resolve_step_t) : resolve_step_t :=
  '(ok, r) ← x; if (ok : bool) then k r else Ok (false, r).

(** [resolve] *)
Definition IRTLSContext_resolve (env : tls_env) (self : dict pyval) (sec : secrets) : resolve_step_t :=
  if py_bool (dget_default "_ambassador_enabled" (PBool false) self) then Ok (true, mkRes self [] sec true)
  else
    let is_valid := py_bool (pget "redirect_cleartext_from" self) || py_bool (pget "alpn_protocols" self) in
    i ← info_of self;
    name ← name_text self;
    let r := mkRes self [] sec true in
    let r := if py_bool (PDict i) then r
             else rs_post ("TLSContext " +:+ name +:+ " has no certificate information at all?") r in
    rs_then (rs_then (rs_then (resolve_cert env r) (resolve_crl env)) (resolve_ca env))
      (λ r, if rs_valid r then check_paths env r else Ok (is_valid, r)).

(** ** Contexts of the TLS module *)

Definition copy_keys (keys : list string) (from to : dict pyval) : dict pyval :=
  foldl (λ d k, if py_bool (pget k from) then dset k (pget k from) d else d) to keys.

(** The arguments [from_legacy] makes. *)
Definition legacy_args (cert : dict pyval) (termination : bool) (validation_ca : dict pyval) : dict pyval :=
  let args := copy_keys ["secret"; "cert_chain_file"; "private_key_file"; "alpn_protocols"; "redirect_cleartext_from"]
                cert [] in
  let args := if negb (dmem "secret" args) && negb (dmem "cert_chain_file" args) && negb (dmem "private_key_file" args)
              then dset "secret" (PStr "ambassador-certs") args else args in
  if termination then
    let args := dset "hosts" (PList [PStr "*"]) args in
    if py_bool (PDict validation_ca) && py_bool (dget_default "enabled" (PBool true) validation_ca) then
      let args := if py_bool (pget "secret" validation_ca) then dset "ca_secret" (pget "secret" validation_ca) args
                  else args in
      let args := copy_keys ["cacert_chain_file"; "cert_required"] validation_ca args in
      if negb (dmem "ca_secret" args) && negb (dmem "cacert_chain_file" args)
      then dset "secret" (PStr "ambassador-cacert") args else args
    else args
  else args.

Definition from_legacy (env : tls_env) (name rkey location : string) (cert : dict pyval) (termination : bool)
    (validation_ca : dict pyval) : res (dict pyval * list string) :=
  IRTLSContext_init env (mkRA rkey name location PNone "synthesized-TLS-context" "getambassador.io/v3alpha1") PNone
    (PBool false) (("_legacy", PBool true) :: legacy_args cert termination validation_ca).

(** ** The contexts of the IR *)

Record tls_state : Type := mkTLS {
  tl_objs : list (dict pyval);
  tl_names : dict nat;
  tl_redirect : pyval;
  tl_errors : list string;
  tl_secrets : secrets
}.

Definition tl_post (es : list string) (st : tls_state) : tls_state :=
  mkTLS (tl_objs st) (tl_names st) (tl_redirect st) (tl_errors st ++ es) (tl_secrets st).
Definition tl_with_secrets (sec : secrets) (st : tls_state) : tls_state :=
  mkTLS (tl_objs st) (tl_names st) (tl_redirect st) (tl_errors st) sec.
Definition tl_update (i : nat) (ctx : dict pyval) (st : tls_state) : tls_state :=
  mkTLS (<[i := ctx]> (tl_objs st)) (tl_names st) (tl_redirect st) (tl_errors st) (tl_secrets st).

(** A new object, with the errors its construction posted. *)
Definition tl_new (ctx : dict pyval) (es : list string) (st : tls_state) : nat * tls_state :=
  (length (tl_objs st),
   mkTLS (tl_objs st ++ [ctx]) (tl_names st) (tl_redirect st) (tl_errors st ++ es) (tl_secrets st)).

(** [get_tls_context] and [has_tls_context] *)
Definition get_tls_context (name : string) (st : tls_state) : option (nat * dict pyval) :=
  i ← dget name (tl_names st); c ← tl_objs st !! i; Some (i, c).
Definition has_tls_context (name : string) (st : tls_state) : bool :=
  match get_tls_context name st with Some (_, c) => res_bool c | None => false end.

(** [IR.save_tls_context] *)
Definition save_tls_context (i : nat) (st : tls_state) : res tls_state :=
  ctx ← deref (tl_objs st) i;
  name ← getattr ctx "name"; name ← as_str name;
  '(valid, st) ←
    (match get_tls_context name st with
     | Some (_, extant) =>
         if res_bool extant then
           loc ← getattr extant "location";
           Ok (false, tl_post ["Duplicate TLSContext " +:+ name +:+ "; keeping definition from " +:+ py_text loc] st)
         else Ok (true, st)
     | None => Ok (true, st)
     end);
  let '(valid, st) :=
    match pget "redirect_cleartext_from" ctx with
    | PNone => (valid : bool, st)
    | rcf =>
        match tl_redirect st with
        | PNone => (valid, mkTLS (tl_objs st) (tl_names st) rcf (tl_errors st) (tl_secrets st))
        | cur =>
            if py_eqb cur rcf then (valid, st)
            else (false, tl_post ["TLSContext: " +:+ name +:+ "; configured conflicting redirect_from port: " +:+ py_text rcf] st)
        end
    end in
  Ok (if (valid : bool) then mkTLS (tl_objs st) (dset name i (tl_names st)) (tl_redirect st) (tl_errors st) (tl_secrets st)
      else st).

(** One context of [TLSContextFactory.load_all]. *)
Definition load_tls_context (env : tls_env) (st : tls_state) (config : dict pyval) : res tls_state :=
  '(a, kwargs) ← split_args "IRTLSContext" "getambassador.io/v3alpha1" config;
  '(ctx, es) ← IRTLSContext_init env a (pget "metadata_labels" kwargs) (dget_default "is_fallback" (PBool false) kwargs)
                 (dpop ["metadata_labels"; "is_fallback"] kwargs);
  if py_bool (pget "_active" ctx) then
    ctx ← referenced_by ctx config;
    ctx ← sourced_by ctx config;
    let '(i, st) := tl_new ctx es st in
    save_tls_context i st
  else Ok (tl_post es st).

Definition tls_load_all (env : tls_env) (configs : list (dict pyval)) (st : tls_state) : res tls_state :=
  fold_res (load_tls_context env) configs st.

(** A context of the TLS module, saved if it is active. *)
Definition save_legacy (env : tls_env) (name rkey location : string) (cert : pyval) (termination : bool)
    (validation_ca : pyval) (st : tls_state) : res tls_state :=
  cert ← match cert with PDict d => Ok d | _ => Raise (AttributeError "get") end;
  ca ← (if py_bool validation_ca then match validation_ca with PDict d => Ok d | _ => Raise (AttributeError "get") end
        else Ok []);
  '(ctx, es) ← from_legacy env name rkey location cert termination ca;
  if py_bool (pget "_active" ctx) then let '(i, st) := tl_new ctx es st in save_tls_context i st
  else Ok (tl_post es st).

(** The blocks of a TLS module that are contexts: what [as_dict] shows, without
    the attributes of the resource. *)
Definition legacy_blocks (tls_module : dict pyval) : dict pyval :=
  List.filter (λ kv : string * pyval,
    negb (bool_decide (kv.2 = PNone)) && negb (startswith kv.1 "_") &&
    negb (bool_decide (kv.1 ∈ ["rkey"; "apiVersion"; "logger"; "ir"; "name"; "namespace"; "metadata_labels"; "location";
                               "kind"; "enabled"]))) tls_module.

(** The last part of [TLSModuleFactory.load_all]: the TLS module, without its
    halves, becomes contexts. *)
Definition load_tls_module (env : tls_env) (tls_module : dict pyval) (st : tls_state) : res tls_state :=
  rkey ← getattr tls_module "rkey"; rkey ← as_str rkey;
  location ← getattr tls_module "location"; location ← as_str location;
  let server := pget "server" tls_module in
  let client := pget "client" tls_module in
  let rest := dpop ["server"; "client"] tls_module in
  st ← (if py_bool server then
          enabled ← vget "enabled" (PBool true) server;
          if py_bool enabled then save_legacy env "server" rkey location server true client st else Ok st
        else Ok st);
  fold_res (λ st (kv : string * pyval), save_legacy env kv.1 rkey location kv.2 false PNone st) (legacy_blocks rest) st.

(** The TLS part of [IRAmbassador.finalize]: contexts that cannot be resolved
    are deactivated and dropped; the result tells whether TLS is terminated. *)
Definition resolve_one (env : tls_env) (x : list string * bool * tls_state) (ni : string * nat)
    : res (list string * bool * tls_state) :=
  let '(to_delete, tls, st) := x in
  ctx ← deref (tl_objs st) ni.2;
  '(ok, r) ← IRTLSContext_resolve env ctx (tl_secrets st);
  let st := tl_with_secrets (rs_secrets r) (tl_post (rs_errors r) st) in
  if (ok : bool) then
    Ok (to_delete, tls || py_bool (pget "hosts" (rs_self r)), tl_update ni.2 (rs_self r) st)
  else Ok (to_delete ++ [ni.1], tls, tl_update ni.2 (dset "_active" (PBool false) (rs_self r)) st).

Definition resolve_contexts (env : tls_env) (st : tls_state) : res (bool * tls_state) :=
  '(to_delete, tls, st) ← fold_res (resolve_one env) (tl_names st) ([], false, st);
  Ok (tls, mkTLS (tl_objs st) (foldl (λ d k, ddel k d) (tl_names st) to_delete) (tl_redirect st) (tl_errors st) (tl_secrets st)).

(** ** Lemmas *)

(** What resolving changes of a context. *)
Definition rframe (r r' : resolving) : Prop :=
  ∀ k, k ∉ ["_errored"; "secret_info"; "cert_required"] → dget k (rs_self r') = dget k (rs_self r).

Lemma rframe_refl r : rframe r r.
Proof. by intros k Hk. Qed.
Lemma rframe_trans r1 r2 r3 : rframe r1 r2 → rframe r2 r3 → rframe r1 r3.
Proof. intros H1 H2 k Hk. rewrite (H2 k Hk). by apply H1. Qed.
Lemma rframe_set k v r : k ∈ ["_errored"; "secret_info"; "cert_required"] → rframe r (rs_set k v r).
Proof. intros Hk k' Hk'. simpl. rewrite dget_dset_ne; [done|]. by intros ->. Qed.
Lemma rframe_post e r : rframe r (rs_post e r).
Proof. intros k Hk. simpl. rewrite dget_dset_ne; [done|]. set_solver. Qed.
Lemma rframe_info f r r' : rs_info f r = Ok r' → rframe r r'.
Proof. unfold rs_info. intros H. bind_step H as i Hi. injection H as <-. apply rframe_set. set_solver. Qed.
Lemma rframe_with sec r : rframe r (rs_with sec r).
Proof. by intros k Hk. Qed.
Lemma rframe_post_with e sec r : rframe r (rs_post e (rs_with sec r)).
Proof. exact (rframe_post e (rs_with sec r)). Qed.
Lemma rframe_invalid r r' : rframe r r' → rframe r (rs_invalid r').
Proof. done. Qed.

#[local] Hint Resolve rframe_refl rframe_post rframe_info rframe_with rframe_invalid rframe_trans : emissary.

Lemma resolve_cert_frame env r b r' : resolve_cert env r = Ok (b, r') → rframe r r'.
Proof.
  unfold resolve_cert. intros H. bind_step H as i Hi. bind_step H as name Hn.
  destruct (py_bool (pget "secret" i)); [|by injection H as <- <-].
  bind_step H as sn Hs. bind_step H as [ss sec] Hr.
  destruct (negb (SavedSecret_bool ss)); [|destruct (negb (path_bool (key_path ss)))].
  - bind_step H as r1 H1. injection H as <- <-. apply rframe_invalid.
    eapply rframe_trans; [apply rframe_post_with|exact (rframe_info _ _ _ H1)].
  - injection H as <- <-. apply rframe_post_with.
  - bind_step H as r1 H1. injection H as <- <-. exact (rframe_info _ _ _ H1).
Qed.

Lemma resolve_crl_frame env r b r' : resolve_crl env r = Ok (b, r') → rframe r r'.
Proof.
  unfold resolve_crl. intros H. bind_step H as i Hi. bind_step H as name Hn.
  destruct (py_bool (pget "crl_secret" i)); [|by injection H as <- <-].
  bind_step H as sn Hs. bind_step H as [ss sec] Hr. destruct (negb (SavedSecret_bool ss)).
  - injection H as <- <-. apply rframe_post_with.
  - bind_step H as r1 H1. injection H as <- <-. exact (rframe_info _ _ _ H1).
Qed.

Lemma resolve_ca_frame env r b r' : resolve_ca env r = Ok (b, r') → rframe r r'.
Proof.
  unfold resolve_ca. intros H. bind_step H as i Hi. bind_step H as name Hn.
  destruct (py_bool (pget "ca_secret" i)).
  - destruct (negb (py_bool (pget "cert_chain_file" i))); [injection H as <- <-; apply rframe_post|].
    bind_step H as sn Hs. bind_step H as [ss sec] Hr. destruct (negb (SavedSecret_bool ss)).
    + injection H as <- <-. apply rframe_post_with.
    + bind_step H as r1 H1. apply rframe_info in H1.
      destruct (cert_data ss ≫= dget "cert_required") as [[x|]|]; [|by injection H as <- <-..].
      bind_step H as b' Hb. injection H as <- <-. eapply rframe_trans; [exact H1|]. apply rframe_set. set_solver.
  - destruct (_ && _); injection H as <- <-; [apply rframe_post|done].
Qed.

(** The paths of a context exist, and one that terminates TLS has both halves. *)
Definition paths_ok (env : tls_env) (ctx : dict pyval) : Prop :=
  ∃ info, dget "secret_info" ctx = Some (PDict info) ∧
    (∀ key, key ∈ path_keys → py_bool (pget key info) = true → te_file_checker env (py_text (pget key info)) = true) ∧
    (py_bool (pget "hosts" ctx) = true →
      py_bool (pget "cert_chain_file" info) = true ∧ py_bool (pget "private_key_file" info) = true).

(** A context Envoy can use: the null context, one that only redirects or sets
    ALPN, or one whose paths are in order. *)
Definition usable (env : tls_env) (ctx : dict pyval) : Prop :=
  py_bool (pget "_ambassador_enabled" ctx) = true ∨
  py_bool (pget "redirect_cleartext_from" ctx) = true ∨ py_bool (pget "alpn_protocols" ctx) = true ∨
  paths_ok env ctx.

Lemma check_path_nil env info hosts name key :
  check_path env info hosts name key = [] →
  (py_bool (pget key info) = true → te_file_checker env (py_text (pget key info)) = true) ∧
  (hosts = true → key ≠ "cacert_chain_file" → key ≠ "crl_file" → py_bool (pget key info) = true).
Proof.
  unfold check_path. destruct (py_bool (pget key info)); [by destruct (te_file_checker _ _)|].
  intros H. split; [done|]. intros -> H1 H2. by rewrite !bool_decide_eq_false_2 in H by done.
Qed.

Lemma check_paths_true env r r' : check_paths env r = Ok (true, r') → r' = r ∧ paths_ok env (rs_self r).
Proof.
  unfold check_paths. intros H. bind_step H as i Hi. bind_step H as name Hn.
  set (hosts := py_bool (pget "hosts" (rs_self r))) in H.
  destruct (path_keys ≫= check_path env i hosts name) as [|e es] eqn:Hes; [|done].
  injection H as <-. split; [done|].
  assert (Hk : ∀ key, key ∈ path_keys → check_path env i hosts name key = []).
  { intros key Hin. apply elem_of_nil_inv. intros e He.
    assert (e ∈ path_keys ≫= check_path env i hosts name) as He' by (apply list_elem_of_bind; eauto).
    rewrite Hes in He'. by apply elem_of_nil in He'. }
  unfold info_of in Hi. bind_step Hi as si Hsi. destruct si as [| | | | |i']; try done. injection Hi as ->.
  exists i. split; [by apply res_of_option_Ok in Hsi|]. split.
  - intros key Hin. apply (check_path_nil env i hosts name key (Hk key Hin)).
  - intros Hh. split; (eapply check_path_nil; [apply Hk; unfold path_keys; set_solver|done..]).
Qed.

Lemma rs_then_true x k r : rs_then x k = Ok (true, r) → ∃ r0, x = Ok (true, r0) ∧ k r0 = Ok (true, r).
Proof. unfold rs_then. intros H. bind_step H as [[] r0] Hx; [by exists r0|done]. Qed.

Lemma pget_rframe k r r' :
  rframe r r' → k ∉ ["_errored"; "secret_info"; "cert_required"] → pget k (rs_self r') = pget k (rs_self r).
Proof. intros H Hk. unfold pget, dget_default. by rewrite H. Qed.

Lemma IRTLSContext_resolve_usable env self sec r : IRTLSContext_resolve env self sec = Ok (true, r) → usable env (rs_self r).
Proof.
  unfold IRTLSContext_resolve. destruct (py_bool (dget_default _ _ _)) eqn:He.
  { intros [= <-]. left. simpl. unfold pget, dget_default in *. by destruct (dget _ self). }
  intros H. bind_step H as i Hi. bind_step H as name Hn.
  set (r0 := if py_bool (PDict i) then _ else _) in H.
  assert (F0 : rframe (mkRes self [] sec true) r0) by (unfold r0; destruct (py_bool (PDict i)); auto with emissary).
  apply rs_then_true in H as (r3 & H & H4). apply rs_then_true in H as (r2 & H & H3).
  apply rs_then_true in H as (r1 & H1 & H2).
  apply resolve_cert_frame in H1. apply resolve_crl_frame in H2. apply resolve_ca_frame in H3.
  pose proof (rframe_trans _ _ _ (rframe_trans _ _ _ (rframe_trans _ _ _ F0 H1) H2) H3) as F.
  destruct (rs_valid r3).
  - apply check_paths_true in H4 as [-> Hp]. right. right. by right.
  - injection H4 as Hv <-. apply orb_true_iff in Hv. right. rewrite !(pget_rframe _ _ _ F) by set_solver. tauto.
Qed.

(** ** The contexts of the IR *)

(** Names and objects correspond one to one. *)
Definition tls_ok (st : tls_state) : Prop :=
  dict_ok (tl_names st) ∧ NoDup (dvalues (tl_names st)) ∧ ∀ i, i ∈ dvalues (tl_names st) → i < length (tl_objs st).

(** The outcome of resolving some of the named contexts. *)
Definition resolved (env : tls_env) (l : dict nat) (del : list string) (objs : list (dict pyval)) : Prop :=
  ∀ n i, (n, i) ∈ l → n ∉ del → ∃ ctx, objs !! i = Some ctx ∧ usable env ctx.

Lemma resolve_one_spec env del tls st n i del' tls' st' :
  resolve_one env (del, tls, st) (n, i) = Ok (del', tls', st') →
  tl_names st' = tl_names st ∧ (∀ j, j ≠ i → tl_objs st' !! j = tl_objs st !! j) ∧
  ∃ ctx, tl_objs st' !! i = Some ctx ∧
    ((del' = del ∧ usable env ctx ∧ tls' = tls || py_bool (pget "hosts" ctx)) ∨ (del' = del ++ [n] ∧ tls' = tls)).
Proof.
  unfold resolve_one. intros H. bind_step H as ctx Hc. bind_step H as [ok r] Hr.
  apply res_of_option_Ok, lookup_lt_Some in Hc. simpl in Hc.
  destruct ok; injection H as <- <- <-; simpl; (split; [done|]; split; [intros j Hj; by apply list_lookup_insert_ne|]).
  - exists (rs_self r). split; [by apply list_lookup_insert_eq|]. left. eauto using IRTLSContext_resolve_usable.
  - eexists. split; [by apply list_lookup_insert_eq|]. by right.
Qed.

Lemma resolve_fold env l : ∀ del tls st del' tls' st',
  fold_res (resolve_one env) l (del, tls, st) = Ok (del', tls', st') → NoDup l.*1 → NoDup l.*2 →
  (∀ n, n ∈ l.*1 → n ∉ del) →
  tl_names st' = tl_names st ∧ (∀ j, j ∉ l.*2 → tl_objs st' !! j = tl_objs st !! j) ∧
  (∀ n, n ∈ del → n ∈ del') ∧ (∀ n, n ∈ del' → n ∈ del ∨ n ∈ l.*1) ∧ resolved env l del' (tl_objs st') ∧
  (tls' = true ↔ tls = true ∨ ∃ n i ctx, (n, i) ∈ l ∧ n ∉ del' ∧ tl_objs st' !! i = Some ctx ∧
     py_bool (pget "hosts" ctx) = true).
Proof.
  induction l as [|[n i] l IH]; intros del tls st del' tls' st' H Hn Hi Hd; cbn [fold_res] in H.
  { injection H as <- <- <-. split_and!; try done; [by auto|by intros ?? ?%elem_of_nil|].
    split; [by left|]. intros [?|(?&?&?&?%elem_of_nil&_)]; done. }
  bind_step H as [[del1 tls1] st1] H1. apply resolve_one_spec in H1 as (Hnm & Ho & ctx & Hc & Hcase).
  rewrite !fmap_cons, !NoDup_cons in *. simpl in *. destruct Hn as [Hn Hns], Hi as [Hi His].
  assert (Hdn : n ∉ del) by (apply Hd; by left).
  assert (Hdel : ∀ n', n' ∈ del1 ↔ n' ∈ del ∨ (del1 = del ++ [n] ∧ n' = n)).
  { intros n'. destruct Hcase as [(-> & _)|(-> & _)].
    - split; [by left|]. intros [?|[E%(f_equal length) _]]; [done|]. rewrite length_app in E. simpl in E. lia.
    - rewrite elem_of_app, list_elem_of_singleton. tauto. }
  apply IH in H as (Hnm' & Ho' & Hsub & Hsup & Hres & Hflag); [|done..|].
  2: { intros n' Hn' [?|[_ ->]]%Hdel; [|done]. apply (Hd n'); [by right|done]. }
  assert (Hni : tl_objs st' !! i = Some ctx) by (by rewrite Ho').
  assert (Hnd : n ∈ del' ↔ del1 = del ++ [n]).
  { split; [|intros E; apply Hsub, Hdel; by right]. intros [[?|[E _]]%Hdel|?]%Hsup; done. }
  split; [congruence|].
  split; [intros j Hj; rewrite elem_of_cons in Hj; rewrite Ho', Ho by tauto; done|].
  split; [intros n' Hn'; apply Hsub, Hdel; by left|].
  split; [intros n' [[?|[_ ->]]%Hdel|?]%Hsup; rewrite elem_of_cons; tauto|].
  split.
  - intros n' i' [[= -> ->]|Hin]%elem_of_cons Hnot; [|by eapply Hres].
    destruct Hcase as [(-> & Hu & _)|(-> & _)]; [by exists ctx|]. destruct Hnot. by apply Hnd.
  - rewrite Hflag. destruct Hcase as [(-> & Hu & ->)|(-> & ->)].
    + rewrite orb_true_iff. split.
      * intros [[?|?]|(n' & i' & c' & ? & ?)]; [by left|right; exists n, i, ctx|right; exists n', i', c'; split; [by right|done]].
        split; [left|]. split; [|done]. rewrite Hnd. intros E%(f_equal length). rewrite length_app in E. simpl in E. lia.
      * intros [?|(n' & i' & c' & [[= -> ->]|Hin]%elem_of_cons & ? & Hc' & ?)]; [by auto|left; right; congruence|].
        right. by exists n', i', c'.
    + split.
      * intros [?|(n' & i' & c' & ? & ?)]; [by left|right; exists n', i', c'; split; [by right|done]].
      * intros [?|(n' & i' & c' & [[= -> ->]|Hin]%elem_of_cons & Hnot & ?)]; [by auto|by destruct Hnot; apply Hnd|].
        right. by exists n', i', c'.
Qed.

Lemma dvalues_dset_fresh (n : string) (i : nat) (d : dict nat) :
  NoDup (dvalues d) → i ∉ dvalues d → NoDup (dvalues (dset n i d)).
Proof.
  intros Hd Hi. induction d as [|[k j] d IH]; simpl; [apply NoDup_singleton|].
  unfold dvalues in *. rewrite fmap_cons in *. simpl in *. apply NoDup_cons in Hd as [Hj Hd].
  case_bool as E; simpl; apply NoDup_cons.
  - split; [set_solver|done].
  - split; [|apply IH; set_solver]. intros ([k' j'] & -> & [[= -> ->]|Hin]%elem_of_dset)%list_elem_of_fmap; [set_solver|].
    apply Hj, list_elem_of_fmap. by exists (k', j').
Qed.

Lemma tls_ok_new ctx es st : tls_ok st → tls_ok (tl_new ctx es st).2 ∧ (tl_new ctx es st).1 ∉ dvalues (tl_names st).
Proof.
  intros (Hd & Hn & Hl). simpl. split.
  - split; [done|]. split; [done|]. intros i Hi. simpl. rewrite length_app. specialize (Hl i Hi). simpl. lia.
  - intros Hin. specialize (Hl _ Hin). lia.
Qed.

Lemma save_tls_ok i st st' :
  save_tls_context i st = Ok st' → tls_ok st → i ∉ dvalues (tl_names st) → tls_ok st'.
Proof.
  unfold save_tls_context. intros H Hok Hi. bind_step H as ctx Hc. bind_step H as name0 Hn. bind_step H as name Hs.
  apply res_of_option_Ok, lookup_lt_Some in Hc. bind_step H as [valid st1] H1.
  assert (E1 : tl_objs st1 = tl_objs st ∧ tl_names st1 = tl_names st).
  { destruct (get_tls_context name st) as [[j x]|]; [|by injection H1 as <- <-].
    destruct (res_bool x); [bind_step H1 as loc Hloc|]; by injection H1 as <- <-. }
  destruct (match pget "redirect_cleartext_from" ctx with PNone => _ | _ => _ end) as [valid' st2] eqn:H2.
  assert (E2 : tl_objs st2 = tl_objs st ∧ tl_names st2 = tl_names st).
  { destruct E1 as [E1 E1']. repeat (case_match; simplify_eq); done. }
  injection H as <-. destruct E2 as [Eo En]. destruct Hok as (Hd & Hnd & Hl).
  destruct valid'; [|unfold tls_ok; rewrite Eo, En; done].
  unfold tls_ok. simpl. rewrite Eo, En. split; [by apply dict_ok_dset|]. split; [by apply dvalues_dset_fresh|].
  intros j ([k j'] & -> & [[= -> ->]|Hin]%elem_of_dset)%list_elem_of_fmap; [done|].
  apply Hl, list_elem_of_fmap. by exists (k, j').
Qed.

Lemma load_tls_ok env st c st' : load_tls_context env st c = Ok st' → tls_ok st → tls_ok st'.
Proof.
  unfold load_tls_context. intros H Hok. bind_step H as [a kwargs] Ha. bind_step H as [ctx es] Hctx.
  destruct (py_bool (pget "_active" ctx)); [|by injection H as <-].
  bind_step H as c1 H1. bind_step H as c2 H2. destruct (tls_ok_new c2 es st Hok) as [Hn Hf].
  destruct (tl_new c2 es st) as [i st1] eqn:E. eapply save_tls_ok; [exact H|exact Hn|].
  unfold tl_new in E. injection E as <- <-. exact Hf.
Qed.

Lemma load_all_tls_ok env cs : ∀ st st', tls_load_all env cs st = Ok st' → tls_ok st → tls_ok st'.
Proof.
  induction cs as [|c cs IH]; intros st st' H Hok; [by injection H as <-|].
  cbn [tls_load_all fold_res] in H. bind_step H as st1 H1. eauto using load_tls_ok.
Qed.

Definition no_tls (sec : secrets) : tls_state := mkTLS [] [] PNone [] sec.

Lemma foldl_ddel (d : dict nat) ks : dict_ok d →
  dict_ok (foldl (λ d k, ddel k d) d ks) ∧
  ∀ n i, dget n (foldl (λ d k, ddel k d) d ks) = Some i ↔ dget n d = Some i ∧ n ∉ ks.
Proof.
  revert d. induction ks as [|k ks IH]; intros d Hd; simpl; [split; [done|]; set_solver|].
  destruct (IH (ddel k d)) as [H1 H2]; [by apply dict_ok_ddel|]. split; [done|].
  intros n i. rewrite H2. destruct (decide (n = k)) as [->|Hne].
  - rewrite dget_ddel_eq by done. set_solver.
  - rewrite dget_ddel_ne by done. set_solver.
Qed.

(** ** Properties *)


Definition demo_env : tls_env := mkTLSEnv "default" [] (base_handler "/cache") (λ _, true) CertKeys.
Definition demo_tls (name secret : string) : dict pyval :=
  [("rkey", PStr name); ("name", PStr name); ("location", PStr name); ("kind", PStr "TLSContext");
   ("hosts", PList [PStr "*"]); ("secret", PStr secret)].
Definition demo_secrets : secrets := mkSecrets [("tls.default", demo_secret)] [] [].


(** With a client block that names no certificate, the secret the comment means
    for the validation of clients replaces the certificate of the server. *)
Lemma legacy_client_replaces_server_secret :
  legacy_args [("secret", PStr "server-cert")] true [("enabled", PBool true)]
  = [("secret", PStr "ambassador-cacert"); ("hosts", PList [PStr "*"])].
Proof. reflexivity. Qed.

(** A [cert_required] inside a secret has no effect: what is kept of a saved
    secret never has that element. *)
Lemma cert_required_never_saved dir i fs : (cert_data (cache_secret dir i fs).1 ≫= dget "cert_required") = None.
Proof.
  unfold cache_secret. destruct (pem_bool (tls_crt i) || _ || _); [|done].
  repeat match goal with |- context [write_element ?p ?e ?f] => destruct (write_element p e f) end. done.
Qed.

(** A duplicate that is refused still sets the port that cleartext is
    redirected from. *)
Lemma refused_duplicate_redirects :
  ∃ st, tls_load_all demo_env [demo_tls "ctx" "tls"; dset "redirect_cleartext_from" (PInt 8080) (demo_tls "ctx" "tls")]
      (no_tls demo_secrets) = Ok st ∧
    tl_names st = [("ctx", 0)] ∧ tl_redirect st = PInt 8080.
Proof. eexists. split; [vm_compute; reflexivity|]. split; reflexivity. Qed.
