(* ===== verification/Host.v ===== *)
(** * Hosts ([ir/irhost.py], and [save_host] of [ir/ir.py])

    Construction and setup of a Host with the TLS context it finds or makes,
    which groups it takes, and the factory with its default Host. *)

From S2P Require Import Prelude PyStr PyVal HostGlob Resource ServiceName PyText BaseMapping HTTPMapping Group.
From S2P Require Import Listener Secret TLSContext.

Definition host_allowed_keys : list string :=
  ["acmeProvider"; "hostname"; "mappingSelector"; "metadata_labels"; "requestPolicy"; "selector"; "tlsSecret";
   "tlsContext"; "tls"].

(** A Host: its attributes and the location of its TLS context. *)
Record host_obj : Type := mkHost {
  ho_self : dict pyval;
  ho_context : option nat
}.

(** A Host being set up, with the TLS contexts, the secrets and the errors of
    the IR. *)
Record hosting : Type := mkHosting {
  h_self : dict pyval;
  h_context : option nat;
  h_tls : tls_state
}.

Definition h_set (k : string) (v : pyval) (h : hosting) : hosting :=
  mkHosting (dset k v (h_self h)) (h_context h) (h_tls h).
Definition h_post (msg : string) (h : hosting) : hosting :=
  mkHosting (dset "_errored" (PBool true) (h_self h)) (h_context h) (tl_post [msg] (h_tls h)).
Definition h_with (tls : tls_state) (h : hosting) : hosting := mkHosting (h_self h) (h_context h) tls.
Definition h_own (i : nat) (h : hosting) : hosting := mkHosting (h_self h) (Some i) (h_tls h).

Definition host_step : Type := res (bool * hosting).
Definition h_fail (msg : string) (h : hosting) : host_step := Ok (false, h_post msg h).
Definition h_then (x : host_step) (k : hosting → host_step) : host_step :=
  '(ok, h) ← x; if (ok : bool) then k h else Ok (false, h).

(** [IRHost.resolve] *)
Definition host_resolve (env : tls_env) (secret_name secret_namespace : pyval) (h : hosting)
    : res (SavedSecret * hosting) :=
  ns ← (if py_bool secret_namespace then Ok secret_namespace
        else ns ← getattr (h_self h) "namespace"; Ok (py_or ns (PStr (te_namespace env))));
  let '(ss, sec) := resolve_secret (te_handler env) (py_text secret_name) (py_text ns) (tl_secrets (h_tls h)) in
  Ok (ss, h_with (tl_with_secrets sec (h_tls h)) h).

(** The referrer of a context is recorded by its location; the referrer itself
    is not copied. *)
Definition refer_to (self other : dict pyval) : res (dict pyval) :=
  refs ← getattr self "_referenced_by"; refs ← as_dict refs;
  location ← getattr other "location"; location ← as_str location;
  Ok (dset "_referenced_by" (PDict (dset location PNone refs)) self).

(** A new context becomes the Host's own and is saved. *)
Definition adopt_context (ctx : dict pyval) (es : list string) (h : hosting) : res hosting :=
  ctx ← refer_to ctx (h_self h);
  ctx ← sourced_by ctx (h_self h);
  let '(i, st) := tl_new ctx es (h_tls h) in
  st ← save_tls_context i st;
  Ok (h_own i (h_with st h)).

(** The certificate of the context is the Host's. *)
Definition check_secret (env : tls_env) (ctx_name tls_name : string) (tls_ss : SavedSecret) (i : nat)
    (ctx : dict pyval) (h : hosting) : host_step :=
  has ← has_secret ctx;
  if (has : bool) then
    sn ← ctx_secret_name ctx;
    if negb (py_bool sn) then Raise (AssertionError EmptyString)
    else
      '(ss, h) ← host_resolve env sn PNone h;
      name ← name_text (h_self h);
      if bool_decide (SavedSecret_str ss = SavedSecret_str tls_ss) then Ok (true, h)
      else h_fail ("Secret info mismatch between Host " +:+ name +:+ " (secret: " +:+ tls_name +:+ ") and TLSContext " +:+
                   ctx_name +:+ ": (secret: " +:+ py_text sn +:+ ")") h
  else
    ctx ← set_secret_name (PStr tls_name) ctx;
    Ok (true, h_with (tl_update i ctx (h_tls h)) h).

(** The hosts of the context are checked, or set. *)
Definition check_hosts (ctx_name : string) (i : nat) (h : hosting) : host_step :=
  ctx ← deref (tl_objs (h_tls h)) i;
  hostname ← getattr (h_self h) "hostname";
  name ← getattr (h_self h) "name";
  let context_hosts := pget "hosts" ctx in
  if py_bool context_hosts then
    l ← py_iter context_hosts;
    if existsb (λ x, py_eqb x hostname || py_eqb x name) l then Ok (true, h_own i h)
    else Ok (true, h_own i (h_post ("Hosts mismatch between Host " +:+ py_text name +:+ " (accepted hosts: " +:+
           py_text (PList [hostname; name]) +:+ ") and TLSContext " +:+ ctx_name +:+ " (hosts: " +:+
           py_text context_hosts +:+ ")") h))
  else Ok (true, h_own i (h_with (tl_update i (dset "hosts" (PList [hostname]) ctx) (h_tls h)) h)).

(** [save_context] *)
Definition save_context (env : tls_env) (ctx_name tls_name : string) (tls_ss : SavedSecret) (h : hosting) : host_step :=
  name ← name_text (h_self h);
  if negb (has_tls_context ctx_name (h_tls h)) then
    h_fail ("Host " +:+ name +:+ ": Specified TLSContext does not exist: " +:+ ctx_name) h
  else
    match get_tls_context ctx_name (h_tls h) with
    | Some (i, ctx) => h_then (check_secret env ctx_name tls_name tls_ss i ctx h) (check_hosts ctx_name i)
    | None => Raise (AssertionError EmptyString)
    end.

Definition camel_snake_map : list (string * string) :=
  [("alpnProtocols", "alpn_protocols"); ("cipherSuites", "cipher_suites"); ("ecdhCurves", "ecdh_curves");
   ("redirectCleartextFrom", "redirect_cleartext_from"); ("certRequired", "cert_required");
   ("minTlsVersion", "min_tls_version"); ("maxTlsVersion", "max_tls_version"); ("certChainFile", "cert_chain_file");
   ("privateKeyFile", "private_key_file"); ("cacertChainFile", "cacert_chain_file"); ("crlSecret", "crl_secret");
   ("crlFile", "crl_file"); ("caSecret", "ca_secret")].

(** [host_tls_config[snake] = host_tls_config.pop(camel)] *)
Definition snake_keys (d : dict pyval) : dict pyval :=
  foldl (λ d (cs : string * string), match dget cs.1 d with Some v => dset cs.2 v (ddel cs.1 d) | None => d end)
    d camel_snake_map.

(** The arguments of a context the Host makes. *)
Definition context_args (ctx_name tls_full_name : string) (namespaced : bool) (self : dict pyval) : res (dict pyval) :=
  rkey ← getattr self "rkey";
  ns ← getattr self "namespace";
  location ← getattr self "location";
  hostname ← getattr self "hostname";
  Ok ([("rkey", rkey); ("name", PStr ctx_name); ("namespace", ns); ("location", location);
       ("hosts", PList [hostname]); ("secret", PStr tls_full_name)] ++
      (if namespaced then [("secret_namespacing", PBool true)] else [])).

(** [IRTLSContext(ir, aconf, **args, **more)]: a key given twice is an error. *)
Definition make_context (env : tls_env) (args more : dict pyval) : res (dict pyval * list string) :=
  if existsb (λ kv : string * pyval, dmem kv.1 args) more then Raise TypeError
  else
    '(a, kwargs) ← split_args "IRTLSContext" "getambassador.io/v3alpha1" (args ++ more);
    IRTLSContext_init env a (pget "metadata_labels" kwargs) (dget_default "is_fallback" (PBool false) kwargs)
      (dpop ["metadata_labels"; "is_fallback"] kwargs).

(** A TLS version the Host names must be known. *)
Definition check_version (key : string) (config : dict pyval) (h : hosting) : host_step :=
  match dget key config with
  | Some v =>
      if in_strs v AllowedTLSVersions then Ok (true, h)
      else
        name ← name_text (h_self h);
        h_fail ("Host " +:+ name +:+ ": Invalid " +:+ key +:+ " set in Host.tls: " +:+ py_text v) h
  | None => Ok (true, h)
  end.

(** A context given inside the Host *)
Definition inline_context (env : tls_env) (ctx_name tls_full_name : string) (namespaced : bool)
    (config : dict pyval) (h : hosting) : host_step :=
  let config := snake_keys config in
  let h := h_set "tls" (PDict config) h in
  h_then (h_then (check_version "min_tls_version" config h) (check_version "max_tls_version" config)) (λ h,
    args ← context_args ctx_name tls_full_name namespaced (h_self h);
    '(ctx, es) ← make_context env args config;
    if py_bool (pget "_active" ctx) then h ← adopt_context ctx es h; Ok (true, h)
    else
      name ← name_text (h_self h);
      ctxn ← name_text ctx;
      h_fail ("Host " +:+ name +:+ ": generated TLSContext " +:+ ctxn +:+ " from Host.tls is not valid")
        (h_with (tl_post es (h_tls h)) h)).

(** A context made for the Host *)
Definition new_context (env : tls_env) (ctx_name tls_full_name : string) (namespaced : bool) (h : hosting) : host_step :=
  args ← context_args ctx_name tls_full_name namespaced (h_self h);
  '(ctx, es) ← make_context env args [];
  let match_labels := get_or "matchLabels" "match_labels" (h_self h) in
  let ctx := if py_bool match_labels then dset "metadata_labels" match_labels ctx else ctx in
  if py_bool (pget "_active" ctx) then h ← adopt_context ctx es h; Ok (true, h)
  else Ok (true, h_with (tl_post es (h_tls h)) h).

(** The context of a Host with a certificate *)
Definition choose_context (env : tls_env) (tls_full_name : string) (namespaced : bool) (tls_ss : SavedSecret)
    (h : hosting) : host_step :=
  name ← name_text (h_self h);
  let ctx_name := name +:+ "-context" in
  let implicit := has_tls_context ctx_name (h_tls h) in
  given ← vget "name" PNone (dget_default "tlsContext" (PDict []) (h_self h));
  let config := pget "tls" (h_self h) in
  if py_bool given && py_bool config then
    h_fail ("Host " +:+ name +:+ ": both TLSContext name and TLS config specified, ignoring Host...") h
  else if py_bool given then given ← as_str given; save_context env given tls_full_name tls_ss h
  else if py_bool config then
    config ← as_dict config; inline_context env ctx_name tls_full_name namespaced config h
  else if implicit then save_context env ctx_name tls_full_name tls_ss h
  else new_context env ctx_name tls_full_name namespaced h.

(** [tlsSecret] *)
Definition setup_tls (env : tls_env) (h : hosting) : host_step :=
  let tls_secret := pget "tlsSecret" (h_self h) in
  if py_bool tls_secret then
    tls_name ← vget "name" PNone tls_secret;
    tls_namespace ← vget "namespace" PNone tls_secret;
    if py_bool tls_name then
      full ← (if py_bool tls_namespace then
                n ← as_str tls_name; ns ← as_str tls_namespace; Ok (n +:+ "." +:+ ns)
              else Ok (py_text tls_name));
      '(ss, h) ← host_resolve env tls_name tls_namespace h;
      if SavedSecret_bool ss then choose_context env full (py_bool tls_namespace) ss h
      else Ok (false, h)
    else Ok (true, h)
  else Ok (true, h).

(** [acmeProvider] *)
Definition setup_acme (env : tls_env) (h : hosting) : host_step :=
  let acme := pget "acmeProvider" (h_self h) in
  if py_bool acme then
    pkey ← vget "privateKeySecret" PNone acme;
    if py_bool pkey then
      pkey_name ← vget "name" PNone pkey;
      if py_bool pkey_name then
        '(ss, h) ← host_resolve env pkey_name PNone h;
        if SavedSecret_bool ss then Ok (true, h)
        else Ok (true, h_post ("continuing with invalid ACME private key secret " +:+ py_text pkey_name +:+
                               "; ACME will not be able to renew this certificate") h)
      else Ok (true, h)
    else Ok (true, h)
  else Ok (true, h).

(** [hostname.rsplit(":", 1)[0]] *)
Definition sni_of (hostname : pyval) : res pyval :=
  match hostname with
  | PStr s => Ok (PStr (match rsplit1 ":" s with Some (a, _) => a | None => s end))
  | _ => Raise (AttributeError "rsplit")
  end.

(** The attributes a Host has in any case *)
Definition setup_attrs (h : hosting) : res hosting :=
  let h := if py_bool (pget "hostname" (h_self h)) then h else h_set "hostname" (PStr "*") h in
  sni ← sni_of (pget "hostname" (h_self h));
  let h := h_set "sni" sni h in
  let request_policy := dget_default "requestPolicy" (PDict []) (h_self h) in
  let h := h_set "secure_action" (PStr "Route") h in
  insecure ← vget "insecure" (PDict []) request_policy;
  action ← vget "action" (PStr "Redirect") insecure;
  port ← vget "additionalPort" PNone insecure;
  let h := h_set "insecure_addl_port" port (h_set "insecure_action" action h) in
  let sel := pget "selector" (h_self h) in
  Ok (if negb (py_bool (pget "mappingSelector" (h_self h))) && py_bool sel then
        let h := h_set "mappingSelector" sel h in
        mkHosting (ddel "selector" (h_self h)) (h_context h) (h_tls h)
      else h).

(** [setup] *)
Definition IRHost_setup (env : tls_env) (h : hosting) : host_step :=
  h ← setup_attrs h; h_then (setup_tls env h) (setup_acme env).

(** [__init__] *)
Definition IRHost_init (env : tls_env) (a : res_args) (kwargs : dict pyval) (st : tls_state)
    : res (host_obj * tls_state) :=
  let new_args := List.filter (λ kv : string * pyval, bool_decide (kv.1 ∈ host_allowed_keys)) kwargs in
  self ← IRResource_init (te_namespace env) a new_args;
  '(active, h) ← IRHost_setup env (mkHosting self None st);
  Ok (mkHost (dset "_active" (PBool active) (h_self h)) (h_context h), h_tls h).

(** ** [matches_httpgroup] *)

Definition synthetic_groups : list string :=
  ["GROUP: internal_readiness_probe_mapping"; "GROUP: internal_liveness_probe_mapping";
   "GROUP: internal_diagnostics_probe_mapping"].

(** [redirect] is the Mapping the group redirects with. *)
Definition matches_httpgroup (env : dict string) (self group : dict pyval) (redirect : option (dict pyval)) : res bool :=
  if in_strs (py_or (pget "name" group) (PStr "None")) synthetic_groups then Ok true
  else
    '(has_hostname, host_match) ←
      (if py_bool (pget "host_regex" group) then Ok (true, true)
       else
         let host_redirect := match redirect with Some m => if res_bool m then pget "host" m else PNone | None => PNone end in
         let group_glob := py_or (pget "host" group) host_redirect in
         if py_bool group_glob then
           hostname ← getattr self "hostname"; hostname ← as_str hostname;
           glob ← as_str group_glob;
           m ← hostglob_matches hostname glob;
           Ok (true, m)
         else Ok (false, false));
    let mapsel := pget "mappingSelector" self in
    sel_match ← (if py_bool mapsel then selector_matches env mapsel (dget_default "metadata_labels" (PDict []) group)
                 else Ok false);
    loose ← disable_strict_selectors env;
    Ok (if (loose : bool) then (host_match : bool) || sel_match
        else if py_bool mapsel && (has_hostname : bool) then host_match && sel_match
        else if py_bool mapsel then sel_match
        else if has_hostname then host_match
        else false).

(** ** The Hosts of the IR *)

Record ir_host_state : Type := mkHosts {
  hs_hosts : dict host_obj;
  hs_tls : tls_state;
  hs_notices : list string
}.

(** [IR.save_host] *)
Definition save_host (host : host_obj) (s : ir_host_state) : res ir_host_state :=
  name ← getattr (ho_self host) "name"; name ← as_str name;
  let saved := mkHosts (dset name host (hs_hosts s)) (hs_tls s) (hs_notices s) in
  match dget name (hs_hosts s) with
  | Some extant =>
      if res_bool (ho_self extant) then
        location ← getattr (ho_self extant) "location";
        Ok (mkHosts (hs_hosts s) (tl_post ["Duplicate Host " +:+ name +:+ "; keeping definition from " +:+
              py_text location] (hs_tls s)) (hs_notices s))
      else Ok saved
  | None => Ok saved
  end.

(** The Host and the configuration share the [tls] block. *)
Definition shared_tls (host config : dict pyval) : dict pyval :=
  match dget "tls" config, dget "tls" host with
  | Some _, Some v => dset "tls" v config
  | _, _ => config
  end.

(** One Host of [HostFactory.load_all]. *)
Definition load_host (env : tls_env) (s : ir_host_state) (config : dict pyval) : res ir_host_state :=
  '(a, kwargs) ← split_args "IRHost" "getambassador.io/v3alpha1" config;
  '(host, tls) ← IRHost_init env a kwargs (hs_tls s);
  let s := mkHosts (hs_hosts s) tls (hs_notices s) in
  if py_bool (pget "_active" (ho_self host)) then
    let config := shared_tls (ho_self host) config in
    self ← referenced_by (ho_self host) config;
    self ← sourced_by self config;
    save_host (mkHost self (ho_context host)) s
  else Ok s.

Definition hosts_load_all (env : tls_env) (configs : list (dict pyval)) (s : ir_host_state) : res ir_host_state :=
  fold_res (load_host env) configs s.

(** Some context terminates TLS. *)
Definition found_termination (st : tls_state) : bool :=
  existsb (λ ni : string * nat, match tl_objs st !! ni.2 with Some c => py_bool (pget "hosts" c) | None => false end)
    (tl_names st).

(** The default Host, with the fallback certificate or without *)
Definition default_host_args (fallback : bool) : dict pyval :=
  if fallback then [("hostname", PStr "*"); ("tlsSecret", PDict [("name", PStr "fallback-self-signed-cert")])]
  else [("hostname", PStr "*"); ("requestPolicy", PDict [("insecure", PDict [("action", PStr "Route")])])].

(** [HostFactory.finalize]; [dump_json] prints the Host in the error of an
    inactive default Host, and [amod] is the Ambassador module. *)
Definition hosts_finalize (env : tls_env) (dump_json : dict pyval → string) (amod : dict pyval) (s : ir_host_state)
    : res ir_host_state :=
  match hs_hosts s with
  | _ :: _ => Ok s
  | [] =>
      let tls := if found_termination (hs_tls s) then
                   tl_post ["No Hosts defined, but TLSContexts exist that terminate TLS. The TLSContexts are being ignored."]
                     (hs_tls s)
                 else hs_tls s in
      let '(ss, sec) := resolve_secret (te_handler env) "fallback-self-signed-cert" (te_namespace env) (tl_secrets tls) in
      let tls := tl_with_secrets sec tls in
      let notices := if SavedSecret_bool ss then hs_notices s
                     else hs_notices s ++ ["No TLS termination and no fallback cert -- defaulting to cleartext-only."] in
      '(host, tls) ← IRHost_init env
          (mkRA "-internal" "default-host" "-internal-" PNone "IRHost" "getambassador.io/v3alpha1")
          (default_host_args (SavedSecret_bool ss)) tls;
      let s := mkHosts (hs_hosts s) tls notices in
      if py_bool (pget "_active" (ho_self host)) then
        self ← refer_to (ho_self host) amod;
        self ← sourced_by self amod;
        save_host (mkHost self (ho_context host)) s
      else Ok (mkHosts (hs_hosts s) (tl_post ["Synthesized default host is inactive? " +:+ dump_json (ho_self host)]
                 (hs_tls s)) notices)
  end.

(** ** Properties of matching *)

(** A selector with labels, or none. *)
Definition selector_val (sel : option (dict string)) : pyval :=
  match sel with Some md => PDict [("matchLabels", PDict (str_dict md))] | None => PNone end.
Definition glob_val (g : option glob) : pyval := match g with Some g => PStr (glob_str g) | None => PNone end.

(** A label selector holds of labels. *)
Definition labels_match (loose : bool) (md ld : dict string) : Prop :=
  if loose then md = [] ∨ ∃ k v, (k, v) ∈ md ∧ dget k ld = Some v
  else ∀ k v, (k, v) ∈ md → dget k ld = Some v.

(** What decides whether a Host takes a group: a hostname glob of the group,
    a selector of the Host. *)
Definition takes (loose : bool) (hg : glob) (gg : option glob) (sel : option (dict string)) (ld : dict string) : Prop :=
  if loose then (∃ g, gg = Some g ∧ globs_overlap hg g) ∨ (∃ md, sel = Some md ∧ labels_match true md ld)
  else (gg ≠ None ∨ sel ≠ None) ∧ (∀ g, gg = Some g → globs_overlap hg g) ∧
       (∀ md, sel = Some md → labels_match false md ld).

Lemma glob_str_true g : glob_wf g → py_bool (PStr (glob_str g)) = true.
Proof. destruct (glob_str g) eqn:E; [|done]. intros Hw. destruct (glob_head g Hw) as (? & Hh & _). by rewrite E in Hh. Qed.


Definition demo_host : dict pyval :=
  [("hostname", PStr "*.example.com"); ("mappingSelector", selector_val (Some [("app", "quote")]))].
Definition demo_http_group : dict pyval :=
  [("name", PStr "GROUP: quote"); ("host", PStr "foo.example.com");
   ("metadata_labels", PDict (str_dict [("app", "quote"); ("tier", "web")]))].


(** The documentation of [matches_httpgroup] asks for one of a matching
    selector and a matching hostname; where both are given the code asks for
    both. *)
Lemma one_match_is_not_enough :
  matches_httpgroup [] demo_host (dset "metadata_labels" (PDict []) demo_http_group) None = Ok false.
Proof. reflexivity. Qed.

(** ** The default Host *)

Lemma move_keys_other keys : ∀ self info k,
  k ∉ keys → dget k (move_keys keys self info).1 = dget k self.
Proof.
  induction keys as [|k' keys IH]; intros self info k Hk; [done|]. rewrite elem_of_cons in Hk. cbn [move_keys].
  destruct (dget k' self) as [v|]; rewrite IH by tauto; [|done]. apply dget_ddel_ne. tauto.
Qed.

Definition fallback_args (ns : string) : dict pyval :=
  [("rkey", PStr "-internal"); ("name", PStr "default-host-context"); ("namespace", PStr ns);
   ("location", PStr "-internal-"); ("hosts", PList [PStr "*"]); ("secret", PStr "fallback-self-signed-cert")].

(** A context that names a secret and no files is set up without errors. *)
Lemma tls_setup_secret order self name :
  dget "_ambassador_enabled" self = None → dget "name" self = Some name → dget "cert_chain_file" self = None →
  dget "redirect_cleartext_from" self = None →
  ∃ self', IRTLSContext_setup order (mkSetup self [] []) = Ok (true, mkSetup self' [] []) ∧
    ∀ k, k ∉ order → k ≠ "secret_info" → dget k self' = dget k self.
Proof.
  intros He Hn Hc Hr. unfold IRTLSContext_setup, check_cert_spec, check_redirect, name_text, getattr, pget, dget_default.
  cbn [su_self su_errors su_notices]. rewrite He, Hn, Hc. cbn -[move_keys]. rewrite andb_false_r. cbn -[move_keys].
  rewrite Hr. cbn -[move_keys]. destruct (move_keys order _ []) as [self1 info] eqn:Hm.
  eexists. split; [reflexivity|]. intros k Hk Hs. rewrite dget_dset_ne by done.
  replace self1 with (move_keys order (dset "secret_info" (PDict []) self) []).1 by (by rewrite Hm).
  rewrite move_keys_other by done. by apply dget_dset_ne.
Qed.

(** The context of the default Host. *)
Lemma fallback_context env ns :
  te_order env ≡ₚ CertKeys → str_bool ns = true →
  ∃ ctx, make_context env (fallback_args ns) [] = Ok (ctx, []) ∧ dget "_active" ctx = Some (PBool true) ∧
    dget "_referenced_by" ctx = Some (PDict []) ∧ dget "name" ctx = Some (PStr "default-host-context") ∧
    dget "redirect_cleartext_from" ctx = None.
Proof.
  intros Ho Hns.
  assert (Hk : ∀ k, k ∈ ["_referenced_by"; "name"; "redirect_cleartext_from"] → k ∉ te_order env).
  { intros k Hk. rewrite Ho. unfold CertKeys. rewrite !elem_of_cons, elem_of_nil in *. naive_solver. }
  destruct ns as [|c ns]; [done|].
  set (ra := mkRA "-internal" "default-host-context" "-internal-" (PStr (String c ns)) "IRTLSContext" "getambassador.io/v3alpha1").
  change (make_context env (fallback_args (String c ns)) []) with
    (IRTLSContext_init env ra PNone (PBool false)
       [("hosts", PList [PStr "*"]); ("secret", PStr "fallback-self-signed-cert")]).
  unfold IRTLSContext_init.
  destruct (IRResource_init (te_namespace env) ra _) as [self|e] eqn:Hself; [|discriminate Hself]. cbn [mbind res_bind].
  destruct (tls_setup_secret (te_order env) self (PStr "default-host-context")) as (self' & Hs & Hg).
  1-4: injection Hself as <-; reflexivity.
  rewrite Hs. cbn [mbind res_bind]. eexists. split; [reflexivity|]. cbn [su_self su_set].
  split; [apply dget_dset_eq|].
  split_and!; rewrite dget_dset_ne, Hg by (done || (apply Hk; rewrite !elem_of_cons; tauto));
    injection Hself as <-; reflexivity.
Qed.

(** A new context is adopted where its name is free. *)
Lemma adopt_fresh ctx h name loc rk :
  dget "_referenced_by" ctx = Some (PDict []) → dget "name" ctx = Some (PStr name) →
  dget "redirect_cleartext_from" ctx = None → dget name (tl_names (h_tls h)) = None →
  dget "location" (h_self h) = Some (PStr loc) → dget "rkey" (h_self h) = Some rk →
  ∃ h' i, adopt_context ctx [] h = Ok h' ∧ h_self h' = h_self h ∧ h_context h' = Some i ∧
    dget name (tl_names (h_tls h')) = Some i.
Proof.
  intros Hr Hn Hc Hf Hl Hk. unfold adopt_context, refer_to, sourced_by, getattr. rewrite Hr, Hl, Hk.
  cbn [mbind res_bind res_of_option as_dict as_str tl_new]. unfold save_tls_context, deref, setattr. cbn [tl_objs].
  rewrite lookup_app_r, Nat.sub_diag by lia. cbn [lookup list_lookup res_of_option mbind res_bind].
  unfold getattr, pget, dget_default. dlook. rewrite Hn, Hc. cbn [mbind res_bind res_of_option as_str default].
  unfold get_tls_context. cbn [tl_names]. rewrite Hf. cbn. eexists _, _. split; [reflexivity|]. simpl.
  split; [done|]. split; [done|]. apply dget_dset_eq.
Qed.

Lemma pget_Some k d v : dget k d = Some v → pget k d = v.
Proof. unfold pget, dget_default. by intros ->. Qed.
Lemma pget_None k d : dget k d = None → pget k d = PNone.
Proof. unfold pget, dget_default. by intros ->. Qed.
Lemma dget_default_None k (v : pyval) (d : dict pyval) : dget k d = None → dget_default k v d = v.
Proof. unfold dget_default. by intros ->. Qed.

Definition default_host_ra : res_args :=
  mkRA "-internal" "default-host" "-internal-" PNone "IRHost" "getambassador.io/v3alpha1".

(** The default Host without a certificate routes cleartext. *)
Lemma default_host_plain env tls :
  ∃ self, IRHost_init env default_host_ra (default_host_args false) tls = Ok (mkHost self None, tls) ∧
    res_bool self = true ∧ pget "hostname" self = PStr "*" ∧ pget "insecure_action" self = PStr "Route" ∧
    pget "name" self = PStr "default-host" ∧ dget "_referenced_by" self = Some (PDict []).
Proof. eexists. split; [vm_compute; reflexivity|]. split_and!; reflexivity. Qed.

Lemma host_resolve_own env name ns h ss sec :
  dget "namespace" (h_self h) = Some (PStr ns) → str_bool ns = true →
  resolve_secret (te_handler env) name ns (tl_secrets (h_tls h)) = (ss, sec) →
  host_resolve env (PStr name) PNone h = Ok (ss, h_with (tl_with_secrets sec (h_tls h)) h).
Proof.
  intros Hn Hb Hr. unfold host_resolve, getattr, py_or. rewrite Hn. cbn [py_bool res_of_option mbind res_bind].
  rewrite Hb. cbn [py_text]. by rewrite Hr.
Qed.

Lemma setup_tls_plain env name h ss h1 :
  dget "tlsSecret" (h_self h) = Some (PDict [("name", PStr name)]) → str_bool name = true →
  host_resolve env (PStr name) PNone h = Ok (ss, h1) → SavedSecret_bool ss = true →
  setup_tls env h = choose_context env name false ss h1.
Proof.
  intros Ht Hn Hr Hb. unfold setup_tls. rewrite (pget_Some _ _ _ Ht).
  change (py_bool (PDict [("name", PStr name)])) with true. cbn match.
  change (vget "name" PNone (PDict [("name", PStr name)])) with (Ok (PStr name)).
  change (vget "namespace" PNone (PDict [("name", PStr name)])) with (Ok PNone).
  cbn [mbind res_bind]. rewrite (Hn : py_bool (PStr name) = true). change (py_bool PNone) with false.
  cbn [mbind res_bind py_text]. rewrite Hr. cbn [mbind res_bind]. by rewrite Hb.
Qed.

Lemma choose_context_new env name full ss h :
  dget "name" (h_self h) = Some (PStr name) → dget "tlsContext" (h_self h) = None → dget "tls" (h_self h) = None →
  dget (name +:+ "-context") (tl_names (h_tls h)) = None →
  choose_context env full false ss h = new_context env (name +:+ "-context") full false h.
Proof.
  intros Hn Htc Htl Hf. unfold choose_context, name_text, getattr. rewrite Hn, (pget_None _ _ Htl), (dget_default_None _ _ _ Htc).
  cbn [res_of_option mbind res_bind py_text].
  change (vget "name" PNone (PDict [])) with (Ok PNone). cbn [mbind res_bind py_bool andb].
  unfold has_tls_context, get_tls_context. rewrite Hf. done.
Qed.

(** The default Host with the fallback certificate has a context for it. *)
Lemma default_host_tls env tls ss sec :
  te_order env ≡ₚ CertKeys → str_bool (te_namespace env) = true →
  dget "default-host-context" (tl_names tls) = None →
  resolve_secret (te_handler env) "fallback-self-signed-cert" (te_namespace env) (tl_secrets tls) = (ss, sec) →
  SavedSecret_bool ss = true →
  ∃ self i tls', IRHost_init env default_host_ra (default_host_args true) tls = Ok (mkHost self (Some i), tls') ∧
    res_bool self = true ∧ pget "hostname" self = PStr "*" ∧ pget "insecure_action" self = PStr "Redirect" ∧
    pget "name" self = PStr "default-host" ∧ dget "_referenced_by" self = Some (PDict []) ∧
    dget "default-host-context" (tl_names tls') = Some i.
Proof.
  intros Ho Hns Hf Hr Hb. unfold IRHost_init.
  destruct (IRResource_init (te_namespace env) default_host_ra _) as [self|e] eqn:Hself; [|discriminate Hself].
  cbn [mbind res_bind]. unfold IRHost_setup.
  destruct (setup_attrs (mkHosting self None tls)) as [h|e] eqn:Hh; [|injection Hself as <-; discriminate Hh].
  assert (Hd : h_tls h = tls ∧ h_context h = None ∧ dget "location" (h_self h) = Some (PStr "-internal-") ∧
    dget "rkey" (h_self h) = Some (PStr "-internal") ∧ dget "namespace" (h_self h) = Some (PStr (te_namespace env)) ∧
    dget "hostname" (h_self h) = Some (PStr "*") ∧ dget "name" (h_self h) = Some (PStr "default-host") ∧
    dget "tlsSecret" (h_self h) = Some (PDict [("name", PStr "fallback-self-signed-cert")]) ∧
    dget "tlsContext" (h_self h) = None ∧ dget "tls" (h_self h) = None ∧ dget "acmeProvider" (h_self h) = None ∧
    dget "matchLabels" (h_self h) = None ∧ dget "match_labels" (h_self h) = None ∧
    dget "_errored" (h_self h) = Some (PBool false) ∧ dget "insecure_action" (h_self h) = Some (PStr "Redirect") ∧
    dget "_referenced_by" (h_self h) = Some (PDict [])).
  { injection Hself as <-. injection Hh as <-. split_and!; reflexivity. }
  destruct Hd as (Et & Ec & Hl & Hk & Hn & Hho & Hna & Hts & Htc & Htl & Hac & Hm1 & Hm2 & He & Hia & Hrb).
  cbn [mbind res_bind]. rewrite <- Et in Hr, Hf.
  rewrite (setup_tls_plain env _ h ss _ Hts eq_refl (host_resolve_own env _ _ h ss sec Hn Hns Hr) Hb).
  set (h1 := h_with (tl_with_secrets sec (h_tls h)) h).
  destruct (fallback_context env (te_namespace env) Ho Hns) as (ctx & Hctx & Hact & Href & Hcn & Hrcf).
  destruct (adopt_fresh ctx h1 "default-host-context" "-internal-" (PStr "-internal") Href Hcn Hrcf Hf Hl Hk)
    as (h2 & i & Had & Es & Eo & Eg).
  assert (Hcc : choose_context env "fallback-self-signed-cert" false ss h1 = Ok (true, h2)).
  { rewrite (choose_context_new env "default-host" _ ss h1 Hna Htc Htl Hf).
    unfold new_context, context_args, getattr. cbn [h1 h_with h_self]. rewrite Hk, Hn, Hl, Hho.
    cbn [res_of_option mbind res_bind app]. change (make_context env _ []) with (make_context env (fallback_args (te_namespace env)) []).
    rewrite Hctx. cbn [mbind res_bind]. unfold get_or. rewrite (pget_None _ _ Hm1), (pget_None _ _ Hm2). cbn [py_bool].
    rewrite (pget_Some _ _ _ Hact). fold h1. by rewrite Had. }
  rewrite Hcc. cbn [h_then mbind res_bind]. unfold setup_acme. rewrite Es. cbn [h1 h_with h_self]. rewrite (pget_None _ _ Hac).
  cbn [py_bool mbind res_bind]. rewrite Es, Eo. cbn [h1 h_with h_self]. eexists _, i, _. split; [reflexivity|].
  unfold res_bool, pget, dget_default. dlook. rewrite He, Hho, Hia, Hna. split_and!; done.
Qed.

(** The default Host is filed as the only one. *)
Lemma finish_host self ctx tls notices amod rk loc :
  res_bool self = true → pget "name" self = PStr "default-host" → dget "_referenced_by" self = Some (PDict []) →
  dget "rkey" amod = Some rk → dget "location" amod = Some (PStr loc) →
  py_bool (pget "_active" self) = true ∧
  ∃ self', (self ← refer_to self amod; self ← sourced_by self amod;
            save_host (mkHost self ctx) (mkHosts [] tls notices))
           = Ok (mkHosts [("default-host", mkHost self' ctx)] tls notices) ∧
    res_bool self' = true ∧ pget "hostname" self' = pget "hostname" self ∧
    pget "insecure_action" self' = pget "insecure_action" self.
Proof.
  intros Hb Hn Href Hk Hl. assert (Hnm : dget "name" self = Some (PStr "default-host"))
    by (unfold pget, dget_default in Hn; destruct (dget "name" self); simpl in Hn; congruence).
  split; [by unfold res_bool in Hb; apply andb_true_iff in Hb as [? _]|].
  unfold refer_to, sourced_by, setattr, getattr. rewrite Href, Hk, Hl. cbn [res_of_option mbind res_bind as_dict as_str].
  unfold save_host, getattr. cbn [ho_self]. dlook. rewrite Hnm. cbn [res_of_option mbind res_bind as_str hs_hosts].
  eexists. split; [reflexivity|]. unfold res_bool, pget, dget_default in *. dlook. done.
Qed.


Definition host_env : tls_env := mkTLSEnv "default" [] (base_handler "/cache") (λ _, true) CertKeys.
Definition host_module : dict pyval := [("rkey", PStr "ir.ambassador"); ("location", PStr "--internal--")].
Definition no_hosts (sec : secrets) : ir_host_state := mkHosts [] (no_tls sec) [].


(** A TLS context whose secret is the empty text makes the setup of a Host that
    names it fail an assertion, which ends the configuration. *)
Lemma empty_secret_asserts :
  ∃ st, tls_load_all host_env
      [[("rkey", PStr "c"); ("name", PStr "ctx"); ("location", PStr "c"); ("secret", PStr EmptyString)]]
      (no_tls (mkSecrets [("tls.default", demo_secret)] [] [])) = Ok st ∧
    hosts_load_all host_env
      [[("rkey", PStr "h"); ("name", PStr "h"); ("location", PStr "h"); ("hostname", PStr "h.example.com");
        ("tlsSecret", PDict [("name", PStr "tls")]); ("tlsContext", PDict [("name", PStr "ctx")])]]
      (mkHosts [] st []) = Raise (AssertionError EmptyString).
Proof. eexists. split; [vm_compute; reflexivity|]. vm_compute. reflexivity. Qed.
