(* ===== verification/V3Route.v ===== *)
(** * Envoy routes ([envoy/v3/v3route.py], with [envoy/v3/v3ratelimitaction.py]
    and the route part of [envoy/common.py])

    Each Mapping of an HTTP group becomes an Envoy route: what it matches and
    where it sends a request.  Routes are kept in the cache, and each has
    variants that look at the protocol a client used. *)

From S2P Require Import Prelude PyStr PyVal HostGlob Resource Cache ServiceName PyText BaseMapping.
From S2P Require Import HTTPMapping HealthChecks Cluster Group IR Listener.

(** ** Objects *)

(** What routes are generated from besides groups: the Ambassador module, the
    rate limit service and the filters of the IR. *)
Record v3_ctx : Type := mkV3Ctx {
  v3_module : dict pyval;
  v3_ratelimit : option (dict pyval);
  v3_filters : list (dict pyval)
}.

(** A route: its dictionary, with the set [_host_constraints] apart, and the
    identifier of its [_group], under which the IR has the group. *)
Record V3Route : Type := mkRoute {
  rt_self : dict pyval;
  rt_constraints : list pyval;
  rt_group : pyval
}.

(** [v[k]] *)
Definition vitem (k : string) (v : pyval) : res pyval :=
  match v with PDict d => dget_exn k d | _ => Raise TypeError end.

Definition somes {A} (l : list (option A)) : list A := omap id l.

(** The errors posted on the way, in order *)
Definition posted {A} (l : list (A * list string)) : list string := mjoin (snd <$> l).

(** ** Matching *)

(** [EnvoyRoute._get_envoy_route] *)
Definition get_envoy_route (group : dict pyval) : string :=
  if py_bool (dget_default "prefix_regex" (PBool false) group) then "regex"
  else if py_bool (dget_default "prefix_exact" (PBool false) group) then "path"
  else "prefix".

Definition regex_matcher (ctx : v3_ctx) (regex : pyval) (key : string) (safe_key : option string) : res (dict pyval) :=
  n ← int_of (dget_default "regex_max_size" (PInt 200) (v3_module ctx));
  max_size ← res_of_option (ValueError "invalid literal for int() with base 10") n;
  Ok [(default ("safe_" +:+ key) safe_key,
       PDict [("google_re2", PDict [("max_program_size", PInt max_size)]); ("regex", regex)])].

(** The match on the value of [:authority], a glob; [None] matches always. *)
Definition authority_match (value : pyval) : res (option (string * pyval)) :=
  if py_eqb value (PStr "*") then Ok None
  else match value with
       | PStr v =>
           Ok (Some (if startswith v "*" then ("suffix_match", PStr (drop_str 1 v))
                     else if endswith v "*" then ("prefix_match", PStr (init_str v))
                     else ("string_match", PDict [("exact", value)])))
       | _ => Raise (AttributeError "startswith")
       end.

Definition generate_header (ctx : v3_ctx) (group_header : pyval) : res (option pyval) :=
  name ← vget "name" PNone group_header;
  value ← vget "value" PNone group_header;
  regex ← vget "regex" PNone group_header;
  if py_bool regex then
    r ← regex_matcher ctx value "regex_match" None; Ok (Some (PDict (dupdate [("name", name)] r)))
  else if py_eqb name (PStr ":authority") then
    a ← authority_match value;
    Ok (option_map (λ kv, PDict [("name", name); kv]) a)
  else Ok (Some (PDict [("name", name); ("string_match", PDict [("exact", value)])])).

(** [generate_headers] *)
Definition generate_headers (ctx : v3_ctx) (group : dict pyval) : res (list pyval) :=
  hs ← py_iter (dget_default "headers" (PList []) group);
  hs ← map_res (generate_header ctx) hs;
  Ok (somes hs).

Definition generate_query_parameter (ctx : v3_ctx) (q : pyval) : res pyval :=
  name ← vget "name" PNone q;
  regex ← vget "regex" PNone q;
  value ← vget "value" PNone q;
  if py_bool regex then
    r ← regex_matcher ctx value "regex" None; Ok (PDict [("name", name); ("string_match", PDict r)])
  else Ok (PDict [("name", name);
                  match value with
                  | PNone => ("present_match", PBool true)
                  | _ => ("string_match", PDict [("exact", value)])
                  end]).

(** [generate_query_parameters] *)
Definition generate_query_parameters (ctx : v3_ctx) (group : dict pyval) : res (list pyval) :=
  qs ← py_iter (dget_default "query_parameters" (PList []) group);
  map_res (generate_query_parameter ctx) qs.

(** ** Headers, hashing and rewriting *)

(** [generate_headers_to_add], which is the same in [IRHealthChecks] *)
Definition route_headers_to_add (header_dict : pyval) : res pyval :=
  hs ← generate_headers_to_add header_dict; Ok (PList hs).

Definition cookie_policy (cookie : pyval) : res pyval :=
  name ← vget "name" PNone cookie;
  match cookie with
  | PDict d =>
      let copy k (h : dict pyval) := match dget k d with Some v => dset k v h | None => h end in
      Ok (PDict (copy "ttl" (copy "path" [("name", name)])))
  | _ => Raise TypeError
  end.

(** [generate_hash_policy] *)
Definition generate_hash_policy (group : dict pyval) : res (dict pyval) :=
  match pget "load_balancer" group with
  | PNone => Ok []
  | lb =>
      policy ← vget "policy" PNone lb;
      if in_strs policy ["ring_hash"; "maglev"] then
        cookie ← vget "cookie" PNone lb;
        header ← vget "header" PNone lb;
        source_ip ← vget "source_ip" PNone lb;
        match cookie, header, source_ip with
        | PNone, PNone, PNone => Ok []
        | PNone, PNone, _ => Ok [("connection_properties", PDict [("source_ip", source_ip)])]
        | PNone, _, _ => Ok [("header", PDict [("header_name", header)])]
        | _, _, _ => c ← cookie_policy cookie; Ok [("cookie", c)]
        end
      else Ok []
  end.

(** [generate_regex_rewrite] *)
Definition generate_regex_rewrite (ctx : v3_ctx) (group : dict pyval) : res (dict pyval) :=
  let grr := pget "regex_rewrite" group in
  rr ← match grr with
       | PNone => Ok []
       | _ =>
           pattern ← vget "pattern" PNone grr;
           match pattern with PNone => Ok [] | _ => regex_matcher ctx pattern "regex" (Some "pattern") end
       end;
  substitution ← vget "substitution" PNone grr;
  Ok (match substitution with PNone => rr | _ => dset "substitution" substitution rr end).

(** ** Rate limits ([V3RateLimitAction]) *)

(** One action of a label: what is saved, and the error posted. *)
Definition ratelimit_action (rate_limit action : pyval) : res (option pyval * list string) :=
  d ← match action with PDict d => Ok d | _ => Raise (AttributeError "keys") end;
  match d with
  | [(dkey, v)] =>
      if bool_decide (dkey ∈ ["source_cluster"; "destination_cluster"; "remote_address"])
      then Ok (Some (PDict [(dkey, PDict [])]), [])
      else if bool_decide (dkey = "generic_key") then
        key ← vget "key" (PStr "generic_key") v;
        value ← vitem "value" v;
        Ok (Some (PDict [(dkey, PDict [("descriptor_key", key); ("descriptor_value", value)])]), [])
      else if bool_decide (dkey = "request_headers") then
        key ← vitem "key" v;
        header_name ← vitem "header_name" v;
        Ok (Some (PDict [(dkey, PDict [("descriptor_key", key); ("header_name", header_name)])]), [])
      else Ok (None, ["Label for RateLimit is not valid: " +:+ py_text action])
  | _ => Ok (None, ["Label for RateLimit has invalid custom header '" +:+ py_text action +:+ "' (" +:+
                    py_text rate_limit +:+ ")"])
  end.

(** The constructor: the actions saved, which are there if it is valid. *)
Definition V3RateLimitAction_init (rate_limit : pyval) : res (list pyval * list string) :=
  d ← match rate_limit with PDict d => Ok d | _ => Raise (AttributeError "keys") end;
  match d with
  | [] => Raise IndexError
  | [(_, actions)] =>
      l ← py_iter actions;
      rs ← map_res (ratelimit_action rate_limit) l;
      Ok (somes (rs.*1), posted rs)
  | _ => Ok ([], ["Label for RateLimit has multiple entries instead of just one: " +:+ py_text rate_limit])
  end.

(** [to_dict] *)
Definition ratelimit_dict (actions : list pyval) : pyval := PDict [("stage", PInt 0); ("actions", PList actions)].

(** The [rate_limits] of a route, from the labels for the service's domain. *)
Definition route_rate_limits (ctx : v3_ctx) (group : dict pyval) : res (list pyval * list string) :=
  match v3_ratelimit ctx, dget "labels" group with
  | Some rlsvc, Some labels =>
      if res_bool rlsvc then
        domain ← getattr rlsvc "domain"; domain ← as_str domain;
        ls ← vget domain (PList []) labels;
        ls ← py_iter ls;
        rs ← map_res V3RateLimitAction_init ls;
        Ok (somes (List.map (λ r : list pyval * list string,
              match r.1 with [] => None | _ => Some (ratelimit_dict r.1) end) rs), posted rs)
      else Ok ([], [])
  | _, _ => Ok ([], [])
  end.

(** ** Building a route *)

(** [mapping.cluster.envoy_name] *)
Definition envoy_name_of (cs : list IRCluster) (o : mapping_obj) : res pyval :=
  ci ← res_of_option (AttributeError "cluster") (mo_cluster o);
  c ← deref cs ci; getattr (cl_attrs c) "envoy_name".

(** A Mapping is absent in the route of a group that only redirects. *)
Definition mapping_self (mapping : option mapping_obj) : dict pyval :=
  match mapping with Some o => mo_self o | None => [] end.

(** [runtime_fraction], and whether the route failed *)
Definition runtime_fraction (cs : list IRCluster) (mapping : option mapping_obj) : res (dict pyval * bool) :=
  let fraction := [("default_value", PDict [("numerator", dget_default "_weight" (PInt 100) (mapping_self mapping));
                                            ("denominator", PStr "HUNDRED")])] in
  match mapping with
  | None => Ok (fraction, false)
  | Some o =>
      match mo_cluster o with
      | None => Ok (fraction, true)
      | Some _ =>
          n ← envoy_name_of cs o;
          Ok (dset "runtime_key" (PStr ("routing.traffic_shift." +:+ py_text n)) fraction, false)
      end
  end.

(** [a if a is not None else b] *)
Definition not_none (a b : pyval) : pyval := match a with PNone => b | _ => a end.

(** [d[k] = l] if [l] is not empty *)
Definition set_nonempty (k : string) (l : list pyval) (d : dict pyval) : dict pyval :=
  match l with [] => d | _ => dset k (PList l) d end.

(** [match], given the fraction *)
Definition route_match (ctx : v3_ctx) (group m fraction : dict pyval) : res (dict pyval) :=
  let route_prefix := not_none (pget "prefix" m) (pget "prefix" group) in
  let case_sensitive := not_none (pget "case_sensitive" m) (dget_default "case_sensitive" (PBool true) group) in
  let mt := [("case_sensitive", case_sensitive); ("runtime_fraction", PDict fraction)] in
  let kind := get_envoy_route group in
  mt ← (if bool_decide (kind = "prefix") then Ok (dset "prefix" route_prefix mt)
        else if bool_decide (kind = "path") then Ok (dset "path" route_prefix mt)
        else r ← regex_matcher ctx route_prefix "regex" None; Ok (dupdate mt r));
  headers ← generate_headers ctx group;
  query_parameters ← generate_query_parameters ctx group;
  Ok (set_nonempty "query_parameters" query_parameters (set_nonempty "headers" headers mt)).

Definition ext_authz : string := "envoy.filters.http.ext_authz".
Definition per_route : string * pyval :=
  ("@type", PStr "type.googleapis.com/envoy.extensions.filters.http.ext_authz.v3.ExtAuthzPerRoute").
Definition auth_disabled : pyval := PDict [(ext_authz, PDict [per_route; ("disabled", PBool true)])].

(** [group.get("host_redirect") is not None] *)
Definition has_redirect (g : group_obj) : bool :=
  match go_redirect g, pget "host_redirect" (go_self g) with None, PNone => false | _, _ => true end.

(** [typed_per_filter_config] *)
Definition filter_config (g : group_obj) (m self : dict pyval) : dict pyval :=
  if py_bool (dget_default "bypass_auth" (PBool false) m) || has_redirect g
  then dset "typed_per_filter_config" auth_disabled self
  else
    let ext := dget_default "auth_context_extensions" (PBool false) m in
    if py_bool ext then
      dset "typed_per_filter_config"
        (PDict [(ext_authz, PDict [per_route; ("check_settings", PDict [("context_extensions", ext)])])]) self
    else self.

(** Headers to add and to remove *)
Definition add_headers (group_key key : string) (group self : dict pyval) : res (dict pyval) :=
  let v := pget group_key group in
  if py_bool v then hs ← route_headers_to_add v; Ok (dset key hs self) else Ok self.

Definition remove_headers (group_key key : string) (group self : dict pyval) : dict pyval :=
  let v := pget group_key group in
  if py_bool v then dset key (match v with PList _ => v | _ => PList [v] end) self else self.

(** The redirect of the group when it is true: the Mapping that has it. *)
Definition true_redirect (ms : list mapping_obj) (g : group_obj) : res (option (dict pyval)) :=
  match go_redirect g with
  | Some j => r ← deref ms j; Ok (if mo_bool r then Some (mo_self r) else None)
  | None => if py_bool (pget "host_redirect" (go_self g)) then Raise (AttributeError "service") else Ok None
  end.

(** The number Envoy has for a response code *)
Definition redirect_code (code : pyval) : Z * list string :=
  if py_eqb code (PInt 301) then (0%Z, [])
  else if py_eqb code (PInt 302) then (1%Z, [])
  else if py_eqb code (PInt 303) then (2%Z, [])
  else if py_eqb code (PInt 307) then (3%Z, [])
  else if py_eqb code (PInt 308) then (4%Z, [])
  else (0%Z, ["Unknown redirect_response_code=" +:+ py_text code +:+
              ", must be one of [301, 302, 303,307, 308]. Using default redirect_response_code=301"]).

(** [self["redirect"]] *)
Definition route_redirect (r : dict pyval) : res (pyval * list string) :=
  service ← getattr r "service";
  let d := [("host_redirect", service)] in
  let path := pget "path_redirect" r in
  let prefix := pget "prefix_redirect" r in
  let regex := pget "regex_redirect" r in
  d ← (if py_bool path then Ok (dset "path_redirect" path d)
       else if py_bool prefix then Ok (dset "prefix_rewrite" prefix d)
       else if py_bool regex then
         pattern ← vget "pattern" (PStr EmptyString) regex;
         substitution ← vget "substitution" (PStr EmptyString) regex;
         Ok (dset "regex_rewrite"
               (PDict [("pattern", PDict [("google_re2", PDict []); ("regex", pattern)]);
                       ("substitution", substitution)]) d)
       else Ok d);
  let code := pget "redirect_response_code" r in
  if py_bool code then let '(n, es) := redirect_code code in Ok (PDict (dset "response_code" (PInt n) d), es)
  else Ok (PDict d, []).

(** ["%0.3fs" % (v / 1000.0)], for integers below 2^52 *)
Definition ms_text (v : pyval) : res string :=
  n ← as_int v;
  let a := Z.abs n in
  let frac := str_of_int (a mod 1000) in
  Ok ((if bool_decide (n < 0)%Z then "-" else EmptyString) +:+ str_of_int (a / 1000) +:+ "." +:+
      take_str (3 - slen frac) "000" +:+ frac +:+ "s").

(** [IRCORS.as_dict] and [IRRetryPolicy.as_dict] of the data they hold *)
Definition policy_dict (d : dict pyval) : dict pyval :=
  List.filter (λ kv : string * pyval,
    negb (skip_key dropped_keys kv.1) &&
    negb (bool_decide (kv.1 ∈ ["_active"; "_errored"; "_referenced_by"; "_rkey"; "kind"; "location"; "name"; "namespace";
                               "metadata_labels"; "rkey"])) &&
    match kv.2 with PNone => false | _ => true end) d.

(** [route["cors"]]: a copy of the policy, with the group's identifier *)
Definition route_cors (ctx : v3_ctx) (group route : dict pyval) : res (dict pyval) :=
  let cors := match dget "cors" group with Some c => c | None => pget "cors" (v3_module ctx) end in
  if py_bool cors then
    d ← match cors with PDict d => Ok d | _ => Raise (AttributeError "dup") end;
    id ← getattr group "group_id";
    Ok (dset "cors" (PDict (policy_dict (cors_set_id (py_text id) d))) route)
  else Ok route.

(** [route["retry_policy"]] *)
Definition route_retry (ctx : v3_ctx) (group route : dict pyval) : res (dict pyval) :=
  match match dget "retry_policy" group with Some r => Some r | None => dget "retry_policy" (v3_module ctx) end with
  | None => Ok route
  | Some (PDict d) => Ok (match policy_dict d with [] => route | rp => dset "retry_policy" (PDict rp) route end)
  | Some _ => Raise (AttributeError "as_dict")
  end.

(** [route["request_mirror_policies"]] *)
Definition route_shadow (ms : list mapping_obj) (cs : list IRCluster) (g : group_obj) (route : dict pyval)
    : res (dict pyval) :=
  match go_shadows g with
  | [] => Ok route
  | j :: _ =>
      shadow ← deref ms j;
      n ← envoy_name_of cs shadow;
      let weight := dget_default "weight" (PInt 100) (mo_self shadow) in
      Ok (dset "request_mirror_policies"
            (PList [PDict [("cluster", n);
                           ("runtime_fraction",
                            PDict [("default_value", PDict [("numerator", weight); ("denominator", PStr "HUNDRED")])])]])
            route)
  end.

Definition copy_if (key k : string) (m route : dict pyval) : dict pyval :=
  match dget k m with Some v => dset key v route | None => route end.

(** [self["route"]] *)
Definition route_action (ctx : v3_ctx) (ms : list mapping_obj) (cs : list IRCluster) (g : group_obj)
    (mapping : option mapping_obj) : res (dict pyval * list string) :=
  let group := go_self g in
  let m := mapping_self mapping in
  timeout ← ms_text (dget_default "timeout_ms" (dget_default "cluster_request_timeout_ms" (PInt 3000) (v3_module ctx)) m);
  cluster ← match mapping with Some o => envoy_name_of cs o | None => Raise (AttributeError "cluster") end;
  let route := [("priority", pget "priority" group); ("timeout", PStr timeout); ("cluster", cluster)] in
  route ← match pget "idle_timeout_ms" m with
          | PNone => Ok route
          | v => t ← ms_text v; Ok (dset "idle_timeout" (PStr t) route)
          end;
  rr ← generate_regex_rewrite ctx group;
  let route := match rr with
               | [] => let rw := pget "rewrite" m in if py_bool rw then dset "prefix_rewrite" rw route else route
               | _ => dset "regex_rewrite" (PDict rr) route
               end in
  let route := copy_if "auto_host_rewrite" "auto_host_rewrite" m (copy_if "host_rewrite_literal" "host_rewrite" m route) in
  hp ← generate_hash_policy group;
  let route := match hp with [] => route | _ => dset "hash_policy" (PList [PDict hp]) route end in
  route ← route_cors ctx group route;
  route ← route_retry ctx group route;
  route ← route_shadow ms cs g route;
  '(rls, es) ← route_rate_limits ctx group;
  let route := set_nonempty "rate_limits" rls route in
  let up := pget "allow_upgrade" group in
  route ← (if py_bool up then
             ps ← py_iter up;
             Ok (dset "upgrade_configs" (PList ((λ p, PDict [("upgrade_type", p)]) <$> ps)) route)
           else Ok route);
  Ok (route, es).

(** [__init__], with the errors posted *)
Definition V3Route_init (ctx : v3_ctx) (ms : list mapping_obj) (cs : list IRCluster) (g : group_obj)
    (mapping : option mapping_obj) : res (V3Route * list string) :=
  let group := go_self g in
  let m := mapping_self mapping in
  let host := py_or (pget "host" group) (PStr "*") in
  _ ← hashable host;
  let self := if py_bool (pget "precedence" group) then [("_precedence", pget "precedence" group)] else [] in
  '(fraction, failed) ← runtime_fraction cs mapping;
  let self := if (failed : bool) then dset "_failed" (PBool true) self else self in
  mt ← route_match ctx group m fraction;
  let self := filter_config g m (dset "match" (PDict mt) self) in
  self ← add_headers "add_request_headers" "request_headers_to_add" group self;
  self ← add_headers "add_response_headers" "response_headers_to_add" group self;
  let self := remove_headers "remove_response_headers" "response_headers_to_remove" group
                (remove_headers "remove_request_headers" "request_headers_to_remove" group self) in
  redirect ← true_redirect ms g;
  match redirect with
  | Some r => '(d, es) ← route_redirect r; Ok (mkRoute (dset "redirect" d self) [host] (pget "group_id" group), es)
  | None =>
      '(route, es) ← route_action ctx ms cs g mapping;
      Ok (mkRoute (dset "route" (PDict route) self) [host] (pget "group_id" group), es)
  end.

(** [any(f(x) for x in l)] *)
Fixpoint any_res {A} (f : A → res bool) (l : list A) : res bool :=
  match l with [] => Ok false | x :: l => b ← f x; if (b : bool) then Ok true else any_res f l end.

Definition matches_domain (r : V3Route) (domain : string) : res bool :=
  any_res (λ g, g ← as_str g; hostglob_matches g domain) (rt_constraints r).

(** All domains are looked at; the hosts are joined for the log. *)
Definition matches_domains (r : V3Route) (domains : list string) : res bool :=
  hosts ← map_res as_str (rt_constraints r);
  if bool_decide (hosts = []) || bool_decide ("*" ∈ hosts) then Ok true
  else if bool_decide ("*" ∈ domains) then Ok true
  else bs ← map_res (matches_domain r) domains; Ok (existsb id bs).

(** ** Variants ([V3RouteVariants]) *)

Definition xfp_name : string := "x-forwarded-proto".

(** [h.get("name", "").lower() != "x-forwarded-proto"] *)
Definition not_xfp (h : pyval) : res bool :=
  n ← vget "name" (PStr EmptyString) h; n ← py_lower n; Ok (negb (bool_decide (n = xfp_name))).

(** [[x for x in l if f(x)]] *)
Fixpoint filter_res {A} (f : A → res bool) (l : list A) : res (list A) :=
  match l with
  | [] => Ok []
  | x :: l => b ← f x; l ← filter_res f l; Ok (if (b : bool) then x :: l else l)
  end.

Definition matcher_xfp (variant : dict pyval) (value : option string) : res (dict pyval) :=
  mt ← dget_exn "match" variant;
  mt ← as_dict mt;
  hs ← py_iter (py_or (pget "headers" mt) (PList []));
  hs ← filter_res not_xfp hs;
  let hs := match value with
            | Some v => hs ++ [PDict [("name", PStr xfp_name); ("string_match", PDict [("exact", PStr v)])]]
            | None => hs
            end in
  Ok (dset "match" (PDict (set_nonempty "headers" hs mt)) variant).

Definition action_redirect (ctx : v3_ctx) (variant : dict pyval) : res (dict pyval) :=
  let variant := dset "redirect" (PDict [("https_redirect", PBool true)]) (ddel "route" variant) in
  kinds ← map_res (λ f, getattr f "kind") (v3_filters ctx);
  Ok (if existsb (py_eqb (PStr "IRAuth")) kinds then dset "typed_per_filter_config" auth_disabled variant else variant).

(** [getattr(self, "matcher_..")], [getattr(self, "action_..")] *)
Definition matcher_handler (name : string) : res (dict pyval → res (dict pyval)) :=
  let name := replace_char "-" "_" name in
  if bool_decide (name = "always") then Ok Ok
  else if bool_decide (name = "xfp_https") then Ok (λ v, matcher_xfp v (Some "https"))
  else if bool_decide (name = "xfp_http") then Ok (λ v, matcher_xfp v None)
  else if bool_decide (name = "xfp") then Ok (λ _, Raise TypeError)
  else Raise (AttributeError ("matcher_" +:+ name)).

Definition action_handler (ctx : v3_ctx) (name : string) : res (dict pyval → res (dict pyval)) :=
  let name := replace_char "-" "_" name in
  if bool_decide (name = "route") then Ok Ok
  else if bool_decide (name = "redirect") then Ok (action_redirect ctx)
  else Raise (AttributeError ("action_" +:+ name)).

(** [get_variant]: the variant and the variants kept *)
Definition get_variant (ctx : v3_ctx) (route : dict pyval) (matcher action : string) (variants : dict (dict pyval))
    : res (dict pyval * dict (dict pyval)) :=
  let matcher := lower matcher in
  let action := lower action in
  let key := matcher +:+ "-" +:+ action in
  match dget key variants with
  | Some ((_ :: _) as v) => Ok (v, variants)
  | _ =>
      mh ← matcher_handler matcher;
      v ← mh route;
      ah ← action_handler ctx action;
      v ← ah v;
      Ok (v, dset key v variants)
  end.

(** ** The route for the log ([v3prettyroute]) *)

(** The host and the protocol that a header match is about *)
Definition pretty_header (hx : pyval * pyval) (header : pyval) : res (pyval * pyval) :=
  let '(host, xfp) := hx in
  name ← vget "name" PNone header; name ← py_lower name;
  exact ← vget "exact_match" PNone header;
  sm ← vmem "string_match" header;
  exact ← (if negb (py_bool exact) && (sm : bool) then s ← vitem "string_match" header; vget "exact" PNone s else Ok exact);
  if py_eqb header (PStr ":authority") then
    pm ← vmem "prefix_match" header;
    sf ← vmem "suffix_match" header;
    rm ← vmem "safe_regex_match" header;
    host ← (if py_bool exact then Ok exact
            else if (pm : bool) then p ← vitem "prefix_match" header; p ← as_str p; Ok (PStr (p +:+ "*"))
            else if (sf : bool) then s ← vitem "suffix_match" header; s ← as_str s; Ok (PStr ("*" +:+ s))
            else if (rm : bool) then r ← vitem "safe_regex_match" header; vitem "regex" r
            else Ok host);
    Ok (host, xfp)
  else if bool_decide (name = xfp_name) then Ok (host, exact)
  else Ok (host, xfp).

Definition v3prettyroute (r : V3Route) : res string :=
  mt ← dget_exn "match" (rt_self r);
  mt ← as_dict mt;
  let prefix := pget "prefix" mt in
  match_str ← (if py_bool prefix then Ok ("PFX " +:+ py_text prefix)
               else regex ← vget "regex" PNone (dget_default "safe_regex" (PDict []) mt);
                    Ok (if py_bool regex then "SRX " +:+ py_text regex else "??? -none-"));
  hs ← py_iter (dget_default "headers" (PDict []) mt);
  '(host, xfp) ← fold_res pretty_header hs (PNone, PNone);
  let match_str := match_str +:+ (if py_bool xfp then " XFP " +:+ py_text xfp else " ALWAYS") in
  let match_str := match_str +:+ (if py_bool host then " HOST " +:+ py_text host else EmptyString) in
  target ← (if py_bool (pget "route" (rt_self r)) then
              c ← vitem "cluster" (pget "route" (rt_self r)); Ok ("ROUTE " +:+ py_text c)
            else Ok (if py_bool (pget "redirect" (rt_self r)) then "REDIRECT" else "-none-"));
  let hc := match rt_constraints r with
            | [] => "{i'*'}"
            | l => "{" +:+ join ", " (repr_val <$> l) +:+ "}"
            end in
  Ok ("<V3Route " +:+ hc +:+ ": " +:+ match_str +:+ " -> " +:+ target +:+ ">").

(** ** Generating the routes *)

(** The IR, the route objects, which the cache refers to, the elements saved
    for diagnostics, and the errors posted. *)
Record v3_state (C : Type) : Type := mkV3 {
  vs_ir : ir_state C;
  vs_objs : list V3Route;
  vs_elements : dict nat;
  vs_errors : list string
}.
Arguments mkV3 {C}.
Arguments vs_ir {C}.
Arguments vs_objs {C}.
Arguments vs_elements {C}.
Arguments vs_errors {C}.

Section generate.
Context {C : Type} `{ops : !CacheOps C ref}.
Implicit Types s : v3_state C.

Definition vs_with s (ir : ir_state C) : v3_state C := mkV3 ir (vs_objs s) (vs_elements s) (vs_errors s).

(** A group is kept under its identifier. *)
Definition group_location (ir : ir_state C) (g : group_obj) : res nat :=
  id ← getattr (go_self g) "group_id"; id ← as_str id; dget_exn id (st_groups ir).

(** [get_route] *)
Definition get_route (ctx : v3_ctx) (key : string) (g : group_obj) (mapping : option mapping_obj) s
    : res (nat * v3_state C) :=
  let '(r, ir) := cache_fetch (vs_ir s) key in
  match r with
  | Some (RRoute i _) => Ok (i, vs_with s ir)
  | Some _ => Raise (AssertionError EmptyString)
  | None =>
      '(route, es) ← V3Route_init ctx (st_mappings ir) (st_cluster_objs ir) g mapping;
      let i := length (vs_objs s) in
      ir ← cache_add ir (RRoute i key);
      gi ← group_location ir g;
      gr ← group_ref ir gi;
      ir ← cache_link ir gr (RRoute i key);
      _ ← v3prettyroute route;
      Ok (i, mkV3 ir (vs_objs s ++ [route]) (vs_elements s) (vs_errors s ++ es))
  end.

(** [config.save_element("route", irgroup, route)] *)
Definition save_route (g : group_obj) (i : nat) s : res (v3_state C) :=
  rkey ← getattr (go_self g) "rkey"; rkey ← as_str rkey;
  location ← getattr (go_self g) "location"; location ← as_str location;
  Ok (mkV3 (vs_ir s) (vs_objs s) (dset location i (dset rkey i (vs_elements s))) (vs_errors s)).

Definition route_key (g : group_obj) (rest : string) : res string :=
  id ← getattr (go_self g) "group_id"; Ok ("Route-" +:+ py_text id +:+ "-" +:+ rest).

(** The route of a group that only redirects *)
Definition redirect_route (ctx : v3_ctx) (g : group_obj) (x : list nat * v3_state C) : res (list nat * v3_state C) :=
  if has_redirect g && bool_decide (go_mappings g = []) then
    key ← route_key g "hostredirect";
    '(i, s) ← get_route ctx key g None x.2;
    s ← save_route g i s;
    Ok (x.1 ++ [i], s)
  else Ok x.

(** The route of a Mapping *)
Definition mapping_route (ctx : v3_ctx) (g : group_obj) (x : list nat * v3_state C) (mi : nat)
    : res (list nat * v3_state C) :=
  o ← deref (st_mappings (vs_ir x.2)) mi;
  mk ← mapping_key o;
  key ← route_key g mk;
  '(i, s) ← get_route ctx key g (Some o) x.2;
  route ← deref (vs_objs s) i;
  if py_bool (dget_default "_failed" (PBool false) (rt_self route)) then Ok (x.1, s)
  else s ← save_route g i s; Ok (x.1 ++ [i], s).

Definition group_routes (ctx : v3_ctx) (x : list nat * v3_state C) (g : group_obj) : res (list nat * v3_state C) :=
  match go_class g with
  | TCPGroup => Ok x
  | HTTPGroup => x ← redirect_route ctx g x; fold_res (mapping_route ctx g) (go_mappings g) x
  end.

(** [generate]: the routes, each with no variants yet *)
Definition generate (ctx : v3_ctx) s : res (list (nat * dict (dict pyval)) * v3_state C) :=
  gs ← ordered_groups (vs_ir s);
  '(routes, s) ← fold_res (group_routes ctx) gs ([], s);
  Ok (List.map (λ i, (i, [])) routes, s).
End generate.

(** ** What Envoy does with a match

    Envoy takes the first route that accepts a request.  A request has one
    value for each header, with the name in lower case; [:authority] and
    [:method] are headers.  Regular expressions are matched by [re]. *)

Record request : Type := mkRequest {
  rq_path : string;
  rq_headers : dict string;
  rq_query : dict string
}.

Definition field (k : string) (v : pyval) : option pyval := match v with PDict d => dget k d | _ => None end.

Section envoy.
Context (re : string → string → bool).

Definition regex_accepts (m : option pyval) (v : string) : bool :=
  match m ≫= field "regex" with Some (PStr r) => re r v | _ => false end.

Definition string_accepts (m : pyval) (v : string) : bool :=
  match field "exact" m with
  | Some e => py_eqb e (PStr v)
  | None => regex_accepts (field "safe_regex" m) v
  end.

Definition header_accepts (rq : request) (h : pyval) : bool :=
  match field "name" h with
  | Some (PStr n) =>
      match dget (lower n) (rq_headers rq) with
      | Some v =>
          match field "string_match" h, field "prefix_match" h, field "suffix_match" h with
          | Some m, _, _ => string_accepts m v
          | None, Some (PStr p), _ => startswith v p
          | None, None, Some (PStr s) => endswith v s
          | _, _, _ => regex_accepts (field "safe_regex_match" h) v
          end
      | None => false
      end
  | _ => false
  end.

Definition query_accepts (rq : request) (q : pyval) : bool :=
  match field "name" q with
  | Some (PStr n) =>
      match dget n (rq_query rq), field "string_match" q with
      | Some v, Some m => string_accepts m v
      | Some _, None => true
      | None, _ => false
      end
  | _ => false
  end.

Definition path_accepts (rq : request) (mt : dict pyval) : bool :=
  let fold := if py_bool (dget_default "case_sensitive" (PBool true) mt) then id else lower in
  match dget "prefix" mt, dget "path" mt with
  | Some (PStr p), _ => startswith (fold (rq_path rq)) (fold p)
  | None, Some (PStr p) => bool_decide (fold (rq_path rq) = fold p)
  | _, _ => regex_accepts (dget "safe_regex" mt) (rq_path rq)
  end.

Definition items (k : string) (mt : dict pyval) : list pyval := match dget k mt with Some (PList l) => l | _ => [] end.

Definition match_accepts (rq : request) (mt : dict pyval) : bool :=
  path_accepts rq mt && forallb (header_accepts rq) (items "headers" mt) &&
  forallb (query_accepts rq) (items "query_parameters" mt).

(** ** What a group asks for *)

Inductive path_spec : Type := PathPrefix | PathExact | PathRegex.
Definition group_path (group : dict pyval) : path_spec :=
  if py_bool (pget "prefix_regex" group) then PathRegex
  else if py_bool (pget "prefix_exact" group) then PathExact else PathPrefix.

Definition path_wanted (k : path_spec) (sensitive : bool) (p path : string) : Prop :=
  let fold := if sensitive then id else lower in
  match k with
  | PathPrefix => ∃ rest, fold path = fold p +:+ rest
  | PathExact => fold path = fold p
  | PathRegex => re p path = true
  end.

(** What the star of a glob may be absent from. *)
Definition bare (g : glob) : option string :=
  match g with GSuffix s => Some s | GPrefix p => Some p | _ => None end.

(** A header match: a name with a value, a glob or a regular expression. *)
Inductive header_spec : Type :=
  | HExact (name value : string)
  | HRegex (name regex : string)
  | HHost (g : glob).

Definition header_kv (h : header_spec) : KeyValueDecorator :=
  match h with
  | HExact n v => mkKV n (PStr v) (PBool false)
  | HRegex n r => mkKV n (PStr r) (PBool true)
  | HHost g => mkKV ":authority" (PStr (glob_str g)) (PBool false)
  end.

Definition header_ok (h : header_spec) : Prop :=
  match h with HExact n _ => n ≠ ":authority" | HRegex _ _ => True | HHost g => glob_wf g end.

Definition header_wanted (rq : request) (h : header_spec) : Prop :=
  match h with
  | HExact n v => dget (lower n) (rq_headers rq) = Some v
  | HRegex n r => ∃ v, dget (lower n) (rq_headers rq) = Some v ∧ re r v = true
  | HHost GAny => True
  | HHost g => ∃ v, dget ":authority" (rq_headers rq) = Some v ∧ (glob_match g v ∨ bare g = Some v)
  end.

(** A query parameter: present, or with a value or a regular expression. *)
Inductive query_spec : Type :=
  | QPresent (name : string)
  | QExact (name value : string)
  | QRegex (name regex : string).

Definition query_kv (q : query_spec) : KeyValueDecorator :=
  match q with
  | QPresent n => mkKV n PNone (PBool false)
  | QExact n v => mkKV n (PStr v) (PBool false)
  | QRegex n r => mkKV n (PStr r) (PBool true)
  end.

Definition query_wanted (rq : request) (q : query_spec) : Prop :=
  match q with
  | QPresent n => is_Some (dget n (rq_query rq))
  | QExact n v => dget n (rq_query rq) = Some v
  | QRegex n r => ∃ v, dget n (rq_query rq) = Some v ∧ re r v = true
  end.

(** ** Matching is right *)

Lemma regex_matcher_Ok ctx regex key safe_key d :
  regex_matcher ctx regex key safe_key = Ok d →
  ∃ size, d = [(default ("safe_" +:+ key) safe_key,
                PDict [("google_re2", PDict [("max_program_size", PInt size)]); ("regex", regex)])].
Proof. unfold regex_matcher. intros H. res_inv. eauto. Qed.

Lemma glob_starts g : glob_wf g → startswith (glob_str g) "*" = starts_star g.
Proof.
  intros Hw. destruct (glob_head g Hw) as (c & Hc & _ & <-). destruct (glob_str g) as [|a s]; [done|].
  injection Hc as ->. cbn [startswith]. rewrite andb_true_r. by apply bool_decide_ext.
Qed.

Lemma glob_ends g : glob_wf g → endswith (glob_str g) "*" = ends_star g.
Proof.
  intros Hw. destruct (glob_last g Hw) as (c & Hc & <-). case_bool as H.
  - subst c. apply endswith_spec. apply last_str_Ok in Hc. by eexists.
  - apply not_true_is_false. intros [t Ht]%endswith_spec. rewrite Ht in Hc.
    change "*" with (str1 star) in Hc. rewrite last_str_app in Hc. congruence.
Qed.

(** A star that stands for nothing, or for something *)
Lemma suffix_split v s : (∃ t, v = t +:+ s) ↔ (∃ x, x ≠ EmptyString ∧ v = x +:+ s) ∨ Some s = Some v.
Proof.
  split; [|intros [(x & _ & ->)|[= ->]]; [by eexists|by exists EmptyString]].
  intros [[|a t] ->]; [by right|]. left. by exists (String a t).
Qed.
Lemma prefix_split v p : (∃ t, v = p +:+ t) ↔ (∃ x, x ≠ EmptyString ∧ v = p +:+ x) ∨ Some p = Some v.
Proof.
  split.
  - intros [[|a t] ->]; [right; by rewrite app_empty_r|]. left. by exists (String a t).
  - intros [(x & _ & ->)|[= ->]]; [by eexists|]. exists EmptyString. by rewrite app_empty_r.
Qed.

(** What each kind of header match accepts *)
Definition value_accepts (rq : request) (n : string) (f : string → bool) : bool :=
  match dget (lower n) (rq_headers rq) with Some v => f v | None => false end.

Lemma accepts_suffix rq n s :
  header_accepts rq (PDict [("name", PStr n); ("suffix_match", PStr s)]) = value_accepts rq n (λ v, endswith v s).
Proof. reflexivity. Qed.
Lemma accepts_prefix rq n p :
  header_accepts rq (PDict [("name", PStr n); ("prefix_match", PStr p)]) = value_accepts rq n (λ v, startswith v p).
Proof. reflexivity. Qed.
Lemma accepts_exact rq n e :
  header_accepts rq (PDict [("name", PStr n); ("string_match", PDict [("exact", PStr e)])])
  = value_accepts rq n (λ v, bool_decide (e = v)).
Proof. reflexivity. Qed.
Lemma accepts_regex rq n x r :
  header_accepts rq (PDict [("name", PStr n); ("safe_regex_match", PDict [("google_re2", x); ("regex", PStr r)])])
  = value_accepts rq n (re r).
Proof. reflexivity. Qed.

Lemma value_accepts_true rq n f :
  value_accepts rq n f = true ↔ ∃ v, dget (lower n) (rq_headers rq) = Some v ∧ f v = true.
Proof. unfold value_accepts. destruct (dget _ _); naive_solver. Qed.

Lemma host_header rq g kv :
  glob_wf g → authority_match (PStr (glob_str g)) = Ok kv →
  match kv with
  | None => header_wanted rq (HHost g)
  | Some kv => header_accepts rq (PDict [("name", PStr ":authority"); kv]) = true ↔ header_wanted rq (HHost g)
  end.
Proof.
  intros Hw. unfold authority_match. cbn [py_eqb]. rewrite glob_starts, glob_ends by done. case_bool as Hs.
  { intros [= <-]. change "*" with (glob_str GAny) in Hs. apply glob_str_inj in Hs; [|done..]. by subst. }
  intros [= <-]. destruct g as [|s|p|e]; [done|..]; cbn [starts_star ends_star glob_str header_wanted glob_match bare];
    rewrite ?accepts_suffix, ?accepts_prefix, ?accepts_exact, value_accepts_true;
    change (lower ":authority") with ":authority"; f_equiv; intros v.
  - cbn [drop_str]. by rewrite endswith_spec, suffix_split.
  - by rewrite init_star, startswith_spec, prefix_split.
  - rewrite bool_decide_eq_true. naive_solver.
Qed.

Lemma plain_header ctx n v :
  generate_header ctx (kv_dict (mkKV n v (PBool false))) =
    if bool_decide (n = ":authority") then a ← authority_match v; Ok (option_map (λ kv, PDict [("name", PStr n); kv]) a)
    else Ok (Some (PDict [("name", PStr n); ("string_match", PDict [("exact", v)])])).
Proof. reflexivity. Qed.

Lemma regex_header ctx n v :
  generate_header ctx (kv_dict (mkKV n v (PBool true))) =
    (r ← regex_matcher ctx v "regex_match" None; Ok (Some (PDict (dupdate [("name", PStr n)] r)))).
Proof. reflexivity. Qed.

(** One header of the group, which may need no match. *)
Lemma generate_header_right ctx rq h o :
  header_ok h → generate_header ctx (kv_dict (header_kv h)) = Ok o →
  match o with None => True | Some m => header_accepts rq m = true end ↔ header_wanted rq h.
Proof.
  destruct h as [n v|n r|g]; intros Hok H; cbn [header_kv] in H; rewrite ?plain_header, ?regex_header in H.
  - rewrite bool_decide_false in H by done. injection H as <-.
    rewrite accepts_exact, value_accepts_true. cbn [header_wanted].
    setoid_rewrite bool_decide_eq_true. naive_solver.
  - bind_step H as d Hd. injection H as <-. apply regex_matcher_Ok in Hd as (size & ->).
    change (dupdate _ _) with [("name", PStr n); ("safe_regex_match",
      PDict [("google_re2", PDict [("max_program_size", PInt size)]); ("regex", PStr r)])].
    by rewrite accepts_regex, value_accepts_true.
  - rewrite bool_decide_true in H by done. bind_step H as kv Hkv. injection H as <-.
    apply (host_header rq) in Hkv; [|done]. by destruct kv.
Qed.

Lemma map_res_Forall2 {A B} (f : A → res B) l l' : map_res f l = Ok l' ↔ Forall2 (λ x y, f x = Ok y) l l'.
Proof.
  revert l'. induction l as [|x l IH]; intros l'; cbn [map_res].
  - split; [intros [= <-]; constructor|intros H; by inversion H].
  - split.
    + intros H. bind_step H as y Hy. bind_step H as ys Hys. injection H as <-. constructor; [done|by apply IH].
    + intros H. inversion H as [|? y ? ys Hy Hys]; subst. rewrite Hy. apply IH in Hys. cbn. by rewrite Hys.
Qed.

Lemma generate_headers_right ctx rq group hs l :
  dget "headers" group = Some (PList (kv_dict <$> (header_kv <$> hs))) → Forall header_ok hs →
  generate_headers ctx group = Ok l → forallb (header_accepts rq) l = true ↔ Forall (header_wanted rq) hs.
Proof.
  intros Hg Hok H. unfold generate_headers, dget_default in H. rewrite Hg in H. bind_step H as ks Hks.
  injection Hks as <-. bind_step H as os Hos. injection H as <-. apply map_res_Forall2 in Hos. rewrite <- list_fmap_compose in Hos.
  clear Hg. revert os Hos. induction Hok as [|h hs Hh Hok IH]; intros os Hos; inversion Hos as [|? o ? os' Ho Hos']; subst.
  { split; [constructor|done]. }
  apply (generate_header_right ctx rq) in Ho; [|done]. specialize (IH os' Hos'). rewrite Forall_cons, <- Ho, <- IH.
  unfold somes. destruct o as [m|]; cbn -[header_accepts]; [by rewrite andb_true_iff|tauto].
Qed.
Definition param_accepts (rq : request) (n : string) (f : string → bool) : bool :=
  match dget n (rq_query rq) with Some v => f v | None => false end.

Lemma param_accepts_true rq n f :
  param_accepts rq n f = true ↔ ∃ v, dget n (rq_query rq) = Some v ∧ f v = true.
Proof. unfold param_accepts. destruct (dget n _); split; [eauto|intros (? & [= ->] & ?); done|done|intros (? & ? & _); done]. Qed.

(** One query parameter of the group *)
Lemma generate_query_right ctx rq q m :
  generate_query_parameter ctx (kv_dict (query_kv q)) = Ok m → query_accepts rq m = true ↔ query_wanted rq q.
Proof.
  destruct q as [n|n v|n r]; intros H.
  - injection H as <-. change (query_accepts _ _) with (param_accepts rq n (λ _, true)).
    rewrite param_accepts_true. unfold query_wanted, is_Some. naive_solver.
  - injection H as <-. change (query_accepts _ _) with (param_accepts rq n (λ w, bool_decide (v = w))).
    rewrite param_accepts_true. setoid_rewrite bool_decide_eq_true. cbn. naive_solver.
  - change (regex_matcher ctx (PStr r) "regex" None ≫= (λ r, Ok (PDict [("name", PStr n); ("string_match", PDict r)])) = Ok m) in H.
    bind_step H as d Hd. injection H as <-. apply regex_matcher_Ok in Hd as (size & ->).
    change (query_accepts _ _) with (param_accepts rq n (re r)). by rewrite param_accepts_true.
Qed.

Lemma generate_queries_right ctx rq group qs l :
  dget "query_parameters" group = Some (PList (kv_dict <$> (query_kv <$> qs))) →
  generate_query_parameters ctx group = Ok l → forallb (query_accepts rq) l = true ↔ Forall (query_wanted rq) qs.
Proof.
  intros Hg H. unfold generate_query_parameters, dget_default in H. rewrite Hg in H. bind_step H as ks Hks.
  injection Hks as <-. apply map_res_Forall2 in H. rewrite <- list_fmap_compose in H. clear Hg.
  revert l H. induction qs as [|q qs IH]; intros l H; inversion H as [|? m ? l' Hm Hl]; subst; [by split|].
  apply (generate_query_right ctx rq) in Hm. cbn [forallb]. by rewrite Forall_cons, andb_true_iff, Hm, (IH l' Hl).
Qed.

Lemma dget_set_nonempty k k' l d : k ≠ k' → dget k (set_nonempty k' l d) = dget k d.
Proof. intros Hk. unfold set_nonempty. destruct l; [done|by rewrite dget_dset_ne]. Qed.

Lemma items_set_nonempty k l d : dget k d = None → items k (set_nonempty k l d) = l.
Proof. intros Hk. unfold items, set_nonempty. destruct l; [by rewrite Hk|by rewrite dget_dset_eq]. Qed.
Lemma default_false k d : py_bool (dget_default k (PBool false) d) = py_bool (pget k d).
Proof. unfold pget, dget_default. by destruct (dget k d). Qed.

Lemma path_kinds rq cs fr p :
  let mt := [("case_sensitive", cs); ("runtime_fraction", fr)] in
  (path_accepts rq (dset "prefix" (PStr p) mt) = true ↔ path_wanted PathPrefix (py_bool cs) p (rq_path rq))
  ∧ (path_accepts rq (dset "path" (PStr p) mt) = true ↔ path_wanted PathExact (py_bool cs) p (rq_path rq))
  ∧ ∀ x, path_accepts rq (dupdate mt [("safe_regex", PDict [("google_re2", x); ("regex", PStr p)])]) = re p (rq_path rq).
Proof.
  cbn zeta. split; [|split]; [| |done].
  - change (path_accepts _ _) with
      (let f := if py_bool cs then id else lower in startswith (f (rq_path rq)) (f p)).
    cbn zeta. by rewrite startswith_spec.
  - change (path_accepts _ _) with
      (let f := if py_bool cs then id else lower in bool_decide (f (rq_path rq) = f p)).
    cbn zeta. by rewrite bool_decide_eq_true.
Qed.

Lemma path_accepts_set rq k l mt :
  k ∈ ["headers"; "query_parameters"] → path_accepts rq (set_nonempty k l mt) = path_accepts rq mt.
Proof.
  intros Hk. unfold path_accepts, dget_default. rewrite !elem_of_cons, elem_of_nil in Hk.
  destruct Hk as [->|[->|[]]]; by rewrite !dget_set_nonempty.
Qed.

(** The match of a route, with the path it asks for *)
Lemma route_match_right ctx rq group m fraction mt p hs qs :
  not_none (pget "prefix" m) (pget "prefix" group) = PStr p →
  dget "headers" group = Some (PList (kv_dict <$> (header_kv <$> hs))) → Forall header_ok hs →
  dget "query_parameters" group = Some (PList (kv_dict <$> (query_kv <$> qs))) →
  route_match ctx group m fraction = Ok mt →
  match_accepts rq mt = true ↔
    path_wanted (group_path group)
      (py_bool (not_none (pget "case_sensitive" m) (dget_default "case_sensitive" (PBool true) group))) p (rq_path rq)
    ∧ Forall (header_wanted rq) hs ∧ Forall (query_wanted rq) qs.
Proof.
  intros Hp Hh Hok Hq. unfold route_match. rewrite Hp. set (cs := not_none (pget "case_sensitive" m) _).
  intros H. bind_step H as mt0 Hmt. bind_step H as l1 H1. bind_step H as l2 H2. injection H as <-.
  apply (generate_headers_right ctx rq group hs) in H1; [|done..].
  apply (generate_queries_right ctx rq group qs) in H2; [|done].
  rewrite <- H1, <- H2. unfold match_accepts. rewrite !andb_true_iff.
  assert (Hn : dget "headers" mt0 = None ∧ dget "query_parameters" mt0 = None ∧
    (path_accepts rq mt0 = true ↔ path_wanted (group_path group) (py_bool cs) p (rq_path rq))).
  { destruct (path_kinds rq cs (PDict fraction) p) as (K1 & K2 & K3).
    unfold group_path. unfold get_envoy_route in Hmt. rewrite !default_false in Hmt.
    destruct (py_bool (pget "prefix_regex" group)); [|destruct (py_bool (pget "prefix_exact" group))].
    - rewrite !bool_decide_false in Hmt by done. bind_step Hmt as r Hr. injection Hmt as <-.
      apply regex_matcher_Ok in Hr as (size & ->). split; [done|]. split; [done|]. by rewrite K3.
    - rewrite bool_decide_false, bool_decide_true in Hmt by done. injection Hmt as <-. by split_and!.
    - rewrite bool_decide_true in Hmt by done. injection Hmt as <-. by split_and!. }
  destruct Hn as (N1 & N2 & Hpath). rewrite !path_accepts_set, Hpath by set_solver.
  rewrite items_set_nonempty by (by rewrite dget_set_nonempty).
  assert (Hi : items "headers" (set_nonempty "query_parameters" l2 (set_nonempty "headers" l1 mt0)) = l1).
  { unfold items at 1. rewrite dget_set_nonempty by done. by apply items_set_nonempty. }
  rewrite Hi. tauto.
Qed.
End envoy.

(** ** What is in a route *)

Lemma add_headers_keeps k gk key group self self' :
  k ≠ key → add_headers gk key group self = Ok self' → dget k self' = dget k self.
Proof.
  intros Hk H. unfold add_headers in H. destruct (py_bool _); [|by injection H as <-].
  bind_step H as hs Hhs. injection H as <-. by apply dget_dset_ne.
Qed.

Lemma remove_headers_keeps k gk key group self : k ≠ key → dget k (remove_headers gk key group self) = dget k self.
Proof. intros Hk. unfold remove_headers. destruct (py_bool _); [by apply dget_dset_ne|done]. Qed.

Lemma filter_config_keeps k g m self :
  k ≠ "typed_per_filter_config" → dget k (filter_config g m self) = dget k self.
Proof. intros Hk. unfold filter_config. repeat case_match; by rewrite ?dget_dset_ne. Qed.

Lemma copy_if_keeps k key k' m route : k ≠ key → dget k (copy_if key k' m route) = dget k route.
Proof. intros Hk. unfold copy_if. case_match; [by apply dget_dset_ne|done]. Qed.

(** The steps of [route_action] that may add an entry *)
Lemma route_cors_keeps k ctx group route route' :
  k ≠ "cors" → route_cors ctx group route = Ok route' → dget k route' = dget k route.
Proof.
  intros Hk H. unfold route_cors in H. destruct (py_bool _); [|by injection H as <-].
  res_inv. by apply dget_dset_ne.
Qed.
Lemma route_retry_keeps k ctx group route route' :
  k ≠ "retry_policy" → route_retry ctx group route = Ok route' → dget k route' = dget k route.
Proof. intros Hk H. unfold route_retry in H. repeat case_match; res_inv; by rewrite ?dget_dset_ne. Qed.
Lemma route_shadow_keeps k ms cs g route route' :
  k ≠ "request_mirror_policies" → route_shadow ms cs g route = Ok route' → dget k route' = dget k route.
Proof. intros Hk H. unfold route_shadow in H. case_match; res_inv; by rewrite ?dget_dset_ne. Qed.

(** A route sends requests to the cluster of its Mapping. *)
Lemma route_action_cluster ctx ms cs g mapping route es :
  route_action ctx ms cs g mapping = Ok (route, es) →
  ∃ o n, mapping = Some o ∧ envoy_name_of cs o = Ok n ∧ dget "cluster" route = Some n.
Proof.
  unfold route_action. intros H. bind_step H as t Ht. bind_step H as n Hn. destruct mapping as [o|]; [|done].
  exists o, n. split; [done|]. split; [done|].
  bind_step H as r1 H1. bind_step H as rr Hrr. bind_step H as hp Hhp. bind_step H as r2 H2. bind_step H as r3 H3.
  bind_step H as r4 H4. bind_step H as [rls es'] Hrl. bind_step H as r5 H5. injection H as <- <-.
  transitivity (dget "cluster" r4).
  { destruct (py_bool (pget "allow_upgrade" _)); res_inv; rewrite ?dget_dset_ne by done; by apply dget_set_nonempty. }
  rewrite (route_shadow_keeps "cluster" _ _ _ _ _ ltac:(done) H4), (route_retry_keeps "cluster" _ _ _ _ ltac:(done) H3),
    (route_cors_keeps "cluster" _ _ _ _ ltac:(done) H2).
  transitivity (dget "cluster" r1).
  { destruct hp; rewrite ?dget_dset_ne, !copy_if_keeps by done; destruct rr, (py_bool (pget "rewrite" (mapping_self (Some o)))); by rewrite ?dget_dset_ne. }
  destruct (pget "idle_timeout_ms" (mapping_self (Some o))); res_inv; rewrite ?dget_dset_ne by done; reflexivity.
Qed.

Lemma V3Route_shape ctx ms cs g mapping r es :
  V3Route_init ctx ms cs g mapping = Ok (r, es) →
  ∃ fraction failed mt redirect,
    runtime_fraction cs mapping = Ok (fraction, failed)
    ∧ route_match ctx (go_self g) (mapping_self mapping) fraction = Ok mt
    ∧ rt_constraints r = [py_or (pget "host" (go_self g)) (PStr "*")]
    ∧ dget "match" (rt_self r) = Some (PDict mt)
    ∧ true_redirect ms g = Ok redirect
    ∧ match redirect with
      | Some m => ∃ d, route_redirect m = Ok (d, es) ∧ dget "redirect" (rt_self r) = Some d ∧ dget "route" (rt_self r) = None
      | None => ∃ route, route_action ctx ms cs g mapping = Ok (route, es)
          ∧ dget "route" (rt_self r) = Some (PDict route) ∧ dget "redirect" (rt_self r) = None
      end.
Proof.
  unfold V3Route_init. intros H. bind_step H as u Hu. bind_step H as [fraction failed] Hf. bind_step H as mt Hmt.
  bind_step H as s1 H1. bind_step H as s2 H2. bind_step H as redirect Hr.
  exists fraction, failed, mt, redirect. split; [done|]. split; [done|].
  set (s0 := if failed then _ else _) in H1.
  assert (Hk : ∀ k, k ∈ ["match"; "redirect"; "route"] →
    dget k (remove_headers "remove_response_headers" "response_headers_to_remove" (go_self g)
      (remove_headers "remove_request_headers" "request_headers_to_remove" (go_self g) s2))
    = if decide (k = "match") then Some (PDict mt) else None).
  { intros k Hin.
    assert (Hne : k ≠ "response_headers_to_remove" ∧ k ≠ "request_headers_to_remove" ∧ k ≠ "response_headers_to_add"
      ∧ k ≠ "request_headers_to_add" ∧ k ≠ "typed_per_filter_config") by (split_and!; set_solver).
    destruct Hne as (N1 & N2 & N3 & N4 & N5). rewrite !remove_headers_keeps by done.
    rewrite (add_headers_keeps k _ _ _ _ _ N3 H2), (add_headers_keeps k _ _ _ _ _ N4 H1), filter_config_keeps by done.
    destruct (decide (k = "match")) as [->|Hm]; [by rewrite dget_dset_eq|]. rewrite dget_dset_ne by done.
    unfold s0. rewrite !elem_of_cons, elem_of_nil in Hin.
    destruct failed, (py_bool (pget "precedence" (go_self g))); destruct Hin as [->|[->|[->|[]]]]; done. }
  destruct redirect as [m|]; bind_step H as [d es'] Hd; injection H as <- <-; cbn [rt_self rt_constraints];
    (split; [done|]); (split; [rewrite dget_dset_ne, Hk by (done || set_solver); done|]); (split; [done|]); exists d;
    rewrite dget_dset_eq, dget_dset_ne, Hk by (done || set_solver); done.
Qed.

(** ** Where requests go *)

(** The index of the first element that passes a test *)
Fixpoint first_index {A} (f : A → bool) (l : list A) : option nat :=
  match l with [] => None | x :: l => if f x then Some 0 else S <$> first_index f l end.

Definition route_accepts (re : string → string → bool) (rq : request) (route : dict pyval) : bool :=
  match dget "match" route with Some (PDict mt) => match_accepts re rq mt | _ => false end.

(** Envoy draws one number below 100 for each request, and takes a route if
    the number is below its numerator. *)
Definition numerator (route : dict pyval) : Z :=
  match ((dget "match" route ≫= field "runtime_fraction") ≫= field "default_value") ≫= field "numerator" with
  | Some (PInt n) => n
  | _ => 100
  end.

Definition route_for (re : string → string → bool) (rq : request) (draw : Z) (routes : list (dict pyval)) : option nat :=
  first_index (λ r, route_accepts re rq r && bool_decide (draw < numerator r)%Z) routes.

(** How many of the hundred draws a route gets *)
Definition share (re : string → string → bool) (rq : request) (routes : list (dict pyval)) (i : nat) : nat :=
  length (filter (λ d, route_for re rq d routes = Some i) (seqZ 0 100)).

Lemma first_index_ext {A B} (f : A → bool) (g : B → bool) l l' :
  Forall2 (λ x y, f x = g y) l l' → first_index f l = first_index g l'.
Proof. induction 1 as [|x y l l' H _ IH]; [done|]. cbn. by rewrite H, IH. Qed.

(** Counting the draws below rising bounds *)
Definition bound_share (lo : Z) (ws : list Z) (i : nat) : nat :=
  length (filter (λ d, first_index (λ w, bool_decide (d < w)%Z) ws = Some i) (seqZ lo (100 - lo))).

Lemma bounds_below lo ws hi w : nondecr lo ws hi → w ∈ ws → (lo ≤ w ≤ hi)%Z.
Proof.
  revert lo. induction ws as [|v ws IH]; intros lo; cbn; [by rewrite elem_of_nil|].
  intros [Hlo Hn]. rewrite elem_of_cons. intros [->|Hw].
  - clear - Hlo Hn. revert v lo Hlo Hn. induction ws as [|u ws IH]; intros v lo Hlo; cbn; [lia|].
    intros [? Hn]. destruct (IH u v) as [? ?]; [done..|]. lia.
  - destruct (IH _ Hn Hw). lia.
Qed.

Lemma filter_decided {A} (P : A → Prop) `{!∀ x, Decision (P x)} l :
  ((∀ x, x ∈ l → P x) → filter P l = l) ∧ ((∀ x, x ∈ l → ¬ P x) → filter P l = []).
Proof.
  induction l as [|x l [IH1 IH2]]; [done|]. split; intros Hx; rewrite filter_cons.
  - rewrite decide_True, IH1; [done|intros y ?; apply Hx; by right|apply Hx; by left].
  - rewrite decide_False, IH2; [done|intros y ?; apply Hx; by right|apply Hx; by left].
Qed.

Lemma bound_share_spec lo ws hi i w :
  nondecr lo ws hi → (hi ≤ 100)%Z → ws !! i = Some w →
  Z.of_nat (bound_share lo ws i) = (w - match i with O => lo | S j => default 0 (ws !! j) end)%Z.
Proof.
  revert lo i w. induction ws as [|v ws IH]; intros lo i w Hn Hhi Hi; [done|].
  destruct (bounds_below _ _ _ v Hn ltac:(by left)) as [Hlo Hv]. destruct Hn as [_ Hn].
  unfold bound_share. assert (E : seqZ lo (100 - lo) = seqZ lo (v - lo) ++ seqZ v (100 - v)).
  { replace (100 - lo)%Z with ((v - lo) + (100 - v))%Z by lia. rewrite seqZ_app by lia. do 2 f_equal. lia. }
  rewrite E, filter_app, length_app. destruct i as [|j]; cbn [first_index].
  - injection Hi as ->. rewrite (proj1 (filter_decided _ (seqZ lo _))), (proj2 (filter_decided _ (seqZ w _))).
    + rewrite length_seqZ. cbn. lia.
    + intros d Hd%elem_of_seqZ. rewrite bool_decide_false by lia. by destruct (first_index _ _).
    + intros d Hd%elem_of_seqZ. by rewrite bool_decide_true by lia.
  - cbn in Hi. rewrite (proj2 (filter_decided _ (seqZ lo _))).
    2: { intros d Hd%elem_of_seqZ. by rewrite bool_decide_true by lia. }
    rewrite (filter_ext_in _ (λ d, first_index (λ w, bool_decide (d < w)%Z) ws = Some j)).
    2: { intros d Hd%elem_of_seqZ. rewrite bool_decide_false by lia. destruct (first_index _ _); naive_solver. }
    cbn [length Nat.add]. change (length _) with (bound_share v ws j). rewrite (IH v j w Hn Hhi Hi).
    by destruct j.
Qed.

Lemma route_match_fraction ctx group m fraction mt :
  route_match ctx group m fraction = Ok mt → dget "runtime_fraction" mt = Some (PDict fraction).
Proof.
  unfold route_match. intros H. bind_step H as mt0 Hmt. bind_step H as l1 H1. bind_step H as l2 H2. injection H as <-.
  rewrite !dget_set_nonempty by done. repeat case_bool; res_inv; [done..|].
  match goal with H : regex_matcher _ _ _ _ = _ |- _ => apply regex_matcher_Ok in H as (size & ->) end. done.
Qed.

(** The numerator of a route is the computed weight of its Mapping. *)
Lemma route_numerator ctx ms cs g o r es w :
  V3Route_init ctx ms cs g (Some o) = Ok (r, es) → computed (mo_self o) = Some w → numerator (rt_self r) = w.
Proof.
  intros (fr & failed & mt & ? & Hf & Hmt & _ & Hm & _)%V3Route_shape Hw. unfold numerator. rewrite Hm. cbn [mbind option_bind field].
  rewrite (route_match_fraction _ _ _ _ _ Hmt). cbn [mbind option_bind field].
  assert (Hd : dget "default_value" fr = Some (PDict [("numerator", PInt w); ("denominator", PStr "HUNDRED")])).
  { assert (Hc : dget_default "_weight" (PInt 100) (mo_self o) = PInt w).
    { unfold computed in Hw. unfold dget_default. destruct (dget "_weight" _) as [[]|]; naive_solver. }
    unfold runtime_fraction in Hf. cbn [mapping_self] in Hf. rewrite Hc in Hf.
    destruct (mo_cluster o); res_inv; simplify_eq; by rewrite ?dget_dset_ne. }
  by rewrite Hd.
Qed.

Lemma partial_sums_step acc l i w :
  l !! i = Some w →
  ∃ v, partial_sums acc l !! i = Some v ∧ w = (v - match i with O => acc | S j => default 0 (partial_sums acc l !! j) end)%Z.
Proof.
  revert acc i. induction l as [|x l IH]; intros acc i Hi; [done|]. destruct i as [|i].
  - injection Hi as ->. eexists. split; [done|]. lia.
  - destruct (IH (acc + x)%Z i Hi) as (v & Hv & ->). exists v. split; [done|]. by destruct i.
Qed.



(** ** Variants *)

(** The header matches that are not about the protocol *)
Definition kept (hs : list pyval) : list pyval := List.filter (λ h, match not_xfp h with Ok b => b | Raise _ => false end) hs.

Lemma filter_res_Ok {A} (f : A → res bool) l l' :
  filter_res f l = Ok l' → l' = List.filter (λ x, match f x with Ok b => b | Raise _ => false end) l.
Proof.
  revert l'. induction l as [|x l IH]; cbn; intros l' H; [by injection H as <-|].
  bind_step H as b Hb. bind_step H as l'' Hl. injection H as <-. rewrite Hb, (IH _ Hl). by destruct b.
Qed.

Definition has_headers (mt : dict pyval) (hs : list pyval) : Prop :=
  dget "headers" mt = Some (PList hs) ∨ hs = [] ∧ dget "headers" mt = None.

(** A request that a route accepts but for the protocol *)
Definition accepts_otherwise (re : string → string → bool) (rq : request) (mt : dict pyval) (hs : list pyval) : bool :=
  path_accepts re rq mt && forallb (header_accepts re rq) (kept hs) && forallb (query_accepts re rq) (items "query_parameters" mt).

Lemma matcher_xfp_headers variant mt hs value v :
  dget "match" variant = Some (PDict mt) → has_headers mt hs → matcher_xfp variant value = Ok v →
  v = dset "match" (PDict (set_nonempty "headers" (kept hs ++ match value with
        | Some x => [PDict [("name", PStr xfp_name); ("string_match", PDict [("exact", PStr x)])]] | None => [] end) mt)) variant.
Proof.
  intros Hm Hh. unfold matcher_xfp, dget_exn. rewrite Hm. intros H. bind_step H as m Hm'. injection Hm' as <-.
  bind_step H as mt' Hmt. injection Hmt as <-. bind_step H as hs' Hhs. bind_step H as k Hk. apply filter_res_Ok in Hk.
  assert (hs' = hs) as ->.
  { destruct Hh as [Hh|[-> Hh]]; unfold pget, dget_default in Hhs; rewrite Hh in Hhs; cbn in Hhs.
    - destruct hs; cbn in Hhs; by injection Hhs as <-.
    - by injection Hhs as <-. }
  fold (kept hs) in Hk. subst k. injection H as <-. destruct value; by rewrite ?app_nil_r.
Qed.

Lemma accepts_headers re rq mt l :
  items "headers" mt = [] ∨ l ≠ [] →
  match_accepts re rq (set_nonempty "headers" l mt) =
    path_accepts re rq mt && forallb (header_accepts re rq) l && forallb (query_accepts re rq) (items "query_parameters" mt).
Proof.
  intros Hl. unfold match_accepts. rewrite path_accepts_set by set_solver.
  assert (items "headers" (set_nonempty "headers" l mt) = l) as ->.
  { unfold set_nonempty. destruct l; [by destruct Hl as [->|?]|]. unfold items. by rewrite dget_dset_eq. }
  unfold items at 1. by rewrite dget_set_nonempty.
Qed.

Lemma has_headers_items mt hs : has_headers mt hs → items "headers" mt = hs.
Proof. unfold items. by intros [->|[-> ->]]. Qed.

Lemma xfp_accepts re rq :
  header_accepts re rq (PDict [("name", PStr xfp_name); ("string_match", PDict [("exact", PStr "https")])])
  = bool_decide (dget xfp_name (rq_headers rq) = Some "https").
Proof.
  rewrite accepts_exact. unfold value_accepts. change (lower xfp_name) with xfp_name.
  destruct (dget xfp_name (rq_headers rq)); [|done]. apply bool_decide_ext. naive_solver.
Qed.

Lemma get_variant_miss ctx route matcher action vs v vs' :
  dget (lower matcher +:+ "-" +:+ lower action) vs = None → get_variant ctx route matcher action vs = Ok (v, vs') →
  ∃ mh w ah, matcher_handler (lower matcher) = Ok mh ∧ mh route = Ok w ∧ action_handler ctx (lower action) = Ok ah
    ∧ ah w = Ok v ∧ vs' = dset (lower matcher +:+ "-" +:+ lower action) v vs.
Proof.
  intros Hk H. unfold get_variant in H. rewrite Hk in H. bind_step H as mh Hmh. bind_step H as w Hw.
  bind_step H as ah Hah. bind_step H as w' Hw'. injection H as <- <-. by exists mh, w, ah.
Qed.

Lemma action_redirect_spec ctx w v :
  dict_ok w → action_redirect ctx w = Ok v →
  dget "match" v = dget "match" w ∧ dget "route" v = None
  ∧ dget "redirect" v = Some (PDict [("https_redirect", PBool true)]).
Proof.
  intros Hd H. unfold action_redirect in H. bind_step H as ks Hks. injection H as <-.
  destruct (existsb _ _); dlook; by rewrite dget_ddel_ne, dget_ddel_eq.
Qed.

(** The protocol decides between the two variants of a route.  Of the
    variant that routes [https] and the one that redirects the rest, in this
    order, a request that the route accepts but for the protocol gets the
    first exactly if it came by [https], and else the redirect; a request
    that the route does not accept gets neither. *)
Theorem xfp_variants re rq ctx route mt hs v1 vs1 v2 vs2 :
  dict_ok route → dget "match" route = Some (PDict mt) → has_headers mt hs → (kept hs = [] → hs = []) →
  get_variant ctx route "xfp-https" "route" [] = Ok (v1, vs1) →
  get_variant ctx route "xfp-http" "redirect" vs1 = Ok (v2, vs2) →
  first_index (route_accepts re rq) [v1; v2] =
    (if accepts_otherwise re rq mt hs
     then Some (if bool_decide (dget xfp_name (rq_headers rq) = Some "https") then 0 else 1) else None)
  ∧ dget "route" v1 = dget "route" route
  ∧ dget "route" v2 = None ∧ dget "redirect" v2 = Some (PDict [("https_redirect", PBool true)]).
Proof.
  intros Hok Hm Hh Hk H1 H2.
  apply get_variant_miss in H1 as (mh & w1 & ah & [= <-] & Hw1 & [= <-] & [= <-] & ->); [|done].
  apply get_variant_miss in H2 as (mh & w2 & ah & [= <-] & Hw2 & [= <-] & Hv2 & ->); [|done].
  apply (matcher_xfp_headers _ mt hs) in Hw1 as ->, Hw2 as ->; [|done..].
  apply action_redirect_spec in Hv2 as (Hm2 & Hr2 & Hd2); [|by apply dict_ok_dset]. rewrite dget_dset_eq in Hm2.
  pose proof (has_headers_items _ _ Hh) as Hi. split; [|by rewrite dget_dset_ne].
  cbn [first_index]. unfold route_accepts. rewrite dget_dset_eq, Hm2, !accepts_headers, forallb_app.
  - cbn [forallb]. rewrite xfp_accepts, app_nil_r, andb_true_r. unfold accepts_otherwise.
    destruct (path_accepts re rq mt), (forallb (header_accepts re rq) (kept hs)),
      (forallb (query_accepts re rq) _), (bool_decide _); done.
  - rewrite Hi, app_nil_r. destruct (kept hs); [left; by apply Hk|by right].
  - right. by destruct (kept hs).
Qed.

(** ** The cache changes nothing *)

Section cached.
Context {C : Type} `{ops : !CacheOps C ref} `{laws : !CacheLaws C ref}.
Implicit Types s : v3_state C.

(** The same IR with nothing cached *)
Definition uncached_ir (ir : ir_state C) : ir_state NullCache :=
  mkIRState (st_mappings ir) (st_group_objs ir) (st_cluster_objs ir) (st_groups ir) (st_clusters ir) NullCache_init
    (st_tls ir) (st_errors ir).
Definition uncached s : v3_state NullCache := mkV3 (uncached_ir (vs_ir s)) (vs_objs s) (vs_elements s) (vs_errors s).

Definition same_ir {C1 C2} (i1 : ir_state C1) (i2 : ir_state C2) : Prop :=
  st_mappings i1 = st_mappings i2 ∧ st_group_objs i1 = st_group_objs i2 ∧ st_cluster_objs i1 = st_cluster_objs i2
  ∧ st_groups i1 = st_groups i2.

(** The routes to be made: their keys, groups and Mappings *)
Definition task {D} (ir : ir_state D) (k : string) (g : group_obj) (mo : option mapping_obj) : Prop :=
  g ∈ st_group_objs ir ∧
  (mo = None ∧ route_key g "hostredirect" = Ok k ∨
   ∃ mi o mk, mi ∈ go_mappings g ∧ st_mappings ir !! mi = Some o ∧ mo = Some o ∧ mapping_key o = Ok mk
     ∧ route_key g mk = Ok k).

Definition keys_distinct {D} (ir : ir_state D) : Prop :=
  ∀ k g mo g' mo', task ir k g mo → task ir k g' mo' → g = g' ∧ mo = mo'.

(** Every cached route is the one that would be made. *)
Definition routes_current (ctx : v3_ctx) s : Prop :=
  c_inv (R := ref) (st_cache (vs_ir s)) ∧
  ∀ k g mo r, task (vs_ir s) k g mo → (c_getitem (st_cache (vs_ir s)) k).1 = Some r →
    ∃ i rt es, r = RRoute i k ∧ vs_objs s !! i = Some rt
      ∧ V3Route_init ctx (st_mappings (vs_ir s)) (st_cluster_objs (vs_ir s)) g mo = Ok (rt, es).

(** Routes in two states that are the same *)
Definition same_route s (n : v3_state NullCache) (i j : nat) : Prop :=
  ∃ rt, vs_objs s !! i = Some rt ∧ vs_objs n !! j = Some rt.

Lemma task_same {D E} (i1 : ir_state D) (i2 : ir_state E) k g mo : same_ir i1 i2 → task i1 k g mo → task i2 k g mo.
Proof. intros (H1 & H2 & _). unfold task. by rewrite H1, H2. Qed.

(** A route made without the cache *)
Lemma get_route_null ctx key g mo (n n' : v3_state NullCache) j :
  get_route ctx key g mo n = Ok (j, n') →
  ∃ rt es gi gr, V3Route_init ctx (st_mappings (vs_ir n)) (st_cluster_objs (vs_ir n)) g mo = Ok (rt, es)
    ∧ j = length (vs_objs n) ∧ vs_objs n' = vs_objs n ++ [rt] ∧ same_ir (vs_ir n) (vs_ir n')
    ∧ group_location (vs_ir n) g = Ok gi ∧ group_ref (vs_ir n) gi = Ok gr ∧ is_Ok (v3prettyroute rt).
Proof.
  unfold get_route. cbn [cache_fetch c_getitem NullCache_ops null_getitem]. intros H. bind_step H as [rt es] Hrt.
  bind_step H as ir1 H1. bind_step H as gi Hgi. bind_step H as gr Hgr. bind_step H as ir2 H2. bind_step H as p Hp.
  injection H as <- <-. injection H1 as <-. injection H2 as <-. exists rt, es, gi, gr. rewrite Hp. done.
Qed.

Lemma routes_current_add ctx s ir key g mo i rt es :
  routes_current ctx s → keys_distinct (vs_ir s) → task (vs_ir s) key g mo → same_ir (vs_ir s) ir →
  V3Route_init ctx (st_mappings (vs_ir s)) (st_cluster_objs (vs_ir s)) g mo = Ok (rt, es) → i = length (vs_objs s) →
  c_inv (R := ref) (st_cache ir) →
  (∀ k r, (c_getitem (st_cache ir) k).1 = Some r → r = RRoute i key ∨ (c_getitem (st_cache (vs_ir s)) k).1 = Some r) →
  routes_current ctx (mkV3 ir (vs_objs s ++ [rt]) (vs_elements s) (vs_errors s ++ es)).
Proof.
  intros [_ Hcur] Hkd Ht Hsame Hrt -> Hinv Hget. split; [exact Hinv|]. cbn [vs_ir vs_objs].
  intros k g' mo' r Ht' Hr. assert (Ht2 : task (vs_ir s) k g' mo').
  { eapply task_same; [|exact Ht']. destruct Hsame as (? & ? & ? & ?). by split_and!. }
  destruct Hsame as (Hm & _ & Hc & _). rewrite <- Hm, <- Hc. pose proof (c_getitem_key _ _ _ Hinv Hr) as Hkey.
  destruct (Hget _ _ Hr) as [->|Hold].
  - injection Hkey as <-. destruct (Hkd _ _ _ _ _ Ht Ht2) as [<- <-].
    exists (length (vs_objs s)), rt, es. split; [done|]. by rewrite lookup_app_r, Nat.sub_diag by lia.
  - destruct (Hcur _ _ _ _ Ht2 Hold) as (i & rt' & es' & -> & Hi & He). exists i, rt', es'.
    split; [done|]. by rewrite (lookup_app_l_Some _ _ _ _ Hi).
Qed.

Definition sim (ctx : v3_ctx) s (n : v3_state NullCache) : Prop :=
  routes_current ctx s ∧ keys_distinct (vs_ir s) ∧ same_ir (vs_ir s) (vs_ir n).

Lemma same_ir_trans {D E F} (i1 : ir_state D) (i2 : ir_state E) (i3 : ir_state F) :
  same_ir i1 i2 → same_ir i2 i3 → same_ir i1 i3.
Proof. intros (? & ? & ? & ?) (? & ? & ? & ?). split_and!; congruence. Qed.
Lemma same_ir_sym {D E} (i1 : ir_state D) (i2 : ir_state E) : same_ir i1 i2 → same_ir i2 i1.
Proof. intros (? & ? & ? & ?). by split_and!. Qed.

Lemma keys_distinct_same {D E} (i1 : ir_state D) (i2 : ir_state E) : same_ir i1 i2 → keys_distinct i1 → keys_distinct i2.
Proof. intros Hs Hk k g mo g' mo' H1 H2. by eapply Hk; (eapply task_same; [apply same_ir_sym, Hs|]). Qed.

(** A cache that has less *)
Lemma routes_current_less ctx s c :
  routes_current ctx s → c_inv (R := ref) c →
  (∀ k (r : ref), (c_getitem c k).1 = Some r → (c_getitem (st_cache (vs_ir s)) k).1 = Some r) →
  routes_current ctx (vs_with s (st_with_cache (vs_ir s) c)).
Proof.
  intros [_ Hcur] Hinv Hless. split; [done|]. intros k g mo r Ht Hr. cbn [vs_ir vs_with st_with_cache st_cache] in Hr.
  destruct (Hcur k g mo r) as (i & rt & es & ? & ? & ?); [|by apply Hless|by exists i, rt, es].
  eapply task_same; [|exact Ht]. by split_and!.
Qed.

(** Fetching or making a route gives the right one. *)
Lemma get_route_keeps ctx key g mo s i s' :
  routes_current ctx s → keys_distinct (vs_ir s) → task (vs_ir s) key g mo → get_route ctx key g mo s = Ok (i, s') →
  routes_current ctx s' ∧ same_ir (vs_ir s) (vs_ir s') ∧ vs_objs s `prefix_of` vs_objs s'
  ∧ ∃ rt es, vs_objs s' !! i = Some rt
      ∧ V3Route_init ctx (st_mappings (vs_ir s)) (st_cluster_objs (vs_ir s)) g mo = Ok (rt, es).
Proof.
  intros Hcur Hkd Ht. pose proof (proj2 Hcur key g mo) as Hcur0. pose proof (proj1 Hcur) as Hinv.
  assert (Hinv0 := c_inv_getitem (R := ref) _ key Hinv). assert (Hpure := c_getitem_pure (R := ref) (st_cache (vs_ir s)) key).
  unfold get_route, cache_fetch. destruct (c_getitem (R := ref) (st_cache (vs_ir s)) key) as [r c0] eqn:Hc0.
  cbn [fst snd] in *. destruct r as [r|]; intros H.
  - destruct (Hcur0 r Ht eq_refl) as (i' & rt & es & -> & Hi & He). injection H as <- <-. split; [|split_and!; try done].
    + apply routes_current_less; [done..|]. intros k r Hr. by apply Hpure.
    + by exists rt, es.
  - bind_step H as [rt es] Hrt. bind_step H as ir1 H1. bind_step H as gi Hgi. bind_step H as gr Hgr. bind_step H as ir2 H2.
    bind_step H as p Hp. injection H as <- <-. unfold cache_add in H1. bind_step H1 as c1 Hc1. injection H1 as <-.
    unfold cache_link in H2. bind_step H2 as c2 Hc2. injection H2 as <-. cbn [st_cache st_with_cache] in *.
    split; [|split; [done|split; [by eexists|]]].
    + eapply routes_current_add; [done|done|exact Ht|done|exact Hrt|done| |].
      * eapply c_inv_link; [|exact Hc2]. by eapply c_inv_add.
      * intros k r Hr. apply (c_link_fetch _ _ _ _ _ _ Hc2) in Hr. destruct (c_add_fetch _ _ _ _ _ Hc1 Hr); [by left|].
        right. by apply Hpure.
    + exists rt, es. split; [|done]. cbn [vs_objs]. by rewrite lookup_app_r, Nat.sub_diag by lia.
Qed.

(** With the cache a route is the same as without. *)
Lemma get_route_sim ctx key g mo s n j n' :
  sim ctx s n → task (vs_ir s) key g mo → get_route ctx key g mo n = Ok (j, n') →
  ∃ i s', get_route ctx key g mo s = Ok (i, s') ∧ sim ctx s' n' ∧ same_ir (vs_ir s) (vs_ir s') ∧ same_route s' n' i j
    ∧ vs_objs s `prefix_of` vs_objs s' ∧ vs_objs n `prefix_of` vs_objs n'.
Proof.
  intros (Hcur & Hkd & Hs) Ht (rt & es & gi & gr & Hrt & -> & Hn' & Hsn & Hgi & Hgr & Hp)%get_route_null.
  pose proof Hs as (Sm & Sg & Sc & Sgs). rewrite <- Sm, <- Sc in Hrt.
  assert (Hex : ∃ i s', get_route ctx key g mo s = Ok (i, s')).
  { pose proof (proj2 Hcur key g mo) as Hcur0. unfold get_route, cache_fetch.
    destruct (c_getitem (R := ref) (st_cache (vs_ir s)) key) as [[r|] c0].
    - destruct (Hcur0 r Ht eq_refl) as (i & ? & ? & -> & _). by eexists _, _.
    - cbn [st_mappings st_cluster_objs st_with_cache]. rewrite Hrt. unfold cache_add, cache_link. cbn [mbind res_bind].
      destruct (c_add_total c0 (RRoute (length (vs_objs s)) key)) as [c1 Hc1]; [done|]. cbn [st_cache st_with_cache].
      rewrite Hc1. cbn [mbind res_bind].
      assert (Hgi' : group_location (st_with_cache (st_with_cache (vs_ir s) c0) c1) g = Ok gi)
        by (unfold group_location in *; cbn [st_groups st_with_cache]; by rewrite Sgs).
      assert (Hgr' : group_ref (st_with_cache (st_with_cache (vs_ir s) c0) c1) gi = Ok gr)
        by (unfold group_ref in *; cbn [st_group_objs st_with_cache]; by rewrite Sg).
      rewrite Hgi'. cbn [mbind res_bind]. rewrite Hgr'. cbn [mbind res_bind st_cache st_with_cache].
      destruct (c_link_total c1 gr (RRoute (length (vs_objs s)) key)) as [c2 Hc2]; [by destruct gr|done|].
      rewrite Hc2. cbn [mbind res_bind]. destruct (v3prettyroute rt); [by eexists _, _|done]. }
  destruct Hex as (i & s' & Hg). exists i, s'. split; [done|].
  destruct (get_route_keeps ctx key g mo s i s' Hcur Hkd Ht Hg) as (Hcur' & Hs' & Hpre & rt' & es' & Hi & Hrt').
  rewrite Hrt in Hrt'. injection Hrt' as <- <-. split_and!; try done.
  - split; [done|]. split; [by eapply keys_distinct_same|].
    exact (same_ir_trans _ _ _ (same_ir_sym _ _ Hs') (same_ir_trans _ _ _ Hs Hsn)).
  - exists rt. split; [done|]. by rewrite Hn', lookup_app_r, Nat.sub_diag by lia.
  - rewrite Hn'. by eexists.
Qed.

(** Two runs: their routes so far, and their states *)
Definition simx (ctx : v3_ctx) (ir : ir_state C) (x : list nat * v3_state C) (y : list nat * v3_state NullCache) : Prop :=
  sim ctx x.2 y.2 ∧ same_ir ir (vs_ir x.2) ∧ Forall2 (same_route x.2 y.2) x.1 y.1.

Lemma same_routes_grow s s' n n' l l' :
  vs_objs s `prefix_of` vs_objs s' → vs_objs n `prefix_of` vs_objs n' →
  Forall2 (same_route s n) l l' → Forall2 (same_route s' n') l l'.
Proof.
  intros Hs Hn H. eapply Forall2_impl; [exact H|]. intros i j (rt & Hi & Hj). exists rt. split; by eapply prefix_lookup_Some.
Qed.

Lemma fold_res_sim {A B X} (R : A → B → Prop) (f : A → X → res A) (g : B → X → res B) l a b b' :
  (∀ x a b b', x ∈ l → R a b → g b x = Ok b' → ∃ a', f a x = Ok a' ∧ R a' b') →
  R a b → fold_res g l b = Ok b' → ∃ a', fold_res f l a = Ok a' ∧ R a' b'.
Proof.
  revert a b. induction l as [|x l IH]; intros a b Hstep HR H; cbn [fold_res] in *.
  { injection H as <-. by exists a. }
  bind_step H as b1 Hb. destruct (Hstep x a b b1) as (a1 & -> & HR1); [by left|done..|]. cbn [mbind res_bind].
  eapply IH; [|done..]. intros y ? ? ? Hy. apply Hstep. by right.
Qed.

(** Saving a route for diagnostics *)
Lemma save_route_sim ctx g s n i j n' :
  sim ctx s n → save_route g j n = Ok n' →
  ∃ s', save_route g i s = Ok s' ∧ sim ctx s' n' ∧ vs_ir s' = vs_ir s ∧ vs_objs s' = vs_objs s ∧ vs_objs n' = vs_objs n.
Proof.
  intros Hsim. unfold save_route. intros H. bind_step H as rk Hrk. rewrite Hrk. cbn [mbind res_bind]. bind_step H as rk' Hrk'.
  rewrite Hrk'. cbn [mbind res_bind]. bind_step H as lo Hlo. rewrite Hlo. cbn [mbind res_bind]. bind_step H as lo' Hlo'.
  rewrite Hlo'. cbn [mbind res_bind]. injection H as <-. eexists. split; [done|]. done.
Qed.

(** A route that is kept *)
Lemma saved_sim ctx ir g s n l l' i j n' :
  simx ctx ir (l, s) (l', n) → same_route s n i j → save_route g j n = Ok n' →
  ∃ s', save_route g i s = Ok s' ∧ simx ctx ir (l ++ [i], s') (l' ++ [j], n').
Proof.
  intros (Hsim & Hir & Hl) (rt & Hi & Hj) Hs.
  destruct (save_route_sim ctx g s n i j n' Hsim Hs) as (s2 & -> & Hsim2 & Ei & Eo & En).
  eexists. split; [done|]. split; [done|]. cbn [snd fst] in *. rewrite Ei. split; [done|]. apply Forall2_app.
  - eapply same_routes_grow; [| |exact Hl]; [by rewrite Eo|by rewrite En].
  - constructor; [|constructor]. exists rt. by rewrite Eo, En.
Qed.

Lemma got_sim ctx ir g key mo (x : list nat * v3_state C) y j n :
  simx ctx ir x y → task ir key g mo → get_route ctx key g mo y.2 = Ok (j, n) →
  ∃ i s, get_route ctx key g mo x.2 = Ok (i, s) ∧ simx ctx ir (x.1, s) (y.1, n) ∧ same_route s n i j.
Proof.
  intros (Hsim & Hir & Hl) Ht Hg.
  destruct (get_route_sim ctx key g mo x.2 y.2 j n) as (i & s & Hs & Hsim1 & Hir1 & Hij & Hp1 & Hp2);
    [done|by eapply task_same|done|]. exists i, s. split; [done|]. split; [|done].
  split; [done|]. split; [by eapply same_ir_trans|]. by eapply same_routes_grow.
Qed.

Lemma mapping_route_sim ctx ir g mi x y y' :
  g ∈ st_group_objs ir → mi ∈ go_mappings g → simx ctx ir x y → mapping_route ctx g y mi = Ok y' →
  ∃ x', mapping_route ctx g x mi = Ok x' ∧ simx ctx ir x' y'.
Proof.
  intros Hg Hmi Hx. pose proof Hx as ((_ & _ & Hs) & Hir & _). unfold mapping_route.
  assert (Em : st_mappings (vs_ir y.2) = st_mappings ir ∧ st_mappings (vs_ir x.2) = st_mappings ir)
    by (destruct Hs as (? & _), Hir as (? & _); split; congruence).
  destruct Em as [-> ->]. intros H. bind_step H as o Ho. rewrite Ho. cbn [mbind res_bind]. bind_step H as mk Hmk.
  rewrite Hmk. cbn [mbind res_bind]. bind_step H as key Hkey. rewrite Hkey. cbn [mbind res_bind].
  bind_step H as [j n] Hn. destruct (got_sim ctx ir g key (Some o) x y j n) as (i & s & -> & Hsx & Hij); [done| |done|].
  { split; [done|]. right. exists mi, o, mk. unfold deref in Ho. by apply res_of_option_Ok in Ho. }
  cbn [mbind res_bind]. bind_step H as rt Hrt. destruct Hij as (rt' & Hi & Hj). unfold deref in *. rewrite Hj in Hrt.
  injection Hrt as <-. rewrite Hi. cbn [mbind res_bind res_of_option].
  destruct (py_bool _); [injection H as <-; by eexists|]. bind_step H as n' Hn'. injection H as <-.
  destruct (saved_sim ctx ir g s n x.1 y.1 i j n') as (s' & -> & Hx'); [done|by exists rt'|done|by eexists].
Qed.

Lemma redirect_route_sim ctx ir g x y y' :
  g ∈ st_group_objs ir → simx ctx ir x y → redirect_route ctx g y = Ok y' →
  ∃ x', redirect_route ctx g x = Ok x' ∧ simx ctx ir x' y'.
Proof.
  intros Hg Hx. unfold redirect_route. destruct (_ && _); [|intros [= <-]; by exists x]. intros H.
  bind_step H as key Hkey. rewrite Hkey. cbn [mbind res_bind]. bind_step H as [j n] Hn.
  destruct (got_sim ctx ir g key None x y j n) as (i & s & -> & Hsx & Hij); [done|split; [done|by left]|done|].
  cbn [mbind res_bind]. bind_step H as n' Hn'. injection H as <-.
  destruct (saved_sim ctx ir g s n x.1 y.1 i j n') as (s' & -> & Hx'); [done..|by eexists].
Qed.

Lemma generate_sim ctx s rs n :
  routes_current ctx s → keys_distinct (vs_ir s) → generate ctx (uncached s) = Ok (rs, n) →
  ∃ rs' s', generate ctx s = Ok (rs', s') ∧ Forall2 (same_route s' n) rs'.*1 rs.*1
    ∧ routes_current ctx s' ∧ same_ir (vs_ir s) (vs_ir s').
Proof.
  intros Hcur Hkd. unfold generate.
  change (ordered_groups (vs_ir (uncached s))) with (ordered_groups (vs_ir s)). intros H.
  bind_step H as gs Hgs. rewrite Hgs. cbn [mbind res_bind]. bind_step H as [js n'] Hf. injection H as <- <-.
  destruct (fold_res_sim (simx ctx (vs_ir s)) (group_routes ctx) (group_routes ctx) gs ([], s) ([], uncached s) (js, n'))
    as ([ls s'] & -> & (Hcur' & _) & Hir & Hl); [| |done|].
  - intros g x y y' Hg Hx. unfold group_routes. destruct (go_class g); [|intros [= <-]; by exists x].
    apply ordered_groups_perm in Hgs as (all & Hall & Hp). rewrite Hp in Hg.
    destruct (map_res_elem _ _ _ _ Hall Hg) as ([id gi] & _ & Hgi). apply res_of_option_Ok, list_elem_of_lookup_2 in Hgi.
    intros H. bind_step H as y1 Hy1. destruct (redirect_route_sim ctx (vs_ir s) g x y y1) as (x1 & -> & Hx1); [done..|].
    cbn [mbind res_bind]. eapply fold_res_sim; [|exact Hx1|exact H]. intros mi ? ? ? Hmi. by apply mapping_route_sim.
  - split; [|split; [done|constructor]]. split; [done|]. by split.
  - cbn [mbind res_bind]. eexists _, s'. split; [done|]. split; [|done]. cbn [fst snd] in Hl.
    rewrite !List.map_map, !List.map_id. exact Hl.
Qed.

Lemma fold_res_inv {A X} (P : A → Prop) (f : A → X → res A) l a a' :
  (∀ x a a', x ∈ l → P a → f a x = Ok a' → P a') → P a → fold_res f l a = Ok a' → P a'.
Proof.
  revert a. induction l as [|x l IH]; intros a Hstep HP H; cbn [fold_res] in H; [by injection H as <-|].
  bind_step H as a1 Ha. eapply (IH a1); [|by eapply Hstep; [left|..]|done]. intros y ? ? Hy. apply Hstep. by right.
Qed.

Lemma save_route_keeps g i s s' : save_route g i s = Ok s' → vs_ir s' = vs_ir s ∧ vs_objs s' = vs_objs s.
Proof.
  unfold save_route. intros H. bind_step H as a Ha. bind_step H as b Hb. bind_step H as c Hc. bind_step H as d Hd.
  by injection H as <-.
Qed.

Definition keeps (ctx : v3_ctx) (ir : ir_state C) (x : list nat * v3_state C) : Prop :=
  routes_current ctx x.2 ∧ same_ir ir (vs_ir x.2).

Lemma keeps_saved ctx ir l s l' s' g i : keeps ctx ir (l, s) → save_route g i s = Ok s' → keeps ctx ir (l', s').
Proof.
  intros [Hcur Hs] [Ei Eo]%save_route_keeps. unfold keeps, routes_current in *. cbn [snd] in *. by rewrite Ei, Eo.
Qed.

Lemma keeps_got ctx ir g key mo (x : list nat * v3_state C) l i s :
  keeps ctx ir x → keys_distinct ir → task ir key g mo → get_route ctx key g mo x.2 = Ok (i, s) → keeps ctx ir (l, s).
Proof.
  intros [Hcur Hs] Hkd Ht Hg. destruct (get_route_keeps ctx key g mo x.2 i s) as (? & ? & _); [done|by eapply keys_distinct_same|by eapply task_same|done|].
  split; [done|]. by eapply same_ir_trans.
Qed.

Lemma generate_keeps ctx s rs s' :
  routes_current ctx s → keys_distinct (vs_ir s) → generate ctx s = Ok (rs, s') →
  routes_current ctx s' ∧ same_ir (vs_ir s) (vs_ir s').
Proof.
  intros Hcur Hkd. unfold generate. intros H. bind_step H as gs Hgs. bind_step H as [ls s1] Hf. injection H as <- <-.
  cut (keeps ctx (vs_ir s) (ls, s1)); [by intros [? ?]|].
  eapply (fold_res_inv (keeps ctx (vs_ir s)) _ gs ([], s)); [|by split|exact Hf].
  intros g x x' Hg Hx. unfold group_routes. destruct (go_class g); [|intros [= <-]; done]. intros H.
  apply ordered_groups_perm in Hgs as (all & Hall & Hp). rewrite Hp in Hg.
  destruct (map_res_elem _ _ _ _ Hall Hg) as ([id gi] & _ & Hgi). apply res_of_option_Ok, list_elem_of_lookup_2 in Hgi.
  bind_step H as x1 Hx1. eapply (fold_res_inv (keeps ctx (vs_ir s))); [| |exact H].
  - intros mi y y' Hmi Hy Hr. unfold mapping_route in Hr. bind_step Hr as o Ho. bind_step Hr as mk Hmk. bind_step Hr as key Hkey.
    bind_step Hr as [i s2] Hi. bind_step Hr as rt Hrt.
    assert (K : keeps ctx (vs_ir s) (y.1, s2)).
    { eapply (keeps_got ctx (vs_ir s) g key (Some o) y); [done|done| |exact Hi]. split; [done|]. right. exists mi, o, mk. apply res_of_option_Ok in Ho.
      destruct Hy as [_ (Em & _)]. by rewrite Em. }
    destruct (py_bool _); [by injection Hr as <-|]. bind_step Hr as s3 Hs3. injection Hr as <-. by eapply keeps_saved.
  - unfold redirect_route in Hx1. destruct (_ && _); [|by injection Hx1 as <-]. bind_step Hx1 as key Hkey.
    bind_step Hx1 as [i s2] Hi. bind_step Hx1 as s3 Hs3. injection Hx1 as <-. eapply keeps_saved; [|exact Hs3].
    eapply (keeps_got ctx (vs_ir s) g key None x x.1); [done|done| |exact Hi]. split; [done|by left].
Qed.

(** States that are reached from one without cached routes by generating the
    routes and by invalidating parts of the cache, in any order *)
Inductive served (ctx : v3_ctx) : v3_state C → Prop :=
  | served_cold s : c_inv (R := ref) (st_cache (vs_ir s)) → keys_distinct (vs_ir s) →
      (∀ k g mo, task (vs_ir s) k g mo → (c_getitem (R := ref) (st_cache (vs_ir s)) k).1 = None) → served ctx s
  | served_generate s rs s' : served ctx s → generate ctx s = Ok (rs, s') → served ctx s'
  | served_invalidate s k c : served ctx s → c_invalidate (R := ref) (st_cache (vs_ir s)) k = Some c →
      served ctx (vs_with s (st_with_cache (vs_ir s) c)).

Lemma served_current ctx s : served ctx s → routes_current ctx s ∧ keys_distinct (vs_ir s).
Proof.
  induction 1 as [s Hinv Hkd Hcold|s rs s' _ [Hcur Hkd] Hg|s k c _ [Hcur Hkd] Hc].
  - split; [|done]. split; [done|]. intros k g mo r Ht Hr. by rewrite (Hcold k g mo Ht) in Hr.
  - destruct (generate_keeps ctx s rs s' Hcur Hkd Hg) as [? ?]. split; [done|]. by eapply keys_distinct_same.
  - split; [|exact Hkd]. apply routes_current_less; [done|by eapply c_inv_invalidate; [apply Hcur|]|].
    intros k' r. by apply c_invalidate_shrinks with k.
Qed.

End cached.

(** ** Behaviour that is not intended *)

(** A Mapping that says [host_redirect: false], which is to mean what leaving
    it out means, is not authenticated. *)
Lemma false_redirect_bypasses_auth :
  let m := [("name", PStr "m"); ("host_redirect", PBool false)] in
  let g := mkGO HTTPGroup [("name", PStr "g")] [0] [] None None [] in
  filter_config (flatten_one g m) m [] = [("typed_per_filter_config", auth_disabled)]
  ∧ filter_config (flatten_one g (ddel "host_redirect" m)) (ddel "host_redirect" m) [] = [].
Proof. vm_compute. done. Qed.

(** The match for a header that must only be present accepts no request. *)
Lemma presence_header_never_matches re ctx n :
  n ≠ ":authority" →
  ∃ m, generate_header ctx (kv_dict (mkKV n PNone (PBool false))) = Ok (Some m) ∧
    ∀ rq, header_accepts re rq m = false.
Proof.
  intros Hn. rewrite plain_header, bool_decide_false by done. eexists. split; [done|]. intros rq.
  change (value_accepts rq n (λ v, false) = false). unfold value_accepts. by destruct (dget _ _).
Qed.

(** A route that matches on the protocol and on no other header keeps that
    match in the variant that is to accept any protocol. *)
Lemma http_variant_keeps_protocol ctx :
  let route := [("match", PDict [("prefix", PStr "/");
                  ("headers", PList [PDict [("name", PStr xfp_name); ("string_match", PDict [("exact", PStr "https")])]])])] in
  get_variant ctx route "xfp-http" "route" [] = Ok (route, [("xfp-http-route", route)]).
Proof. reflexivity. Qed.

(** A Mapping without a cluster ends the generation: it is marked as failed,
    to be left out, but its cluster is looked up all the same. *)
Lemma failed_route_raises ctx ms cs g o r es :
  mo_cluster o = None → true_redirect ms g = Ok None → V3Route_init ctx ms cs g (Some o) ≠ Ok (r, es).
Proof.
  intros Hc Hr (fr & failed & mt & red & _ & _ & _ & _ & Hred & Hrt)%V3Route_shape. rewrite Hr in Hred. injection Hred as <-.
  destruct Hrt as (route & Ha & _). apply route_action_cluster in Ha as (o' & n & [= <-] & Hn & _).
  unfold envoy_name_of in Hn. by rewrite Hc in Hn.
Qed.

(** The log never shows the host of a route. *)
Lemma pretty_header_no_host host xfp header host' xfp' :
  pretty_header (host, xfp) header = Ok (host', xfp') → host' = host.
Proof.
  unfold pretty_header. intros H. bind_step H as n Hn. bind_step H as n' Hn'. bind_step H as e He. bind_step H as b Hb.
  bind_step H as e' He'. destruct header; [done..|]. cbn [py_eqb] in H. case_bool; by injection H as <- <-.
Qed.

(** ** Concrete runs *)

Definition demo_cl (n : string) : IRCluster :=
  mkCluster n "rk" "loc" "host" "default" 80 PNone false true false [] None [("envoy_name", PStr n)] None [].
Definition demo_ctx : v3_ctx := mkV3Ctx [] None [].
Definition demo_group (ids : list nat) : group_obj :=
  mkGO HTTPGroup
    [("rkey", PStr "g"); ("location", PStr "gl"); ("group_id", PStr "id1"); ("group_weight", PList [PInt 0]);
     ("prefix", PStr "/a/"); ("regex_rewrite", PDict []); ("host", PStr "*.example.com");
     ("headers", PList [kv_dict (header_kv (HHost (GSuffix ".example.com")))]); ("query_parameters", PList [])]
    ids [] None None [].
Definition demo_mo (m : dict pyval) (c : nat) : mapping_obj := mkMO HTTPGroup m (Some c).
Definition demo_route (ids : list nat) (o : mapping_obj) : V3Route :=
  match V3Route_init demo_ctx [] [demo_cl "c0"; demo_cl "c1"] (demo_group ids) (Some o) with
  | Ok (r, _) => r
  | Raise _ => mkRoute [] [] PNone
  end.
Definition demo_rq : request := mkRequest "/a/b" [(":authority", "www.example.com"); ("x-forwarded-proto", "https")] [].
Definition no_regex (_ _ : string) : bool := false.

Definition split_os : list mapping_obj := [demo_mo (set_weight 30 (wm "b" 30)) 0; demo_mo (set_weight 100 (um "a")) 1].



Definition demo_hs : list pyval := [PDict [("name", PStr ":authority"); ("suffix_match", PStr ".example.com")]].

Lemma xfp_variants_witness :
  let route := rt_self (demo_route [0] (demo_mo (um "a") 1)) in
  ∃ mt v1 v2, first_index (route_accepts no_regex demo_rq) [v1; v2] =
      (if accepts_otherwise no_regex demo_rq mt demo_hs
       then Some (if bool_decide (dget xfp_name (rq_headers demo_rq) = Some "https") then 0 else 1) else None)
    ∧ dget "route" v1 = dget "route" route ∧ dget "route" v2 = None
    ∧ dget "redirect" v2 = Some (PDict [("https_redirect", PBool true)]).
Proof.
  eexists _, _, _. refine (xfp_variants no_regex demo_rq demo_ctx (rt_self (demo_route [0] (demo_mo (um "a") 1))) _
    demo_hs _ _ _ _ _ _ _ _ _ _);
    [|vm_compute; reflexivity|left; reflexivity|done|vm_compute; reflexivity|vm_compute; reflexivity].
  apply (bool_decide_unpack _). vm_compute. done.
Defined.

Definition demo_v3 : v3_state (Cache ref unit) :=
  mkV3 (mkIRState [demo_mo [("_cache_key", PStr "Mapping-v2-a-default")] 0] [demo_group [0]] [demo_cl "c0"] [("id1", 0)] []
    Cache_init [] []) [] [] [].

Lemma demo_keys_distinct : keys_distinct (vs_ir demo_v3).
Proof.
  assert (Ht : ∀ k g mo, task (vs_ir demo_v3) k g mo →
    g = demo_group [0] ∧ (mo = None ∧ k = "Route-id1-hostredirect" ∨
      mo = Some (demo_mo [("_cache_key", PStr "Mapping-v2-a-default")] 0) ∧ k = "Route-id1-Mapping-v2-a-default")).
  { intros k g mo [Hg Hk]. cbn in Hg. apply list_elem_of_singleton in Hg as ->. split; [done|].
    destruct Hk as [[-> [= <-]]|(mi & o & mk & Hmi & Ho & -> & Hmk & Hk)]; [by left|right].
    cbn in Hmi. apply list_elem_of_singleton in Hmi as ->. injection Ho as <-. injection Hmk as <-. by injection Hk as <-. }
  intros k g mo g' mo' [-> H1]%Ht [-> H2]%Ht. split; [done|]. naive_solver.
Qed.

Definition demo_served : v3_state (Cache ref unit) :=
  match generate demo_ctx demo_v3 with Ok (_, s) => s | Raise _ => demo_v3 end.

