(* ===== verification/V3TLS.v ===== *)
(** * Envoy TLS contexts ([envoy/v3/v3tls.py])

    A TLS context of the IR becomes the dictionary that Envoy terminates TLS
    with: the files of the certificate, of its key and of the authorities that
    clients are checked against, and the parameters of the protocol. *)

From S2P Require Import Prelude PyStr PyVal Resource PyText HTTPMapping Listener TLSContext.

(** [TLSVersionMap] *)
Definition TLSVersionMap : dict string :=
  [("v1.0", "TLSv1_0"); ("v1.1", "TLSv1_1"); ("v1.2", "TLSv1_2"); ("v1.3", "TLSv1_3")].

(** The dictionary, with the attribute [is_fallback]. *)
Record V3TLSContext : Type := mkV3TLS {
  vt_self : dict pyval;
  vt_fallback : bool
}.

(** [self.setdefault(key, {})], which [f] changes in place *)
Definition in_default (key : string) (f : dict pyval → res (dict pyval)) (self : dict pyval) : res (dict pyval) :=
  d ← as_dict (dget_default key (PDict []) self);
  d ← f d;
  Ok (dset key (PDict d) self).

Definition get_common (f : dict pyval → res (dict pyval)) (self : dict pyval) : res (dict pyval) :=
  in_default "common_tls_context" f self.
Definition get_params (f : dict pyval → res (dict pyval)) (self : dict pyval) : res (dict pyval) :=
  get_common (in_default "tls_params" f) self.
Definition get_certs (f : list pyval → res (list pyval)) (self : dict pyval) : res (dict pyval) :=
  get_common (λ common,
    certs ← as_list (dget_default "tls_certificates" (PList []) common);
    certs ← f certs;
    Ok (dset "tls_certificates" (PList certs) common)) self.

Definition filename (value : pyval) : pyval := PDict [("filename", value)].

Definition update_cert_zero (key : string) (value : pyval) (self : dict pyval) : res (dict pyval) :=
  get_certs (λ certs,
    match certs with
    | [] => Ok [PDict [(key, filename value)]]
    | c :: cs => c ← as_dict c; Ok (PDict (dset key (filename value) c) :: cs)
    end) self.

Definition update_alpn (key : string) (value : pyval) (self : dict pyval) : res (dict pyval) :=
  get_common (λ common, Ok (dset key (PList [value]) common)) self.

Definition update_tls_version (key : string) (value : pyval) (self : dict pyval) : res (dict pyval) :=
  get_params (λ params,
    _ ← hashable value;
    Ok (match value with
        | PStr s => match dget s TLSVersionMap with Some v => dset key (PStr v) params | None => params end
        | _ => params
        end)) self.

Definition update_tls_cipher (key : string) (value : pyval) (self : dict pyval) : res (dict pyval) :=
  get_params (λ params, Ok (dset key value params)) self.

Definition update_validation (key : string) (value : pyval) (self : dict pyval) : res (dict pyval) :=
  get_common (in_default "validation_context" (λ validation, Ok (dset key (filename value) validation))) self.

Definition tls_setitem (key : string) (value : pyval) (self : dict pyval) : res (dict pyval) := Ok (dset key value self).

Definition tls_handler : Type := string → pyval → dict pyval → res (dict pyval).

(** The handlers for the files, for the settings, and for the lists *)
Definition secret_handlers : list (string * tls_handler * string) :=
  [("cert_chain_file", update_cert_zero, "certificate_chain");
   ("private_key_file", update_cert_zero, "private_key");
   ("cacert_chain_file", update_validation, "trusted_ca");
   ("crl_file", update_validation, "crl")].
Definition setting_handlers : list (string * tls_handler * string) :=
  [("alpn_protocols", update_alpn, "alpn_protocols");
   ("cert_required", tls_setitem, "require_client_certificate");
   ("min_tls_version", update_tls_version, "tls_minimum_protocol_version");
   ("max_tls_version", update_tls_version, "tls_maximum_protocol_version");
   ("sni", tls_setitem, "sni")].
Definition list_handlers : list (string * tls_handler * string) :=
  [("cipher_suites", update_tls_cipher, "cipher_suites"); ("ecdh_curves", update_tls_cipher, "ecdh_curves")].

Definition handle_secret (info : pyval) (self : dict pyval) (h : string * tls_handler * string) : res (dict pyval) :=
  let '(k, handler, hkey) := h in
  b ← vmem k info;
  if (b : bool) then
    info ← as_dict info;
    v ← dget_exn k info;
    handler hkey v self
  else Ok self.

Definition handle_setting (ctx : dict pyval) (self : dict pyval) (h : string * tls_handler * string) : res (dict pyval) :=
  let '(k, handler, hkey) := h in
  match pget k ctx with
  | PNone => Ok self
  | v => handler hkey v self
  end.

(** [add_context] *)
Definition add_context (ctx : dict pyval) (self : V3TLSContext) : res V3TLSContext :=
  fb ← getattr ctx "is_fallback";
  info ← dget_exn "secret_info" ctx;
  d ← fold_res (handle_secret info) secret_handlers (vt_self self);
  d ← fold_res (handle_setting ctx) setting_handlers d;
  d ← fold_res (handle_setting ctx) list_handlers d;
  Ok (mkV3TLS d (py_bool fb || vt_fallback self)).

(** [__init__], for an existing context *)
Definition V3TLSContext_init (ctx : dict pyval) : res V3TLSContext :=
  if res_bool ctx then add_context ctx (mkV3TLS [] false) else Ok (mkV3TLS [] false).

(** ** What Envoy is told *)

Definition sub (key : string) (d : dict pyval) : dict pyval := match dget key d with Some (PDict x) => x | _ => [] end.
Definition tls_common (v : V3TLSContext) : dict pyval := sub "common_tls_context" (vt_self v).
Definition tls_params (v : V3TLSContext) : dict pyval := sub "tls_params" (tls_common v).

Lemma in_default_sub key f d d' :
  in_default key f d = Ok d' →
  f (sub key d) = Ok (sub key d') ∧ ∀ k, k ≠ key → dget k d' = dget k d.
Proof.
  intros H. unfold in_default in H. bind_step H as x Hx. bind_step H as y Hy. injection H as <-.
  unfold sub. rewrite dget_dset_eq. split; [|intros k Hk; by rewrite dget_dset_ne].
  unfold dget_default in Hx. destruct (dget key d) as [v|]; cbn in Hx; [|by injection Hx as <-].
  destruct v; try done. by injection Hx as <-.
Qed.

(** The attributes that the settings do not touch *)
Definition settings_frame (d d' : dict pyval) : Prop :=
  ∀ k, k ∈ ["tls_certificates"; "validation_context"] →
    dget k (sub "common_tls_context" d') = dget k (sub "common_tls_context" d).

Definition at_param (k : string) (d : dict pyval) : option pyval := dget k (sub "tls_params" (sub "common_tls_context" d)).

(** What a handler for the key [hk] leaves alone *)
Definition leaves (hk : string) (d d' : dict pyval) : Prop :=
  settings_frame d d' ∧ (∀ k, k ≠ hk → at_param k d' = at_param k d)
  ∧ ∀ k, k ≠ hk → k ≠ "common_tls_context" → dget k d' = dget k d.

Lemma leaves_refl hk d : leaves hk d d.
Proof. done. Qed.

Lemma Ok_inj {A} (a b : A) : Ok a = Ok b → a = b.
Proof. by intros [= ->]. Qed.

Lemma get_params_spec f d d' :
  get_params f d = Ok d' →
  settings_frame d d' ∧ f (sub "tls_params" (sub "common_tls_context" d)) = Ok (sub "tls_params" (sub "common_tls_context" d'))
  ∧ ∀ k, k ≠ "common_tls_context" → dget k d' = dget k d.
Proof.
  intros H. apply in_default_sub in H as [H Hk]. apply in_default_sub in H as [H Hk']. split; [|done].
  intros k Hin. apply Hk'. set_solver.
Qed.

Lemma update_alpn_leaves key v d d' :
  key ∉ ["tls_certificates"; "validation_context"; "tls_params"] → update_alpn key v d = Ok d' → leaves key d d'.
Proof.
  intros Hkey H. apply in_default_sub in H as [H Hk]. apply Ok_inj in H. unfold leaves, settings_frame, at_param. rewrite <- H.
  split; [intros k Hin; apply dget_dset_ne; set_solver|]. split; [|auto]. intros k _. unfold sub at 1 4. by rewrite dget_dset_ne by set_solver.
Qed.

Lemma update_tls_version_leaves key v d d' :
  update_tls_version key v d = Ok d' →
  leaves key d d' ∧ ∀ s t, v = PStr s → dget s TLSVersionMap = Some t → at_param key d' = Some (PStr t).
Proof.
  intros H. apply get_params_spec in H as (Hf & H & Hk). bind_step H as u Hu. apply Ok_inj in H. unfold leaves, at_param. rewrite <- H.
  split; [split; [done|split; [|auto]]|].
  - intros k Hne. destruct v as [| | |s| |]; try done. destruct (dget s TLSVersionMap) as [t|]; [by rewrite dget_dset_ne|done].
  - intros s t -> ->. by rewrite dget_dset_eq.
Qed.

Lemma update_tls_cipher_leaves key v d d' : update_tls_cipher key v d = Ok d' → leaves key d d'.
Proof.
  intros H. apply get_params_spec in H as (Hf & H & Hk). apply Ok_inj in H. unfold leaves, at_param. rewrite <- H.
  split; [done|]. split; [|auto]. intros k Hne. by rewrite dget_dset_ne.
Qed.

Lemma tls_setitem_leaves key v d d' :
  key ≠ "common_tls_context" → tls_setitem key v d = Ok d' → leaves key d d' ∧ dget key d' = Some v.
Proof.
  intros Hk [= <-]. split; [|by rewrite dget_dset_eq]. unfold leaves, settings_frame, at_param, sub.
  rewrite !(dget_dset_ne "common_tls_context") by done. split; [done|]. split; [done|]. intros k Hne _. by rewrite dget_dset_ne.
Qed.

Lemma handle_setting_case ctx d k h hk d' :
  handle_setting ctx d (k, h, hk) = Ok d' → pget k ctx = PNone ∧ d' = d ∨ h hk (pget k ctx) d = Ok d'.
Proof. cbn. destruct (pget k ctx); intros H; try (by right). left. by injection H as <-. Qed.

(** The files of the secret *)
Lemma secrets_written info d :
  fold_res (handle_secret (PDict info)) secret_handlers [] = Ok d →
  let common := sub "common_tls_context" d in
  (∀ c k, dget "cert_chain_file" info = Some c → dget "private_key_file" info = Some k →
     dget "tls_certificates" common = Some (PList [PDict [("certificate_chain", filename c); ("private_key", filename k)]]))
  ∧ (∀ ca, dget "cacert_chain_file" info = Some ca → dget "trusted_ca" (sub "validation_context" common) = Some (filename ca))
  ∧ (∀ crl, dget "crl_file" info = Some crl → dget "crl" (sub "validation_context" common) = Some (filename crl)).
Proof.
  cbn [secret_handlers fold_res handle_secret vmem]. unfold dmem. intros H.
  cbn [mbind res_bind as_dict] in H. unfold dget_exn in H.
  destruct (dget "cert_chain_file" info), (dget "private_key_file" info), (dget "cacert_chain_file" info), (dget "crl_file" info);
    cbn in H; injection H as <-; cbn; naive_solver.
Qed.

(** The settings, and that they leave the files alone *)
Lemma settings_written ctx d1 f5 f7 :
  fold_res (handle_setting ctx) setting_handlers d1 = Ok f5 → fold_res (handle_setting ctx) list_handlers f5 = Ok f7 →
  settings_frame d1 f7
  ∧ (pget "cert_required" ctx ≠ PNone → dget "require_client_certificate" f7 = Some (pget "cert_required" ctx))
  ∧ (∀ s t, pget "min_tls_version" ctx = PStr s → dget s TLSVersionMap = Some t →
       at_param "tls_minimum_protocol_version" f7 = Some (PStr t))
  ∧ (∀ s t, pget "max_tls_version" ctx = PStr s → dget s TLSVersionMap = Some t →
       at_param "tls_maximum_protocol_version" f7 = Some (PStr t)).
Proof.
  intros H2 H3.
  cbn [setting_handlers list_handlers fold_res] in H2, H3.
  bind_step H2 as e1 E1. bind_step H2 as e2 E2. bind_step H2 as e3 E3. bind_step H2 as e4 E4. bind_step H2 as e5 E5. injection H2 as <-.
  bind_step H3 as e6 E6. bind_step H3 as e7 E7. injection H3 as <-.
  assert (leaves "alpn_protocols" d1 e1) as L1.
  { apply handle_setting_case in E1 as [[_ ->]|E1]; [done|]. eapply update_alpn_leaves; [|done]. set_solver. }
  assert (leaves "require_client_certificate" e1 e2 ∧
    (pget "cert_required" ctx ≠ PNone → dget "require_client_certificate" e2 = Some (pget "cert_required" ctx))) as [L2 R2].
  { apply handle_setting_case in E2 as [[-> ->]|E2]; [done|]. by apply tls_setitem_leaves in E2 as [? ?]. }
  assert (leaves "tls_minimum_protocol_version" e2 e3 ∧ ∀ s t, pget "min_tls_version" ctx = PStr s → dget s TLSVersionMap = Some t →
    at_param "tls_minimum_protocol_version" e3 = Some (PStr t)) as [L3 R3].
  { apply handle_setting_case in E3 as [[-> ->]|E3]; [done|]. by apply update_tls_version_leaves in E3. }
  assert (leaves "tls_maximum_protocol_version" e3 e4 ∧ ∀ s t, pget "max_tls_version" ctx = PStr s → dget s TLSVersionMap = Some t →
    at_param "tls_maximum_protocol_version" e4 = Some (PStr t)) as [L4 R4].
  { apply handle_setting_case in E4 as [[-> ->]|E4]; [done|]. by apply update_tls_version_leaves in E4. }
  assert (leaves "sni" e4 e5) as L5.
  { apply handle_setting_case in E5 as [[_ ->]|E5]; [done|]. by apply tls_setitem_leaves in E5 as [? _]. }
  assert (leaves "cipher_suites" e5 e6) as L6.
  { apply handle_setting_case in E6 as [[_ ->]|E6]; [done|]. by apply update_tls_cipher_leaves in E6. }
  assert (leaves "ecdh_curves" e6 e7) as L7.
  { apply handle_setting_case in E7 as [[_ ->]|E7]; [done|]. by apply update_tls_cipher_leaves in E7. }
  destruct L1 as (F1 & P1 & Q1), L2 as (F2 & P2 & Q2), L3 as (F3 & P3 & Q3), L4 as (F4 & P4 & Q4), L5 as (F5 & P5 & Q5),
    L6 as (F6 & P6 & Q6), L7 as (F7 & P7 & Q7).
  split; [intros k Hk; by rewrite F7, F6, F5, F4, F3, F2, F1|]. split; [|split].
  - intros Hne. rewrite Q7, Q6, Q5, Q4, Q3 by done. by apply R2.
  - intros s t Hs Ht. rewrite P7, P6, P5, P4 by done. by eapply R3.
  - intros s t Hs Ht. rewrite P7, P6, P5 by done. by eapply R4.
Qed.

(** C16. The TLS context written for Envoy has what the TLS context of the IR
    asks for: the one certificate with its chain and key, the authorities and
    the revocations that clients are checked against, whether a client
    certificate is required, and both bounds on the version of the protocol. *)
Theorem tls_context_written ctx info v :
  res_bool ctx = true → dget "secret_info" ctx = Some (PDict info) → V3TLSContext_init ctx = Ok v →
  (∀ c k, dget "cert_chain_file" info = Some c → dget "private_key_file" info = Some k →
     dget "tls_certificates" (tls_common v) = Some (PList [PDict [("certificate_chain", filename c); ("private_key", filename k)]]))
  ∧ (∀ ca, dget "cacert_chain_file" info = Some ca →
       dget "trusted_ca" (sub "validation_context" (tls_common v)) = Some (filename ca))
  ∧ (∀ crl, dget "crl_file" info = Some crl → dget "crl" (sub "validation_context" (tls_common v)) = Some (filename crl))
  ∧ (∀ b, pget "cert_required" ctx = b → b ≠ PNone → dget "require_client_certificate" (vt_self v) = Some b)
  ∧ (∀ s t, pget "min_tls_version" ctx = PStr s → dget s TLSVersionMap = Some t →
       dget "tls_minimum_protocol_version" (tls_params v) = Some (PStr t))
  ∧ (∀ s t, pget "max_tls_version" ctx = PStr s → dget s TLSVersionMap = Some t →
       dget "tls_maximum_protocol_version" (tls_params v) = Some (PStr t)).
Proof.
  intros Hb Hinfo H. unfold V3TLSContext_init in H. rewrite Hb in H. unfold add_context in H. bind_step H as fb Hfb.
  bind_step H as i Hi. unfold dget_exn in Hi. rewrite Hinfo in Hi. injection Hi as <-.
  bind_step H as d1 H1. bind_step H as d2 H2. bind_step H as d3 H3. injection H as <-. apply secrets_written in H1 as (A1 & A2 & A3).
  destruct (settings_written _ _ _ _ H2 H3) as (F & Q & Pmin & Pmax).
  change (tls_params (mkV3TLS d3 (py_bool fb || false))) with (sub "tls_params" (sub "common_tls_context" d3)).
  change (tls_common (mkV3TLS d3 (py_bool fb || false))) with (sub "common_tls_context" d3). cbn [vt_self].
  assert (sub "validation_context" (sub "common_tls_context" d3) = sub "validation_context" (sub "common_tls_context" d1)) as Hval.
  { unfold sub at 1 3. by rewrite F by set_solver. }
  rewrite Hval. split; [intros c k Hc Hk; rewrite F by set_solver; by apply A1|]. split; [done|]. split; [done|].
  split; [intros b <- Hne; by apply Q|done].
Qed.

Definition demo_tls_context : dict pyval :=
  [("_active", PBool true); ("_errored", PBool false); ("name", PStr "h-context"); ("namespace", PStr "default");
   ("is_fallback", PBool false); ("cert_required", PBool true); ("min_tls_version", PStr "v1.2");
   ("secret_info", PDict [("cert_chain_file", PStr "/c.crt"); ("private_key_file", PStr "/c.key");
                          ("cacert_chain_file", PStr "/ca.crt")])].
Definition demo_v3tls : V3TLSContext := match V3TLSContext_init demo_tls_context with Ok v => v | Raise _ => mkV3TLS [] false end.

Lemma tls_context_written_witness :
  dget "trusted_ca" (sub "validation_context" (tls_common demo_v3tls)) = Some (filename (PStr "/ca.crt"))
  ∧ dget "require_client_certificate" (vt_self demo_v3tls) = Some (PBool true)
  ∧ dget "tls_minimum_protocol_version" (tls_params demo_v3tls) = Some (PStr "TLSv1_2").
Proof.
  destruct (tls_context_written demo_tls_context
    [("cert_chain_file", PStr "/c.crt"); ("private_key_file", PStr "/c.key"); ("cacert_chain_file", PStr "/ca.crt")] demo_v3tls)
    as (_ & H2 & _ & H4 & H5 & _); [reflexivity|reflexivity|vm_compute; reflexivity|].
  split; [by apply H2|]. split; [by apply H4|]. by apply (H5 "v1.2").
Defined.
