(* ===== verification/V3HTTPConfig.v ===== *)
(** * The HTTP part of an Envoy listener ([envoy/v3/v3listener.py])

    What every HTTP connection manager of a listener starts from: the access
    log, the HTTP filters, and the options of the Ambassador module. *)

From S2P Require Import Prelude PyStr PyVal Resource Utils ServiceName PyText BaseMapping HTTPMapping Cluster Group.
From S2P Require Import Listener LogService V3Route V3TLS.

(** ** The access log *)

(** What a listener is generated from besides the groups: the context of the
    routes, the HTTP filters as written for Envoy, the log services and the
    tracing service. *)
Record http_ctx : Type := mkHTTPCtx {
  hc_v3 : v3_ctx;
  hc_http_filters : list pyval;
  hc_log_services : list IRLogService;
  hc_tracing : option (dict pyval)
}.

Definition hc_module (ctx : http_ctx) : dict pyval := v3_module (hc_v3 ctx).

(** The tracing service, when it is true *)
Definition true_tracing (ctx : http_ctx) : option (dict pyval) :=
  match hc_tracing ctx with Some t => if res_bool t then Some t else None | None => None end.

Definition default_json_format : dict pyval :=
  [("start_time", PStr "%START_TIME%");
   ("method", PStr "%REQ(:METHOD)%");
   ("path", PStr "%REQ(X-ENVOY-ORIGINAL-PATH?:PATH)%");
   ("protocol", PStr "%PROTOCOL%");
   ("response_code", PStr "%RESPONSE_CODE%");
   ("response_flags", PStr "%RESPONSE_FLAGS%");
   ("bytes_received", PStr "%BYTES_RECEIVED%");
   ("bytes_sent", PStr "%BYTES_SENT%");
   ("duration", PStr "%DURATION%");
   ("upstream_service_time", PStr "%RESP(X-ENVOY-UPSTREAM-SERVICE-TIME)%");
   ("x_forwarded_for", PStr "%REQ(X-FORWARDED-FOR)%");
   ("user_agent", PStr "%REQ(USER-AGENT)%");
   ("request_id", PStr "%REQ(X-REQUEST-ID)%");
   ("authority", PStr "%REQ(:AUTHORITY)%");
   ("upstream_host", PStr "%UPSTREAM_HOST%");
   ("upstream_cluster", PStr "%UPSTREAM_CLUSTER%");
   ("upstream_local_address", PStr "%UPSTREAM_LOCAL_ADDRESS%");
   ("downstream_local_address", PStr "%DOWNSTREAM_LOCAL_ADDRESS%");
   ("downstream_remote_address", PStr "%DOWNSTREAM_REMOTE_ADDRESS%");
   ("requested_server_name", PStr "%REQUESTED_SERVER_NAME%");
   ("istio_policy_status", PStr "%DYNAMIC_METADATA(istio.mixer:status)%");
   ("upstream_transport_failure_reason", PStr "%UPSTREAM_TRANSPORT_FAILURE_REASON%")].

Definition json_helper (ctx : http_ctx) : res pyval :=
  match pget "envoy_log_format" (hc_module ctx) with
  | PNone =>
      datadog ← match true_tracing ctx with
                | Some t => d ← getattr t "driver"; Ok (py_eqb d (PStr "envoy.tracers.datadog"))
                | None => Ok false
                end;
      Ok (PDict (if (datadog : bool) then
                   dset "dd.span_id" (PStr "%REQ(X-DATADOG-PARENT-ID)%")
                     (dset "dd.trace_id" (PStr "%REQ(X-DATADOG-TRACE-ID)%") default_json_format)
                 else default_json_format))
  | f => Ok f
  end.

(** The names of the additional headers that are logged during a phase *)
Definition headers_during (phase : string) (hs : list pyval) : res (list pyval) :=
  hs ← filter_res (λ h, b ← vget phase (PBool true) h; Ok (py_bool b)) hs;
  map_res (vget "header_name" PNone) hs.

Definition service_log (cs : list IRCluster) (al : IRLogService) : res pyval :=
  common ← get_common_config cs al;
  hs ← get_additional_headers (lg_self al);
  req ← headers_during "during_request" hs;
  resp ← headers_during "during_response" hs;
  trailer ← headers_during "during_trailer" hs;
  driver ← getattr (lg_self al) "driver";
  let grpc := "type.googleapis.com/envoy.extensions.access_loggers.grpc.v3." in
  Ok (if py_eqb driver (PStr "http") then
        PDict [("name", PStr "envoy.access_loggers.http_grpc");
               ("typed_config", PDict
                 [("common_config", common);
                  ("additional_request_headers_to_log", PList req);
                  ("additional_response_headers_to_log", PList resp);
                  ("additional_response_trailers_to_log", PList trailer);
                  ("@type", PStr (grpc +:+ "HttpGrpcAccessLogConfig"))])]
      else
        PDict [("name", PStr "envoy.access_loggers.tcp_grpc");
               ("typed_config", PDict
                 [("common_config", common); ("@type", PStr (grpc +:+ "TcpGrpcAccessLogConfig"))])]).

Definition default_text_format : string :=
  "ACCESS [%START_TIME%] " +:+ dquote +:+ "%REQ(:METHOD)% %REQ(X-ENVOY-ORIGINAL-PATH?:PATH)% %PROTOCOL%" +:+ dquote +:+
  " %RESPONSE_CODE% %RESPONSE_FLAGS% %BYTES_RECEIVED% %BYTES_SENT% %DURATION% %RESP(X-ENVOY-UPSTREAM-SERVICE-TIME)% " +:+
  dquote +:+ "%REQ(X-FORWARDED-FOR)%" +:+ dquote +:+ " " +:+ dquote +:+ "%REQ(USER-AGENT)%" +:+ dquote +:+ " " +:+
  dquote +:+ "%REQ(X-REQUEST-ID)%" +:+ dquote +:+ " " +:+ dquote +:+ "%REQ(:AUTHORITY)%" +:+ dquote +:+ " " +:+
  dquote +:+ "%UPSTREAM_HOST%" +:+ dquote.

(** The log that is written to a file *)
Definition file_log (ctx : http_ctx) : res pyval :=
  ty ← getattr (hc_module ctx) "envoy_log_type"; ty ← py_lower ty;
  '(key, format) ← (if bool_decide (ty = "json") then f ← json_helper ctx; Ok ("json_format", f)
                    else if bool_decide (ty = "typed_json") then f ← json_helper ctx; Ok ("typed_json_format", f)
                    else
                      f ← as_str (py_or (pget "envoy_log_format" (hc_module ctx)) (PStr default_text_format));
                      Ok ("log_format",
                          PDict [("text_format_source", PDict [("inline_string", PStr (f +:+ str1 (chr 10)))])]));
  path ← getattr (hc_module ctx) "envoy_log_path";
  Ok (PDict
    [("name", PStr "envoy.access_loggers.file");
     ("typed_config", PDict
       [("@type", PStr "type.googleapis.com/envoy.extensions.access_loggers.file.v3.FileAccessLog");
        ("path", path);
        (key, format)])]).

Definition access_log (ctx : http_ctx) (cs : list IRCluster) : res (list pyval) :=
  services ← map_res (service_log cs) (hc_log_services ctx);
  f ← file_log ctx;
  Ok (services ++ [f]).

(** ** [base_http_config] *)

(** [d[key] = module.key], when the module has it *)
Definition copy_module (module : dict pyval) (key : string) (d : dict pyval) : dict pyval :=
  match dget key module with Some v => dset key v d | None => d end.

(** [isProtocolTCP], [isProtocolUDP] *)
Definition is_protocol (proto : string) (irlistener : dict pyval) : res bool :=
  sp ← getattr irlistener "socket_protocol"; Ok (py_eqb sp (PStr proto)).

Definition http3_enabled (irlistener : dict pyval) : res bool :=
  h ← getattr irlistener "http3_enabled"; Ok (py_bool h).

(** The options of the HTTP protocol versions *)
Definition http_versions (irlistener d : dict pyval) : res (dict pyval) :=
  h3 ← http3_enabled irlistener;
  udp ← is_protocol "UDP" irlistener;
  let d := if (h3 : bool) then
             let d := dset "http3_protocol_options" (PDict []) d in
             if (udp : bool) then dset "codec_type" (PStr "HTTP3") d else d
           else d in
  Ok (match pget "http2MaxConcurrentStreams" irlistener with
      | PNone => d
      | n => dset "http2_protocol_options" (PDict [("max_concurrent_streams", n)]) d
      end).

(** The options that do not depend on the HTTP version *)
Definition common_options (module d : dict pyval) : res (dict pyval) :=
  let idle := pget "listener_idle_timeout_ms" module in
  d ← (if py_bool idle then
         t ← ms_text idle;
         in_default "common_http_protocol_options" (λ o, Ok (dset "idle_timeout" (PStr t) o)) d
       else Ok d);
  match dget "headers_with_underscores_action" module with
  | Some a => in_default "common_http_protocol_options" (λ o, Ok (dset "headers_with_underscores_action" a o)) d
  | None => Ok d
  end.

(** The options of HTTP/1 *)
Definition http1_options (module d : dict pyval) : res (dict pyval) :=
  d ← match dget "enable_http10" module with
      | Some a => in_default "http_protocol_options" (λ o, Ok (dset "accept_http_10" a o)) d
      | None => Ok d
      end;
  match pget "allow_chunked_length" module with
  | PNone => Ok d
  | a => in_default "http_protocol_options" (λ o, Ok (dset "allow_chunked_length" a o)) d
  end.

(** [tracing] *)
Definition sampling_of (key name : string) (sampling : pyval) (d : dict pyval) : res (dict pyval) :=
  v ← vget key PNone sampling;
  Ok (match v with PNone => d | _ => dset name (PDict [("value", v)]) d end).

Definition tracing_config (tracing : dict pyval) : res (dict pyval) :=
  let tags := dget_default "custom_tags" (PList []) tracing in
  let d := if py_bool tags then [("custom_tags", tags)] else [] in
  let sampling := dget_default "sampling" (PDict []) tracing in
  if py_bool sampling then
    d ← sampling_of "client" "client_sampling" sampling d;
    d ← sampling_of "random" "random_sampling" sampling d;
    sampling_of "overall" "overall_sampling" sampling d
  else Ok d.

(** [header_case_overrides] as it is honoured, with the errors posted *)
Definition honoured_overrides (module : dict pyval) (proper_case : bool) : pyval * list string :=
  let overrides := pget "header_case_overrides" module in
  if py_bool overrides then
    let '(overrides, es) :=
      if proper_case then
        (PNone, ["Only one of 'proper_case' or 'header_case_overrides' fields may be set on the Ambassador module. " +:+
                 "Honoring proper_case and ignoring header_case_overrides."])
      else (overrides, []) in
    match overrides with
    | PList [] => (PNone, es)
    | PList _ => (overrides, es)
    | _ => (PNone, es ++ ["Ambassador module config 'header_case_overrides' must be an array"])
    end
  else (overrides, []).

Definition is_str (v : pyval) : bool := match v with PStr _ => true | _ => false end.

(** The rules map the header in lower case to its casing. *)
Definition case_rules (overrides : list pyval) : dict pyval * list string :=
  (foldl (λ d h, match h with PStr s => dset (lower s) h d | _ => d end) [] overrides,
   List.map (λ _, "Skipping non-string header in 'header_case_overrides': {hdr}")
     (List.filter (λ h, negb (is_str h)) overrides)).

Definition header_casing (module : dict pyval) (d : dict pyval) : res (dict pyval * list string) :=
  pc ← dget_exn "proper_case" module;
  let '(overrides, es) := honoured_overrides module (py_bool pc) in
  '(d, es) ← match overrides with
             | PList ((_ :: _) as l) =>
                 let '(rules, skipped) := case_rules l in
                 if existsb is_str l then
                   d ← in_default "http_protocol_options"
                         (λ o, Ok (dset "header_key_format" (PDict [("custom", PDict [("rules", PDict rules)])]) o)) d;
                   Ok (d, es ++ skipped)
                 else
                   Ok (d, es ++ skipped ++
                     ["Could not parse any valid string headers in 'header_case_overrides': " +:+ py_text overrides])
             | _ => Ok (d, es)
             end;
  d ← (if py_bool pc then
         in_default "http_protocol_options"
           (λ o, Ok (dset "header_key_format" (PDict [("proper_case_words", PDict [])]) o)) d
       else Ok d);
  Ok (d, es).

(** [base_http_config], with the errors posted *)
Definition base_http_config (ctx : http_ctx) (cs : list IRCluster) (irlistener : dict pyval)
    : res (dict pyval * list string) :=
  let module := hc_module ctx in
  prefix ← getattr irlistener "statsPrefix";
  log ← access_log ctx cs;
  let d := [("stat_prefix", prefix); ("access_log", PList log); ("http_filters", PList []); ("normalize_path", PBool true)] in
  d ← http_versions irlistener d;
  let d := dset "http_filters" (PList (List.filter py_bool (hc_http_filters ctx))) d in
  let d := copy_module module "use_remote_address" d in
  depth ← as_int (dget_default "l7Depth" (PInt 0) irlistener);
  let d := if bool_decide (0 < depth)%Z then dset "xff_num_trusted_hops" (dget_default "l7Depth" (PInt 0) irlistener) d
           else d in
  let d := copy_module module "server_name" d in
  d ← common_options module d;
  let kb := pget "max_request_headers_kb" module in
  let d := if py_bool kb then dset "max_request_headers_kb" kb d else d in
  d ← http1_options module d;
  let d := copy_module module "preserve_external_request_id" d in
  let d := copy_module module "forward_client_cert_details" d in
  let d := copy_module module "set_current_client_cert_details" d in
  d ← match true_tracing ctx with
      | Some t => c ← tracing_config t; Ok (dset "tracing" (PDict c) (dset "generate_request_id" (PBool true) d))
      | None => Ok d
      end;
  header_casing module d.

(** ** The configuration has no key twice *)

Lemma in_default_ok key f d d' : dict_ok d → in_default key f d = Ok d' → dict_ok d'.
Proof. intros Hd H. unfold in_default in H. bind_step H as x Hx. bind_step H as y Hy. injection H as <-. by apply dict_ok_dset. Qed.

Lemma copy_module_ok module key d : dict_ok d → dict_ok (copy_module module key d).
Proof. intros Hd. unfold copy_module. destruct (dget key module); [by apply dict_ok_dset|done]. Qed.

Lemma http_versions_ok irl d d' : dict_ok d → http_versions irl d = Ok d' → dict_ok d'.
Proof.
  intros Hd H. unfold http_versions in H. bind_step H as h3 H3. bind_step H as udp Hu. injection H as <-.
  assert (dict_ok (if h3 then let d := dset "http3_protocol_options" (PDict []) d in
    if udp then dset "codec_type" (PStr "HTTP3") d else d else d)) as Hd'.
  { destruct h3; [|done]. destruct udp; eauto with emissary. }
  destruct (pget _ _); eauto with emissary.
Qed.

Lemma common_options_ok module d d' : dict_ok d → common_options module d = Ok d' → dict_ok d'.
Proof.
  intros Hd H. unfold common_options in H. bind_step H as d1 H1. assert (dict_ok d1).
  { destruct (py_bool _) in H1; [|by injection H1 as <-]. bind_step H1 as t Ht. by eapply in_default_ok. }
  destruct (dget _ module) in H; [by eapply in_default_ok|by injection H as <-].
Qed.

Lemma http1_options_ok module d d' : dict_ok d → http1_options module d = Ok d' → dict_ok d'.
Proof.
  intros Hd H. unfold http1_options in H. bind_step H as d1 H1. assert (dict_ok d1).
  { destruct (dget _ module) in H1; [by eapply in_default_ok|by injection H1 as <-]. }
  destruct (pget _ module); first [by injection H as <-|by eapply in_default_ok].
Qed.

Lemma header_casing_ok module d d' es : dict_ok d → header_casing module d = Ok (d', es) → dict_ok d'.
Proof.
  intros Hd H. unfold header_casing in H. bind_step H as pc Hpc. destruct (honoured_overrides _ _) as [o es0].
  bind_step H as [d1 es1] H1. assert (dict_ok d1).
  { destruct o as [| | | |[|v l]|]; try by injection H1 as <- <-. destruct (case_rules _) as [rules sk].
    destruct (existsb _ _); [bind_step H1 as d2 Hd2|]; injection H1 as <- <-; [by eapply in_default_ok|done]. }
  bind_step H as d2 H2. injection H as <- <-. destruct (py_bool pc); [by eapply in_default_ok|by injection H2 as <-].
Qed.

Lemma base_http_config_ok ctx cs irl d es : base_http_config ctx cs irl = Ok (d, es) → dict_ok d.
Proof.
  intros H. unfold base_http_config in H. bind_step H as prefix Hp. bind_step H as log Hlog. bind_step H as d1 H1.
  apply http_versions_ok in H1; [|apply NoDup_ListNoDup; repeat constructor; set_solver]. bind_step H as depth Hdep. bind_step H as d2 H2.
  apply common_options_ok in H2; [|apply copy_module_ok; destruct (bool_decide _); auto using copy_module_ok with emissary].
  bind_step H as d3 H3. apply http1_options_ok in H3; [|destruct (py_bool _); eauto with emissary]. bind_step H as d4 H4.
  eapply header_casing_ok; [|exact H]. destruct (true_tracing ctx).
  - bind_step H4 as c Hc. injection H4 as <-. auto 10 using copy_module_ok with emissary.
  - injection H4 as <-. auto using copy_module_ok.
Qed.

(** ** Errors about the casing of headers *)

(** With [proper_case], an array of overrides is refused twice: the error that
    it is not honoured is followed by one that it must be an array. *)
Lemma proper_case_refused_twice module overrides :
  pget "header_case_overrides" module = PList overrides → overrides ≠ [] →
  ∃ e, honoured_overrides module true = (PNone, [e; "Ambassador module config 'header_case_overrides' must be an array"]).
Proof. intros H Hne. unfold honoured_overrides. rewrite H. destruct overrides; [done|]. cbn. by eexists. Qed.

(** The error about an override that is not a string does not name it. *)
Lemma skipped_header_unnamed overrides e :
  e ∈ (case_rules overrides).2 → e = "Skipping non-string header in 'header_case_overrides': {hdr}".
Proof. cbn. intros (x & -> & _)%list_elem_of_fmap. done. Qed.
