(* ===== verification/V3Cluster.v ===== *)
(** * Envoy clusters ([envoy/v3/v3cluster.py])

    A cluster of the IR becomes the dictionary that Envoy reaches a service
    with: how its endpoints are found, timeouts, circuit breakers, the casing of
    headers and TLS origination.  Clusters are kept in the cache. *)

From S2P Require Import Prelude PyStr PyVal Resource Cache IpAddr ServiceName PyText Resolver BaseMapping HTTPMapping HealthChecks.
From S2P Require Import Cluster Group IR Listener TLSContext V3Route V3TLS V3HTTPConfig.

(** What a cluster is written with: the IR as a cluster sees it, its TLS contexts
    by name, and the text of a timeout that is given as a text. *)
Record v3cluster_ctx : Type := mkVC {
  vc_ir : cluster_ctx;
  vc_tls : dict (dict pyval);
  vc_float_text : string → res string  (* "%0.3fs" % (float(s) / 1000.0) *)
}.
Definition vc_module (ctx : v3cluster_ctx) : dict pyval := cc_module (vc_ir ctx).

(** ["%0.3fs" % (float(v) / 1000.0)] *)
Definition timeout_text (ctx : v3cluster_ctx) (v : pyval) : res string :=
  match v with PStr s => vc_float_text ctx s | _ => ms_text v end.

(** ** Endpoints *)

Definition socket_endpoint (address port : pyval) (protocol : list (string * pyval)) : pyval :=
  PDict [("endpoint", PDict [("address", PDict [("socket_address", PDict ([("address", address); ("port_value", port)] ++ protocol))])])].

Definition target_endpoint (target : dict pyval) : res pyval :=
  ip ← dget_exn "ip" target; port ← dget_exn "port" target;
  Ok (socket_endpoint ip port [("protocol", PStr "TCP")]).

Definition url_endpoint (u : string) : res pyval :=
  '(scheme, netloc, _) ← urlsplit u;
  port ← url_port netloc;
  port ← res_of_option TypeError port;
  Ok (socket_endpoint (match hostname_opt netloc with Some h => PStr h | None => PNone end) (PInt port)
        (if str_bool scheme then [("protocol", PStr (upper scheme))] else [])).

Definition get_endpoints (c : IRCluster) : res (list pyval) :=
  match default (Some []) (cl_targets c) with
  | None => Raise TypeError
  | Some [] => map_res url_endpoint (cl_urls c)
  | Some targets => map_res target_endpoint targets
  end.

(** ** Circuit breakers *)

Definition threshold_fields : list string := ["max_connections"; "max_pending_requests"; "max_requests"; "max_retries"].

Definition threshold_field (cb : pyval) (threshold : dict pyval) (field : string) : res (dict pyval) :=
  present ← vmem field cb;
  if (present : bool) then
    v ← vget field PNone cb; n ← int_of v;
    n ← res_of_option (ValueError "invalid literal for int() with base 10") n;
    Ok (dset field (PInt n) threshold)
  else Ok threshold.

Definition threshold (cb : pyval) : res pyval :=
  present ← vmem "priority" cb;
  priority ← (if (present : bool) then p ← vget "priority" PNone cb; py_upper p else Ok "DEFAULT");
  t ← fold_res (threshold_field cb) threshold_fields [("priority", PStr priority)];
  Ok (PDict t).

Definition get_circuit_breakers (c : IRCluster) : res (option pyval) :=
  match pget "circuit_breakers" (cl_attrs c) with
  | PNone => Ok None
  | cbs => l ← py_iter cbs; ts ← map_res threshold l; Ok (Some (PDict [("thresholds", PList ts)]))
  end.

(** ** The parts of a cluster *)

Definition dns_lookup_family (c : IRCluster) : res string :=
  v6 ← getattr (cl_attrs c) "enable_ipv6";
  if py_bool v6 then v4 ← getattr (cl_attrs c) "enable_ipv4"; Ok (if py_bool v4 then "AUTO" else "V6_ONLY") else Ok "V4_ONLY".

Definition cluster_type (c : IRCluster) (entry : dict pyval) : res string :=
  kind ← dget_exn "kind" entry;
  if py_eqb kind (PStr "KubernetesServiceResolver") then
    t ← getattr (cl_attrs c) "type"; t ← py_upper t;
    Ok (if bool_decide (t ∈ ["STRICT_DNS"; "LOGICAL_DNS"]) then t else "STRICT_DNS")
  else Ok "EDS".

(** [cluster.health_checks.config()]: on an ignored cluster the attribute is still
    what was configured. *)
Definition cluster_health (c : IRCluster) : res (option (list pyval)) :=
  if cl_ignore c then
    match pget "health_checks" (cl_attrs c) with PNone => Ok None | _ => Raise (AttributeError "config") end
  else Ok (match cl_health c with Some (h :: hs) => Some (h :: hs) | _ => None end).

(** The value of the cluster when it is true, or that of the Ambassador module *)
Definition or_module (ctx : v3cluster_ctx) (c : IRCluster) (key : string) : res pyval :=
  v ← getattr (cl_attrs c) key;
  Ok (if py_bool v then v else pget key (vc_module ctx)).

Definition common_timeout (ctx : v3cluster_ctx) (c : IRCluster) (key option : string) (self : dict pyval) : res (dict pyval) :=
  v ← or_module ctx c key;
  if py_bool v then t ← timeout_text ctx v; in_default "common_http_protocol_options" (λ o, Ok (dset option (PStr t) o)) self
  else Ok self.

Definition protocol_options (ctx : v3cluster_ctx) (c : IRCluster) (self : dict pyval) : res (dict pyval) :=
  if py_bool (dget_default "grpc" (PBool false) (cl_attrs c)) then Ok (dset "http2_protocol_options" (PDict []) self)
  else
    proper_case ← dget_exn "proper_case" (vc_module ctx);
    match pget "header_case_overrides" (vc_module ctx) with
    | PList l =>
        if negb (py_bool proper_case) && existsb is_str l then
          in_default "http_protocol_options"
            (λ o, Ok (dset "header_key_format" (PDict [("custom", PDict [("rules", PDict (case_rules l).1)])]) o)) self
        else Ok self
    | _ => Ok self
    end.

(** The TLS context of a cluster, by its name *)
Definition cluster_tls (ctx : v3cluster_ctx) (c : IRCluster) : res (option (dict pyval)) :=
  match pget "tls_context" (cl_attrs c) with
  | PStr n => t ← dget_exn n (vc_tls ctx); Ok (Some t)
  | _ => Ok None
  end.

Definition transport_socket (envoy_ctx : dict pyval) : pyval :=
  PDict [("name", PStr "envoy.transport_sockets.tls");
         ("typed_config", PDict (dupdate
            [("@type", PStr "type.googleapis.com/envoy.extensions.transport_sockets.tls.v3.UpstreamTlsContext")] envoy_ctx))].

Definition tls_fields (ctx : v3cluster_ctx) (c : IRCluster) : res (dict pyval) :=
  t ← cluster_tls ctx c;
  match t with
  | None => Ok []
  | Some t =>
      envoy_ctx ← (if py_bool (dget_default "_ambassador_enabled" (PBool false) t) then Ok [("common_tls_context", PDict [])]
                   else v ← V3TLSContext_init t; Ok (vt_self v));
      Ok (match envoy_ctx with [] => [] | _ => [("transport_socket", transport_socket envoy_ctx)] end)
  end.

Definition keepalive_option (keepalive : pyval) (k : string) : res (dict pyval) :=
  v ← vget k PNone keepalive; Ok (match v with PNone => [] | _ => [("keepalive_" +:+ k, v)] end).

Definition keepalive_fields (ctx : v3cluster_ctx) (c : IRCluster) : res (dict pyval) :=
  let keepalive :=
    match pget "keepalive" (cl_attrs c) with
    | PNone => if res_bool (vc_module ctx) && py_bool (pget "keepalive" (vc_module ctx)) then pget "keepalive" (vc_module ctx) else PNone
    | k => k
    end in
  match keepalive with
  | PNone => Ok []
  | _ =>
      time ← keepalive_option keepalive "time"; interval ← keepalive_option keepalive "interval"; probes ← keepalive_option keepalive "probes";
      Ok [("upstream_connection_options", PDict [("tcp_keepalive", PDict (time ++ interval ++ probes))])]
  end.

Definition endpoint_fields (c : IRCluster) (entry : dict pyval) (ctype name : string) : res (dict pyval) :=
  if bool_decide (ctype = "EDS") then
    path ← dget_exn "endpoint_path" entry;
    Ok [("eds_cluster_config", PDict [("eds_config", PDict [("ads", PDict []); ("resource_api_version", PStr "V3")]); ("service_name", path)])]
  else
    eps ← get_endpoints c;
    Ok [("load_assignment", PDict [("cluster_name", PStr name); ("endpoints", PList [PDict [("lb_endpoints", PList eps)]])])].

(** ** The cluster *)

Definition V3Cluster_init (ctx : v3cluster_ctx) (c : IRCluster) : res (dict pyval) :=
  family ← dns_lookup_family c;
  name ← getattr (cl_attrs c) "envoy_name"; name ← as_str name;
  if negb (str_bool name) || bool_decide (60 < slen name) then Raise (AssertionError EmptyString)
  else
    entry ← cluster_clustermap_entry (vc_ir ctx) c;
    ctype ← cluster_type c entry;
    lb ← getattr (cl_attrs c) "lb_type"; lb ← py_upper lb;
    timeout ← getattr (cl_attrs c) "connect_timeout_ms"; timeout ← timeout_text ctx timeout;
    let stats := dget_default "stats_name" (PStr EmptyString) (cl_attrs c) in
    ttl ← getattr (cl_attrs c) "respect_dns_ttl";
    let fields :=
      [("name", PStr name); ("type", PStr ctype); ("lb_policy", PStr lb); ("connect_timeout", PStr timeout); ("dns_lookup_family", PStr family)]
      ++ (if py_bool stats then [("alt_stat_name", stats)] else [])
      ++ (if py_bool ttl then [("respect_dns_ttl", ttl)] else []) in
    health ← cluster_health c;
    let self := match health with
                | Some hs => if bool_decide (ctype = "EDS") then [("health_checks", PList hs)] else []
                | None => []
                end in
    endpoints ← endpoint_fields c entry ctype name;
    self ← common_timeout ctx c "cluster_idle_timeout_ms" "idle_timeout" self;
    self ← common_timeout ctx c "cluster_max_connection_lifetime_ms" "max_connection_duration" self;
    breakers ← get_circuit_breakers c;
    let breakers := match breakers with Some b => [("circuit_breakers", b)] | None => [] end in
    self ← protocol_options ctx c self;
    tls ← tls_fields ctx c;
    keepalive ← keepalive_fields ctx c;
    Ok (dupdate self (fields ++ endpoints ++ breakers ++ tls ++ keepalive)).

(** ** Generating the clusters *)

(** The IR, the cluster objects, which the cache refers to, the elements saved for
    diagnostics, the clusters in order and the map of clusters *)
Record clusters_state (C : Type) : Type := mkCS {
  cs_ir : ir_state C;
  cs_objs : list (dict pyval);
  cs_elements : dict nat;
  cs_clusters : list nat;
  cs_map : dict (dict pyval)
}.
Arguments mkCS {C}.
Arguments cs_ir {C}.
Arguments cs_objs {C}.
Arguments cs_elements {C}.
Arguments cs_clusters {C}.
Arguments cs_map {C}.

Section generate.
Context {C : Type} `{ops : !CacheOps C ref}.

Definition ir_envoy_name (ir : ir_state C) (i : nat) : res string :=
  c ← deref (st_cluster_objs ir) i; n ← getattr (cl_attrs c) "envoy_name"; as_str n.

(** The cached cluster, or a new one that is cached when the cluster of the IR is *)
Definition get_v3cluster (ctx : v3cluster_ctx) (c : IRCluster) (s : clusters_state C) : res (nat * clusters_state C) :=
  let key := "V3-" +:+ cluster_cache_key c in
  let '(r, ir) := cache_fetch (cs_ir s) key in
  match r with
  | Some (RV3Cluster i _) => Ok (i, mkCS ir (cs_objs s) (cs_elements s) (cs_clusters s) (cs_map s))
  | Some _ => Raise (AssertionError EmptyString)
  | None =>
      v ← V3Cluster_init ctx c;
      let i := length (cs_objs s) in
      let elements := dset (cl_location c) i (dset (cl_rkey c) i (cs_elements s)) in
      let '(cached, ir) := cache_fetch ir (cluster_cache_key c) in
      ir ← match cached with
           | None => Ok ir
           | Some owner => ir ← cache_add ir (RV3Cluster i key); cache_link ir owner (RV3Cluster i key)
           end;
      Ok (i, mkCS ir (cs_objs s ++ [v]) elements (cs_clusters s) (cs_map s))
  end.

Definition generate_cluster (ctx : v3cluster_ctx) (s : clusters_state C) (ci : nat) : res (clusters_state C) :=
  c ← deref (st_cluster_objs (cs_ir s)) ci;
  '(i, s) ← get_v3cluster ctx c s;
  name ← ir_envoy_name (cs_ir s) ci;
  entry ← cluster_clustermap_entry (vc_ir ctx) c;
  Ok (mkCS (cs_ir s) (cs_objs s) (cs_elements s) (cs_clusters s ++ [i]) (dset name entry (cs_map s))).

Definition generate_clusters (ctx : v3cluster_ctx) (s : clusters_state C) : res (clusters_state C) :=
  names ← map_res (λ ci, n ← ir_envoy_name (cs_ir s) ci; Ok (n, ci)) (dvalues (st_clusters (cs_ir s)));
  fold_res (generate_cluster ctx) (snd <$> py_sorted str_le fst names) (mkCS (cs_ir s) (cs_objs s) (cs_elements s) [] []).
End generate.

(** ** The fields of a cluster *)

Lemma dict_ok_sublist {V} (d : dict V) l : dkeys d `sublist_of` l → NoDup l → dict_ok d.
Proof. intros Hs Hn. exact (sublist_NoDup _ _ Hn Hs). Qed.

Lemma endpoint_fields_keys c entry t n d :
  endpoint_fields c entry t n = Ok d → dkeys d `sublist_of` ["eds_cluster_config"; "load_assignment"].
Proof.
  unfold endpoint_fields. case_bool; intros H; [bind_step H as p Hp|bind_step H as eps He]; injection H as <-; cbn;
    repeat constructor.
Qed.

Lemma tls_fields_keys ctx c d : tls_fields ctx c = Ok d → dkeys d `sublist_of` ["transport_socket"].
Proof.
  unfold tls_fields. intros H. bind_step H as t Ht. destruct t as [t|]; [|injection H as <-; apply sublist_nil_l].
  bind_step H as e He. injection H as <-. destruct e; cbn; repeat constructor.
Qed.

Lemma keepalive_fields_keys ctx c d : keepalive_fields ctx c = Ok d → dkeys d `sublist_of` ["upstream_connection_options"].
Proof.
  unfold keepalive_fields. destruct (match pget "keepalive" (cl_attrs c) with PNone => _ | k => k end); intros H;
    try (injection H as <-; apply sublist_nil_l);
    bind_step H as k1 H1; bind_step H as k2 H2; bind_step H as k3 H3; injection H as <-; done.
Qed.

(** The fields that are written last, all of them different *)
Definition field_keys : list string :=
  ["name"; "type"; "lb_policy"; "connect_timeout"; "dns_lookup_family"; "alt_stat_name"; "respect_dns_ttl";
   "eds_cluster_config"; "load_assignment"; "circuit_breakers"; "transport_socket"; "upstream_connection_options"].

Lemma fields_ok (n ty lb tm fam stats ttl : pyval) (b1 b2 : bool) (eps tls ka : dict pyval) (br : option pyval) :
  dkeys eps `sublist_of` ["eds_cluster_config"; "load_assignment"] → dkeys tls `sublist_of` ["transport_socket"] →
  dkeys ka `sublist_of` ["upstream_connection_options"] →
  dict_ok (([("name", n); ("type", ty); ("lb_policy", lb); ("connect_timeout", tm); ("dns_lookup_family", fam)]
            ++ (if b1 then [("alt_stat_name", stats)] else []) ++ (if b2 then [("respect_dns_ttl", ttl)] else []))
           ++ eps ++ match br with Some b => [("circuit_breakers", b)] | None => [] end ++ tls ++ ka).
Proof.
  intros H1 H2 H3. apply (dict_ok_sublist _ field_keys); [|by apply (bool_decide_eq_true_1 _)].
  unfold dkeys in *. rewrite !fmap_app.
  change field_keys with ((["name"; "type"; "lb_policy"; "connect_timeout"; "dns_lookup_family"]
    ++ ["alt_stat_name"] ++ ["respect_dns_ttl"]) ++ ["eds_cluster_config"; "load_assignment"] ++ ["circuit_breakers"]
    ++ ["transport_socket"] ++ ["upstream_connection_options"]).
  repeat apply sublist_app; try done; [destruct b1|destruct b2|destruct br]; cbn; repeat constructor.
Qed.

(** A cluster has the Envoy name of its cluster of the IR. *)
Lemma V3Cluster_name ctx c v n :
  V3Cluster_init ctx c = Ok v → dget "envoy_name" (cl_attrs c) = Some n → dget "name" v = Some n.
Proof.
  unfold V3Cluster_init. intros H Hen. bind_step H as f Hf. bind_step H as nv Hnv. bind_step H as nm Hn.
  destruct (negb (str_bool nm) || bool_decide (60 < slen nm)); [done|].
  assert (n = PStr nm) as ->.
  { unfold getattr in Hnv. rewrite Hen in Hnv. injection Hnv as <-. destruct n; try done. by injection Hn as ->. }
  bind_step H as entry He. bind_step H as t Ht. bind_step H as lb Hlb. bind_step H as lb' Hlb'. bind_step H as tm Htm.
  bind_step H as tm' Htm'. bind_step H as ttl Httl. bind_step H as h Hh. bind_step H as eps Heps.
  bind_step H as s1 Hs1. bind_step H as s2 Hs2. bind_step H as b Hb. bind_step H as s3 Hs3. bind_step H as tls Htls.
  bind_step H as k Hk. apply Ok_inj in H as <-. rewrite dget_dupdate; [reflexivity|].
  apply fields_ok; [by eapply endpoint_fields_keys|by eapply tls_fields_keys|by eapply keepalive_fields_keys].
Qed.

(** ** The clusters that are written *)

Section correctness.
Context {C : Type} `{ops : !CacheOps C ref} `{laws : !CacheLaws C ref}.
Implicit Types s : clusters_state C.

(** The clusters of the IR are stored under their names. *)
Definition clusters_named {D} (ir : ir_state D) : Prop :=
  dict_ok (st_clusters ir) ∧
  ∀ n i, dget n (st_clusters ir) = Some i → ∃ c, deref (st_cluster_objs ir) i = Ok c ∧ cl_name c = n.

(** Every cached Envoy cluster is the one that would be made now. *)
Definition clusters_current (ctx : v3cluster_ctx) s : Prop :=
  c_inv (R := ref) (st_cache (cs_ir s)) ∧
  ∀ n ci c r, dget n (st_clusters (cs_ir s)) = Some ci → deref (st_cluster_objs (cs_ir s)) ci = Ok c →
    (c_getitem (st_cache (cs_ir s)) ("V3-" +:+ cluster_cache_key c)).1 = Some r →
    ∃ i v, r = RV3Cluster i ("V3-" +:+ cluster_cache_key c) ∧ cs_objs s !! i = Some v ∧ V3Cluster_init ctx c = Ok v.

(** What is written for the cluster at [ci]: its Envoy name, the cluster and the
    entry in the cluster map *)
Definition cluster_written (ctx : v3cluster_ctx) (objs : list IRCluster) (ci : nat) : res (string * dict pyval * dict pyval) :=
  c ← deref objs ci;
  n ← getattr (cl_attrs c) "envoy_name"; n ← as_str n;
  v ← V3Cluster_init ctx c; e ← cluster_clustermap_entry (vc_ir ctx) c;
  Ok (n, v, e).

Definition same_clusters {D E} (i1 : ir_state D) (i2 : ir_state E) : Prop :=
  st_clusters i1 = st_clusters i2 ∧ st_cluster_objs i1 = st_cluster_objs i2.

Lemma clusters_current_less ctx s c el cl m :
  clusters_current ctx s → c_inv (R := ref) c →
  (∀ k (r : ref), (c_getitem c k).1 = Some r → (c_getitem (st_cache (cs_ir s)) k).1 = Some r) →
  clusters_current ctx (mkCS (st_with_cache (cs_ir s) c) (cs_objs s) el cl m).
Proof. intros [_ H] Hi Hless. split; [done|]. intros n ci c' r Hn Hc Hr. apply (H n ci c' r Hn Hc). by apply Hless. Qed.

Lemma clusters_current_add ctx s cache n ci c v el cl m :
  clusters_current ctx s → clusters_named (cs_ir s) →
  dget n (st_clusters (cs_ir s)) = Some ci → deref (st_cluster_objs (cs_ir s)) ci = Ok c → V3Cluster_init ctx c = Ok v →
  c_inv (R := ref) cache →
  (∀ k r, (c_getitem cache k).1 = Some r →
     r = RV3Cluster (length (cs_objs s)) ("V3-" +:+ cluster_cache_key c) ∨ (c_getitem (st_cache (cs_ir s)) k).1 = Some r) →
  clusters_current ctx (mkCS (st_with_cache (cs_ir s) cache) (cs_objs s ++ [v]) el cl m).
Proof.
  intros [_ H] Hnm Hn Hc Hv Hi Hadd. split; [done|]. cbn [cs_ir st_with_cache st_clusters st_cluster_objs cs_objs st_cache].
  intros n' ci' c' r Hn' Hc' Hr. pose proof (c_getitem_key _ _ _ Hi Hr) as Hk. destruct (Hadd _ _ Hr) as [->|Hold].
  - injection Hk as Hk. assert (n = n') as <-.
    { destruct (proj2 Hnm _ _ Hn) as (c1 & H1 & <-), (proj2 Hnm _ _ Hn') as (c2 & H2 & <-). rewrite Hc in H1. rewrite Hc' in H2. injection H1 as ->. injection H2 as ->. exact Hk. }
    rewrite Hn in Hn'. injection Hn' as <-. rewrite Hc in Hc'. injection Hc' as <-.
    exists (length (cs_objs s)), v. split; [done|]. by rewrite lookup_app_r, Nat.sub_diag by lia.
  - destruct (H _ _ _ _ Hn' Hc' Hold) as (i & w & -> & Hw & Hw'). exists i, w. split; [done|].
    by rewrite (lookup_app_l_Some _ _ _ _ Hw).
Qed.

(** Fetched or made, a cluster is the one to write. *)
Lemma get_v3cluster_spec ctx s n ci c v :
  clusters_current ctx s → clusters_named (cs_ir s) →
  dget n (st_clusters (cs_ir s)) = Some ci → deref (st_cluster_objs (cs_ir s)) ci = Ok c → V3Cluster_init ctx c = Ok v →
  ∃ i s', get_v3cluster ctx c s = Ok (i, s') ∧ clusters_current ctx s' ∧ same_clusters (cs_ir s) (cs_ir s')
    ∧ cs_objs s `prefix_of` cs_objs s' ∧ cs_objs s' !! i = Some v
    ∧ cs_clusters s' = cs_clusters s ∧ cs_map s' = cs_map s.
Proof.
  intros Hcur Hnm Hn Hc Hv. pose proof (proj1 Hcur) as Hinv. set (key := "V3-" +:+ cluster_cache_key c).
  pose proof (λ r, proj2 Hcur n ci c r Hn Hc) as Hcur0. fold key in Hcur0.
  assert (Hinv0 := c_inv_getitem (R := ref) _ key Hinv). assert (Hpure := c_getitem_pure (R := ref) (st_cache (cs_ir s)) key).
  unfold get_v3cluster, cache_fetch. fold key. destruct (c_getitem (R := ref) (st_cache (cs_ir s)) key) as [[r|] c0].
  - destruct (Hcur0 r eq_refl) as (i & w & -> & Hi & Hw). cbn [fst snd] in *. rewrite Hv in Hw. injection Hw as <-. eexists i, _. split; [done|].
    split_and!; try done. apply clusters_current_less; [done..|]. intros k r. apply Hpure.
  - cbn [fst snd st_cache st_with_cache] in *. rewrite Hv. cbn [mbind res_bind].
    assert (Hinv1 := c_inv_getitem (R := ref) _ (cluster_cache_key c) Hinv0).
    assert (Hpure1 := c_getitem_pure (R := ref) c0 (cluster_cache_key c)).
    assert (Hkey := λ r, c_getitem_key (R := ref) c0 (cluster_cache_key c) r Hinv0).
    destruct (c_getitem (R := ref) c0 (cluster_cache_key c)) as [[owner|] c1]; cbn [fst snd st_cache st_with_cache] in *.
    + set (new := RV3Cluster (length (cs_objs s)) key). unfold cache_add, cache_link. cbn [st_cache st_with_cache].
      destruct (c_add_total c1 new) as [c2 H2]; [done|]. rewrite H2. cbn [mbind res_bind st_cache st_with_cache].
      destruct (c_link_total c2 owner new) as [c3 H3]; [by rewrite (Hkey owner)|done|]. rewrite H3. cbn [mbind res_bind].
      eexists _, _. split; [done|]. split; [|split_and!; cbn [cs_objs]; try done; [by eexists|by rewrite lookup_app_r, Nat.sub_diag by lia]].
      eapply (clusters_current_add ctx s c3 n ci c); try done.
      * by eapply c_inv_link; [eapply c_inv_add|].
      * intros k r Hr. apply (c_link_fetch _ _ _ _ _ _ H3) in Hr. destruct (c_add_fetch _ _ _ _ _ H2 Hr); [by left|].
        right. by apply Hpure, Hpure1.
    + cbn [mbind res_bind]. eexists _, _. split; [done|].
      split; [|split_and!; cbn [cs_objs]; try done; [by eexists|by rewrite lookup_app_r, Nat.sub_diag by lia]].
      eapply (clusters_current_add ctx s c1 n ci c); try done. intros k r Hr. right. by apply Hpure, Hpure1.
Qed.

Lemma generate_clusters_loop ctx cis ws : ∀ s done,
  clusters_current ctx s → clusters_named (cs_ir s) → (∀ ci, ci ∈ cis → ci ∈ dvalues (st_clusters (cs_ir s))) →
  map_res (cluster_written ctx (st_cluster_objs (cs_ir s))) cis = Ok ws →
  Forall2 (λ i v, cs_objs s !! i = Some v) (cs_clusters s) done →
  ∃ s', fold_res (generate_cluster ctx) cis s = Ok s' ∧ clusters_current ctx s' ∧ same_clusters (cs_ir s) (cs_ir s')
    ∧ Forall2 (λ i v, cs_objs s' !! i = Some v) (cs_clusters s') (done ++ ((λ w, w.1.2) <$> ws))
    ∧ cs_map s' = foldl (λ m w, dset w.1.1 w.2 m) (cs_map s) ws.
Proof.
  revert ws. induction cis as [|ci cis IH]; intros ws s done Hcur Hnm Hin Hws Hd.
  { injection Hws as <-. exists s. cbn [fmap list_fmap foldl]. rewrite app_nil_r. by split_and!. }
  cbn [map_res] in Hws. bind_step Hws as [[nm v] e] Hw. bind_step Hws as ws' Hws'. injection Hws as <-.
  unfold cluster_written in Hw. bind_step Hw as c Hc. bind_step Hw as nv Hnv. bind_step Hw as nm' Hnm'.
  bind_step Hw as v' Hv. bind_step Hw as e' He. injection Hw as -> -> ->.
  destruct (proj1 (list_elem_of_fmap _ _ _) (Hin ci ltac:(by left))) as ([n ci'] & E & Hn%elem_of_dget); [|apply Hnm].
  cbn in E. subst ci'.
  destruct (get_v3cluster_spec ctx s n ci c v) as (i & s1 & H1 & Hcur1 & Hs1 & Hpre & Hi & Hcl & Hm); [done..|].
  destruct Hs1 as [Hsc Hso].
  set (s2 := mkCS (cs_ir s1) (cs_objs s1) (cs_elements s1) (cs_clusters s1 ++ [i]) (dset nm e (cs_map s1))).
  assert (Hstep : generate_cluster ctx s ci = Ok s2).
  { unfold generate_cluster. rewrite Hc. cbn [mbind res_bind]. rewrite H1. cbn [mbind res_bind].
    unfold ir_envoy_name. rewrite <- Hso, Hc. cbn [mbind res_bind]. rewrite Hnv. cbn [mbind res_bind]. rewrite Hnm'.
    cbn [mbind res_bind]. by rewrite He. }
  destruct (IH ws' s2 (done ++ [v])) as (s' & Hf & Hcur' & [Hsc' Hso'] & Hd' & Hm'); cbn [s2 cs_ir cs_objs cs_clusters cs_map] in *.
  - exact Hcur1.
  - unfold clusters_named. by rewrite <- Hsc, <- Hso.
  - intros ci' Hci'. rewrite <- Hsc. apply Hin. by right.
  - by rewrite <- Hso.
  - rewrite Hcl. apply Forall2_app; [|by constructor]. eapply Forall2_impl; [exact Hd|]. intros j w Hj. exact (prefix_lookup_Some _ _ _ _ Hj Hpre).
  - exists s'. cbn [fold_res]. rewrite Hstep. cbn [mbind res_bind]. split; [done|]. split; [done|].
    split; [by split; etransitivity|]. cbn [fmap list_fmap foldl fst snd]. rewrite <- app_assoc in Hd'.
    split; [done|]. by rewrite Hm', Hm.
Qed.

Lemma map_res_perm {A B} (f : A → res B) l l' ys :
  l ≡ₚ l' → map_res f l = Ok ys → ∃ ys', map_res f l' = Ok ys' ∧ ys ≡ₚ ys'.
Proof.
  intros Hp. revert ys. induction Hp as [|x l l' Hp IH|x y l|l1 l2 l3 H1 IH1 H2 IH2]; intros ys H.
  - by exists ys.
  - cbn in *. bind_step H as z Hz. bind_step H as zs Hzs. injection H as <-. destruct (IH _ Hzs) as (zs' & Hzs' & Hzp).
    exists (z :: zs'). rewrite Hz. cbn. rewrite Hzs'. cbn. split; [done|]. by constructor.
  - cbn in *. bind_step H as z Hz. bind_step H as zs Hzs. bind_step Hzs as w Hw. bind_step Hzs as ws Hws.
    injection Hzs as <-. injection H as <-. exists (w :: z :: ws). rewrite Hw, Hz. cbn. rewrite Hws. cbn. split; [done|]. constructor.
  - destruct (IH1 _ H) as (ys1 & Hy1 & P1). destruct (IH2 _ Hy1) as (ys2 & Hy2 & P2). exists ys2. split; [done|]. by etransitivity.
Qed.

Lemma str_le_total a b : str_le a b = true ∨ str_le b a = true.
Proof. unfold str_le. apply String.leb_total. Qed.

Lemma foldl_dset_fresh {A V} (k : A → string) (v : A → V) (l : list A) : ∀ d,
  NoDup (dkeys d ++ (k <$> l)) → foldl (λ m x, dset (k x) (v x) m) d l = d ++ ((λ x, (k x, v x)) <$> l).
Proof.
  induction l as [|x l IH]; intros d Hnd; cbn [foldl]; [by rewrite app_nil_r|].
  assert (Hx : dmem (k x) d = false).
  { unfold dmem. destruct (dget (k x) d) eqn:Hs; [|done]. apply dget_elem_of, (list_elem_of_fmap_2 fst) in Hs.
    apply NoDup_app in Hnd as (_ & Hnd & _). destruct (Hnd (k x)); [done|by left]. }
  rewrite dset_fresh by done. rewrite IH; [by rewrite <- app_assoc|].
  unfold dkeys in *. rewrite fmap_app, <- app_assoc. exact Hnd.
Qed.

Lemma cluster_written_name ctx objs ci w :
  cluster_written ctx objs ci = Ok w → dget "name" w.1.2 = Some (PStr w.1.1).
Proof.
  unfold cluster_written. intros H. bind_step H as c Hc. bind_step H as nv Hnv. bind_step H as n Hn. bind_step H as v Hv.
  bind_step H as e He. injection H as <-. apply (V3Cluster_name _ _ _ _ Hv). unfold getattr in Hnv.
  destruct (dget "envoy_name" (cl_attrs c)) as [x|]; [|done]. injection Hnv as ->. destruct nv; try done. by injection Hn as ->.
Qed.

(** The loop runs over the clusters in the order of their Envoy names. *)
Lemma sorted_clusters ctx (ir : ir_state C) cis ws :
  map_res (cluster_written ctx (st_cluster_objs ir)) cis = Ok ws →
  ∃ names ws', map_res (λ ci, n ← ir_envoy_name ir ci; Ok (n, ci)) cis = Ok names
    ∧ map_res (cluster_written ctx (st_cluster_objs ir)) (snd <$> py_sorted str_le fst names) = Ok ws'
    ∧ ws ≡ₚ ws' ∧ Sorted (λ w w', str_le w.1.1 w'.1.1 = true) ws' ∧ (snd <$> py_sorted str_le fst names) ≡ₚ cis.
Proof.
  intros Hws. set (f := λ ci, n ← ir_envoy_name ir ci; Ok (n, ci)).
  assert (Hf : ∀ ci w, cluster_written ctx (st_cluster_objs ir) ci = Ok w → f ci = Ok (w.1.1, ci)).
  { intros ci w H. unfold cluster_written in H. unfold f, ir_envoy_name. bind_step H as c Hc. rewrite Hc. cbn [mbind res_bind].
    bind_step H as nv Hnv. rewrite Hnv. cbn [mbind res_bind]. bind_step H as n Hn. rewrite Hn. cbn [mbind res_bind].
    bind_step H as v Hv. bind_step H as e He. by injection H as <-. }
  assert (Hnames : ∃ names, map_res f cis = Ok names ∧ snd <$> names = cis).
  { clear - Hws Hf. revert ws Hws. induction cis as [|ci cis IH]; intros ws H; [by exists []|].
    cbn in H. bind_step H as w Hw. bind_step H as ws' Hws'. destruct (IH _ Hws') as (names & Hn & Hs).
    exists ((w.1.1, ci) :: names). cbn. rewrite (Hf _ _ Hw). cbn. rewrite Hn. cbn. by rewrite Hs. }
  destruct Hnames as (names & Hn & Hs). assert (Hp : (snd <$> py_sorted str_le fst names) ≡ₚ cis) by (by rewrite py_sorted_perm, Hs).
  destruct (map_res_perm _ _ _ _ (symmetry Hp) Hws) as (ws' & Hws' & Hpw). exists names, ws'. split_and!; try done.
  assert (Hsrt := py_sorted_sorted str_le fst names str_le_total).
  assert (Hall : Forall (λ p, f p.2 = Ok p) (py_sorted str_le fst names)).
  { apply Forall_forall. intros p Hin%elem_of_py_sorted. destruct (map_res_elem _ _ _ _ Hn Hin) as (ci & _ & Hci).
    pose proof Hci as Hci'. unfold f in Hci. bind_step Hci as n En. by injection Hci as <-. }
  clear - Hws' Hsrt Hall Hf. revert ws' Hws'. induction Hsrt as [|p l Hl IH Hhd]; intros ws' H.
  - injection H as <-. constructor.
  - cbn in H. bind_step H as w Hw. bind_step H as ws Hws. injection H as <-. apply Forall_cons in Hall as [Hp Hall].
    constructor; [by apply IH|]. destruct Hhd as [|q l' Hpq].
    + injection Hws as <-. constructor.
    + cbn in Hws. bind_step Hws as w' Hw'. bind_step Hws as ws2 Hws2. injection Hws as <-. constructor.
      apply Forall_cons in Hall as [Hq _]. rewrite (Hf _ _ Hw) in Hp. rewrite (Hf _ _ Hw') in Hq.
      destruct p, q. cbn in Hp, Hq. injection Hp as ->. by injection Hq as ->.
Qed.

(** C15. When every cluster of the IR can be written, under distinct Envoy names,
    [generate] returns: it writes each exactly once, in the order of the names,
    whether or not an earlier one is in the cache, and the cluster map has
    exactly these names, with the entries of their clusters.  What the cache then
    holds is again what would be made. *)
Theorem clusters_written_once ctx s ws :
  clusters_current ctx s → clusters_named (cs_ir s) →
  map_res (cluster_written ctx (st_cluster_objs (cs_ir s))) (dvalues (st_clusters (cs_ir s))) = Ok ws →
  NoDup ((λ w, w.1.1) <$> ws) →
  ∃ s' ws', generate_clusters ctx s = Ok s' ∧ clusters_current ctx s' ∧ ws ≡ₚ ws'
    ∧ Sorted (λ w w', str_le w.1.1 w'.1.1 = true) ws'
    ∧ Forall2 (λ i w, cs_objs s' !! i = Some w.1.2) (cs_clusters s') ws'
    ∧ cs_map s' = (λ w, (w.1.1, w.2)) <$> ws'
    ∧ Forall (λ w, dget "name" w.1.2 = Some (PStr w.1.1)) ws'.
Proof.
  intros Hcur Hnm Hws Hnd. destruct (sorted_clusters _ _ _ _ Hws) as (names & ws' & Hn & Hws' & Hp & Hs & Hpc).
  destruct (generate_clusters_loop ctx (snd <$> py_sorted str_le fst names) ws'
    (mkCS (cs_ir s) (cs_objs s) (cs_elements s) [] []) []) as (s' & Hf & Hcur' & _ & Hcl & Hm); try done.
  - intros ci Hci. cbn [cs_ir]. by rewrite <- Hpc.
  - exists s', ws'. unfold generate_clusters. rewrite Hn. cbn [mbind res_bind]. split; [done|]. split_and!; try done.
    + cbn [app] in Hcl. by apply Forall2_fmap_r in Hcl.
    + rewrite Hm. cbn [cs_map]. rewrite (foldl_dset_fresh (λ w, w.1.1) (λ w, w.2)); [done|]. cbn [dkeys fmap list_fmap app]. by rewrite <- Hp.
    + apply Forall_forall. intros w Hw. destruct (map_res_elem _ _ _ _ Hws' Hw) as (ci & _ & Hci). by eapply cluster_written_name.
Qed.
End correctness.

(** ** From a service to its cluster *)

(** What a plain cluster needs of the Ambassador module *)
Record plain_module (m : dict pyval) (v4 v6 : pyval) : Prop := {
  pm_lb : getattr m "load_balancer" = Ok PNone;
  pm_ipv4 : getattr m "enable_ipv4" = Ok v4;
  pm_ipv6 : getattr m "enable_ipv6" = Ok v6;
  pm_idle : pget "cluster_idle_timeout_ms" m = PNone;
  pm_lifetime : pget "cluster_max_connection_lifetime_ms" m = PNone;
  pm_keepalive : pget "keepalive" m = PNone;
  pm_case : is_Some (dget "proper_case" m)
}.

(** The attributes of a plain cluster *)
Definition plain_attrs (service : string) (v4 v6 : pyval) (tls : option string) : dict pyval :=
  [("type", PStr "strict_dns"); ("lb_type", PStr "round_robin"); ("load_balancer", PNone); ("keepalive", PNone);
   ("circuit_breakers", PNone); ("service", PStr service); ("enable_ipv4", v4); ("enable_ipv6", v6);
   ("enable_endpoints", PBool false); ("connect_timeout_ms", PInt 3000); ("cluster_idle_timeout_ms", PNone);
   ("cluster_max_connection_lifetime_ms", PNone); ("respect_dns_ttl", PBool false); ("health_checks", PNone);
   ("stats_name", PStr (safe_name service))]
  ++ match tls with Some n => [("tls_context", PStr n)] | None => [] end.

Lemma new_args_plain ctx s v4 v6 tls :
  getattr (cc_module ctx) "enable_ipv4" = Ok v4 → getattr (cc_module ctx) "enable_ipv6" = Ok v6 →
  new_args ctx [] s (mkLB PNone (PStr "round_robin") false [] []) tls = Ok (plain_attrs s v4 v6 tls).
Proof. intros H4 H6. unfold new_args. cbv zeta. cbn. rewrite H4, H6. by destruct tls. Qed.

(** The protocol options of a cluster without gRPC are at most the casing of headers. *)
Lemma protocol_options_plain ctx c :
  dget "grpc" (cl_attrs c) = None → is_Some (dget "proper_case" (vc_module ctx)) →
  ∃ self, protocol_options ctx c [] = Ok self ∧ dkeys self `sublist_of` ["http_protocol_options"].
Proof.
  intros Hg [pc Hpc]. unfold protocol_options, dget_default. rewrite Hg. cbn [from_option py_bool].
  unfold dget_exn. rewrite Hpc. cbn [mbind res_bind res_of_option].
  destruct (pget "header_case_overrides" (vc_module ctx));
    try (eexists; split; [reflexivity|apply sublist_nil_l]).
  destruct (negb (py_bool pc) && _); eexists; (split; [reflexivity|]); [done|apply sublist_nil_l].
Qed.

(** The endpoint of a service, and TLS origination *)
Definition service_assignment (name host : string) (port : Z) : pyval :=
  PDict [("cluster_name", PStr name);
         ("endpoints", PList [PDict [("lb_endpoints", PList [socket_endpoint (PStr host) (PInt port) [("protocol", PStr "TCP")]])]])].

Definition null_transport : pyval := transport_socket [("common_tls_context", PDict [])].

(** A cluster with the attributes of a plain one, a single target and an Envoy
    name *)
Record plain_cluster (ctx : v3cluster_ctx) (c : IRCluster) (name service host : string) (port : Z) (v4 v6 : pyval)
    (tls : option string) : Prop := {
  pc_module : plain_module (vc_module ctx) v4 v6;
  pc_attrs : cl_attrs c = dset "envoy_name" (PStr name) (plain_attrs service v4 v6 tls);
  pc_name : name ≠ EmptyString ∧ slen name ≤ 60;
  pc_target : ∃ ep, cl_targets c = Some (Some [ep]) ∧ dget "ip" ep = Some (PStr host) ∧ dget "port" ep = Some (PInt port);
  pc_resolver : ∃ r, resolve_resolver (vc_ir ctx) (cl_resolver c) = Ok r ∧ rv_kind r = "KubernetesServiceResolver";
  pc_plain : cl_ignore c = false ∧ cl_health c = None;
  pc_tls : match tls with
           | Some n => ∃ t, dget n (vc_tls ctx) = Some t ∧ py_bool (dget_default "_ambassador_enabled" (PBool false) t) = true
           | None => True
           end
}.

Section plain.
Context ctx c name service host port v4 v6 tls (Hp : plain_cluster ctx c name service host port v4 v6 tls).

Lemma plain_get k : k ≠ "envoy_name" → dget k (cl_attrs c) = dget k (plain_attrs service v4 v6 tls).
Proof. intros Hk. rewrite (pc_attrs _ _ _ _ _ _ _ _ _ Hp). by rewrite dget_dset_ne. Qed.

Lemma plain_getattr k x :
  dget k (plain_attrs service v4 v6 tls) = Some x → k ≠ "envoy_name" → getattr (cl_attrs c) k = Ok x.
Proof. intros Hx Hk. unfold getattr. by rewrite plain_get, Hx. Qed.

Lemma plain_family : ∃ f, dns_lookup_family c = Ok f.
Proof.
  unfold dns_lookup_family. rewrite (plain_getattr "enable_ipv6" v6 eq_refl), (plain_getattr "enable_ipv4" v4 eq_refl) by done.
  cbn [mbind res_bind]. destruct (py_bool v6); eexists; reflexivity.
Qed.

Lemma plain_entry :
  ∃ entry, cluster_clustermap_entry (vc_ir ctx) c = Ok entry ∧ cluster_type c entry = Ok "STRICT_DNS".
Proof.
  destruct (pc_resolver _ _ _ _ _ _ _ _ _ Hp) as (r & Hr & Hk). unfold cluster_clustermap_entry. rewrite Hr. cbn [mbind res_bind].
  unfold clustermap_entry. rewrite Hk, bool_decide_true by done. destruct (parse_service _ _ _) as [svc ns].
  eexists. split; [reflexivity|]. unfold cluster_type. by rewrite (plain_getattr "type" (PStr "strict_dns") eq_refl).
Qed.

Lemma plain_endpoints entry :
  endpoint_fields c entry "STRICT_DNS" name = Ok [("load_assignment", service_assignment name host port)].
Proof.
  destruct (pc_target _ _ _ _ _ _ _ _ _ Hp) as (ep & Ht & Hip & Hport). unfold endpoint_fields. rewrite bool_decide_false by done.
  unfold get_endpoints. rewrite Ht. cbn [default from_option map_res id]. unfold target_endpoint, dget_exn. by rewrite Hip, Hport.
Qed.

Lemma plain_no_timeout key option self :
  key ∈ ["cluster_idle_timeout_ms"; "cluster_max_connection_lifetime_ms"] → common_timeout ctx c key option self = Ok self.
Proof.
  destruct (pc_module _ _ _ _ _ _ _ _ _ Hp) as [_ _ _ Hi Hl _ _]. intros Hk. unfold common_timeout, or_module.
  rewrite !elem_of_cons in Hk. destruct Hk as [->|[->|[]%not_elem_of_nil]];
    rewrite (plain_getattr _ PNone) by done; cbn [mbind res_bind py_bool]; by rewrite ?Hi, ?Hl.
Qed.

Lemma plain_tls : tls_fields ctx c = Ok (match tls with Some _ => [("transport_socket", null_transport)] | None => [] end).
Proof.
  pose proof (pc_tls _ _ _ _ _ _ _ _ _ Hp) as Ht. unfold tls_fields, cluster_tls, pget, dget_default. rewrite plain_get by done.
  destruct tls as [n|]; [|done]. destruct Ht as (t & Ht & He). change (dget "tls_context" _) with (Some (PStr n)).
  cbn -[dget]. unfold dget_exn. rewrite Ht. cbn [mbind res_bind res_of_option].
  unfold dget_default in He. cbn [mbind res_bind]. by rewrite He.
Qed.

Lemma plain_keepalive : keepalive_fields ctx c = Ok [].
Proof.
  destruct (pc_module _ _ _ _ _ _ _ _ _ Hp) as [_ _ _ _ _ Hk _]. unfold keepalive_fields. rewrite Hk.
  unfold pget at 1. unfold dget_default. rewrite plain_get by done. change (dget "keepalive" _) with (Some PNone).
  cbn [from_option py_bool]. by rewrite andb_false_r.
Qed.

Lemma plain_cluster_written :
  ∃ v, V3Cluster_init ctx c = Ok v
    ∧ dget "name" v = Some (PStr name) ∧ dget "type" v = Some (PStr "STRICT_DNS")
    ∧ dget "load_assignment" v = Some (service_assignment name host port)
    ∧ dget "transport_socket" v = match tls with Some _ => Some null_transport | None => None end.
Proof.
  destruct plain_family as [f Hf], plain_entry as (entry & He & Hty), (pc_name _ _ _ _ _ _ _ _ _ Hp) as [Hne Hlen].
  destruct (pc_plain _ _ _ _ _ _ _ _ _ Hp) as [Hig Hh].
  destruct (protocol_options_plain ctx c) as (self & Hself & Hkeys);
    [rewrite plain_get by done; by destruct tls|apply (pc_module _ _ _ _ _ _ _ _ _ Hp)|].
  assert (Hn : getattr (cl_attrs c) "envoy_name" = Ok (PStr name))
    by (unfold getattr; rewrite (pc_attrs _ _ _ _ _ _ _ _ _ Hp); by rewrite dget_dset_eq).
  assert (Hok : negb (str_bool name) || bool_decide (60 < slen name) = false).
  { apply orb_false_iff. split; [by destruct name|]. apply bool_decide_eq_false. lia. }
  unfold V3Cluster_init. rewrite Hf. cbn [mbind res_bind]. rewrite Hn. cbn [mbind res_bind as_str]. rewrite Hok, He.
  cbn [mbind res_bind]. rewrite Hty. cbn [mbind res_bind]. rewrite (plain_getattr "lb_type" (PStr "round_robin") eq_refl) by done.
  cbn [mbind res_bind py_upper]. rewrite (plain_getattr "connect_timeout_ms" (PInt 3000) eq_refl) by done.
  cbn [mbind res_bind]. change (timeout_text ctx (PInt 3000)) with (Ok "3.000s"). cbn [mbind res_bind].
  rewrite (plain_getattr "respect_dns_ttl" (PBool false) eq_refl) by done. cbn [mbind res_bind].
  unfold cluster_health. rewrite Hig, Hh. cbn [mbind res_bind]. rewrite plain_endpoints. cbn [mbind res_bind].
  rewrite plain_no_timeout by set_solver. cbn [mbind res_bind]. rewrite plain_no_timeout by set_solver. cbn [mbind res_bind].
  assert (Hb : get_circuit_breakers c = Ok None).
  { unfold get_circuit_breakers, pget, dget_default. by rewrite plain_get. }
  rewrite Hb. cbn [mbind res_bind]. rewrite Hself. cbn [mbind res_bind]. rewrite plain_tls. cbn [mbind res_bind].
  rewrite plain_keepalive. cbn [mbind res_bind]. eexists. split; [reflexivity|].
  set (fields := _ ++ _ ++ _). assert (Hfok : dict_ok fields).
  { apply (fields_ok _ _ _ _ _ _ _ _ _ [_] _ [] None); [cbn; repeat constructor|by destruct tls; [|apply sublist_nil_l]|apply sublist_nil_l]. }
  rewrite !dget_dupdate by done. split; [reflexivity|]. split; [reflexivity|].
  assert (Hnone : dget "transport_socket" self = None).
  { apply dget_None. intros Hin. pose proof (elem_of_submseteq _ _ _ Hin (sublist_submseteq _ _ Hkeys)) as Hx%list_elem_of_singleton. done. }
  unfold fields. clear Hfok fields. destruct (py_bool _); (split; [reflexivity|]); destruct tls; cbn -[null_transport]; done.
Qed.
End plain.


Definition demo_v3_ctx : v3cluster_ctx :=
  mkVC (mkClusterCtx [("load_balancer", PNone); ("enable_ipv4", PBool true); ("enable_ipv6", PBool false); ("proper_case", PBool false)]
          [] (cc_resolvers demo_cluster_ctx) (cc_resolve demo_cluster_ctx) true)
    [("no-cert-upstream", [("_ambassador_enabled", PBool true)])] (λ _, Raise TypeError).


(** Two clusters, one of them in the cache *)
Definition demo_v3_cluster (name : string) : IRCluster :=
  mkCluster name name "quote.yaml" "quote" "default" 80 PNone false true false ["tcp://quote:80"]
    (Some (Some [[("ip", PStr "quote"); ("port", PInt 80)]]))
    (dset "envoy_name" (PStr name) (plain_attrs "quote" (PBool true) (PBool false) None)) None [].

Definition demo_v3_cache : Cache ref unit :=
  match c_add Cache_init (RCluster 0 "Cluster-cluster_b") with Ok c => c | Raise _ => Cache_init end.

Definition demo_v3_state : clusters_state (Cache ref unit) :=
  mkCS (mkIRState [] [] [demo_v3_cluster "cluster_b"; demo_v3_cluster "cluster_a"] []
          [("cluster_b", 0); ("cluster_a", 1)] demo_v3_cache [] []) [] [] [] [].

Lemma demo_v3_named : clusters_named (cs_ir demo_v3_state).
Proof.
  split; [by apply (bool_decide_eq_true_1 _)|]. intros n i H%dget_elem_of. cbn [demo_v3_state cs_ir st_clusters] in H.
  rewrite !elem_of_cons in H. destruct H as [[= -> ->]|[[= -> ->]|[]%not_elem_of_nil]]; eexists; done.
Qed.

Lemma demo_v3_current : clusters_current demo_v3_ctx demo_v3_state.
Proof.
  assert (Ha : c_add Cache_init (RCluster 0 "Cluster-cluster_b") = Ok demo_v3_cache) by reflexivity.
  assert (Hi : c_inv (R := ref) demo_v3_cache) by (eapply c_inv_add; [apply cache_wf_init|exact Ha]).
  split; [exact Hi|]. intros n ci c r _ _ Hr. pose proof (c_getitem_key _ _ _ Hi Hr) as Hk.
  by destruct (c_add_fetch _ _ _ _ _ Ha Hr) as [->|Hr'].
Qed.

Lemma clusters_written_once_witness :
  ∃ s', generate_clusters demo_v3_ctx demo_v3_state = Ok s'
    ∧ dkeys (cs_map s') = ["cluster_a"; "cluster_b"]
    ∧ is_Some (c_getitem (R := ref) (st_cache (cs_ir s')) "V3-Cluster-cluster_b").1
    ∧ clusters_current demo_v3_ctx s'.
Proof.
  destruct (map_res (cluster_written demo_v3_ctx (st_cluster_objs (cs_ir demo_v3_state))) [0; 1]) as [ws|] eqn:E; [|by vm_compute in E].
  destruct (clusters_written_once demo_v3_ctx demo_v3_state ws) as (s' & ws' & H1 & H2 & _);
    [exact demo_v3_current|exact demo_v3_named|exact E| |].
  - vm_compute in E. injection E as <-. by apply (bool_decide_eq_true_1 _).
  - exists s'. split; [exact H1|]. split; [|split; [|exact H2]]; vm_compute in H1; injection H1 as <-; [reflexivity|eexists; reflexivity].
Defined.
