(* ===== verification/V3Filters.v ===== *)
(** * HTTP filters for Envoy ([envoy/v3/v3httpfilter.py],
      [envoy/v3/v3ratelimit.py], [envoy/v3/v3tracing.py])

    Every filter of the IR is written as an entry of [http_filters], by the
    class of the filter or else by its kind. *)

From S2P Require Import Prelude PyStr PyVal Utils Resource Cache IpAddr ServiceName PyText BaseMapping HTTPMapping Cluster Group.
From S2P Require Import Listener LogService V3Route V3TLS V3HTTPConfig V3Cluster Filters.

(** What the filters are written with: the Ambassador module, the clusters and TLS
    contexts of the IR, whether tracing is on, the keys that errors were posted
    under, the rate limit service as written and the text of a timeout that is
    itself a text. *)
Record v3filter_ctx : Type := mkVF {
  vf_module : dict pyval;
  vf_clusters : list IRCluster;
  vf_tls : dict tls_ctx;
  vf_tracing : bool;
  vf_errors : list string;
  vf_ratelimit : option (dict pyval);
  vf_float_text : string → res string
}.

Definition type_url (name : string) : string := "type.googleapis.com/envoy.extensions." +:+ name.

Definition filter_timeout (ctx : v3filter_ctx) (v : pyval) : res string :=
  match v with PStr s => vf_float_text ctx s | _ => ms_text v end.

(** ** Buffer and compression *)

Definition V3HTTPFilter_buffer (self : dict pyval) : res (dict pyval) :=
  bytes ← getattr self "max_request_bytes";
  Ok [("name", PStr "envoy.filters.http.buffer");
      ("typed_config", PDict [("@type", PStr (type_url "filters.http.buffer.v3.Buffer")); ("max_request_bytes", bytes)])].

Definition V3HTTPFilter_gzip (self : dict pyval) : res (dict pyval) :=
  length ← getattr self "content_length"; type ← getattr self "content_type";
  memory ← getattr self "memory_level"; level ← getattr self "compression_level";
  strategy ← getattr self "compression_strategy"; bits ← getattr self "window_bits";
  etag ← getattr self "disable_on_etag_header"; accept ← getattr self "remove_accept_encoding_header";
  Ok [("name", PStr "envoy.filters.http.gzip");
      ("typed_config", PDict
        [("@type", PStr (type_url "filters.http.compressor.v3.Compressor"));
         ("compressor_library", PDict
            [("name", PStr "envoy.compression.gzip.compressor");
             ("typed_config", PDict
                [("@type", PStr (type_url "compression.gzip.compressor.v3.Gzip")); ("memory_level", memory);
                 ("compression_level", level); ("compression_strategy", strategy); ("window_bits", bits)])]);
         ("response_direction_config", PDict
            [("disable_on_etag_header", etag); ("remove_accept_encoding_header", accept);
             ("common_config", PDict [("min_content_length", length); ("content_type", type)])])])].

(** ** Authentication *)

Definition AllowedRequestHeaders : list string :=
  ["authorization"; "cookie"; "from"; "proxy-authorization"; "user-agent"; "x-forwarded-for"; "x-forwarded-host"; "x-forwarded-proto"].
Definition AllowedAuthorizationHeaders : list string :=
  ["location"; "authorization"; "proxy-authenticate"; "set-cookie"; "www-authenticate"].

(** The patterns of a set of headers and the standard ones, sorted by
    [header_pattern_key], which for distinct headers is the order of the headers *)
Definition header_patterns (headers : pyval) (standard : list string) : res pyval :=
  l ← py_iter headers; l ← map_res as_str l;
  Ok (PList ((λ h, PDict [("exact", PStr h); ("ignore_case", PBool true)]) <$> py_sorted str_le id (remove_dups (l ++ standard)))).

(** The TLS context of a cluster counts when it is true. *)
Definition auth_cluster_uri (ctx : v3filter_ctx) (auth : dict pyval) (c : IRCluster) : res string :=
  let tls := match pget "tls_context" (cl_attrs c) with
             | PStr n => match dget n (vf_tls ctx) with Some t => tx_bool t | None => false end
             | _ => false
             end in
  let prefix := py_or (pget "path_prefix" auth) (PStr EmptyString) in
  match prefix with
  | PStr p => Ok ((if tls then "https" else "http") +:+ "://" +:+ (if startswith p "/" then drop_str 1 p else p))
  | _ => Raise (AttributeError "startswith")
  end.

(** What is sent of the body *)
Definition body_info (auth : dict pyval) : res (option (dict pyval)) :=
  let raw := pget "include_body" auth in
  let raw := if negb (py_bool raw) && py_bool (dget_default "allow_request_body" (PBool false) auth)
             then PDict [("max_bytes", PInt 4096); ("allow_partial", PBool true)] else raw in
  if py_bool raw then
    d ← as_dict raw;
    Ok (Some ((if dmem "max_bytes" d then [("max_request_bytes", pget "max_bytes" d)] else [])
              ++ (if dmem "allow_partial" d then [("allow_partial_message", pget "allow_partial" d)] else [])))
  else Ok None.

Definition quoted (s : string) : string := dquote +:+ s +:+ dquote.

(** The script that answers every request, other than those of the probes, with
    an error *)
Definition refusal_script (rkey : string) : string :=
  let path := "/ambassador/v0/check_" in
  join (str1 (chr 10))
    [EmptyString;
     "function envoy_on_request(request_handle)";
     "   local path = request_handle:headers():get(':path')";
     "   if path == '" +:+ path +:+ "alive' or path == '" +:+ path +:+ "ready'";
     "   then";
     "      -- TODO(lukeshu): Consider setting bypass_auth on the synthetic Mappings, rather than";
     "      -- special-casing this here.  I can't really justify this special case, other than: " +:+ dquote +:+ "I'm in a";
     "      -- rush and this makes KAT happy." +:+ dquote;
     "      return";
     "   end";
     "   request_handle:respond(";
     "      {[" +:+ quoted ":status" +:+ "] = " +:+ quoted "500" +:+ ",";
     "       [" +:+ quoted "content-type" +:+ "] = " +:+ quoted "application/json" +:+ "},";
     "      '{\n'..";
     "      '  " +:+ quoted "message" +:+ ": " +:+ dquote +:+ "the " +:+ rkey +:+
       " AuthService is misconfigured; see the logs for more information" +:+ dquote +:+ ",\n'..";
     "      '  " +:+ quoted "request_id" +:+ ": " +:+ dquote +:+ "'..request_handle:headers():get('x-request-id')..'" +:+ dquote +:+ ",\n'..";
     "      '  " +:+ quoted "status_code" +:+ ": 500\n'..";
     "      '}\n')";
     "end";
     EmptyString].

Definition refusal (rkey : string) : dict pyval :=
  [("name", PStr "envoy.filters.http.lua");
   ("typed_config", PDict [("@type", PStr (type_url "filters.http.lua.v3.Lua")); ("inline_code", PStr (refusal_script rkey))])].

(** The headers that are added to a check *)
Definition headers_to_add (ctx : v3filter_ctx) (auth : dict pyval) (c : IRCluster) : res (list pyval) :=
  added ← as_dict (dget_default "add_auth_headers" (PDict []) auth);
  let added := (λ kv : string * pyval, PDict [("key", PStr kv.1); ("value", kv.2)]) <$> added in
  if py_bool (dget_default "add_linkerd_headers" (PBool false) auth) then
    uri ← auth_cluster_uri ctx auth c;
    svc ← ParsedService_init uri true None;
    Ok (added ++ [PDict [("key", PStr "l5d-dst-override"); ("value", PStr (ps_hostname_port svc))]])
  else Ok added.

Definition auth_http (ctx : v3filter_ctx) (auth : dict pyval) (c : IRCluster) : res (dict pyval) :=
  response ← getattr auth "allowed_authorization_headers"; response ← header_patterns response AllowedAuthorizationHeaders;
  request ← getattr auth "allowed_request_headers"; request ← header_patterns request AllowedRequestHeaders;
  added ← headers_to_add ctx auth c;
  uri ← auth_cluster_uri ctx auth c;
  name ← getattr (cl_attrs c) "envoy_name";
  timeout ← getattr auth "timeout_ms"; timeout ← filter_timeout ctx timeout;
  prefix ← getattr auth "path_prefix";
  Ok [("@type", PStr (type_url "filters.http.ext_authz.v3.ExtAuthz"));
      ("http_service", PDict
         [("server_uri", PDict [("uri", PStr uri); ("cluster", name); ("timeout", PStr timeout)]);
          ("path_prefix", prefix);
          ("authorization_request", PDict [("allowed_headers", PDict [("patterns", request)]); ("headers_to_add", PList added)]);
          ("authorization_response", PDict
             [("allowed_upstream_headers", PDict [("patterns", response)]);
              ("allowed_client_headers", PDict [("patterns", response)])])])].

Definition auth_grpc (ctx : v3filter_ctx) (auth : dict pyval) (c : IRCluster) : res (dict pyval) :=
  name ← getattr (cl_attrs c) "envoy_name";
  timeout ← getattr auth "timeout_ms"; timeout ← filter_timeout ctx timeout;
  version ← getattr auth "protocol_version"; version ← py_upper version;
  Ok [("@type", PStr (type_url "filters.http.ext_authz.v3.ExtAuthz"));
      ("grpc_service", PDict [("envoy_grpc", PDict [("cluster_name", name)]); ("timeout", PStr timeout)]);
      ("transport_api_version", PStr version)].

Definition auth_options (auth : dict pyval) (body : option (dict pyval)) (config : dict pyval) : dict pyval :=
  let d := dset "clear_route_cache" (PBool true) config in
  let d := match body with Some (kv :: b) => dset "with_request_body" (PDict (kv :: b)) d | _ => d end in
  let d := if dmem "failure_mode_allow" auth then dset "failure_mode_allow" (pget "failure_mode_allow" auth) d else d in
  if dmem "status_on_error" auth then dset "status_on_error" (pget "status_on_error" auth) d else d.

Definition V3HTTPFilter_authv1 (ctx : v3filter_ctx) (a : IRAuth) : res (dict pyval) :=
  let auth := au_self a in
  i ← res_of_option (AssertionError EmptyString) (au_cluster a);
  c ← deref (vf_clusters ctx) i;
  proto ← getattr auth "proto";
  if negb (cluster_bool c) || negb (py_bool proto) then Raise (AssertionError EmptyString)
  else
    body ← body_info auth;
    rkey ← rkey_of auth;
    if bool_decide (rkey ∈ vf_errors ctx) then Ok (refusal rkey)
    else
      config ← (if in_strs proto ["http"] then auth_http ctx auth c
                else if in_strs proto ["grpc"] then auth_grpc ctx auth c
                else Raise (KeyError "name"));
      Ok [("name", PStr "envoy.filters.http.ext_authz"); ("typed_config", PDict (auth_options auth body config))].

(** ** Rate limiting *)

(** [V3RateLimit] *)
Definition V3RateLimit_init (cs : list IRCluster) (rl : IRRateLimit) : res (dict pyval) :=
  if negb (res_bool (rl_self rl)) then Raise (AssertionError EmptyString)
  else
    i ← res_of_option (AttributeError "cluster") (rl_cluster rl);
    c ← deref cs i;
    name ← getattr (cl_attrs c) "envoy_name";
    if negb (py_bool name) then Raise (AssertionError EmptyString)
    else
      version ← getattr (rl_self rl) "protocol_version"; version ← py_upper version;
      Ok [("transport_api_version", PStr version);
          ("grpc_service", PDict [("envoy_grpc", PDict [("cluster_name", name)])])].

(** [V3RateLimit.generate] *)
Definition generate_ratelimit (cs : list IRCluster) (rl : IRRateLimit) : res (option (dict pyval)) :=
  if res_bool (rl_self rl) then r ← V3RateLimit_init cs rl; Ok (Some r) else Ok None.

Definition V3HTTPFilter_ratelimit (ctx : v3filter_ctx) (rl : IRRateLimit) : res (dict pyval) :=
  config ← getattr (rl_self rl) "config"; config ← as_dict config;
  config ← (if dmem "timeout_ms" config then
              t ← filter_timeout ctx (pget "timeout_ms" config);
              Ok (dset "timeout" (PStr t) (ddel "timeout_ms" config))
            else Ok config);
  match vf_ratelimit ctx with
  | Some (kv :: r) =>
      Ok [("name", PStr "envoy.filters.http.ratelimit");
          ("typed_config", PDict
             (dset "@type" (PStr (type_url "filters.http.ratelimit.v3.RateLimit"))
                (dset "rate_limit_service" (PDict (kv :: r)) config)))]
  | _ => Raise (AssertionError EmptyString)
  end.

(** ** Addresses that are allowed or denied *)

Definition V3HTTPFilter_ipallowdeny (f : IRIPAllowDeny) : res (dict pyval) :=
  let all := (λ p : string * CIDRRange, PDict [(p.1, PDict (CIDRRange_as_dict p.2))]) <$> iad_principals f in
  principals ← match all with
               | [] => Raise (AssertionError EmptyString)
               | [p] => Ok p
               | _ => Ok (PDict [("or_ids", PDict [("ids", PList all)])])
               end;
  Ok [("name", PStr "envoy.filters.http.rbac");
      ("typed_config", PDict
         [("@type", PStr (type_url "filters.http.rbac.v3.RBAC"));
          ("rules", PDict
             [("action", PStr (upper (iad_action f)));
              ("policies", PDict
                 [("ambassador-ip-" +:+ lower (iad_action f),
                   PDict [("permissions", PList [PDict [("any", PBool true)]]); ("principals", PList [principals])])])])])].

(** ** Filters without a class *)

Definition V3HTTPFilter_router (ctx : v3filter_ctx) : res (dict pyval) :=
  suppress ← parse_bool (dget_default "suppress_envoy_headers" (PStr "false") (vf_module ctx));
  let options := (if vf_tracing ctx then [("start_child_span", PBool true)] else [])
                 ++ (if (suppress : bool) then [("suppress_envoy_headers", PBool true)] else []) in
  Ok (("name", PStr "envoy.filters.http.router")
      :: match options with
         | [] => []
         | _ => [("typed_config", PDict (("@type", PStr (type_url "filters.http.router.v3.Router")) :: options))]
         end).

Definition V3HTTPFilter_grpc_stats (self : dict pyval) : res (dict pyval) :=
  config ← getattr self "config"; config ← as_dict config;
  Ok [("name", PStr "envoy.filters.http.grpc_stats");
      ("typed_config", PDict (dupdate [("@type", PStr (type_url "filters.http.grpc_stats.v3.FilterConfig"))] config))].

Definition V3HTTPFilter_lua (self : dict pyval) : res (dict pyval) :=
  config ← getattr self "config";
  if py_bool config then
    config ← as_dict config;
    Ok [("name", PStr "envoy.filters.http.lua");
        ("typed_config", PDict (dset "@type" (PStr (type_url "filters.http.lua.v3.Lua")) config))]
  else Ok [("name", PStr "envoy.filters.http.lua")].

Definition V3HTTPFilter_plain (ctx : v3filter_ctx) (self : dict pyval) : res (dict pyval) :=
  kind ← getattr self "kind"; _ ← hashable kind;
  if in_strs kind ["ir.grpc_http1_bridge"] then Ok [("name", PStr "envoy.filters.http.grpc_http1_bridge")]
  else if in_strs kind ["ir.grpc_web"] then Ok [("name", PStr "envoy.filters.http.grpc_web")]
  else if in_strs kind ["ir.grpc_stats"] then V3HTTPFilter_grpc_stats self
  else if in_strs kind ["ir.cors"] then Ok [("name", PStr "envoy.filters.http.cors")]
  else if in_strs kind ["ir.router"] then V3HTTPFilter_router ctx
  else if in_strs kind ["ir.lua_scripts"] then V3HTTPFilter_lua self
  else Raise (KeyError (py_text kind)).

Definition V3HTTPFilter (ctx : v3filter_ctx) (f : ir_filter) : res (dict pyval) :=
  match f with
  | FPlain self => V3HTTPFilter_plain ctx self
  | FBuffer self => V3HTTPFilter_buffer self
  | FGzip self => V3HTTPFilter_gzip self
  | FAuth a => V3HTTPFilter_authv1 ctx a
  | FRateLimit rl => V3HTTPFilter_ratelimit ctx rl
  | FIPAllowDeny f => V3HTTPFilter_ipallowdeny f
  end.

(** The filters of a connection manager: those that are written as nothing are
    left out. *)
Definition http_filters (ctx : v3filter_ctx) (fs : list ir_filter) : res (list (dict pyval)) :=
  l ← map_res (V3HTTPFilter ctx) fs;
  Ok (List.filter (λ d, match d with [] => false | _ => true end) l).

(** ** Tracing *)

(** [V3Tracing] *)
Definition tracing_config (name : string) (dc : dict pyval) : res (dict pyval) :=
  let named d := if py_bool (pget "service_name" d) then d else dset "service_name" (PStr "ambassador") d in
  let typed t d := dset "@type" (PStr ("type.googleapis.com/envoy.config.trace.v3." +:+ t)) d in
  if bool_decide (name = "envoy.zipkin") then
    let d := typed "ZipkinConfig" dc in
    version ← dget_exn "collector_endpoint_version" d;
    Ok (if py_eqb version (PStr "HTTP_JSON_V1") then ddel "collector_endpoint_version" d else d)
  else if bool_decide (name = "envoy.tracers.datadog") then Ok (named (typed "DatadogConfig" dc))
  else if bool_decide (name = "envoy.opentelemetry") then Ok (named (typed "OpenTelemetryConfig" dc))
  else Raise (PyException ("Unsupported tracing driver " +:+ quoted name)).

Definition V3Tracing_init (tr : IRTracing) : res (dict pyval) :=
  if negb (res_bool (tr_self tr)) then Raise (AssertionError EmptyString)
  else
    driver ← dget_exn "driver" (tr_self tr);
    match driver with
    | PStr driver =>
        let name := if startswith driver "envoy." then driver else "envoy." +:+ lower driver in
        dc ← dget_exn "driver_config" (tr_self tr); dc ← as_dict dc;
        config ← tracing_config (lower name) dc;
        Ok [("http", PDict [("name", PStr name); ("typed_config", PDict config)])]
    | _ => Raise (AttributeError "startswith")
    end.

(** [V3Tracing.generate] *)
Definition generate_tracing (tr : IRTracing) : res (option (dict pyval)) :=
  if res_bool (tr_self tr) then t ← V3Tracing_init tr; Ok (Some t) else Ok None.
