(* ===== verification/V3Listener.v ===== *)
(** * Envoy listeners ([envoy/v3/v3listener.py])

    A Listener of the IR becomes an Envoy listener: a chain for each server name
    or Host it takes, the routes of the groups each Host takes, in the variants
    that the Host's policy and the Listener's security model call for, and the
    filter chains that are written from them. *)

From S2P Require Import Prelude PyStr PyVal Utils HostGlob Resource Cache ServiceName PyText BaseMapping HTTPMapping.
From S2P Require Import Cluster Group IR Listener Secret TLSContext Host LogService V3Route V3TLS V3HTTPConfig.

(** ** Objects *)

(** What a chain serves: the Host of a name, or the TCP group at a location. *)
Inductive chain_host : Type :=
  | CHost (name : string)
  | CGroup (gi : nat).

(** A chain.  [ch_context] is the location of a TLS context that is true;
    [ch_names] is a set.  The hostname of a TCP group, which is never looked up,
    is kept as text. *)
Record V3Chain : Type := mkChain {
  ch_context : option nat;
  ch_hosts : dict chain_host;
  ch_names : list pyval;
  ch_routes : dict (list V3Route)
}.

(** What listeners are generated from: [lc_order] is the order in which Python
    iterates a set of server names. *)
Record listener_ctx : Type := mkLCtx {
  lc_http : http_ctx;
  lc_env : dict string;
  lc_bind_address : string;
  lc_tls : tls_state;
  lc_order : list pyval → list pyval
}.

Definition lc_v3 (ctx : listener_ctx) : v3_ctx := hc_v3 (lc_http ctx).
Definition lc_module (ctx : listener_ctx) : dict pyval := hc_module (lc_http ctx).

(** What generating listeners changes: groups and Hosts are marked when an
    error is posted, and the variants of the routes are kept. *)
Record v3_config (C : Type) : Type := mkConfig3 {
  cf_v3 : v3_state C;
  cf_variants : list (nat * dict (dict pyval));
  cf_hosts : dict host_obj;
  cf_listeners : dict (dict pyval)
}.
Arguments mkConfig3 {C}.
Arguments cf_v3 {C}.
Arguments cf_variants {C}.
Arguments cf_hosts {C}.
Arguments cf_listeners {C}.

(** An Envoy listener. *)
Record V3Listener : Type := mkV3Listener {
  vl_irlistener : dict pyval;
  vl_name : pyval;
  vl_filters : list pyval;
  vl_direction : string;
  vl_http : option (dict pyval);
  vl_tls_ok : bool;
  vl_chains : dict V3Chain;
  vl_filter_chains : list pyval
}.

Section listener.
Context {C : Type} `{ops : !CacheOps C ref}.
Implicit Types cf : v3_config C.

Definition cf_ir cf : ir_state C := vs_ir (cf_v3 cf).

Definition cf_post cf (es : list string) : v3_config C :=
  let v := cf_v3 cf in
  mkConfig3 (mkV3 (vs_ir v) (vs_objs v) (vs_elements v) (vs_errors v ++ es)) (cf_variants cf) (cf_hosts cf)
    (cf_listeners cf).

(** [irgroup.post_error], [host.post_error], [irlistener.post_error] *)
Definition group_post (gi : nat) (msg : string) cf : v3_config C :=
  let v := cf_v3 cf in
  cf_post (mkConfig3 (vs_with v (st_with_groups (vs_ir v) (alter go_post gi (st_group_objs (vs_ir v)))))
             (cf_variants cf) (cf_hosts cf) (cf_listeners cf)) [msg].
Definition host_post (name : string) (msg : string) cf : v3_config C :=
  let mark h := mkHost (dset "_errored" (PBool true) (ho_self h)) (ho_context h) in
  cf_post (mkConfig3 (cf_v3 cf) (cf_variants cf)
             (match dget name (cf_hosts cf) with Some h => dset name (mark h) (cf_hosts cf) | None => cf_hosts cf end)
             (cf_listeners cf)) [msg].
Definition listener_post (key : string) (msg : string) cf : v3_config C :=
  cf_post (mkConfig3 (cf_v3 cf) (cf_variants cf) (cf_hosts cf)
             (match dget key (cf_listeners cf) with
              | Some l => dset key (dset "_errored" (PBool true) l) (cf_listeners cf)
              | None => cf_listeners cf
              end)) [msg].

Definition the_host cf (name : string) : res host_obj := dget_exn name (cf_hosts cf).
Definition the_group cf (gi : nat) : res group_obj := deref (st_group_objs (cf_ir cf)) gi.

(** [other.name] *)
Definition chain_host_name cf (h : chain_host) : res pyval :=
  match h with
  | CHost n => h ← the_host cf n; getattr (ho_self h) "name"
  | CGroup gi => g ← the_group cf gi; getattr (go_self g) "name"
  end.

(** A TLS context, when it is true *)
Definition true_context (ctx : listener_ctx) (c : option nat) : option nat :=
  match c with
  | Some i => match tl_objs (lc_tls ctx) !! i with Some o => if res_bool o then Some i else None | None => None end
  | None => None
  end.
Definition the_context (ctx : listener_ctx) (i : nat) : res (dict pyval) := deref (tl_objs (lc_tls ctx)) i.

(** ** Chains *)

(** [names.add(name)] *)
Definition add_name (name : pyval) (names : list pyval) : list pyval :=
  if existsb (py_eqb name) names then names else names ++ [name].

(** [add_tcphost], of the group [g] at [gi] *)
Definition add_tcphost (gi : nat) (g : group_obj) (c : V3Chain) cf : res (V3Chain * v3_config C) :=
  match ch_hosts c with
  | (_, other) :: _ =>
      let other_type := match other with CGroup _ => "TCPMapping" | CHost _ => "Host" end in
      name ← getattr (go_self g) "name";
      other_name ← chain_host_name cf other;
      Ok (c, group_post gi ("TCPMapping " +:+ py_text name +:+ ": discarding because it conflicts with " +:+
                            other_type +:+ " " +:+ py_text other_name) cf)
  | [] =>
      let hostname := dget_default "host" (PStr "*") (go_self g) in
      _ ← hashable hostname;
      let names := match ch_context c with Some _ => add_name hostname (ch_names c) | None => ch_names c end in
      Ok (mkChain (ch_context c) (dset (py_text hostname) (CGroup gi) (ch_hosts c)) names (ch_routes c), cf)
  end.

(** The first TCP group of a chain *)
Definition tcp_owner (c : V3Chain) : option nat :=
  head (omap (λ h, match h with CGroup gi => Some gi | CHost _ => None end) (dvalues (ch_hosts c))).

(** [add_httphost]; the Host is named [hn]. *)
Definition add_httphost (ctx : listener_ctx) (hn : string) (c : V3Chain) cf : res (V3Chain * v3_config C) :=
  h ← the_host cf hn;
  let self := ho_self h in
  let prefix := match ch_context c with Some _ => "TLS Host" | None => "Cleartext Host" end in
  let discard why := name ← getattr self "name";
    Ok (c, host_post hn (prefix +:+ " " +:+ py_text name +:+ ": discarding because " +:+ why) cf) in
  match tcp_owner c with
  | Some gi =>
      g ← the_group cf gi;
      other ← getattr (go_self g) "name";
      discard ("it conflicts with TCPMapping " +:+ py_text other)
  | None =>
      hostname ← getattr self "hostname"; hostname ← as_str hostname;
      let added names := mkChain (ch_context c) (dset hostname (CHost hn) (ch_hosts c)) names
                           (dset hostname [] (ch_routes c)) in
      match ch_context c with
      | None => Ok (added (ch_names c), cf)
      | Some i =>
          match true_context ctx (ho_context h) with
          | None => discard "host is missing TLSContext"
          | Some j =>
              mine ← the_context ctx i;
              theirs ← the_context ctx j;
              n1 ← getattr mine "name"; n2 ← getattr theirs "name";
              ns1 ← getattr mine "namespace"; ns2 ← getattr theirs "namespace";
              sni ← getattr self "sni";
              if negb (py_eqb n1 n2) || negb (py_eqb ns1 ns2) then
                discard ("mismatching TLSContext between Hosts matching on dns hostname=" +:+ py_text sni)
              else
                _ ← hashable sni;
                Ok (added (add_name sni (ch_names c)), cf)
          end
      end
  end.

(** The Host takes the group of a route. *)
Definition takes_route (ctx : listener_ctx) cf (self : dict pyval) (r : V3Route) : res bool :=
  id ← as_str (rt_group r);
  gi ← dget_exn id (st_groups (cf_ir cf));
  g ← the_group cf gi;
  redirect ← match go_redirect g with
             | Some j => m ← deref (st_mappings (cf_ir cf)) j; Ok (Some (mo_self m))
             | None => Ok None
             end;
  matches_httpgroup (lc_env ctx) self (go_self g) redirect.

(** [matching_hosts]: the names of the Hosts *)
Fixpoint matching_hosts (ctx : listener_ctx) cf (hs : list chain_host) (r : V3Route) : res (list string) :=
  match hs with
  | [] => Ok []
  | CGroup _ :: hs => matching_hosts ctx cf hs r
  | CHost n :: hs =>
      h ← the_host cf n;
      b ← takes_route ctx cf (ho_self h) r;
      l ← matching_hosts ctx cf hs r;
      Ok (if (b : bool) then n :: l else l)
  end.

(** [add_route] *)
Definition add_route (virtual_host : string) (r : V3Route) (c : V3Chain) : V3Chain :=
  mkChain (ch_context c) (ch_hosts c) (ch_names c)
    (dset virtual_host (dget_default virtual_host [] (ch_routes c) ++ [r]) (ch_routes c)).

(** [sorted(config.ir.get_hosts(), key=lambda h: h.hostname)]: the names *)
Definition sorted_hosts cf : res (list string) :=
  l ← map_res (λ nh : string * host_obj,
                 hn ← getattr (ho_self nh.2) "hostname"; hn ← as_str hn; Ok (nh.1, hn)) (cf_hosts cf);
  Ok (List.map fst (py_sorted str_le snd l)).

(** [tlscontext_for_tcpmapping]: the first Host that fits, then the contexts *)
Fixpoint host_context_for (ctx : listener_ctx) cf (group_host : pyval) (names : list string) : res (option nat) :=
  match names with
  | [] => Ok None
  | n :: names =>
      h ← the_host cf n;
      match true_context ctx (ho_context h) with
      | None => host_context_for ctx cf group_host names
      | Some i =>
          hn ← getattr (ho_self h) "hostname"; hn ← as_str hn;
          gh ← as_str group_host;
          b ← hostglob_matches hn gh;
          if (b : bool) then Ok (Some i) else host_context_for ctx cf group_host names
      end
  end.

Fixpoint context_for (ctx : listener_ctx) (group_host : pyval) (locs : list nat) : res (option nat) :=
  match locs with
  | [] => Ok None
  | i :: locs =>
      c ← the_context ctx i;
      hs ← py_iter (py_or (pget "hosts" c) (PList []));
      if existsb (λ h, py_eqb h group_host) hs then Ok (Some i) else context_for ctx group_host locs
  end.

Definition tlscontext_for_tcpmapping (ctx : listener_ctx) cf (g : group_obj) : res (option nat) :=
  let group_host := pget "host" (go_self g) in
  if py_bool group_host then
    names ← sorted_hosts cf;
    c ← host_context_for ctx cf group_host names;
    match c with
    | Some i => Ok (Some i)
    | None => context_for ctx group_host (dvalues (tl_names (lc_tls ctx)))
    end
  else Ok None.

(** ** Construction *)

(** One protocol of the stack *)
Definition add_protocol (ctx : listener_ctx) (x : V3Listener * v3_config C) (proto : pyval)
    : res (V3Listener * v3_config C) :=
  let '(l, cf) := x in
  let irl := vl_irlistener l in
  if py_eqb proto (PStr "HTTP") then
    '(http, es) ← base_http_config (lc_http ctx) (st_cluster_objs (cf_ir cf)) irl;
    let direction := match true_tracing (lc_http ctx) with Some _ => "OUTBOUND" | None => vl_direction l end in
    Ok (mkV3Listener irl (vl_name l) (vl_filters l) direction (Some http) (vl_tls_ok l) (vl_chains l)
          (vl_filter_chains l), cf_post cf es)
  else if py_eqb proto (PStr "PROXY") then
    Ok (mkV3Listener irl (vl_name l) (vl_filters l ++ [PDict [("name", PStr "envoy.filters.listener.proxy_protocol")]])
          (vl_direction l) (vl_http l) (vl_tls_ok l) (vl_chains l) (vl_filter_chains l), cf)
  else if py_eqb proto (PStr "TLS") then
    tcp ← is_protocol "TCP" irl;
    Ok (mkV3Listener irl (vl_name l)
          (if (tcp : bool) then vl_filters l ++ [PDict [("name", PStr "envoy.filters.listener.tls_inspector")]]
           else vl_filters l)
          (vl_direction l) (vl_http l) true (vl_chains l) (vl_filter_chains l), cf)
  else Ok x.

(** [__init__] *)
Definition V3Listener_init (ctx : listener_ctx) (irlistener : dict pyval) cf : res (V3Listener * v3_config C) :=
  addr ← getattr irlistener "bind_address";
  bindstr ← (if py_eqb addr (PStr "0.0.0.0") then Ok EmptyString
             else sp ← getattr irlistener "socket_protocol"; sp ← py_lower sp;
                  Ok ("-" +:+ sp +:+ "-" +:+ py_text addr));
  name ← getattr irlistener "name";
  name ← (if py_bool name then Ok name
          else port ← getattr irlistener "port"; Ok (PStr ("ambassador-listener" +:+ bindstr +:+ "-" +:+ py_text port)));
  stack ← getattr irlistener "protocolStack"; stack ← py_iter stack;
  fold_res (add_protocol ctx) stack (mkV3Listener irlistener name [] "UNSPECIFIED" None false [] [], cf).

Definition vl_with (l : V3Listener) (chains : dict V3Chain) (fcs : list pyval) : V3Listener :=
  mkV3Listener (vl_irlistener l) (vl_name l) (vl_filters l) (vl_direction l) (vl_http l) (vl_tls_ok l) chains fcs.

(** ** Computing the chains *)

Inductive chain_type : Type := ChainTCP | ChainHTTP | ChainHTTPS.

Definition chain_key (ty : chain_type) (context : option nat) (hostname sni : string) : string :=
  let hostname := if str_bool hostname then hostname else "*" in
  (match context with Some _ => "tls-" +:+ sni | None => "cleartext" end) +:+
  (match ty with ChainHTTP => "-" +:+ hostname | _ => EmptyString end).

(** [add_chain(...)], with what is done to the chain *)
Definition add_chain (ty : chain_type) (context : option nat) (hostname sni : string)
    (f : V3Chain → v3_config C → res (V3Chain * v3_config C)) (x : dict V3Chain * v3_config C)
    : res (dict V3Chain * v3_config C) :=
  let '(chains, cf) := x in
  match ty, context with
  | ChainHTTP, Some _ | ChainHTTPS, None => Raise (AssertionError EmptyString)
  | _, _ =>
      let key := chain_key ty context hostname sni in
      let c := default (mkChain context [] [] []) (dget key chains) in
      '(c, cf) ← f c cf;
      Ok (dset key c chains, cf)
  end.

(** [compute_tcpchains] *)
Definition tcp_chain (ctx : listener_ctx) (irl : dict pyval) (x : dict V3Chain * v3_config C) (g : group_obj)
    : res (dict V3Chain * v3_config C) :=
  match go_class g with
  | HTTPGroup => Ok x
  | TCPGroup =>
      theirs ← group_bind_to (lc_bind_address ctx) g;
      mine ← listener_bind_to irl;
      if bool_decide (theirs = mine) then
        gi ← group_location (cf_ir x.2) g;
        let group_host := pget "host" (go_self g) in
        if py_bool group_host then
          context ← tlscontext_for_tcpmapping ctx x.2 g;
          match true_context ctx context with
          | None => Ok (x.1, group_post gi "No matching TLSContext found, disabling!" x.2)
          | Some i => add_chain ChainTCP (Some i) (py_text group_host) (py_text group_host) (add_tcphost gi g) x
          end
        else add_chain ChainTCP None "*" "*" (add_tcphost gi g) x
      else Ok x
  end.

Definition compute_tcpchains (ctx : listener_ctx) (irl : dict pyval) (x : dict V3Chain * v3_config C)
    : res (dict V3Chain * v3_config C) :=
  gs ← ordered_groups (cf_ir x.2);
  fold_res (tcp_chain ctx irl) gs x.

(** [compute_httpchains]; [tls_ok] is that of the listener. *)
Definition http_chain (ctx : listener_ctx) (irl : dict pyval) (tls_ok : bool) (x : dict V3Chain * v3_config C) (hn : string)
    : res (dict V3Chain * v3_config C) :=
  h ← the_host x.2 hn;
  let self := ho_self h in
  m ← matches_host (lc_env ctx) irl self;
  if negb m then Ok x
  else
    only ← getattr irl "insecure_only";
    port ← getattr irl "port";
    addl ← getattr self "insecure_addl_port";
    if py_bool only && negb (py_eqb port addl) then Ok x
    else
      model ← getattr irl "securityModel";
      secure ← getattr self "secure_action";
      insecure ← getattr self "insecure_action";
      hostname ← getattr self "hostname"; hostname ← as_str hostname;
      sni ← getattr self "sni";
      let rejects := negb (py_bool secure) || py_eqb secure (PStr "Reject") in
      x ← match true_context ctx (ho_context h) with
          | Some i =>
              if tls_ok && negb (py_eqb model (PStr "SECURE") && rejects) then
                add_chain ChainHTTPS (Some i) hostname (py_text sni) (add_httphost ctx hn) x
              else Ok x
          | None => Ok x
          end;
      if py_eqb model (PStr "INSECURE") && py_eqb insecure (PStr "Reject") then Ok x
      else add_chain ChainHTTP None hostname (py_text sni) (add_httphost ctx hn) x.

Definition compute_httpchains (ctx : listener_ctx) (irl : dict pyval) (tls_ok : bool) (x : dict V3Chain * v3_config C)
    : res (dict V3Chain * v3_config C) :=
  names ← sorted_hosts x.2;
  fold_res (http_chain ctx irl tls_ok) names x.

(** ** Computing the routes *)

Definition acme_prefix : string := "/.well-known/acme-challenge/".

(** [candidates]: the matchers with their actions *)
Definition candidates (model : pyval) (self : dict pyval) : res (list (string * pyval)) :=
  secure ← getattr self "secure_action";
  insecure ← getattr self "insecure_action";
  let model_is m := py_eqb model (PStr m) in
  Ok ((match secure with
       | PNone => []
       | _ => if model_is "INSECURE" then [] else [(if model_is "SECURE" then "always" else "xfp-https", PStr "Route")]
       end) ++
      (match insecure with
       | PNone => []
       | _ => if model_is "SECURE" then [] else [(if model_is "INSECURE" then "always" else "xfp-http", insecure)]
       end)).

(** One candidate: the variant of the route goes to the virtual host. *)
Definition add_candidate (ctx : listener_ctx) (r : V3Route) (hostname : string)
    (x : V3Chain * dict (dict pyval)) (ma : string * pyval) : res (V3Chain * dict (dict pyval)) :=
  let '(c, variants) := x in
  mt ← dget_exn "match" (rt_self r);
  prefix ← vget "prefix" PNone mt;
  let action := if py_eqb prefix (PStr acme_prefix) then PStr "Route" else ma.2 in
  if py_eqb action (PStr "Reject") then Ok x
  else
    a ← py_lower action;
    '(v, variants) ← get_variant (lc_v3 ctx) (rt_self r) ma.1 a variants;
    Ok (add_route hostname (mkRoute v [PStr hostname] (rt_group r)) c, variants).

Definition host_routes (ctx : listener_ctx) (irl : dict pyval) cf (r : V3Route) (x : V3Chain * dict (dict pyval))
    (hn : string) : res (V3Chain * dict (dict pyval)) :=
  h ← the_host cf hn;
  hostname ← getattr (ho_self h) "hostname"; hostname ← as_str hostname;
  model ← getattr irl "securityModel";
  cands ← candidates model (ho_self h);
  fold_res (add_candidate ctx r hostname) cands x.

(** A route of the configuration for a chain, with its variants *)
Definition chain_variant (ctx : listener_ctx) (irl : dict pyval) cf (x : V3Chain * list (nat * dict (dict pyval)))
    (rv : nat * dict (dict pyval)) : res (V3Chain * list (nat * dict (dict pyval))) :=
  r ← deref (vs_objs (cf_v3 cf)) rv.1;
  hs ← matching_hosts ctx cf (dvalues (ch_hosts x.1)) r;
  '(c, variants) ← fold_res (host_routes ctx irl cf r) hs (x.1, rv.2);
  Ok (c, x.2 ++ [(rv.1, variants)]).

Definition is_http (c : V3Chain) : bool :=
  existsb (λ h, match h with CHost _ => true | CGroup _ => false end) (dvalues (ch_hosts c)).

Definition chain_routes (ctx : listener_ctx) (irl : dict pyval) (x : dict V3Chain * v3_config C) (kc : string * V3Chain)
    : res (dict V3Chain * v3_config C) :=
  let '(chains, cf) := x in
  if is_http kc.2 then
    '(c, variants) ← fold_res (chain_variant ctx irl cf) (cf_variants cf) (kc.2, []);
    Ok (chains ++ [(kc.1, c)], mkConfig3 (cf_v3 cf) variants (cf_hosts cf) (cf_listeners cf))
  else Ok (chains ++ [kc], cf).

Definition compute_http_routes (ctx : listener_ctx) (irl : dict pyval) (x : dict V3Chain * v3_config C)
    : res (dict V3Chain * v3_config C) :=
  fold_res (chain_routes ctx irl) x.1 ([], x.2).

(** ** Writing the filter chains *)

Definition tls_type : string * pyval :=
  ("@type", PStr "type.googleapis.com/envoy.extensions.transport_sockets.tls.v3.DownstreamTlsContext").

(** [{"@type": ..., **envoy_ctx}] as a transport socket *)
Definition tls_socket (envoy_ctx : dict pyval) : pyval :=
  PDict [("name", PStr "envoy.transport_sockets.tls"); ("typed_config", PDict (dupdate [tls_type] envoy_ctx))].
Definition quic_socket (envoy_ctx : dict pyval) : pyval :=
  PDict [("name", PStr "envoy.transport_sockets.quic");
         ("typed_config", PDict
           [("@type", PStr "type.googleapis.com/envoy.extensions.transport_sockets.quic.v3.QuicDownstreamTransport");
            ("downstream_tls_context", PDict envoy_ctx)])].

(** The server names of a match: none when a name is [*] *)
Definition match_names (ctx : listener_ctx) (c : V3Chain) (d : dict pyval) : dict pyval :=
  let names := lc_order ctx (ch_names c) in
  match names with
  | [] => d
  | _ => if existsb (py_eqb (PStr "*")) names then d else dset "server_names" (PList names) d
  end.

Definition weighted_cluster cf (mi : nat) : res pyval :=
  o ← deref (st_mappings (cf_ir cf)) mi;
  name ← envoy_name_of (st_cluster_objs (cf_ir cf)) o;
  weight ← getattr (mo_self o) "_weight";
  Ok (PDict [("name", name); ("weight", weight)]).

(** The filter chain of a TCP group *)
Definition tcp_filter_chain (ctx : listener_ctx) (irl : dict pyval) cf (c : V3Chain) (gi : nat) : res pyval :=
  g ← the_group cf gi;
  clusters ← map_res (weighted_cluster cf) (go_mappings g);
  prefix ← getattr irl "statsPrefix";
  name ← getattr (go_self g) "name";
  let tcp_filter :=
    PDict [("name", PStr "envoy.filters.network.tcp_proxy");
           ("typed_config", PDict
             [("@type", PStr "type.googleapis.com/envoy.extensions.filters.network.tcp_proxy.v3.TcpProxy");
              ("stat_prefix", prefix);
              ("weighted_clusters", PDict [("clusters", PList clusters)])])] in
  let d := [("name", PStr ("tcphost-" +:+ py_text name)); ("filters", PList [tcp_filter])] in
  '(mt, d) ← match ch_context c with
             | Some i =>
                 o ← the_context ctx i;
                 envoy_ctx ← V3TLSContext_init o;
                 Ok ([("transport_protocol", PStr "tls")], d ++ [("transport_socket", tls_socket (vt_self envoy_ctx))])
             | None => Ok ([], d)
             end;
  Ok (PDict (d ++ [("filter_chain_match", PDict (match_names ctx c mt))])).

Definition finalize_tcp_chain (ctx : listener_ctx) (irl : dict pyval) cf (c : V3Chain) : res (list pyval) :=
  map_res (tcp_filter_chain ctx irl cf c)
    (omap (λ h, match h with CGroup gi => Some gi | CHost _ => None end) (dvalues (ch_hosts c))).

Definition finalize_tcp (ctx : listener_ctx) (irl : dict pyval) cf (chains : dict V3Chain) : res (list pyval) :=
  l ← map_res (finalize_tcp_chain ctx irl cf) (dvalues chains); Ok (List.concat l).

(** A filter chain under construction, with its virtual hosts *)
Record http_filter_chain : Type := mkHFC {
  hf_self : dict pyval;
  hf_vhosts : dict (dict pyval)
}.

(** The route without internal keys; [k[0]] of an empty key raises. *)
Fixpoint external_keys (d : dict pyval) : res (dict pyval) :=
  match d with
  | [] => Ok []
  | (k, v) :: d =>
      c ← head_str k;
      d ← external_keys d;
      Ok (if bool_decide (c = "_"%char) then d else (k, v) :: d)
  end.

Definition alt_svc : pyval :=
  PDict [("header", PDict
    [("key", PStr "alt-svc");
     ("value", PStr ("h3=" +:+ dquote +:+ ":443" +:+ dquote +:+ "; ma=86400, h3-29=" +:+ dquote +:+ ":443" +:+ dquote +:+
                     "; ma=86400"))])].

Definition new_vhost (l : V3Listener) (hostname : string) : res (dict pyval) :=
  h3 ← http3_enabled (vl_irlistener l);
  tcp ← is_protocol "TCP" (vl_irlistener l);
  Ok ([("name", PStr (py_text (vl_name l) +:+ "-" +:+ hostname))] ++
      (if (h3 : bool) && (tcp : bool) then [("response_headers_to_add", PList [alt_svc])] else []) ++
      [("domains", PList [PStr hostname]); ("routes", PList [])]).

(** The virtual host of a Host *)
Definition add_vhost (l : V3Listener) cf (c : V3Chain) (fc : http_filter_chain) (h : chain_host)
    : res http_filter_chain :=
  match h with
  | CGroup _ => Ok fc
  | CHost n =>
      h ← the_host cf n;
      hostname ← getattr (ho_self h) "hostname"; hostname ← as_str hostname;
      rs ← dget_exn hostname (ch_routes c);
      routes ← map_res (λ r, d ← external_keys (rt_self r); Ok (PDict d)) rs;
      vhost ← match dget hostname (hf_vhosts fc) with
              | Some ((_ :: _) as v) => Ok v
              | _ => new_vhost l hostname
              end;
      old ← dget_exn "routes" vhost; old ← as_list old;
      Ok (mkHFC (hf_self fc) (dset hostname (dset "routes" (PList (old ++ routes)) vhost) (hf_vhosts fc)))
  end.

(** The filter chain a chain starts from: cleartext chains share one. *)
Definition tls_filter_chain (ctx : listener_ctx) (l : V3Listener) cf (c : V3Chain) (i : nat) : res http_filter_chain :=
  let irl := vl_irlistener l in
  first ← res_of_option (PyException "StopIteration") (head (dvalues (ch_hosts c)));
  name ← chain_host_name cf first;
  udp ← is_protocol "UDP" irl;
  h3 ← http3_enabled irl;
  let mt := dset "transport_protocol" (PStr (if (udp : bool) && (h3 : bool) then "quic" else "tls"))
              (match_names ctx c []) in
  o ← the_context ctx i;
  envoy_ctx ← V3TLSContext_init o;
  let socket := if udp then quic_socket (vt_self envoy_ctx) else tls_socket (vt_self envoy_ctx) in
  Ok (mkHFC [("name", PStr ("httpshost-" +:+ py_text name)); ("transport_socket", socket); ("filter_chain_match", PDict mt)]
        []).

Definition shared_chain : http_filter_chain :=
  mkHFC [("name", PStr "httphost-shared"); ("filter_chain_match", PDict [])] [].

Definition add_filter_chain (ctx : listener_ctx) (l : V3Listener) cf (fcs : dict http_filter_chain)
    (kc : string * V3Chain) : res (dict http_filter_chain) :=
  let '(key, c) := kc in
  let irl := vl_irlistener l in
  if is_http c then
    udp ← is_protocol "UDP" irl;
    h3 ← http3_enabled irl;
    start ← match ch_context c with
            | None =>
                Ok (if (udp : bool) && (h3 : bool) then None else Some ("http", default shared_chain (dget "http" fcs)))
            | Some i => fc ← tls_filter_chain ctx l cf c i; Ok (Some (key, fc))
            end;
    match start with
    | None => Ok fcs
    | Some (key, fc) => fc ← fold_res (add_vhost l cf c) (dvalues (ch_hosts c)) fc; Ok (dset key fc fcs)
    end
  else Ok fcs.

(** The HTTP connection manager of a filter chain *)
Definition module_flag (ctx : listener_ctx) (key : string) : res bool :=
  parse_bool (dget_default key (PStr "false") (lc_module ctx)).

Definition finish_filter_chain (ctx : listener_ctx) (base : dict pyval) (fc : http_filter_chain) : res pyval :=
  let d := dset "route_config" (PDict [("virtual_hosts", PList (List.map PDict (dvalues (hf_vhosts fc))))]) base in
  strip ← module_flag ctx "strip_matching_host_port";
  let d := if (strip : bool) then dset "strip_matching_host_port" (PBool true) d else d in
  merge ← module_flag ctx "merge_slashes";
  let d := if (merge : bool) then dset "merge_slashes" (PBool true) d else d in
  reject ← module_flag ctx "reject_requests_with_escaped_slashes";
  let d := if (reject : bool) then dset "path_with_escaped_slashes_action" (PStr "REJECT_REQUEST") d else d in
  let manager :=
    PDict [("name", PStr "envoy.filters.network.http_connection_manager");
           ("typed_config", PDict (dupdate
             [("@type", PStr ("type.googleapis.com/envoy.extensions.filters.network.http_connection_manager.v3." +:+
                              "HttpConnectionManager"))] d))] in
  Ok (PDict (hf_self fc ++ [("filters", PList [manager])])).

Definition finalize_http (ctx : listener_ctx) (l : V3Listener) cf (base : dict pyval) : res (list pyval) :=
  fcs ← fold_res (add_filter_chain ctx l cf) (vl_chains l) [];
  map_res (finish_filter_chain ctx base) (dvalues fcs).

(** [finalize] *)
Definition V3Listener_finalize (ctx : listener_ctx) (l : V3Listener) cf : res (V3Listener * v3_config C) :=
  let irl := vl_irlistener l in
  '(chains, cf) ← compute_tcpchains ctx irl (vl_chains l, cf);
  tcp ← finalize_tcp ctx irl cf chains;
  let l := vl_with l chains (vl_filter_chains l ++ tcp) in
  match vl_http l with
  | None => Ok (l, cf)
  | Some base =>
      x ← compute_httpchains ctx irl (vl_tls_ok l) (chains, cf);
      '(chains, cf) ← compute_http_routes ctx irl x;
      let l := vl_with l chains (vl_filter_chains l) in
      http ← finalize_http ctx l cf base;
      Ok (vl_with l chains (vl_filter_chains l ++ http), cf)
  end.

(** [as_dict] *)
Definition V3Listener_as_dict (ctx : listener_ctx) (l : V3Listener) : res (dict pyval) :=
  let irl := vl_irlistener l in
  addr ← getattr irl "bind_address";
  port ← getattr irl "port";
  sp ← getattr irl "socket_protocol";
  udp ← is_protocol "UDP" irl;
  let limit := pget "buffer_limit_bytes" (lc_module ctx) in
  Ok ([("name", vl_name l);
       ("address", PDict [("socket_address", PDict [("address", addr); ("port_value", port); ("protocol", sp)])]);
       ("filter_chains", PList (vl_filter_chains l));
       ("traffic_direction", PStr (vl_direction l))] ++
      (if (udp : bool) then
         [("udp_listener_config", PDict [("quic_options", PDict []);
                                         ("downstream_socket_config", PDict [("prefer_gro", PBool true)])])]
       else []) ++
      (if py_bool limit then [("per_connection_buffer_limit_bytes", limit)] else []) ++
      (match vl_filters l with [] => [] | fs => [("listener_filters", PList fs)] end)).

(** ** [generate] *)

(** [V3Listener(config, irlistener)], finalized *)
Definition new_listener (ctx : listener_ctx) (irl : dict pyval) cf : res (V3Listener * v3_config C) :=
  '(l, cf) ← V3Listener_init ctx irl cf; V3Listener_finalize ctx l cf.

(** The text of the listener is logged in any case, which needs an integer port. *)
Definition generate_listener (ctx : listener_ctx) (x : list V3Listener * v3_config C) (key : string)
    : res (list V3Listener * v3_config C) :=
  let '(ls, cf) := x in
  irl ← dget_exn key (cf_listeners cf);
  '(l, cf) ← new_listener ctx irl cf;
  port ← getattr irl "port"; _ ← percent_d port;
  match vl_filter_chains l with
  | _ :: _ => Ok (ls ++ [l], cf)
  | [] => Ok (ls, listener_post key "No matching Hosts/TCPMappings found, disabling!" cf)
  end.

Definition generate_listeners (ctx : listener_ctx) cf : res (list V3Listener * v3_config C) :=
  fold_res (generate_listener ctx) (dkeys (cf_listeners cf)) ([], cf).
End listener.

(** ** What posting errors leaves alone *)

(** A Host that is only marked *)
Definition host_same (h h' : host_obj) : Prop :=
  ho_context h = ho_context h' ∧ ∀ k, k ≠ "_errored" → dget k (ho_self h) = dget k (ho_self h').

Definition hosts_same (hs hs' : dict host_obj) : Prop :=
  ∀ n, match dget n hs, dget n hs' with Some h, Some h' => host_same h h' | None, None => True | _, _ => False end.

Lemma hosts_same_refl hs : hosts_same hs hs.
Proof. intros n. by destruct (dget n hs). Qed.

Lemma hosts_same_before hs hs' n h' :
  hosts_same hs hs' → dget n hs' = Some h' → ∃ h, dget n hs = Some h ∧ host_same h h'.
Proof. intros Hs H. specialize (Hs n). rewrite H in Hs. destruct (dget n hs); [eauto|done]. Qed.

Lemma hosts_same_after hs hs' n h :
  hosts_same hs hs' → dget n hs = Some h → ∃ h', dget n hs' = Some h' ∧ host_same h h'.
Proof. intros Hs H. specialize (Hs n). rewrite H in Hs. destruct (dget n hs'); [eauto|done]. Qed.

Lemma getattr_Ok d k v : getattr d k = Ok v → dget k d = Some v.
Proof. unfold getattr. by destruct (dget k d); intros [= ->]. Qed.
Lemma as_str_Ok v s : as_str v = Ok s → v = PStr s.
Proof. destruct v; by intros [= ->]. Qed.
Lemma dget_exn_Ok {A} k (d : dict A) v : dget_exn k d = Ok v → dget k d = Some v.
Proof. unfold dget_exn. intros H. by apply res_of_option_Ok in H. Qed.

(** [str_attr H as s Hs] opens [x ← getattr d k; s ← as_str x; ...]. *)
Tactic Notation "str_attr" hyp(H) "as" ident(s) ident(Hs) :=
  let x := fresh in let Hx := fresh in
  bind_step H as x Hx; apply getattr_Ok in Hx; bind_step H as s Hs; apply as_str_Ok in Hs; subst x; rename Hx into Hs.

Section chains.
Context {C : Type} `{ops : !CacheOps C ref}.
Implicit Types cf : v3_config C.

(** A configuration in which errors have been posted *)
Definition marked cf cf' : Prop :=
  hosts_same (cf_hosts cf) (cf_hosts cf') ∧ vs_objs (cf_v3 cf') = vs_objs (cf_v3 cf) ∧ cf_variants cf' = cf_variants cf.

Lemma marked_refl cf : marked cf cf.
Proof. split; [apply hosts_same_refl|done]. Qed.

Lemma host_post_marked n msg cf cf0 : marked cf0 cf → marked cf0 (host_post n msg cf).
Proof.
  intros [Hs ?]. split; [|done]. intros m. cbn. destruct (dget n (cf_hosts cf)) as [h|] eqn:E; [|apply Hs]. rewrite dget_dset. case_decide as Hm.
  - subst m. destruct (hosts_same_before _ _ _ _ Hs E) as (h0 & -> & Hc & Hk). split; [done|].
    intros k Hne. cbn [ho_self]. rewrite dget_dset_ne by done. by apply Hk.
  - apply Hs.
Qed.

(** A Host that is discarded *)
Ltac discard_host H :=
  let name := fresh in let Hn := fresh in
  bind_step H as name Hn; injection H as <- <-; split; [|by apply host_post_marked].

(** ** Chains are well-formed *)

(** Two TLS contexts with the same name and namespace *)
Definition context_alike (ctx : listener_ctx) (i j : nat) : Prop :=
  ∃ a b n1 n2 s1 s2, tl_objs (lc_tls ctx) !! i = Some a ∧ tl_objs (lc_tls ctx) !! j = Some b
    ∧ dget "name" a = Some n1 ∧ dget "name" b = Some n2 ∧ py_eqb n1 n2 = true
    ∧ dget "namespace" a = Some s1 ∧ dget "namespace" b = Some s2 ∧ py_eqb s1 s2 = true.

(** A Host of a chain: it is kept under its hostname, and a chain that
    terminates TLS does so with a context like that of the Host. *)
Definition chain_serves (ctx : listener_ctx) (hs : dict host_obj) (key : string) (c : V3Chain) (k n : string) : Prop :=
  ∃ h, dget n hs = Some h ∧ dget "hostname" (ho_self h) = Some (PStr k) ∧ is_Some (dget k (ch_routes c))
    ∧ match ch_context c with
      | None => key = chain_key ChainHTTP None k EmptyString
      | Some i => ∃ j, true_context ctx (ho_context h) = Some j ∧ context_alike ctx i j
      end.

Record chain_wf (ctx : listener_ctx) (hs : dict host_obj) (key : string) (c : V3Chain) : Prop := {
  cw_hosts : dict_ok (ch_hosts c);
  cw_exclusive : (∀ h, h ∈ dvalues (ch_hosts c) → ∃ n, h = CHost n) 
    ∨ (∃ k gi, ch_hosts c = [(k, CGroup gi)] ∧ (ch_context c = None → key = "cleartext"));
  cw_serves : ∀ k n, dget k (ch_hosts c) = Some (CHost n) → chain_serves ctx hs key c k n;
  cw_names : match ch_context c with
             | None => (∃ s, key = "cleartext" +:+ s) ∧ ch_names c = []
             | Some _ => (∃ s, key = "tls-" +:+ s) ∧ ∀ x, x ∈ ch_names c → key = "tls-" +:+ py_text x
             end
}.

(** A chain that has no routes yet *)
Definition chain_new (ctx : listener_ctx) cf0 (key : string) (c : V3Chain) : Prop :=
  chain_wf ctx (cf_hosts cf0) key c ∧ ∀ k rs, dget k (ch_routes c) = Some rs → rs = [].

Definition chains_new (ctx : listener_ctx) cf0 (x : dict V3Chain * v3_config C) : Prop :=
  marked cf0 x.2 ∧ dict_ok x.1 ∧ ∀ key c, dget key x.1 = Some c → chain_new ctx cf0 key c.

Lemma add_name_elem x y l : y ∈ add_name x l → y = x ∨ y ∈ l.
Proof. unfold add_name. destruct (existsb _ _); [by right|]. rewrite elem_of_app, list_elem_of_singleton. tauto. Qed.

Lemma chain_new_empty ctx cf0 ty o hostname sni :
  chain_new ctx cf0 (chain_key ty o hostname sni) (mkChain o [] [] []).
Proof.
  split; [|done]. split; cbn [ch_hosts ch_context ch_names]; [constructor|left; intros ? Hh; by apply elem_of_nil in Hh|done|].
  destruct o; (split; [by eexists|]); [|done]. intros x Hx. by apply elem_of_nil in Hx.
Qed.

Lemma tcp_owner_None c : tcp_owner c = None → ∀ h, h ∈ dvalues (ch_hosts c) → ∃ n, h = CHost n.
Proof.
  unfold tcp_owner. intros H [n|gi] Hh; [by exists n|]. exfalso.
  assert (gi ∈ omap (λ h, match h with CGroup gi => Some gi | CHost _ => None end) (dvalues (ch_hosts c))) as Hin.
  { apply list_elem_of_omap. by exists (CGroup gi). }
  destruct (omap _ _); [by apply elem_of_nil in Hin|done].
Qed.

Lemma add_tcphost_new ctx cf0 key gi g c cf c' cf' :
  chain_new ctx cf0 key c → marked cf0 cf →
  (ch_context c = None → key = "cleartext") →
  (is_Some (ch_context c) → key = "tls-" +:+ py_text (dget_default "host" (PStr "*") (go_self g))) →
  add_tcphost gi g c cf = Ok (c', cf') → chain_new ctx cf0 key c' ∧ marked cf0 cf'.
Proof.
  intros Hwf Hs Hclear Hkey H. unfold add_tcphost in H. destruct (ch_hosts c) as [|[k0 other] l] eqn:E.
  - bind_step H as u Hu. injection H as <- <-. split; [|done]. destruct Hwf as [Hwf Hnew]. split; [|done]. split; cbn [ch_context ch_hosts ch_names ch_routes dset].
    + apply NoDup_singleton.
    + right. by exists (py_text (dget_default "host" (PStr "*") (go_self g))), gi.
    + intros k n. cbn. by case_decide.
    + pose proof (cw_names _ _ _ _ Hwf) as Hn. destruct (ch_context c) as [i|] eqn:Ec; [|done]. destruct Hn as [Hk Hn].
      split; [done|]. intros x Hx. apply add_name_elem in Hx as [->|Hx]; [by apply Hkey|by apply Hn].
  - bind_step H as name Hname. bind_step H as on Hon. injection H as <- <-. done.
Qed.

Lemma add_httphost_new ctx cf0 key hn c cf c' cf' :
  chain_new ctx cf0 key c → marked cf0 cf →
  (∀ h k, dget hn (cf_hosts cf) = Some h → dget "hostname" (ho_self h) = Some (PStr k) → ch_context c = None →
     key = chain_key ChainHTTP None k EmptyString) →
  (∀ h s, dget hn (cf_hosts cf) = Some h → dget "sni" (ho_self h) = Some s → is_Some (ch_context c) → key = "tls-" +:+ py_text s) →
  add_httphost ctx hn c cf = Ok (c', cf') → chain_new ctx cf0 key c' ∧ marked cf0 cf'.
Proof.
  intros Hwf Hs Hk Hsni H. unfold add_httphost in H. bind_step H as h Hh. apply dget_exn_Ok in Hh.
  destruct (tcp_owner c) as [gi|] eqn:Eo.
  { bind_step H as g Hg. bind_step H as on Hon. by discard_host H. }
  str_attr H as hostname Hhn. destruct (hosts_same_before _ _ _ _ (proj1 Hs) Hh) as (h0 & Hh0 & Hc0 & Hsame).
  assert (∀ names, match ch_context c with
    | None => key = chain_key ChainHTTP None hostname EmptyString ∧ names = []
    | Some i => (∃ j, true_context ctx (ho_context h0) = Some j ∧ context_alike ctx i j)
                ∧ ∀ x, x ∈ names → key = "tls-" +:+ py_text x end →
    chain_new ctx cf0 key (mkChain (ch_context c) (dset hostname (CHost hn) (ch_hosts c)) names (dset hostname [] (ch_routes c))))
    as Hadded.
  { intros names Hn. destruct Hwf as [[W1 W2 W3 W4] Hnew]. split.
    2: { intros k rs. cbn [ch_routes]. rewrite dget_dset. case_bool; [by intros [= <-]|apply Hnew]. }
    split; cbn [ch_context ch_hosts ch_names ch_routes].
    - by apply dict_ok_dset.
    - left. intros x Hx. apply list_elem_of_fmap in Hx as ([k' x'] & -> & Hx). apply elem_of_dset in Hx as [[= -> ->]|Hx]; [eauto|].
      eapply tcp_owner_None; [done|]. apply list_elem_of_fmap. by exists (k', x').
    - intros k n. rewrite dget_dset. unfold chain_serves. cbn [ch_routes ch_context]. case_decide as Ek.
      + intros [= <-]. subst k. exists h0. rewrite dget_dset_eq, Hsame by done. split; [done|]. split; [done|]. split; [done|].
        destruct (ch_context c); [|by destruct Hn]. by destruct Hn.
      + intros Hd. destruct (W3 _ _ Hd) as (h1 & A1 & A2 & A3 & A4). exists h1. by rewrite dget_dset_ne.
    - destruct (ch_context c); (split; [by destruct W4|by destruct Hn]). }
  destruct (ch_context c) as [i|] eqn:Ec.
  - destruct (true_context ctx (ho_context h)) as [j|] eqn:Ej; [|by discard_host H].
    bind_step H as mine Hmine. bind_step H as theirs Htheirs. bind_step H as n1 Hn1. bind_step H as n2 Hn2.
    bind_step H as s1 Hs1. bind_step H as s2 Hs2. bind_step H as sni Hsn.
    apply getattr_Ok in Hn1, Hn2, Hs1, Hs2, Hsn. apply res_of_option_Ok in Hmine, Htheirs.
    destruct (py_eqb n1 n2) eqn:En; [|by discard_host H].
    destruct (py_eqb s1 s2) eqn:Es; [|by discard_host H]. cbn [negb orb] in H.
    bind_step H as u Hu. injection H as <- <-. split; [|done]. apply Hadded. rewrite Hc0. split.
    + exists j. split; [done|]. by exists mine, theirs, n1, n2, s1, s2.
    + pose proof (cw_names _ _ _ _ (proj1 Hwf)) as Hn. rewrite Ec in Hn. destruct Hn as [_ Hn].
      intros x Hx. apply add_name_elem in Hx as [->|Hx]; [by apply (Hsni h)|by apply Hn].
  - injection H as <- <-. split; [|done]. apply Hadded. split; [by apply (Hk h)|].
    pose proof (cw_names _ _ _ _ (proj1 Hwf)) as Hn. rewrite Ec in Hn. by destruct Hn.
Qed.

Lemma tls_key ty i hostname sni s : chain_key ty (Some i) hostname sni ≠ "cleartext" +:+ s.
Proof. unfold chain_key. destruct ty; cbn; discriminate. Qed.
Lemma cleartext_key ty hostname sni s : chain_key ty None hostname sni ≠ "tls-" +:+ s.
Proof. unfold chain_key. destruct ty; cbn; discriminate. Qed.

Lemma add_chain_new ctx cf0 ty o hostname sni f x x' :
  chains_new ctx cf0 x →
  (∀ c cf c' cf', chain_new ctx cf0 (chain_key ty o hostname sni) c → marked cf0 cf →
     (ch_context c = None ↔ o = None) → cf = x.2 → f c cf = Ok (c', cf') →
     chain_new ctx cf0 (chain_key ty o hostname sni) c' ∧ marked cf0 cf') →
  add_chain ty o hostname sni f x = Ok x' → chains_new ctx cf0 x'.
Proof.
  destruct x as [chains cf]. intros (Hs & Hd & Hw) Hf H. unfold add_chain in H.
  assert (('(c, cf) ← f (default (mkChain o [] [] []) (dget (chain_key ty o hostname sni) chains)) cf;
           Ok (dset (chain_key ty o hostname sni) c chains, cf)) = Ok x') as H'.
  { by destruct ty, o. }
  clear H. bind_step H' as [c' cf'] Hc. injection H' as <-.
  assert (chain_new ctx cf0 (chain_key ty o hostname sni) c' ∧ marked cf0 cf') as [Hw' Hs'].
  { eapply Hf; [| | |done|exact Hc]; [|done|]; destruct (dget _ chains) as [c|] eqn:E; cbn [default]; unfold id.
    - by apply Hw.
    - apply chain_new_empty.
    - pose proof (cw_names _ _ _ _ (proj1 (Hw _ _ E))) as Hn. destruct (ch_context c), o; destruct Hn as [[s Hn] _]; [by split| | |done];
        by (apply tls_key in Hn || apply cleartext_key in Hn).
    - done. }
  split; [done|]. split; [by apply dict_ok_dset|]. intros key c. cbn [fst]. rewrite dget_dset. case_decide as Ek.
  - intros [= <-]. by subst.
  - apply Hw.
Qed.

Lemma tcp_chain_new ctx cf0 irl x x' g : chains_new ctx cf0 x → tcp_chain ctx irl x g = Ok x' → chains_new ctx cf0 x'.
Proof.
  intros Hw H. unfold tcp_chain in H. destruct (go_class g); [by injection H as <-|].
  bind_step H as theirs Ht. bind_step H as mine Hm. case_bool; [|by injection H as <-]. bind_step H as gi Hgi.
  destruct (py_bool _) eqn:Eb.
  - bind_step H as o Ho. destruct (true_context ctx o) as [i|].
    + eapply add_chain_new; [done| |exact H]. intros c cf c' cf' Hwf Hs [Ho' _] -> Hc.
      eapply add_tcphost_new; [done|done|by intros Hn; specialize (Ho' Hn)| |exact Hc]. intros _. unfold chain_key; cbv beta iota zeta. rewrite app_empty_r. unfold pget, dget_default in *.
      destruct (dget "host" (go_self g)); [done|discriminate Eb].
    + injection H as <-. by destruct Hw.
  - eapply add_chain_new; [done| |exact H]. intros c cf c' cf' Hwf Hs [_ Ho] -> Hc.
    eapply add_tcphost_new; [done..| |exact Hc]. rewrite Ho by done. by intros [].
Qed.

Lemma https_chain_new ctx cf0 x x' (b : bool) hn h hostname sni :
  chains_new ctx cf0 x → dget hn (cf_hosts x.2) = Some h → dget "sni" (ho_self h) = Some sni →
  match true_context ctx (ho_context h) with
  | Some i => if b then add_chain ChainHTTPS (Some i) hostname (py_text sni) (add_httphost ctx hn) x else Ok x
  | None => Ok x
  end = Ok x' → chains_new ctx cf0 x'.
Proof.
  intros Hw Hh Hsni H. destruct (true_context ctx (ho_context h)); [|by injection H as <-].
  destruct b; [|by injection H as <-]. eapply add_chain_new; [done| |exact H].
  intros c cf c' cf' Hwf Hs [Ho _] -> Hc. eapply add_httphost_new; [done..| | |exact Hc].
  - intros h' k _ _ Hn. by specialize (Ho Hn).
  - intros h' s. rewrite Hh. intros [= <-]. rewrite Hsni. intros [= <-] _. unfold chain_key; cbv beta iota zeta. by rewrite app_empty_r.
Qed.

Lemma http_chain_new ctx cf0 irl ok x x' hn : chains_new ctx cf0 x → http_chain ctx irl ok x hn = Ok x' → chains_new ctx cf0 x'.
Proof.
  intros Hw H. unfold http_chain in H. bind_step H as h Hh. apply dget_exn_Ok in Hh. bind_step H as m Hm.
  destruct (negb m); [by injection H as <-|]. bind_step H as only Honly. bind_step H as port Hport.
  bind_step H as addl Haddl. destruct (_ && _); [by injection H as <-|].
  bind_step H as model Hmodel. bind_step H as secure Hsecure. bind_step H as insecure Hins.
  str_attr H as hostname Hhn. bind_step H as sni Hsni. apply getattr_Ok in Hsni. bind_step H as x1 Hx1.
  assert (chains_new ctx cf0 x1) as Hw1 by (by eapply https_chain_new).
  destruct (hosts_same_before _ _ _ _ (proj1 (proj1 Hw)) Hh) as (h0 & Hh0 & _ & Hsame0).
  destruct (hosts_same_after _ _ _ _ (proj1 (proj1 Hw1)) Hh0) as (h1 & Hh1 & _ & Hsame1).
  destruct (_ && _) in H; [by injection H as <-|]. eapply add_chain_new; [done| |exact H].
  intros c cf c' cf' Hwf Hs [_ Ho] -> Hc. eapply add_httphost_new; [done..| | |exact Hc].
  - intros h' k. rewrite Hh1. intros [= <-]. rewrite <- Hsame1, Hsame0, Hhn by done. by intros [= <-].
  - rewrite Ho by done. by intros ? ? _ _ [].
Qed.
End chains.
