(* ===== verification/V3VirtualHost.v ===== *)
(** * The virtual hosts of Envoy listeners ([envoy/v3/v3listener.py])

    What the listeners of [V3Listener.v] do with requests: the virtual hosts
    written for the Hosts, with the routes each should have, and which route
    Envoy takes for a request in cleartext and for one that came by TLS. *)

From S2P Require Import Prelude PyStr PyVal Utils HostGlob Resource Cache ServiceName PyText BaseMapping HTTPMapping.
From S2P Require Import Cluster Group IR Listener Secret TLSContext Host LogService V3Route V3TLS V3HTTPConfig V3Listener.

(** ** The variants kept are those computed anew *)

Definition matchers : list string := ["always"; "xfp-https"; "xfp-http"].
Definition actions : list string := ["route"; "redirect"].

(** The variant, without looking at those kept *)
Definition fresh_variant (ctx : v3_ctx) (route : dict pyval) (m a : string) : res (dict pyval) :=
  '(v, _) ← get_variant ctx route m a []; Ok v.

Definition variants_ok (ctx : v3_ctx) (route : dict pyval) (vs : dict (dict pyval)) : Prop :=
  ∀ key v, dget key vs = Some v →
    ∃ m a, m ∈ matchers ∧ a ∈ actions ∧ key = m +:+ "-" +:+ a ∧ fresh_variant ctx route m a = Ok v.

Lemma replace_dash s u : mem_char "_" u = false → replace_char "-" "_" s = u → s = u.
Proof.
  revert u. induction s as [|c s IH]; intros u Hu H; cbn in H; [done|]. subst u.
  destruct (decide (c = "-"%char)) as [->|Hc]; [by cbn in Hu|].
  assert (replace_char "-" "_" (String c s) = String c (replace_char "-" "_" s)) as E.
  { cbn. by case_bool. }
  cbn in E, Hu. rewrite E in *. f_equal. apply IH; [|done]. cbn in Hu. by apply orb_false_iff in Hu as [_ Hu].
Qed.

Lemma variant_key_inj m m' a a' :
  m ∈ matchers → m' ∈ matchers → m +:+ "-" +:+ a = m' +:+ "-" +:+ a' → m = m' ∧ a = a'.
Proof.
  unfold matchers. rewrite !elem_of_cons, !elem_of_nil.
  intros [->|[->|[->|[]]]] [->|[->|[->|[]]]] H; cbn in H; by simplify_eq.
Qed.

Lemma matcher_lower m : m ∈ matchers → lower m = m.
Proof. unfold matchers. rewrite !elem_of_cons, elem_of_nil. by intros [->|[->|[->|[]]]]. Qed.
Lemma action_lower a : a ∈ actions → lower a = a.
Proof. unfold actions. rewrite !elem_of_cons, elem_of_nil. by intros [->|[->|[]]]. Qed.

Lemma action_handler_known ctx a ah : action_handler ctx a = Ok ah → a ∈ actions.
Proof.
  unfold action_handler, actions. case_bool as H1; [|case_bool as H2; [|done]]; intros _.
  - apply replace_dash in H1 as ->; [by left|done].
  - apply replace_dash in H2 as ->; [by right; left|done].
Qed.

Lemma fresh_variant_Ok ctx route m a v :
  fresh_variant ctx route m a = Ok v ↔
  ∃ mh w ah, matcher_handler (lower m) = Ok mh ∧ mh route = Ok w ∧ action_handler ctx (lower a) = Ok ah ∧ ah w = Ok v.
Proof.
  unfold fresh_variant. split.
  - intros H. bind_step H as [w vs] Hw. injection H as <-.
    apply get_variant_miss in Hw as (mh & w0 & ah & A1 & A2 & A3 & A4 & _); [|done]. by exists mh, w0, ah.
  - intros (mh & w & ah & A1 & A2 & A3 & A4). unfold get_variant. cbn [dget]. rewrite A1. cbn. rewrite A2. cbn.
    rewrite A3. cbn. by rewrite A4.
Qed.

(** Looking at the variants kept changes nothing. *)
Lemma get_variant_fresh ctx route m a vs v vs' :
  m ∈ matchers → variants_ok ctx route vs → get_variant ctx route m a vs = Ok (v, vs') →
  fresh_variant ctx route m a = Ok v ∧ variants_ok ctx route vs'.
Proof.
  intros Hm Hok H. pose proof (matcher_lower _ Hm) as Hl.
  assert (∀ w, dget (lower m +:+ "-" +:+ lower a) vs = Some w → fresh_variant ctx route m a = Ok w) as Hhit.
  { rewrite Hl. intros w Hw. destruct (Hok _ _ Hw) as (m' & a' & Hm' & Ha' & Hk & Hf).
    apply variant_key_inj in Hk as [<- Hk]; [|done..]. apply fresh_variant_Ok in Hf. apply fresh_variant_Ok.
    by rewrite (action_lower a'), <- Hk in Hf. }
  assert (∀ w, fresh_variant ctx route m a = Ok w →
    variants_ok ctx route (dset (lower m +:+ "-" +:+ lower a) w vs)) as Hset.
  { intros w Hw key u. rewrite dget_dset. case_decide as Ek; [|apply Hok]. intros [= <-].
    exists m, (lower a). rewrite Hl in Ek. apply fresh_variant_Ok in Hw as (mh & w0 & ah & A1 & A2 & A3 & A4).
    pose proof (action_handler_known _ _ _ A3) as Ha. split; [done|]. split; [done|]. split; [done|].
    apply fresh_variant_Ok. rewrite (action_lower (lower a)) by done. by exists mh, w0, ah. }
  unfold get_variant in H.
  assert (∀ r, (mh ← matcher_handler (lower m); w ← mh route; ah ← action_handler ctx (lower a); w ← ah w;
           Ok (w, dset (lower m +:+ "-" +:+ lower a) w vs)) = Ok r →
           fresh_variant ctx route m a = Ok r.1 ∧ variants_ok ctx route r.2) as Hmiss.
  { intros r Hr. bind_step Hr as mh A1. bind_step Hr as w A2. bind_step Hr as ah A3. bind_step Hr as u A4. injection Hr as <-.
    assert (fresh_variant ctx route m a = Ok u) as Hu; [apply fresh_variant_Ok; by exists mh, w, ah|]. split; [done|by apply Hset]. }
  destruct (dget _ vs) as [[|p w]|] eqn:E; [by apply (Hmiss (v, vs'))| |by apply (Hmiss (v, vs'))].
  injection H as <- <-. auto.
Qed.

(** ** The routes a virtual host should have *)

Section vhosts.
Context {C : Type} `{ops : !CacheOps C ref}.
Implicit Types cf : v3_config C.

(** What a candidate adds *)
Definition candidate_routes (ctx : v3_ctx) (hostname : string) (r : V3Route) (ma : string * pyval) : res (list V3Route) :=
  mt ← dget_exn "match" (rt_self r);
  prefix ← vget "prefix" PNone mt;
  let action := if py_eqb prefix (PStr acme_prefix) then PStr "Route" else ma.2 in
  if py_eqb action (PStr "Reject") then Ok []
  else a ← py_lower action; v ← fresh_variant ctx (rt_self r) ma.1 a; Ok [mkRoute v [PStr hostname] (rt_group r)].

Definition wanted_routes (ctx : v3_ctx) (model : pyval) (self : dict pyval) (hostname : string) (r : V3Route)
    : res (list V3Route) :=
  cands ← candidates model self; l ← map_res (candidate_routes ctx hostname r) cands; Ok (List.concat l).

(** The routes that a Host takes, in the order of the configuration *)
Definition taken_routes (ctx : listener_ctx) cf (self : dict pyval) (locs : list nat) : res (list V3Route) :=
  rs ← map_res (deref (vs_objs (cf_v3 cf))) locs; filter_res (takes_route ctx cf self) rs.

Definition vhost_routes (ctx : listener_ctx) (model : pyval) cf (self : dict pyval) (hostname : string) (locs : list nat)
    : res (list V3Route) :=
  rs ← taken_routes ctx cf self locs;
  l ← map_res (wanted_routes (lc_v3 ctx) model self hostname) rs;
  Ok (List.concat l).

(** A chain that has more routes for one virtual host *)
Definition routes_grow (hostname : string) (rs : list V3Route) (c c' : V3Chain) : Prop :=
  ch_context c' = ch_context c ∧ ch_hosts c' = ch_hosts c ∧ ch_names c' = ch_names c
  ∧ ∀ k, dget k (ch_routes c') = (if bool_decide (k = hostname) then (λ l, l ++ rs) <$> dget k (ch_routes c)
                                   else dget k (ch_routes c)).

Lemma routes_grow_refl hostname c : routes_grow hostname [] c c.
Proof. repeat split. intros k. case_bool; [|done]. destruct (dget k _); [|done]. cbn. by rewrite app_nil_r. Qed.

Lemma routes_grow_trans hostname rs rs' c c' c'' :
  routes_grow hostname rs c c' → routes_grow hostname rs' c' c'' → routes_grow hostname (rs ++ rs') c c''.
Proof.
  intros (A1 & A2 & A3 & A4) (B1 & B2 & B3 & B4). split; [congruence|]. split; [congruence|]. split; [congruence|].
  intros k. rewrite B4, A4. case_bool; [|done]. destruct (dget k _); [|done]. cbn. by rewrite app_assoc.
Qed.

Lemma add_route_grows hostname r c :
  is_Some (dget hostname (ch_routes c)) → routes_grow hostname [r] c (add_route hostname r c).
Proof.
  intros [l Hl]. repeat split. intros k. cbn [add_route ch_routes]. rewrite dget_dset. unfold dget_default. rewrite Hl.
  case_bool as E; [subst k; by rewrite Hl|done].
Qed.

Lemma routes_grow_Some hostname rs c c' k :
  routes_grow hostname rs c c' → is_Some (dget k (ch_routes c)) → is_Some (dget k (ch_routes c')).
Proof. intros (_ & _ & _ & H) [l Hl]. rewrite H, Hl. case_bool; cbn; eauto. Qed.

Lemma add_candidate_grows ctx r hostname c vs ma c' vs' :
  ma.1 ∈ matchers → variants_ok (lc_v3 ctx) (rt_self r) vs → is_Some (dget hostname (ch_routes c)) →
  add_candidate ctx r hostname (c, vs) ma = Ok (c', vs') →
  ∃ rs, candidate_routes (lc_v3 ctx) hostname r ma = Ok rs ∧ routes_grow hostname rs c c'
    ∧ variants_ok (lc_v3 ctx) (rt_self r) vs'.
Proof.
  intros Hm Hok Hr H. unfold add_candidate in H. unfold candidate_routes. bind_step H as mt Hmt. rewrite Hmt. cbn [mbind res_bind].
  bind_step H as prefix Hp. rewrite Hp. cbn [mbind res_bind]. destruct (py_eqb _ (PStr "Reject")).
  { injection H as <- <-. exists []. split; [done|]. split; [apply routes_grow_refl|done]. }
  bind_step H as a Ha. rewrite Ha. cbn [mbind res_bind]. bind_step H as [v vs1] Hv. injection H as <- <-.
  apply get_variant_fresh in Hv as [Hv Hok']; [|done..]. rewrite Hv. cbn [mbind res_bind].
  eexists. split; [done|]. split; [by apply add_route_grows|done].
Qed.

Lemma candidates_known model self cands : candidates model self = Ok cands → Forall (λ ma : string * pyval, ma.1 ∈ matchers) cands.
Proof.
  intros H. unfold candidates in H. bind_step H as s Hs. bind_step H as i Hi. injection H as <-. apply Forall_app. split.
  - destruct s; try constructor; (destruct (py_eqb _ _); constructor; [|constructor]; destruct (py_eqb _ _); set_solver).
  - destruct i; try constructor; (destruct (py_eqb _ _); constructor; [|constructor]; destruct (py_eqb _ _); set_solver).
Qed.

Lemma add_candidates_grow ctx r hostname cands c vs c' vs' :
  Forall (λ ma : string * pyval, ma.1 ∈ matchers) cands → variants_ok (lc_v3 ctx) (rt_self r) vs → is_Some (dget hostname (ch_routes c)) →
  fold_res (add_candidate ctx r hostname) cands (c, vs) = Ok (c', vs') →
  ∃ l, map_res (candidate_routes (lc_v3 ctx) hostname r) cands = Ok l ∧ routes_grow hostname (List.concat l) c c'
    ∧ variants_ok (lc_v3 ctx) (rt_self r) vs'.
Proof.
  intros Hk. revert c vs. induction Hk as [|ma cands Hm Hk IH]; intros c vs Hok Hr H; cbn [fold_res map_res] in *.
  { injection H as <- <-. exists []. split; [done|]. split; [apply routes_grow_refl|done]. }
  bind_step H as [c1 vs1] H1. apply add_candidate_grows in H1 as (rs & -> & Hg & Hok1); [|done..].
  apply IH in H as (l & Hl & Hg' & Hok'); [|done|by eapply routes_grow_Some]. rewrite Hl. cbn [mbind res_bind].
  eexists. split; [done|]. split; [|done]. by eapply routes_grow_trans.
Qed.

Lemma host_routes_grow ctx irl cf r c vs hn c' vs' :
  variants_ok (lc_v3 ctx) (rt_self r) vs →
  (∀ h k, dget hn (cf_hosts cf) = Some h → dget "hostname" (ho_self h) = Some (PStr k) → is_Some (dget k (ch_routes c))) →
  host_routes ctx irl cf r (c, vs) hn = Ok (c', vs') →
  ∃ h k model rs, dget hn (cf_hosts cf) = Some h ∧ dget "hostname" (ho_self h) = Some (PStr k)
    ∧ dget "securityModel" irl = Some model ∧ wanted_routes (lc_v3 ctx) model (ho_self h) k r = Ok rs
    ∧ routes_grow k rs c c' ∧ variants_ok (lc_v3 ctx) (rt_self r) vs'.
Proof.
  intros Hok Hr H. unfold host_routes in H. bind_step H as h Hh. apply dget_exn_Ok in Hh. str_attr H as k Hk.
  bind_step H as model Hmodel. apply getattr_Ok in Hmodel. bind_step H as cands Hc.
  apply add_candidates_grow in H as (l & Hl & Hg & Hok'); [|by eapply candidates_known|done|by eapply Hr].
  exists h, k, model, (List.concat l). unfold wanted_routes. rewrite Hc. cbn [mbind res_bind]. by rewrite Hl.
Qed.
(** The chains whose Hosts are kept under their hostnames *)
Definition host_at cf (n k : string) (h : host_obj) : Prop :=
  dget n (cf_hosts cf) = Some h ∧ dget "hostname" (ho_self h) = Some (PStr k).

Definition hosts_keyed cf (d : dict chain_host) : Prop :=
  dict_ok d ∧ ∀ k n, (k, CHost n) ∈ d → ∃ h, host_at cf n k h.

Lemma matching_hosts_spec ctx cf d r l :
  hosts_keyed cf d → matching_hosts ctx cf (dvalues d) r = Ok l →
  NoDup l
  ∧ (∀ n, n ∈ l → ∃ k, (k, CHost n) ∈ d)
  ∧ ∀ k n h, (k, CHost n) ∈ d → dget n (cf_hosts cf) = Some h →
      ∃ b, takes_route ctx cf (ho_self h) r = Ok b ∧ (n ∈ l ↔ b = true).
Proof.
  revert l. induction d as [|[k0 x] d IH]; intros l [Hd Hk] H; cbn [dvalues fmap list_fmap snd matching_hosts] in H.
  { injection H as <-. split; [constructor|]. split; intros ? ?; [by apply elem_of_nil in H|by intros ? ?%elem_of_nil]. }
  assert (hosts_keyed cf d) as Hkd.
  { split; [by inversion Hd|]. intros k n Hn. apply Hk. by right. }
  destruct x as [n0|gi].
  - bind_step H as h0 Hh0. apply dget_exn_Ok in Hh0. bind_step H as b Hb. bind_step H as l' Hl. injection H as <-.
    destruct (IH _ Hkd Hl) as (IH1 & IH2 & IH3).
    assert (∀ k, (k, CHost n0) ∈ d → False) as Hn0.
    { intros k Hin. destruct (Hk k n0) as (h1 & Hh1 & Hn1); [by right|]. destruct (Hk k0 n0) as (h2 & Hh2 & Hn2); [by left|].
      assert (k = k0) as -> by congruence. inversion Hd as [|? ? Hnin _]. apply Hnin. apply list_elem_of_fmap. by exists (k0, CHost n0). }
    assert (n0 ∉ l') as Hnin. { intros Hin. destruct (IH2 _ Hin) as [k Hki]. by eapply Hn0. }
    split; [destruct b; [by constructor|done]|]. split.
    + intros n Hn. destruct b; [apply elem_of_cons in Hn as [->|Hn]; [exists k0; by left|]|];
        destruct (IH2 _ Hn) as [k ?]; exists k; by right.
    + intros k n h Hin Hh. apply elem_of_cons in Hin as [[= -> ->]|Hin].
      * assert (h = h0) as -> by congruence. exists b. split; [done|]. destruct b; set_solver.
      * destruct (IH3 _ _ _ Hin Hh) as (b' & Hb' & Hiff). exists b'. split; [done|]. rewrite <- Hiff.
        assert (n ≠ n0) by (intros Heq; subst; by apply (Hn0 k)). destruct b; set_solver.
  - destruct (IH _ Hkd H) as (IH1 & IH2 & IH3). split; [done|]. split.
    + intros n Hn. destruct (IH2 _ Hn) as [k ?]. exists k. by right.
    + intros k n h Hin. apply elem_of_cons in Hin as [[=]|Hin]. by apply (IH3 k).
Qed.

(** Chains that differ only in their routes *)
Definition same_chain (c c' : V3Chain) : Prop :=
  ch_context c' = ch_context c ∧ ch_hosts c' = ch_hosts c ∧ ch_names c' = ch_names c
  ∧ ∀ k, is_Some (dget k (ch_routes c)) → is_Some (dget k (ch_routes c')).

Lemma same_chain_refl c : same_chain c c.
Proof. done. Qed.
Lemma same_chain_trans c c' c'' : same_chain c c' → same_chain c' c'' → same_chain c c''.
Proof. unfold same_chain. intros (-> & -> & -> & H) (-> & -> & -> & H'). naive_solver. Qed.
Lemma grow_same_chain k rs c c' : routes_grow k rs c c' → same_chain c c'.
Proof. intros Hg. pose proof (λ k, routes_grow_Some _ _ _ _ k Hg). by destruct Hg as (? & ? & ? & _). Qed.

(** What the Hosts of a list add to the virtual host [k0] of the Host [n0] *)
Lemma host_routes_fold ctx irl cf r l c vs c' vs' n0 k0 h0 :
  variants_ok (lc_v3 ctx) (rt_self r) vs → NoDup l → host_at cf n0 k0 h0 →
  (∀ n, n ∈ l → ∃ k h, host_at cf n k h ∧ is_Some (dget k (ch_routes c)) ∧ (k = k0 → n = n0)) →
  fold_res (host_routes ctx irl cf r) l (c, vs) = Ok (c', vs') →
  same_chain c c' ∧ variants_ok (lc_v3 ctx) (rt_self r) vs'
  ∧ ∃ rs, dget k0 (ch_routes c') = (λ o, o ++ rs) <$> dget k0 (ch_routes c)
      ∧ if bool_decide (n0 ∈ l) then ∃ model, dget "securityModel" irl = Some model
                                   ∧ wanted_routes (lc_v3 ctx) model (ho_self h0) k0 r = Ok rs
        else rs = [].
Proof.
  intros Hok Hnd [Hh0 Hk0]. revert c vs Hok. induction Hnd as [|n l Hnin Hnd IH]; intros c vs Hok Hl H; cbn [fold_res] in H.
  { injection H as <- <-. split; [done|]. split; [done|]. exists []. split; [|by rewrite bool_decide_false by set_solver].
    destruct (dget k0 _); cbn; by rewrite ?app_nil_r. }
  bind_step H as [c1 vs1] H1. destruct (Hl n) as (k & h & [Hh Hk] & Hsome & Hinj); [by left|].
  apply host_routes_grow in H1 as (h' & k' & model & rs1 & Hh' & Hk' & Hm & Hw & Hg & Hok1); [|done|congruence].
  assert (h' = h) as -> by congruence. assert (k' = k) as -> by congruence. pose proof (grow_same_chain _ _ _ _ Hg) as Hs1.
  apply IH in H as (Hs & Hok' & rs & Hrs & Hif); [|done|].
  2: { intros n' Hn'. destruct (Hl n') as (k' & h2 & Hat & Hsome' & Hinj'); [by right|]. exists k', h2. split; [done|].
       split; [by apply Hs1|done]. }
  split; [by eapply same_chain_trans|]. split; [done|]. destruct Hg as (_ & _ & _ & Hg). rewrite Hg in Hrs.
  destruct (decide (n = n0)) as [->|Hne].
  - assert (k = k0) as -> by congruence. assert (h = h0) as -> by congruence.
    rewrite bool_decide_false in Hif by done. subst rs. rewrite bool_decide_true in Hrs |- * by set_solver.
    exists rs1. split; [|by exists model]. rewrite Hrs. destruct (dget k0 (ch_routes c)); cbn; by rewrite ?app_nil_r.
  - rewrite bool_decide_false in Hrs by (intros ->; by apply Hne, Hinj). exists rs. split; [done|].
    destruct (decide (n0 ∈ l)) as [Hin|Hnin'].
    + rewrite bool_decide_true in Hif |- * by set_solver. done.
    + rewrite bool_decide_false in Hif |- * by set_solver. done.
Qed.

(** A chain on which the routes can be computed *)
Definition chain_ready cf (c : V3Chain) : Prop :=
  hosts_keyed cf (ch_hosts c) ∧ ∀ k n, (k, CHost n) ∈ ch_hosts c → is_Some (dget k (ch_routes c)).

Lemma chain_ready_same cf c c' : chain_ready cf c → same_chain c c' → chain_ready cf c'.
Proof. intros [H1 H2] (_ & Hh & _ & Hr). unfold chain_ready. rewrite Hh. naive_solver. Qed.

Lemma chain_variant_spec ctx irl cf c acc i vs r c' acc' k0 n0 h0 model :
  chain_ready cf c → vs_objs (cf_v3 cf) !! i = Some r → variants_ok (lc_v3 ctx) (rt_self r) vs →
  (k0, CHost n0) ∈ ch_hosts c → dget n0 (cf_hosts cf) = Some h0 → dget "securityModel" irl = Some model →
  chain_variant ctx irl cf (c, acc) (i, vs) = Ok (c', acc') →
  same_chain c c' ∧ ∃ vs' b rs, acc' = acc ++ [(i, vs')] ∧ variants_ok (lc_v3 ctx) (rt_self r) vs'
    ∧ takes_route ctx cf (ho_self h0) r = Ok b
    ∧ dget k0 (ch_routes c') = (λ o, o ++ rs) <$> dget k0 (ch_routes c)
    ∧ if (b : bool) then wanted_routes (lc_v3 ctx) model (ho_self h0) k0 r = Ok rs else rs = [].
Proof.
  intros [Hk Hr] Hi Hok Hin Hh0 Hm H. unfold chain_variant in H. cbn [fst snd] in H. bind_step H as r' Hr'.
  unfold deref in Hr'. rewrite Hi in Hr'. injection Hr' as <-. bind_step H as l Hl.
  bind_step H as [c1 vs1] Hf. injection H as <- <-.
  destruct (matching_hosts_spec _ _ _ _ _ Hk Hl) as (Hnd & Hsub & Htake).
  destruct (Htake _ _ _ Hin Hh0) as (b & Hb & Hiff). destruct Hk as [Hd Hk].
  destruct (Hk _ _ Hin) as (h & Hh & Hhn). assert (h = h0) as -> by congruence.
  apply (host_routes_fold _ _ _ _ _ _ _ _ _ n0 k0 h0) in Hf as (Hs & Hok' & rs & Hrs & Hif); [|done..|].
  2: { intros n Hn. destruct (Hsub _ Hn) as [k Hki]. destruct (Hk _ _ Hki) as (h & Hat). exists k, h. split; [done|].
       split; [by eapply Hr|]. intros ->. apply elem_of_dget in Hki, Hin; [|done..]. congruence. }
  split; [done|]. exists vs1, b, rs. do 4 (split; [done|]). destruct b.
  - rewrite bool_decide_true in Hif by (by apply Hiff). destruct Hif as (model' & Hm' & Hw). congruence.
  - by rewrite bool_decide_false in Hif by (rewrite Hiff; done).
Qed.
Definition variants_current (ctx : listener_ctx) cf (rvs : list (nat * dict (dict pyval))) : Prop :=
  Forall (λ rv : nat * dict (dict pyval), ∃ r, vs_objs (cf_v3 cf) !! rv.1 = Some r ∧ variants_ok (lc_v3 ctx) (rt_self r) rv.2) rvs.

Lemma vhost_routes_cons ctx model cf self k i r locs b rs1 rs2 :
  vs_objs (cf_v3 cf) !! i = Some r → takes_route ctx cf self r = Ok b →
  (if b then wanted_routes (lc_v3 ctx) model self k r = Ok rs1 else rs1 = []) →
  vhost_routes ctx model cf self k locs = Ok rs2 → vhost_routes ctx model cf self k (i :: locs) = Ok (rs1 ++ rs2).
Proof.
  intros Hi Hb Hw H. unfold vhost_routes, taken_routes in *. cbn [map_res]. 
  assert (deref (vs_objs (cf_v3 cf)) i = Ok r) as -> by (unfold deref; by rewrite Hi). cbn [mbind res_bind].
  bind_step H as taken Ht. bind_step Ht as rs Hrs. bind_step H as l Hl. injection H as <-. rewrite Hrs. cbn [mbind res_bind filter_res].
  rewrite Hb. cbn [mbind res_bind]. rewrite Ht. cbn [mbind res_bind].
  destruct b; [|subst rs1; by rewrite Hl]. cbn [map_res]. rewrite Hw. cbn [mbind res_bind]. by rewrite Hl.
Qed.

(** All the routes of the configuration, on one chain *)
Lemma chain_variants_spec ctx irl cf rvs c acc c' acc' k0 n0 h0 model :
  chain_ready cf c → variants_current ctx cf rvs →
  (k0, CHost n0) ∈ ch_hosts c → dget n0 (cf_hosts cf) = Some h0 → dget "securityModel" irl = Some model →
  fold_res (chain_variant ctx irl cf) rvs (c, acc) = Ok (c', acc') →
  same_chain c c'
  ∧ (∃ rvs', acc' = acc ++ rvs' ∧ rvs'.*1 = rvs.*1 ∧ variants_current ctx cf rvs')
  ∧ ∃ rs, vhost_routes ctx model cf (ho_self h0) k0 rvs.*1 = Ok rs
      ∧ dget k0 (ch_routes c') = (λ o, o ++ rs) <$> dget k0 (ch_routes c).
Proof.
  intros Hr Hcur. revert c acc Hr. induction Hcur as [|[i vs] rvs (r & Hi & Hok) Hcur IH]; intros c acc Hr Hin Hh Hm H; cbn [fold_res] in H.
  { injection H as <- <-. split; [done|]. split; [exists []; rewrite app_nil_r; by repeat split; constructor|].
    exists []. split; [done|]. destruct (dget k0 _); cbn; by rewrite ?app_nil_r. }
  bind_step H as [c1 acc1] H1. cbn [fst snd] in *.
  apply (chain_variant_spec _ _ _ _ _ _ _ r _ _ k0 n0 h0 model) in H1 as (Hs1 & vs' & b & rs1 & -> & Hok' & Hb & Hrs1 & Hw); [|done..].
  apply IH in H as (Hs & (rvs' & -> & Hfst & Hcur') & rs2 & Hv & Hrs2); [|by eapply chain_ready_same|by destruct Hs1 as (_ & -> & _)|done..].
  split; [by eapply same_chain_trans|]. split.
  - exists ((i, vs') :: rvs'). split; [by rewrite <- app_assoc|]. split; [cbn; by rewrite Hfst|].
    constructor; [|done]. by exists r.
  - exists (rs1 ++ rs2). split; [by eapply vhost_routes_cons|]. rewrite Hrs2, Hrs1.
    destruct (dget k0 (ch_routes c)); cbn; [|done]. by rewrite app_assoc.
Qed.

(** A configuration in which only the variants kept have changed *)
Definition same_but_variants cf cf' : Prop :=
  cf_v3 cf' = cf_v3 cf ∧ cf_hosts cf' = cf_hosts cf ∧ cf_listeners cf' = cf_listeners cf
  ∧ (cf_variants cf').*1 = (cf_variants cf).*1.

Lemma vhost_routes_same ctx model cf cf' self k locs :
  cf_v3 cf' = cf_v3 cf → vhost_routes ctx model cf' self k locs = vhost_routes ctx model cf self k locs.
Proof. intros H. unfold vhost_routes, taken_routes, takes_route, the_group, cf_ir. by rewrite H. Qed.

(** The routes of every virtual host of a chain are as wanted. *)
Definition chain_routed (ctx : listener_ctx) (irl : dict pyval) cf (c c' : V3Chain) : Prop :=
  same_chain c c'
  ∧ ∀ k n h model, (k, CHost n) ∈ ch_hosts c → dget n (cf_hosts cf) = Some h → dget "securityModel" irl = Some model →
      ∃ rs, vhost_routes ctx model cf (ho_self h) k (cf_variants cf).*1 = Ok rs
        ∧ dget k (ch_routes c') = (λ o, o ++ rs) <$> dget k (ch_routes c).

Lemma is_http_host c : is_http c = true → ∃ k n, (k, CHost n) ∈ ch_hosts c.
Proof.
  unfold is_http. intros H. apply existsb_exists in H as ([n|gi] & Hin & Hx); [|done].
  apply list_elem_of_In, list_elem_of_fmap in Hin as ([k x] & Hx' & Hin). cbn in Hx'. subst x. eauto.
Qed.

Lemma not_http_host c k n : is_http c = false → (k, CHost n) ∈ ch_hosts c → False.
Proof.
  unfold is_http. intros H Hin. apply not_true_iff_false in H. apply H, existsb_exists. exists (CHost n). split; [|done].
  apply list_elem_of_In, list_elem_of_fmap. by exists (k, CHost n).
Qed.

Lemma chain_routes_spec ctx irl chains cf kc chains' cf' model :
  dget "securityModel" irl = Some model → chain_ready cf kc.2 → variants_current ctx cf (cf_variants cf) →
  chain_routes ctx irl (chains, cf) kc = Ok (chains', cf') →
  same_but_variants cf cf' ∧ variants_current ctx cf' (cf_variants cf')
  ∧ ∃ c', chains' = chains ++ [(kc.1, c')] ∧ chain_routed ctx irl cf kc.2 c'.
Proof.
  destruct kc as [key c]. cbn [fst snd]. intros Hm Hr Hcur H. unfold chain_routes in H. cbn [fst snd] in H.
  destruct (is_http c) eqn:Eh.
  - bind_step H as [c1 vs] Hf. injection H as <- <-. destruct (is_http_host _ Eh) as (k & n & Hin).
    destruct (proj2 (proj1 Hr) _ _ Hin) as (h & Hh & _).
    pose proof Hf as Hf'. apply (chain_variants_spec _ _ _ _ _ _ _ _ k n h model) in Hf' as (Hs & (rvs & -> & Hfst & Hcur') & _); [|done..].
    split; [done|]. split; [done|]. exists c1. split; [done|]. split; [done|]. intros k' n' h' model' Hin' Hh' Hm'.
    by apply (chain_variants_spec _ _ _ _ _ _ _ _ k' n' h' model') in Hf as (_ & _ & ?).
  - injection H as <- <-. split; [done|]. split; [done|]. exists c. split; [done|]. split; [done|].
    intros k n h model' Hin. by apply not_http_host in Hin.
Qed.

Lemma compute_http_routes_spec ctx irl chains cf chains' cf' model :
  dget "securityModel" irl = Some model → Forall (λ kc : string * V3Chain, chain_ready cf kc.2) chains →
  variants_current ctx cf (cf_variants cf) →
  compute_http_routes ctx irl (chains, cf) = Ok (chains', cf') →
  same_but_variants cf cf' ∧ variants_current ctx cf' (cf_variants cf')
  ∧ Forall2 (λ kc kc' : string * V3Chain, kc'.1 = kc.1 ∧ chain_routed ctx irl cf kc.2 kc'.2) chains chains'.
Proof.
  intros Hm. unfold compute_http_routes. cbn [fst snd].
  assert (∀ acc cf, Forall (λ kc : string * V3Chain, chain_ready cf kc.2) chains → variants_current ctx cf (cf_variants cf) →
    fold_res (chain_routes ctx irl) chains (acc, cf) = Ok (chains', cf') →
    same_but_variants cf cf' ∧ variants_current ctx cf' (cf_variants cf')
    ∧ ∃ l, chains' = acc ++ l
        ∧ Forall2 (λ kc kc' : string * V3Chain, kc'.1 = kc.1 ∧ chain_routed ctx irl cf kc.2 kc'.2) chains l) as Hgen.
  { clear cf. induction chains as [|kc chains IH]; intros acc cf Hr Hcur H; cbn [fold_res] in H.
    { injection H as <- <-. split; [done|]. split; [done|]. exists []. rewrite app_nil_r. split; [done|constructor]. }
    bind_step H as [acc1 cf1] H1. apply Forall_cons in Hr as [Hr1 Hr].
    apply (chain_routes_spec _ _ _ _ _ _ _ model) in H1 as ((E1 & E2 & E3 & E4) & Hcur1 & c1 & -> & Hc1); [|done..].
    apply IH in H as ((F1 & F2 & F3 & F4) & Hcur' & l & -> & Hl); [| |done].
    2: { eapply Forall_impl; [exact Hr|]. intros kc'. unfold chain_ready, hosts_keyed, host_at. by rewrite E2. }
    split; [repeat split; congruence|]. split; [done|]. exists ((kc.1, c1) :: l). split; [by rewrite <- app_assoc|].
    constructor; [done|]. eapply Forall2_impl; [exact Hl|]. intros x y [? [? Hxy]]. split; [done|]. split; [done|].
    intros k n h model' Hin Hh Hm'. rewrite <- E2 in Hh. destruct (Hxy _ _ _ _ Hin Hh Hm') as (rs & Hrs & Hd).
    exists rs. by rewrite (vhost_routes_same _ _ cf cf1), E4 in Hrs by done. }
  intros Hr Hcur H. apply Hgen in H as (? & ? & l & -> & ?); done.
Qed.
End vhosts.

(** ** Hosts that a listener takes *)

Section taken.
Context {C : Type} `{ops : !CacheOps C ref}.
Implicit Types cf : v3_config C.

(** A Listener takes a Host in cleartext. *)
Definition listens_to (ctx : listener_ctx) (irl self : dict pyval) (k : string) : Prop :=
  matches_host (lc_env ctx) irl self = Ok true ∧ dget "hostname" self = Some (PStr k)
  ∧ (∃ only, dget "insecure_only" irl = Some only ∧ py_bool only = false)
  ∧ ∃ model act, dget "securityModel" irl = Some model ∧ dget "insecure_action" self = Some act
      ∧ py_eqb model (PStr "INSECURE") && py_eqb act (PStr "Reject") = false.

Lemma listens_to_same ctx irl h h' k : host_same h h' → listens_to ctx irl (ho_self h) k → listens_to ctx irl (ho_self h') k.
Proof.
  intros [_ Hs]. unfold listens_to, matches_host, getattr. by rewrite !Hs.
Qed.

(** The chain for a hostname in cleartext has a Host. *)
Definition serves_cleartext (k : string) (chains : dict V3Chain) : Prop :=
  ∃ c n, dget (chain_key ChainHTTP None k EmptyString) chains = Some c ∧ dget k (ch_hosts c) = Some (CHost n).

Lemma add_httphost_keeps ctx hn c cf c' cf' k n :
  add_httphost ctx hn c cf = Ok (c', cf') → dget k (ch_hosts c) = Some (CHost n) →
  ∃ n', dget k (ch_hosts c') = Some (CHost n').
Proof.
  intros H Hk. unfold add_httphost in H. bind_step H as h Hh. destruct (tcp_owner c).
  { bind_step H as g Hg. bind_step H as o Ho. bind_step H as name Hn. injection H as <- <-. eauto. }
  bind_step H as v Hv. bind_step H as hostname Hhn.
  assert (∃ n', dget k (dset hostname (CHost hn) (ch_hosts c)) = Some (CHost n')) as Hset.
  { rewrite dget_dset. case_bool; eauto. }
  destruct (ch_context c) as [i|]; [|by injection H as <- <-]. destruct (true_context ctx (ho_context h)).
  - do 7 (bind_step H as ? Htmp; clear Htmp). destruct (_ || _) in H.
    + bind_step H as name Hn. injection H as <- <-. eauto.
    + bind_step H as u Hu. by injection H as <- <-.
  - bind_step H as name Hn. injection H as <- <-. eauto.
Qed.

Lemma add_chain_keeps ctx ty o hostname sni hn (x x' : dict V3Chain * v3_config C) k :
  add_chain ty o hostname sni (add_httphost ctx hn) x = Ok x' → serves_cleartext k x.1 → serves_cleartext k x'.1.
Proof.
  destruct x as [chains cf]. intros H (c & n & Hc & Hn). unfold add_chain in H.
  assert (∃ c' cf', add_httphost ctx hn (default (mkChain o [] [] []) (dget (chain_key ty o hostname sni) chains)) cf = Ok (c', cf')
    ∧ x' = (dset (chain_key ty o hostname sni) c' chains, cf')) as (c' & cf' & Ha & ->).
  { destruct ty, o; try done; bind_step H as [c' cf'] Ha; injection H as <-; eauto. }
  unfold serves_cleartext. cbn [fst] in *. rewrite dget_dset. case_bool as E; [|eauto]. rewrite E in Hc. rewrite Hc in Ha.
  destruct (add_httphost_keeps _ _ _ _ _ _ _ _ Ha Hn) as [n' ?]. eauto.
Qed.

Lemma http_chain_keeps ctx irl ok (x x' : dict V3Chain * v3_config C) hn k :
  http_chain ctx irl ok x hn = Ok x' → serves_cleartext k x.1 → serves_cleartext k x'.1.
Proof.
  intros H Hk. unfold http_chain in H. bind_step H as h Hh. bind_step H as m Hm. destruct (negb m); [by injection H as <-|].
  do 3 (bind_step H as ? Htmp; clear Htmp). destruct (_ && _) in H; [by injection H as <-|].
  do 6 (bind_step H as ? Htmp; clear Htmp). bind_step H as z1 Hx1.
  assert (serves_cleartext k z1.1).
  { destruct (true_context ctx (ho_context h)); [|by injection Hx1 as <-].
    destruct (ok && _) in Hx1; [by eapply add_chain_keeps|by injection Hx1 as <-]. }
  destruct (_ && _) in H; [by injection H as <-|by eapply add_chain_keeps].
Qed.

(** A cleartext chain of a hostname has no TCP group. *)
Lemma cleartext_no_tcp ctx cf0 key c k :
  chain_new ctx cf0 key c → key = chain_key ChainHTTP None k EmptyString → ch_context c = None ∧ tcp_owner c = None.
Proof.
  intros [[_ Hex _ Hn] _] ->. destruct (ch_context c) eqn:Ec.
  { destruct Hn as [[s Hn] _]. by apply cleartext_key in Hn. }
  split; [done|]. destruct Hex as [Hex|(k' & gi & Hh & Hkey)].
  - unfold tcp_owner. induction (dvalues (ch_hosts c)) as [|x l IH]; [done|]. cbn.
    destruct (Hex x) as [n ->]; [by left|]. apply IH. intros h Hh. apply Hex. by right.
  - specialize (Hkey eq_refl). unfold chain_key in Hkey. cbn in Hkey. discriminate.
Qed.

Lemma http_chain_serves ctx cf0 irl ok x x' hn h k :
  chains_new ctx cf0 x → dget hn (cf_hosts x.2) = Some h → listens_to ctx irl (ho_self h) k →
  http_chain ctx irl ok x hn = Ok x' → serves_cleartext k x'.1.
Proof.
  intros Hw Hh (Hmat & Hk & (only & Honly & Hob) & model & act & Hmod & Hact & Hrej) H. unfold http_chain in H.
  assert (the_host x.2 hn = Ok h) as Hth. { unfold the_host, dget_exn. by rewrite Hh. }
  rewrite Hth in H. cbn [mbind res_bind] in H. rewrite Hmat in H. cbn [mbind res_bind negb] in H.
  bind_step H as o Ho. apply getattr_Ok in Ho. assert (o = only) as -> by congruence.
  bind_step H as port Hp. bind_step H as addl Ha. rewrite Hob in H. cbn [andb] in H.
  bind_step H as m Hm. apply getattr_Ok in Hm. assert (m = model) as -> by congruence. bind_step H as sec Hsec.
  bind_step H as ins Hins. apply getattr_Ok in Hins. assert (ins = act) as -> by congruence.
  str_attr H as hostname Hhn. assert (hostname = k) as -> by congruence. bind_step H as sni Hsni. bind_step H as x1 Hx1.
  rewrite Hrej in H. apply getattr_Ok in Hsni.
  assert (chains_new ctx cf0 x1) as Hw1 by (by eapply https_chain_new).
  destruct (hosts_same_before _ _ _ _ (proj1 (proj1 Hw)) Hh) as (h0 & Hh0 & _ & Hsame0).
  destruct (hosts_same_after _ _ _ _ (proj1 (proj1 Hw1)) Hh0) as (h1 & Hh1 & _ & Hsame1).
  destruct x1 as [chains cf1]. unfold add_chain in H. bind_step H as [c' cf'] Hc. injection H as <-.
  change (chain_key ChainHTTP None k (py_text sni)) with (chain_key ChainHTTP None k EmptyString) in *.
  set (c := default _ _) in Hc.
  assert (chain_new ctx cf0 (chain_key ChainHTTP None k EmptyString) c) as Hcn.
  { subst c. destruct (dget _ chains) eqn:E; cbn [default]; [by apply Hw1|apply chain_new_empty]. }
  destruct (cleartext_no_tcp _ _ _ _ k Hcn eq_refl) as [Hcx Htcp]. unfold add_httphost in Hc. bind_step Hc as h2 Hh2.
  apply dget_exn_Ok in Hh2. assert (h2 = h1) as -> by (cbn [snd] in *; congruence). rewrite Htcp in Hc.
  str_attr Hc as hostname Hhn'. rewrite <- Hsame1, Hsame0, Hhn in Hhn' by done. injection Hhn' as <-. rewrite Hcx in Hc. injection Hc as <- <-.
  eexists _, hn. cbn [fst]. rewrite dget_dset_eq. split; [done|]. cbn [ch_hosts]. by rewrite dget_dset_eq.
Qed.

(** Every Host that a Listener takes in cleartext has its chain. *)
Lemma compute_httpchains_serves ctx cf0 irl ok x x' hn h k :
  chains_new ctx cf0 x → dget hn (cf_hosts x.2) = Some h → listens_to ctx irl (ho_self h) k →
  compute_httpchains ctx irl ok x = Ok x' → serves_cleartext k x'.1.
Proof.
  intros Hw Hh Hl H. unfold compute_httpchains in H. bind_step H as names Hn.
  assert (hn ∈ names) as Hin.
  { unfold sorted_hosts in Hn. bind_step Hn as l Hl'. injection Hn as <-. apply dget_elem_of in Hh.
    apply map_res_Forall2 in Hl'. apply list_elem_of_lookup in Hh as [i Hi].
    destruct (Forall2_lookup_l _ _ _ _ _ Hl' Hi) as ([n' s'] & Hi' & Hy).
    bind_step Hy as v Hv. bind_step Hy as s Hs. injection Hy as <- <-.
    apply list_elem_of_fmap. exists (hn, s). split; [done|]. rewrite py_sorted_perm. by eapply list_elem_of_lookup_2. }
  destruct (hosts_same_before _ _ _ _ (proj1 (proj1 Hw)) Hh) as (h0 & Hh0 & Hsame0).
  assert (listens_to ctx irl (ho_self h0) k) as Hl0. { eapply listens_to_same; [|exact Hl]. split; [by destruct Hsame0|]. intros ? ?. symmetry. by apply Hsame0. }
  clear Hn Hh Hl. revert x Hw H. induction names as [|n names IH]; intros x Hw H; cbn [fold_res] in H; [by apply elem_of_nil in Hin|].
  bind_step H as x1 H1. pose proof (http_chain_new _ _ _ _ _ _ _ Hw H1) as Hw1. apply elem_of_cons in Hin as [<-|Hin]; [|by eapply IH].
  destruct (hosts_same_after _ _ _ _ (proj1 (proj1 Hw)) Hh0) as (h1 & Hh1 & Hsame1).
  eapply (fold_res_inv (λ x, serves_cleartext k x.1)); [| |exact H]; [intros n x2 x3 _ Hx2 Hx3; by eapply http_chain_keeps|].
  eapply http_chain_serves; [exact Hw|exact Hh1| |exact H1]. by eapply listens_to_same.
Qed.
End taken.

Section listeners.
Context {C : Type} `{ops : !CacheOps C ref}.
Implicit Types cf : v3_config C.

Lemma compute_tcpchains_new ctx cf0 irl x x' :
  chains_new ctx cf0 x → compute_tcpchains ctx irl x = Ok x' → chains_new ctx cf0 x'.
Proof.
  intros Hw H. unfold compute_tcpchains in H. bind_step H as gs Hgs.
  eapply fold_res_inv; [|exact Hw|exact H]. intros g a a' _. apply tcp_chain_new.
Qed.

Lemma compute_httpchains_new ctx cf0 irl ok x x' :
  chains_new ctx cf0 x → compute_httpchains ctx irl ok x = Ok x' → chains_new ctx cf0 x'.
Proof.
  intros Hw H. unfold compute_httpchains in H. bind_step H as names Hn.
  eapply fold_res_inv; [|exact Hw|exact H]. intros n a a' _. apply http_chain_new.
Qed.

(** What the constructor leaves *)
Lemma V3Listener_init_spec ctx irl cf l cf' :
  V3Listener_init ctx irl cf = Ok (l, cf') →
  vl_irlistener l = irl ∧ vl_chains l = [] ∧ vl_filter_chains l = [] ∧ marked cf cf'
  ∧ ∀ base, vl_http l = Some base → dict_ok base.
Proof.
  intros H. unfold V3Listener_init in H. bind_step H as addr Ha. bind_step H as b Hb. bind_step H as n Hn.
  bind_step H as n' Hn'. bind_step H as st Hst. bind_step H as stack Hstack.
  pose (P := λ x : V3Listener * v3_config C, vl_irlistener x.1 = irl ∧ vl_chains x.1 = [] ∧ vl_filter_chains x.1 = [] ∧ marked cf x.2
    ∧ ∀ base, vl_http x.1 = Some base → dict_ok base).
  change (P (l, cf')). eapply fold_res_inv; [| |exact H].
  2: { split; [done|]. split; [done|]. split; [done|]. split; [apply marked_refl|done]. }
  clear. intros proto [l cf1] x' _ (H1 & H2 & H3 & H4 & H5) H. cbn [fst snd] in *. unfold add_protocol in H. rewrite H1 in H.
  destruct (py_eqb proto (PStr "HTTP")); [bind_step H as [http es] Hh; injection H as <-; do 4 (split; [done|]); intros base [= <-]; by eapply base_http_config_ok|].
  destruct (py_eqb proto (PStr "PROXY")); [by injection H as <-|].
  destruct (py_eqb proto (PStr "TLS")); [bind_step H as tcp Ht; by injection H as <-|]. by injection H as <-.
Qed.

Lemma dict_keys_Forall2 {A B} (R : string * A → string * B → Prop) (d : dict A) (d' : dict B) k v' :
  Forall2 (λ x y, y.1 = x.1 ∧ R x y) d d' → dget k d' = Some v' → ∃ v, dget k d = Some v ∧ R (k, v) (k, v').
Proof.
  induction 1 as [|[k1 v1] [k2 v2] d d' [Hk HR] H IH]; cbn in *; [done|]. subst k2. case_bool as E; [|apply IH].
  intros [= <-]. subst k1. by exists v1.
Qed.

Lemma dict_keys_Forall2_r {A B} (R : string * A → string * B → Prop) (d : dict A) (d' : dict B) k v :
  Forall2 (λ x y, y.1 = x.1 ∧ R x y) d d' → dget k d = Some v → ∃ v', dget k d' = Some v' ∧ R (k, v) (k, v').
Proof.
  induction 1 as [|[k1 v1] [k2 v2] d d' [Hk HR] H IH]; cbn in *; [done|]. subst k2. case_bool as E; [|apply IH].
  intros [= <-]. subst k1. by exists v2.
Qed.

Lemma chain_new_ready ctx cf0 cf key c : marked cf0 cf → chain_new ctx cf0 key c → chain_ready cf c.
Proof.
  intros [Hs _] [[W1 _ W3 _] _]. split; [split; [done|]|]; intros k n Hin; apply elem_of_dget in Hin; [|done| |done];
    destruct (W3 _ _ Hin) as (h & Hh & Hk & Hr & _); [|done].
  destruct (hosts_same_after _ _ _ _ Hs Hh) as (h' & Hh' & _ & Hsame). exists h'. split; [done|]. by rewrite <- Hsame.
Qed.

(** ** What a listener is written from

    The chains of a new listener, with the routes of their virtual hosts. *)
Record listener_built (ctx : listener_ctx) (irl : dict pyval) cf (l : V3Listener) cf' : Prop := {
  lb_irlistener : vl_irlistener l = irl;
  lb_hosts : hosts_same (cf_hosts cf) (cf_hosts cf');
  lb_objs : vs_objs (cf_v3 cf') = vs_objs (cf_v3 cf);
  lb_dict : dict_ok (vl_chains l);
  lb_chains : ∀ key c, dget key (vl_chains l) = Some c → chain_wf ctx (cf_hosts cf) key c;
  lb_base : ∀ base, vl_http l = Some base → dict_ok base;
  lb_variants : variants_current ctx cf' (cf_variants cf');
  lb_routes : ∀ key c k n h model, is_Some (vl_http l) → dget key (vl_chains l) = Some c →
    dget k (ch_hosts c) = Some (CHost n) → dget n (cf_hosts cf') = Some h → dget "securityModel" irl = Some model →
    ∃ rs, vhost_routes ctx model cf' (ho_self h) k (cf_variants cf').*1 = Ok rs ∧ dget k (ch_routes c) = Some rs;
  lb_served : ∀ n h k, is_Some (vl_http l) → dget n (cf_hosts cf) = Some h → listens_to ctx irl (ho_self h) k →
    serves_cleartext k (vl_chains l);
  lb_written : ∃ cf1 chains1 tcp http, finalize_tcp ctx irl cf1 chains1 = Ok tcp ∧ vl_filter_chains l = tcp ++ http
    ∧ match vl_http l with
      | Some base => finalize_http ctx (vl_with l (vl_chains l) tcp) cf' base = Ok http
      | None => http = []
      end
}.

Lemma chain_wf_same ctx hs key c c' : chain_wf ctx hs key c → same_chain c c' → chain_wf ctx hs key c'.
Proof.
  intros [W1 W2 W3 W4] (E1 & E2 & E3 & E4). split; rewrite ?E1, ?E2, ?E3; [done..| |done].
  intros k n Hk. destruct (W3 _ _ Hk) as (h & Hh & Hn & Hr & Hc). exists h. rewrite E1. split; [done|]. split; [done|].
  split; [by apply E4|done].
Qed.

Lemma new_listener_built ctx irl cf l cf' :
  variants_current ctx cf (cf_variants cf) → is_Some (dget "securityModel" irl) →
  new_listener ctx irl cf = Ok (l, cf') → listener_built ctx irl cf l cf'.
Proof.
  intros Hcur [model Hm] H. unfold new_listener in H. bind_step H as [l0 cf0] H0.
  apply V3Listener_init_spec in H0 as (Hirl & Hc0 & Hfc0 & Hmk0 & Hbase). unfold V3Listener_finalize in H.
  rewrite Hirl, Hc0, Hfc0 in H. bind_step H as [chains1 cf1] H1. bind_step H as tcp Htcp.
  assert (chains_new ctx cf ([], cf0)) as Hnew0. { split; [done|]. split; [constructor|done]. }
  apply (compute_tcpchains_new _ cf) in H1 as Hnew1; [|done]. cbn [app vl_http vl_with vl_filter_chains vl_tls_ok] in H.
  assert (∀ cfx, marked cf cfx → variants_current ctx cfx (cf_variants cfx)) as Hcurx.
  { intros cfx (_ & E1 & E2). unfold variants_current. by rewrite E1, E2. }
  destruct (vl_http l0) as [base|] eqn:Eb.
  - bind_step H as [chains2 cf2] H2. apply (compute_httpchains_new _ cf) in H2 as Hnew2; [|done].
    bind_step H as [chains3 cf3] H3. bind_step H as http Hhttp. injection H as <- <-.
    pose proof (proj1 Hnew1) as Hmk1. destruct Hnew2 as (Hmk & Hd & Hch). cbn [fst snd] in *.
    apply (compute_http_routes_spec _ _ _ _ _ _ model) in H3 as ((E1 & E2 & E3 & E4) & Hcur3 & Hf); [|done| |by apply Hcurx].
    2: { apply Forall_forall. intros [key c] Hin. eapply chain_new_ready; [done|]. by apply Hch, elem_of_dget. }
    assert (dict_ok chains3) as Hd3.
    { unfold dict_ok, dkeys in *. replace (chains3.*1) with (chains2.*1); [done|].
      clear -Hf. induction Hf as [|x y l l' [H _] _ IH]; cbn; [done|]. by rewrite H, IH. }
    split; cbn [vl_irlistener vl_chains vl_filter_chains vl_with vl_http]; rewrite ?Eb.
    + done.
    + rewrite E2. apply Hmk.
    + rewrite E1. apply Hmk.
    + done.
    + intros key c' Hc'. destruct (dict_keys_Forall2 _ _ _ _ _ Hf Hc') as (c & Hc & Hr & _).
      eapply chain_wf_same; [by apply Hch|done].
    + intros b [= <-]. by apply Hbase.
    + done.
    + intros key c' k n h model' _ Hc' Hk Hn Hm'. destruct (dict_keys_Forall2 _ _ _ _ _ Hf Hc') as (c & Hc & Hr & Hv).
      rewrite E2 in Hn. cbn [snd] in *. destruct (Hch _ _ Hc) as [Hwf Hemp].
      destruct Hr as (R1 & R2 & R3 & R4). rewrite R2 in Hk.
      destruct (Hv k n h model') as (rs & Hrs & Hd'); [by apply dget_elem_of|done..|].
      exists rs. rewrite (vhost_routes_same _ _ cf2 cf3), E4 by done. split; [done|].
      destruct (cw_serves _ _ _ _ Hwf _ _ Hk) as (_ & _ & _ & [old Hold] & _).
      rewrite Hd', Hold. cbn. by rewrite (Hemp _ _ Hold).
    + intros n h k _ Hn Hl. destruct Hmk1 as [Hmk1 _]. destruct (hosts_same_after _ _ _ _ Hmk1 Hn) as (h' & Hn' & Hsame).
      destruct (compute_httpchains_serves _ _ _ _ _ _ n h' k Hnew1 Hn' (listens_to_same _ _ _ _ _ Hsame Hl) H2) as (c & n2 & Hc & Hk).
      destruct (dict_keys_Forall2_r _ _ _ _ _ Hf Hc) as (c' & Hc' & (_ & Hh & _) & _). exists c', n2. cbn [snd] in Hh. by rewrite Hh.
    + exists cf1, chains1, tcp, http. done.
  - injection H as <- <-. destruct Hnew1 as (Hmk & Hd & Hch). cbn [fst snd] in *.
    split; cbn [vl_irlistener vl_chains vl_filter_chains vl_with vl_http]; rewrite ?Eb; [done|apply Hmk|apply Hmk|done| |done|by apply Hcurx| | |].
    + intros key c Hc. by apply Hch.
    + by intros ? ? ? ? ? ? [].
    + by intros ? ? ? [].
    + exists cf1, chains1, tcp, []. by rewrite app_nil_r.
Qed.
End listeners.

(** ** The virtual hosts that are written *)

(** The virtual hosts of a filter chain, with their domains and routes *)
Definition list_field (k : string) (v : pyval) : list pyval := match field k v with Some (PList l) => l | _ => [] end.
Definition filter_vhosts (f : pyval) : list pyval :=
  match field "typed_config" f ≫= field "route_config" with Some rc => list_field "virtual_hosts" rc | None => [] end.
Definition fc_vhosts (fc : pyval) : list pyval := mjoin (filter_vhosts <$> list_field "filters" fc).

(** A route as it is written *)
Definition written_route (r : V3Route) : res pyval := d ← external_keys (rt_self r); Ok (PDict d).

Definition vhost_is (vh : dict pyval) (k : string) (ds : list pyval) : Prop :=
  dget "domains" vh = Some (PList [PStr k]) ∧ dget "routes" vh = Some (PList ds).

Section written.
Context {C : Type} `{ops : !CacheOps C ref}.
Implicit Types cf : v3_config C.

Lemma new_vhost_is l k vh : new_vhost l k = Ok vh → vhost_is vh k [].
Proof.
  intros H. unfold new_vhost in H. bind_step H as h3 H3. bind_step H as tcp Ht. injection H as <-.
  by destruct (h3 && tcp).
Qed.

(** The virtual hosts that the Hosts of a chain add *)
Lemma add_vhosts_spec l cf c d fc fc' :
  hosts_keyed cf d → dict_ok (hf_vhosts fc) → (∀ k n, (k, CHost n) ∈ d → dget k (hf_vhosts fc) = None) →
  fold_res (add_vhost l cf c) (dvalues d) fc = Ok fc' →
  hf_self fc' = hf_self fc ∧ dict_ok (hf_vhosts fc')
  ∧ (∀ k vh, dget k (hf_vhosts fc) = Some vh → dget k (hf_vhosts fc') = Some vh)
  ∧ (∀ k n, (k, CHost n) ∈ d → is_Some (dget k (hf_vhosts fc')))
  ∧ ∀ k vh, dget k (hf_vhosts fc') = Some vh → dget k (hf_vhosts fc) = Some vh
      ∨ ∃ n rs ds, (k, CHost n) ∈ d ∧ dget k (ch_routes c) = Some rs ∧ map_res written_route rs = Ok ds ∧ vhost_is vh k ds.
Proof.
  revert fc. induction d as [|[k0 x] d IH]; intros fc [Hd Hk] Hok Hnone H; cbn [dvalues fmap list_fmap snd fold_res] in H.
  { injection H as <-. split; [done|]. split; [done|]. split; [done|]. split; [by intros ? ? ?%elem_of_nil|by left]. }
  bind_step H as fc1 H1. inversion Hd as [|? ? Hnin Hd']. clear H0 H2. subst.
  assert (hosts_keyed cf d) as Hkd. { split; [done|]. intros k n Hn. apply Hk. by right. }
  destruct x as [n0|gi]; cbn [add_vhost] in H1.
  - bind_step H1 as h Hh. apply dget_exn_Ok in Hh. str_attr H1 as k Hhn. bind_step H1 as rs Hrs. apply dget_exn_Ok in Hrs.
    bind_step H1 as ds Hds. destruct (Hk k0 n0) as (h' & Hh' & Hn'); [by left|]. assert (k = k0) as -> by congruence.
    rewrite (Hnone k0 n0) in H1 by (by left). bind_step H1 as vh Hvh. apply new_vhost_is in Hvh as [Hdom Hrt].
    bind_step H1 as old Hold. apply dget_exn_Ok in Hold. rewrite Hrt in Hold. injection Hold as <-.
    bind_step H1 as o Ho. injection Ho as <-. injection H1 as <-. cbn [app] in H.
    assert (∀ k n, (k, CHost n) ∈ d → k ≠ k0) as Hne.
    { intros k n Hin ->. apply Hnin, list_elem_of_fmap. by exists (k0, CHost n). }
    apply IH in H as (I1 & I2 & I3 & I4 & I5); cbn [hf_vhosts hf_self] in *; [|done|by apply dict_ok_dset|].
    2: { intros k n Hin. rewrite dget_dset_ne by eauto. eapply Hnone. by right. }
    split; [done|]. split; [done|]. split; [|split].
    + intros k v Hv. apply I3. rewrite dget_dset_ne; [done|]. intros ->. by rewrite (Hnone k0 n0) in Hv by (by left).
    + intros k n [[= -> ->]|Hin]%elem_of_cons; [|eauto]. rewrite (I3 k0 (dset "routes" (PList ds) vh)); [done|by rewrite dget_dset_eq].
    + intros k v Hv. destruct (I5 _ _ Hv) as [Hv'|(n & rs' & ds' & ? & ?)].
      * rewrite dget_dset in Hv'. case_bool as E; [|by left]. injection Hv' as <-. subst k. right. exists n0, rs, ds.
        split; [by left|]. split; [done|]. split; [done|]. split; [by rewrite dget_dset_ne|by rewrite dget_dset_eq].
      * right. exists n, rs', ds'. split; [by right|done].
  - injection H1 as <-. apply IH in H as (I1 & I2 & I3 & I4 & I5); [|done|done|intros k n Hin; eapply Hnone; by right].
    split; [done|]. split; [done|]. split; [done|]. split.
    + intros k n [[=]|Hin]%elem_of_cons. eauto.
    + intros k v Hv. destruct (I5 _ _ Hv) as [?|(n & rs' & ds' & ? & ?)]; [by left|]. right. exists n, rs', ds'. split; [by right|done].
Qed.

(** The filter chain that a chain is written to *)
Definition fc_key (key : string) (c : V3Chain) : string := match ch_context c with None => "http" | Some _ => key end.

(** A cleartext chain that is written *)
Definition cleartext_served (irl : dict pyval) : Prop :=
  ∃ udp h3, is_protocol "UDP" irl = Ok udp ∧ http3_enabled irl = Ok h3 ∧ udp && h3 = false.

Record fcs_inv (irl : dict pyval) (dn : dict V3Chain) (fcs : dict http_filter_chain) : Prop := {
  fi_dict : dict_ok fcs;
  fi_ok : ∀ fk fc, dget fk fcs = Some fc → dict_ok (hf_vhosts fc) ∧ dget "filters" (hf_self fc) = None;
  fi_keys : ∀ fk fc, dget fk fcs = Some fc → ∃ key c, dget key dn = Some c ∧ fk = fc_key key c;
  fi_sound : ∀ fk fc k vh, dget fk fcs = Some fc → dget k (hf_vhosts fc) = Some vh →
    ∃ key c n rs ds, dget key dn = Some c ∧ fk = fc_key key c ∧ dget k (ch_hosts c) = Some (CHost n)
      ∧ dget k (ch_routes c) = Some rs ∧ map_res written_route rs = Ok ds ∧ vhost_is vh k ds;
  fi_complete : ∀ key c k n, dget key dn = Some c → dget k (ch_hosts c) = Some (CHost n) →
    (ch_context c = None → cleartext_served irl) →
    ∃ fc, dget (fc_key key c) fcs = Some fc ∧ is_Some (dget k (hf_vhosts fc))
}.

Lemma dget_snoc {A} k key (v : A) (d : dict A) :
  dget k (d ++ [(key, v)]) = match dget k d with Some w => Some w | None => if bool_decide (k = key) then Some v else None end.
Proof. induction d as [|[k' w] d IH]; cbn; [done|]. by destruct (bool_decide (k = k')). Qed.

Lemma tls_filter_chain_spec ctx l cf c i fc :
  tls_filter_chain ctx l cf c i = Ok fc → hf_vhosts fc = [] ∧ dget "filters" (hf_self fc) = None.
Proof.
  intros H. unfold tls_filter_chain in H. bind_step H as x Hx. bind_step H as n Hn. bind_step H as u Hu. bind_step H as h Hh.
  bind_step H as o Ho. bind_step H as e He. by injection H as <-.
Qed.

(** Chains that share the filter chain and a hostname are the same. *)
Lemma fc_key_cleartext ctx hs key c key' c' :
  chain_wf ctx hs key c → fc_key key c = fc_key key' c' → ch_context c' = None → ch_context c = None.
Proof.
  unfold fc_key. intros Hw H Hc'. rewrite Hc' in H. pose proof (cw_names _ _ _ _ Hw) as Hn.
  destruct (ch_context c); [|done]. destruct Hn as [[s ->] _]. discriminate H.
Qed.

Lemma start_chain_spec ctx hs irl l cf dn fcs key c udp h3 fk fc0 :
  (∀ k' c', dget k' dn = Some c' → chain_wf ctx hs k' c') → chain_wf ctx hs key c → hosts_keyed cf (ch_hosts c) →
  dget key dn = None → fcs_inv irl dn fcs →
  match ch_context c with
  | None => Ok (if udp && h3 then None else Some ("http", default shared_chain (dget "http" fcs)))
  | Some i => fc ← tls_filter_chain ctx l cf c i; Ok (Some (key, fc))
  end = Ok (Some (fk, fc0)) →
  fk = fc_key key c ∧ dict_ok (hf_vhosts fc0) ∧ dget "filters" (hf_self fc0) = None
  ∧ (∀ k n, (k, CHost n) ∈ ch_hosts c → dget k (hf_vhosts fc0) = None)
  ∧ (∀ fc, dget fk fcs = Some fc → fc0 = fc)
  ∧ ∀ k vh, dget k (hf_vhosts fc0) = Some vh → dget fk fcs = Some fc0.
Proof.
  intros Hwfs Hwf [Hd _] Hnew [I0 I1 I2 I3 I4] H. unfold fc_key. destruct (ch_context c) as [i|] eqn:Ec.
  - bind_step H as fc Hfc. injection H as <- <-. apply tls_filter_chain_spec in Hfc as [Hv Hf]. rewrite Hv.
    split; [done|]. split; [constructor|]. split; [done|]. split; [done|]. split; [|done].
    intros fc' Hfc'. exfalso. destruct (I2 _ _ Hfc') as (key' & c' & E & Hfk). unfold fc_key in Hfk.
    destruct (ch_context c'); [congruence|]. pose proof (cw_names _ _ _ _ Hwf) as Hn. rewrite Ec in Hn.
    destruct Hn as [[s Hn] _]. rewrite Hfk in Hn. discriminate Hn.
  - destruct (udp && h3); [done|]. injection H as <- <-. split; [done|]. destruct (dget "http" fcs) as [fc|] eqn:E; cbn [default].
    2: { unfold shared_chain. cbn. split; [constructor|]. done. }
    unfold id. destruct (I1 _ _ E) as [Hok Hf]. split; [done|]. split; [done|]. split; [|split; [by intros ? [= ->]|done]].
    intros k n Hin. destruct (dget k (hf_vhosts fc)) as [vh|] eqn:Ev; [|done]. exfalso.
    destruct (I3 _ _ _ _ E Ev) as (key' & c' & n' & _ & _ & E' & Hfk & Hn' & _).
    pose proof (Hwfs _ _ E') as Hwf'. apply elem_of_dget in Hin; [|done].
    assert (ch_context c' = None) as Ec'.
    { eapply (fc_key_cleartext _ _ _ _ key c); [done| |done]. rewrite <- Hfk. unfold fc_key. by rewrite Ec. }
    destruct (cw_serves _ _ _ _ Hwf _ _ Hin) as (h1 & _ & _ & _ & Hk1). destruct (cw_serves _ _ _ _ Hwf' _ _ Hn') as (h2 & _ & _ & _ & Hk2).
    rewrite Ec in Hk1. rewrite Ec' in Hk2. congruence.
Qed.

Lemma add_filter_chain_inv ctx hs l cf dn fcs key c fcs' :
  (∀ k' c', dget k' dn = Some c' → chain_wf ctx hs k' c') → chain_wf ctx hs key c → hosts_keyed cf (ch_hosts c) →
  dget key dn = None → fcs_inv (vl_irlistener l) dn fcs →
  add_filter_chain ctx l cf fcs (key, c) = Ok fcs' → fcs_inv (vl_irlistener l) (dn ++ [(key, c)]) fcs'.
Proof.
  intros Hwfs Hwf Hk Hnew Hinv H. pose proof Hinv as [I0 I1 I2 I3 I4]. unfold add_filter_chain in H.
  assert (∀ key' c' k n, dget key' (dn ++ [(key, c)]) = Some c' → dget k (ch_hosts c') = Some (CHost n) →
    dget key' dn = Some c' ∧ key' ≠ key ∨ key' = key ∧ c' = c) as Hcase.
  { intros key' c' k n. rewrite dget_snoc. destruct (dget key' dn) eqn:E.
    - intros [= ->] _. left. split; [done|]. intros ->. congruence.
    - case_bool; [|done]. intros [= <-] _. by right. }
  assert (∀ key' c', dget key' dn = Some c' → dget key' (dn ++ [(key, c)]) = Some c') as Hold.
  { intros key' c' E. by rewrite dget_snoc, E. }
  destruct (is_http c) eqn:Eh.
  2: { injection H as <-. split; [done|done| | |].
    - intros fk fc Hf. destruct (I2 _ _ Hf) as (key' & c' & ? & ?). eauto.
    - intros fk fc k vh Hf Hv. destruct (I3 _ _ _ _ Hf Hv) as (key' & c' & n & rs & ds & E & ?). exists key', c', n, rs, ds. eauto.
    - intros key' c' k n E Hn Hcl. destruct (Hcase _ _ _ _ E Hn) as [[E' _]|[-> ->]]; [by eapply I4|].
      exfalso. eapply not_http_host; [done|]. by apply dget_elem_of. }
  bind_step H as udp Hudp. bind_step H as h3 Hh3. bind_step H as start Hst.
  destruct start as [[fk fc0]|].
  2: { injection H as <-. destruct (ch_context c) as [i|] eqn:Ec; [by bind_step Hst as x Hx|].
    assert (udp && h3 = true) as Hb by (by destruct (udp && h3)). split; [done|done| | |].
    - intros fk fc Hf. destruct (I2 _ _ Hf) as (key' & c' & ? & ?). eauto.
    - intros fk fc k vh Hf Hv. destruct (I3 _ _ _ _ Hf Hv) as (key' & c' & n & rs & ds & E & ?). exists key', c', n, rs, ds. eauto.
    - intros key' c' k n E Hn Hcl. destruct (Hcase _ _ _ _ E Hn) as [[E' _]|[-> ->]]; [by eapply I4|].
      destruct (Hcl Ec) as (u & h & Hu & Hh & Hf). congruence. }
  apply (start_chain_spec _ hs (vl_irlistener l) _ _ dn) in Hst as (-> & Hok0 & Hf0 & Hnone & Hsame & Hprev); [|done..].
  bind_step H as fc1 Hfc. injection H as <-.
  apply add_vhosts_spec in Hfc as (J1 & J2 & J3 & J4 & J5); [|done..].
  assert (dget key (dn ++ [(key, c)]) = Some c) as Hself. { by rewrite dget_snoc, Hnew, bool_decide_true. }
  split; [by apply dict_ok_dset|..].
  - intros fk fc. rewrite dget_dset. case_bool; [|apply I1]. intros [= <-]. by rewrite J1.
  - intros fk fc. rewrite dget_dset. case_bool as E; [intros _; by exists key, c|].
    intros Hf. destruct (I2 _ _ Hf) as (key' & c' & ? & ?). eauto.
  - intros fk fc k vh. rewrite dget_dset. case_bool as E.
    + intros [= <-] Hv. subst fk. destruct (J5 _ _ Hv) as [Hv'|(n & rs & ds & Hin & Hrs & Hds & Hvh)].
      * destruct (I3 _ _ _ _ (Hprev _ _ Hv') Hv') as (key' & c' & n & rs & ds & E & ?). exists key', c', n, rs, ds. eauto.
      * apply elem_of_dget in Hin; [|apply Hk]. by exists key, c, n, rs, ds.
    + intros Hf Hv. destruct (I3 _ _ _ _ Hf Hv) as (key' & c' & n & rs & ds & E' & ?). exists key', c', n, rs, ds. eauto.
  - intros key' c' k n E Hn Hcl. destruct (Hcase _ _ _ _ E Hn) as [[E' Hne]|[-> ->]].
    + destruct (I4 _ _ _ _ E' Hn Hcl) as (fc & Hfc & [vh Hvh]). rewrite dget_dset. case_bool as Ef; [|eauto].
      exists fc1. split; [done|]. rewrite Ef in Hfc. rewrite (Hsame _ Hfc) in J3. rewrite (J3 _ _ Hvh). eauto.
    + exists fc1. rewrite dget_dset_eq. split; [done|]. eapply J4. by apply dget_elem_of.
Qed.

Lemma filter_chains_inv ctx hs l cf chains fcs :
  dict_ok chains → (∀ key c, dget key chains = Some c → chain_wf ctx hs key c ∧ hosts_keyed cf (ch_hosts c)) →
  fold_res (add_filter_chain ctx l cf) chains [] = Ok fcs → fcs_inv (vl_irlistener l) chains fcs.
Proof.
  intros Hd Hwf H.
  assert (∀ rest dn fcs0, dn ++ rest = chains → fcs_inv (vl_irlistener l) dn fcs0 →
    fold_res (add_filter_chain ctx l cf) rest fcs0 = Ok fcs → fcs_inv (vl_irlistener l) chains fcs) as Hgen.
  { intros rest. induction rest as [|[key c] rest IH]; intros dn fcs0 Hdn Hinv Hf; cbn [fold_res] in Hf.
    { injection Hf as <-. by rewrite app_nil_r in Hdn; subst. }
    bind_step Hf as fcs1 H1. apply (IH (dn ++ [(key, c)]) fcs1); [by rewrite <- app_assoc| |done].
    assert (dget key chains = Some c) as Hkey. { apply elem_of_dget; [done|]. subst chains. set_solver. }
    assert (∀ k' c', dget k' dn = Some c' → dget k' chains = Some c') as Hsub.
    { intros k' c' E. apply elem_of_dget; [done|]. subst chains. apply elem_of_app. left. by apply dget_elem_of. }
    eapply (add_filter_chain_inv _ hs); [| | | |done|exact H1].
    - intros k' c' E. by apply Hwf, Hsub.
    - by apply Hwf.
    - exact (proj2 (Hwf _ _ Hkey)).
    - apply dget_None. subst chains. unfold dict_ok, dkeys in Hd. rewrite fmap_app in Hd. apply NoDup_app in Hd as (_ & Hd & _).
      intros Hin. apply (Hd _ Hin). by left. }
  apply (Hgen chains [] []); [done| |done]. split; [constructor|done..].
Qed.

Lemma filter_vhosts_config n (d : dict pyval) :
  filter_vhosts (PDict [("name", n); ("typed_config", PDict d)])
  = match dget "route_config" d with Some rc => list_field "virtual_hosts" rc | None => [] end.
Proof. done. Qed.

Lemma finish_filter_chain_vhosts ctx base fc p :
  dict_ok base → dget "filters" (hf_self fc) = None → finish_filter_chain ctx base fc = Ok p →
  fc_vhosts p = PDict <$> dvalues (hf_vhosts fc).
Proof.
  intros Hb Hf H. unfold finish_filter_chain in H. bind_step H as s1 H1. bind_step H as s2 H2. bind_step H as s3 H3. injection H as <-.
  unfold fc_vhosts, list_field. cbn [field].
  assert (∀ m, dget "filters" (hf_self fc ++ [("filters", m)]) = Some m) as Hd.
  { intros m. by rewrite dget_snoc, Hf. }
  rewrite Hd. cbn [fmap list_fmap mjoin list_join]. rewrite app_nil_r, filter_vhosts_config.
  match goal with |- context [dupdate ?a ?d] => assert (dict_ok d ∧
    dget "route_config" d = Some (PDict [("virtual_hosts", PList (List.map PDict (dvalues (hf_vhosts fc))))])) as [Hok Hrc] end.
  { destruct s1, s2, s3; (split; [by eauto 10 with emissary|]); by dlook. }
  rewrite dget_dupdate, Hrc by done. done.
Qed.

Lemma tcp_filter_chain_vhosts ctx irl cf c gi p : tcp_filter_chain ctx irl cf c gi = Ok p → fc_vhosts p = [].
Proof.
  intros H. unfold tcp_filter_chain in H. bind_step H as g Hg. bind_step H as cl Hcl. bind_step H as pre Hpre.
  bind_step H as name Hname. bind_step H as [mt d] Hd. injection H as <-.
  destruct (ch_context c).
  - bind_step Hd as o Ho. bind_step Hd as e He. by injection Hd as <- <-.
  - by injection Hd as <- <-.
Qed.
End written.

(** ** What the variants of a route accept *)

Definition route_wf (r : V3Route) : Prop :=
  dict_ok (rt_self r) ∧ ∃ mt hs, dget "match" (rt_self r) = Some (PDict mt) ∧ has_headers mt hs.

(** Envoy takes a route that accepts a request, for a draw. *)
Definition chosen (re : string → string → bool) (rq : request) (draw : Z) (d : dict pyval) : bool :=
  route_accepts re rq d && bool_decide (draw < numerator d)%Z.

(** The same, but for the protocol that the client used *)
Definition chosen_otherwise (re : string → string → bool) (rq : request) (draw : Z) (d : dict pyval) : bool :=
  match dget "match" d with
  | Some (PDict mt) => accepts_otherwise re rq mt (items "headers" mt) && bool_decide (draw < numerator d)%Z
  | _ => false
  end.

Definition by_https (rq : request) : bool := bool_decide (dget xfp_name (rq_headers rq) = Some "https").

Lemma numerator_match d d' mt hs :
  dget "match" d = Some (PDict mt) → dget "match" d' = Some (PDict (set_nonempty "headers" hs mt)) → numerator d' = numerator d.
Proof. intros H H'. unfold numerator. rewrite H, H'. cbn [mbind option_bind field]. by rewrite dget_set_nonempty. Qed.

(** What a variant is, for each matcher *)
Lemma fresh_variant_match ctx r m a v :
  m ∈ matchers → route_wf r → fresh_variant ctx (rt_self r) m a = Ok v →
  ∃ mt hs hs', dget "match" (rt_self r) = Some (PDict mt) ∧ has_headers mt hs
    ∧ dget "match" v = Some (PDict (if bool_decide (m = "always") then mt else set_nonempty "headers" hs' mt))
    ∧ (m ≠ "always" → hs' = kept hs ++ (if bool_decide (m = "xfp-https") then
         [PDict [("name", PStr xfp_name); ("string_match", PDict [("exact", PStr "https")])]] else []))
    ∧ if bool_decide (lower a = "route") then dget "route" v = dget "route" (rt_self r) ∧ dget "redirect" v = dget "redirect" (rt_self r)
      else dget "route" v = None ∧ dget "redirect" v = Some (PDict [("https_redirect", PBool true)]).
Proof.
  intros Hm (Hok & mt & hs & Hmt & Hh) H. apply fresh_variant_Ok in H as (mh & w & ah & A1 & A2 & A3 & A4).
  pose proof (action_handler_known _ _ _ A3) as Ha.
  assert (∃ hs', dget "match" w = Some (PDict (if bool_decide (m = "always") then mt else set_nonempty "headers" hs' mt))
    ∧ (m ≠ "always" → hs' = kept hs ++ (if bool_decide (m = "xfp-https") then
         [PDict [("name", PStr xfp_name); ("string_match", PDict [("exact", PStr "https")])]] else []))
    ∧ dict_ok w ∧ ∀ k, k ≠ "match" → dget k w = dget k (rt_self r)) as (hs' & B1 & B2 & B3 & B4).
  { unfold matchers in Hm. rewrite !elem_of_cons, elem_of_nil in Hm. destruct Hm as [->|[->|[->|[]]]]; injection A1 as <-.
    - injection A2 as <-. exists []. split; [done|]. by split.
    - apply (matcher_xfp_headers _ mt hs) in A2 as ->; [|done..]. eexists. rewrite dget_dset_eq. split; [done|]. split; [done|].
      split; [by apply dict_ok_dset|]. intros k Hk. by rewrite dget_dset_ne.
    - apply (matcher_xfp_headers _ mt hs) in A2 as ->; [|done..]. eexists. rewrite dget_dset_eq. split; [done|]. split; [done|].
      split; [by apply dict_ok_dset|]. intros k Hk. by rewrite dget_dset_ne. }
  exists mt, hs, hs'. split; [done|]. split; [done|].
  unfold actions in Ha. rewrite !elem_of_cons, elem_of_nil in Ha. destruct Ha as [Ha|[Ha|[]]]; rewrite Ha in *; injection A3 as <-.
  - injection A4 as <-. split; [done|]. split; [done|]. rewrite bool_decide_true by done. by split; apply B4.
  - apply action_redirect_spec in A4 as (C1 & C2 & C3); [|done]. rewrite C1. split; [done|]. split; [done|].
    by rewrite bool_decide_false.
Qed.

Lemma chosen_https ctx re rq draw r a v :
  route_wf r → fresh_variant ctx (rt_self r) "xfp-https" a = Ok v →
  chosen re rq draw v = chosen_otherwise re rq draw (rt_self r) && by_https rq.
Proof.
  intros Hwf H. apply fresh_variant_match in H as (mt & hs & hs' & Hm & Hh & Hv & Hhs & _); [|set_solver|done].
  rewrite Hhs, (bool_decide_false (_ = "always")), bool_decide_true in Hv by done. unfold chosen, chosen_otherwise, route_accepts. rewrite (numerator_match _ _ _ _ Hm Hv), Hv, Hm.
  rewrite accepts_headers by (right; by destruct (kept hs)). rewrite forallb_app. cbn [forallb].
  rewrite xfp_accepts, andb_true_r, (has_headers_items _ _ Hh). unfold accepts_otherwise. fold (by_https rq).
  destruct (path_accepts re rq mt), (forallb (header_accepts re rq) (kept hs)), (forallb (query_accepts re rq) _), (by_https rq);
    cbn; by rewrite ?andb_true_r, ?andb_false_r.
Qed.

Lemma chosen_http ctx re rq draw r a v :
  route_wf r → fresh_variant ctx (rt_self r) "xfp-http" a = Ok v →
  chosen re rq draw v = true → chosen_otherwise re rq draw (rt_self r) = true.
Proof.
  intros Hwf H. apply fresh_variant_match in H as (mt & hs & hs' & Hm & Hh & Hv & Hhs & _); [|set_solver|done].
  rewrite Hhs, !bool_decide_false, app_nil_r in Hv by done. unfold chosen, chosen_otherwise, route_accepts.
  rewrite (numerator_match _ _ _ _ Hm Hv), Hv, Hm, (has_headers_items _ _ Hh). unfold accepts_otherwise.
  destruct (decide (kept hs = [])) as [E|E].
  - rewrite E. cbn [set_nonempty forallb]. unfold match_accepts. rewrite !andb_true_iff. tauto.
  - rewrite accepts_headers by (by right). done.
Qed.

(** ** Keys that are written *)

Lemma external_keys_dget d d' k c :
  external_keys d = Ok d' → head_str k = Ok c → c ≠ "_"%char → dget k d' = dget k d.
Proof.
  revert d'. induction d as [|[k1 v] d IH]; intros d' H Hk Hc; cbn [external_keys] in H; [by injection H as <-|].
  bind_step H as c1 Hc1. bind_step H as d1 Hd1. injection H as <-. cbn [dget].
  destruct (bool_decide_reflect (c1 = "_"%char)) as [->|Hc1'].
  - rewrite (IH _ Hd1) by done. rewrite bool_decide_false; [done|]. intros ->. congruence.
  - cbn [dget]. by rewrite (IH _ Hd1).
Qed.

Lemma written_chosen re rq draw d d' : external_keys d = Ok d' → chosen re rq draw d' = chosen re rq draw d.
Proof.
  intros H. unfold chosen, route_accepts, numerator. by rewrite (external_keys_dget _ _ "match" "m" H).
Qed.

Section theorems.
Context {C : Type} `{ops : !CacheOps C ref}.
Implicit Types cf : v3_config C.

(** Where a route of a virtual host comes from *)
Lemma vhost_routes_elem ctx model cf self k locs rs r' :
  vhost_routes ctx model cf self k locs = Ok rs → r' ∈ rs →
  ∃ r cands ma a, r ∈ vs_objs (cf_v3 cf) ∧ candidates model self = Ok cands ∧ ma ∈ cands
    ∧ fresh_variant (lc_v3 ctx) (rt_self r) ma.1 a = Ok (rt_self r')
    ∧ ∃ mt prefix, dget "match" (rt_self r) = Some mt ∧ vget "prefix" PNone mt = Ok prefix
        ∧ py_lower (if py_eqb prefix (PStr acme_prefix) then PStr "Route" else ma.2) = Ok a
        ∧ py_eqb (if py_eqb prefix (PStr acme_prefix) then PStr "Route" else ma.2) (PStr "Reject") = false.
Proof.
  intros H Hin. unfold vhost_routes, taken_routes in H. bind_step H as taken Ht. bind_step Ht as objs Hobjs.
  apply filter_res_Ok in Ht as ->. bind_step H as l Hl. injection H as <-.
  apply list_elem_of_In, in_concat in Hin as (ws & Hws & Hin). apply list_elem_of_In in Hws, Hin.
  destruct (map_res_elem _ _ _ _ Hl Hws) as (r & Hr & Hw). apply list_elem_of_In, filter_In in Hr as [Hr _]. apply list_elem_of_In in Hr.
  destruct (map_res_elem _ _ _ _ Hobjs Hr) as (i & _ & Hi). apply res_of_option_Ok in Hi.
  unfold wanted_routes in Hw. bind_step Hw as cands Hc. bind_step Hw as cl Hcl. injection Hw as <-.
  apply list_elem_of_In, in_concat in Hin as (x & Hx & Hin). apply list_elem_of_In in Hx, Hin.
  destruct (map_res_elem _ _ _ _ Hcl Hx) as (ma & Hma & Hcand).
  unfold candidate_routes in Hcand. bind_step Hcand as mt Hmt. apply dget_exn_Ok in Hmt. bind_step Hcand as prefix Hp.
  destruct (py_eqb _ (PStr "Reject")) eqn:Er; [injection Hcand as <-; by apply elem_of_nil in Hin|].
  bind_step Hcand as a Ha. bind_step Hcand as v Hv. injection Hcand as <-. apply list_elem_of_singleton in Hin as ->.
  exists r, cands, ma, a. split; [by eapply list_elem_of_lookup_2|]. split; [done|]. split; [done|]. split; [done|]. by exists mt, prefix.
Qed.
Lemma map_res_total {A B} (f : A → res B) l ys x : map_res f l = Ok ys → x ∈ l → ∃ y, f x = Ok y.
Proof.
  intros H Hx. apply map_res_Forall2 in H. apply list_elem_of_lookup in Hx as [i Hi].
  destruct (Forall2_lookup_l _ _ _ _ _ H Hi) as (y & _ & ?). eauto.
Qed.

Lemma built_keyed ctx irl cf l cf' key c :
  listener_built ctx irl cf l cf' → dget key (vl_chains l) = Some c → hosts_keyed cf' (ch_hosts c).
Proof.
  intros Hb Hc. pose proof (lb_chains _ _ _ _ _ Hb _ _ Hc) as [W1 _ W3 _]. split; [done|]. intros k n Hin.
  apply elem_of_dget in Hin; [|done]. destruct (W3 _ _ Hin) as (h & Hh & Hk & _).
  destruct (hosts_same_after _ _ _ _ (lb_hosts _ _ _ _ _ Hb) Hh) as (h' & Hh' & _ & Hs). exists h'. split; [done|].
  by rewrite <- Hs.
Qed.

Lemma built_filter_chains ctx irl cf l cf' base tcp http :
  listener_built ctx irl cf l cf' → vl_http l = Some base → finalize_http ctx (vl_with l (vl_chains l) tcp) cf' base = Ok http →
  ∃ fcs, fcs_inv irl (vl_chains l) fcs ∧ map_res (finish_filter_chain ctx base) (dvalues fcs) = Ok http.
Proof.
  intros Hb Hbase H. unfold finalize_http in H. bind_step H as fcs Hf. exists fcs. split; [|done].
  rewrite <- (lb_irlistener _ _ _ _ _ Hb).
  apply (filter_chains_inv _ (cf_hosts cf)) in Hf; [done|apply Hb|]. intros key c Hc.
  split; [by eapply lb_chains|by eapply built_keyed].
Qed.

(** A virtual host that is written is that of a Host, with the routes wanted. *)
Lemma built_vhosts ctx irl cf l cf' model fc vh :
  listener_built ctx irl cf l cf' → dget "securityModel" irl = Some model →
  fc ∈ vl_filter_chains l → vh ∈ fc_vhosts fc →
  ∃ d k n h rs ds, vh = PDict d ∧ vhost_is d k ds ∧ host_at cf' n k h
    ∧ vhost_routes ctx model cf' (ho_self h) k (cf_variants cf').*1 = Ok rs ∧ map_res written_route rs = Ok ds.
Proof.
  intros Hb Hm Hfc Hvh. destruct (lb_written _ _ _ _ _ Hb) as (cf1 & chains1 & tcp & http & Ht & Hw & Hh).
  rewrite Hw in Hfc. apply elem_of_app in Hfc as [Hfc|Hfc].
  { exfalso. unfold finalize_tcp in Ht. bind_step Ht as l1 Hl1. injection Ht as <-.
    apply list_elem_of_In, in_concat in Hfc as (x & Hx & Hfc). apply list_elem_of_In in Hx, Hfc.
    destruct (map_res_elem _ _ _ _ Hl1 Hx) as (c & _ & Hc). destruct (map_res_elem _ _ _ _ Hc Hfc) as (gi & _ & Hgi).
    apply tcp_filter_chain_vhosts in Hgi. rewrite Hgi in Hvh. by apply elem_of_nil in Hvh. }
  destruct (vl_http l) as [base|] eqn:Eb; [|subst http; by apply elem_of_nil in Hfc].
  destruct (built_filter_chains _ _ _ _ _ _ _ _ Hb Eb Hh) as (fcs & [I0 I1 I2 I3 I4] & Hf).
  destruct (map_res_elem _ _ _ _ Hf Hfc) as (hf & Hhf & Hfin). apply list_elem_of_fmap in Hhf as ([fk hf'] & -> & Hin).
  cbn [snd] in *.
  apply elem_of_dget in Hin; [|done]. destruct (I1 _ _ Hin) as [Hok Hfil].
  rewrite (finish_filter_chain_vhosts _ _ _ _ (lb_base _ _ _ _ _ Hb _ Eb) Hfil Hfin) in Hvh.
  apply list_elem_of_fmap in Hvh as (d & -> & Hd). apply list_elem_of_fmap in Hd as ([k d'] & -> & Hd). cbn [snd].
  apply elem_of_dget in Hd; [|done]. destruct (I3 _ _ _ _ Hin Hd) as (key & c & n & rs & ds & Hc & _ & Hn & Hrs & Hds & Hvh).
  pose proof (built_keyed _ _ _ _ _ _ _ Hb Hc) as [_ Hk]. destruct (Hk k n) as (h & Hh' & Hkn); [by apply dget_elem_of|].
  destruct (lb_routes _ _ _ _ _ Hb key c k n h model) as (rs' & Hv & Hrs'); [by rewrite Eb|done..|].
  assert (rs' = rs) as -> by congruence. by exists d', k, n, h, rs, ds.
Qed.


(** C13. The chains of an Envoy listener are well-formed: a chain serves one TCP
    group or only Hosts, each under its own hostname and once; the Hosts of a
    chain that terminates TLS have contexts with the name and namespace of the
    chain's; a chain for TLS is kept under the server names it matches, and a
    chain in cleartext has none. *)
Theorem listener_chains_wf ctx irl cf l cf' key c :
  variants_current ctx cf (cf_variants cf) → is_Some (dget "securityModel" irl) →
  new_listener ctx irl cf = Ok (l, cf') → dget key (vl_chains l) = Some c → chain_wf ctx (cf_hosts cf) key c.
Proof. intros Hcur Hm H. by eapply lb_chains, new_listener_built. Qed.

(** ** Cleartext requests *)

Lemma acme_prefix_eq mt prefix : vget "prefix" PNone (PDict mt) = Ok prefix → py_eqb prefix (PStr acme_prefix) = true →
  dget "prefix" mt = Some (PStr acme_prefix).
Proof.
  intros [= <-]. unfold dget_default. destruct (dget "prefix" mt) as [v|]; cbn [default from_option id]; [|done].
  destruct v; cbn [py_eqb]; try done. intros H. apply bool_decide_eq_true in H. by subst.
Qed.

(** A route for the challenges of ACME *)
Definition acme_route (d : dict pyval) : Prop := ∃ mt, dget "match" d = Some (PDict mt) ∧ dget "prefix" mt = Some (PStr acme_prefix).

(** The action of a Host on cleartext requests is not to route them. *)
Definition no_cleartext (self : dict pyval) : Prop :=
  ∃ v, dget "insecure_action" self = Some v ∧ (v = PStr "Redirect" ∨ v = PStr "Reject" ∨ v = PNone).

Lemma http_candidate_not_chosen ctx re rq draw k r act w :
  route_wf r → candidate_routes ctx k r ("xfp-http", act) = Ok w → chosen_otherwise re rq draw (rt_self r) = false →
  Forall (λ v, chosen re rq draw (rt_self v) = false) w.
Proof.
  intros Hwf H Ho. unfold candidate_routes in H. bind_step H as mt Hmt. bind_step H as p Hp. cbn [fst snd] in H.
  destruct (py_eqb _ (PStr "Reject")); [injection H as <-; constructor|]. bind_step H as a Ha. bind_step H as v Hv. injection H as <-.
  constructor; [|constructor]. cbn [rt_self]. apply not_true_iff_false. intros Hc.
  eapply chosen_http in Hc; [|done..]. congruence.
Qed.

Lemma accepts_by_https ctx re rq r a v :
  route_wf r → fresh_variant ctx (rt_self r) "xfp-https" a = Ok v → route_accepts re rq v = true → by_https rq = true.
Proof.
  intros Hwf Hf Ha. pose proof (chosen_https _ re rq (numerator v - 1) _ _ _ Hwf Hf) as H. unfold chosen in H.
  rewrite Ha, bool_decide_true in H by lia. symmetry in H. by apply andb_true_iff in H as [_ ?].
Qed.

Lemma vhost_route_cleartext re rq ctx model cf self k locs rs r d :
  py_eqb model (PStr "SECURE") = false → Forall route_wf (vs_objs (cf_v3 cf)) → no_cleartext self → by_https rq = false →
  vhost_routes ctx model cf self k locs = Ok rs → r ∈ rs → external_keys (rt_self r) = Ok d →
  route_accepts re rq d = true →
  acme_route d ∨ dget "route" d = None ∧ dget "redirect" d = Some (PDict [("https_redirect", PBool true)]).
Proof.
  intros Hmod Hwf (act & Hact & Hno) Hq Hv Hr Hd Hacc.
  destruct (vhost_routes_elem _ _ _ _ _ _ _ _ Hv Hr) as (base & cands & ma & a & Hb & Hc & Hma & Hf & mt0 & prefix & Hmt0 & Hp & Ha & Hrej).
  pose proof (proj1 (Forall_forall _ _) Hwf _ Hb) as Hwfb.
  pose proof (proj1 (Forall_forall _ _) (candidates_known _ _ _ Hc) _ Hma) as Hm. cbn beta in Hm.
  assert (by_https rq = true ∨ ma.2 = act ∧ act ≠ PNone) as [?|[Hma2 Hnn]].
  { unfold candidates in Hc. bind_step Hc as sec Hsec. bind_step Hc as ins Hins. apply getattr_Ok in Hins. injection Hc as <-.
    rewrite Hmod in Hma. apply elem_of_app in Hma as [Hma|Hma].
    - left. assert (ma.1 = "xfp-https") as Hm1.
      { destruct sec, (py_eqb model (PStr "INSECURE")); (apply elem_of_nil in Hma; done) || (apply list_elem_of_singleton in Hma; by subst ma). }
      rewrite Hm1 in Hf. eapply accepts_by_https; [exact Hwfb|exact Hf|].
      unfold route_accepts in *. by rewrite (external_keys_dget _ _ "match" "m" Hd) in Hacc.
    - right. assert (ins = act) as -> by congruence. destruct act; try (apply list_elem_of_singleton in Hma; by subst ma).
      by apply elem_of_nil in Hma. }
  { congruence. }
  destruct (fresh_variant_match _ _ _ _ _ Hm Hwfb Hf) as (mt & hs & hs' & Hmt & _ & Hmv & _ & Hact').
  assert (mt0 = PDict mt) as -> by congruence.
  destruct (py_eqb prefix (PStr acme_prefix)) eqn:Ep.
  - left. pose proof (acme_prefix_eq _ _ Hp Ep) as Hpre. eexists. rewrite (external_keys_dget _ _ "match" "m" Hd), Hmv by done.
    split; [done|]. destruct (bool_decide _); [done|]. by rewrite dget_set_nonempty.
  - right. rewrite (external_keys_dget _ _ "route" "r" Hd), (external_keys_dget _ _ "redirect" "r" Hd) by done.
    destruct Hno as [->|[->| ->]]; rewrite Hma2 in *; [|done|done]. injection Ha as <-. done.
Qed.

(** C7. A listener that does not take its requests to be secure never routes a
    request that did not come by [https] for a hostname whose Hosts redirect or
    reject such requests: a route that accepts the request redirects it to
    [https], unless it is the route of an ACME challenge. *)
Theorem cleartext_not_routed re rq ctx irl cf l cf' model k fc vh ds d :
  variants_current ctx cf (cf_variants cf) → Forall route_wf (vs_objs (cf_v3 cf)) →
  dget "securityModel" irl = Some model → py_eqb model (PStr "SECURE") = false →
  (∀ n h, host_at cf n k h → no_cleartext (ho_self h)) →
  new_listener ctx irl cf = Ok (l, cf') →
  fc ∈ vl_filter_chains l → PDict vh ∈ fc_vhosts fc → vhost_is vh k ds → PDict d ∈ ds →
  dget xfp_name (rq_headers rq) ≠ Some "https" → route_accepts re rq d = true →
  acme_route d ∨ dget "route" d = None ∧ dget "redirect" d = Some (PDict [("https_redirect", PBool true)]).
Proof.
  intros Hcur Hwf Hm Hmod Hno H Hfc Hvh [Hdom Hrt] Hd Hq Hacc.
  assert (listener_built ctx irl cf l cf') as Hb by (by eapply new_listener_built).
  destruct (built_vhosts _ _ _ _ _ _ _ _ Hb Hm Hfc Hvh) as (vh' & k' & n & h & rs & ds' & [= <-] & [Hdom' Hrt'] & [Hh Hk] & Hv & Hds).
  assert (k' = k) as -> by congruence. assert (ds' = ds) as -> by congruence.
  destruct (map_res_elem _ _ _ _ Hds Hd) as (r & Hr & Hw). unfold written_route in Hw. bind_step Hw as d' Hd'. injection Hw as ->.
  destruct (hosts_same_before _ _ _ _ (lb_hosts _ _ _ _ _ Hb) Hh) as (h0 & Hh0 & _ & Hsame).
  destruct (Hno n h0) as (v & Hv0 & Hvv); [by split; [|rewrite Hsame]|].
  eapply vhost_route_cleartext; [exact Hmod| | | |exact Hv|exact Hr|exact Hd'|exact Hacc].
  - by rewrite (lb_objs _ _ _ _ _ Hb).
  - exists v. by rewrite <- Hsame.
  - unfold by_https. by apply bool_decide_false.
Qed.

(** ** Requests that came by TLS *)

(** The first written route that Envoy takes *)
Definition first_chosen (re : string → string → bool) (rq : request) (draw : Z) (ds : list pyval) : option pyval :=
  List.find (λ v, match v with PDict d => chosen re rq draw d | _ => false end) ds.

(** The routes of a virtual host come in groups, each led by the variant for
    [https]. *)
Lemma wanted_https ctx model self k r w re rq draw :
  py_eqb model (PStr "SECURE") = false → py_eqb model (PStr "INSECURE") = false →
  (∃ s, dget "secure_action" self = Some s ∧ s ≠ PNone) → route_wf r → by_https rq = true →
  wanted_routes ctx model self k r = Ok w →
  if chosen_otherwise re rq draw (rt_self r)
  then ∃ v w', w = v :: w' ∧ chosen re rq draw (rt_self v) = true
    ∧ dget "route" (rt_self v) = dget "route" (rt_self r) ∧ dget "redirect" (rt_self v) = dget "redirect" (rt_self r)
  else Forall (λ v, chosen re rq draw (rt_self v) = false) w.
Proof.
  intros Hs Hi (sec & Hsec & Hnn) Hwf Hq H. unfold wanted_routes in H. bind_step H as cands Hc. bind_step H as l Hl. injection H as <-.
  unfold candidates in Hc. bind_step Hc as s' Hs'. apply getattr_Ok in Hs'. assert (s' = sec) as -> by congruence.
  bind_step Hc as ins Hins. injection Hc as <-. rewrite Hs, Hi in Hl.
  assert (map_res (candidate_routes ctx k r) (("xfp-https", PStr "Route") :: match ins with PNone => [] | _ => [("xfp-http", ins)] end) = Ok l) as Hl'.
  { by destruct sec, ins. }
  clear Hl. cbn [map_res] in Hl'. bind_step Hl' as w1 Hw1. bind_step Hl' as l2 Hl2. injection Hl' as <-.
  assert (∃ v, w1 = [v] ∧ fresh_variant ctx (rt_self r) "xfp-https" "route" = Ok (rt_self v)) as (v & -> & Hv).
  { unfold candidate_routes in Hw1. bind_step Hw1 as mt Hmt. bind_step Hw1 as p Hp. cbn [snd fst] in Hw1.
    destruct (py_eqb p _); bind_step Hw1 as a Ha; injection Ha as <-; bind_step Hw1 as v Hv; injection Hw1 as <-; by eexists. }
  pose proof (chosen_https _ re rq draw _ _ _ Hwf Hv) as Hcv. rewrite Hq, andb_true_r in Hcv.
  destruct (chosen_otherwise re rq draw (rt_self r)) eqn:Eo.
  - exists v. cbn. eexists. split; [done|]. split; [done|].
    by apply fresh_variant_match in Hv as (? & ? & ? & _ & _ & _ & _ & ?); [|set_solver|].
  - constructor; [done|]. cbn [app]. destruct ins; [injection Hl2 as <-; constructor|..];
      (cbn [map_res] in Hl2; bind_step Hl2 as w2 Hw2; injection Hl2 as <-; cbn [List.concat]; rewrite app_nil_r;
       by eapply http_candidate_not_chosen).
Qed.

Lemma find_concat {A} (f : A → bool) l ls :
  List.find f (List.concat (l :: ls)) = match List.find f l with Some x => Some x | None => List.find f (List.concat ls) end.
Proof. cbn. induction l as [|x l IH]; cbn; [done|]. by destruct (f x). Qed.

Lemma find_none {A} (f : A → bool) l : Forall (λ x, f x = false) l → List.find f l = None.
Proof. induction 1 as [|x l Hx _ IH]; cbn; [done|]. by rewrite Hx. Qed.

(** Envoy's choice among routes is its choice among the routes written. *)
Lemma first_chosen_written re rq draw rs ds :
  map_res written_route rs = Ok ds →
  match List.find (λ r, chosen re rq draw (rt_self r)) rs with
  | Some r => ∃ d, external_keys (rt_self r) = Ok d ∧ first_chosen re rq draw ds = Some (PDict d)
  | None => first_chosen re rq draw ds = None
  end.
Proof.
  revert ds. induction rs as [|r rs IH]; intros ds H; cbn [map_res] in H; [by injection H as <-|].
  bind_step H as v Hv. bind_step H as ds' Hds. injection H as <-. unfold written_route in Hv. bind_step Hv as d Hd. injection Hv as <-.
  unfold first_chosen. cbn [List.find]. rewrite (written_chosen re rq draw _ _ Hd).
  destruct (chosen re rq draw (rt_self r)); [by exists d|]. by apply IH.
Qed.

Lemma vhost_routes_https ctx model cf self k locs rs bases re rq draw :
  py_eqb model (PStr "SECURE") = false → py_eqb model (PStr "INSECURE") = false →
  (∃ s, dget "secure_action" self = Some s ∧ s ≠ PNone) → Forall route_wf (vs_objs (cf_v3 cf)) → by_https rq = true →
  taken_routes ctx cf self locs = Ok bases → vhost_routes ctx model cf self k locs = Ok rs →
  match List.find (λ r, chosen_otherwise re rq draw (rt_self r)) bases with
  | Some r => ∃ v, List.find (λ r, chosen re rq draw (rt_self r)) rs = Some v
      ∧ dget "route" (rt_self v) = dget "route" (rt_self r) ∧ dget "redirect" (rt_self v) = dget "redirect" (rt_self r)
  | None => List.find (λ r, chosen re rq draw (rt_self r)) rs = None
  end.
Proof.
  intros Hs Hi Hsec Hwf Hq Ht H. unfold vhost_routes in H. rewrite Ht in H. cbn [mbind res_bind] in H.
  assert (Forall route_wf bases) as Hb.
  { unfold taken_routes in Ht. bind_step Ht as objs Hobjs. apply filter_res_Ok in Ht as ->. apply Forall_forall. intros r Hr.
    apply list_elem_of_In, filter_In in Hr as [Hr _]. apply list_elem_of_In in Hr.
    destruct (map_res_elem _ _ _ _ Hobjs Hr) as (i & _ & Hir). apply res_of_option_Ok in Hir.
    eapply Forall_forall; [exact Hwf|]. by eapply list_elem_of_lookup_2. }
  clear Ht. bind_step H as l Hl. injection H as <-. revert l Hl. induction Hb as [|r bases Hr _ IH]; intros l Hl; cbn [map_res] in Hl.
  { by injection Hl as <-. }
  bind_step Hl as w Hw. bind_step Hl as l' Hl'. injection Hl as <-. rewrite find_concat. cbn [List.find].
  pose proof (wanted_https _ _ _ _ _ _ re rq draw Hs Hi Hsec Hr Hq Hw) as H.
  destruct (chosen_otherwise re rq draw (rt_self r)).
  - destruct H as (v & w' & -> & Hv & ?). cbn [List.find]. rewrite Hv. by exists v.
  - rewrite (find_none _ w) by done. by apply IH.
Qed.


(** ** Hosts that are served *)

End theorems.

Lemma route_match_headers ctx group m fr mt : route_match ctx group m fr = Ok mt → ∃ hs, has_headers mt hs.
Proof.
  intros H. unfold route_match in H. bind_step H as mt0 H0. bind_step H as hs Hh. bind_step H as qs Hq. injection H as <-. exists hs.
  unfold has_headers. rewrite dget_set_nonempty by done. unfold set_nonempty. destruct hs; [right|left; by rewrite dget_dset_eq].
  split; [done|]. 
  destruct (bool_decide (_ = "prefix")) in H0; [by injection H0 as <-|].
  destruct (bool_decide (_ = "path")) in H0; [by injection H0 as <-|].
  bind_step H0 as r Hr. injection H0 as <-. unfold regex_matcher in Hr. bind_step Hr as n Hn. bind_step Hr as sz Hsz. by injection Hr as <-.
Qed.

(** The constructor makes routes that are well-formed. *)
Lemma V3Route_init_wf ctx ms cs g mapping r es : V3Route_init ctx ms cs g mapping = Ok (r, es) → route_wf r.
Proof.
  intros H. pose proof (V3Route_shape _ _ _ _ _ _ _ H) as (fr & failed & mt & red & _ & Hmt & _ & Hm & _).
  destruct (route_match_headers _ _ _ _ _ Hmt) as [hs Hh]. split; [|by exists mt, hs]. clear -H.
  unfold V3Route_init in H. bind_step H as u Hu. bind_step H as [fraction failed] Hf. bind_step H as mt Hmt.
  bind_step H as s1 H1. bind_step H as s2 H2. bind_step H as redirect Hr.
  assert (∀ gk k d d', dict_ok d → add_headers gk k (go_self g) d = Ok d' → dict_ok d') as Hadd.
  { intros gk k d d' Hd Ha. unfold add_headers in Ha. destruct (py_bool _) in Ha; [bind_step Ha as hs Hhs|]; injection Ha as <-; eauto with emissary. }
  assert (∀ gk k d, dict_ok d → dict_ok (remove_headers gk k (go_self g) d)) as Hrem.
  { intros gk k d Hd. unfold remove_headers. cbv zeta. destruct (py_bool (pget gk (go_self g))); auto with emissary. }
  assert (dict_ok s2) as Hs2.
  { eapply Hadd; [|exact H2]. eapply Hadd; [|exact H1].
    set (self := dset "match" (PDict mt) _).
    assert (dict_ok self) as Hself.
    { unfold self. apply dict_ok_dset.
      assert (dict_ok (if py_bool (pget "precedence" (go_self g)) then [("_precedence", pget "precedence" (go_self g))] else [])).
      { destruct (py_bool _); [apply NoDup_singleton|apply dict_ok_nil]. }
      destruct failed; [by apply dict_ok_dset|done]. }
    clearbody self. unfold filter_config. cbv zeta. destruct (_ || _); [by apply dict_ok_dset|].
    destruct (py_bool (dget_default "auth_context_extensions" _ _)); [by apply dict_ok_dset|done]. }
  destruct redirect; bind_step H as [d es'] Hd; injection H as <- <-; cbn [rt_self]; auto with emissary.
Qed.

(** ** An example *)

Definition demo_irl : dict pyval :=
  [("name", PStr "l"); ("bind_address", PStr "0.0.0.0"); ("port", PInt 8443); ("socket_protocol", PStr "TCP");
   ("statsPrefix", PStr "ingress_https"); ("securityModel", PStr "XFP"); ("insecure_only", PBool false);
   ("protocolStack", PList [PStr "TLS"; PStr "HTTP"; PStr "TCP"]); ("http3_enabled", PBool false);
   ("namespace_literal", PStr "*"); ("host_selector", PDict [])].
Definition demo_vhost_host : host_obj :=
  mkHost [("name", PStr "h"); ("namespace", PStr "default"); ("hostname", PStr "www.example.com");
          ("sni", PStr "www.example.com"); ("secure_action", PStr "Route"); ("insecure_action", PStr "Redirect");
          ("insecure_addl_port", PNone); ("metadata_labels", PDict []); ("_active", PBool true); ("_errored", PBool false)]
    (Some 0).
Definition demo_lctx : listener_ctx :=
  mkLCtx (mkHTTPCtx (mkV3Ctx [("envoy_log_type", PStr "text"); ("envoy_log_path", PStr "/dev/fd/1"); ("proper_case", PBool false)]
                       None []) [] [] None)
    [] "0.0.0.0" (mkTLS [demo_tls_context] [("h-context", 0)] PNone [] (mkSecrets [] [] [])) id.
Definition demo_config3 : v3_config NullCache :=
  mkConfig3 (mkV3 (mkIRState [demo_mo (um "a") 0] [demo_group [0]] [demo_cl "c0"] [("id1", 0)] [] NullCache_init [] [])
               [demo_route [0] (demo_mo (um "a") 0)] [] [])
    [(0, [])] [("h", demo_vhost_host)] [("tcp-0.0.0.0-8443", demo_irl)].
Definition demo_listener : V3Listener * v3_config NullCache :=
  match new_listener demo_lctx demo_irl demo_config3 with
  | Ok x => x
  | Raise _ => (mkV3Listener [] PNone [] EmptyString None false [] [], demo_config3)
  end.
Definition demo_fc : pyval := default PNone (head (vl_filter_chains demo_listener.1)).
Definition demo_vh : dict pyval := match fc_vhosts demo_fc with PDict d :: _ => d | _ => [] end.
Definition demo_ds : list pyval := match dget "routes" demo_vh with Some (PList l) => l | _ => [] end.
Definition demo_redirect : dict pyval := match demo_ds with [_; PDict d] => d | _ => [] end.
Definition plain_rq : request := mkRequest "/a/b" [(":authority", "www.example.com"); ("x-forwarded-proto", "http")] [].

Lemma demo_listener_new : new_listener demo_lctx demo_irl demo_config3 = Ok (demo_listener.1, demo_listener.2).
Proof. vm_compute. reflexivity. Qed.

Lemma demo_variants : variants_current demo_lctx demo_config3 (cf_variants demo_config3).
Proof. constructor; [|constructor]. eexists. split; [reflexivity|]. intros key v H. discriminate H. Qed.

Lemma demo_routes_wf : Forall route_wf (vs_objs (cf_v3 demo_config3)).
Proof.
  constructor; [|constructor]. split; [apply (bool_decide_unpack _); vm_compute; done|].
  eexists _, demo_hs. split; [vm_compute; reflexivity|]. left. reflexivity.
Qed.

Lemma demo_fc_in : demo_fc ∈ vl_filter_chains demo_listener.1.
Proof. vm_compute. left. Qed.
Lemma demo_vh_in : PDict demo_vh ∈ fc_vhosts demo_fc.
Proof. vm_compute. left. Qed.


Lemma cleartext_not_routed_witness :
  acme_route demo_redirect
  ∨ dget "route" demo_redirect = None ∧ dget "redirect" demo_redirect = Some (PDict [("https_redirect", PBool true)]).
Proof.
  apply (cleartext_not_routed no_regex plain_rq demo_lctx demo_irl demo_config3 demo_listener.1 demo_listener.2 (PStr "XFP")
    "www.example.com" demo_fc demo_vh demo_ds demo_redirect demo_variants demo_routes_wf eq_refl eq_refl).
  - intros n h [Hn _]. cbn in Hn. case_bool; [|done]. injection Hn as <-. eexists. split; [reflexivity|]. by left.
  - exact demo_listener_new.
  - exact demo_fc_in.
  - exact demo_vh_in.
  - split; vm_compute; reflexivity.
  - vm_compute. right. left.
  - vm_compute. discriminate.
  - vm_compute. reflexivity.
Defined.



Definition demo_chain : V3Chain := default (mkChain None [] [] []) (dget "tls-www.example.com" (vl_chains demo_listener.1)).

Lemma listener_chains_wf_witness : chain_wf demo_lctx (cf_hosts demo_config3) "tls-www.example.com" demo_chain.
Proof.
  apply (listener_chains_wf demo_lctx demo_irl demo_config3 demo_listener.1 demo_listener.2 "tls-www.example.com" demo_chain
    demo_variants); [by eexists|exact demo_listener_new|vm_compute; reflexivity].
Defined.

(** ** The split of TCP traffic

    The weight of a Mapping after normalization is cumulative, which suits the
    draws of routes.  The clusters of a TCP group are given these weights as
    they are, but Envoy adds up the weights of clusters: of two Mappings, one
    with a weight of 10, that one gets 10 of 110 connections, not 10 of 100. *)
Lemma tcp_weights_cumulative :
  normalize_weights_in_mappings [um "a"; wm "b" 10]
    = Ok (inl [set_weight 10 (wm "b" 10); set_weight 100 (um "a")])
  ∧ map_res (weighted_cluster (mkConfig3 (mkV3 (mkIRState
        [demo_mo (set_weight 10 (wm "b" 10)) 0; demo_mo (set_weight 100 (um "a")) 1] [] [demo_cl "c0"; demo_cl "c1"]
        [] [] NullCache_init [] []) [] [] []) [] [] [] : v3_config NullCache)) [0; 1]
    = Ok [PDict [("name", PStr "c0"); ("weight", PInt 10)]; PDict [("name", PStr "c1"); ("weight", PInt 100)]].
Proof. vm_compute. done. Qed.

(** Of two Hosts with one hostname on a listener, the later silently takes the
    place of the earlier, in the order in which the IR has them. *)
Lemma same_hostname_replaces :
  let other := mkHost (dset "name" (PStr "h2") (ho_self demo_vhost_host)) (Some 0) in
  let cf := mkConfig3 (cf_v3 demo_config3) (cf_variants demo_config3) [("h", demo_vhost_host); ("h2", other)]
              (cf_listeners demo_config3) in
  ∃ l cf', new_listener demo_lctx demo_irl cf = Ok (l, cf')
    ∧ ((λ kc : string * V3Chain, dvalues (ch_hosts kc.2)) <$> vl_chains l) = [[CHost "h2"]; [CHost "h2"]]
    ∧ vs_errors (cf_v3 cf') = [].
Proof. eexists _, _. split; [vm_compute; reflexivity|]. split; vm_compute; reflexivity. Qed.
