(* ===== verification/ReconfigStats.v ===== *)
(** * Reconfiguration statistics ([reconfig_stats.py])

    The counters that decide when incremental reconfigurations are checked
    against a complete one, and when timers are logged.  Times are integers in
    some unit; [now] is what [time.perf_counter()] returns in the call. *)

From S2P Require Import Prelude PyStr PyVal.

Record ReconfigStats : Type := mkStats {
  max_incr_between_checks : Z;
  max_time_between_checks : Z;
  max_config_between_timers : Z;
  max_time_between_timers : Z;
  reconfigures : list (string * Z);
  counts : dict Z;
  last_complete : option Z;
  last_check : option Z;
  last_timer_log : option Z;
  incrementals_outstanding : Z;
  configs_outstanding : Z;
  checks : Z;
  errors : Z
}.

(** [__init__] *)
Definition ReconfigStats_init (mi mt mc mtt : Z) : ReconfigStats :=
  mkStats mi mt mc mtt [] [("incremental", 0%Z); ("complete", 0%Z)] None None None 0 0 0 0.

(** [bool(t)] of an optional time: zero is false. *)
Definition time_bool (t : option Z) : bool :=
  match t with Some z => negb (bool_decide (z = 0)%Z) | None => false end.

(** [when or time.perf_counter()] *)
Definition at_time (when : option Z) (now : Z) : Z :=
  match when with Some w => if bool_decide (w = 0)%Z then now else w | None => now end.

(** The bookkeeping of one counted reconfiguration. *)
Definition record_reconfigure (what : string) (when : Z) (s : ReconfigStats) : list (string * Z) :=
  let l := reconfigures s ++ [(what, when)] in
  if bool_decide (10 < length l) then drop 1 l else l.

(** [mark] *)
Definition mark (what : string) (when : option Z) (now : Z) (s : ReconfigStats) : res ReconfigStats :=
  let t := at_time when now in
  let what := if bool_decide (what = "incremental") && negb (time_bool (last_complete s)) then "complete" else what in
  let configs := (configs_outstanding s + 1)%Z in
  if bool_decide (what = "complete") then
    n ← res_of_option (KeyError what) (dget what (counts s));
    Ok (mkStats (max_incr_between_checks s) (max_time_between_checks s) (max_config_between_timers s)
          (max_time_between_timers s) (record_reconfigure what t s) (dset what (n + 1)%Z (counts s)) (Some t) (Some t)
          (last_timer_log s) 0 configs (checks s) (errors s))
  else if bool_decide (what = "incremental") then
    n ← res_of_option (KeyError what) (dget what (counts s));
    Ok (mkStats (max_incr_between_checks s) (max_time_between_checks s) (max_config_between_timers s)
          (max_time_between_timers s) (record_reconfigure what t s) (dset what (n + 1)%Z (counts s)) (last_complete s)
          (last_check s) (last_timer_log s) (incrementals_outstanding s + 1) configs (checks s) (errors s))
  else if bool_decide (what = "diag") then
    Ok (mkStats (max_incr_between_checks s) (max_time_between_checks s) (max_config_between_timers s)
          (max_time_between_timers s) (reconfigures s) (counts s) (last_complete s)
          (last_check s) (last_timer_log s) (incrementals_outstanding s) configs (checks s) (errors s))
  else Raise (RuntimeError ("ReconfigStats: unknown reconfigure type " +:+ what)).

(** [needs_check] *)
Definition needs_check (when : option Z) (now : Z) (s : ReconfigStats) : res bool :=
  match last (reconfigures s) with
  | None => Ok false
  | Some (what, _) =>
      if bool_decide (what = "complete") then Ok false
      else if bool_decide (incrementals_outstanding s = 0)%Z then Ok false
      else if bool_decide (max_incr_between_checks s ≤ incrementals_outstanding s)%Z then Ok true
      else
        c ← res_of_option (AssertionError EmptyString) (last_check s);
        Ok (bool_decide (max_time_between_checks s < at_time when now - c)%Z)
  end.

(** [needs_timers] *)
Definition needs_timers (when : option Z) (now : Z) (s : ReconfigStats) : res bool :=
  match reconfigures s with
  | [] => Ok false
  | _ =>
      if bool_decide (configs_outstanding s = 0)%Z then Ok false
      else if bool_decide (max_config_between_timers s ≤ configs_outstanding s)%Z then Ok true
      else
        c ← res_of_option (AssertionError EmptyString) (last_complete s);
        let baseline := if time_bool (last_timer_log s) then default 0%Z (last_timer_log s) else c in
        Ok (bool_decide (max_time_between_timers s < at_time when now - baseline)%Z)
  end.

(** [mark_checked] *)
Definition mark_checked (result : bool) (when : option Z) (now : Z) (s : ReconfigStats) : ReconfigStats :=
  mkStats (max_incr_between_checks s) (max_time_between_checks s) (max_config_between_timers s)
    (max_time_between_timers s) (reconfigures s) (counts s) (last_complete s) (Some (at_time when now))
    (last_timer_log s) 0 (configs_outstanding s) (checks s + 1)
    (if result then errors s else errors s + 1)%Z.

(** [mark_timers_logged] *)
Definition mark_timers_logged (when : option Z) (now : Z) (s : ReconfigStats) : ReconfigStats :=
  mkStats (max_incr_between_checks s) (max_time_between_checks s) (max_config_between_timers s)
    (max_time_between_timers s) (reconfigures s) (counts s) (last_complete s) (last_check s)
    (Some (at_time when now)) (incrementals_outstanding s) 0 (checks s) (errors s).

(** ** Histories *)

(** The calls that change the state. *)
Inductive event : Type :=
  | Mark (what : string) (when : option Z) (now : Z)
  | Checked (result : bool) (when : option Z) (now : Z)
  | TimersLogged (when : option Z) (now : Z).

Definition step_event (s : ReconfigStats) (e : event) : res ReconfigStats :=
  match e with
  | Mark what when now => mark what when now s
  | Checked r when now => Ok (mark_checked r when now s)
  | TimersLogged when now => Ok (mark_timers_logged when now s)
  end.

Fixpoint run_events (s : ReconfigStats) (es : list event) : res ReconfigStats :=
  match es with [] => Ok s | e :: es => s ← step_event s e; run_events s es end.

(** ** The abstract specification

    What happened, as the documentation describes it: the history of
    configurations, checks and timer logs, newest first, where an incremental
    reconfiguration with no complete one before it counts as complete. *)

Inductive happening : Type :=
  | Complete (t : Z)
  | Incremental (t : Z)
  | Diag
  | CheckDone (ok : bool) (t : Z)
  | Timers (t : Z).

Definition is_complete (h : happening) : bool := match h with Complete _ => true | _ => false end.
Definition is_incremental (h : happening) : bool := match h with Incremental _ => true | _ => false end.
Definition is_reconfigure (h : happening) : bool := is_complete h || is_incremental h.
Definition is_config (h : happening) : bool :=
  match h with Complete _ | Incremental _ | Diag => true | _ => false end.
Definition is_timers (h : happening) : bool := match h with Timers _ => true | _ => false end.
Definition is_check (h : happening) : bool := match h with CheckDone _ _ => true | _ => false end.
(** A complete reconfiguration counts as a check. *)
Definition resets (h : happening) : bool := is_complete h || is_check h.

Definition happen (hist : list happening) (e : event) : option happening :=
  match e with
  | Mark what when now =>
      let t := at_time when now in
      if bool_decide (what = "complete") then Some (Complete t)
      else if bool_decide (what = "incremental") then
        Some (if existsb is_complete hist then Incremental t else Complete t)
      else if bool_decide (what = "diag") then Some Diag else None
  | Checked r when now => Some (CheckDone r (at_time when now))
  | TimersLogged when now => Some (Timers (at_time when now))
  end.

(** The happenings before the first one that satisfies [stop]. *)
Fixpoint since (stop : happening → bool) (hist : list happening) : list happening :=
  match hist with [] => [] | h :: hist => if stop h then [] else h :: since stop hist end.

Definition count (p : happening → bool) (hist : list happening) : Z := Z.of_nat (length (List.filter p hist)).

Definition time_of (h : happening) : option Z :=
  match h with Complete t | Incremental t | CheckDone _ t | Timers t => Some t | Diag => None end.
Definition latest (p : happening → bool) (hist : list happening) : option Z :=
  head (List.filter p hist) ≫= time_of.

(** A reconfiguration as [reconfigures] records it. *)
Definition entry (h : happening) : option (string * Z) :=
  match h with Complete t => Some ("complete", t) | Incremental t => Some ("incremental", t) | _ => None end.

(** The state a history stands for. *)
Record abstracts (hist : list happening) (s : ReconfigStats) : Prop := mkAbs {
  abs_reconfigures : reconfigures s = reverse (take 10 (omap entry hist));
  abs_counts : counts s = [("incremental", count is_incremental hist); ("complete", count is_complete hist)];
  abs_last_complete : last_complete s = latest is_complete hist;
  abs_last_check : last_check s = latest resets hist;
  abs_last_timers : last_timer_log s = latest is_timers hist;
  abs_incrementals : incrementals_outstanding s = count is_incremental (since resets hist);
  abs_configs : configs_outstanding s = count is_config (since is_timers hist);
  abs_checks : checks s = count is_check hist;
  abs_errors : errors s = count (λ h, match h with CheckDone false _ => true | _ => false end) hist
}.

(** The history a sequence of calls makes, newest first; an unknown kind of
    reconfiguration makes none. *)
Fixpoint history (hist : list happening) (es : list event) : option (list happening) :=
  match es with
  | [] => Some hist
  | e :: es => h ← happen hist e; history (h :: hist) es
  end%stdpp.

(** The clock never reads zero, which the code takes for an absent time. *)
Definition event_now (e : event) : Z :=
  match e with Mark _ _ now | Checked _ _ now | TimersLogged _ now => now end.
Definition clocked (es : list event) : Prop := Forall (λ e, event_now e ≠ 0%Z) es.

Definition nonzero (h : happening) : Prop := time_of h ≠ Some 0%Z.

(** When a check is due, of a history. *)
Definition check_due (mi mt t : Z) (hist : list happening) : bool :=
  let n := count is_incremental (since resets hist) in
  bool_decide (0 < n)%Z &&
  (bool_decide (mi ≤ n)%Z ||
   match latest resets hist with Some c => bool_decide (mt < t - c)%Z | None => false end).

(** When timers are to be logged, of a history. *)
Definition timers_due (mc mtt t : Z) (hist : list happening) : bool :=
  let n := count is_config (since is_timers hist) in
  existsb is_reconfigure hist && bool_decide (0 < n)%Z &&
  (bool_decide (mc ≤ n)%Z ||
   match latest is_timers hist, latest is_complete hist with
   | Some l, _ | None, Some l => bool_decide (mtt < t - l)%Z
   | None, None => false
   end).

(** ** Lemmas *)

Lemma at_time_nonzero when now : now ≠ 0%Z → at_time when now ≠ 0%Z.
Proof. intros ?. unfold at_time. destruct when; [case_bool_decide|]; done. Qed.

Lemma latest_none_iff hist :
  time_bool (latest is_complete hist) = existsb is_complete hist ∨ ¬ Forall nonzero hist.
Proof.
  unfold latest. induction hist as [|h hist IH]; [by left|]; simpl.
  destruct IH as [IH|IH]; [|right; rewrite Forall_cons; tauto].
  destruct h; simpl; auto.
  destruct (decide (t = 0%Z)) as [->|]; [right; intros [Hn _]%Forall_cons; by apply Hn|].
  left. by rewrite bool_decide_false.
Qed.

Lemma count_cons p h hist : count p (h :: hist) = ((if p h then 1 else 0) + count p hist)%Z.
Proof. unfold count. simpl. destruct (p h); simpl; lia. Qed.

Lemma count_nonneg p hist : (0 ≤ count p hist)%Z.
Proof. unfold count. lia. Qed.

Lemma push_window (l : list (string * Z)) x :
  (let l' := reverse (take 10 l) ++ [x] in if bool_decide (10 < length l') then drop 1 l' else l')
  = reverse (take 10 (x :: l)).
Proof.
  cbv zeta. change (take 10 (x :: l)) with (x :: take 9 l). rewrite reverse_cons, length_app, length_reverse, length_take. cbn [length].
  case_bool_decide as Hl.
  - assert (Hn : length (take 10 l) = 10) by (rewrite length_take; lia).
    assert (Hs : take 10 l = take 9 l ++ drop 9 (take 10 l)).
    { rewrite <- (take_drop 9 (take 10 l)) at 1. by rewrite take_take. }
    destruct (drop 9 (take 10 l)) as [|y [|? ?]] eqn:Hd;
      pose proof (f_equal length Hd) as Hd'; rewrite length_drop, Hn in Hd'; simpl in Hd'; try lia.
    by rewrite Hs, reverse_app.
  - by rewrite (take_ge l 10), (take_ge l 9) by lia.
Qed.

Definition with_limits (s0 s : ReconfigStats) : Prop :=
  max_incr_between_checks s = max_incr_between_checks s0 ∧
  max_time_between_checks s = max_time_between_checks s0 ∧
  max_config_between_timers s = max_config_between_timers s0 ∧
  max_time_between_timers s = max_time_between_timers s0.

(** What [mark] does of each kind, on the state of a history. *)
Lemma mark_what_complete what when now s :
  what = "complete" ∨ (what = "incremental" ∧ time_bool (last_complete s) = false) →
  mark what when now s = mark "complete" when now s.
Proof. intros [-> | [-> H]]; [done|]. unfold mark. by rewrite H. Qed.

Lemma mark_unknown what when now s :
  what ≠ "complete" → what ≠ "incremental" → what ≠ "diag" →
  mark what when now s = Raise (RuntimeError ("ReconfigStats: unknown reconfigure type " +:+ what)).
Proof. 
  intros Hc Hi Hd. unfold mark. rewrite (bool_decide_eq_false_2 _ Hi). cbn [andb].
  by rewrite (bool_decide_eq_false_2 _ Hc), (bool_decide_eq_false_2 _ Hi), (bool_decide_eq_false_2 _ Hd).
 Qed.

(** One more happening, field by field. *)
Ltac abs_step :=
  constructor; simpl; unfold record_reconfigure;
  repeat match goal with H : ?f _ = _ |- context [?f _] => rewrite H end;
  rewrite ?push_window, ?count_cons; simpl; auto;
  try first [lia | by rewrite ?Z.add_0_l, ?(Z.add_comm 1)].

Lemma mark_complete_abs hist s when now :
  abstracts hist s →
  ∃ s', mark "complete" when now s = Ok s' ∧ abstracts (Complete (at_time when now) :: hist) s' ∧ with_limits s s'.
Proof.
  intros []. unfold mark. simpl. rewrite abs_counts0. simpl.
  eexists; split; [done|]. split; [abs_step | done].
Qed.

Lemma mark_incremental_abs hist s when now :
  abstracts hist s → time_bool (last_complete s) = true →
  ∃ s', mark "incremental" when now s = Ok s' ∧ abstracts (Incremental (at_time when now) :: hist) s' ∧ with_limits s s'.
Proof.
  intros [] Ht. unfold mark. rewrite Ht. simpl. rewrite abs_counts0. simpl.
  eexists; split; [done|]. split; [abs_step | done].
Qed.

Lemma mark_diag_abs hist s when now :
  abstracts hist s →
  ∃ s', mark "diag" when now s = Ok s' ∧ abstracts (Diag :: hist) s' ∧ with_limits s s'.
Proof. intros []. eexists; split; [done|]. split; [abs_step | done]. Qed.

Lemma happen_nonzero hist e h : event_now e ≠ 0%Z → happen hist e = Some h → nonzero h.
Proof.
  intros Hn. assert (Hz : ∀ w, Some (at_time w (event_now e)) ≠ Some 0%Z).
  { intros w [= H]. by apply (at_time_nonzero w) in Hn. }
  unfold nonzero. destruct e; simpl in *; intros; repeat case_match; simplify_eq; simpl; auto.
Qed.

(** The simulation: one call. *)
Lemma step_simulates hist s e :
  abstracts hist s → Forall nonzero hist →
  match happen hist e with
  | Some h => ∃ s', step_event s e = Ok s' ∧ abstracts (h :: hist) s' ∧ with_limits s s'
  | None => ∃ m, step_event s e = Raise (RuntimeError m)
  end.
Proof.
  intros Ha Hnz. destruct (latest_none_iff hist) as [Hl|]; [|done].
  rewrite <- (abs_last_complete _ _ Ha) in Hl.
  destruct e as [what when now|r when now|when now]; simpl.
  - case_bool_decide as Hc; [by subst; apply mark_complete_abs|].
    case_bool_decide as Hi; [subst|case_bool_decide as Hd; [by subst; apply mark_diag_abs|]].
    + destruct (existsb is_complete hist); [by apply mark_incremental_abs|].
      rewrite mark_what_complete by auto. by apply mark_complete_abs.
    + eexists. by apply mark_unknown.
  - eexists; split; [done|]. split; [destruct Ha; destruct r; abs_step | done].
  - eexists; split; [done|]. split; [destruct Ha; abs_step | done].
Qed.

Lemma init_abs mi mt mc mtt : abstracts [] (ReconfigStats_init mi mt mc mtt).
Proof. by constructor. Qed.

(** The simulation: a sequence of calls. *)
Lemma run_simulates es : ∀ hist s,
  abstracts hist s → Forall nonzero hist → clocked es →
  match history hist es with
  | Some hist' => ∃ s', run_events s es = Ok s' ∧ abstracts hist' s' ∧ Forall nonzero hist' ∧ with_limits s s'
  | None => ∃ m, run_events s es = Raise (RuntimeError m)
  end.
Proof.
  induction es as [|e es IH]; intros hist s Ha Hnz Hc; simpl; [by exists s|].
  apply Forall_cons in Hc as [He Hc].
  pose proof (step_simulates hist s e Ha Hnz) as Hs.
  pose proof (happen_nonzero hist e) as Hh.
  destruct (happen hist e) as [h|]; simpl.
  - destruct Hs as (s1 & -> & Ha1 & Hl1). simpl.
    specialize (IH (h :: hist) s1 Ha1 (Forall_cons_2 _ _ _ (Hh h He eq_refl) Hnz) Hc).
    destruct (history (h :: hist) es); [|done].
    destruct IH as (s2 & ? & ? & ? & Hl2). exists s2. unfold with_limits in *. intuition congruence.
  - destruct Hs as (m & ->). by exists m.
Qed.

Lemma last_window (l : list (string * Z)) : last (reverse (take 10 l)) = head l.
Proof. destruct l; [done|]. simpl. by rewrite reverse_cons, last_snoc. Qed.

(** Where the last reconfiguration is complete, or there is none, no
    incremental is outstanding. *)
Lemma last_not_incremental hist :
  head (omap entry hist) = None ∨ (∃ t, head (omap entry hist) = Some ("complete", t)) →
  count is_incremental (since resets hist) = 0%Z.
Proof.
  induction hist as [|h hist IH]; [done|]; simpl.
  destruct h; simpl; intros Hh; try done; rewrite ?count_cons; simpl; auto.
  destruct Hh as [?|[??]]; done.
Qed.

Lemma entry_shape hist what t : head (omap entry hist) = Some (what, t) → what = "complete" ∨ what = "incremental".
Proof. induction hist as [|[] hist IH]; simpl; intros; simplify_eq; auto. Qed.

Lemma since_count_le p stop hist : (count p (since stop hist) ≤ count p hist)%Z.
Proof.
  induction hist as [|h hist IH]; simpl; [done|].
  rewrite (count_cons p h hist). pose proof (count_nonneg p hist).
  destruct (stop h); [change (count p []) with 0%Z|rewrite count_cons]; destruct (p h); lia.
Qed.

(** Only a complete reconfiguration makes room for incremental ones. *)
Definition opened (hist : list happening) : Prop :=
  is_Some (latest resets hist) ∨ (existsb is_complete hist = false ∧ count is_incremental hist = 0%Z).

Lemma happen_opened hist e h : happen hist e = Some h → opened hist → opened (h :: hist).
Proof.
  intros Hh [[c Hc]|[Hn H0]].
  - left. unfold latest in *. destruct h; simpl; eauto.
  - destruct e; simpl in Hh; repeat case_match; simplify_eq; unfold opened, latest; simpl; eauto.
    all: right; rewrite ?count_cons; auto.
Qed.

Lemma history_opened es : ∀ hist hist', history hist es = Some hist' → opened hist → opened hist'.
Proof.
  induction es as [|e es IH]; simpl; intros hist hist'; [by intros [= <-]|].
  destruct (happen hist e) as [h|] eqn:Hh; [simpl|done]. eauto using happen_opened.
Qed.

Lemma outstanding_checked hist es :
  history [] es = Some hist → (0 < count is_incremental (since resets hist))%Z → is_Some (latest resets hist).
Proof.
  intros Hes Hpos. destruct (history_opened _ _ _ Hes) as [|[_ H0]]; [by right|done|].
  pose proof (since_count_le is_incremental resets hist). lia.
Qed.

Lemma needs_check_abs hist s es when now :
  abstracts hist s → history [] es = Some hist →
  needs_check when now s =
    Ok (check_due (max_incr_between_checks s) (max_time_between_checks s) (at_time when now) hist).
Proof.
  intros Ha Hes. pose proof (outstanding_checked hist es Hes) as Hc.
  unfold needs_check, check_due. rewrite (abs_reconfigures _ _ Ha), last_window.
  rewrite (abs_incrementals _ _ Ha), (abs_last_check _ _ Ha).
  pose proof (last_not_incremental hist) as Hl.
  pose proof (count_nonneg is_incremental (since resets hist)).
  destruct (head (omap entry hist)) as [[what t]|] eqn:Hh.
  2: { rewrite Hl by auto. done. }
  destruct (entry_shape _ _ _ Hh) as [-> | ->]; simpl; [rewrite Hl by eauto; done|].
  destruct (decide (count is_incremental (since resets hist) = 0%Z)) as [->|Hne]; [done|].
  rewrite (bool_decide_eq_false_2 _ Hne), (bool_decide_eq_true_2 (0 < _)%Z) by lia. simpl.
  destruct Hc as [c ->]; [lia|]. by case_bool_decide.
Qed.

(** A reconfiguration in the history means a complete one in it. *)
Definition founded (hist : list happening) : Prop :=
  existsb is_reconfigure hist = existsb is_complete hist.

Lemma history_founded es : ∀ hist hist', history hist es = Some hist' → founded hist → founded hist'.
Proof.
  induction es as [|e es IH]; simpl; intros hist hist'; [by intros [= <-]|].
  destruct (happen hist e) as [h|] eqn:Hh; [simpl|done]. intros Hes Hf. apply (IH _ _ Hes). clear IH Hes.
  unfold founded in *. destruct e; simpl in Hh; repeat case_match; simplify_eq; simpl; try done; congruence.
Qed.

Lemma window_nil hist : existsb is_reconfigure hist = false ↔ omap entry hist = [].
Proof. induction hist as [|[] hist IH]; simpl; done. Qed.

Lemma latest_complete_some hist : existsb is_complete hist = true → is_Some (latest is_complete hist).
Proof. unfold latest. induction hist as [|[] hist IH]; simpl; eauto; done. Qed.

Lemma latest_complete_exists hist : is_Some (latest is_complete hist) → existsb is_complete hist = true.
Proof. unfold latest. induction hist as [|[] hist IH]; simpl; auto. by intros []. Qed.

Lemma timers_bool hist : Forall nonzero hist → time_bool (latest is_timers hist) = bool_decide (is_Some (latest is_timers hist)).
Proof.
  unfold latest. induction 1 as [|h hist Hh _ IH]; [done|]. destruct h; simpl; auto.
  rewrite bool_decide_eq_false_2 by (intros ->; by apply Hh). done.
Qed.

Lemma needs_timers_abs hist s es when now :
  abstracts hist s → Forall nonzero hist → history [] es = Some hist →
  needs_timers when now s =
    Ok (timers_due (max_config_between_timers s) (max_time_between_timers s) (at_time when now) hist).
Proof.
  intros Ha Hnz Hes. pose proof (history_founded _ _ _ Hes eq_refl) as Hf. unfold founded in Hf.
  pose proof (count_nonneg is_config (since is_timers hist)).
  unfold needs_timers, timers_due. rewrite (abs_reconfigures _ _ Ha), (abs_configs _ _ Ha).
  rewrite (abs_last_complete _ _ Ha), (abs_last_timers _ _ Ha), (timers_bool _ Hnz).
  destruct (existsb is_reconfigure hist) eqn:He.
  2: { apply window_nil in He as ->. done. }
  destruct (latest_complete_some hist) as [c ->]; [congruence|].
  destruct (omap entry hist) as [|x l] eqn:Ho; [by apply window_nil in Ho; congruence|].
  destruct (reverse (take 10 (x :: l))) as [|y r] eqn:Hr.
  { by apply (f_equal reverse) in Hr; rewrite reverse_involutive in Hr. }
  simpl. destruct (decide (count is_config (since is_timers hist) = 0%Z)) as [->|Hne]; [done|].
  rewrite (bool_decide_eq_false_2 _ Hne), (bool_decide_eq_true_2 (0 < _)%Z) by lia. simpl.
  case_bool_decide; [done|]. by destruct (latest is_timers hist).
Qed.

(** What a run that returns leaves. *)
Lemma run_inv mi mt mc mtt es s :
  clocked es → run_events (ReconfigStats_init mi mt mc mtt) es = Ok s →
  ∃ hist, history [] es = Some hist ∧ abstracts hist s ∧ Forall nonzero hist ∧
    with_limits (ReconfigStats_init mi mt mc mtt) s.
Proof.
  intros Hc Hr. pose proof (run_simulates es [] _ (init_abs mi mt mc mtt) (Forall_nil_2 _) Hc) as H.
  destruct (history [] es) as [hist|]; [|destruct H; congruence].
  destruct H as (s' & Hs' & ? & ? & ?). exists hist. assert (s' = s) as -> by congruence. auto.
Qed.

Lemma run_app es1 es2 s : run_events s (es1 ++ es2) = (s1 ← run_events s es1; run_events s1 es2).
Proof. revert s. induction es1 as [|e es1 IH]; intros s; [done|]. simpl. destruct (step_event s e); [apply IH|done]. Qed.

(** A burst of incrementals after a complete reconfiguration adds each to
    those outstanding. *)
Lemma history_burst ts : ∀ hist hist',
  existsb is_complete hist = true →
  history hist ((λ '(w, now), Mark "incremental" w now) <$> ts) = Some hist' →
  count is_incremental (since resets hist') = (Z.of_nat (length ts) + count is_incremental (since resets hist))%Z.
Proof.
  induction ts as [|[w now] ts IH]; simpl; intros hist hist' Hc; [by intros [= <-]|].
  rewrite Hc. simpl. intros Hh. rewrite (IH (Incremental (at_time w now) :: hist) hist' Hc Hh). simpl. rewrite count_cons. simpl. lia.
Qed.

Lemma history_app es1 : ∀ es2 hist,
  history hist (es1 ++ es2) = (h ← history hist es1; history h es2)%stdpp.
Proof. induction es1 as [|e es1 IH]; intros es2 hist; [done|]. simpl. destruct (happen hist e); [apply IH|done]. Qed.

Lemma history_known_burst ts : ∀ hist, is_Some (history hist ((λ '(w, now), Mark "incremental" w now) <$> ts)).
Proof. induction ts as [|[w now] ts IH]; intros hist; simpl; [by eexists|]. apply IH. Qed.

Lemma history_length es : ∀ hist hist', history hist es = Some hist' → length hist' = length es + length hist.
Proof.
  induction es as [|e es IH]; simpl; intros hist hist'; [by intros [= <-]|].
  destruct (happen hist e); [|done]. intros ->%IH. simpl. lia.
Qed.

Lemma count_length p hist : (count p hist ≤ Z.of_nat (length hist))%Z.
Proof. unfold count. pose proof (List.filter_length_le p hist). lia. Qed.

Lemma count_le p q hist : (∀ h, p h = true → q h = true) → (count p hist ≤ count q hist)%Z.
Proof.
  intros Hpq. induction hist as [|h hist IH]; [done|]. rewrite !count_cons.
  specialize (Hpq h). destruct (p h); [rewrite Hpq by done; lia|]. destruct (q h); lia.
Qed.

(** ** Properties *)

(** C24. [ReconfigStats] implements the history of what happened: after any
    sequence of calls each field is the documented function of that history -
    the last ten reconfigurations, the counts, the times of the last complete
    reconfiguration, check and timer log, the incrementals since the last
    complete one or check, the configurations since the last timer log, the
    checks and the failed ones - where an incremental reconfiguration with no
    complete one before it is a complete one; an unknown kind raises. *)
Theorem stats_refine_history mi mt mc mtt es :
  clocked es →
  match history [] es with
  | Some hist => ∃ s, run_events (ReconfigStats_init mi mt mc mtt) es = Ok s ∧ abstracts hist s
  | None => ∃ m, run_events (ReconfigStats_init mi mt mc mtt) es = Raise (RuntimeError m)
  end.
Proof.
  intros Hc. pose proof (run_simulates es [] _ (init_abs mi mt mc mtt) (Forall_nil_2 _) Hc) as H.
  destruct (history [] es); [|done]. destruct H as (s & ? & ? & _). by exists s.
Qed.


Lemma stats_refine_history_witness :
  let es := [Mark "diag" None 3; Mark "incremental" None 5; Mark "incremental" (Some 9%Z) 1; Checked false None 11] in
  ∃ s, run_events (ReconfigStats_init 100 600 10 120) es = Ok s ∧
    abstracts [CheckDone false 11; Incremental 9; Complete 5; Diag] s.
Proof.
  apply (stats_refine_history 100 600 10 120
    [Mark "diag" None 3; Mark "incremental" None 5; Mark "incremental" (Some 9%Z) 1; Checked false None 11]).
  unfold clocked. repeat constructor; discriminate.
Defined.

(** Checks and timer logs are due exactly when the history says, and the
    assertions in [needs_check] and [needs_timers] never fail: after any calls,
    a check is due when incrementals are outstanding since the last complete
    reconfiguration or check and either there are [max_incr_between_checks] of
    them or that was longer ago than [max_time_between_checks]; timers are due
    likewise, counted from the last timer log, once anything was reconfigured. *)
Theorem due_from_history mi mt mc mtt es s when now :
  clocked es → run_events (ReconfigStats_init mi mt mc mtt) es = Ok s →
  ∃ hist, history [] es = Some hist ∧
    needs_check when now s = Ok (check_due mi mt (at_time when now) hist) ∧
    needs_timers when now s = Ok (timers_due mc mtt (at_time when now) hist).
Proof.
  intros Hc Hr. destruct (run_inv _ _ _ _ _ _ Hc Hr) as (hist & Hh & Ha & Hnz & H1 & H2 & H3 & H4).
  simpl in *. exists hist. split; [done|]. rewrite <- H1, <- H2, <- H3, <- H4.
  eauto using needs_check_abs, needs_timers_abs.
Qed.

Lemma due_from_history_witness :
  let es := [Mark "complete" None 5; Mark "incremental" None 6] in
  ∃ s, run_events (ReconfigStats_init 100 600 10 120) es = Ok s ∧
    ∃ hist, history [] es = Some hist ∧
      needs_check (Some 700%Z) 1 s = Ok (check_due 100 600 700 hist) ∧
      needs_timers (Some 700%Z) 1 s = Ok (timers_due 10 120 700 hist) ∧ check_due 100 600 700 hist = true.
Proof.
  simpl. eexists. split; [reflexivity|].
  destruct (due_from_history 100 600 10 120 [Mark "complete" None 5; Mark "incremental" None 6] _ (Some 700%Z) 1
    ltac:(unfold clocked; repeat constructor; discriminate) eq_refl) as (hist & Hh & H1 & H2).
  exists hist. split; [exact Hh|]. split; [exact H1|]. split; [exact H2|].
  simpl in Hh. injection Hh as <-. reflexivity.
Defined.

(** C27. The counters stay in bounds: at most ten reconfigurations are
    remembered, what is outstanding is never negative nor more than was
    counted, and no more checks fail than were made. *)
Theorem stats_bounds mi mt mc mtt es s :
  clocked es → run_events (ReconfigStats_init mi mt mc mtt) es = Ok s →
  length (reconfigures s) ≤ 10 ∧
  (∃ n, dget "incremental" (counts s) = Some n ∧ 0 ≤ incrementals_outstanding s ≤ n)%Z ∧
  (0 ≤ configs_outstanding s ≤ Z.of_nat (length es))%Z ∧ (0 ≤ errors s ≤ checks s)%Z.
Proof.
  intros Hc Hr. destruct (run_inv _ _ _ _ _ _ Hc Hr) as (hist & Hh & Ha & _).
  apply history_length in Hh. simpl in Hh.
  pose proof (since_count_le is_config is_timers hist). pose proof (count_length is_config hist).
  split; [rewrite (abs_reconfigures _ _ Ha), length_reverse, length_take; lia|].
  split; [rewrite (abs_counts _ _ Ha), (abs_incrementals _ _ Ha); eexists; split;
    [reflexivity|split; [apply count_nonneg|apply since_count_le]]|].
  split; [rewrite (abs_configs _ _ Ha); split; [apply count_nonneg|lia]|].
  rewrite (abs_errors _ _ Ha), (abs_checks _ _ Ha). split; [apply count_nonneg|].
  apply count_le. by intros [| | | |].
Qed.

Lemma stats_bounds_witness :
  let es := replicate 12 (Mark "incremental" None 7) in
  ∃ s, run_events (ReconfigStats_init 100 600 10 120) es = Ok s ∧ length (reconfigures s) = 10 ∧
    (∃ n, dget "incremental" (counts s) = Some n ∧ 0 ≤ incrementals_outstanding s ≤ n)%Z.
Proof.
  eexists. split; [vm_compute; reflexivity|]. split; [reflexivity|].
  apply (stats_bounds 100 600 10 120 (replicate 12 (Mark "incremental" None 7))); [|vm_compute; reflexivity].
  unfold clocked. repeat constructor; discriminate.
Defined.

(** A burst forces a check: once a reconfiguration was complete, marking
    [max_incr_between_checks] or more incrementals in a row returns and leaves
    a state in which [needs_check] holds, whatever the time. *)
Theorem incrementals_force_check mi mt mc mtt es s ts when now :
  clocked es → run_events (ReconfigStats_init mi mt mc mtt) es = Ok s → last_complete s ≠ None →
  Forall (λ p, p.2 ≠ 0%Z) ts → (0 < mi ≤ Z.of_nat (length ts))%Z →
  ∃ s', run_events s ((λ '(w, n), Mark "incremental" w n) <$> ts) = Ok s' ∧ needs_check when now s' = Ok true.
Proof.
  intros Hc Hr Hl Hts Hn. destruct (run_inv _ _ _ _ _ _ Hc Hr) as (hist & Hh & Ha & Hnz & Hw).
  set (bs := (λ '(w, n), Mark "incremental" w n) <$> ts).
  assert (Hb : clocked bs).
  { apply Forall_fmap. eapply Forall_impl; [exact Hts|]. by intros []. }
  destruct (history_known_burst ts hist) as [hist' Hh'].
  pose proof (run_simulates bs hist s Ha Hnz Hb) as Hs. unfold bs in Hs. rewrite Hh' in Hs.
  destruct Hs as (s' & Hs' & Ha' & _ & Hw'). exists s'. split; [exact Hs'|].
  rewrite (needs_check_abs hist' s' (es ++ bs)); [|done|by rewrite history_app, Hh].
  rewrite (abs_last_complete _ _ Ha) in Hl.
  assert (Hco : existsb is_complete hist = true) by (apply latest_complete_exists; by destruct (latest _ hist)).
  apply history_burst in Hh'; [|done]. pose proof (count_nonneg is_incremental (since resets hist)).
  unfold check_due. destruct Hw as (Hw & _), Hw' as (Hw' & _). simpl in Hw. rewrite Hh', Hw', Hw.
  by rewrite !bool_decide_eq_true_2 by lia.
Qed.

Lemma incrementals_force_check_witness :
  ∃ s s', run_events (ReconfigStats_init 3 600 10 120) [Mark "complete" None 5] = Ok s ∧
    run_events s (replicate 3 (Mark "incremental" None 6)) = Ok s' ∧ needs_check None 7 s' = Ok true.
Proof.
  eexists. destruct (incrementals_force_check 3 600 10 120 [Mark "complete" None 5] _
    (replicate 3 (None, 6%Z)) None 7%Z ltac:(unfold clocked; repeat constructor; discriminate) eq_refl
    ltac:(discriminate) ltac:(repeat constructor; discriminate) ltac:(simpl; lia)) as (s' & H1 & H2).
  exists s'. split; [reflexivity|]. split; [exact H1|exact H2].
Defined.
